(* ===== verification/_CoqProject ===== *)
-Q . S2P
Prelude.v
Kernel.v
Types.v
Desc.v
Request.v
Transfer.v
Engine.v
EngineSpec.v
EngineQueue.v
EngineRegs.v
Submit.v
SubmitSpec.v
Served.v
Async.v
Aperture.v
Device.v
Irq.v
IrqSetup.v
Bars.v
EngineSetup.v
Threads.v
Frame.v
Probe.v
Open.v
OpenSpec.v
Close.v
Offline.v
Cdev.v
CdevSpec.v
Mod.v
ModSpec.v
Bytes.v
Ctrl.v
CtrlSpec.v
Sgdma.v
SgdmaSpec.v
Xvc.v
XvcSpec.v
DynClk.v
DynClkSpec.v
Daq.v
DaqSpec.v
Tools.v
ToolsSpec.v
Hdmi.v
HdmiSpec.v
Boards.v
