(* ===== verification/Prelude.v ===== *)
(** * A verification of the software of the [fpga-test] repository

    The repository holds FPGA designs and the software that drives them.  The
    development models all of the software that is written in C: the Linux driver of
    the XDMA PCI Express core, [src/vivado/auboard-pcie/linux-kernel/xdma/] (below just
    [xdma/]), with its command line tools, [linux-kernel/tools/]; the driver of the pixel
    clock generator of the HDMI design, [ddynclk.c], and the HDMI example,
    [src/vitis/zybo-hdmi-out/src/helloworld.c]; the server of the data acquisition board,
    [src/vitis/zedboard-cls-daq/src/echo.c] and [main.c]; and the small test programs
    of the boards.

    ** How the driver is put together

    A card has up to four engines per direction.  A caller's scatterlist is cut
    into descriptors ([Request]), laid out on the ring of an engine ([Transfer],
    [Desc]) and queued; the engine is started with the first descriptor of its
    queue, and served when it interrupts or is polled ([Engine]).  [Submit] and
    [Aperture] put this together into transfers that wait and ones that do not.
    Around it are the device: its interrupts ([Irq], [IrqSetup]), its BARs ([Bars]),
    the engines' memory ([EngineSetup]), the threads that poll ([Threads]), finding
    the engines ([Probe]), opening, closing and suspending ([Open]); and above it
    the character devices ([Cdev], [Ctrl], [Sgdma], [Xvc]) and the module ([Mod]).

    ** How the code is modelled

    A function that changes state is a state transformer ([M], below).  The state
    grows with the layers, and [zoom] runs a function of a lower layer in a higher
    one: [kstate] ([Kernel]) is the world outside, with the trace of what was done
    to it; [est] ([Types]) one engine with the transfers and scatterlists; [dst]
    ([Device]) a device; [wst] ([Threads]) with the threads and the list of devices;
    [pst] ([Cdev]) the module with a card's character devices; [ast] ([Sgdma]) with
    the asynchronous requests.  The programs that run elsewhere have states of their
    own: [daq], [tool], [hdmi], [bst].  Registers and kernel functions are not part of the
    repository: they are the class [Env], any function that gives a result and a
    new outside state, and theorems quantify over it ([Board], [Floats], [Posix],
    [Video] and [Bare] for the other programs and their libraries).  What a theorem needs of them
    is a named hypothesis.  Structures are records with the names of the C fields;
    pointers to list members are keys of a heap; integers are [Z] with each wrap
    around written out ([u32], [s32], ...); struct sizes, kernel macros and
    configuration are section variables.  A [NULL] pointer that the code follows
    sets [w_oops], and an access outside an array is [None].

    What sleeps (waiting for a transfer, for an event) is a parameter: any change
    of the state that the lower layers allow, so that the theorems hold for every
    interleaving with handlers.  Locks are not modelled: each operation runs
    between two such points.  Log messages are left out.

    Each file opens with the C file it models; the comment [@src] before a
    definition names the lines.  Files that end in [Spec], and [EngineQueue],
    [EngineRegs], [Served], [Async], [Frame], [Close], [Offline] hold the longer proofs.

    ** The files, and what their theorems show

    - [Prelude], [Kernel]: words, the state monad and its weakest preconditions,
      record updates, lists and bits; the outside world.
    - [Types], [Desc], [Request], [Transfer] ([libxdma.h], [libxdma.c]): a request's
      descriptors cover the scatterlist, in order and within the length limit; the
      descriptors of a transfer form a chain that ends in a stop; each transfer
      takes up where the last one ended.
    - [Engine], [EngineSpec], [EngineQueue], [EngineRegs]: the queue's invariant,
      preserved by every operation; servicing completes exactly the transfers the
      counter tells, first come first served, a refinement of an abstract queue;
      errors; what starting programs; the write back poll ends.
    - [Submit], [SubmitSpec], [Served], [Async]: a submission with a device that completes
      returns the length asked for ([SubmitSpec]); so does one whose engine is served by
      [engine_service] while the submitter sleeps, which leaves the engine idle
      ([Served]; both are instances of [Submits]); what happens on a timeout with a device
      that is gone; the bound that [xdma_xfer_submit_nowait] lacks; what an asynchronous
      request queues, and what its completion collects ([Async]).
    - [Aperture]: a round describes a prefix of the buffer folded into the window.
    - [Device], [Irq], [IrqSetup], [Bars]: the handler serves exactly the interrupts
      raised and enabled; which lines and BARs are acquired, and released on failure or
      not; the vector tables; the search for the config BAR.
    - [EngineSetup], [Threads], [Frame], [Probe]: memory of an engine is all or
      nothing; work lists and thread choice; the performance ring is a cycle; the
      interrupt masks name the engines found.
    - [Open], [OpenSpec], [Close], [Offline]: opening ends with a device or with
      nothing held, and closing releases what it held; the list of devices; an offline
      device refuses every transfer.
    - [Cdev], [CdevSpec]: the character devices created are distinct and are
      destroyed again; their nodes, as far as the driver notices.
    - [Mod], [ModSpec]: a probe that fails undoes itself, removing a card undoes a probe
      that succeeded.
    - [Bytes], [Ctrl], [CtrlSpec]: mapping a BAR stays inside it.
    - [Sgdma], [SgdmaSpec]: reading and writing through a DMA device, its asynchronous
      requests and ioctls; a transfer with a device that completes returns the whole
      count or an error; the table describes the user's buffer byte for byte; every
      page pinned is let go again, whatever fails (for buffers below 4 GiB).
    - [Xvc], [XvcSpec]: shifting JTAG vectors word by word equals one run over all
      the bits.
    - [DynClk], [DynClkSpec]: the frequency chosen is the best of the search, within the
      limits of the clock generator (except its phase detector's, above 900 MHz), and
      the registers encode it.
    - [Daq], [DaqSpec] ([echo.c], [main.c]): the commands the server executes depend on
      the bytes received only, not on how the network cut them into segments, as long
      as none is longer than the room in the buffer.
    - [Tools], [ToolsSpec] ([dma_utils.c], [dma_to_device.c], [dma_from_device.c],
      [performance.c], [reg_rw.c], [test_chrdev.c]): what a device gets from
      [dma_to_device], and when it gets nothing although the tool ends with 0; what
      [dma_from_device] leaves in its file.
    - [Hdmi], [HdmiSpec] ([helloworld.c], [font8x8_basic.h]): every pixel of the frame.
    - [Boards] ([auboard_dma_bram.c], [auboard_aurora_axi.c], [pulse_counter.h],
      [pulse_counter_selftest.c]): definitions and examples only.

    ** Fuel

    Loops over counts that a call knows recurse on that count.  [submit_loop] has a
    round for each descriptor of the request and one more, since every round takes
    at least one ([xfer_submit_total] shows that it ends).  [wb_loop] has the polls
    that fit before its time limit; [wb_monitor_terminates] shows that they are
    enough.  [aperture_loop] takes its fuel as an argument, since the code need not
    end.  [xvc_loop] has a round for each word; [xvc_shifts_all] shows it ends up
    to the length where the count wraps around.  [read_loop] and [write_loop] have the
    rounds of [RW_MAX_SIZE] bytes that fit, and one more ([rounds_enough]).  [wait_idle]
    has the 10000000 turns the program allows.

    ** Not modelled

    The hardware descriptions (HDL, block designs, constraints) and what the vendor
    tools generate ([ddynclk_g.c], build files); [libxdma_api.h], which only declares;
    [pulse_counter.c], which is empty; the parts for other kernel versions where the code
    chooses by [#if]; logging and debugging output, except where a program's output is
    its result; [getopt_long]; memory ordering and the internals of locks. *)
From stdpp Require Export prelude gmap strings list_numbers.
From Stdlib Require Export ZArith Lia Btauto.

#[global] Set Default Goal Selector "!".
Local Open Scope Z_scope.

(** * Machine integers

    The C code works on fixed width unsigned words; every arithmetic result the
    code stores in one is written here with its wrap-around. *)

Definition u8 (x : Z) : Z := x mod 256.
Definition u16 (x : Z) : Z := x mod 65536.
Definition u32 (x : Z) : Z := x mod 4294967296.
Definition u64 (x : Z) : Z := x mod 18446744073709551616.

(** Two's complement reading of a 32-bit word (a C [int]). *)
Definition s32 (x : Z) : Z :=
  let y := u32 x in if y <? 2147483648 then y else y - 4294967296.

(** Two's complement reading of a 64-bit word (a C [long], [loff_t]). *)
Definition s64 (x : Z) : Z :=
  let y := u64 x in if y <? 9223372036854775808 then y else y - 18446744073709551616.

(** C truth: an integer is true when it is not zero. *)
Definition nz (x : Z) : bool := negb (x =? 0).

(** C's [&] used as a test. *)
Definition tst (x m : Z) : bool := nz (Z.land x m).

Definition b2z (b : bool) : Z := if b then 1 else 0.

Definition bit (n : Z) : Z := Z.shiftl 1 n.

(** * Records

    [r <| f := v |>] is C's [r.f = v] on a value: the record with one field
    replaced.  A record type registers its eta expansion with [Settable]; the
    setter of a field is built from it, so that projections of an updated
    record compute without a case analysis on the record. *)

Class Settable (R : Type) := settable_eta : R -> R.
Class Setter {R T : Type} (proj : R -> T) := set_field : (T -> T) -> R -> R.
Arguments set_field {R T} proj {_} _ _ : simpl never.

Ltac build_setter R T proj :=
  exact (fun (f : T -> T) (r : R) =>
    ltac:(let e := eval hnf in (@settable_eta R _ r) in
          lazymatch e with
          | context C [proj r] => let t := context C [f (proj r)] in exact t
          end)).

#[export] Hint Extern 1 (@Setter ?R ?T ?proj) =>
  build_setter R T proj : typeclass_instances.

Notation "r <| f := v |>" := (set_field f (fun _ => v) r)
  (at level 1, left associativity, f at level 9, v at level 200,
   format "r  <| f  :=  v |>").
Notation "r <| f ::= g |>" := (set_field f g r)
  (at level 1, left associativity, f at level 9, g at level 200,
   format "r  <| f  ::=  g |>").

(** [fld] computes the projections of updated records, leaving the updates
    themselves folded. *)
Ltac fld_in_goal :=
  repeat match goal with
  | |- context [?p (@set_field ?R ?T ?q ?S ?f ?r)] =>
      first [ change (p (@set_field R T q S f r)) with (f (p r))
            | change (p (@set_field R T q S f r)) with (p r) ]; cbv beta
  end.
Ltac fld_in_hyps :=
  repeat match goal with
  | H : context [?p (@set_field ?R ?T ?q ?S ?f ?r)] |- _ =>
      first [ change (p (@set_field R T q S f r)) with (f (p r)) in H
            | change (p (@set_field R T q S f r)) with (p r) in H ]; cbv beta in H
  end.
Ltac fld := fld_in_goal; fld_in_hyps.

(** * The state monad

    Effectful C code is a state transformer [S -> A * S]; stdpp's monad classes
    give [x ← m; k], [m ;; k] and [mret].  [zoom] runs a computation on a
    component of a larger state. *)

Definition M (S A : Type) : Type := S -> A * S.

#[export] Instance M_ret S : MRet (M S) := fun A x s => (x, s).
#[export] Instance M_bind S : MBind (M S) :=
  fun A B k m s => let '(x, s') := m s in k x s'.

Definition get {S} : M S S := fun s => (s, s).
Definition gets {S A} (f : S -> A) : M S A := fun s => (f s, s).
Definition put {S} (s : S) : M S unit := fun _ => (tt, s).
Definition modify {S} (f : S -> S) : M S unit := fun s => (tt, f s).

Class Has (S C : Type) := { part : S -> C; with_part : C -> S -> S }.

Definition zoom {S C A} `{Has S C} (m : M C A) : M S A :=
  fun s => let '(x, c) := m (part s) in (x, with_part c s).

#[export] Instance Has_refl S : Has S S | 10 :=
  {| part := fun s => s; with_part := fun c _ => c |}.

(** [when c m] is C's [if (c) m;]. *)
Definition when {S} (c : bool) (m : M S unit) : M S unit :=
  if c then m else mret tt.

(** [for (i = from; i < from + n; i++) body(i)]. *)
Fixpoint for_up {S} (n : nat) (from : Z) (body : Z -> M S unit) : M S unit :=
  match n with
  | O => mret tt
  | S n' => body from ;; for_up n' (from + 1) body
  end.

Ltac mstep :=
  cbv [mbind mret M_bind M_ret get gets put modify when]; cbn beta iota.

(** ** Weakest preconditions

    [wp m Q s]: run from [s], [m] ends with a result and a state satisfying [Q].
    The rules below follow the structure of the code; [wp_step] applies the one
    the program at hand calls for. *)
Definition wp {S A} (m : M S A) (Q : A -> S -> Prop) (s : S) : Prop := Q (m s).1 (m s).2.

Section Wp.
Context {S : Type}.

Lemma wp_ret {A} (x : A) (Q : A -> S -> Prop) s : Q x s -> wp (mret x) Q s.
Proof. done. Qed.
Lemma wp_bind {A B} (m : M S A) (k : A -> M S B) (Q : B -> S -> Prop) s :
  wp m (fun x => wp (k x) Q) s -> wp (m ≫= k) Q s.
Proof. unfold wp, mbind, M_bind. by destruct (m s). Qed.
Lemma wp_gets {A} (f : S -> A) (Q : A -> S -> Prop) s : Q (f s) s -> wp (gets f) Q s.
Proof. done. Qed.
Lemma wp_modify (f : S -> S) (Q : unit -> S -> Prop) s : Q tt (f s) -> wp (modify f) Q s.
Proof. done. Qed.
Lemma wp_when (c : bool) (m : M S unit) (Q : unit -> S -> Prop) s :
  (c = true -> wp m Q s) -> (c = false -> Q tt s) -> wp (when c m) Q s.
Proof. intros H1 H2. destruct c; [exact (H1 eq_refl)|exact (H2 eq_refl)]. Qed.
Lemma wp_if {A} (c : bool) (m1 m2 : M S A) (Q : A -> S -> Prop) s :
  (c = true -> wp m1 Q s) -> (c = false -> wp m2 Q s) -> wp (if c then m1 else m2) Q s.
Proof. destruct c; auto. Qed.
Lemma wp_mono {A} (m : M S A) (P Q : A -> S -> Prop) s :
  wp m P s -> (forall x s', P x s' -> Q x s') -> wp m Q s.
Proof. unfold wp. auto. Qed.
Lemma wp_intro {A} (m : M S A) (Q : A -> S -> Prop) s : Q (m s).1 (m s).2 -> wp m Q s.
Proof. done. Qed.
Lemma wp_run {A} (m : M S A) (Q : A -> S -> Prop) s : wp m Q s -> Q (m s).1 (m s).2.
Proof. done. Qed.
Lemma wp_const {A} (m : M S A) s : wp m (fun x _ => x = (m s).1) s.
Proof. done. Qed.
Lemma wp_and {A} (m : M S A) (P Q : A -> S -> Prop) s :
  wp m P s -> wp m (fun x s' => P x s' -> Q x s') s -> wp m Q s.
Proof. unfold wp. auto. Qed.
Lemma wp_elim {A} (m : M S A) (Q : A -> S -> Prop) s :
  wp m Q s -> let '(x, s') := m s in Q x s'.
Proof. unfold wp. by destruct (m s). Qed.

(** From a run to what holds after it. *)
Lemma wp_result {A} (m : M S A) (Q : A -> S -> Prop) s x s' : m s = (x, s') -> wp m Q s -> Q x s'.
Proof. unfold wp. by intros ->. Qed.
End Wp.
#[global] Opaque wp.

(** The statement a proof term proves, for the instances of a theorem at
    concrete arguments. *)
Ltac statement_of t := let T := type of t in exact T.
Ltac instance_of t := let H := fresh in pose proof t as H; exact H.

(** A closed decidable proposition, by evaluation. *)
Ltac decide_now := apply (bool_decide_unpack _); vm_compute; exact I.

(** * Lemmas on lists *)

Lemma mjoin_cons {A} (x : list A) l : mjoin (x :: l) = x ++ mjoin l.
Proof. done. Qed.
Lemma mjoin_app {A} (l1 l2 : list (list A)) : mjoin (l1 ++ l2) = mjoin l1 ++ mjoin l2.
Proof. induction l1 as [|x l1 IH]; [done|]. cbn [app]. by rewrite !mjoin_cons, IH, app_assoc. Qed.

Definition sum_Z (l : list Z) : Z := foldr Z.add 0 l.

Lemma sum_Z_cons x l : sum_Z (x :: l) = x + sum_Z l.
Proof. done. Qed.
Lemma sum_Z_app l1 l2 : sum_Z (l1 ++ l2) = sum_Z l1 + sum_Z l2.
Proof. induction l1 as [|x l1 IH]; [done|]. cbn [app]. rewrite !sum_Z_cons, IH. lia. Qed.
Lemma sum_Z_nonneg l : Forall (Z.le 0) l -> 0 <= sum_Z l.
Proof. induction 1; rewrite ?sum_Z_cons; cbn; lia. Qed.

(** * Lemmas on words and bits *)

Create HintDb word discriminated.

Lemma u8_range x : 0 <= u8 x < 256.
Proof. apply Z.mod_pos_bound. lia. Qed.
Lemma u16_range x : 0 <= u16 x < 65536.
Proof. apply Z.mod_pos_bound. lia. Qed.
Lemma u32_range x : 0 <= u32 x < 4294967296.
Proof. apply Z.mod_pos_bound. lia. Qed.
Lemma u64_range x : 0 <= u64 x < 18446744073709551616.
Proof. apply Z.mod_pos_bound. lia. Qed.

Lemma u8_small x : 0 <= x < 256 -> u8 x = x.
Proof. apply Z.mod_small. Qed.
Lemma u32_small x : 0 <= x < 4294967296 -> u32 x = x.
Proof. apply Z.mod_small. Qed.
Lemma u64_small x : 0 <= x < 18446744073709551616 -> u64 x = x.
Proof. apply Z.mod_small. Qed.
Lemma s32_small x : -2147483648 <= x < 2147483648 -> s32 x = x.
Proof.
  intros. unfold s32, u32. destruct (decide (0 <= x)).
  - rewrite Z.mod_small by lia. case_match; lia.
  - replace (x mod 4294967296) with (x + 4294967296)
      by (apply (Z.mod_unique_pos _ _ (-1)); lia).
    case_match; lia.
Qed.

Lemma s64_small x : -9223372036854775808 <= x < 9223372036854775808 -> s64 x = x.
Proof.
  intros. unfold s64, u64. destruct (decide (0 <= x)).
  - rewrite Z.mod_small by lia. case_match; lia.
  - replace (x mod 18446744073709551616) with (x + 18446744073709551616)
      by (apply (Z.mod_unique _ _ (-1)); lia). case_match; lia.
Qed.

Lemma u32_add_l a b : u32 (u32 a + b) = u32 (a + b).
Proof. apply Zplus_mod_idemp_l. Qed.
Lemma u32_add_r a b : u32 (a + u32 b) = u32 (a + b).
Proof. apply Zplus_mod_idemp_r. Qed.
Lemma u64_add_l a b : u64 (u64 a + b) = u64 (a + b).
Proof. apply Zplus_mod_idemp_l. Qed.
Lemma u32_u32 a : u32 (u32 a) = u32 a.
Proof. apply Zmod_mod. Qed.
Lemma u64_u64 a : u64 (u64 a) = u64 a.
Proof. apply Zmod_mod. Qed.

#[export] Hint Resolve u8_range u16_range u32_range u64_range : word.

Lemma land_ones_mod (k : Z) x : 0 <= k -> Z.land x (2 ^ k - 1) = x mod 2 ^ k.
Proof.
  intros. rewrite <- Z.land_ones by done. f_equal. rewrite Z.ones_equiv. lia.
Qed.

(** A word is determined by its bits below its width. *)
Lemma bits_eq (n : nat) a b :
  0 <= a < 2 ^ Z.of_nat n -> 0 <= b < 2 ^ Z.of_nat n ->
  (forall i : nat, (i < n)%nat -> Z.testbit a (Z.of_nat i) = Z.testbit b (Z.of_nat i)) ->
  a = b.
Proof.
  intros Ha Hb Hi. apply Z.bits_inj'. intros i ?.
  destruct (decide (i < Z.of_nat n)).
  - specialize (Hi (Z.to_nat i)). rewrite Z2Nat.id in Hi by done. apply Hi. lia.
  - rewrite <- (Z.mod_small a (2 ^ Z.of_nat n)), <- (Z.mod_small b (2 ^ Z.of_nat n)) by done.
    by rewrite !Z.mod_pow2_bits_high by lia.
Qed.

Lemma land_bound_r (k : Z) a m : 0 <= m < 2 ^ k -> 0 <= Z.land a m < 2 ^ k.
Proof.
  intros [H1 H2]. assert (0 <= k) by (destruct (decide (0 <= k)); [done|rewrite Z.pow_neg_r in H2; lia]).
  rewrite <- (Z.mod_small m (2 ^ k)), <- Z.land_ones, Z.land_assoc, Z.land_ones by lia.
  apply Z.mod_pos_bound. lia.
Qed.
Lemma land_bound_l (k : Z) a m : 0 <= a < 2 ^ k -> 0 <= Z.land a m < 2 ^ k.
Proof. rewrite Z.land_comm. apply land_bound_r. Qed.

Lemma lor_bound (k : Z) a b :
  0 <= a < 2 ^ k -> 0 <= b < 2 ^ k -> 0 <= Z.lor a b < 2 ^ k.
Proof.
  intros [? Ha] [? Hb].
  assert (0 <= k) by (destruct (decide (0 <= k)); [done|rewrite Z.pow_neg_r in Ha; lia]).
  enough (Z.lor a b = Z.lor a b mod 2 ^ k) as -> by (apply Z.mod_pos_bound; lia).
  rewrite <- Z.land_ones, Z.land_lor_distr_l, !Z.land_ones, !Z.mod_small by lia. done.
Qed.

Lemma ldiff_bound (k : Z) a b : 0 <= a < 2 ^ k -> 0 <= Z.ldiff a b < 2 ^ k.
Proof.
  intros [? Ha]. rewrite Z.ldiff_land. by apply land_bound_l.
Qed.

(** Disjoint words combine without carries. *)
Lemma lor_add a b : Z.land a b = 0 -> Z.lor a b = a + b.
Proof. intros. rewrite <- Z.lxor_lor by done. symmetry. by apply Z.add_nocarry_lxor. Qed.

Lemma lor_shift_add x a s : 0 <= s -> 0 <= x < 2 ^ s -> Z.lor x (Z.shiftl a s) = x + a * 2 ^ s.
Proof.
  intros Hs Hx. rewrite <- Z.shiftl_mul_pow2 by lia. apply lor_add. apply Z.bits_inj_0. intros i.
  rewrite Z.land_spec. destruct (decide (i < s)).
  - destruct (decide (0 <= i)); [|by rewrite Z.testbit_neg_r by lia].
    rewrite (Z.shiftl_spec a) by lia. rewrite (Z.testbit_neg_r a) by lia. apply andb_false_r.
  - rewrite <- (Z.mod_small x (2 ^ s)) by lia. by rewrite Z.mod_pow2_bits_high by lia.
Qed.

Lemma tst_pow2 m b : 0 <= m -> 0 <= b -> tst m (2 ^ b) = Z.testbit m b /\ tst (2 ^ b) m = Z.testbit m b.
Proof.
  intros Hm Hb. assert (nz (Z.land m (2 ^ b)) = Z.testbit m b) as E.
  - unfold nz. destruct (Z.eqb_spec (Z.land m (2 ^ b)) 0) as [E|E]; cbn [negb].
    + pose proof (f_equal (fun x => Z.testbit x b) E) as Hb'. cbn in Hb'.
      rewrite Z.land_spec, Z.pow2_bits_true, andb_true_r, Z.bits_0 in Hb' by lia. done.
    + destruct (Z.testbit m b) eqn:Hbit; [done|]. exfalso. apply E. apply Z.bits_inj_0. intros i.
      rewrite Z.land_spec, Z.pow2_bits_eqb by lia. destruct (Z.eqb_spec b i) as [<-|]; [by rewrite Hbit|by rewrite andb_false_r].
  - unfold tst. by rewrite (Z.land_comm (2 ^ b)).
Qed.

Ltac tb := repeat first
  [ rewrite Z.lor_spec | rewrite Z.land_spec | rewrite Z.ldiff_spec
  | rewrite Z.lxor_spec | rewrite Z.shiftl_spec by lia | rewrite Z.shiftr_spec by lia
  | rewrite Z.testbit_neg_r by lia ].

(** [bitwise n] proves an equality of [n]-bit words built with the bit
    operations, bit by bit; the bounds are left. *)
Ltac ground_bits :=
  repeat match goal with
  | |- context [Z.testbit ?x ?i] =>
      let j := eval vm_compute in i in
      lazymatch j with Z0 => idtac | Zpos _ => idtac end;
      progress change (Z.testbit x i) with (Z.testbit x j)
  | |- context [Z.testbit (Zpos ?p) ?i] =>
      let b := eval vm_compute in (Z.testbit (Zpos p) i) in
      lazymatch b with true => idtac | false => idtac end;
      change (Z.testbit (Zpos p) i) with b
  end.
Ltac solve_bit :=
  tb; ground_bits; rewrite ?Z.testbit_0_l; cbn [andb orb negb xorb];
  rewrite ?andb_false_r, ?andb_true_r, ?orb_false_r, ?orb_true_r;
  rewrite ?Z.testbit_neg_r by lia; try done; try btauto.

Ltac bitwise n :=
  apply (bits_eq n);
  [ | | let i := fresh "i" in let Hi := fresh in intros i Hi;
        repeat first [ exfalso; lia | destruct i as [|i]; [clear Hi; solve_bit|] ] ].

Lemma alter_lookup `{Countable K} {V} (f : V -> V) (p : K) (h : gmap K V) x :
  h !! p = Some x -> alter f p h = <[p := f x]> h.
Proof.
  intros Hx. apply map_eq. intros q. destruct (decide (p = q)) as [<-|Hne].
  - by rewrite lookup_alter_eq, lookup_insert_eq, Hx.
  - by rewrite lookup_alter_ne, lookup_insert_ne.
Qed.
