(* ===== verification/Kernel.v ===== *)
(** The world outside the driver: memory mapped device registers and the kernel
    functions the driver calls.  Neither is under [src/], so both are parameters
    (class [Env]); what the driver does to them is recorded in a trace. *)
From S2P Require Import Prelude.
Local Open Scope Z_scope.

(** ** Errno values (negated when returned) *)
Definition EIO := 5.
Definition EAGAIN := 11.
Definition ENOMEM := 12.
Definition EFAULT := 14.
Definition EBUSY := 16.
Definition ENODEV := 19.
Definition EINVAL := 22.
Definition ENOTTY := 25.
Definition EPROTO := 71.
Definition ETIMEDOUT := 110.
Definition ERESTARTSYS := 512.
Definition ENOIOCTLCMD := 515.
Definition EIOCBQUEUED := 529.

(** ** Kernel calls

    One constructor per kernel function the modelled code calls with an effect
    outside the driver's own data.  Integer arguments and results are [Z];
    pointers are [Z] with 0 for [NULL]. *)
Inductive wait_queue :=
| WQ_shutdown | WQ_perf | WQ_xfer (req idx : Z) | WQ_events (user : Z) | WQ_thread (id : Z).

Inductive irq_cookie := Cookie_engine (h2c : bool) (ch : Z) | Cookie_user (u : Z) | Cookie_dev.

Inductive kcall :=
| K_wake_up (q : wait_queue)
| K_io_done (cb : Z) (err : Z)
| K_schedule_work (h2c : bool) (ch : Z)
| K_user_handler (handler dev : Z) (user : Z)
| K_kzalloc (size : Z)
| K_vmalloc (size : Z)
| K_kfree (p : Z)
| K_vfree (p : Z)
| K_dma_alloc_coherent (size : Z)
| K_dma_free_coherent (size virt bus : Z)
| K_dma_map_sg (sgt orig_nents : Z)
| K_dma_unmap_sg (sgt nents : Z)
| K_pci_enable_device
| K_pci_disable_device
| K_pci_request_regions
| K_pci_release_regions
| K_pci_iomap (bar len : Z)
| K_pci_iounmap (p : Z)
| K_pci_set_master
| K_pcie_set_readrq (n : Z)
| K_pcie_capability_set_word (cap : Z)
| K_pci_read_config (reg : Z)
| K_pci_write_config (reg v : Z)
| K_dma_set_mask (bits : Z)
| K_pci_alloc_irq_vectors (n : Z)
| K_pci_enable_msi
| K_pci_disable_msix
| K_pci_disable_msi
| K_pci_irq_vector (i : Z)
| K_request_irq (vector : Z) (shared : bool) (c : irq_cookie)
| K_free_irq (vector : Z) (c : irq_cookie)
| K_copy_from_user (p len : Z)
| K_copy_to_user (p : Z) (data : list Z)
| K_kthread_wakeup (id : Z)
| K_kthread_create (id cpu : Z)
| K_kthread_bind (task cpu : Z)
| K_wake_up_process (task : Z)
| K_kthread_stop (task : Z)
| K_jiffies
| K_schedule
| K_smp_processor_id
| K_get_user (p : Z)
| K_user_value (p : Z)
| K_put_user (p v : Z)
| K_kmalloc (size : Z)
| K_kcalloc (n size : Z)
| K_kmem_cache_create
| K_kmem_cache_destroy (cache : Z)
| K_kmem_cache_alloc (cache : Z)
| K_kmem_cache_free (cache p : Z)
| K_class_create
| K_class_destroy (class : Z)
| K_alloc_chrdev_region (base count : Z)
| K_chrdev_major
| K_unregister_chrdev_region (major minor count : Z)
| K_kobject_set_name (type idx param : Z)
| K_cdev_add (major minor : Z)
| K_cdev_del (major minor : Z)
| K_device_create (major minor : Z) (type idx param : Z)
| K_device_destroy (major minor : Z)
| K_set_drvdata (p : Z)
| K_pci_register_driver
| K_pci_unregister_driver
| K_pci_enable_device_mem
| K_pci_restore_state
| K_pci_save_state
| K_pci_clear_error_status
| K_access_ok (p size : Z)
| K_io_remap_pfn_range (start pfn size : Z)
| K_wait_event (q : wait_queue)
| K_poll_wait (q : wait_queue)
| K_sg_alloc_table (n : Z)
| K_sg_free_table
| K_get_user_pages_fast (start n : Z)
| K_pinned_page (i : Z)
| K_put_page (p : Z)
| K_set_page_dirty (p : Z)
| K_flush_dcache_page (p : Z)
| K_ki_complete (iocb res : Z)
| K_spin_trylock (obj : Z).

(** [IS_ERR]: an error code in place of a pointer. *)
Definition IS_ERR (p : Z) : bool := 2 ^ 64 - 4095 <=? p.

#[export] Instance wait_queue_eq : EqDecision wait_queue.
Proof. solve_decision. Defined.
#[export] Instance irq_cookie_eq : EqDecision irq_cookie.
Proof. solve_decision. Defined.
#[export] Instance kcall_eq : EqDecision kcall.
Proof. solve_decision. Defined.

Inductive event :=
| Ev_read (addr v : Z)
| Ev_write (addr v : Z)
| Ev_call (c : kcall) (ret : Z).

#[export] Instance event_eq : EqDecision event.
Proof. solve_decision. Defined.

(** ** The environment interface *)
Class Env (D : Type) := {
  env_read : Z -> D -> Z * D;
  env_write : Z -> Z -> D -> D;
  env_call : kcall -> D -> Z * D;
}.

Record kstate (D : Type) := mkK { k_env : D; k_trace : list event }.
Arguments mkK {D}.
Arguments k_env {D}.
Arguments k_trace {D}.

#[export] Instance kstate_settable D : Settable (kstate D) :=
  fun s => mkK (k_env s) (k_trace s).

Section Ops.
Context {D : Type} `{Env D} {S : Type} `{Has S (kstate D)}.

(** [ioread32]: the value read is a 32-bit word. *)
Definition kread (addr : Z) : M (kstate D) Z := fun s =>
  let '(v, d) := env_read addr (k_env s) in
  (u32 v, mkK d (k_trace s ++ [Ev_read addr (u32 v)])).

Definition kwrite (v addr : Z) : M (kstate D) unit := fun s =>
  (tt, mkK (env_write addr (u32 v) (k_env s)) (k_trace s ++ [Ev_write addr (u32 v)])).

Definition kdo (c : kcall) : M (kstate D) Z := fun s =>
  let '(v, d) := env_call c (k_env s) in
  (v, mkK d (k_trace s ++ [Ev_call c v])).

(* @src xdma/libxdma.c:206-209 read_register *)
Definition read_register (iomem : Z) : M S Z := zoom (kread iomem).

(* @src xdma/libxdma.c:203-203 write_register *)
Definition write_register (value iomem : Z) : M S unit := zoom (kwrite value iomem).

Definition call (c : kcall) : M S Z := zoom (kdo c).
Definition call_ (c : kcall) : M S unit := call c ;; mret tt.
End Ops.

(** ** Rules for the effects *)

#[local] Transparent wp.
Section Rules.
Context {D : Type} `{Env D} {S : Type} `{Has S (kstate D)}.

Lemma wp_read a (Q : Z -> S -> Prop) s :
  (forall v d, 0 <= v < 4294967296 -> v = u32 (env_read a (k_env (part s))).1 ->
     Q v (with_part (mkK d (k_trace (part s) ++ [Ev_read a v])) s)) ->
  wp (read_register a) Q s.
Proof.
  intros HQ. unfold wp, read_register, zoom, kread.
  destruct (env_read a (k_env (part s))) as [v d]. apply HQ; [apply u32_range|done].
Qed.

Lemma wp_read_env a (Q : Z -> S -> Prop) s :
  (forall v d, env_read a (k_env (part s)) = (v, d) ->
     Q (u32 v) (with_part (mkK d (k_trace (part s) ++ [Ev_read a (u32 v)])) s)) ->
  wp (read_register a) Q s.
Proof.
  intros HQ. unfold wp, read_register, zoom, kread.
  destruct (env_read a (k_env (part s))) as [v d]. by apply HQ.
Qed.

Lemma wp_call_env c (Q : Z -> S -> Prop) s :
  (forall v d, env_call c (k_env (part s)) = (v, d) ->
     Q v (with_part (mkK d (k_trace (part s) ++ [Ev_call c v])) s)) ->
  wp (call c) Q s.
Proof.
  intros HQ. unfold wp, call, zoom, kdo.
  destruct (env_call c (k_env (part s))) as [v d]. by apply HQ.
Qed.

Lemma wp_write v a (Q : unit -> S -> Prop) s :
  Q tt (with_part (mkK (env_write a (u32 v) (k_env (part s)))
                     (k_trace (part s) ++ [Ev_write a (u32 v)])) s) ->
  wp (write_register v a) Q s.
Proof. done. Qed.

Lemma wp_call c (Q : Z -> S -> Prop) s :
  (forall v d, v = (env_call c (k_env (part s))).1 ->
     Q v (with_part (mkK d (k_trace (part s) ++ [Ev_call c v])) s)) ->
  wp (call c) Q s.
Proof.
  intros HQ. unfold wp, call, zoom, kdo.
  destruct (env_call c (k_env (part s))) as [v d]. by apply HQ.
Qed.
Lemma wp_call_ c (Q : unit -> S -> Prop) s :
  (forall v d, v = (env_call c (k_env (part s))).1 ->
     Q tt (with_part (mkK d (k_trace (part s) ++ [Ev_call c v])) s)) ->
  wp (call_ c) Q s.
Proof. intros HQ. apply wp_bind, wp_call. intros v d Hv. by apply wp_ret, HQ. Qed.
End Rules.
#[global] Opaque wp.

(** One step of symbolic execution, driven by the head of the program. *)
Ltac wp_step :=
  lazymatch goal with
  | |- wp (mbind _ _) _ _ => apply wp_bind
  | |- wp (mret _) _ _ => apply wp_ret
  | |- wp (gets _) _ _ => apply wp_gets
  | |- wp (modify _) _ _ => apply wp_modify
  | |- wp (read_register _) _ _ => apply wp_read; intros ? ? ? ?
  | |- wp (write_register _ _) _ _ => apply wp_write
  | |- wp (call _) _ _ => apply wp_call; intros ? ? ?
  | |- wp (call_ _) _ _ => apply wp_call_; intros ? ? ?
  | |- wp (when _ _) _ _ => apply wp_when; intros
  | |- wp (if _ then _ else _) _ _ => apply wp_if; intros
  | |- wp ((fun _ => _) _) _ _ => cbv beta
  end.

(** ** A concrete environment

    Registers that hold what was last written to them, and kernel calls whose
    results a function decides: the instance the witnesses run the code on. *)
Record sim := { sim_regs : gmap Z Z; sim_ret : kcall -> Z }.

#[export] Instance sim_env : Env sim := {
  env_read a d := (default 0 (sim_regs d !! a), d);
  env_write a v d := {| sim_regs := <[a := v]> (sim_regs d); sim_ret := sim_ret d |};
  env_call c d := (sim_ret d c, d);
}.

Definition sim_start (regs : list (Z * Z)) (ret : kcall -> Z) : kstate sim :=
  mkK {| sim_regs := list_to_map regs; sim_ret := ret |} [].
