(* ===== verification/Types.v ===== *)
(** [libxdma.h]: the constants, the register layouts and the data structures of
    the DMA library.  Field names are the C names behind a short prefix; locks,
    wait queue heads, names used only in log lines and unused padding are left
    out. *)
From S2P Require Import Prelude Kernel.
Local Open Scope Z_scope.

(** ** Constants *)

(* @src xdma/libxdma.h:73-73 XDMA_BAR_NUM *)
Definition XDMA_BAR_NUM : Z := 6.
(* @src xdma/libxdma.h:76-76 XDMA_BAR_SIZE *)
Definition XDMA_BAR_SIZE : Z := 0x8000.
(* @src xdma/libxdma.h:79-79 NUM_POLLS_PER_SCHED *)
Definition NUM_POLLS_PER_SCHED : Z := 100.
(* @src xdma/libxdma.h:81-81 XDMA_CHANNEL_NUM_MAX *)
Definition XDMA_CHANNEL_NUM_MAX : Z := 4.
(* @src xdma/libxdma.h:86-86 XDMA_ENG_IRQ_NUM *)
Definition XDMA_ENG_IRQ_NUM : Z := 1.
(* @src xdma/libxdma.h:87-87 XDMA_MAX_ADJ_BLOCK_SIZE *)
Definition XDMA_MAX_ADJ_BLOCK_SIZE : Z := 0x40.
(* @src xdma/libxdma.h:88-88 XDMA_PAGE_SIZE *)
Definition XDMA_PAGE_SIZE : Z := 0x1000.
(* @src xdma/libxdma.h:89-89 RX_STATUS_EOP *)
Definition RX_STATUS_EOP : Z := 1.
(* @src xdma/libxdma.h:92-92 XDMA_OFS_INT_CTRL *)
Definition XDMA_OFS_INT_CTRL : Z := 0x2000.
(* @src xdma/libxdma.h:93-93 XDMA_OFS_CONFIG *)
Definition XDMA_OFS_CONFIG : Z := 0x3000.
(* @src xdma/libxdma.h:96-96 XDMA_ENGINE_XFER_MAX_DESC *)
Definition XDMA_ENGINE_XFER_MAX_DESC : Z := 0x800.
(* @src xdma/libxdma.h:97-97 XDMA_ENGINE_CREDIT_XFER_MAX_DESC *)
Definition XDMA_ENGINE_CREDIT_XFER_MAX_DESC : Z := 0x3FF.
(* @src xdma/libxdma.h:100-100 XDMA_DESC_BLEN_BITS *)
Definition XDMA_DESC_BLEN_BITS : Z := 28.
(* @src xdma/libxdma.h:101-101 XDMA_DESC_BLEN_MAX *)
Definition XDMA_DESC_BLEN_MAX : Z := bit XDMA_DESC_BLEN_BITS - 1.
(* @src xdma/libxdma.h:104-104 XDMA_CTRL_RUN_STOP *)
Definition XDMA_CTRL_RUN_STOP : Z := bit 0.
(* @src xdma/libxdma.h:105-105 XDMA_CTRL_IE_DESC_STOPPED *)
Definition XDMA_CTRL_IE_DESC_STOPPED : Z := bit 1.
(* @src xdma/libxdma.h:106-106 XDMA_CTRL_IE_DESC_COMPLETED *)
Definition XDMA_CTRL_IE_DESC_COMPLETED : Z := bit 2.
(* @src xdma/libxdma.h:107-107 XDMA_CTRL_IE_DESC_ALIGN_MISMATCH *)
Definition XDMA_CTRL_IE_DESC_ALIGN_MISMATCH : Z := bit 3.
(* @src xdma/libxdma.h:108-108 XDMA_CTRL_IE_MAGIC_STOPPED *)
Definition XDMA_CTRL_IE_MAGIC_STOPPED : Z := bit 4.
(* @src xdma/libxdma.h:109-109 XDMA_CTRL_IE_IDLE_STOPPED *)
Definition XDMA_CTRL_IE_IDLE_STOPPED : Z := bit 6.
(* @src xdma/libxdma.h:110-110 XDMA_CTRL_IE_READ_ERROR *)
Definition XDMA_CTRL_IE_READ_ERROR : Z := Z.shiftl 0x1F 9.
(* @src xdma/libxdma.h:111-111 XDMA_CTRL_IE_DESC_ERROR *)
Definition XDMA_CTRL_IE_DESC_ERROR : Z := Z.shiftl 0x1F 19.
(* @src xdma/libxdma.h:112-112 XDMA_CTRL_NON_INCR_ADDR *)
Definition XDMA_CTRL_NON_INCR_ADDR : Z := bit 25.
(* @src xdma/libxdma.h:113-113 XDMA_CTRL_POLL_MODE_WB *)
Definition XDMA_CTRL_POLL_MODE_WB : Z := bit 26.
(* @src xdma/libxdma.h:117-117 XDMA_STAT_BUSY *)
Definition XDMA_STAT_BUSY : Z := bit 0.
(* @src xdma/libxdma.h:118-118 XDMA_STAT_DESC_STOPPED *)
Definition XDMA_STAT_DESC_STOPPED : Z := bit 1.
(* @src xdma/libxdma.h:119-119 XDMA_STAT_DESC_COMPLETED *)
Definition XDMA_STAT_DESC_COMPLETED : Z := bit 2.
(* @src xdma/libxdma.h:120-120 XDMA_STAT_ALIGN_MISMATCH *)
Definition XDMA_STAT_ALIGN_MISMATCH : Z := bit 3.
(* @src xdma/libxdma.h:121-121 XDMA_STAT_MAGIC_STOPPED *)
Definition XDMA_STAT_MAGIC_STOPPED : Z := bit 4.
(* @src xdma/libxdma.h:122-122 XDMA_STAT_INVALID_LEN *)
Definition XDMA_STAT_INVALID_LEN : Z := bit 5.
(* @src xdma/libxdma.h:123-123 XDMA_STAT_IDLE_STOPPED *)
Definition XDMA_STAT_IDLE_STOPPED : Z := bit 6.
(* @src xdma/libxdma.h:125-127 XDMA_STAT_COMMON_ERR_MASK *)
Definition XDMA_STAT_COMMON_ERR_MASK : Z := Z.lor (Z.lor XDMA_STAT_ALIGN_MISMATCH XDMA_STAT_MAGIC_STOPPED) XDMA_STAT_INVALID_LEN.
(* @src xdma/libxdma.h:130-130 XDMA_STAT_DESC_UNSUPP_REQ *)
Definition XDMA_STAT_DESC_UNSUPP_REQ : Z := bit 19.
(* @src xdma/libxdma.h:131-131 XDMA_STAT_DESC_COMPL_ABORT *)
Definition XDMA_STAT_DESC_COMPL_ABORT : Z := bit 20.
(* @src xdma/libxdma.h:132-132 XDMA_STAT_DESC_PARITY_ERR *)
Definition XDMA_STAT_DESC_PARITY_ERR : Z := bit 21.
(* @src xdma/libxdma.h:133-133 XDMA_STAT_DESC_HEADER_EP *)
Definition XDMA_STAT_DESC_HEADER_EP : Z := bit 22.
(* @src xdma/libxdma.h:134-134 XDMA_STAT_DESC_UNEXP_COMPL *)
Definition XDMA_STAT_DESC_UNEXP_COMPL : Z := bit 23.
(* @src xdma/libxdma.h:136-139 XDMA_STAT_DESC_ERR_MASK *)
Definition XDMA_STAT_DESC_ERR_MASK : Z := Z.lor (Z.lor (Z.lor (Z.lor XDMA_STAT_DESC_UNSUPP_REQ XDMA_STAT_DESC_COMPL_ABORT) XDMA_STAT_DESC_PARITY_ERR) XDMA_STAT_DESC_HEADER_EP) XDMA_STAT_DESC_UNEXP_COMPL.
(* @src xdma/libxdma.h:142-142 XDMA_STAT_H2C_R_UNSUPP_REQ *)
Definition XDMA_STAT_H2C_R_UNSUPP_REQ : Z := bit 9.
(* @src xdma/libxdma.h:143-143 XDMA_STAT_H2C_R_COMPL_ABORT *)
Definition XDMA_STAT_H2C_R_COMPL_ABORT : Z := bit 10.
(* @src xdma/libxdma.h:144-144 XDMA_STAT_H2C_R_PARITY_ERR *)
Definition XDMA_STAT_H2C_R_PARITY_ERR : Z := bit 11.
(* @src xdma/libxdma.h:145-145 XDMA_STAT_H2C_R_HEADER_EP *)
Definition XDMA_STAT_H2C_R_HEADER_EP : Z := bit 12.
(* @src xdma/libxdma.h:146-146 XDMA_STAT_H2C_R_UNEXP_COMPL *)
Definition XDMA_STAT_H2C_R_UNEXP_COMPL : Z := bit 13.
(* @src xdma/libxdma.h:148-151 XDMA_STAT_H2C_R_ERR_MASK *)
Definition XDMA_STAT_H2C_R_ERR_MASK : Z := Z.lor (Z.lor (Z.lor (Z.lor XDMA_STAT_H2C_R_UNSUPP_REQ XDMA_STAT_H2C_R_COMPL_ABORT) XDMA_STAT_H2C_R_PARITY_ERR) XDMA_STAT_H2C_R_HEADER_EP) XDMA_STAT_H2C_R_UNEXP_COMPL.
(* @src xdma/libxdma.h:154-154 XDMA_STAT_H2C_W_DECODE_ERR *)
Definition XDMA_STAT_H2C_W_DECODE_ERR : Z := bit 14.
(* @src xdma/libxdma.h:155-155 XDMA_STAT_H2C_W_SLAVE_ERR *)
Definition XDMA_STAT_H2C_W_SLAVE_ERR : Z := bit 15.
(* @src xdma/libxdma.h:157-158 XDMA_STAT_H2C_W_ERR_MASK *)
Definition XDMA_STAT_H2C_W_ERR_MASK : Z := Z.lor XDMA_STAT_H2C_W_DECODE_ERR XDMA_STAT_H2C_W_SLAVE_ERR.
(* @src xdma/libxdma.h:161-161 XDMA_STAT_C2H_R_DECODE_ERR *)
Definition XDMA_STAT_C2H_R_DECODE_ERR : Z := bit 9.
(* @src xdma/libxdma.h:162-162 XDMA_STAT_C2H_R_SLAVE_ERR *)
Definition XDMA_STAT_C2H_R_SLAVE_ERR : Z := bit 10.
(* @src xdma/libxdma.h:164-165 XDMA_STAT_C2H_R_ERR_MASK *)
Definition XDMA_STAT_C2H_R_ERR_MASK : Z := Z.lor XDMA_STAT_C2H_R_DECODE_ERR XDMA_STAT_C2H_R_SLAVE_ERR.
(* @src xdma/libxdma.h:168-170 XDMA_STAT_H2C_ERR_MASK *)
Definition XDMA_STAT_H2C_ERR_MASK : Z := Z.lor (Z.lor (Z.lor XDMA_STAT_COMMON_ERR_MASK XDMA_STAT_DESC_ERR_MASK) XDMA_STAT_H2C_R_ERR_MASK) XDMA_STAT_H2C_W_ERR_MASK.
(* @src xdma/libxdma.h:172-174 XDMA_STAT_C2H_ERR_MASK *)
Definition XDMA_STAT_C2H_ERR_MASK : Z := Z.lor (Z.lor XDMA_STAT_COMMON_ERR_MASK XDMA_STAT_DESC_ERR_MASK) XDMA_STAT_C2H_R_ERR_MASK.
(* @src xdma/libxdma.h:177-177 XDMA_DESC_STOPPED *)
Definition XDMA_DESC_STOPPED : Z := bit 0.
(* @src xdma/libxdma.h:178-178 XDMA_DESC_COMPLETED *)
Definition XDMA_DESC_COMPLETED : Z := bit 1.
(* @src xdma/libxdma.h:179-179 XDMA_DESC_EOP *)
Definition XDMA_DESC_EOP : Z := bit 4.
(* @src xdma/libxdma.h:181-181 XDMA_PERF_RUN *)
Definition XDMA_PERF_RUN : Z := bit 0.
(* @src xdma/libxdma.h:182-182 XDMA_PERF_CLEAR *)
Definition XDMA_PERF_CLEAR : Z := bit 1.
(* @src xdma/libxdma.h:183-183 XDMA_PERF_AUTO *)
Definition XDMA_PERF_AUTO : Z := bit 2.
(* @src xdma/libxdma.h:185-185 MAGIC_ENGINE *)
Definition MAGIC_ENGINE : Z := 0xEEEEEEEE.
(* @src xdma/libxdma.h:186-186 MAGIC_DEVICE *)
Definition MAGIC_DEVICE : Z := 0xDDDDDDDD.
(* @src xdma/libxdma.h:189-189 XDMA_ID_H2C *)
Definition XDMA_ID_H2C : Z := 0x1fc0.
(* @src xdma/libxdma.h:190-190 XDMA_ID_C2H *)
Definition XDMA_ID_C2H : Z := 0x1fc1.
(* @src xdma/libxdma.h:195-195 LS_BYTE_MASK *)
Definition LS_BYTE_MASK : Z := 0xFF.
(* @src xdma/libxdma.h:197-197 BLOCK_ID_MASK *)
Definition BLOCK_ID_MASK : Z := 0xFFF00000.
(* @src xdma/libxdma.h:198-198 BLOCK_ID_HEAD *)
Definition BLOCK_ID_HEAD : Z := 0x1FC00000.
(* @src xdma/libxdma.h:200-200 IRQ_BLOCK_ID *)
Definition IRQ_BLOCK_ID : Z := 0x1fc20000.
(* @src xdma/libxdma.h:201-201 CONFIG_BLOCK_ID *)
Definition CONFIG_BLOCK_ID : Z := 0x1fc30000.
(* @src xdma/libxdma.h:203-203 WB_COUNT_MASK *)
Definition WB_COUNT_MASK : Z := 0x00ffffff.
(* @src xdma/libxdma.h:204-204 WB_ERR_MASK *)
Definition WB_ERR_MASK : Z := bit 31.
(* @src xdma/libxdma.h:205-205 POLL_TIMEOUT_SECONDS *)
Definition POLL_TIMEOUT_SECONDS : Z := 10.
(* @src xdma/libxdma.h:207-207 MAX_USER_IRQ *)
Definition MAX_USER_IRQ : Z := 16.
(* @src xdma/libxdma.h:211-211 DESC_MAGIC *)
Definition DESC_MAGIC : Z := 0xAD4B0000.
(* @src xdma/libxdma.h:216-216 H2C_CHANNEL_OFFSET *)
Definition H2C_CHANNEL_OFFSET : Z := 0x1000.
(* @src xdma/libxdma.h:217-217 SGDMA_OFFSET_FROM_CHANNEL *)
Definition SGDMA_OFFSET_FROM_CHANNEL : Z := 0x4000.
(* @src xdma/libxdma.h:218-218 CHANNEL_SPACING *)
Definition CHANNEL_SPACING : Z := 0x100.
(* @src xdma/libxdma.h:219-219 TARGET_SPACING *)
Definition TARGET_SPACING : Z := 0x1000.
(* @src xdma/libxdma.h:221-221 BYPASS_MODE_SPACING *)
Definition BYPASS_MODE_SPACING : Z := 0x0100.

(* @src xdma/libxdma.h:224-224 PCI_DMA_H *)
Definition PCI_DMA_H (addr : Z) : Z := u32 (Z.shiftr (Z.shiftr addr 16) 16).
(* @src xdma/libxdma.h:226-226 PCI_DMA_L *)
Definition PCI_DMA_L (addr : Z) : Z := Z.land addr 0xffffffff.

(** ** Enumerations *)

(* @src xdma/libxdma.h:256-262 transfer_state *)
Inductive transfer_state :=
| TRANSFER_STATE_NEW
| TRANSFER_STATE_SUBMITTED
| TRANSFER_STATE_COMPLETED
| TRANSFER_STATE_FAILED
| TRANSFER_STATE_ABORTED.

#[export] Instance transfer_state_eq : EqDecision transfer_state.
Proof. solve_decision. Defined.

(** [enum shutdown_state]; the driver uses the values as bits. *)
(* @src xdma/libxdma.h:264-265 ENGINE_SHUTDOWN_NONE *)
Definition ENGINE_SHUTDOWN_NONE : Z := 0.
(* @src xdma/libxdma.h:266-266 ENGINE_SHUTDOWN_REQUEST *)
Definition ENGINE_SHUTDOWN_REQUEST : Z := 1.
(* @src xdma/libxdma.h:267-268 ENGINE_SHUTDOWN_IDLE *)
Definition ENGINE_SHUTDOWN_IDLE : Z := 2.

(** [enum dma_data_direction] of the kernel; a zeroed field reads as
    [DMA_BIDIRECTIONAL]. *)
Inductive dma_data_direction := DMA_BIDIRECTIONAL | DMA_TO_DEVICE | DMA_FROM_DEVICE.

#[export] Instance dma_data_direction_eq : EqDecision dma_data_direction.
Proof. solve_decision. Defined.

Definition dir_eqb (a b : dma_data_direction) : bool :=
  match a, b with
  | DMA_BIDIRECTIONAL, DMA_BIDIRECTIONAL | DMA_TO_DEVICE, DMA_TO_DEVICE
  | DMA_FROM_DEVICE, DMA_FROM_DEVICE => true
  | _, _ => false
  end.

(** ** Register layouts: byte offsets of the fields *)

(* @src xdma/libxdma.h:296-300 config_regs *)
Definition cfg_identifier : Z := 0.

(* @src xdma/libxdma.h:313-317 engine_regs *)
Definition reg_identifier : Z := 0x00.
(* @src xdma/libxdma.h:315-315 engine_regs.control *)
Definition reg_control : Z := 0x04.
(* @src xdma/libxdma.h:316-316 engine_regs.control_w1s *)
Definition reg_control_w1s : Z := 0x08.
(* @src xdma/libxdma.h:317-318 engine_regs.control_w1c *)
Definition reg_control_w1c : Z := 0x0c.
(* @src xdma/libxdma.h:320-320 engine_regs.status *)
Definition reg_status : Z := 0x40.
(* @src xdma/libxdma.h:321-321 engine_regs.status_rc *)
Definition reg_status_rc : Z := 0x44.
(* @src xdma/libxdma.h:322-322 engine_regs.completed_desc_count *)
Definition reg_completed_desc_count : Z := 0x48.
(* @src xdma/libxdma.h:323-324 engine_regs.alignments *)
Definition reg_alignments : Z := 0x4c.
(* @src xdma/libxdma.h:326-326 engine_regs.poll_mode_wb_lo *)
Definition reg_poll_mode_wb_lo : Z := 0x88.
(* @src xdma/libxdma.h:327-327 engine_regs.poll_mode_wb_hi *)
Definition reg_poll_mode_wb_hi : Z := 0x8c.
(* @src xdma/libxdma.h:328-328 engine_regs.interrupt_enable_mask *)
Definition reg_interrupt_enable_mask : Z := 0x90.
(* @src xdma/libxdma.h:329-329 engine_regs.interrupt_enable_mask_w1s *)
Definition reg_interrupt_enable_mask_w1s : Z := 0x94.
(* @src xdma/libxdma.h:330-331 engine_regs.interrupt_enable_mask_w1c *)
Definition reg_interrupt_enable_mask_w1c : Z := 0x98.
(* @src xdma/libxdma.h:333-333 engine_regs.perf_ctrl *)
Definition reg_perf_ctrl : Z := 0xc0.
(* @src xdma/libxdma.h:334-334 engine_regs.perf_cyc_lo *)
Definition reg_perf_cyc_lo : Z := 0xc4.
(* @src xdma/libxdma.h:335-335 engine_regs.perf_cyc_hi *)
Definition reg_perf_cyc_hi : Z := 0xc8.
(* @src xdma/libxdma.h:336-336 engine_regs.perf_dat_lo *)
Definition reg_perf_dat_lo : Z := 0xcc.
(* @src xdma/libxdma.h:337-337 engine_regs.perf_dat_hi *)
Definition reg_perf_dat_hi : Z := 0xd0.
(* @src xdma/libxdma.h:338-338 engine_regs.perf_pnd_lo *)
Definition reg_perf_pnd_lo : Z := 0xd4.
(* @src xdma/libxdma.h:339-340 engine_regs.perf_pnd_hi *)
Definition reg_perf_pnd_hi : Z := 0xd8.

(* @src xdma/libxdma.h:347-347 engine_sgdma_regs.first_desc_lo *)
Definition sg_first_desc_lo : Z := 0x80.
(* @src xdma/libxdma.h:348-348 engine_sgdma_regs.first_desc_hi *)
Definition sg_first_desc_hi : Z := 0x84.
(* @src xdma/libxdma.h:350-350 engine_sgdma_regs.first_desc_adjacent *)
Definition sg_first_desc_adjacent : Z := 0x88.
(* @src xdma/libxdma.h:351-352 engine_sgdma_regs.credits *)
Definition sg_credits : Z := 0x8c.

(* @src xdma/libxdma.h:366-366 interrupt_regs.identifier *)
Definition irq_identifier : Z := 0x00.
(* @src xdma/libxdma.h:367-367 interrupt_regs.user_int_enable *)
Definition irq_user_int_enable : Z := 0x04.
(* @src xdma/libxdma.h:368-368 interrupt_regs.user_int_enable_w1s *)
Definition irq_user_int_enable_w1s : Z := 0x08.
(* @src xdma/libxdma.h:369-369 interrupt_regs.user_int_enable_w1c *)
Definition irq_user_int_enable_w1c : Z := 0x0c.
(* @src xdma/libxdma.h:370-370 interrupt_regs.channel_int_enable *)
Definition irq_channel_int_enable : Z := 0x10.
(* @src xdma/libxdma.h:371-371 interrupt_regs.channel_int_enable_w1s *)
Definition irq_channel_int_enable_w1s : Z := 0x14.
(* @src xdma/libxdma.h:372-373 interrupt_regs.channel_int_enable_w1c *)
Definition irq_channel_int_enable_w1c : Z := 0x18.
(* @src xdma/libxdma.h:375-375 interrupt_regs.user_int_request *)
Definition irq_user_int_request : Z := 0x40.
(* @src xdma/libxdma.h:376-376 interrupt_regs.channel_int_request *)
Definition irq_channel_int_request : Z := 0x44.
(* @src xdma/libxdma.h:377-377 interrupt_regs.user_int_pending *)
Definition irq_user_int_pending : Z := 0x48.
(* @src xdma/libxdma.h:378-379 interrupt_regs.channel_int_pending *)
Definition irq_channel_int_pending : Z := 0x4c.
(* @src xdma/libxdma.h:381-381 interrupt_regs.user_msi_vector *)
Definition irq_user_msi_vector : Z := 0x80.
(* @src xdma/libxdma.h:382-383 interrupt_regs.channel_msi_vector *)
Definition irq_channel_msi_vector : Z := 0xa0.

(* @src xdma/libxdma.h:388-388 sgdma_common_regs.credit_mode_enable_w1s *)
Definition common_credit_mode_enable_w1s : Z := 0x24.
(* @src xdma/libxdma.h:389-390 sgdma_common_regs.credit_mode_enable_w1c *)
Definition common_credit_mode_enable_w1c : Z := 0x28.

(** ** Structures *)

(** A hardware descriptor; the fields hold the CPU value of the little-endian
    word. *)
(* @src xdma/libxdma.h:400-423 xdma_desc *)
Record xdma_desc := {
  d_control : Z;
  d_bytes : Z;
  d_src_addr_lo : Z;
  d_src_addr_hi : Z;
  d_dst_addr_lo : Z;
  d_dst_addr_hi : Z;
  d_next_lo : Z;
  d_next_hi : Z;
}.
#[export] Instance xdma_desc_settable : Settable xdma_desc := fun d =>
  Build_xdma_desc (d_control d) (d_bytes d) (d_src_addr_lo d) (d_src_addr_hi d)
    (d_dst_addr_lo d) (d_dst_addr_hi d) (d_next_lo d) (d_next_hi d).

Definition desc_zero : xdma_desc := Build_xdma_desc 0 0 0 0 0 0 0 0.
Definition sizeof_xdma_desc : Z := 32.

(** A result word pair written back by a streaming C2H engine. *)
(* @src xdma/libxdma.h:425-430 xdma_result *)
Record xdma_result := { r_status : Z; r_length : Z }.
Definition result_zero : xdma_result := Build_xdma_result 0 0.
Definition sizeof_xdma_result : Z := 32.

(* @src xdma/libxdma.h:432-435 sw_desc *)
Record sw_desc := { sw_addr : Z; sw_len : Z }.

(** A transfer is addressed by the allocation that holds it and its index in
    that allocation ([&req->tfer[i]]). *)
Definition xfer_ptr : Type := Z * Z.

(* @src xdma/libxdma.h:438-438 XFER_FLAG_NEED_UNMAP *)
Definition XFER_FLAG_NEED_UNMAP : Z := 0x1.
(* @src xdma/libxdma.h:439-439 XFER_FLAG_ST_C2H_EOP_RCVED *)
Definition XFER_FLAG_ST_C2H_EOP_RCVED : Z := 0x2.

(** [desc_virt] and [res_virt] are indices into the engine's descriptor and
    result arrays, which all transfers of an engine share. *)
(* @src xdma/libxdma.h:440-465 xdma_transfer *)
Record xdma_transfer := {
  x_desc_virt : Z;
  x_res_virt : Z;
  x_res_bus : Z;
  x_desc_bus : Z;
  x_desc_adjacent : Z;
  x_desc_num : Z;
  x_desc_index : Z;
  x_desc_cmpl : Z;
  x_desc_cmpl_th : Z;
  x_dir : dma_data_direction;
  x_state : transfer_state;
  x_flags : Z;
  x_cyclic : bool;
  x_last_in_request : bool;
  x_len : Z;
  x_sgt : option Z;
  x_cb : option Z;
}.
#[export] Instance xdma_transfer_settable : Settable xdma_transfer := fun x =>
  Build_xdma_transfer (x_desc_virt x) (x_res_virt x) (x_res_bus x) (x_desc_bus x)
    (x_desc_adjacent x) (x_desc_num x) (x_desc_index x) (x_desc_cmpl x)
    (x_desc_cmpl_th x) (x_dir x) (x_state x) (x_flags x) (x_cyclic x)
    (x_last_in_request x) (x_len x) (x_sgt x) (x_cb x).

(** [memset(xfer, 0, sizeof( *xfer ))] *)
Definition xfer_zero : xdma_transfer :=
  Build_xdma_transfer 0 0 0 0 0 0 0 0 0 DMA_BIDIRECTIONAL TRANSFER_STATE_NEW 0
    false false 0 None None.

(** One DMA mapped scatterlist entry and the table that holds them. *)
Record sg_entry := { sg_dma_address : Z; sg_dma_len : Z }.
Record sg_table := { sgt_sgl : list sg_entry; sgt_nents : Z; sgt_orig_nents : Z }.
#[export] Instance sg_table_settable : Settable sg_table := fun t =>
  Build_sg_table (sgt_sgl t) (sgt_nents t) (sgt_orig_nents t).

(** The request without its two embedded transfers, which live in the heap at
    [(req, 0)] and [(req, 1)].  [rq_sdesc_nr] is the capacity of the flexible
    array [sdesc], [rq_sdesc] what has been written to it. *)
(* @src xdma/libxdma.h:467-491 xdma_request_cb *)
Record xdma_request_cb := {
  rq_sgt : Z;
  rq_ep_addr : Z;
  rq_aperture : Z;
  rq_total_len : Z;
  rq_offset : Z;
  rq_sg : Z;
  rq_sg_idx : Z;
  rq_sg_offset : Z;
  rq_cb : option Z;
  rq_sw_desc_idx : Z;
  rq_sw_desc_cnt : Z;
  rq_sdesc_nr : Z;
  rq_sdesc : list sw_desc;
}.
#[export] Instance xdma_request_cb_settable : Settable xdma_request_cb := fun r =>
  Build_xdma_request_cb (rq_sgt r) (rq_ep_addr r) (rq_aperture r) (rq_total_len r)
    (rq_offset r) (rq_sg r) (rq_sg_idx r) (rq_sg_offset r) (rq_cb r)
    (rq_sw_desc_idx r) (rq_sw_desc_cnt r) (rq_sdesc_nr r) (rq_sdesc r).

(* @src xdma/cdev_sgdma.h:49-59 xdma_performance_ioctl *)
Record xdma_performance_ioctl := {
  p_version : Z;
  p_transfer_size : Z;
  p_stopped : Z;
  p_iterations : Z;
  p_clock_cycle_count : Z;
  p_data_cycle_count : Z;
  p_pending_count : Z;
}.
#[export] Instance xdma_performance_settable : Settable xdma_performance_ioctl := fun p =>
  Build_xdma_performance_ioctl (p_version p) (p_transfer_size p) (p_stopped p)
    (p_iterations p) (p_clock_cycle_count p) (p_data_cycle_count p) (p_pending_count p).

(** [desc] and [cyclic_result] are DMA memory the engine owns: [None] is a
    [NULL] pointer, and the address of what is not [NULL] is beside it.  The poll-mode writeback word is written by the device, so
    it is kept as an address, [None] for [NULL]. *)
(* @src xdma/libxdma.h:493-570 xdma_engine *)
Record xdma_engine := {
  eng_magic : Z;
  eng_regs : Z;
  eng_sgdma_regs : Z;
  eng_bypass_offset : Z;
  eng_shutdown : Z;
  eng_dir : dma_data_direction;
  eng_addr_align : Z;
  eng_len_granularity : Z;
  eng_addr_bits : Z;
  eng_channel : Z;
  eng_streaming : bool;
  eng_device_open : bool;
  eng_running : bool;
  eng_non_incr_addr : bool;
  eng_eop_flush : bool;
  eng_desc_dequeued : Z;
  eng_desc_max : Z;
  eng_status : Z;
  eng_interrupt_enable_mask_value : Z;
  eng_transfer_list : list xfer_ptr;
  eng_cyclic_result : option (list xdma_result);
  eng_cyclic_result_virt : Z;
  eng_cyclic_result_bus : Z;
  eng_perf_buf_virt : Z;
  eng_perf_buf_bus : Z;
  eng_poll_wb : option Z;
  eng_poll_mode_bus : Z;
  eng_msix_irq_line : Z;
  eng_irq_bitmask : Z;
  eng_desc_bus : Z;
  eng_desc : option (list xdma_desc);
  eng_desc_virt : Z;
  eng_desc_idx : Z;
  eng_desc_used : Z;
  eng_xdma_perf : option xdma_performance_ioctl;
  eng_cmplthp : option Z;
  eng_intr_work_cpu : Z;
}.
#[export] Instance xdma_engine_settable : Settable xdma_engine := fun e =>
  Build_xdma_engine (eng_magic e) (eng_regs e) (eng_sgdma_regs e) (eng_bypass_offset e)
    (eng_shutdown e) (eng_dir e) (eng_addr_align e) (eng_len_granularity e)
    (eng_addr_bits e) (eng_channel e) (eng_streaming e) (eng_device_open e)
    (eng_running e) (eng_non_incr_addr e) (eng_eop_flush e) (eng_desc_dequeued e)
    (eng_desc_max e) (eng_status e) (eng_interrupt_enable_mask_value e)
    (eng_transfer_list e) (eng_cyclic_result e) (eng_cyclic_result_virt e) (eng_cyclic_result_bus e)
    (eng_perf_buf_virt e) (eng_perf_buf_bus e) (eng_poll_wb e) (eng_poll_mode_bus e)
    (eng_msix_irq_line e) (eng_irq_bitmask e) (eng_desc_bus e) (eng_desc e) (eng_desc_virt e)
    (eng_desc_idx e) (eng_desc_used e) (eng_xdma_perf e) (eng_cmplthp e)
    (eng_intr_work_cpu e).

(** [memset(engine, 0, sizeof(struct xdma_engine))] *)
Definition engine_zero : xdma_engine :=
  Build_xdma_engine 0 0 0 0 0 DMA_BIDIRECTIONAL 0 0 0 0 false false false false false
    0 0 0 0 [] None 0 0 0 0 None 0 0 0 0 None 0 0 0 None None 0.

(* @src xdma/libxdma.h:572-581 xdma_user_irq *)
Record xdma_user_irq := {
  u_user_idx : Z;
  u_events_irq : Z;
  u_handler : Z;
  u_dev : Z;
}.
#[export] Instance xdma_user_irq_settable : Settable xdma_user_irq := fun u =>
  Build_xdma_user_irq (u_user_idx u) (u_events_irq u) (u_handler u) (u_dev u).

(* @src xdma/libxdma.h:584-584 XDEV_FLAG_OFFLINE *)
Definition XDEV_FLAG_OFFLINE : Z := 0x1.

(** The device without its two engine arrays, which the device state of
    [Device] keeps beside it. [xd_bar] holds the six mapped BAR addresses, 0
    for [NULL]; [xd_pdev] identifies the PCI device. *)
(* @src xdma/libxdma.h:583-631 xdma_dev *)
Record xdma_dev := {
  xd_magic : Z;
  xd_pdev : Z;
  xd_idx : Z;
  xd_flags : Z;
  xd_bar : list Z;
  xd_user_bar_idx : Z;
  xd_config_bar_idx : Z;
  xd_bypass_bar_idx : Z;
  xd_regions_in_use : bool;
  xd_got_regions : bool;
  xd_user_max : Z;
  xd_c2h_channel_max : Z;
  xd_h2c_channel_max : Z;
  xd_irq_count : Z;
  xd_irq_line : Z;
  xd_msi_enabled : bool;
  xd_msix_enabled : bool;
  xd_user_irq : list xdma_user_irq;
  xd_mask_irq_user : Z;
  xd_engines_num : Z;
  xd_mask_irq_h2c : Z;
  xd_mask_irq_c2h : Z;
  xd_feature_id : Z;
}.
#[export] Instance xdma_dev_settable : Settable xdma_dev := fun x =>
  Build_xdma_dev (xd_magic x) (xd_pdev x) (xd_idx x) (xd_flags x) (xd_bar x)
    (xd_user_bar_idx x) (xd_config_bar_idx x) (xd_bypass_bar_idx x)
    (xd_regions_in_use x) (xd_got_regions x) (xd_user_max x) (xd_c2h_channel_max x)
    (xd_h2c_channel_max x) (xd_irq_count x) (xd_irq_line x) (xd_msi_enabled x)
    (xd_msix_enabled x) (xd_user_irq x) (xd_mask_irq_user x) (xd_engines_num x)
    (xd_mask_irq_h2c x) (xd_mask_irq_c2h x) (xd_feature_id x).

Definition xdev_zero : xdma_dev :=
  Build_xdma_dev 0 0 0 0 (replicate 6 0) 0 0 0 false false 0 0 0 0 0 false false
    (replicate 16 (Build_xdma_user_irq 0 0 0 0)) 0 0 0 0 0.

(** [xdev->bar[i]] *)
Definition xd_bar_at (x : xdma_dev) (i : Z) : Z := nth (Z.to_nat i) (xd_bar x) 0.

(** [xdev->bar[xdev->config_bar_idx]] *)
Definition xd_config_bar (x : xdma_dev) : Z := xd_bar_at x (xd_config_bar_idx x).

(** ** The device flags *)

(* @src xdma/libxdma.h:633-644 xdma_device_flag_check *)
Definition xdma_device_flag_check (x : xdma_dev) (f : Z) : bool := tst (xd_flags x) f.

(* @src xdma/libxdma.h:646-660 xdma_device_flag_test_n_set *)
Definition xdma_device_flag_test_n_set (x : xdma_dev) (f : Z) : Z * xdma_dev :=
  if tst (xd_flags x) f then (1, x) else (0, x <| xd_flags := Z.lor (xd_flags x) f |>).

(* @src xdma/libxdma.h:662-669 xdma_device_flag_set *)
Definition xdma_device_flag_set (x : xdma_dev) (f : Z) : xdma_dev :=
  x <| xd_flags := Z.lor (xd_flags x) f |>.

(* @src xdma/libxdma.h:671-678 xdma_device_flag_clear *)
Definition xdma_device_flag_clear (x : xdma_dev) (f : Z) : xdma_dev :=
  x <| xd_flags := Z.ldiff (xd_flags x) f |>.

(** ** Module parameters (set when the module is loaded) *)
(* @src xdma/libxdma.c:36-53 poll_mode, interrupt_mode, enable_st_c2h_credit, desc_blen_max *)
Record params := {
  poll_mode : bool;
  interrupt_mode : Z;
  enable_st_c2h_credit : bool;
  desc_blen_max : Z;
}.

(** ** The state of one engine

    The functions that work on one engine run on the engine, the transfers and
    scatterlist tables its pointers lead to, and the outside world. *)
Record est (D : Type) := {
  es_k : kstate D;
  es_eng : xdma_engine;
  es_heap : gmap xfer_ptr xdma_transfer;
  es_sgts : gmap Z sg_table;
}.
Arguments Build_est {D}.
Arguments es_k {D}.
Arguments es_eng {D}.
Arguments es_heap {D}.
Arguments es_sgts {D}.
#[export] Instance est_settable D : Settable (est D) := fun s =>
  Build_est (es_k s) (es_eng s) (es_heap s) (es_sgts s).

#[export] Instance est_has_k D : Has (est D) (kstate D) :=
  {| part := es_k; with_part := fun k s => s <| es_k := k |> |}.

Definition the_engine {D} : M (est D) xdma_engine := gets es_eng.
Definition upd_engine {D} (f : xdma_engine -> xdma_engine) : M (est D) unit :=
  modify (fun s => s <| es_eng ::= f |>).

(** [transfer->field] through a pointer to a live transfer. *)
Definition xfer_at {D} (s : est D) (p : xfer_ptr) : xdma_transfer :=
  default xfer_zero (es_heap s !! p).
Definition the_xfer {D} (p : xfer_ptr) : M (est D) xdma_transfer := gets (fun s => xfer_at s p).
Definition upd_xfer {D} (p : xfer_ptr) (f : xdma_transfer -> xdma_transfer) : M (est D) unit :=
  modify (fun s => s <| es_heap ::= alter f p |>).

#[local] Transparent wp.
Lemma wp_the_engine {D} (Q : _ -> est D -> Prop) s : Q (es_eng s) s -> wp the_engine Q s.
Proof. done. Qed.
Lemma wp_the_xfer {D} p (Q : _ -> est D -> Prop) s : Q (xfer_at s p) s -> wp (the_xfer p) Q s.
Proof. done. Qed.
Lemma wp_upd_engine {D} f (Q : _ -> est D -> Prop) s :
  Q tt (s <| es_eng ::= f |>) -> wp (upd_engine f) Q s.
Proof. done. Qed.
Lemma wp_upd_xfer {D} p f (Q : _ -> est D -> Prop) s :
  Q tt (s <| es_heap ::= alter f p |>) -> wp (upd_xfer p f) Q s.
Proof. done. Qed.
#[global] Opaque wp.

(** The effects when only the engine's own state matters: the rest of the world
    becomes any [k]. *)
Lemma wp_est_read {D} `{Env D} a (Q : Z -> est D -> Prop) s :
  (forall v k, 0 <= v < 4294967296 -> Q v (s <| es_k := k |>)) -> wp (read_register a) Q s.
Proof. intros HQ. apply wp_read. intros v d Hv _. by apply HQ. Qed.
Lemma wp_est_write {D} `{Env D} v a (Q : unit -> est D -> Prop) s :
  (forall k, Q tt (s <| es_k := k |>)) -> wp (write_register v a) Q s.
Proof. intros HQ. by apply wp_write, HQ. Qed.
Lemma wp_est_call {D} `{Env D} c (Q : Z -> est D -> Prop) s :
  (forall v k, Q v (s <| es_k := k |>)) -> wp (call c) Q s.
Proof. intros HQ. apply wp_call. intros v d _. by apply HQ. Qed.
Lemma wp_est_call_ {D} `{Env D} c (Q : unit -> est D -> Prop) s :
  (forall k, Q tt (s <| es_k := k |>)) -> wp (call_ c) Q s.
Proof. intros HQ. apply wp_call_. intros v d _. by apply HQ. Qed.

Ltac est_step :=
  lazymatch goal with
  | |- wp the_engine _ _ => apply wp_the_engine
  | |- wp (the_xfer _) _ _ => apply wp_the_xfer
  | |- wp (upd_engine _) _ _ => apply wp_upd_engine
  | |- wp (upd_xfer _ _) _ _ => apply wp_upd_xfer
  | |- wp (read_register _) _ _ => apply wp_est_read; intros ? ? ?
  | |- wp (write_register _ _) _ _ => apply wp_est_write; intros ?
  | |- wp (call _) _ _ => apply wp_est_call; intros ? ?
  | |- wp (call_ _) _ _ => apply wp_est_call_; intros ?
  | _ => wp_step
  end; cbv beta.

(** The effects with the events they leave in the trace. *)
Lemma wp_tr_read {D} `{Env D} a (Q : Z -> est D -> Prop) s :
  (forall v k, 0 <= v < 4294967296 -> k_trace k = k_trace (es_k s) ++ [Ev_read a v] ->
     Q v (s <| es_k := k |>)) -> wp (read_register a) Q s.
Proof. intros HQ. apply wp_read. intros v d Hv _. by apply HQ. Qed.
Lemma wp_tr_write {D} `{Env D} v a (Q : unit -> est D -> Prop) s :
  (forall k, k_trace k = k_trace (es_k s) ++ [Ev_write a (u32 v)] -> Q tt (s <| es_k := k |>)) ->
  wp (write_register v a) Q s.
Proof. intros HQ. by apply wp_write, HQ. Qed.
Lemma wp_tr_call {D} `{Env D} c (Q : Z -> est D -> Prop) s :
  (forall v k, k_trace k = k_trace (es_k s) ++ [Ev_call c v] -> Q v (s <| es_k := k |>)) ->
  wp (call c) Q s.
Proof. intros HQ. apply wp_call. intros v d _. by apply HQ. Qed.
Lemma wp_tr_call_ {D} `{Env D} c (Q : unit -> est D -> Prop) s :
  (forall v k, k_trace k = k_trace (es_k s) ++ [Ev_call c v] -> Q tt (s <| es_k := k |>)) ->
  wp (call_ c) Q s.
Proof. intros HQ. apply wp_call_. intros v d _. by apply (HQ v). Qed.

Ltac tr_step :=
  lazymatch goal with
  | |- wp the_engine _ _ => apply wp_the_engine
  | |- wp (the_xfer _) _ _ => apply wp_the_xfer
  | |- wp (upd_engine _) _ _ => apply wp_upd_engine
  | |- wp (upd_xfer _ _) _ _ => apply wp_upd_xfer
  | |- wp (read_register _) _ _ => apply wp_tr_read; intros ? ? ? ?
  | |- wp (write_register _ _) _ _ => apply wp_tr_write; intros ? ?
  | |- wp (call _) _ _ => apply wp_tr_call; intros ? ? ?
  | |- wp (call_ _) _ _ => apply wp_tr_call_; intros ? ? ?
  | |- wp (if 0 <? 0 then _ else _) _ _ => change (0 <? 0) with false; cbv iota
  | _ => wp_step
  end; cbv beta.

(** Closes the equation between the final trace and the events listed. *)
Ltac trace_eq :=
  fld;
  repeat match goal with
  | E : k_trace ?k = _ |- context [k_trace ?k] => rewrite E; clear E
  end;
  rewrite <- ?app_assoc; cbn [app]; reflexivity.
