(* ===== verification/Desc.v ===== *)
(** Hardware descriptors ([libxdma.c]): building, linking and terminating the
    chains the SG DMA engine fetches, and the fetch itself as the abstract
    reading of a chain in memory. *)
From S2P Require Import Prelude Kernel Types.
Local Open Scope Z_scope.

(** ** The code *)

(** Arithmetic on [unsigned int]; [min] compares unsigned values. *)
(* @src xdma/libxdma.c:636-663 xdma_get_next_adj *)
Definition xdma_get_next_adj (remaining next_lo : Z) : Z :=
  if remaining <=? 1 then 0
  else
    let next_index :=
      Z.shiftr (Z.land next_lo (XDMA_PAGE_SIZE - 1)) 5 mod XDMA_MAX_ADJ_BLOCK_SIZE in
    Z.min (u32 (XDMA_MAX_ADJ_BLOCK_SIZE - next_index - 1)) (u32 (remaining - 1)).

(** [desc_virt + i] in the engine's descriptor array. *)
Definition upd_desc (i : Z) (f : xdma_desc -> xdma_desc) (ring : list xdma_desc) :
    list xdma_desc :=
  alter f (Z.to_nat i) ring.

Definition desc_init_one (next : Z) (d : xdma_desc) : xdma_desc :=
  d <| d_next_lo := PCI_DMA_L next |> <| d_next_hi := PCI_DMA_H next |>
    <| d_bytes := 0 |> <| d_control := DESC_MAGIC |>.

(** The loop of [transfer_desc_init] over [i < count - 1]; the result is the
    array and the index the loop leaves in [i]. *)
(* @src xdma/libxdma.c:2268-2277 transfer_desc_init *)
Fixpoint desc_init_loop (n : nat) (i desc_virt desc_bus : Z) (ring : list xdma_desc) :
    Z * list xdma_desc :=
  match n with
  | O => (i, ring)
  | S n' =>
      let desc_bus := u64 (desc_bus + sizeof_xdma_desc) in
      desc_init_loop n' (i + 1) desc_virt desc_bus
        (upd_desc (desc_virt + i) (desc_init_one desc_bus) ring)
  end.

(* @src xdma/libxdma.c:2261-2286 transfer_desc_init *)
Definition transfer_desc_init (desc_virt desc_bus count : Z) (ring : list xdma_desc) :
    list xdma_desc :=
  let '(i, ring) := desc_init_loop (Z.to_nat (count - 1)) 0 desc_virt desc_bus ring in
  upd_desc (desc_virt + i) (desc_init_one 0) ring.

(** [second] is [None] for a [NULL] second descriptor. *)
(* @src xdma/libxdma.c:2297-2325 xdma_desc_link *)
Definition xdma_desc_link (first : xdma_desc) (second : option Z) (second_bus : Z) :
    xdma_desc :=
  let control := Z.land (d_control first) 0x00FFC0ff in
  let first := match second with
               | Some _ => first <| d_next_lo := PCI_DMA_L second_bus |>
                                 <| d_next_hi := PCI_DMA_H second_bus |>
               | None => first <| d_next_lo := 0 |> <| d_next_hi := 0 |>
               end in
  first <| d_control := Z.lor control DESC_MAGIC |>.

(* @src xdma/libxdma.c:2327-2336 xdma_desc_adjacent *)
Definition xdma_desc_adjacent (desc : xdma_desc) (next_adjacent : Z) : xdma_desc :=
  let control := Z.land (d_control desc) 0x0000f0ff in
  desc <| d_control :=
    Z.lor control (Z.lor 0xAD4B0000 (u32 (Z.shiftl next_adjacent 8))) |>.

(* @src xdma/libxdma.c:2338-2353 xdma_desc_control_set *)
Definition xdma_desc_control_set (first : xdma_desc) (control_field : Z) : Z * xdma_desc :=
  let control := Z.ldiff (d_control first) LS_BYTE_MASK in
  if nz (Z.ldiff control_field LS_BYTE_MASK) then (- EINVAL, first)
  else (0, first <| d_control := Z.lor control control_field |>).

(** [memset] of [count] descriptors starting at [desc_virt]. *)
(* @src xdma/libxdma.c:2355-2365 xdma_desc_done *)
Definition xdma_desc_done (desc_virt count : Z) (ring : list xdma_desc) : list xdma_desc :=
  imap (fun i d => if (desc_virt <=? Z.of_nat i) && (Z.of_nat i <? desc_virt + count)
                   then desc_zero else d) ring.

(* @src xdma/libxdma.c:2367-2398 xdma_desc_set *)
Definition xdma_desc_set (desc : xdma_desc) (rc_bus_addr ep_addr len : Z)
    (dir : dma_data_direction) : xdma_desc :=
  let desc := desc <| d_bytes := u32 len |> in
  if dir_eqb dir DMA_TO_DEVICE then
    desc <| d_src_addr_lo := PCI_DMA_L rc_bus_addr |>
         <| d_src_addr_hi := PCI_DMA_H rc_bus_addr |>
         <| d_dst_addr_lo := PCI_DMA_L ep_addr |>
         <| d_dst_addr_hi := PCI_DMA_H ep_addr |>
  else
    desc <| d_src_addr_lo := PCI_DMA_L ep_addr |>
         <| d_src_addr_hi := PCI_DMA_H ep_addr |>
         <| d_dst_addr_lo := PCI_DMA_L rc_bus_addr |>
         <| d_dst_addr_hi := PCI_DMA_H rc_bus_addr |>.

(** ** Reading a chain the way the engine does

    The fields of a descriptor as 64-bit addresses, and the list of descriptors
    reached from a bus address by following [next] until a descriptor asks the
    engine to stop.  [mem] is the descriptor a bus address holds. *)

Definition word64 (lo hi : Z) : Z := lo + Z.shiftl hi 32.
Definition desc_src (d : xdma_desc) : Z := word64 (d_src_addr_lo d) (d_src_addr_hi d).
Definition desc_dst (d : xdma_desc) : Z := word64 (d_dst_addr_lo d) (d_dst_addr_hi d).
Definition desc_next (d : xdma_desc) : Z := word64 (d_next_lo d) (d_next_hi d).
Definition desc_magic (d : xdma_desc) : Z := Z.shiftr (d_control d) 16.
Definition desc_adj (d : xdma_desc) : Z := Z.land (Z.shiftr (d_control d) 8) 0x3f.
Definition desc_flags (d : xdma_desc) : Z := Z.land (d_control d) LS_BYTE_MASK.
Definition desc_stop (d : xdma_desc) : bool := tst (d_control d) XDMA_DESC_STOPPED.

Fixpoint fetch_chain (fuel : nat) (mem : Z -> option xdma_desc) (addr : Z) :
    option (list xdma_desc) :=
  match fuel with
  | O => None
  | S fuel =>
      d ← mem addr;
      if desc_stop d then Some [d]
      else ds ← fetch_chain fuel mem (desc_next d); Some (d :: ds)
  end.

(** The descriptor array of an engine, placed at bus address [base]. *)
Definition ring_mem (base : Z) (ring : list xdma_desc) (addr : Z) : option xdma_desc :=
  if (base <=? addr) && ((addr - base) mod sizeof_xdma_desc =? 0)
  then ring !! Z.to_nat ((addr - base) / sizeof_xdma_desc) else None.

(** ** Lemmas *)

Lemma PCI_DMA_word64 a : 0 <= a < 2 ^ 64 -> word64 (PCI_DMA_L a) (PCI_DMA_H a) = a.
Proof.
  intros. unfold word64, PCI_DMA_L, PCI_DMA_H.
  rewrite Z.shiftr_shiftr by lia. change (16 + 16) with 32.
  rewrite u32_small by (rewrite Z.shiftr_div_pow2 by lia; split;
    [apply Z.div_pos|apply Z.div_lt_upper_bound]; lia).
  change 0xffffffff with (2 ^ 32 - 1). rewrite land_ones_mod by lia.
  rewrite Z.shiftl_mul_pow2, Z.shiftr_div_pow2 by lia.
  pose proof (Z_div_mod_eq_full a (2 ^ 32)). lia.
Qed.

(** The reserved bits 12-13 of the control word survive [xdma_desc_adjacent]. *)
Lemma desc_adj_adjacent d n :
  0 <= n < 64 ->
  desc_adj (xdma_desc_adjacent d n) = Z.lor n (Z.land (desc_adj d) 0x30).
Proof.
  intros. unfold desc_adj, xdma_desc_adjacent. fld.
  rewrite u32_small by (rewrite Z.shiftl_mul_pow2; lia).
  bitwise 6%nat.
  - apply land_bound_r. lia.
  - apply lor_bound; [lia|]. apply land_bound_r. lia.
Qed.

Lemma desc_flags_adjacent d n : desc_flags (xdma_desc_adjacent d n) = desc_flags d.
Proof.
  unfold desc_flags, xdma_desc_adjacent, LS_BYTE_MASK. fld. unfold u32.
  rewrite <- (land_ones_mod 32) by lia. change (2 ^ 32 - 1) with 0xffffffff.
  bitwise 8%nat; apply land_bound_r; lia.
Qed.

Lemma desc_magic_adjacent d n :
  0 <= n < 64 -> desc_magic (xdma_desc_adjacent d n) = 0xAD4B.
Proof.
  intros. unfold desc_magic, xdma_desc_adjacent. fld.
  rewrite u32_small by (rewrite Z.shiftl_mul_pow2; lia).
  assert (forall i, 8 <= i -> Z.testbit n i = false) as Hn.
  { intros i ?. rewrite <- (Z.mod_small n (2 ^ 8)) by lia. apply Z.mod_pow2_bits_high. lia. }
  bitwise 16%nat; rewrite ?Hn by lia; try btauto; [|lia].
  rewrite Z.shiftr_div_pow2 by lia.
  assert (0 <= Z.lor (Z.land (d_control d) 61695) (Z.lor 2907373568 (Z.shiftl n 8)) < 2 ^ 32).
  { repeat apply lor_bound; [apply land_bound_r| |rewrite Z.shiftl_mul_pow2]; lia. }
  split; [apply Z.div_pos|apply Z.div_lt_upper_bound]; lia.
Qed.

Lemma desc_stop_flags d : desc_stop d = Z.testbit (desc_flags d) 0.
Proof.
  unfold desc_stop, desc_flags, tst, nz, XDMA_DESC_STOPPED, LS_BYTE_MASK, bit.
  change (Z.shiftl 1 0) with 1. rewrite Z.land_spec. change (Z.testbit 255 0) with true.
  rewrite andb_true_r. change 1 with (2 ^ 1 - 1). rewrite land_ones_mod by lia.
  change (2 ^ 1) with 2. rewrite Zmod_odd, <- Z.bit0_odd. by destruct (Z.testbit _ _).
Qed.

(** [xdma_desc_control_set] replaces the flag byte and keeps the rest. *)
Lemma control_set_flags d f :
  0 <= f < 256 ->
  fst (xdma_desc_control_set d f) = 0
  /\ desc_flags (snd (xdma_desc_control_set d f)) = f
  /\ desc_adj (snd (xdma_desc_control_set d f)) = desc_adj d.
Proof.
  intros Hf.
  assert (forall i, 8 <= i -> Z.testbit f i = false) as Hb.
  { intros i ?. rewrite <- (Z.mod_small f (2 ^ 8)) by lia. apply Z.mod_pow2_bits_high. lia. }
  assert (Z.ldiff f LS_BYTE_MASK = 0) as H0.
  { unfold LS_BYTE_MASK. bitwise 8%nat; [apply ldiff_bound|]; lia. }
  unfold xdma_desc_control_set. rewrite H0. cbn [nz Z.eqb negb fst snd]. split; [done|].
  unfold desc_flags, desc_adj, LS_BYTE_MASK. fld. split.
  - bitwise 8%nat; [apply land_bound_r|]; lia.
  - bitwise 6%nat; rewrite ?Hb by lia; try btauto; apply land_bound_r; lia.
Qed.

Lemma control_set_rest d f :
  let d' := snd (xdma_desc_control_set d f) in
  d_bytes d' = d_bytes d /\ desc_src d' = desc_src d /\ desc_dst d' = desc_dst d
  /\ desc_next d' = desc_next d /\ d_next_lo d' = d_next_lo d.
Proof. unfold xdma_desc_control_set. by case_match. Qed.

Lemma adjacent_rest d n :
  let d' := xdma_desc_adjacent d n in
  d_bytes d' = d_bytes d /\ desc_src d' = desc_src d /\ desc_dst d' = desc_dst d
  /\ desc_next d' = desc_next d /\ d_next_lo d' = d_next_lo d.
Proof. done. Qed.

Lemma desc_next_init next d :
  0 <= next < 2 ^ 64 -> desc_next (desc_init_one next d) = next.
Proof. intros. unfold desc_next, desc_init_one. fld. by apply PCI_DMA_word64. Qed.

(** The adjacency count of the next descriptor, as the engine uses it: the
    burst of [adj + 1] descriptors that starts at [next_lo] stays inside the
    transfer and inside one 64-descriptor block. *)
Lemma get_next_adj_range remaining next_lo :
  0 <= remaining < 2 ^ 31 -> 0 <= next_lo ->
  let a := xdma_get_next_adj remaining next_lo in
  0 <= a < 64 /\ a <= Z.max 0 (remaining - 1)
  /\ Z.shiftr (Z.land next_lo 0xfff) 5 mod 64 + a <= 63.
Proof.
  intros Hr Hn a. subst a. unfold xdma_get_next_adj, XDMA_PAGE_SIZE, XDMA_MAX_ADJ_BLOCK_SIZE.
  change (4096 - 1) with 0xfff.
  pose proof (Z.mod_pos_bound (Z.shiftr (Z.land next_lo 0xfff) 5) 64 ltac:(lia)) as Hi.
  set (i := _ mod 64) in *. destruct (Z.leb_spec remaining 1).
  - lia.
  - rewrite !u32_small by lia. lia.
Qed.

(** *** Updates of a range of the descriptor array *)

(** [f i] applied to descriptor [v + i], for [i] from [i0] to [i0 + n - 1]. *)
Fixpoint ring_for (n : nat) (i0 v : Z) (f : Z -> xdma_desc -> xdma_desc)
    (ring : list xdma_desc) : list xdma_desc :=
  match n with
  | O => ring
  | S n' => ring_for n' (i0 + 1) v f (upd_desc (v + i0) (f i0) ring)
  end.

Lemma length_upd_desc i f ring : length (upd_desc i f ring) = length ring.
Proof. apply length_alter. Qed.

Lemma lookup_upd_desc i f ring (k : nat) :
  0 <= i ->
  upd_desc i f ring !! k = if decide (Z.of_nat k = i) then f <$> ring !! k else ring !! k.
Proof.
  intros. unfold upd_desc. rewrite list_lookup_alter.
  by repeat case_decide; subst; rewrite ?Nat2Z.id; try lia.
Qed.

Lemma length_ring_for n i0 v f ring : length (ring_for n i0 v f ring) = length ring.
Proof.
  revert i0 ring. induction n as [|n IH]; intros; cbn; [done|].
  by rewrite IH, length_upd_desc.
Qed.

Lemma lookup_ring_for n i0 v f ring (k : nat) :
  0 <= v + i0 ->
  ring_for n i0 v f ring !! k =
  if decide (v + i0 <= Z.of_nat k < v + i0 + Z.of_nat n)
  then f (Z.of_nat k - v) <$> ring !! k else ring !! k.
Proof.
  revert i0 ring. induction n as [|n IH]; intros i0 ring Hi; cbn [ring_for].
  - by rewrite decide_False by lia.
  - rewrite IH by lia. rewrite lookup_upd_desc by lia.
    destruct (decide (Z.of_nat k = v + i0)) as [E|E].
    + rewrite decide_False, decide_True by lia. by replace (Z.of_nat k - v) with i0 by lia.
    + by repeat case_decide; try lia.
Qed.

Lemma ring_for_ext n i0 v f g ring :
  (forall j d, i0 <= j < i0 + Z.of_nat n -> f j d = g j d) ->
  ring_for n i0 v f ring = ring_for n i0 v g ring.
Proof.
  revert i0 ring. induction n as [|n IH]; intros i0 ring Hfg; cbn [ring_for]; [done|].
  assert (upd_desc (v + i0) (f i0) ring = upd_desc (v + i0) (g i0) ring) as ->.
  { apply list_alter_ext; [|done]. intros d _. apply Hfg. lia. }
  apply IH. intros. apply Hfg. lia.
Qed.

Lemma upd_desc_compose i f g ring :
  upd_desc i f (upd_desc i g ring) = upd_desc i (fun d => f (g d)) ring.
Proof.
  apply list_eq. intros k. unfold upd_desc. rewrite !list_lookup_alter.
  repeat case_decide; subst; try done. by destruct (ring !! _).
Qed.

Lemma desc_init_loop_eq n i v bus ring :
  0 <= bus -> bus + 32 * Z.of_nat n < 2 ^ 64 ->
  desc_init_loop n i v bus ring =
  (i + Z.of_nat n,
   ring_for n i v (fun j => desc_init_one (bus + 32 * (j - i + 1))) ring).
Proof.
  revert i bus ring. induction n as [|n IH]; intros i bus ring Hb Hn; cbn [desc_init_loop ring_for].
  - f_equal. lia.
  - unfold sizeof_xdma_desc. rewrite u64_small by lia. rewrite IH by lia. f_equal; [lia|].
    replace (bus + 32 * (i - i + 1)) with (bus + 32) by lia.
    apply ring_for_ext. intros j d _. by replace (bus + 32 + 32 * (j - (i + 1) + 1))
      with (bus + 32 * (j - i + 1)) by lia.
Qed.

Lemma length_transfer_desc_init v bus n ring :
  length (transfer_desc_init v bus n ring) = length ring.
Proof.
  unfold transfer_desc_init.
  assert (forall m i b r, length (snd (desc_init_loop m i v b r)) = length r) as Hl.
  { intros m. induction m as [|m IH]; intros; cbn; [done|]. by rewrite IH, length_upd_desc. }
  destruct (desc_init_loop _ _ _ _ _) as [i r] eqn:E.
  rewrite length_upd_desc. specialize (Hl (Z.to_nat (n - 1)) 0 bus ring). by rewrite E in Hl.
Qed.

(** The chain [transfer_desc_init] builds: descriptor [i] points to the address
    of descriptor [i + 1], the last one to 0. *)
Lemma lookup_transfer_desc_init v bus n ring (k : nat) :
  0 <= v -> 0 < n -> 0 <= bus -> bus + 32 * n < 2 ^ 64 ->
  transfer_desc_init v bus n ring !! k =
  if decide (v <= Z.of_nat k < v + n)
  then desc_init_one (if decide (Z.of_nat k = v + n - 1) then 0
                      else bus + 32 * (Z.of_nat k - v + 1)) <$> ring !! k
  else ring !! k.
Proof.
  intros. unfold transfer_desc_init. rewrite desc_init_loop_eq by lia.
  rewrite lookup_upd_desc by lia. rewrite lookup_ring_for by lia.
  destruct (decide (Z.of_nat k = v + (0 + Z.of_nat (Z.to_nat (n - 1))))) as [E|E].
  - rewrite (decide_False (P := v + 0 <= _ < _)), decide_True, decide_True by lia. done.
  - destruct (decide (v <= Z.of_nat k < v + n)).
    + rewrite decide_True, decide_False by lia.
      by replace (Z.of_nat k - v - 0 + 1) with (Z.of_nat k - v + 1) by lia.
    + by rewrite decide_False by lia.
Qed.

(** *** Fetching a chain *)

Lemma ring_mem_at base ring v :
  0 <= v -> ring_mem base ring (base + 32 * v) = ring !! Z.to_nat v.
Proof.
  intros. unfold ring_mem, sizeof_xdma_desc.
  replace (base + 32 * v - base) with (v * 32) by lia.
  rewrite Z.mod_mul, Z.div_mul by lia.
  by destruct (Z.leb_spec base (base + 32 * v)); [|lia].
Qed.

Lemma fetch_chain_S fuel mem addr :
  fetch_chain (S fuel) mem addr =
  (d ← mem addr; if desc_stop d then Some [d]
                 else ds ← fetch_chain fuel mem (desc_next d); Some (d :: ds)).
Proof. done. Qed.

(** Descriptors [v], ..., [v + n - 1], each pointing to the next and only the
    last asking the engine to stop, are exactly what the engine fetches. *)
Lemma fetch_run base ring (n : nat) v :
  (0 < n)%nat -> 0 <= v ->
  (forall j, 0 <= j < Z.of_nat n -> exists d, ring !! Z.to_nat (v + j) = Some d
     /\ desc_stop d = bool_decide (j = Z.of_nat n - 1)
     /\ (j < Z.of_nat n - 1 -> desc_next d = base + 32 * (v + j + 1))) ->
  fetch_chain (S n) (ring_mem base ring) (base + 32 * v)
  = Some (take n (drop (Z.to_nat v) ring)).
Proof.
  revert v. induction n as [|n IH]; intros v Hn Hv Hd; [lia|].
  destruct (Hd 0 ltac:(lia)) as (d & Hl & Hs & Hx).
  rewrite Z.add_0_r in Hl. rewrite fetch_chain_S, ring_mem_at, Hl by lia.
  cbn [mbind option_bind]. rewrite Hs. rewrite (drop_S _ _ _ Hl). cbn [take].
  destruct (decide (n = O)) as [->|Hn0].
  - by rewrite bool_decide_true by lia.
  - rewrite bool_decide_false by lia. rewrite Hx by lia.
    replace (v + 0 + 1) with (v + 1) by lia.
    replace (S (Z.to_nat v)) with (Z.to_nat (v + 1)) by lia.
    rewrite IH; [done|lia|lia|].
    intros j Hj. destruct (Hd (j + 1) ltac:(lia)) as (d' & Hl' & Hs' & Hx').
    exists d'. rewrite <- Z.add_assoc, (Z.add_comm 1). split; [done|]. split.
    + rewrite Hs'. apply bool_decide_ext. lia.
    + intros. rewrite Hx' by lia. lia.
Qed.
