(* ===== verification/Request.v ===== *)
(** [xdma_init_request] ([libxdma.c]): cutting a DMA mapped scatterlist into
    descriptor sized pieces.  The request is one allocation with a flexible array
    of [sw_desc]; [rq_sdesc_nr] is the number of elements the allocation holds and
    [rq_sdesc] the elements written, so that writing past the allocation is
    visible as [length rq_sdesc > rq_sdesc_nr]. *)
From S2P Require Import Prelude Kernel Types.
Local Open Scope Z_scope.

(** ** The code *)

Definition sizeof_sw_desc : Z := 16.

(** The number of extra pieces reserved for one entry; [0] when it fits. *)
(* @src xdma/libxdma.c:3106-3111 xdma_init_request *)
Definition sg_extra (blen len : Z) : Z :=
  if blen <? len then u32 (len + blen - 1) / blen else 0.

Fixpoint sgl_extra (blen : Z) (sgl : list sg_entry) (extra : Z) : Z :=
  match sgl with
  | [] => extra
  | sg :: sgl => sgl_extra blen sgl (s32 (extra + sg_extra blen (sg_dma_len sg)))
  end.

(** The [while (tlen)] loop of one entry: the value of [tlen] when the loop is
    left (0 when it ends by its own condition) and the pieces it wrote. *)
(* @src xdma/libxdma.c:3128-3140 xdma_init_request *)
Fixpoint split_loop (fuel : nat) (blen addr tlen : Z) : Z * list sw_desc :=
  match fuel with
  | O => (tlen, [])
  | S fuel =>
      if tlen =? 0 then (0, [])
      else if blen <? tlen then
        let '(t, l) := split_loop fuel blen (u64 (addr + blen)) (u32 (tlen - blen)) in
        (t, {| sw_addr := addr; sw_len := blen |} :: l)
      else
        let '(t, l) := split_loop fuel blen addr 0 in
        (t, {| sw_addr := addr; sw_len := tlen |} :: l)
  end.

(** Enough iterations for one entry: see [split_loop_ok]. *)
Definition split_fuel (blen len : Z) : nat := Z.to_nat (len / blen + 2).

Definition split_sg (blen : Z) (sg : sg_entry) : list sw_desc :=
  snd (split_loop (split_fuel blen (sg_dma_len sg)) blen (sg_dma_address sg) (sg_dma_len sg)).

(** The first [n] entries of the table, which may be longer than the number of
    entries mapped.  The first pass counts them in an [int], the second compares
    with the unsigned [sgt->nents]. *)
Definition first_sgl (n : Z) (sgt : sg_table) : list sg_entry :=
  take (Z.to_nat n) (sgt_sgl sgt).
Definition mapped_sgl (sgt : sg_table) : list sg_entry := first_sgl (u32 (sgt_nents sgt)) sgt.

(* @src xdma/libxdma.c:3122-3140 xdma_init_request *)
Definition split_sgl (blen : Z) (sgl : list sg_entry) : list sw_desc :=
  mjoin (split_sg blen <$> sgl).

Fixpoint sgl_total_len (sgl : list sg_entry) (total : Z) : Z :=
  match sgl with
  | [] => total
  | sg :: sgl => sgl_total_len sgl (u32 (total + sg_dma_len sg))
  end.

Section Code.
Context {D : Type} `{Env D} {S : Type} `{Has S (kstate D)}.
(** [sizeof(struct xdma_request_cb)], which depends on the kernel's wait queue
    type, and [VMALLOC_START], [VMALLOC_END]. *)
Variable sizeof_request_cb : Z.
Variable vmalloc_range : Z * Z.

(* @src xdma/libxdma.c:3068-3075 xdma_request_free *)
Definition xdma_request_free (req : Z) : M S unit :=
  if (fst vmalloc_range <=? req) && (req <? snd vmalloc_range)
  then call_ (K_vfree req) else call_ (K_kfree req).

(** The address of the allocation, 0 when out of memory, and its size. *)
(* @src xdma/libxdma.c:3077-3095 xdma_request_alloc *)
Definition xdma_request_alloc (sdesc_nr : Z) : M S (Z * Z) :=
  let size := u32 (sizeof_request_cb + u32 sdesc_nr * sizeof_sw_desc) in
  req ← call (K_kzalloc size);
  if req =? 0 then req ← call (K_vmalloc size); mret (req, size)
  else mret (req, size).

Definition request_zero (size : Z) : xdma_request_cb :=
  {| rq_sgt := 0; rq_ep_addr := 0; rq_aperture := 0; rq_total_len := 0;
     rq_offset := 0; rq_sg := 0; rq_sg_idx := 0; rq_sg_offset := 0; rq_cb := None;
     rq_sw_desc_idx := 0; rq_sw_desc_cnt := 0;
     rq_sdesc_nr := (size - sizeof_request_cb) / sizeof_sw_desc; rq_sdesc := [] |}.

(** [sgt] with its identity [sgt_id]; the result is the address and contents
    of the request, [None] for [NULL]. *)
(* @src xdma/libxdma.c:3097-3153 xdma_init_request *)
Definition xdma_init_request (blen : Z) (sgt_id : Z) (sgt : sg_table) (ep_addr : Z) :
    M S (option (Z * xdma_request_cb)) :=
  let max := s32 (sgt_nents sgt) in
  let extra := sgl_extra blen (first_sgl max sgt) 0 in
  let max := s32 (max + extra) in
  '(p, size) ← xdma_request_alloc max;
  if p =? 0 then mret None
  else
    let req := (request_zero size) <| rq_sgt := sgt_id |> <| rq_ep_addr := ep_addr |>
                 <| rq_total_len := sgl_total_len (mapped_sgl sgt) 0 |>
                 <| rq_sdesc := split_sgl blen (mapped_sgl sgt) |> in
    let j := Z.of_nat (length (rq_sdesc req)) in
    if max <? j then xdma_request_free p ;; mret None
    else mret (Some (p, req <| rq_sw_desc_cnt := j |>)).
End Code.

(** ** What the pieces cover *)

(** The bus addresses of the bytes of an entry and of a piece, in order. *)
Definition sg_bytes (sg : sg_entry) : list Z := seqZ (sg_dma_address sg) (sg_dma_len sg).
Definition sw_bytes (d : sw_desc) : list Z := seqZ (sw_addr d) (sw_len d).

(** An entry the mapping can produce: a 32-bit length, addresses below 2^64. *)
Definition sg_ok (sg : sg_entry) : Prop :=
  0 <= sg_dma_len sg < 2 ^ 32 /\ 0 <= sg_dma_address sg
  /\ sg_dma_address sg + sg_dma_len sg < 2 ^ 64.

#[export] Instance sg_ok_dec sg : Decision (sg_ok sg).
Proof. unfold sg_ok. solve_decision. Defined.

(** The number of pieces of an entry. *)
Definition sg_pieces (blen : Z) (sg : sg_entry) : Z := (sg_dma_len sg + blen - 1) / blen.

(** ** Lemmas *)

Lemma split_loop_ok fuel blen addr tlen :
  0 < blen -> 0 <= tlen < 2 ^ 32 -> 0 <= addr -> addr + tlen < 2 ^ 64 ->
  tlen < blen * (Z.of_nat fuel - 1) ->
  let '(t, l) := split_loop fuel blen addr tlen in
  t = 0
  /\ mjoin (sw_bytes <$> l) = seqZ addr tlen
  /\ Forall (fun d => 0 < sw_len d <= blen) l
  /\ Z.of_nat (length l) = (tlen + blen - 1) / blen.
Proof.
  revert addr tlen. induction fuel as [|fuel IH]; intros addr tlen Hb Ht Ha Hat Hf; [lia|].
  cbn [split_loop]. destruct (Z.eqb_spec tlen 0) as [->|Hnz].
  { repeat split; [constructor|]. cbn. rewrite Z.div_small; lia. }
  destruct (Z.ltb_spec blen tlen) as [Hlt|Hle].
  - rewrite u64_small, u32_small by lia.
    specialize (IH (addr + blen) (tlen - blen)).
    destruct (split_loop fuel blen (addr + blen) (tlen - blen)) as [t l].
    destruct IH as (-> & Hby & Hall & Hlen); try lia.
    repeat split.
    + rewrite fmap_cons, mjoin_cons, Hby. unfold sw_bytes at 1. cbn.
      rewrite <- seqZ_app by lia. f_equal. lia.
    + constructor; [cbn; lia|done].
    + cbn [length]. rewrite Nat2Z.inj_succ, Hlen.
      replace (tlen + blen - 1) with (tlen - blen + blen - 1 + 1 * blen) by lia.
      rewrite Z.div_add by lia. lia.
  - destruct fuel as [|fuel]; [nia|]. cbn. repeat split.
    + unfold sw_bytes; cbn. by rewrite app_nil_r.
    + constructor; [cbn; lia|done].
    + apply Z.div_unique_pos with (tlen - 1); lia.
Qed.

Lemma split_sg_ok blen sg :
  0 < blen -> sg_ok sg ->
  mjoin (sw_bytes <$> split_sg blen sg) = sg_bytes sg
  /\ Forall (fun d => 0 < sw_len d <= blen) (split_sg blen sg)
  /\ Z.of_nat (length (split_sg blen sg)) = sg_pieces blen sg.
Proof.
  intros Hb (Hl & Ha & Hal). unfold split_sg, split_fuel.
  pose proof (split_loop_ok (Z.to_nat (sg_dma_len sg / blen + 2)) blen
                (sg_dma_address sg) (sg_dma_len sg) Hb Hl Ha Hal) as Hs.
  pose proof (Z.div_pos (sg_dma_len sg) blen ltac:(lia) Hb).
  pose proof (Z.mul_succ_div_gt (sg_dma_len sg) blen Hb).
  destruct (split_loop _ _ _ _) as [t l].
  destruct Hs as (_ & ? & ? & ?); [rewrite Z2Nat.id; nia|]. done.
Qed.

Lemma split_sgl_ok blen sgl :
  0 < blen -> Forall sg_ok sgl ->
  mjoin (sw_bytes <$> split_sgl blen sgl) = mjoin (sg_bytes <$> sgl)
  /\ Forall (fun d => 0 < sw_len d <= blen) (split_sgl blen sgl)
  /\ Z.of_nat (length (split_sgl blen sgl)) = sum_Z (sg_pieces blen <$> sgl).
Proof.
  intros Hb. induction 1 as [|sg sgl Hsg _ IH]; [done|].
  destruct (split_sg_ok blen sg Hb Hsg) as (H1 & H2 & H3), IH as (I1 & I2 & I3).
  unfold split_sgl in *. rewrite !fmap_cons, !mjoin_cons, fmap_app, mjoin_app, H1, I1.
  repeat split; [by apply Forall_app|].
  rewrite length_app, Nat2Z.inj_add, H3, I3. done.
Qed.

Lemma sg_extra_pieces blen sg :
  0 < blen -> sg_ok sg -> sg_dma_len sg + blen <= 2 ^ 32 ->
  0 <= sg_extra blen (sg_dma_len sg) <= sg_pieces blen sg
  /\ sg_pieces blen sg <= 1 + sg_extra blen (sg_dma_len sg).
Proof.
  intros Hb (Hl & _ & _) Hw. unfold sg_extra, sg_pieces.
  destruct (Z.ltb_spec blen (sg_dma_len sg)) as [Hlt|Hle].
  - rewrite u32_small by lia.
    pose proof (Z.div_pos (sg_dma_len sg + blen - 1) blen). lia.
  - split; [split; [lia|apply Z.div_pos; lia]|].
    apply Z.lt_succ_r. apply Z.div_lt_upper_bound; lia.
Qed.

(** Without overflow the first pass reserves at least the pieces needed. *)
Lemma sgl_extra_enough blen sgl extra :
  0 < blen -> Forall sg_ok sgl ->
  Forall (fun sg => sg_dma_len sg + blen <= 2 ^ 32) sgl ->
  0 <= extra -> extra + sum_Z (sg_pieces blen <$> sgl) < 2 ^ 31 ->
  0 <= sgl_extra blen sgl extra <= extra + sum_Z (sg_pieces blen <$> sgl)
  /\ extra + sum_Z (sg_pieces blen <$> sgl)
     <= Z.of_nat (length sgl) + sgl_extra blen sgl extra.
Proof.
  intros Hb Hok. revert extra. induction Hok as [|sg sgl Hsg Hok IH]; intros extra Hw He Hs.
  { cbn in *. lia. }
  inversion Hw as [|? ? Hw1 Hw2]; subst. rewrite fmap_cons, sum_Z_cons in *. cbn [sgl_extra length] in *.
  pose proof (sg_extra_pieces blen sg Hb Hsg Hw1) as [[? ?] ?].
  assert (0 <= sum_Z (sg_pieces blen <$> sgl)).
  { apply sum_Z_nonneg, Forall_fmap. apply (Forall_impl _ _ _ Hok).
    intros s (? & ? & ?). unfold compose, sg_pieces. apply Z.div_pos; lia. }
  rewrite s32_small by lia.
  specialize (IH (extra + sg_extra blen (sg_dma_len sg)) Hw2 ltac:(lia) ltac:(lia)).
  lia.
Qed.

Lemma sgl_total_len_sum sgl t :
  sgl_total_len sgl (u32 t) = u32 (t + sum_Z (sg_dma_len <$> sgl)).
Proof.
  revert t. induction sgl as [|sg sgl IH]; intros t; cbn [sgl_total_len fmap list_fmap].
  - f_equal. cbn. lia.
  - rewrite u32_add_l, IH, sum_Z_cons. f_equal. lia.
Qed.

(** ** Properties *)

(** A mapped table whose sizes stay clear of the 32-bit counters of the code. *)
Record sgt_ok (size_cb blen : Z) (sgt : sg_table) : Prop := {
  sgt_blen : 0 < blen;
  sgt_cb : 0 <= size_cb;
  sgt_nents_ok : 0 <= sgt_nents sgt <= Z.of_nat (length (sgt_sgl sgt));
  sgt_entries : Forall sg_ok (sgt_sgl sgt);
  sgt_no_wrap : Forall (fun sg => sg_dma_len sg + blen <= 2 ^ 32) (sgt_sgl sgt);
  sgt_size : size_cb + 16 * (sgt_nents sgt + sum_Z (sg_pieces blen <$> sgt_sgl sgt)) < 2 ^ 32;
}.

Section Properties.
Context {D : Type} `{Env D} (size_cb : Z) (vr : Z * Z) (blen : Z) (sgt : sg_table)
  (Hok : sgt_ok size_cb blen sgt).

Lemma pieces_nonneg l : Forall sg_ok l -> Forall (Z.le 0) (sg_pieces blen <$> l).
Proof using Hok.
  intros Hl. pose proof (sgt_blen _ _ _ Hok). apply Forall_fmap. apply (Forall_impl _ _ _ Hl).
  intros sg (? & ? & ?). unfold compose, sg_pieces. apply Z.div_pos; lia.
Qed.

(** The capacity asked for is at least the number of pieces. *)
Lemma capacity_enough :
  let sgl := mapped_sgl sgt in
  let max := s32 (s32 (sgt_nents sgt) + sgl_extra blen (first_sgl (s32 (sgt_nents sgt)) sgt) 0) in
  0 <= Z.of_nat (length (split_sgl blen sgl)) <= max
  /\ size_cb + max * 16 < 2 ^ 32 /\ max < 2 ^ 31.
Proof using Hok.
  destruct Hok as [Hb Hc Hn He Hw Hs]. cbv zeta.
  pose proof (sum_Z_nonneg _ (pieces_nonneg _ He)) as Hp.
  unfold mapped_sgl. rewrite (s32_small (sgt_nents sgt)), u32_small by lia.
  set (sgl := first_sgl (sgt_nents sgt) sgt).
  assert (Forall sg_ok sgl /\ Forall (fun sg => sg_dma_len sg + blen <= 2 ^ 32) sgl) as [Hse Hsw].
  { by split; apply Forall_take. }
  assert (sum_Z (sg_pieces blen <$> sgl) <= sum_Z (sg_pieces blen <$> sgt_sgl sgt)) as Hle.
  { rewrite <- (take_drop (Z.to_nat (sgt_nents sgt)) (sgt_sgl sgt)) at 1.
    rewrite fmap_app, sum_Z_app. fold (first_sgl (sgt_nents sgt) sgt). fold sgl.
    pose proof (sum_Z_nonneg _ (pieces_nonneg (drop (Z.to_nat (sgt_nents sgt)) (sgt_sgl sgt))
      (Forall_drop _ _ _ He))). lia. }
  destruct (split_sgl_ok blen sgl Hb Hse) as (_ & _ & Hlen).
  destruct (sgl_extra_enough blen sgl 0 Hb Hse Hsw) as [[Hx0 Hx1] Hx2]; [lia|lia|].
  assert (Z.of_nat (length sgl) = sgt_nents sgt) as Hl.
  { subst sgl. unfold first_sgl. rewrite length_take. lia. }
  rewrite Hlen, s32_small by lia. pose proof (sum_Z_nonneg _ (pieces_nonneg _ Hse)). lia.
Qed.
End Properties.

(** The request [req] made for the mapped entries of [sgt] covers them: its pieces
    name exactly the bus addresses of the entries, in order; each is between one
    byte and [blen] bytes; every array element written is inside the allocation;
    the total is the sum of the lengths as an [unsigned int]. *)
Record request_covers (blen id ep : Z) (sgt : sg_table) (req : xdma_request_cb) : Prop := {
  cov_bytes : mjoin (sw_bytes <$> rq_sdesc req) = mjoin (sg_bytes <$> mapped_sgl sgt);
  cov_len : Forall (fun d => 0 < sw_len d <= blen) (rq_sdesc req);
  cov_cnt : rq_sw_desc_cnt req = Z.of_nat (length (rq_sdesc req));
  cov_alloc : rq_sw_desc_cnt req <= rq_sdesc_nr req < 2 ^ 31;
  cov_total : rq_total_len req = u32 (sum_Z (sg_dma_len <$> mapped_sgl sgt));
  cov_start : rq_ep_addr req = ep /\ rq_sgt req = id /\ rq_sw_desc_idx req = 0;
}.

Section Init.
Context {D : Type} `{Env D} (size_cb : Z) (vr : Z * Z) (blen : Z) (sgt : sg_table)
  (Hok : sgt_ok size_cb blen sgt).

Lemma wp_request_alloc n (Q : Z * Z -> est D -> Prop) (s : est D) :
  0 <= n < 2 ^ 31 -> 0 <= size_cb -> size_cb + n * 16 < 2 ^ 32 ->
  (forall p k, (p, size_cb + n * 16) = (xdma_request_alloc size_cb n s).1 ->
     Q (p, size_cb + n * 16) (s <| es_k := k |>)) ->
  wp (xdma_request_alloc size_cb n) Q s.
Proof.
  intros Hn Hs Hw HQ. set (r := (xdma_request_alloc size_cb n s).1) in *.
  assert (wp (xdma_request_alloc size_cb n) (fun x _ => x = r) s) as Hr by apply wp_const.
  revert Hr. unfold xdma_request_alloc, sizeof_sw_desc.
  rewrite (u32_small n), u32_small by lia. intros Hr.
  apply (wp_and _ _ _ _ Hr). clear Hr. est_step. est_step. est_step.
  - est_step. est_step. est_step. intros E. by apply HQ.
  - est_step. intros E. by apply HQ.
Qed.

Lemma wp_init_request id ep (Q : option (Z * xdma_request_cb) -> est D -> Prop) (s : est D) :
  ((exists n, (xdma_request_alloc size_cb n s).1.1 = 0) -> forall k, Q None (s <| es_k := k |>)) ->
  (forall p req k, p <> 0 -> request_covers blen id ep sgt req ->
     Q (Some (p, req)) (s <| es_k := k |>)) ->
  wp (xdma_init_request size_cb vr blen id sgt ep) Q s.
Proof using Hok.
  intros HN HS. pose proof (capacity_enough size_cb blen sgt Hok) as Hcap. cbv zeta in Hcap.
  set (sgl := mapped_sgl sgt) in *. destruct Hok as [Hb Hc Hn He _ _].
  assert (Forall sg_ok sgl) as Hse by by apply Forall_take.
  destruct (split_sgl_ok blen sgl Hb Hse) as (Hby & Hall & _).
  unfold xdma_init_request. fold sgl. set (max := s32 (_ + _)) in *.
  est_step. apply wp_request_alloc; [lia|done|lia|]. intros p k Ha. cbv beta.
  destruct (Z.eqb_spec p 0) as [->|Hp].
  { est_step. apply HN. exists max. by rewrite <- Ha. }
  fld. destruct (Z.ltb_spec max (Z.of_nat (length (split_sgl blen sgl)))); [lia|].
  est_step. apply HS; [done|]. constructor; fld; try done.
  - unfold request_zero, sizeof_sw_desc. cbn [rq_sdesc_nr].
    replace (size_cb + max * 16 - size_cb) with (max * 16) by lia. rewrite Z.div_mul by lia. lia.
  - apply (sgl_total_len_sum sgl 0).
Qed.
End Init.

(** C9 [xdma_init_request] cuts a mapped scatterlist without losing, repeating or reordering
    a byte.  For a table the driver can count ([sgt_ok]: entries of 32-bit lengths inside
    the 64-bit address space, none within [desc_blen_max] bytes of 2^32, and a request of
    less than 2^32 bytes of memory; outside of this see [init_request_wraps]), whenever
    memory for the request is found the request is made, and it covers the mapped entries
    (see [request_covers]): the same bus addresses in the same order, pieces of at most
    [desc_blen_max] bytes, every array write inside the allocation.  [NULL] is returned only
    when both allocators fail. *)
Theorem init_request_covers {D} `{Env D} size_cb vr blen id sgt ep (s : est D) :
  sgt_ok size_cb blen sgt ->
  let '(r, s') := xdma_init_request size_cb vr blen id sgt ep s in
  match r with
  | None => exists n, (xdma_request_alloc size_cb n s).1.1 = 0
  | Some (p, req) => p <> 0 /\ request_covers blen id ep sgt req
  end.
Proof. intros Hok. apply wp_elim. by apply wp_init_request. Qed.

Definition ex_sgt : sg_table :=
  {| sgt_sgl := [ {| sg_dma_address := 0x1000; sg_dma_len := 0x2800 |};
                  {| sg_dma_address := 0x9000; sg_dma_len := 0x10 |} ];
     sgt_nents := 2; sgt_orig_nents := 2 |}.

Lemma ex_sgt_ok : sgt_ok 256 0x1000 ex_sgt.
Proof. constructor; decide_now. Defined.

Definition ex_request_start : est sim :=
  {| es_k := sim_start [] (fun _ => 0x8000); es_eng := engine_zero; es_heap := ∅; es_sgts := ∅ |}.

Lemma init_request_covers_witness :
  ltac:(statement_of (init_request_covers 256 (0, 0) 0x1000 1 ex_sgt 0x40 ex_request_start ex_sgt_ok)).
Proof. instance_of (init_request_covers 256 (0, 0) 0x1000 1 ex_sgt 0x40 ex_request_start ex_sgt_ok). Defined.

(** The counting pass of [xdma_init_request] adds [desc_blen_max - 1] to an
    [unsigned int] length: for an entry of [2^32 - 1] bytes and the default
    [desc_blen_max] the sum wraps, one array element is reserved and the second
    pass writes seventeen. *)
Theorem init_request_wraps id ep :
  let sgt := {| sgt_sgl := [ {| sg_dma_address := 0; sg_dma_len := 0xFFFFFFFF |} ];
                sgt_nents := 1; sgt_orig_nents := 1 |} in
  let '(r, s) := xdma_init_request (S := kstate sim) 256 (0, 0) XDMA_DESC_BLEN_MAX id sgt ep
                   (sim_start [] (fun _ => 0x8000)) in
  r = None /\ k_trace s = [Ev_call (K_kzalloc (256 + 1 * sizeof_sw_desc)) 0x8000;
                           Ev_call (K_kfree 0x8000) 0x8000]
  /\ length (split_sgl XDMA_DESC_BLEN_MAX (mapped_sgl sgt)) = 17%nat.
Proof. by vm_compute. Qed.
