(* ===== verification/Transfer.v ===== *)
(** [transfer_init], [transfer_build] and [transfer_destroy] ([libxdma.c]):
    filling a run of the engine's descriptor ring with the next pieces of a
    request.  The theorems read the result back with [fetch_chain], the way the
    engine walks the ring. *)
From S2P Require Import Prelude Kernel Types Desc Request.
Local Open Scope Z_scope.

(** ** The code *)

Definition eng_ring (e : xdma_engine) : list xdma_desc := default [] (eng_desc e).

(** [engine->desc[...]] updated in place. *)
Definition upd_ring (f : list xdma_desc -> list xdma_desc) (e : xdma_engine) : xdma_engine :=
  e <| eng_desc ::= fmap f |>.

Definition sdesc_at (req : xdma_request_cb) (i : Z) : sw_desc :=
  nth (Z.to_nat i) (rq_sdesc req) {| sw_addr := 0; sw_len := 0 |}.

Definition streaming_c2h (e : xdma_engine) : bool :=
  eng_streaming e && dir_eqb (eng_dir e) DMA_FROM_DEVICE.

(** The result area of descriptor [j]: [memset] and the source address. *)
Definition build_result (bus : Z) (j : Z) (xfer : xdma_transfer) (e : xdma_engine) :
    xdma_engine :=
  upd_ring (upd_desc (x_desc_virt xfer + j)
              (fun d => d <| d_src_addr_lo := PCI_DMA_L bus |>
                          <| d_src_addr_hi := PCI_DMA_H bus |>))
    (e <| eng_cyclic_result ::= fmap <[Z.to_nat (x_res_virt xfer + j) := result_zero]> |>).

(* @src xdma/libxdma.c:2932-2956 transfer_build *)
Fixpoint build_loop (n : nat) (i bus : Z) (e : xdma_engine) (req : xdma_request_cb)
    (xfer : xdma_transfer) : xdma_engine * xdma_request_cb * xdma_transfer :=
  match n with
  | O => (e, req, xfer)
  | S n' =>
      let sd := sdesc_at req (rq_sw_desc_idx req + i) in
      let e := upd_ring (upd_desc (x_desc_virt xfer + i) (fun d =>
                 xdma_desc_set d (sw_addr sd) (rq_ep_addr req) (sw_len sd) (x_dir xfer))) e in
      let xfer := xfer <| x_len ::= fun l => u32 (l + sw_len sd) |> in
      let req := if negb (eng_non_incr_addr e)
                 then req <| rq_ep_addr ::= fun a => u64 (a + sw_len sd) |> else req in
      if streaming_c2h e then
        build_loop n' (i + 1) (u64 (bus + sizeof_xdma_result)) (build_result bus i xfer e) req xfer
      else build_loop n' (i + 1) bus e req xfer
  end.

(* @src xdma/libxdma.c:2923-2959 transfer_build *)
Definition transfer_build (e : xdma_engine) (req : xdma_request_cb) (xfer : xdma_transfer)
    (desc_max : Z) : xdma_engine * xdma_request_cb * xdma_transfer :=
  let '(e, req, xfer) := build_loop (Z.to_nat desc_max) 0 (x_res_bus xfer) e req xfer in
  (e, req <| rq_sw_desc_idx ::= fun i => u32 (i + desc_max) |>, xfer).

(** The two loops of [transfer_init] over the finished descriptors. *)
(* @src xdma/libxdma.c:3015-3019 transfer_init *)
Definition set_eop_flush (v last : Z) : list xdma_desc -> list xdma_desc :=
  ring_for (Z.to_nat last) 0 v
    (fun _ d => snd (xdma_desc_control_set d XDMA_DESC_COMPLETED)).

(* @src xdma/libxdma.c:3027-3034 transfer_init *)
Definition set_adjacent (v num : Z) : list xdma_desc -> list xdma_desc :=
  ring_for (Z.to_nat num) 0 v
    (fun i d => xdma_desc_adjacent d (xdma_get_next_adj (num - i - 1) (d_next_lo d))).

(** How many pieces the transfer takes: at most what is left of the request, of
    the engine limit and of the ring up to its end. *)
(* @src xdma/libxdma.c:2965-2997 transfer_init *)
Definition transfer_desc_max (e : xdma_engine) (req : xdma_request_cb) : Z :=
  let desc_max := Z.min (u32 (rq_sw_desc_cnt req - rq_sw_desc_idx req)) (eng_desc_max e) in
  if eng_desc_max e <=? u32 (eng_desc_idx e + desc_max)
  then u32 (eng_desc_max e - eng_desc_idx e) else desc_max.

(** [memset], then the fields set from the engine. *)
(* @src xdma/libxdma.c:2973-2992 transfer_init *)
Definition transfer_start (e : xdma_engine) : xdma_transfer :=
  xfer_zero <| x_dir := eng_dir e |>
    <| x_desc_virt := eng_desc_idx e |>
    <| x_res_virt := eng_desc_idx e |>
    <| x_desc_bus := u64 (eng_desc_bus e + sizeof_xdma_desc * eng_desc_idx e) |>
    <| x_res_bus := u64 (eng_cyclic_result_bus e + sizeof_xdma_result * eng_desc_idx e) |>
    <| x_desc_index := eng_desc_idx e |>.

(* @src xdma/libxdma.c:2962-3038 transfer_init *)
Definition transfer_init (e : xdma_engine) (req : xdma_request_cb) :
    xdma_engine * xdma_request_cb * xdma_transfer :=
  let desc_max := transfer_desc_max e req in
  let xfer := transfer_start e in
  let v := x_desc_virt xfer in
  let e := upd_ring (transfer_desc_init v (x_desc_bus xfer) desc_max) e in
  let '(e, req, xfer) := transfer_build e req xfer desc_max in
  let xfer := xfer <| x_desc_adjacent := desc_max |> in
  let last := desc_max - 1 in
  let control := Z.lor (Z.lor XDMA_DESC_STOPPED XDMA_DESC_EOP) XDMA_DESC_COMPLETED in
  let e := upd_ring (upd_desc (v + last) (fun d => snd (xdma_desc_control_set d control))) e in
  let e := if eng_eop_flush e then upd_ring (set_eop_flush v last) e else e in
  let xfer := xfer <| x_desc_cmpl_th := if eng_eop_flush e then 1 else desc_max |>
                   <| x_desc_num := desc_max |> in
  let e := e <| eng_desc_idx := u32 (eng_desc_idx e + desc_max) mod eng_desc_max e |>
             <| eng_desc_used ::= fun u => s32 (u + desc_max) |> in
  (upd_ring (set_adjacent v (x_desc_num xfer)) e, req, xfer).

Section Code.
Context {D : Type} `{Env D}.

(** The unmap of the last transfer of a request, once per table: [nents] is
    cleared after it. *)
(* @src xdma/libxdma.c:2907-2920 transfer_destroy *)
Definition transfer_unmap (xfer : xdma_transfer) : M (est D) unit :=
  when (x_last_in_request xfer && tst (x_flags xfer) XFER_FLAG_NEED_UNMAP)
    (match x_sgt xfer with
     | None => mret tt
     | Some p =>
         sgts ← gets es_sgts;
         match sgts !! p with
         | None => mret tt
         | Some t =>
             when (nz (sgt_nents t))
               (call_ (K_dma_unmap_sg p (sgt_nents t)) ;;
                modify (fun s => s <| es_sgts ::= <[p := t <| sgt_nents := 0 |>]> |>))
         end
     end).

(* @src xdma/libxdma.c:2902-2921 transfer_destroy *)
Definition transfer_destroy (p : xfer_ptr) : M (est D) unit :=
  xfer ← the_xfer p;
  upd_engine (upd_ring (xdma_desc_done (x_desc_virt xfer) (x_desc_num xfer))) ;;
  transfer_unmap xfer.
End Code.

(** ** What a transfer's descriptors say *)

(** The pieces [i], ..., [i + n - 1] of the rest of a request. *)
Definition pieces (req : xdma_request_cb) (i n : Z) : list sw_desc :=
  (fun k => sdesc_at req (rq_sw_desc_idx req + k)) <$> seqZ i n.

Definition pieces_len (req : xdma_request_cb) (i n : Z) : Z :=
  sum_Z (sw_len <$> pieces req i n).

(** The end point address of piece [j], when [i] is the first. *)
Definition ep_at (e : xdma_engine) (req : xdma_request_cb) (i j : Z) : Z :=
  if eng_non_incr_addr e then rq_ep_addr req
  else u64 (rq_ep_addr req + pieces_len req i (j - i)).

(** Descriptor [j] as [transfer_build] leaves it, [i] being the first. *)
Definition build_desc (e : xdma_engine) (req : xdma_request_cb) (xfer : xdma_transfer)
    (bus i j : Z) (d : xdma_desc) : xdma_desc :=
  let sd := sdesc_at req (rq_sw_desc_idx req + j) in
  let d := xdma_desc_set d (sw_addr sd) (ep_at e req i j) (sw_len sd) (x_dir xfer) in
  let bus := bus + sizeof_xdma_result * (j - i) in
  if streaming_c2h e
  then d <| d_src_addr_lo := PCI_DMA_L bus |> <| d_src_addr_hi := PCI_DMA_H bus |> else d.

Fixpoint zero_results (n : nat) (k : Z) (l : list xdma_result) : list xdma_result :=
  match n with
  | O => l
  | S n' => zero_results n' (k + 1) (<[Z.to_nat k := result_zero]> l)
  end.

Lemma pieces_cons req i n :
  0 < n -> pieces req i n = sdesc_at req (rq_sw_desc_idx req + i) :: pieces req (i + 1) (n - 1).
Proof.
  intros. unfold pieces. rewrite seqZ_cons by lia. rewrite fmap_cons. do 3 f_equal; lia.
Qed.

Lemma pieces_len_cons req i n :
  0 < n -> pieces_len req i n = sw_len (sdesc_at req (rq_sw_desc_idx req + i))
                                + pieces_len req (i + 1) (n - 1).
Proof. intros. unfold pieces_len. by rewrite pieces_cons, fmap_cons, sum_Z_cons by lia. Qed.

Lemma pieces_nil req i n : n <= 0 -> pieces req i n = [].
Proof. intros. unfold pieces. by rewrite seqZ_nil by lia. Qed.

Lemma upd_ring_id f e : (forall r, f r = r) -> upd_ring f e = e.
Proof.
  intros Hf. unfold upd_ring. destruct e; cbv [set_field settable_eta xdma_engine_settable]; cbn.
  match goal with |- context [f <$> ?o] => by destruct o; cbn; rewrite ?Hf end.
Qed.

Lemma upd_ring_compose f g e : upd_ring f (upd_ring g e) = upd_ring (fun r => f (g r)) e.
Proof. unfold upd_ring, set_field. cbn. by destruct (eng_desc e). Qed.

Lemma upd_ring_ext f g e : (forall r, f r = g r) -> upd_ring f e = upd_ring g e.
Proof. intros Hf. unfold upd_ring, set_field. cbn. destruct (eng_desc e); cbn; by rewrite ?Hf. Qed.

Lemma eng_ring_upd f e : eng_ring (upd_ring f e) = if eng_desc e is Some r then f r else [].
Proof. unfold eng_ring, upd_ring. fld. by destruct (eng_desc e). Qed.

Definition upd_results (f : list xdma_result -> list xdma_result) (e : xdma_engine) :=
  e <| eng_cyclic_result ::= fmap f |>.

Lemma upd_results_id f e : (forall r, f r = r) -> upd_results f e = e.
Proof.
  intros Hf. unfold upd_results.
  destruct e; cbv [set_field settable_eta xdma_engine_settable]; cbn.
  match goal with |- context [f <$> ?o] => by destruct o; cbn; rewrite ?Hf end.
Qed.
Lemma upd_results_compose f g e :
  upd_results f (upd_results g e) = upd_results (fun r => f (g r)) e.
Proof. unfold upd_results, set_field. cbn. by destruct (eng_cyclic_result e). Qed.
Lemma upd_results_ring f g e : upd_results f (upd_ring g e) = upd_ring g (upd_results f e).
Proof. done. Qed.

Lemma ep_at_first e req i : 0 <= rq_ep_addr req < 2 ^ 64 -> ep_at e req i i = rq_ep_addr req.
Proof.
  intros. unfold ep_at. case_match; [done|]. unfold pieces_len.
  rewrite pieces_nil by lia. cbn. by rewrite Z.add_0_r, u64_small by lia.
Qed.

(** The request after piece [i] has been described. *)
Definition next_req (e : xdma_engine) (req : xdma_request_cb) (i : Z) : xdma_request_cb :=
  if negb (eng_non_incr_addr e)
  then req <| rq_ep_addr ::= fun a => u64 (a + sw_len (sdesc_at req (rq_sw_desc_idx req + i))) |>
  else req.

Lemma sdesc_next_req e req i k :
  sdesc_at (next_req e req i) (rq_sw_desc_idx (next_req e req i) + k)
  = sdesc_at req (rq_sw_desc_idx req + k).
Proof. unfold next_req. by case_match. Qed.

Lemma pieces_next_req e req i k n : pieces (next_req e req i) k n = pieces req k n.
Proof. unfold next_req. by case_match. Qed.

Lemma ep_at_next e req i j :
  i < j -> ep_at e (next_req e req i) (i + 1) j = ep_at e req i j.
Proof.
  intros. unfold ep_at, pieces_len. rewrite pieces_next_req.
  rewrite (pieces_cons _ i) by lia. rewrite fmap_cons, sum_Z_cons.
  unfold next_req. destruct (eng_non_incr_addr e); cbn [negb]; [done|]. fld.
  rewrite u64_add_l. replace (j - (i + 1)) with (j - i - 1) by lia. f_equal. lia.
Qed.

(** One round of the loop. *)
Definition next_xfer (req : xdma_request_cb) (xfer : xdma_transfer) (i : Z) : xdma_transfer :=
  xfer <| x_len ::= fun l => u32 (l + sw_len (sdesc_at req (rq_sw_desc_idx req + i))) |>.

Lemma build_loop_step n i bus e req xfer :
  0 <= bus -> bus + 32 < 2 ^ 64 -> 0 <= rq_ep_addr req < 2 ^ 64 ->
  build_loop (S n) i bus e req xfer =
  build_loop n (i + 1) (if streaming_c2h e then bus + 32 else bus)
    (upd_results (if streaming_c2h e then <[Z.to_nat (x_res_virt xfer + i) := result_zero]>
                  else fun r => r)
       (upd_ring (upd_desc (x_desc_virt xfer + i) (build_desc e req xfer bus i i)) e))
    (next_req e req i) (next_xfer req xfer i).
Proof.
  intros. cbn [build_loop]. cbv zeta.
  change (streaming_c2h (upd_ring ?f e)) with (streaming_c2h e).
  unfold build_desc. rewrite ep_at_first by done. unfold sizeof_xdma_result.
  rewrite Z.sub_diag, Z.mul_0_r, Z.add_0_r.
  change (eng_non_incr_addr (upd_ring ?f e)) with (eng_non_incr_addr e).
  change (if negb (eng_non_incr_addr e) then _ else req) with (next_req e req i).
  destruct (streaming_c2h e).
  - unfold build_result. rewrite u64_small by lia.
    change ((upd_ring ?f e) <| eng_cyclic_result ::= fmap ?g |>)
      with (upd_results g (upd_ring f e)).
    rewrite !upd_results_ring, upd_ring_compose.
    rewrite (upd_ring_ext _ _ _ (fun r => upd_desc_compose _ _ _ r)). done.
  - by rewrite upd_results_id.
Qed.

Lemma build_desc_next e req xfer bus i j d :
  i < j ->
  build_desc e (next_req e req i) (next_xfer req xfer i)
    (if streaming_c2h e then bus + 32 else bus) (i + 1) j d
  = build_desc e req xfer bus i j d.
Proof.
  intros. unfold build_desc. rewrite ep_at_next, sdesc_next_req by done.
  unfold sizeof_xdma_result. destruct (streaming_c2h e); [|done].
  by replace (bus + 32 + 32 * (j - (i + 1))) with (bus + 32 * (j - i)) by lia.
Qed.

Lemma next_req_ep_range e req i :
  0 <= rq_ep_addr req < 2 ^ 64 -> 0 <= rq_ep_addr (next_req e req i) < 2 ^ 64.
Proof. unfold next_req. case_match; [|done]. intros _. fld. apply u64_range. Qed.

Lemma build_loop_eq n i bus e req xfer :
  0 <= bus -> bus + 32 * Z.of_nat n < 2 ^ 64 -> 0 <= rq_ep_addr req < 2 ^ 64 ->
  0 <= x_len xfer < 2 ^ 32 ->
  build_loop n i bus e req xfer =
  (upd_results (if streaming_c2h e then zero_results n (x_res_virt xfer + i) else fun r => r)
     (upd_ring (ring_for n i (x_desc_virt xfer) (build_desc e req xfer bus i)) e),
   req <| rq_ep_addr := ep_at e req i (i + Z.of_nat n) |>,
   xfer <| x_len := u32 (x_len xfer + pieces_len req i (Z.of_nat n)) |>).
Proof.
  revert i bus e req xfer. induction n as [|n IH]; intros i bus e req xfer Hb Hbn Hep Hl.
  - cbn [build_loop ring_for zero_results]. rewrite upd_ring_id, upd_results_id by (done || by case_match).
    rewrite Z.add_0_r, ep_at_first by done. unfold pieces_len. rewrite pieces_nil by lia.
    cbn [fmap list_fmap sum_Z foldr]. rewrite Z.add_0_r, u32_small by lia.
    by destruct req, xfer.
  - rewrite build_loop_step by lia.
    set (bus' := if streaming_c2h e then bus + 32 else bus).
    rewrite IH; [|subst bus'; case_match; lia|subst bus'; case_match; lia
                 |by apply next_req_ep_range|apply u32_range].
    change (streaming_c2h (upd_results ?f (upd_ring ?g e))) with (streaming_c2h e).
    change (x_desc_virt (next_xfer req xfer i)) with (x_desc_virt xfer).
    change (x_res_virt (next_xfer req xfer i)) with (x_res_virt xfer).
    f_equal; [f_equal|].
    + rewrite <- upd_results_ring, upd_results_compose.
      rewrite upd_ring_compose.
      replace (x_res_virt xfer + (i + 1)) with (x_res_virt xfer + i + 1) by lia.
      rewrite (upd_ring_ext _ (ring_for (S n) i (x_desc_virt xfer) (build_desc e req xfer bus i))).
      * by destruct (streaming_c2h e).
      * intros r. cbn [ring_for]. apply ring_for_ext. intros j d ?.
        change (build_desc (upd_results ?f (upd_ring ?g e)) ?q ?x ?a ?b) with (build_desc e q x a b).
        apply build_desc_next. lia.
    + change (ep_at (upd_results ?f (upd_ring ?g e)) ?r ?a ?b) with (ep_at e r a b).
      rewrite ep_at_next by lia. replace (i + 1 + Z.of_nat n) with (i + Z.of_nat (S n)) by lia.
      unfold next_req. by case_match.
    + unfold next_xfer at 1 2. unfold pieces_len at 1. rewrite pieces_next_req.
      fold (pieces_len req (i + 1) (Z.of_nat n)). fld.
      rewrite (pieces_len_cons req i) by lia. rewrite u32_add_l.
      replace (Z.of_nat (S n) - 1) with (Z.of_nat n) by lia. unfold set_field. cbn.
      f_equal. f_equal. lia.
Qed.

(** *** The ring after [transfer_init] *)

(** The geometry of an engine's descriptor ring, set up when the engine is
    allocated, and what a request to describe looks like. *)
Record ring_ok (e : xdma_engine) : Prop := {
  ring_max : 0 < eng_desc_max e <= XDMA_ENGINE_XFER_MAX_DESC;
  ring_idx : 0 <= eng_desc_idx e < eng_desc_max e;
  ring_used : 0 <= eng_desc_used e <= 2 ^ 30;
  ring_len : Z.of_nat (length (eng_ring e)) = eng_desc_max e;
  ring_bus : 0 <= eng_desc_bus e /\ eng_desc_bus e + 32 * eng_desc_max e < 2 ^ 64;
  ring_res_bus : 0 <= eng_cyclic_result_bus e
                 /\ eng_cyclic_result_bus e + 32 * eng_desc_max e < 2 ^ 64;
}.

Record request_ok (req : xdma_request_cb) : Prop := {
  request_cnt : rq_sw_desc_cnt req = Z.of_nat (length (rq_sdesc req));
  request_max : rq_sw_desc_cnt req < 2 ^ 31;
  request_idx : 0 <= rq_sw_desc_idx req < rq_sw_desc_cnt req;
  request_ep : 0 <= rq_ep_addr req < 2 ^ 64;
  request_len : Forall (fun d => 0 < sw_len d < 2 ^ 31 /\ 0 <= sw_addr d < 2 ^ 64) (rq_sdesc req);
}.

(** Descriptor [j] of the [n] a transfer of [e] describes [req] with. *)
Definition final_desc (e : xdma_engine) (req : xdma_request_cb) (n j : Z) (d : xdma_desc) :
    xdma_desc :=
  let x := transfer_start e in
  let next := if decide (j = n - 1) then 0 else x_desc_bus x + 32 * (j + 1) in
  let d := build_desc e req x (x_res_bus x) 0 j (desc_init_one next d) in
  let d := if decide (j = n - 1)
           then snd (xdma_desc_control_set d
                  (Z.lor (Z.lor XDMA_DESC_STOPPED XDMA_DESC_EOP) XDMA_DESC_COMPLETED))
           else if eng_eop_flush e then snd (xdma_desc_control_set d XDMA_DESC_COMPLETED) else d in
  xdma_desc_adjacent d (xdma_get_next_adj (n - j - 1) (d_next_lo d)).

Definition transfer_count (e : xdma_engine) (req : xdma_request_cb) : Z :=
  Z.min (rq_sw_desc_cnt req - rq_sw_desc_idx req) (eng_desc_max e - eng_desc_idx e).

Lemma engine_advance f g E i i' u u' :
  i = i' -> u (eng_desc_used E) = u' ->
  upd_ring f ((upd_ring g E) <| eng_desc_idx := i |> <| eng_desc_used ::= u |>)
  = (upd_ring (fun r => f (g r)) E) <| eng_desc_idx := i' |> <| eng_desc_used := u' |>.
Proof.
  intros <- <-. unfold upd_ring, set_field. cbn. by destruct (eng_desc E).
Qed.

Section Init.
Context (e : xdma_engine) (req : xdma_request_cb) (He : ring_ok e) (Hr : request_ok req).

Lemma transfer_desc_max_eq : transfer_desc_max e req = transfer_count e req.
Proof using He Hr.
  destruct He, Hr. unfold transfer_desc_max, transfer_count, XDMA_ENGINE_XFER_MAX_DESC in *.
  rewrite (u32_small (rq_sw_desc_cnt req - _)), (u32_small (eng_desc_idx e + _)),
    u32_small by lia.
  case_match; lia.
Qed.

Lemma transfer_count_range :
  0 < transfer_count e req /\ eng_desc_idx e + transfer_count e req <= eng_desc_max e
  /\ transfer_count e req <= rq_sw_desc_cnt req - rq_sw_desc_idx req.
Proof using He Hr. destruct He, Hr. unfold transfer_count. lia. Qed.

Lemma transfer_start_bus :
  x_desc_bus (transfer_start e) = eng_desc_bus e + 32 * eng_desc_idx e
  /\ x_res_bus (transfer_start e) = eng_cyclic_result_bus e + 32 * eng_desc_idx e.
Proof using He.
  destruct He. unfold transfer_start, sizeof_xdma_desc, sizeof_xdma_result,
    XDMA_ENGINE_XFER_MAX_DESC in *. fld. rewrite !u64_small by lia. done.
Qed.

Let n := transfer_count e req.
Let v := eng_desc_idx e.
Let x := transfer_start e.

Definition init_ring (r : list xdma_desc) : list xdma_desc :=
  set_adjacent v n
    ((if eng_eop_flush e then set_eop_flush v (n - 1) else fun r => r)
       (upd_desc (v + (n - 1)) (fun d => snd (xdma_desc_control_set d
            (Z.lor (Z.lor XDMA_DESC_STOPPED XDMA_DESC_EOP) XDMA_DESC_COMPLETED)))
          (ring_for (Z.to_nat n) 0 v (build_desc e req x (x_res_bus x) 0)
             (transfer_desc_init v (x_desc_bus x) n r)))).

(** What [transfer_init] does to the engine, the request and the transfer. *)
Lemma transfer_init_eq :
  transfer_init e req =
  ((upd_ring init_ring
      (upd_results (if streaming_c2h e then zero_results (Z.to_nat n) v else fun r => r) e))
     <| eng_desc_idx := (v + n) mod eng_desc_max e |>
     <| eng_desc_used := eng_desc_used e + n |>,
   req <| rq_ep_addr := ep_at e req 0 n |> <| rq_sw_desc_idx ::= fun i => i + n |>,
   x <| x_len := u32 (pieces_len req 0 n) |> <| x_desc_adjacent := n |>
     <| x_desc_cmpl_th := if eng_eop_flush e then 1 else n |> <| x_desc_num := n |>).
Proof using He Hr.
  unfold transfer_init, transfer_build. rewrite transfer_desc_max_eq. fold n.
  pose proof transfer_count_range as Hn. pose proof transfer_start_bus as [Hdb Hrb].
  fold n x in Hn, Hdb, Hrb. destruct He, Hr. unfold XDMA_ENGINE_XFER_MAX_DESC in *.
  fold x. change (x_desc_virt x) with v.
  rewrite build_loop_eq; [|rewrite Hrb; lia|rewrite Hrb; lia|done|done].
  rewrite Z2Nat.id, !Z.add_0_l by lia. cbv zeta. cbn beta iota.
  change (streaming_c2h (upd_ring ?f e)) with (streaming_c2h e).
  change (ep_at (upd_ring ?f e)) with (ep_at e).
  change (build_desc (upd_ring ?f e)) with (build_desc e).
  rewrite !upd_results_ring. change (x_desc_virt x) with v. change (x_res_virt x) with v.
  rewrite Z.add_0_r, !upd_ring_compose. set (E0 := upd_results _ e).
  change (eng_eop_flush (upd_ring ?f E0)) with (eng_eop_flush e).
  f_equal; [f_equal|].
  - unfold init_ring. destruct (eng_eop_flush e);
      (apply engine_advance; [f_equal; apply u32_small|apply s32_small]);
      (cbn; fold v; lia).
  - unfold set_field; cbn. f_equal. apply u32_small. subst n. lia.
  - assert (forall f, eng_eop_flush (upd_ring f E0) = eng_eop_flush e) as Hf by done.
    by destruct (eng_eop_flush e) ; rewrite Hf.
Qed.

Lemma lookup_transfer_init (ring : list xdma_desc) (k : nat) :
  init_ring ring !! k =
  if decide (v <= Z.of_nat k < v + n)
  then final_desc e req n (Z.of_nat k - v) <$> ring !! k else ring !! k.
Proof using He Hr.
  pose proof transfer_count_range as Hn. pose proof transfer_start_bus as [Hdb Hrb].
  fold n x in Hn, Hdb, Hrb. destruct He, Hr. unfold XDMA_ENGINE_XFER_MAX_DESC in *.
  unfold init_ring, set_adjacent, set_eop_flush.
  rewrite lookup_ring_for by lia. rewrite !Z.add_0_r, Z2Nat.id by lia.
  assert (forall r : list xdma_desc, (if eng_eop_flush e then
             ring_for (Z.to_nat (n - 1)) 0 v
               (fun _ d => (xdma_desc_control_set d XDMA_DESC_COMPLETED).2)
           else fun r => r) r !! k
          = if decide (v <= Z.of_nat k < v + (n - 1)) then
              (fun d => if eng_eop_flush e then (xdma_desc_control_set d XDMA_DESC_COMPLETED).2
                        else d) <$> r !! k else r !! k) as Heop.
  { intros r. destruct (eng_eop_flush e).
    - rewrite lookup_ring_for by lia. by rewrite Z.add_0_r, Z2Nat.id by lia.
    - case_decide; [|done]. by destruct (r !! k). }
  rewrite Heop, lookup_upd_desc, lookup_ring_for, lookup_transfer_desc_init by lia.
  rewrite !Z.add_0_r, Z2Nat.id by lia. unfold final_desc. fold x.
  destruct (ring !! k) as [d|]; [|by repeat case_decide].
  cbn [fmap option_fmap option_map].
  destruct (decide (v <= Z.of_nat k < v + n)) as [Hk|Hk].
  - destruct (decide (Z.of_nat k = v + (n - 1))) as [Hl|Hl].
    + rewrite decide_False, !(decide_True (P := Z.of_nat k - v = n - 1)) by lia.
      by rewrite (decide_True (P := Z.of_nat k = v + n - 1)) by lia.
    + rewrite decide_True, !(decide_False (P := Z.of_nat k - v = n - 1)) by lia.
      by rewrite (decide_False (P := Z.of_nat k = v + n - 1)) by lia.
  - by rewrite !decide_False by lia.
Qed.
End Init.

(** ** The chain as the engine reads it *)

(** Descriptor [j] of the [n] that describe the rest of [req]: byte count, host
    and end point address, next pointer, flags and adjacency. *)
Record desc_ok (e : xdma_engine) (req : xdma_request_cb) (n j : Z) (d : xdma_desc) : Prop := {
  ok_bytes : d_bytes d = sw_len (sdesc_at req (rq_sw_desc_idx req + j));
  ok_host : (if dir_eqb (eng_dir e) DMA_TO_DEVICE then desc_src d else desc_dst d)
            = sw_addr (sdesc_at req (rq_sw_desc_idx req + j));
  ok_ep : (if dir_eqb (eng_dir e) DMA_TO_DEVICE then desc_dst d else desc_src d)
          = if streaming_c2h e then eng_cyclic_result_bus e + 32 * (eng_desc_idx e + j)
            else ep_at e req 0 j;
  ok_next : desc_next d = if decide (j = n - 1) then 0
                          else eng_desc_bus e + 32 * (eng_desc_idx e + j + 1);
  ok_flags : desc_flags d = if decide (j = n - 1) then 0x13
                            else if eng_eop_flush e then 0x2 else 0;
  ok_magic : desc_magic d = 0xAD4B;
  ok_adj : desc_adj d = xdma_get_next_adj (n - j - 1) (PCI_DMA_L (desc_next d));
}.

Section Chain.
Context (e : xdma_engine) (req : xdma_request_cb) (He : ring_ok e) (Hr : request_ok req).
Let n := transfer_count e req.
Let x := transfer_start e.

Lemma sdesc_at_ok j :
  0 <= j < n ->
  let sd := sdesc_at req (rq_sw_desc_idx req + j) in
  0 < sw_len sd < 2 ^ 31 /\ 0 <= sw_addr sd < 2 ^ 64.
Proof using He Hr.
  intros Hj. pose proof (transfer_count_range e req He Hr) as (? & Hn & Hn'). fold n in Hn, Hn'.
  destruct Hr as [Hc Hm Hi _ Hl]. unfold sdesc_at.
  destruct (lookup_lt_is_Some_2 (rq_sdesc req) (Z.to_nat (rq_sw_desc_idx req + j)))
    as [sd Hsd]; [lia|].
  rewrite (nth_lookup_Some _ _ _ _ Hsd). exact (Forall_lookup_1 _ _ _ _ Hl Hsd).
Qed.

Lemma ep_at_range j : 0 <= ep_at e req 0 j < 2 ^ 64.
Proof using Hr. unfold ep_at. case_match; [apply Hr|apply u64_range]. Qed.

(** The descriptor before its flags and adjacency are set. *)
Lemma build_desc_fields j next d0 :
  0 <= j < n -> 0 <= next < 2 ^ 64 ->
  let sd := sdesc_at req (rq_sw_desc_idx req + j) in
  let d := build_desc e req x (x_res_bus x) 0 j (desc_init_one next d0) in
  d_bytes d = sw_len sd
  /\ (if dir_eqb (eng_dir e) DMA_TO_DEVICE then desc_src d else desc_dst d) = sw_addr sd
  /\ (if dir_eqb (eng_dir e) DMA_TO_DEVICE then desc_dst d else desc_src d)
     = (if streaming_c2h e then eng_cyclic_result_bus e + 32 * (eng_desc_idx e + j)
        else ep_at e req 0 j)
  /\ desc_next d = next /\ d_control d = DESC_MAGIC.
Proof using He Hr.
  intros Hj Hnext sd d. pose proof (sdesc_at_ok j Hj) as [Hlen Haddr]. fold sd in Hlen, Haddr.
  pose proof (transfer_start_bus e He) as [_ Hrb].
  pose proof (transfer_count_range e req He Hr) as (H0 & Hn & Hn'). fold n in H0, Hn, Hn'.
  pose proof (ep_at_range j) as Hep. destruct He as [? ? ? ? ? Hbus]. fold x in Hrb.
  subst d. unfold build_desc, xdma_desc_set. fold sd.
  unfold streaming_c2h, sizeof_xdma_result. change (x_dir x) with (eng_dir e).
  rewrite Hrb. unfold desc_src, desc_dst, desc_next, desc_init_one.
  destruct (eng_dir e); cbn [dir_eqb]; rewrite ?andb_false_r;
    destruct (eng_streaming e); cbn [andb dir_eqb]; fld;
    rewrite ?u32_small, ?PCI_DMA_word64 by lia; repeat split; lia.
Qed.

Lemma final_desc_ok j d0 : 0 <= j < n -> desc_ok e req n j (final_desc e req n j d0).
Proof using He Hr.
  intros Hj. pose proof (transfer_start_bus e He) as [Hdb Hrb].
  pose proof (transfer_count_range e req He Hr) as (H0 & Hn & Hn'). fold n in H0, Hn, Hn'.
  pose proof (ring_max e He) as Hmax. pose proof (ring_bus e He) as Hbus.
  pose proof (ring_idx e He) as Hidx.
  unfold XDMA_ENGINE_XFER_MAX_DESC in Hmax. fold x in Hdb, Hrb.
  unfold final_desc. fold x. rewrite Hdb.
  set (next := if decide (j = n - 1) then 0 else _).
  assert (0 <= next < 2 ^ 64) as Hnext by (subst next; case_decide; lia).
  pose proof (build_desc_fields j next d0 Hj Hnext) as (F1 & F2 & F3 & F4 & F5).
  set (d1 := build_desc _ _ _ _ _ _ _) in *.
  assert (desc_flags d1 = 0 /\ desc_adj d1 = 0) as [G1 G2].
  { unfold desc_flags, desc_adj. by rewrite F5. }
  set (d2 := if decide (j = n - 1) then _ else _).
  assert (desc_flags d2 = (if decide (j = n - 1) then 0x13
                           else if eng_eop_flush e then 0x2 else 0)
          /\ desc_adj d2 = 0
          /\ d_bytes d2 = d_bytes d1 /\ desc_src d2 = desc_src d1
          /\ desc_dst d2 = desc_dst d1 /\ desc_next d2 = desc_next d1
          /\ d_next_lo d2 = d_next_lo d1) as (K1 & K2 & K3 & K4 & K5 & K6 & K7).
  { subst d2. repeat case_match; try (split; [done|]; repeat split; by rewrite ?G2);
      (split; [by apply control_set_flags|]; split;
       [rewrite <- G2; apply (control_set_flags d1); done|];
       apply control_set_rest). }
  clearbody d2.
  pose proof (get_next_adj_range (n - j - 1) (d_next_lo d2)) as Hadj.
  assert (d_next_lo d1 = PCI_DMA_L next) as Hlo.
  { subst d1. unfold build_desc, xdma_desc_set. by repeat case_match. }
  assert (0 <= d_next_lo d2) as Hlo2.
  { rewrite K7, Hlo. apply Z.land_nonneg. lia. }
  specialize (Hadj ltac:(lia) Hlo2) as (Ha & _).
  destruct (adjacent_rest d2 (xdma_get_next_adj (n - j - 1) (d_next_lo d2)))
    as (A1 & A2 & A3 & A4 & A5).
  constructor; rewrite ?A1, ?A2, ?A3, ?A4, ?K3, ?K4, ?K5, ?K6; try done.
  - rewrite F4. subst next. case_decide; lia.
  - by rewrite desc_flags_adjacent.
  - apply desc_magic_adjacent. lia.
  - rewrite desc_adj_adjacent by lia. rewrite K2, K7, Hlo, F4.
    by rewrite Z.land_0_l, Z.lor_0_r.
Qed.
End Chain.

Section Result.
Context (e : xdma_engine) (req : xdma_request_cb) (He : ring_ok e) (Hr : request_ok req).
Let n := transfer_count e req.
Let v := eng_desc_idx e.
Let ring' := init_ring e req (eng_ring e).

Lemma length_init_ring ring : length (init_ring e req ring) = length ring.
Proof using Type.
  unfold init_ring, set_adjacent, set_eop_flush. rewrite length_ring_for.
  case_match; rewrite ?length_ring_for, length_upd_desc, length_ring_for;
    apply length_transfer_desc_init.
Qed.

Lemma init_ring_at j :
  0 <= j < n -> exists d, ring' !! Z.to_nat (v + j) = Some d /\ desc_ok e req n j d.
Proof using He Hr.
  intros Hj. pose proof (transfer_count_range e req He Hr) as (H0 & Hn & _).
  pose proof (ring_idx e He). pose proof (ring_len e He). fold n v in H0, Hn.
  destruct (lookup_lt_is_Some_2 (eng_ring e) (Z.to_nat (v + j))) as [d0 Hd0]; [subst v; lia|].
  subst ring'. rewrite (lookup_transfer_init e req He Hr). fold v n.
  rewrite decide_True by (subst v; lia). rewrite Hd0. cbn.
  replace (Z.of_nat (Z.to_nat (v + j)) - v) with j by (subst v; lia).
  eexists. split; [done|]. by apply final_desc_ok.
Qed.

Lemma fetch_init_ring :
  fetch_chain (S (Z.to_nat n)) (ring_mem (eng_desc_bus e) ring') (eng_desc_bus e + 32 * v)
  = Some (take (Z.to_nat n) (drop (Z.to_nat v) ring')).
Proof using He Hr.
  pose proof (transfer_count_range e req He Hr) as (H0 & Hn & _).
  pose proof (ring_idx e He). fold n v in H0, Hn.
  apply fetch_run; [lia|subst v; lia|].
  intros j Hj. destruct (init_ring_at j ltac:(lia)) as (d & Hd & Hok). exists d.
  split; [done|]. destruct Hok as [_ _ _ Hx Hf _ _]. split.
  - rewrite desc_stop_flags, Hf. rewrite Z2Nat.id by lia.
    by destruct (decide (j = n - 1)); [rewrite bool_decide_true|rewrite bool_decide_false;
      [by destruct (eng_eop_flush e)|]].
  - intros. rewrite Hx, decide_False by lia. done.
Qed.

Lemma chain_lens :
  d_bytes <$> take (Z.to_nat n) (drop (Z.to_nat v) ring') = sw_len <$> pieces req 0 n.
Proof using He Hr.
  pose proof (transfer_count_range e req He Hr) as (H0 & Hn & _).
  pose proof (ring_idx e He). fold n v in H0, Hn.
  apply list_eq. intros j. rewrite !list_lookup_fmap.
  unfold pieces. rewrite list_lookup_fmap.
  destruct (decide (Z.of_nat j < n)) as [Hj|Hj].
  - rewrite lookup_take_lt, lookup_drop by lia.
    destruct (init_ring_at (Z.of_nat j) ltac:(lia)) as (d & Hd & Hok).
    replace (Z.to_nat v + j)%nat with (Z.to_nat (v + Z.of_nat j)) by (subst v; lia).
    rewrite Hd. rewrite lookup_seqZ_lt by lia. cbn. by rewrite (ok_bytes _ _ _ _ _ Hok).
  - rewrite lookup_take_ge, lookup_seqZ_ge by lia. done.
Qed.
End Result.

(** ** Properties *)

(** C4 [transfer_init] describes a run of the request's pieces: the chain the
    engine fetches from the transfer's bus address ends, has one descriptor per
    piece taken, and descriptor [j] carries piece [j]: its length, its host
    address, the end point address advanced by the lengths before it (fixed in
    non-incremental mode; the result area in streaming C2H), the link to the
    next descriptor, the adjacency count, and its control bits: stop, EOP and completed on
    the last descriptor; on the others none, except that an engine in EOP flush mode
    has completed set on every one.  The bytes described are counted in the transfer. *)
Theorem transfer_init_chain e req :
  ring_ok e -> request_ok req ->
  let n := transfer_count e req in
  let '(e', req', xfer) := transfer_init e req in
  exists chain,
    fetch_chain (S (Z.to_nat n)) (ring_mem (eng_desc_bus e') (eng_ring e')) (x_desc_bus xfer)
    = Some chain
    /\ Z.of_nat (length chain) = n /\ x_desc_num xfer = n
    /\ (forall j d, chain !! Z.to_nat j = Some d -> 0 <= j -> desc_ok e req n j d)
    /\ x_len xfer = u32 (sum_Z (d_bytes <$> chain)).
Proof.
  intros He Hr n. rewrite transfer_init_eq by done. fold n. fld.
  pose proof (transfer_count_range e req He Hr) as (H0 & Hn & _). fold n in H0, Hn.
  pose proof (ring_idx e He). pose proof (ring_len e He) as Hlen.
  unfold upd_ring, upd_results. fld. set (ring' := eng_ring _).
  assert (ring' = init_ring e req (eng_ring e)) as ->.
  { subst ring'. unfold eng_ring in *. fld. destruct (eng_desc e); [done|].
    cbn in Hlen. lia. }
  rewrite (proj1 (transfer_start_bus e He)).
  eexists. split; [apply fetch_init_ring; done|]. fold n.
  split_and!; [|done| |].
  - rewrite length_take, length_drop, length_init_ring. lia.
  - intros j d Hd Hj. assert (j < n).
    { apply lookup_lt_Some in Hd. rewrite length_take in Hd. lia. }
    rewrite lookup_take_lt, lookup_drop in Hd by lia.
    destruct (init_ring_at e req He Hr j ltac:(fold n; lia)) as (d' & Hd' & Hok).
    rewrite <- Z2Nat.inj_add in Hd by lia.
    rewrite Hd in Hd'. by injection Hd' as ->.
  - pose proof (chain_lens e req He Hr) as Hc. fold n in Hc. by rewrite Hc.
Qed.

(** A small engine and request the witnesses run on. *)
Definition ex_engine : xdma_engine :=
  engine_zero <| eng_dir := DMA_TO_DEVICE |> <| eng_desc_max := 8 |> <| eng_desc_idx := 3 |>
    <| eng_desc := Some (replicate 8 desc_zero) |> <| eng_desc_bus := 0x10000 |>
    <| eng_cyclic_result_bus := 0x20000 |> <| eng_magic := MAGIC_ENGINE |>.

Definition ex_request : xdma_request_cb :=
  {| rq_sgt := 1; rq_ep_addr := 0x40; rq_aperture := 0; rq_total_len := 0x6000;
     rq_offset := 0; rq_sg := 0; rq_sg_idx := 0; rq_sg_offset := 0; rq_cb := None;
     rq_sw_desc_idx := 0; rq_sw_desc_cnt := 3; rq_sdesc_nr := 3;
     rq_sdesc := [ {| sw_addr := 0x5000; sw_len := 0x1000 |};
                   {| sw_addr := 0x7000; sw_len := 0x2000 |};
                   {| sw_addr := 0x100000; sw_len := 0x3000 |} ] |}.

Lemma ex_engine_ok : ring_ok ex_engine.
Proof. constructor; decide_now. Defined.

Lemma ex_request_ok : request_ok ex_request.
Proof. constructor; decide_now. Defined.

Lemma transfer_init_chain_witness :
  ltac:(statement_of (transfer_init_chain ex_engine ex_request ex_engine_ok ex_request_ok)).
Proof. instance_of (transfer_init_chain ex_engine ex_request ex_engine_ok ex_request_ok).
Defined.

Section Facts.
Context (e : xdma_engine) (req : xdma_request_cb) (He : ring_ok e) (Hr : request_ok req).
Let n := transfer_count e req.

Lemma transfer_init_ring :
  eng_ring (transfer_init e req).1.1 = init_ring e req (eng_ring e).
Proof using He Hr.
  rewrite transfer_init_eq by done. cbn [fst]. pose proof (ring_len e He) as Hl.
  pose proof (ring_max e He). unfold upd_ring, upd_results, eng_ring in *. fld.
  destruct (eng_desc e); [done|]. cbn in Hl. lia.
Qed.

Lemma transfer_init_ring_ok :
  eng_desc_used e + n <= 2 ^ 30 -> ring_ok (transfer_init e req).1.1.
Proof using He Hr.
  intros Hu. pose proof (transfer_count_range e req He Hr) as (H0 & Hn & _). fold n in H0, Hn.
  pose proof transfer_init_ring as Hring. pose proof (length_init_ring e req (eng_ring e)) as Hlen.
  rewrite <- Hring in Hlen. rewrite transfer_init_eq in * by done. cbn [fst] in *.
  destruct He. constructor; try (rewrite Hlen);
    unfold upd_ring, upd_results; fld; fold n; try done; try lia.
  apply Z.mod_pos_bound. lia.
Qed.
End Facts.

(** C19 [transfer_init] takes pieces off the request and descriptors off the
    ring without disturbing anything else: at least one piece and never more
    than are left, the end point address of the rest of the request follows the
    bytes taken, the ring stays well formed with its index in range, and every
    descriptor outside the run keeps its contents. *)
Theorem transfer_init_advances e req :
  ring_ok e -> request_ok req -> eng_desc_used e + eng_desc_max e <= 2 ^ 30 ->
  let n := transfer_count e req in
  let '(e', req', xfer) := transfer_init e req in
  0 < n <= rq_sw_desc_cnt req - rq_sw_desc_idx req
  /\ ring_ok e' /\ eng_desc_used e' = eng_desc_used e + n
  /\ eng_desc_idx e' = (eng_desc_idx e + n) mod eng_desc_max e
  /\ rq_sw_desc_idx req' = rq_sw_desc_idx req + n
  /\ rq_ep_addr req' = ep_at e req 0 n
  /\ (rq_sw_desc_idx req' < rq_sw_desc_cnt req' -> request_ok req')
  /\ (forall k, Z.of_nat k < eng_desc_idx e \/ eng_desc_idx e + n <= Z.of_nat k ->
        eng_ring e' !! k = eng_ring e !! k).
Proof.
  intros He Hr Hu n. pose proof (transfer_count_range e req He Hr) as (H0 & Hn & Hn').
  fold n in H0, Hn, Hn'. pose proof (ring_idx e He). pose proof (ring_len e He).
  pose proof (transfer_init_ring_ok e req He Hr ltac:(fold n; lia)) as Hok.
  pose proof (transfer_init_ring e req He Hr) as Hring.
  rewrite transfer_init_eq in * by done. fold n in Hok, Hring |- *. cbn [fst] in *.
  split; [lia|]. split; [exact Hok|]. split; [done|]. split; [done|]. fld.
  split; [done|]. split; [done|]. split.
  - intros Hlt. pose proof (ep_at_range e req Hr n). destruct Hr. constructor; fld; try done; lia.
  - intros k Hk. rewrite Hring, lookup_transfer_init by done. fold n.
    by rewrite decide_False by lia.
Qed.

Lemma ex_engine_room : eng_desc_used ex_engine + eng_desc_max ex_engine <= 2 ^ 30.
Proof. vm_compute. discriminate. Defined.

Lemma transfer_init_advances_witness :
  ltac:(statement_of (transfer_init_advances ex_engine ex_request ex_engine_ok ex_request_ok
                        ex_engine_room)).
Proof. instance_of (transfer_init_advances _ _ ex_engine_ok ex_request_ok ex_engine_room).
Defined.

(** The same chain, computed. *)
Example transfer_init_chain_run :
  let '(e', _, xfer) := transfer_init ex_engine ex_request in
  option_map (map (fun d => (desc_dst d, d_bytes d, desc_adj d, desc_flags d)))
    (fetch_chain 4 (ring_mem 0x10000 (eng_ring e')) (x_desc_bus xfer))
  = Some [(0x40, 0x1000, 1, 0); (0x1040, 0x2000, 0, 0); (0x3040, 0x3000, 0, 0x13)].
Proof. vm_compute. reflexivity. Qed.
