(* ===== verification/Engine.v ===== *)
(** The SG DMA engine ([libxdma.c]): register programming, start and stop,
    servicing of completions, the poll mode monitor and the transfer queue.
    Guards against [NULL] pointers to embedded objects, log lines and locks are
    left out: each function below runs with the engine's lock held, or takes it
    around its whole body. *)
From S2P Require Import Prelude Kernel Types Desc.
Local Open Scope Z_scope.

(* @src xdma/libxdma.c:211-214 build_u32 *)
Definition build_u32 (hi lo : Z) : Z :=
  Z.lor (Z.shiftl (Z.land hi 0xFFFF) 16) (Z.land lo 0xFFFF).

(* @src xdma/libxdma.c:216-219 build_u64 *)
Definition build_u64 (hi lo : Z) : Z :=
  Z.lor (Z.shiftl (Z.land hi 0xFFFFFFF) 32) (Z.land lo 0xFFFFFFFF).

(** [if (enable_st_c2h_credit && engine->streaming && dir == DMA_FROM_DEVICE)] *)
Definition st_c2h_credit (pm : params) (e : xdma_engine) : bool :=
  enable_st_c2h_credit pm && eng_streaming e && dir_eqb (eng_dir e) DMA_FROM_DEVICE.

Definition lor_all (l : list Z) : Z := foldl Z.lor 0 l.

Section Code.
Context {D : Type} `{Env D} (pm : params).

(** [&engine->regs->r] and [&engine->sgdma_regs->r]. *)
Definition reg_of (r : Z) : M (est D) Z := e ← the_engine; mret (eng_regs e + r).
Definition sg_reg_of (r : Z) : M (est D) Z := e ← the_engine; mret (eng_sgdma_regs e + r).

Definition write_reg (v r : Z) : M (est D) unit := a ← reg_of r; write_register v a.
Definition read_reg (r : Z) : M (est D) Z := a ← reg_of r; read_register a.

(* @src xdma/libxdma.c:318-334 enable_perf *)
Definition enable_perf : M (est D) unit :=
  write_reg XDMA_PERF_CLEAR reg_perf_ctrl ;;
  read_reg reg_identifier ;;
  write_reg (Z.lor XDMA_PERF_AUTO XDMA_PERF_RUN) reg_perf_ctrl ;;
  read_reg reg_identifier ;; mret tt.

(** [engine->xdma_perf->field = v] *)
Definition upd_perf (f : xdma_performance_ioctl -> xdma_performance_ioctl) : M (est D) unit :=
  upd_engine (fun e => e <| eng_xdma_perf ::= option_map f |>).

(* @src xdma/libxdma.c:336-367 get_perf_stats *)
Definition get_perf_stats : M (est D) unit :=
  e ← the_engine;
  match eng_xdma_perf e with
  | None => mret tt
  | Some _ =>
      lo ← read_reg reg_completed_desc_count;
      upd_perf (fun p => p <| p_iterations := u32 (build_u64 0 lo) |>) ;;
      hi ← read_reg reg_perf_cyc_hi; lo ← read_reg reg_perf_cyc_lo;
      upd_perf (fun p => p <| p_clock_cycle_count := build_u64 hi lo |>) ;;
      hi ← read_reg reg_perf_dat_hi; lo ← read_reg reg_perf_dat_lo;
      upd_perf (fun p => p <| p_data_cycle_count := build_u64 hi lo |>) ;;
      hi ← read_reg reg_perf_pnd_hi; lo ← read_reg reg_perf_pnd_lo;
      upd_perf (fun p => p <| p_pending_count := build_u64 hi lo |>)
  end.

(* @src xdma/libxdma.c:369-411 engine_reg_dump *)
Definition engine_reg_dump : M (est D) Z :=
  w ← read_reg reg_identifier;
  if negb (Z.land w BLOCK_ID_MASK =? BLOCK_ID_HEAD) then mret (- EINVAL)
  else
    read_reg reg_status ;; read_reg reg_control ;;
    (a ← sg_reg_of sg_first_desc_lo; read_register a) ;;
    (a ← sg_reg_of sg_first_desc_hi; read_register a) ;;
    (a ← sg_reg_of sg_first_desc_adjacent; read_register a) ;;
    read_reg reg_completed_desc_count ;; read_reg reg_interrupt_enable_mask ;; mret 0.

(* @src xdma/libxdma.c:507-534 engine_status_read *)
Definition engine_status_read (clear dump : bool) : M (est D) Z :=
  rv ← (if dump then engine_reg_dump else mret 0);
  if rv <? 0 then mret rv
  else
    w ← read_reg (if clear then reg_status_rc else reg_status);
    upd_engine (fun e => e <| eng_status := w |>) ;; mret rv.

(** The interrupt enables common to running and stopped engines. *)
(* @src xdma/libxdma.c:554-565 xdma_engine_stop *)
Definition ctrl_stop : Z :=
  lor_all ([XDMA_CTRL_IE_DESC_ALIGN_MISMATCH; XDMA_CTRL_IE_MAGIC_STOPPED;
            XDMA_CTRL_IE_READ_ERROR; XDMA_CTRL_IE_DESC_ERROR]
           ++ (if poll_mode pm then [XDMA_CTRL_POLL_MODE_WB]
               else [XDMA_CTRL_IE_DESC_STOPPED; XDMA_CTRL_IE_DESC_COMPLETED])).

(* @src xdma/libxdma.c:540-576 xdma_engine_stop *)
Definition xdma_engine_stop : M (est D) Z :=
  e ← the_engine;
  when (st_c2h_credit pm e) (a ← sg_reg_of sg_credits; write_register 0 a) ;;
  write_reg ctrl_stop reg_control ;;
  upd_engine (fun e => e <| eng_running := false |>) ;; mret 0.

(* @src xdma/libxdma.c:603-619 engine_start_mode_config *)
Definition ctrl_start (non_incr : bool) : Z :=
  lor_all ([XDMA_CTRL_RUN_STOP; XDMA_CTRL_IE_READ_ERROR; XDMA_CTRL_IE_DESC_ERROR;
            XDMA_CTRL_IE_DESC_ALIGN_MISMATCH; XDMA_CTRL_IE_MAGIC_STOPPED]
           ++ (if poll_mode pm then [XDMA_CTRL_POLL_MODE_WB]
               else [XDMA_CTRL_IE_DESC_STOPPED; XDMA_CTRL_IE_DESC_COMPLETED])
           ++ (if non_incr then [XDMA_CTRL_NON_INCR_ADDR] else [])).

(* @src xdma/libxdma.c:578-634 engine_start_mode_config *)
Definition engine_start_mode_config : M (est D) Z :=
  e ← the_engine;
  when (bool_decide (is_Some (eng_xdma_perf e)))
    (write_reg (lor_all [XDMA_CTRL_IE_DESC_STOPPED; XDMA_CTRL_IE_DESC_COMPLETED;
                         XDMA_CTRL_IE_DESC_ALIGN_MISMATCH; XDMA_CTRL_IE_MAGIC_STOPPED;
                         XDMA_CTRL_IE_IDLE_STOPPED; XDMA_CTRL_IE_READ_ERROR;
                         XDMA_CTRL_IE_DESC_ERROR]) reg_interrupt_enable_mask) ;;
  write_reg (ctrl_start (eng_non_incr_addr e)) reg_control ;;
  read_reg reg_status ;; mret 0.

(** The register writes that hand the first transfer to the engine. *)
(* @src xdma/libxdma.c:728-752 engine_start *)
Definition write_first_desc (x : xdma_transfer) : M (est D) unit :=
  (a ← sg_reg_of sg_first_desc_lo; write_register (PCI_DMA_L (x_desc_bus x)) a) ;;
  (a ← sg_reg_of sg_first_desc_hi; write_register (PCI_DMA_H (x_desc_bus x)) a) ;;
  (a ← sg_reg_of sg_first_desc_adjacent;
   write_register (xdma_get_next_adj (u32 (x_desc_adjacent x)) (PCI_DMA_L (x_desc_bus x))) a).

(* @src xdma/libxdma.c:681-776 engine_start *)
Definition engine_start : M (est D) (option xfer_ptr) :=
  e ← the_engine;
  if eng_running e then mret None
  else match eng_transfer_list e with
  | [] => mret None
  | p :: _ =>
      x ← the_xfer p;
      upd_engine (fun e => e <| eng_shutdown := ENGINE_SHUTDOWN_NONE |>) ;;
      when (st_c2h_credit pm e) (a ← sg_reg_of sg_credits; write_register (eng_desc_used e) a) ;;
      upd_engine (fun e => e <| eng_desc_dequeued := 0 |>) ;;
      write_first_desc x ;;
      rv ← engine_start_mode_config;
      if rv <? 0 then mret None
      else
        rv ← engine_status_read false false;
        if rv <? 0 then mret None
        else upd_engine (fun e => e <| eng_running := true |>) ;; mret (Some p)
  end.

(* @src xdma/libxdma.c:786-800 engine_service_shutdown *)
Definition engine_service_shutdown : M (est D) Z :=
  rv ← xdma_engine_stop;
  if rv <? 0 then mret rv else call_ (K_wake_up WQ_shutdown) ;; mret 0.

(** Always [transfer] itself: see [engine_transfer_completion]'s callers. *)
(* @src xdma/libxdma.c:802-825 engine_transfer_completion *)
Definition engine_transfer_completion (p : xfer_ptr) : M (est D) (option xfer_ptr) :=
  x ← the_xfer p;
  call_ (K_wake_up (WQ_xfer p.1 p.2)) ;;
  match x_cb x with
  | Some cb => when (x_last_in_request x) (call_ (K_io_done cb 0))
  | None => mret tt
  end ;;
  mret (Some p).

(** [list_del(engine->transfer_list.next)] *)
Definition list_del_head : M (est D) unit :=
  upd_engine (fun e => e <| eng_transfer_list ::= tail |>).

(** The [while] loop, on at most [fuel] queued transfers; the result is the
    first transfer not completed and what is left of the descriptor count. *)
(* @src xdma/libxdma.c:852-881 engine_service_transfer_list *)
Fixpoint service_list_loop (fuel : nat) (transfer : option xfer_ptr) (pdesc_completed : Z) :
    M (est D) (option xfer_ptr * Z) :=
  match fuel, transfer with
  | O, _ | _, None => mret (transfer, pdesc_completed)
  | S fuel, Some p =>
      x ← the_xfer p;
      if negb (x_cyclic x) && (u32 (x_desc_num x) <? pdesc_completed) then
        list_del_head ;;
        upd_engine (fun e => e <| eng_desc_dequeued ::= fun n => s32 (n + x_desc_num x) |>) ;;
        upd_xfer p (fun x => x <| x_state := TRANSFER_STATE_COMPLETED |>) ;;
        engine_transfer_completion p ;;
        e ← the_engine;
        service_list_loop fuel (head (eng_transfer_list e)) (u32 (pdesc_completed - x_desc_num x))
      else mret (transfer, pdesc_completed)
  end.

(** Every round takes one transfer off the queue. *)
(* @src xdma/libxdma.c:827-884 engine_service_transfer_list *)
Definition engine_service_transfer_list (transfer : option xfer_ptr) (pdesc_completed : Z) :
    M (est D) (option xfer_ptr * Z) :=
  e ← the_engine;
  service_list_loop (S (length (eng_transfer_list e))) transfer pdesc_completed.

(* @src xdma/libxdma.c:886-914 engine_err_handle *)
Definition engine_err_handle (p : xfer_ptr) : M (est D) Z :=
  e ← the_engine;
  when (tst (eng_status e) XDMA_STAT_BUSY) (read_reg reg_status ;; mret tt) ;;
  upd_xfer p (fun x => x <| x_state := TRANSFER_STATE_FAILED |>) ;;
  xdma_engine_stop.

Definition has_error (e : xdma_engine) : bool :=
  (dir_eqb (eng_dir e) DMA_FROM_DEVICE && tst (eng_status e) XDMA_STAT_C2H_ERR_MASK)
  || (dir_eqb (eng_dir e) DMA_TO_DEVICE && tst (eng_status e) XDMA_STAT_H2C_ERR_MASK).

(** Is there an end of packet among the first [max] results of a transfer? *)
(* @src xdma/libxdma.c:956-967 engine_service_final_transfer *)
Definition eop_in_results (e : xdma_engine) (x : xdma_transfer) (max : Z) : bool :=
  existsb (fun r => tst (r_status r) RX_STATUS_EOP)
    (take (Z.to_nat (s32 max)) (drop (Z.to_nat (x_res_virt x)) (default [] (eng_cyclic_result e)))).

(** [transfer_del:] *)
(* @src xdma/libxdma.c:1011-1021 engine_service_final_transfer *)
Definition transfer_del (p : xfer_ptr) : M (est D) (option xfer_ptr) :=
  list_del_head ;; engine_transfer_completion p.

(** An unfinished transfer of a stream with [eop_flush]; [rcved]: its results have an
    end of packet. *)
(* @src xdma/libxdma.c:951-980 engine_service_final_transfer *)
Definition final_eop (p : xfer_ptr) (rcved : bool) (pdesc_completed : Z) : M (est D) (option xfer_ptr) :=
  when rcved (upd_xfer p (fun x => x <| x_flags ::= fun f => Z.lor f XFER_FLAG_ST_C2H_EOP_RCVED |>)) ;;
  upd_xfer p (fun x => x <| x_desc_cmpl ::= fun n => s32 (n + pdesc_completed) |>) ;;
  x ← the_xfer p;
  if negb (tst (x_flags x) XFER_FLAG_ST_C2H_EOP_RCVED) then mret None
  else
    engine_service_shutdown ;;
    upd_xfer p (fun x => x <| x_state := TRANSFER_STATE_COMPLETED |>) ;;
    upd_engine (fun e => e <| eng_desc_dequeued ::= fun n => s32 (n + x_desc_cmpl x) |>) ;;
    transfer_del p.

(* @src xdma/libxdma.c:916-1022 engine_service_final_transfer *)
Definition engine_service_final_transfer (transfer : option xfer_ptr) (pdesc_completed : Z) :
    M (est D) (option xfer_ptr) :=
  match transfer with
  | None => mret None
  | Some p =>
      e ← the_engine; x ← the_xfer p;
      if has_error e then engine_err_handle p ;; transfer_del p
      else if pdesc_completed <? u32 (x_desc_num x) then
        if eng_eop_flush e then
          final_eop p (eop_in_results e x pdesc_completed) pdesc_completed
        else
          upd_xfer p (fun x => x <| x_state := TRANSFER_STATE_FAILED |>
                                 <| x_desc_cmpl := s32 pdesc_completed |>) ;;
          upd_engine (fun e => e <| eng_desc_dequeued ::= fun n => s32 (n + x_desc_num x) |>) ;;
          transfer_del p
      else
        upd_xfer p (fun x => x <| x_state := TRANSFER_STATE_COMPLETED |>
                               <| x_desc_cmpl := x_desc_num x |>) ;;
        upd_engine (fun e => e <| eng_desc_dequeued ::= fun n => s32 (n + x_desc_num x) |>) ;;
        transfer_del p
  end.

(* @src xdma/libxdma.c:1024-1052 engine_service_perf *)
Definition engine_service_perf (desc_completed : Z) : M (est D) Z :=
  e ← the_engine;
  when (bool_decide (is_Some (eng_xdma_perf e)))
    (when (tst (eng_status e) XDMA_STAT_DESC_COMPLETED)
       (upd_perf (fun p => p <| p_iterations := u32 desc_completed |>)) ;;
     when (tst (eng_status e) XDMA_STAT_DESC_STOPPED)
       (upd_perf (fun p => p <| p_stopped := 1 |>) ;; call_ (K_wake_up WQ_perf))) ;;
  mret 0.

(* @src xdma/libxdma.c:1054-1088 engine_service_resume *)
Definition engine_service_resume : M (est D) Z :=
  e ← the_engine;
  if negb (eng_running e) then
    match eng_transfer_list e with
    | _ :: _ => started ← engine_start;
                mret (if started is Some _ then 0 else - EINVAL)
    | [] =>
        when (tst (eng_shutdown e) ENGINE_SHUTDOWN_REQUEST)
          (upd_engine (fun e => e <| eng_shutdown ::= fun v => Z.lor v ENGINE_SHUTDOWN_IDLE |>) ;;
           call_ (K_wake_up WQ_shutdown)) ;;
        mret 0
    end
  else
    match eng_transfer_list e with
    | [] => engine_service_shutdown ;; mret 0
    | _ => mret 0
    end.

(** The middle part of [engine_service], from the status to the restart. *)
(* @src xdma/libxdma.c:1162-1199 engine_service *)
Definition service_transfers (desc_count : Z) : M (est D) unit :=
  e ← the_engine;
  let transfer := head (eng_transfer_list e) in
  when (bool_decide (is_Some transfer)) (engine_service_perf desc_count ;; mret tt) ;;
  e ← the_engine;
  '(transfer, desc_count) ←
    engine_service_transfer_list transfer (u32 (desc_count - eng_desc_dequeued e));
  engine_service_final_transfer transfer desc_count ;;
  when (negb (eng_eop_flush e)) (engine_service_resume ;; mret tt).

(* @src xdma/libxdma.c:1098-1204 engine_service *)
Definition engine_service (desc_writeback : Z) : M (est D) Z :=
  let desc_count := Z.land desc_writeback WB_COUNT_MASK in
  let err_flag := Z.land desc_writeback WB_ERR_MASK in
  e ← the_engine;
  if negb (eng_running e) then engine_status_read true false ;; mret 0
  else
    when ((desc_count =? 0) || nz err_flag) (engine_status_read true false ;; mret tt) ;;
    e ← the_engine;
    when ((eng_running e && negb (tst (eng_status e) XDMA_STAT_BUSY))
          || (negb (eng_eop_flush e) && nz desc_count))
      (engine_service_shutdown ;; mret tt) ;;
    desc_count ← (if desc_count =? 0 then read_reg reg_completed_desc_count else mret desc_count);
    when (nz desc_count) (service_transfers desc_count) ;;
    mret (if nz err_flag then -1 else 0).

(* @src xdma/libxdma.c:257-265 channel_interrupts_enable *)
Definition channel_interrupts_enable (xdev : xdma_dev) (mask : Z) : M (est D) unit :=
  write_register mask (xd_config_bar xdev + XDMA_OFS_INT_CTRL + irq_channel_int_enable_w1s).

(* @src xdma/libxdma.c:1207-1244 engine_service_work *)
Definition engine_service_work (xdev : xdma_dev) : M (est D) unit :=
  e ← the_engine;
  if negb (eng_magic e =? MAGIC_ENGINE) then mret tt
  else
    rv ← engine_service 0;
    if rv <? 0 then mret tt
    else
      e ← the_engine;
      if xd_msix_enabled xdev
      then write_reg (eng_interrupt_enable_mask_value e) reg_interrupt_enable_mask_w1s
      else channel_interrupts_enable xdev (eng_irq_bitmask e).

(** [time_after(a, b)] on 64-bit jiffies. *)
Definition time_after (a b : Z) : bool := s64 (b - a) <? 0.

(** The polling loop, for at most [fuel] rounds; [None] when they do not
    suffice.  [wb] is the address of the writeback word, [d] its last value. *)
(* @src xdma/libxdma.c:1268-1300 engine_service_wb_monitor *)
Fixpoint wb_loop (fuel : nat) (wb expected timeout sched_limit : Z) : M (est D) (option Z) :=
  match fuel with
  | O => mret None
  | S fuel =>
      d ← read_register wb;
      when (nz d) (write_register 0 wb) ;;
      if tst d WB_ERR_MASK then mret (Some d)
      else if expected <=? d then mret (Some d)
      else
        now ← call K_jiffies;
        if time_after now timeout then
          mret (Some (if expected <? Z.land d WB_COUNT_MASK
                      then Z.lor expected WB_ERR_MASK else d))
        else
          when (nz sched_limit && (sched_limit mod NUM_POLLS_PER_SCHED =? 0))
            (call_ K_schedule) ;;
          wb_loop fuel wb expected timeout (u32 (sched_limit + 1))
  end.

(** [hz] is the kernel's [HZ]. *)
(* @src xdma/libxdma.c:1246-1303 engine_service_wb_monitor *)
Definition engine_service_wb_monitor (hz : Z) (fuel : nat) (expected_wb : Z) :
    M (est D) (option Z) :=
  e ← the_engine;
  now ← call K_jiffies;
  if expected_wb =? 0 then mret (Some 0)
  else wb_loop fuel (default 0 (eng_poll_wb e)) expected_wb (u64 (now + POLL_TIMEOUT_SECONDS * hz)) 0.

(* @src xdma/libxdma.c:1305-1340 engine_service_poll *)
Definition engine_service_poll (hz : Z) (fuel : nat) (expected_desc_count : Z) :
    M (est D) (option Z) :=
  e ← the_engine;
  if negb (eng_magic e =? MAGIC_ENGINE) then mret (Some (- EINVAL))
  else
    wb ← engine_service_wb_monitor hz fuel expected_desc_count;
    match wb with
    | None => mret None
    | Some 0 => mret (Some 0)
    | Some desc_wb => rv ← engine_service (s32 desc_wb); mret (Some rv)
    end.

(* @src xdma/libxdma.c:2403-2438 transfer_abort *)
Definition transfer_abort (p : xfer_ptr) : M (est D) Z :=
  x ← the_xfer p;
  if x_desc_num x =? 0 then mret (- EINVAL)
  else
    e ← the_engine;
    when (bool_decide (head (eng_transfer_list e) = Some p)) list_del_head ;;
    when (bool_decide (x_state x = TRANSFER_STATE_SUBMITTED))
      (upd_xfer p (fun x => x <| x_state := TRANSFER_STATE_ABORTED |>)) ;;
    mret 0.

(* @src xdma/libxdma.c:2447-2524 transfer_queue *)
Definition transfer_queue (xdev : xdma_dev) (p : xfer_ptr) : M (est D) Z :=
  x ← the_xfer p;
  if x_desc_num x =? 0 then mret (- EINVAL)
  else if xdma_device_flag_check xdev XDEV_FLAG_OFFLINE then mret (- EBUSY)
  else
    e ← the_engine;
    if tst (eng_shutdown e) ENGINE_SHUTDOWN_REQUEST then mret (- EBUSY)
    else
      upd_xfer p (fun x => x <| x_state := TRANSFER_STATE_SUBMITTED |>) ;;
      upd_engine (fun e => e <| eng_transfer_list ::= fun l => l ++ [p] |>) ;;
      when (negb (eng_running e)) (engine_start ;; mret tt) ;;
      mret 0.
End Code.
