(* ===== verification/EngineSpec.v ===== *)
(** What the engine functions promise: an abstract view of the transfer queue,
    the refinement of the servicing loops to it, and the invariants every
    sequence of engine operations preserves. *)
From S2P Require Import Prelude Kernel Types Desc Engine.
Local Open Scope Z_scope.

(** ** The abstract queue

    The longest run of transfers at the head of the queue that [count] completed
    descriptors cover with at least one to spare, the rest of the queue and what
    is left of the count. *)
Fixpoint split_done (h : gmap xfer_ptr xdma_transfer) (l : list xfer_ptr) (count : Z) :
    list xfer_ptr * list xfer_ptr * Z :=
  match l with
  | [] => ([], [], count)
  | p :: l' =>
      let x := default xfer_zero (h !! p) in
      if negb (x_cyclic x) && (u32 (x_desc_num x) <? count) then
        let '(d, r, c) := split_done h l' (u32 (count - x_desc_num x)) in (p :: d, r, c)
      else ([], l, count)
  end.

Definition set_state (st : transfer_state) (p : xfer_ptr) (h : gmap xfer_ptr xdma_transfer) :
    gmap xfer_ptr xdma_transfer :=
  alter (fun x => x <| x_state := st |>) p h.

Definition complete_all (d : list xfer_ptr) (h : gmap xfer_ptr xdma_transfer) :
    gmap xfer_ptr xdma_transfer :=
  foldl (fun h p => set_state TRANSFER_STATE_COMPLETED p h) h d.

Lemma alter_at (f : xdma_transfer -> xdma_transfer) (p : xfer_ptr) (h : gmap xfer_ptr xdma_transfer) x :
  h !! p = Some x -> alter f p h = <[p := f x]> h.
Proof. apply alter_lookup. Qed.

(** Only the outside world changed. *)
Definition same_engine {D} (s s' : est D) : Prop :=
  es_eng s' = es_eng s /\ es_heap s' = es_heap s /\ es_sgts s' = es_sgts s.

Section Ops.
Context {D : Type} `{Env D} (pm : params).
Implicit Types (s : est D) (p : xfer_ptr).

Lemma wp_engine_stop (Q : Z -> est D -> Prop) s :
  (forall s', es_eng s' = (es_eng s) <| eng_running := false |> ->
     es_heap s' = es_heap s -> es_sgts s' = es_sgts s -> Q 0 s') ->
  wp (xdma_engine_stop pm) Q s.
Proof.
  intros HQ. unfold xdma_engine_stop, write_reg, reg_of, sg_reg_of.
  repeat est_step; by apply HQ.
Qed.

Lemma wp_status_read clear (Q : Z -> est D -> Prop) s :
  (forall v s', 0 <= v < 2 ^ 32 -> es_eng s' = (es_eng s) <| eng_status := v |> ->
     es_heap s' = es_heap s -> es_sgts s' = es_sgts s -> Q 0 s') ->
  wp (engine_status_read clear false) Q s.
Proof.
  intros HQ. unfold engine_status_read, read_reg, reg_of.
  repeat est_step; [done|]. by apply (HQ v).
Qed.

Lemma wp_mode_config (Q : Z -> est D -> Prop) s :
  (forall s', same_engine s s' -> Q 0 s') -> wp (engine_start_mode_config pm) Q s.
Proof.
  intros HQ. unfold engine_start_mode_config, write_reg, read_reg, reg_of.
  repeat est_step; by apply HQ.
Qed.

Lemma wp_engine_start (Q : option xfer_ptr -> est D -> Prop) s :
  (eng_running (es_eng s) = true \/ eng_transfer_list (es_eng s) = [] -> Q None s) ->
  (forall p l v s', eng_running (es_eng s) = false -> eng_transfer_list (es_eng s) = p :: l ->
     es_eng s' = (es_eng s) <| eng_shutdown := ENGINE_SHUTDOWN_NONE |>
                          <| eng_desc_dequeued := 0 |> <| eng_status := v |>
                          <| eng_running := true |> ->
     es_heap s' = es_heap s -> es_sgts s' = es_sgts s -> Q (Some p) s') ->
  wp (engine_start pm) Q s.
Proof.
  intros HN HS. unfold engine_start. est_step. est_step.
  destruct (eng_running (es_eng s)) eqn:Hr; [est_step; auto|].
  destruct (eng_transfer_list (es_eng s)) as [|p l] eqn:Hl; [est_step; auto|].
  unfold write_first_desc, sg_reg_of. est_step. est_step. est_step. est_step.
  est_step; repeat est_step; apply wp_mode_config; intros s2 (F1 & F2 & F3);
    cbn [Z.ltb Z.compare]; est_step; apply wp_status_read; intros v s3 _ G1 G2 G3;
    cbn [Z.ltb Z.compare]; repeat est_step;
    (apply (HS p l v); [done|done|fld; rewrite G1, F1; done|fld; congruence|fld; congruence]).
Qed.

Lemma wp_shutdown (Q : Z -> est D -> Prop) s :
  (forall s', es_eng s' = (es_eng s) <| eng_running := false |> ->
     es_heap s' = es_heap s -> es_sgts s' = es_sgts s -> Q 0 s') ->
  wp (engine_service_shutdown pm) Q s.
Proof.
  intros HQ. unfold engine_service_shutdown. est_step. apply wp_engine_stop.
  intros s' E1 E2 E3. cbn [Z.ltb Z.compare]. repeat est_step. by apply HQ.
Qed.

Lemma wp_completion p (Q : option xfer_ptr -> est D -> Prop) s :
  (forall s', same_engine s s' -> Q (Some p) s') -> wp (engine_transfer_completion p) Q s.
Proof.
  intros HQ. unfold engine_transfer_completion. do 4 est_step. est_step.
  destruct (x_cb _); repeat est_step; by apply HQ.
Qed.

(** The effect of completing the transfers [d] at the head of the queue. *)
Definition dequeue (d : list xfer_ptr) (n : Z) (e : xdma_engine) : xdma_engine :=
  e <| eng_transfer_list ::= drop (length d) |> <| eng_desc_dequeued := n |>.

Definition dequeued_after (h : gmap xfer_ptr xdma_transfer) (d : list xfer_ptr) (n : Z) : Z :=
  foldl (fun n p => s32 (n + x_desc_num (default xfer_zero (h !! p)))) n d.

Lemma desc_num_set_state st p q h :
  x_desc_num (default xfer_zero (set_state st p h !! q)) = x_desc_num (default xfer_zero (h !! q))
  /\ x_cyclic (default xfer_zero (set_state st p h !! q)) = x_cyclic (default xfer_zero (h !! q)).
Proof.
  unfold set_state. destruct (decide (p = q)) as [->|Hne].
  - rewrite lookup_alter_eq. by destruct (h !! q).
  - by rewrite lookup_alter_ne.
Qed.

Lemma split_done_set_state st p h l c : split_done (set_state st p h) l c = split_done h l c.
Proof.
  revert c. induction l as [|q l IH]; intros c; cbn [split_done]; [done|].
  destruct (desc_num_set_state st p q h) as [-> ->]. by rewrite IH.
Qed.

Lemma dequeued_after_set_state st p h d n :
  dequeued_after (set_state st p h) d n = dequeued_after h d n.
Proof.
  revert n. induction d as [|q d IH]; intros n; [done|].
  unfold dequeued_after in *. cbn [foldl].
  by rewrite (proj1 (desc_num_set_state st p q h)), IH.
Qed.

Lemma wp_service_list_loop fuel l c (Q : option xfer_ptr * Z -> est D -> Prop) s :
  (length l < fuel)%nat -> eng_transfer_list (es_eng s) = l ->
  (let '(d, r, c') := split_done (es_heap s) l c in
   forall s', es_eng s' = dequeue d (dequeued_after (es_heap s) d (eng_desc_dequeued (es_eng s)))
                            (es_eng s) ->
     es_heap s' = complete_all d (es_heap s) -> es_sgts s' = es_sgts s ->
     Q (head r, c') s') ->
  wp (service_list_loop fuel (head l) c) Q s.
Proof.
  revert l c s. induction fuel as [|fuel IH]; intros l c s Hf Hl HQ; [lia|].
  destruct l as [|p l]; cbn [service_list_loop head].
  { est_step. apply HQ; [|done|done]. unfold dequeue. destruct s as [k e h g].
    cbn in *. by destruct e. }
  est_step. est_step. unfold xfer_at in *. cbn [split_done] in HQ.
  set (x := default xfer_zero (es_heap s !! p)) in *. est_step.
  - rewrite H0 in HQ. destruct (split_done (es_heap s) l _) as [[d r] c'] eqn:Hs.
    unfold list_del_head. repeat est_step. apply wp_completion. intros s' (E1 & E2 & E3).
    est_step. est_step. 
    assert (eng_transfer_list (es_eng s') = l) as Hl'.
    { rewrite E1. fld. by rewrite Hl. }
    rewrite Hl'. apply IH; [cbn in Hf; lia|done|].
    rewrite E2. fld. fold (set_state TRANSFER_STATE_COMPLETED p (es_heap s)).
    rewrite split_done_set_state, Hs. intros s'' F1 F2 F3. apply HQ.
    + rewrite F1, E1. fld. rewrite dequeued_after_set_state. unfold dequeue, set_field. cbn.
      by rewrite Hl.
    + rewrite F2. done.
    + by rewrite F3, E3.
  - rewrite H0 in HQ. est_step. apply HQ; [|done|done]. unfold dequeue.
    destruct s as [k e h g]. cbn in *. by destruct e.
Qed.

(** What happens to the transfer [x] the engine stopped on, with [c] of its
    descriptors completed: its new contents, whether it leaves the queue, whether
    the engine is stopped and how many descriptors are counted as dequeued. *)
Record final := { f_xfer : xdma_transfer; f_removed : bool; f_stopped : bool; f_count : Z }.

Definition final_of_eop (x : xdma_transfer) (rcved : bool) (c : Z) : final :=
  let x := if rcved then x <| x_flags ::= fun f => Z.lor f XFER_FLAG_ST_C2H_EOP_RCVED |> else x in
  let x := x <| x_desc_cmpl ::= fun n => s32 (n + c) |> in
  if tst (x_flags x) XFER_FLAG_ST_C2H_EOP_RCVED then
    {| f_xfer := x <| x_state := TRANSFER_STATE_COMPLETED |>;
       f_removed := true; f_stopped := true; f_count := x_desc_cmpl x |}
  else {| f_xfer := x; f_removed := false; f_stopped := false; f_count := 0 |}.

Definition final_of (e : xdma_engine) (x : xdma_transfer) (c : Z) : final :=
  if has_error e then
    {| f_xfer := x <| x_state := TRANSFER_STATE_FAILED |>;
       f_removed := true; f_stopped := true; f_count := 0 |}
  else if c <? u32 (x_desc_num x) then
    if eng_eop_flush e then
      final_of_eop x (eop_in_results e x c) c
    else
      {| f_xfer := x <| x_state := TRANSFER_STATE_FAILED |> <| x_desc_cmpl := s32 c |>;
         f_removed := true; f_stopped := false; f_count := x_desc_num x |}
  else
    {| f_xfer := x <| x_state := TRANSFER_STATE_COMPLETED |> <| x_desc_cmpl := x_desc_num x |>;
       f_removed := true; f_stopped := false; f_count := x_desc_num x |}.

(** The engine afterwards; nothing but these three fields changes. *)
Definition after_final (f : final) (e e' : xdma_engine) : Prop :=
  exists n, (f_removed f = true -> f_count f <> 0 -> n = s32 (eng_desc_dequeued e + f_count f))
  /\ e' = (e <| eng_transfer_list ::= if f_removed f then tail else fun l => l |>
             <| eng_running ::= fun r => r && negb (f_stopped f) |>
             <| eng_desc_dequeued := n |>).

Lemma wp_transfer_del p (Q : option xfer_ptr -> est D -> Prop) s :
  (forall s', es_eng s' = (es_eng s) <| eng_transfer_list ::= tail |> ->
     es_heap s' = es_heap s -> es_sgts s' = es_sgts s -> Q (Some p) s') ->
  wp (transfer_del p) Q s.
Proof.
  intros HQ. unfold transfer_del, list_del_head. est_step. est_step.
  apply wp_completion. intros s' (E1 & E2 & E3). by apply HQ.
Qed.

Lemma wp_err_handle p (Q : Z -> est D -> Prop) s :
  (forall s', es_eng s' = (es_eng s) <| eng_running := false |> ->
     es_heap s' = set_state TRANSFER_STATE_FAILED p (es_heap s) -> es_sgts s' = es_sgts s ->
     Q 0 s') ->
  wp (engine_err_handle pm p) Q s.
Proof.
  intros HQ. unfold engine_err_handle, read_reg, reg_of.
  est_step. est_step. est_step.
  est_step; repeat est_step; apply wp_engine_stop; intros s' E1 E2 E3; by apply HQ.
Qed.

(** What the service of a transfer promises. *)
Definition finals (p : xfer_ptr) (f : final) s (Q : option xfer_ptr -> est D -> Prop) : Prop :=
  forall r s', after_final f (es_eng s) (es_eng s') -> es_heap s' = <[p := f_xfer f]> (es_heap s) ->
    es_sgts s' = es_sgts s -> Q r s'.

(** The end of a transfer that leaves the queue: its update, the count and the list. *)
Lemma wp_final_removed p x f (n : Z) (Q : option xfer_ptr -> est D -> Prop) s :
  es_heap s !! p = Some x ->
  finals p {| f_xfer := f x; f_removed := true; f_stopped := false; f_count := n |} s Q ->
  wp (upd_xfer p f ;; upd_engine (fun e => e <| eng_desc_dequeued ::= fun d => s32 (d + n) |>) ;; transfer_del p) Q s.
Proof.
  intros Hx HQ. do 4 est_step. apply wp_transfer_del. intros s' F1 F2 F3. apply HQ.
  - eexists. split; [intros _ _; reflexivity|]. rewrite F1. unfold set_field. cbn. by rewrite andb_true_r.
  - rewrite F2. fld. by apply alter_at.
  - by rewrite F3.
Qed.

Lemma wp_final_eop p x rcved c (Q : option xfer_ptr -> est D -> Prop) s :
  es_heap s !! p = Some x -> finals p (final_of_eop x rcved c) s Q -> wp (final_eop pm p rcved c) Q s.
Proof.
  intros Hx HQ. unfold final_eop, final_of_eop in *.
  set (x1 := if rcved then x <| x_flags ::= _ |> else x) in *. set (x2 := x1 <| x_desc_cmpl ::= fun n => s32 (n + c) |>) in *.
  est_step. apply (wp_mono _ (fun _ s1 => es_heap s1 = <[p := x1]> (es_heap s) /\ es_eng s1 = es_eng s /\ es_sgts s1 = es_sgts s)).
  { apply wp_when; intros Hr; subst x1; rewrite Hr in *; [est_step|]; split_and!; try done; [fld; by apply alter_at|].
    symmetry. by apply insert_id. }
  intros _ s1 (E1 & E2 & E3). est_step. est_step. est_step. est_step.
  assert (xfer_at (s1 <| es_heap ::= alter (fun x => x <| x_desc_cmpl ::= fun n => s32 (n + c) |>) p |>) p = x2) as ->.
  { unfold xfer_at. fld. by rewrite E1, lookup_alter_eq, lookup_insert_eq. }
  destruct (tst (x_flags x2) XFER_FLAG_ST_C2H_EOP_RCVED) eqn:Ht; cbn [negb] in *.
  - est_step. apply wp_shutdown. intros s2 F1 F2 F3. repeat est_step.
    apply wp_transfer_del. intros s3 G1 G2 G3. apply HQ.
    + eexists. split; [intros _ _; reflexivity|]. rewrite G1. fld. rewrite F1. fld. rewrite E2.
      unfold set_field. cbn. by rewrite andb_false_r.
    + rewrite G2. fld. rewrite F2. fld. by rewrite E1, !alter_insert_eq.
    + rewrite G3. fld. rewrite F3. done.
  - est_step. apply HQ.
    + exists (eng_desc_dequeued (es_eng s)). split; [done|]. fld. rewrite E2.
      cbn [f_removed f_stopped]. destruct (es_eng s). unfold set_field. cbn. by rewrite andb_true_r.
    + fld. by rewrite E1, alter_insert_eq.
    + done.
Qed.

Lemma wp_final p x c (Q : option xfer_ptr -> est D -> Prop) s :
  es_heap s !! p = Some x ->
  (forall r s', after_final (final_of (es_eng s) x c) (es_eng s) (es_eng s') ->
     es_heap s' = <[p := f_xfer (final_of (es_eng s) x c)]> (es_heap s) ->
     es_sgts s' = es_sgts s -> Q r s') ->
  wp (engine_service_final_transfer pm (Some p) c) Q s.
Proof.
  intros Hx HQ. unfold engine_service_final_transfer, final_of in *.
  assert (xfer_at s p = x) as Hat by (unfold xfer_at; by rewrite Hx).
  est_step. est_step. est_step. est_step. rewrite Hat.
  destruct (has_error (es_eng s)).
  { est_step. apply wp_err_handle. intros s' E1 E2 E3. apply wp_transfer_del.
    intros s'' F1 F2 F3. apply HQ; [|rewrite F2, E2|by rewrite F3].
    - exists (eng_desc_dequeued (es_eng s)). split; [done|]. rewrite F1, E1.
      cbn [f_removed f_stopped]. unfold set_field. cbn. by rewrite andb_false_r.
    - by apply alter_at. }
  destruct (Z.ltb_spec c (u32 (x_desc_num x))) as [Hlt|Hge]; [destruct (eng_eop_flush (es_eng s))|].
  - by apply (wp_final_eop p x).
  - by apply (wp_final_removed p x).
  - by apply (wp_final_removed p x).
Qed.

(** [e'] differs from [e] at most in the fields that change while transfers run. *)
Definition same_static (e e' : xdma_engine) : Prop :=
  e' = (e <| eng_shutdown := eng_shutdown e' |> <| eng_transfer_list := eng_transfer_list e' |>
          <| eng_running := eng_running e' |> <| eng_desc_dequeued := eng_desc_dequeued e' |>
          <| eng_status := eng_status e' |> <| eng_xdma_perf := eng_xdma_perf e' |>).

Lemma same_static_refl e : same_static e e.
Proof. by destruct e. Qed.
Lemma same_static_trans e1 e2 e3 : same_static e1 e2 -> same_static e2 e3 -> same_static e1 e3.
Proof. unfold same_static. intros H1 H2. rewrite H2. rewrite H1. done. Qed.

Definition nonempty {A} (l : list A) : bool := if l is [] then false else true.

Lemma wp_resume (Q : Z -> est D -> Prop) s :
  (forall r s', same_static (es_eng s) (es_eng s') ->
     eng_transfer_list (es_eng s') = eng_transfer_list (es_eng s) ->
     eng_running (es_eng s') = nonempty (eng_transfer_list (es_eng s)) ->
     es_heap s' = es_heap s -> es_sgts s' = es_sgts s -> Q r s') ->
  wp (engine_service_resume pm) Q s.
Proof.
  intros HQ. unfold engine_service_resume. est_step. est_step.
  destruct (eng_running (es_eng s)) eqn:Hr; cbn [negb];
    destruct (eng_transfer_list (es_eng s)) as [|p l] eqn:Hl.
  - est_step. apply wp_shutdown. intros s' E1 E2 E3. est_step. apply HQ; try done.
    + rewrite E1. by destruct (es_eng s).
    + rewrite E1. done.
    + rewrite E1. done.
  - est_step. by apply HQ; try apply same_static_refl.
  - est_step. est_step; repeat est_step; (apply HQ; [|done|done|done|done]);
      fld; unfold set_field; destruct (es_eng s); done.
  - est_step. apply wp_engine_start.
    + intros [?|?]; congruence.
    + intros p' l' v s' _ E E1 E2 E3. est_step. apply HQ; try done.
      * rewrite E1. done.
      * rewrite E1. done.
      * rewrite E1. done.
Qed.

Lemma wp_perf c (Q : Z -> est D -> Prop) s :
  (forall s', (exists pf, es_eng s' = (es_eng s) <| eng_xdma_perf := pf |>) ->
     es_heap s' = es_heap s -> es_sgts s' = es_sgts s -> Q 0 s') ->
  wp (engine_service_perf c) Q s.
Proof.
  intros HQ. unfold engine_service_perf, upd_perf. do 3 est_step. 
  repeat est_step; (apply HQ; [|done|done]); fld; 
    first [by eexists | by exists (eng_xdma_perf (es_eng s)); destruct (es_eng s)].
Qed.

(** ** The service step as a function of the queue *)

Definition service_queue (e : xdma_engine) (h : gmap xfer_ptr xdma_transfer)
    (l : list xfer_ptr) (count : Z) : gmap xfer_ptr xdma_transfer * list xfer_ptr :=
  let '(d, r, c) := split_done h l count in
  let h := complete_all d h in
  match r with
  | [] => (h, [])
  | p :: r' =>
      let f := final_of e (default xfer_zero (h !! p)) c in
      (<[p := f_xfer f]> h, if f_removed f then r' else r)
  end.

Lemma split_done_app h l c :
  let '(d, r, _) := split_done h l c in l = d ++ r.
Proof.
  revert c. induction l as [|p l IH]; intros c; cbn [split_done]; [done|].
  destruct (negb _ && _); [|done].
  specialize (IH (u32 (c - x_desc_num (default xfer_zero (h !! p))))).
  destruct (split_done h l _) as [[d r] c']. cbn. by rewrite IH.
Qed.

Lemma lookup_complete_all d h p :
  complete_all d h !! p =
  if decide (p ∈ d) then (fun x => x <| x_state := TRANSFER_STATE_COMPLETED |>) <$> h !! p
  else h !! p.
Proof.
  revert h. induction d as [|q d IH]; intros h; [done|]. unfold complete_all in *. cbn [foldl].
  rewrite IH. unfold set_state. destruct (decide (q = p)) as [->|Hne].
  - rewrite lookup_alter_eq. rewrite (decide_True (P := p ∈ p :: d)) by set_solver.
    case_decide; [|done]. by destruct (h !! p).
  - rewrite lookup_alter_ne by done.
    assert (p ∈ q :: d <-> p ∈ d) as Hd by (rewrite elem_of_cons; intuition congruence).
    repeat case_decide; tauto.
Qed.

Definition queue_in_heap (s : est D) : Prop :=
  forall p, p ∈ eng_transfer_list (es_eng s) -> is_Some (es_heap s !! p).

(** One service of the queue: the transfers the counter covers, and the one after. *)
Record serves (n : Z) s s' : Prop := {
  sv_static : same_static (es_eng s) (es_eng s');
  sv_queue : (es_heap s', eng_transfer_list (es_eng s'))
             = service_queue (es_eng s) (es_heap s) (eng_transfer_list (es_eng s)) n;
  sv_sgts : es_sgts s' = es_sgts s;
}.

Lemma wp_list_final n (Q : option xfer_ptr -> est D -> Prop) s :
  queue_in_heap s -> (forall r s', serves n s s' -> Q r s') ->
  wp (engine_service_transfer_list (head (eng_transfer_list (es_eng s))) n)
     (fun r => wp (engine_service_final_transfer pm r.1 r.2) Q) s.
Proof.
  intros Hin HQ. set (l := eng_transfer_list (es_eng s)) in *. unfold engine_service_transfer_list. est_step. est_step.
  apply wp_service_list_loop; [fold l; lia|done|].
  pose proof (split_done_app (es_heap s) l n) as Happ. destruct (split_done _ _ _) as [[d r] c'] eqn:Hs. intros s2 F1 F2 F3.
  assert (same_static (es_eng s) (es_eng s2)) as Hst by (rewrite F1; unfold same_static, dequeue; by destruct (es_eng s)).
  assert (eng_transfer_list (es_eng s2) = r) as Hl2 by (rewrite F1; unfold dequeue; fld; fold l; rewrite Happ; apply drop_app_length).
  cbn [fst snd]. destruct r as [|p r'].
  { cbn [head engine_service_final_transfer]. est_step. apply HQ. constructor; [done| |congruence].
    unfold service_queue. fold l. by rewrite Hs, F2, Hl2. }
  destruct (Hin p) as [x0 Hx0]; [fold l; rewrite Happ; set_solver|].
  destruct (es_heap s2 !! p) as [x|] eqn:Hx.
  2:{ rewrite F2, lookup_complete_all, Hx0 in Hx. case_decide; discriminate. }
  apply (wp_final p x); [done|]. intros rv s3 [k [_ G1]] G2 G3.
  assert (final_of (es_eng s2) x c' = final_of (es_eng s) x c') as Hfin by (by rewrite F1).
  rewrite Hfin in *. apply HQ. constructor; [rewrite G1, F1; reflexivity| |by rewrite G3, F3].
  unfold service_queue. fold l. rewrite Hs, G1, G2, <- F2, Hx. change (default xfer_zero (Some x)) with x. cbv zeta. f_equal. fld.
  rewrite Hl2. by destruct (f_removed _).
Qed.

Lemma wp_resume_if (b : bool) (Q : unit -> est D -> Prop) s :
  (forall s', same_static (es_eng s) (es_eng s') -> eng_transfer_list (es_eng s') = eng_transfer_list (es_eng s) ->
     (b = true -> eng_running (es_eng s') = nonempty (eng_transfer_list (es_eng s'))) ->
     es_heap s' = es_heap s -> es_sgts s' = es_sgts s -> Q tt s') ->
  wp (when b (engine_service_resume pm ;; mret tt)) Q s.
Proof.
  intros HQ. destruct b; cbn [when].
  - est_step. apply wp_resume. intros _ s' K1 K2 K3 K4 K5. est_step. apply HQ; try done. intros _. by rewrite K3, K2.
  - apply wp_ret, HQ; [apply same_static_refl|done..].
Qed.

Lemma wp_service_transfers c (Q : unit -> est D -> Prop) s :
  queue_in_heap s ->
  (forall s', same_static (es_eng s) (es_eng s') ->
     (es_heap s', eng_transfer_list (es_eng s'))
     = service_queue (es_eng s) (es_heap s) (eng_transfer_list (es_eng s))
         (u32 (c - eng_desc_dequeued (es_eng s))) ->
     (eng_eop_flush (es_eng s) = false ->
      eng_running (es_eng s') = nonempty (eng_transfer_list (es_eng s'))) ->
     es_sgts s' = es_sgts s -> Q tt s') ->
  wp (service_transfers pm c) Q s.
Proof.
  intros Hin HQ. unfold service_transfers. est_step. est_step. est_step.
  set (l := eng_transfer_list (es_eng s)) in *.
  apply (wp_mono _ (fun _ s1 => (exists pf, es_eng s1 = (es_eng s) <| eng_xdma_perf := pf |>) /\ es_heap s1 = es_heap s /\ es_sgts s1 = es_sgts s)).
  { apply wp_when; [|by intros _; split_and!; [exists (eng_xdma_perf (es_eng s)); destruct (es_eng s)|..]].
    intros _. est_step. apply wp_perf. intros s' H1 H2 H3. by est_step. }
  intros _ s1 ([pf E1] & E2 & E3). est_step. est_step. est_step.
  assert (eng_transfer_list (es_eng s1) = l) as El by (by rewrite E1). rewrite <- El.
  eapply wp_mono; [apply wp_list_final|].
  { intros p. rewrite El, E2. apply Hin. }
  { intros r s2 Hs2. exact Hs2. }
  intros [t dc] s2 Hw. est_step. eapply wp_mono; [exact Hw|]. intros _ s3 [G1 G2 G3].
  apply wp_resume_if. intros s4 K1 K2 K3 K4 K5. rewrite E1 in *.
  apply HQ.
  - eapply same_static_trans; [|exact K1]. eapply same_static_trans; [|exact G1]. reflexivity.
  - rewrite K2, K4, G2, E2. reflexivity.
  - intros Hf. apply K3. fld. by rewrite Hf.
  - congruence.
Qed.

(** What [engine_service] does to a running engine with status [st] and [cnt]
    descriptors completed since the engine was started. *)
Definition serviced (s s' : est D) (st cnt : Z) : Prop :=
  if cnt =? 0 then
    es_heap s' = es_heap s /\ eng_transfer_list (es_eng s') = eng_transfer_list (es_eng s)
    /\ eng_running (es_eng s') = tst st XDMA_STAT_BUSY
  else
    (es_heap s', eng_transfer_list (es_eng s'))
    = service_queue ((es_eng s) <| eng_status := st |>) (es_heap s)
        (eng_transfer_list (es_eng s)) (u32 (cnt - eng_desc_dequeued (es_eng s)))
    /\ (eng_eop_flush (es_eng s) = false ->
        eng_running (es_eng s') = nonempty (eng_transfer_list (es_eng s'))).

Lemma wp_service_shutdown_if b (Q : unit -> est D -> Prop) s :
  (forall s', es_eng s' = (es_eng s) <| eng_running ::= fun r => r && negb b |> ->
     es_heap s' = es_heap s -> es_sgts s' = es_sgts s -> Q tt s') ->
  wp (when b (engine_service_shutdown pm ;; mret tt)) Q s.
Proof.
  intros HQ. est_step.
  - est_step. apply wp_shutdown. intros s' E1 E2 E3. est_step. apply HQ; try done.
    rewrite E1. subst b. unfold set_field. cbn. by rewrite andb_false_r.
  - apply HQ; try done. subst b. unfold set_field. cbn. rewrite andb_true_r. by destruct (es_eng s).
Qed.

(** The end of servicing, from when the number of descriptors done is known: [st] is
    the status that was read, and the engine [s2] was stopped or not. *)
Lemma wp_service_end dc ef st cnt s s3 (Q : Z -> est D -> Prop) :
  queue_in_heap s -> eng_running (es_eng s) = true -> (dc <> 0 -> cnt = dc) -> (dc = 0 \/ cnt <> 0) ->
  let e := (es_eng s) <| eng_status := st |> in
  es_eng s3 = e <| eng_running ::= fun r => r && negb ((eng_running e && negb (tst (eng_status e) XDMA_STAT_BUSY))
                                                       || (negb (eng_eop_flush e) && nz dc)) |> ->
  es_heap s3 = es_heap s -> es_sgts s3 = es_sgts s ->
  (forall cnt s', same_static (es_eng s) (es_eng s') -> es_sgts s' = es_sgts s -> (dc <> 0 -> cnt = dc) ->
     serviced s s' st cnt -> Q (if nz ef then -1 else 0) s') ->
  wp (when (nz cnt) (service_transfers pm cnt) ;; mret (if nz ef then -1 else 0)) Q s3.
Proof.
  intros Hin Hrun Hc Hc' e G1 Gh Gs HQ. est_step. est_step.
  - apply wp_service_transfers.
    { intros p. rewrite Gh, G1. fld. apply Hin. }
    intros s4 K1 K2 K3 K4. est_step. apply (HQ cnt); try done.
    + eapply same_static_trans; [|exact K1]. rewrite G1. reflexivity.
    + congruence.
    + unfold serviced. destruct (Z.eqb_spec cnt 0) as [->|]; [done|]. split.
      * rewrite K2, Gh, G1. done.
      * intros Hf. apply K3. rewrite G1. done.
  - assert (cnt = 0) as Hz by (unfold nz in *; destruct (Z.eqb_spec cnt 0); done).
    assert (dc = 0) as Hd by (destruct Hc'; [done|congruence]).
    est_step. apply (HQ 0); try done.
    + rewrite G1. reflexivity.
    + unfold serviced. cbn [Z.eqb]. rewrite Gh, G1. subst e. fld. rewrite Hrun. cbn [andb].
      repeat split. rewrite Hd. cbn [nz Z.eqb negb]. rewrite andb_false_r, orb_false_r. by rewrite negb_involutive.
Qed.

Lemma wp_engine_service wb (Q : Z -> est D -> Prop) s :
  queue_in_heap s ->
  (forall v s', eng_running (es_eng s) = false ->
     es_eng s' = (es_eng s) <| eng_status := v |> -> es_heap s' = es_heap s ->
     es_sgts s' = es_sgts s -> Q 0 s') ->
  (forall st cnt s', eng_running (es_eng s) = true -> same_static (es_eng s) (es_eng s') ->
     es_sgts s' = es_sgts s ->
     (Z.land wb WB_COUNT_MASK <> 0 -> cnt = Z.land wb WB_COUNT_MASK) ->
     (Z.land wb WB_COUNT_MASK <> 0 -> Z.land wb WB_ERR_MASK = 0 -> st = eng_status (es_eng s)) ->
     serviced s s' st cnt -> Q (if nz (Z.land wb WB_ERR_MASK) then -1 else 0) s') ->
  wp (engine_service pm wb) Q s.
Proof.
  intros Hin HN HR. unfold engine_service. set (dc := Z.land wb WB_COUNT_MASK) in *.
  set (ef := Z.land wb WB_ERR_MASK) in *. est_step. est_step.
  destruct (eng_running (es_eng s)) eqn:Hrun; cbn [negb].
  2:{ est_step. apply wp_status_read. intros v s' _ E1 E2 E3. est_step. by apply (HN v). }
  assert (forall st s1, es_eng s1 = (es_eng s) <| eng_status := st |> -> es_heap s1 = es_heap s ->
    es_sgts s1 = es_sgts s -> (dc <> 0 -> ef = 0 -> st = eng_status (es_eng s)) ->
    wp (e ← the_engine;
        when ((eng_running e && negb (tst (eng_status e) XDMA_STAT_BUSY))
              || (negb (eng_eop_flush e) && nz dc))
          (engine_service_shutdown pm ;; mret tt) ;;
        desc_count ← (if dc =? 0 then read_reg reg_completed_desc_count else mret dc);
        when (nz desc_count) (service_transfers pm desc_count) ;;
        mret (if nz ef then -1 else 0)) Q s1) as Hmain.
  { intros st s1 E1 E2 E3 Hst. est_step. est_step. est_step. apply wp_service_shutdown_if.
    intros s2 F1 F2 F3. rewrite E1 in F1.
    assert (forall cnt s3, (dc <> 0 -> cnt = dc) -> (dc = 0 \/ cnt <> 0) -> same_engine s2 s3 ->
      wp (when (nz cnt) (service_transfers pm cnt) ;; mret (if nz ef then -1 else 0)) Q s3) as Hend.
    { intros cnt s3 Hc Hc' (G1 & G2 & G3). eapply (wp_service_end dc ef st cnt s); try done; [by rewrite G1, F1|congruence..|].
      intros cnt' s' K1 K2 K3 K4. by apply (HR st cnt'). }
    est_step. destruct (Z.eqb_spec dc 0) as [Hd|Hd].
    - unfold read_reg, reg_of. do 5 est_step. apply Hend; [done|auto|done].
    - est_step. apply Hend; [done|auto|done]. }
  est_step. destruct ((dc =? 0) || nz ef) eqn:Hb.
  - cbn [when]. est_step. apply wp_status_read. intros v s1 _ E1 E2 E3. est_step.
    apply (Hmain v); try done. intros Hd He. unfold nz in Hb. rewrite He in Hb.
    destruct (Z.eqb_spec dc 0); done.
  - cbn [when]. est_step. apply (Hmain (eng_status (es_eng s))); try done. by destruct (es_eng s).
Qed.

(** ** Queue invariant

    The queue holds every transfer in state [SUBMITTED], once, and no other. *)
Definition queue_ok (h : gmap xfer_ptr xdma_transfer) (l : list xfer_ptr) : Prop :=
  NoDup l /\ forall p, p ∈ l <-> exists x, h !! p = Some x /\ x_state x = TRANSFER_STATE_SUBMITTED.

Definition finished (st : transfer_state) : Prop :=
  st = TRANSFER_STATE_COMPLETED \/ st = TRANSFER_STATE_FAILED.

Lemma final_state e x c :
  if f_removed (final_of e x c) then finished (x_state (f_xfer (final_of e x c)))
  else x_state (f_xfer (final_of e x c)) = x_state x.
Proof.
  unfold final_of, final_of_eop, finished.
  destruct (has_error e), (c <? u32 (x_desc_num x)), (eng_eop_flush e); cbn; auto.
  destruct (tst _ _); cbn; auto. by destruct (eop_in_results e x c).
Qed.

(** Setting the state of transfers, as a change of the submitted ones. *)
Lemma queue_ok_shrink h l h' d l' :
  queue_ok h l -> l = d ++ l' ->
  (forall p, p ∈ d -> exists x, h' !! p = Some x /\ x_state x <> TRANSFER_STATE_SUBMITTED) ->
  (forall p, p ∉ d -> (x_state <$> h' !! p) = (x_state <$> h !! p)) ->
  queue_ok h' l'.
Proof.
  intros [Hnd Hq] -> Hd Hrest. apply NoDup_app in Hnd as (_ & Hdis & Hnd). split; [done|].
  intros p. destruct (decide (p ∈ d)) as [Hp|Hp].
  - split; [intros Hl; by destruct (Hdis p Hp)|]. intros (x & Hx & Hs).
    destruct (Hd p Hp) as (x' & Hx' & Hs'). congruence.
  - specialize (Hq p). specialize (Hrest p Hp). rewrite elem_of_app in Hq. split.
    + intros Hl. destruct (proj1 Hq (or_intror Hl)) as (x & Hx & Hs).
      rewrite Hx in Hrest. destruct (h' !! p) as [x'|]; [|done]. exists x'. split; [done|].
      cbn in Hrest. congruence.
    + intros (x & Hx & Hs). rewrite Hx in Hrest. cbn in Hrest.
      destruct (h !! p) as [x'|]; [|done]. cbn in Hrest.
      destruct (proj2 Hq) as [?|?]; [exists x'; split; [done|congruence]|done|done].
Qed.

(** Transfers that are done leave a queue, the others keep their states. *)
Definition leaves (h h' : gmap xfer_ptr xdma_transfer) (l l' : list xfer_ptr) : Prop :=
  exists gone, l = gone ++ l'
     /\ (forall p, p ∈ gone -> exists x, h' !! p = Some x /\ finished (x_state x))
     /\ (forall p, p ∉ gone -> x_state <$> h' !! p = x_state <$> h !! p).

Lemma queue_ok_leaves h h' l l' : queue_ok h l -> leaves h h' l l' -> queue_ok h' l'.
Proof.
  intros Hq (gone & Heq & H1 & H2). eapply queue_ok_shrink; [exact Hq|exact Heq| |done].
  intros p Hp. destruct (H1 p Hp) as (x & Hx & [Hf|Hf]); exists x; split; congruence.
Qed.

Lemma complete_all_done d h p :
  p ∈ d -> is_Some (h !! p) -> exists x, complete_all d h !! p = Some x /\ finished (x_state x).
Proof. intros Hp [x Hx]. rewrite lookup_complete_all, decide_True, Hx by done. eexists. split; [done|by left]. Qed.

Lemma service_queue_ok e h l c :
  queue_ok h l ->
  let '(h', l') := service_queue e h l c in
  queue_ok h' l'
  /\ leaves h h' l l'.
Proof.
  intros Hq. enough (let '(h', l') := service_queue e h l c in leaves h h' l l') as Hl.
  { destruct (service_queue e h l c) as [h' l']. split; [by eapply queue_ok_leaves|done]. }
  unfold service_queue. pose proof (split_done_app h l c) as Happ. destruct (split_done h l c) as [[d r] c']. subst l.
  assert (forall p, p ∈ d ++ r -> is_Some (h !! p)) as Hin.
  { intros p Hp. apply Hq in Hp as (x & Hx & _). by exists x. }
  assert (forall p, p ∈ d -> exists x, complete_all d h !! p = Some x /\ finished (x_state x)) as Hdone.
  { intros p Hp. apply complete_all_done; [done|]. apply Hin, elem_of_app. by left. }
  destruct r as [|p r'].
  - exists d. split; [done|]. split; [done|]. intros p Hp. by rewrite lookup_complete_all, decide_False.
  - assert (p ∉ d) as Hpd.
    { destruct Hq as [Hnd _]. apply NoDup_app in Hnd as (_ & Hdis & _). intros Hp. apply (Hdis p Hp). by left. }
    rewrite lookup_complete_all, decide_False by done.
    destruct (Hin p) as [x Hx]; [apply elem_of_app; right; by left|]. rewrite Hx.
    change (default xfer_zero (Some x)) with x.
    pose proof (final_state e x c') as Hfin. set (f := final_of e x c') in *. destruct (f_removed f).
    + exists (d ++ [p]). split; [exact (app_assoc d [p] r')|]. split.
      * intros q [Hqd|Hqp]%elem_of_app; [rewrite lookup_insert_ne by congruence; auto|].
        apply list_elem_of_singleton in Hqp as ->. rewrite lookup_insert_eq. by eexists.
      * intros q Hqd. rewrite elem_of_app, list_elem_of_singleton in Hqd.
        rewrite lookup_insert_ne by (intros ->; auto). by rewrite lookup_complete_all, decide_False by auto.
    + exists d. split; [done|]. split; [intros q Hqd; rewrite lookup_insert_ne by congruence; auto|].
      intros q Hqd. destruct (decide (p = q)) as [<-|Hne].
      * rewrite lookup_insert_eq, Hx. cbn. by rewrite Hfin.
      * by rewrite lookup_insert_ne, lookup_complete_all, decide_False.
Qed.
End Ops.
