(* ===== verification/EngineQueue.v ===== *)
(** Properties of the engine's transfer queue: what queueing, servicing and
    aborting do to it, and the invariant of every run of an engine. *)
From S2P Require Import Prelude Kernel Types Desc Engine EngineSpec.
Local Open Scope Z_scope.

(** Why [transfer_queue] refuses a transfer, if it does. *)
Definition queue_refused (xdev : xdma_dev) (e : xdma_engine) (x : xdma_transfer) : option Z :=
  if x_desc_num x =? 0 then Some (- EINVAL)
  else if xdma_device_flag_check xdev XDEV_FLAG_OFFLINE then Some (- EBUSY)
  else if tst (eng_shutdown e) ENGINE_SHUTDOWN_REQUEST then Some (- EBUSY)
  else None.

(** The operations on one engine, and what happens around them: requests are
    made ([NEW] transfers appear) and freed, the device writes results, and the rest of
    the driver runs, which leaves the queue and the transfers alone.  A transfer is
    freed when it is not [SUBMITTED]: this is what submitters do, except after a timeout
    on a device that is gone ([SubmitSpec.submit_timeout_dangling]). *)
Inductive engine_step {D} `{Env D} (pm : params) (xdev : xdma_dev) : est D -> est D -> Prop :=
| step_new s p x : es_heap s !! p = None -> x_state x = TRANSFER_STATE_NEW ->
    engine_step pm xdev s (s <| es_heap ::= <[p := x]> |>)
| step_free s p x : es_heap s !! p = Some x -> x_state x <> TRANSFER_STATE_SUBMITTED ->
    engine_step pm xdev s (s <| es_heap ::= delete p |>)
| step_results s r :
    engine_step pm xdev s (s <| es_eng ::= fun e => e <| eng_cyclic_result := r |> |>)
| step_queue s p x : es_heap s !! p = Some x -> x_state x = TRANSFER_STATE_NEW ->
    engine_step pm xdev s (transfer_queue pm xdev p s).2
| step_service s wb : engine_step pm xdev s (engine_service pm wb s).2
| step_poll s hz fuel expected : engine_step pm xdev s (engine_service_poll pm hz fuel expected s).2
| step_other s s' : es_heap s' = es_heap s -> eng_transfer_list (es_eng s') = eng_transfer_list (es_eng s) ->
    engine_step pm xdev s s'
| step_work s : engine_step pm xdev s (engine_service_work pm xdev s).2
| step_abort s p : head (eng_transfer_list (es_eng s)) = Some p ->
    engine_step pm xdev s (transfer_abort p s).2.

Definition est_ok {D} (s : est D) : Prop :=
  queue_ok (es_heap s) (eng_transfer_list (es_eng s)).

Section Lemmas.
Context {D : Type} `{Env D} (pm : params) (xdev : xdma_dev).
Implicit Types (s : est D) (p : xfer_ptr).

Lemma wp_transfer_queue p (Q : Z -> est D -> Prop) s :
  match queue_refused xdev (es_eng s) (xfer_at s p) with
  | Some rv => Q rv s
  | None => forall s', same_static (es_eng s) (es_eng s') ->
      es_heap s' = set_state TRANSFER_STATE_SUBMITTED p (es_heap s) ->
      eng_transfer_list (es_eng s') = eng_transfer_list (es_eng s) ++ [p] ->
      eng_running (es_eng s') = true -> es_sgts s' = es_sgts s -> Q 0 s'
  end ->
  wp (transfer_queue pm xdev p) Q s.
Proof.
  intros HQ. unfold transfer_queue, queue_refused in *. est_step. est_step.
  destruct (x_desc_num _ =? 0); [by est_step|].
  destruct (xdma_device_flag_check _ _); [by est_step|]. est_step. est_step.
  destruct (tst (eng_shutdown _) _); [by est_step|].
  est_step. est_step. est_step. est_step. est_step. est_step.
  - est_step. apply wp_engine_start.
    + fld. intros [Hr|Hl]; [by rewrite Hr in *|]. by destruct (eng_transfer_list (es_eng s)).
    + intros p' l v s' _ _ E1 E2 E3. est_step. est_step.
      apply HQ; [rewrite E1; reflexivity|exact E2|by rewrite E1|by rewrite E1|exact E3].
  - est_step. apply HQ; fld; [reflexivity|reflexivity|reflexivity| |reflexivity].
    by destruct (eng_running (es_eng s)).
Qed.

Lemma est_ok_in_heap s : est_ok s -> queue_in_heap s.
Proof. intros [_ Hq] p Hp. apply Hq in Hp as (x & Hx & _). by exists x. Qed.

Lemma wp_service_ok wb s :
  est_ok s -> wp (engine_service pm wb) (fun _ s' => est_ok s') s.
Proof.
  intros Hok. apply wp_engine_service; [by apply est_ok_in_heap| |].
  - intros v s' _ E1 E2 _. unfold est_ok. by rewrite E1, E2.
  - intros st cnt s' _ _ _ _ _ Hs. unfold est_ok, serviced in *.
    destruct (cnt =? 0).
    + destruct Hs as (-> & -> & _). done.
    + destruct Hs as [Hs _].
      pose proof (service_queue_ok ((es_eng s) <| eng_status := st |>) (es_heap s)
        (eng_transfer_list (es_eng s)) (u32 (cnt - eng_desc_dequeued (es_eng s))) Hok) as Hq.
      rewrite <- Hs in Hq. apply Hq.
Qed.

(** Polling only reads and clears the write back before it services the engine. *)
Lemma wp_wb_loop_same fuel wb expected timeout n s :
  wp (wb_loop fuel wb expected timeout n) (fun _ s' => same_engine s s') s.
Proof.
  revert n s. induction fuel as [|fuel IH]; intros n s; cbn [wb_loop]; [by est_step|].
  assert (forall n s1, same_engine s s1 -> wp (wb_loop fuel wb expected timeout n) (fun _ s' => same_engine s s') s1) as IH'.
  { intros n' s1 (E1 & E2 & E3). eapply wp_mono; [apply IH|]. intros _ s' (F1 & F2 & F3). split_and!; congruence. }
  repeat est_step; first [by split_and!|by apply IH'; split_and!].
Qed.

Lemma wp_poll_ok hz fuel expected s :
  est_ok s -> wp (engine_service_poll pm hz fuel expected) (fun _ s' => est_ok s') s.
Proof.
  intros Hok. unfold engine_service_poll, engine_service_wb_monitor. est_step. est_step. est_step; [by est_step|].
  assert (forall (r : option Z) s1, same_engine s s1 -> wp (match r with
      | None => mret None | Some 0 => mret (Some 0)
      | Some desc_wb => rv ← engine_service pm (s32 desc_wb); mret (Some rv) end) (fun _ s' => est_ok s') s1) as Hend.
  { intros r s1 (E1 & E2 & _). assert (est_ok s1) as Hok1 by (unfold est_ok; by rewrite E1, E2).
    destruct r as [[|z|z]|]; [by est_step| | |by est_step]; est_step; (eapply wp_mono; [by apply wp_service_ok|]);
      intros rv s' Hs'; by est_step. }
  do 4 est_step. est_step. est_step; [est_step; apply (Hend (Some 0)); by split_and!|].
  eapply wp_mono; [apply wp_wb_loop_same|]. intros r s1 (E1 & E2 & E3). apply Hend. split_and!; [exact E1|exact E2|exact E3].
Qed.

Lemma wp_work_ok s : est_ok s -> wp (engine_service_work pm xdev) (fun _ s' => est_ok s') s.
Proof.
  intros Hok. unfold engine_service_work. est_step. est_step. est_step; [by est_step|].
  est_step. eapply wp_mono; [by apply wp_service_ok|]. intros rv s' Hok'. cbv beta.
  unfold channel_interrupts_enable, write_reg, reg_of. repeat est_step; exact Hok'.
Qed.

Lemma wp_abort_ok p s :
  est_ok s -> head (eng_transfer_list (es_eng s)) = Some p ->
  wp (transfer_abort p) (fun _ s' => est_ok s') s.
Proof.
  intros Hok Hh. unfold transfer_abort. est_step. est_step. est_step; [by est_step|].
  est_step. est_step. est_step. rewrite bool_decide_true by done. cbn [when].
  destruct (eng_transfer_list (es_eng s)) as [|p' l] eqn:Hl; [done|]. injection Hh as ->.
  assert (exists x, es_heap s !! p = Some x /\ x_state x = TRANSFER_STATE_SUBMITTED) as (x & Hx & Hs).
  { apply Hok. rewrite Hl. by left. }
  unfold list_del_head. est_step. est_step. unfold xfer_at. rewrite Hx. cbn [default id].
  rewrite bool_decide_true by done. cbn [when]. est_step. est_step.
  unfold est_ok in *. fld. rewrite Hl in *. cbn [tail].
  apply (queue_ok_shrink _ _ _ [p] l Hok); [done| |].
  - intros q ->%list_elem_of_singleton. rewrite lookup_alter_eq, Hx. eexists. split; [done|]. done.
  - intros q Hq. rewrite list_elem_of_singleton in Hq. by rewrite lookup_alter_ne by congruence.
Qed.

Lemma engine_step_ok s s' : engine_step pm xdev s s' -> est_ok s -> est_ok s'.
Proof.
  destruct 1 as [s p x Hn Hs|s p x Hx Hs|s r|s p x Hx Hs|s wb|s hz fuel expected|s s' Hh Hl|s|s p Hh]; intros Hok.
  - destruct Hok as [Hnd Hq]. split; [done|]. intros q. fld. rewrite Hq.
    destruct (decide (p = q)) as [<-|Hne]; [|by rewrite lookup_insert_ne].
    rewrite lookup_insert_eq, Hn. split; intros (y & Hy & ?); congruence.
  - destruct Hok as [Hnd Hq]. split; [done|]. intros q. fld. rewrite Hq.
    destruct (decide (p = q)) as [<-|Hne]; [|by rewrite lookup_delete_ne].
    rewrite lookup_delete_eq. split; intros (y & Hy & ?); congruence.
  - done.
  - refine (wp_run _ (fun _ s' => est_ok s') _ _). apply wp_transfer_queue.
    destruct (queue_refused _ _ _); [done|]. intros s' _ E1 E2 _ _. unfold est_ok.
    rewrite E1, E2. destruct Hok as [Hnd Hq]. unfold set_state.
    assert (p ∉ eng_transfer_list (es_eng s)) as Hp.
    { intros Hp. apply Hq in Hp as (y & Hy & ?). congruence. }
    split.
    + apply NoDup_app. split; [done|]. split; [|apply NoDup_singleton].
      intros q Hq1 ->%list_elem_of_singleton. done.
    + intros q. rewrite elem_of_app, list_elem_of_singleton, Hq.
      destruct (decide (p = q)) as [<-|Hne].
      * rewrite lookup_alter_eq, Hx. cbn. split; [|auto]. intros _. eexists. by split.
      * rewrite lookup_alter_ne by done. split; [intros [?| ->]; done|auto].
  - exact (wp_run _ _ _ (wp_service_ok wb s Hok)).
  - exact (wp_run _ _ _ (wp_poll_ok hz fuel expected s Hok)).
  - unfold est_ok. by rewrite Hh, Hl.
  - exact (wp_run _ _ _ (wp_work_ok s Hok)).
  - exact (wp_run _ _ _ (wp_abort_ok p s Hok Hh)).
Qed.
End Lemmas.

(** ** Counting *)

(** The transfers [d], none of them cyclic, have [n] descriptors in all. *)
Definition nums (h : gmap xfer_ptr xdma_transfer) (d : list xfer_ptr) : Z :=
  sum_Z ((fun p => x_desc_num (default xfer_zero (h !! p))) <$> d).

Definition plain (h : gmap xfer_ptr xdma_transfer) (p : xfer_ptr) : Prop :=
  let x := default xfer_zero (h !! p) in x_cyclic x = false /\ 0 < x_desc_num x < 2 ^ 31.

Lemma nums_nonneg h d : Forall (plain h) d -> 0 <= nums h d.
Proof.
  intros Hd. apply sum_Z_nonneg, Forall_fmap. apply (Forall_impl _ _ _ Hd).
  intros p (_ & ?). unfold compose. lia.
Qed.

Lemma split_done_exact h d r m :
  Forall (plain h) d -> 0 < m -> nums h d + m < 2 ^ 32 ->
  match r with
  | [] => True
  | p :: _ => let x := default xfer_zero (h !! p) in 0 <= x_desc_num x < 2 ^ 31 /\ m <= x_desc_num x
  end ->
  split_done h (d ++ r) (nums h d + m) = (d, r, m).
Proof.
  intros Hd Hm. induction Hd as [|p d [Hc Hn] Hd IH]; intros Hw Hr.
  - destruct r as [|p r]; [done|]. cbn [app split_done]. cbv zeta in Hr.
    change (nums h []) with 0. rewrite u32_small by lia.
    replace (x_desc_num (default xfer_zero (h !! p)) <? 0 + m) with false
      by (symmetry; apply Z.ltb_ge; lia). by rewrite andb_false_r.
  - unfold nums in *. rewrite fmap_cons, sum_Z_cons in *. pose proof (nums_nonneg h d Hd) as Hp.
    unfold nums in Hp. cbn [app split_done]. rewrite Hc, (u32_small (x_desc_num _)) by lia.
    replace (_ <? _) with true by (symmetry; apply Z.ltb_lt; lia). cbn [negb andb].
    rewrite u32_small by lia. replace (_ - _) with (sum_Z ((fun p => x_desc_num (default xfer_zero (h !! p))) <$> d) + m) by lia.
    by rewrite IH by (done || lia).
Qed.

(** A write back that counts the transfers [d] of the queue and some descriptors of the next, [p]. *)
Lemma wp_service_counted {D} `{Env D} pm wb d p x r m (Q : Z -> est D -> Prop) (s : est D) :
  let e := es_eng s in let h := es_heap s in let f := final_of e x m in
  est_ok s -> eng_running e = true -> eng_eop_flush e = false ->
  eng_transfer_list e = d ++ p :: r -> Forall (plain h) d -> h !! p = Some x -> x_desc_num x < 2 ^ 31 -> 0 < m <= x_desc_num x ->
  0 <= eng_desc_dequeued e -> 0 < wb < 2 ^ 24 -> wb = eng_desc_dequeued e + (nums h d + m) ->
  (forall s', same_static e (es_eng s') -> es_sgts s' = es_sgts s ->
     eng_transfer_list (es_eng s') = (if f_removed f then r else p :: r) ->
     eng_running (es_eng s') = nonempty (eng_transfer_list (es_eng s')) ->
     es_heap s' = <[p := f_xfer f]> (complete_all d h) -> Q 0 s') ->
  wp (engine_service pm wb) Q s.
Proof.
  intros e h f Hok Hrun Heop Hl Hd Hx Hpn Hm Hdq Hwb Hcnt HQ.
  assert (Z.land wb WB_COUNT_MASK = wb) as Hc.
  { change WB_COUNT_MASK with (2 ^ 24 - 1). rewrite land_ones_mod by lia. apply Z.mod_small. lia. }
  assert (Z.land wb WB_ERR_MASK = 0) as He.
  { change WB_ERR_MASK with (2 ^ 31). apply Z.bits_inj'. intros i Hi.
    rewrite Z.land_spec, Z.testbit_0_l, Z.pow2_bits_eqb by lia.
    destruct (Z.eqb_spec 31 i) as [<-|]; [|apply andb_false_r].
    rewrite <- (Z.mod_small wb (2 ^ 24)), Z.mod_pow2_bits_high by lia. done. }
  apply wp_engine_service; [by apply est_ok_in_heap| |].
  { intros v s' Hf. fold e in Hf. congruence. }
  intros st cnt s' _ Hst Hsg Hcnt' Hst' Hs. rewrite Hc in Hcnt', Hst'. rewrite He.
  rewrite (Hcnt' ltac:(lia)), (Hst' ltac:(lia) He) in Hs. unfold serviced in Hs.
  destruct (Z.eqb_spec wb 0); [lia|]. destruct Hs as [Hs Hr]. fold e h in Hs, Hr.
  assert (e <| eng_status := eng_status e |> = e) as Heq by by destruct e.
  rewrite Heq, Hl in Hs. unfold service_queue in Hs. pose proof (nums_nonneg h d Hd).
  rewrite (u32_small (wb - _)) in Hs by lia.
  replace (wb - eng_desc_dequeued e) with (nums h d + m) in Hs by lia.
  rewrite split_done_exact in Hs; [|done|lia|lia|rewrite Hx; cbn; lia].
  assert (p ∉ d) as Hpd.
  { destruct Hok as [Hnd _]. fold e in Hnd. rewrite Hl in Hnd.
    apply NoDup_app in Hnd as (_ & Hdis & _). intros Hin. apply (Hdis p Hin). by left. }
  rewrite lookup_complete_all, decide_False, Hx in Hs by done.
  change (default xfer_zero (Some x)) with x in Hs. fold f in Hs.
  injection Hs as Hh Hl'. apply HQ; [done|done|exact Hl'|by apply Hr|exact Hh].
Qed.

(** A write back that counts them exactly. *)
Lemma wp_service_exact {D} `{Env D} pm wb d p x r (Q : Z -> est D -> Prop) (s : est D) :
  let e := es_eng s in let h := es_heap s in
  est_ok s -> eng_running e = true -> eng_eop_flush e = false -> has_error e = false ->
  eng_transfer_list e = d ++ p :: r -> Forall (plain h) d -> h !! p = Some x -> 0 < x_desc_num x < 2 ^ 31 ->
  0 <= eng_desc_dequeued e -> 0 < wb < 2 ^ 24 -> wb = eng_desc_dequeued e + (nums h d + x_desc_num x) ->
  (forall s', same_static e (es_eng s') -> es_sgts s' = es_sgts s -> eng_transfer_list (es_eng s') = r ->
     eng_running (es_eng s') = nonempty r ->
     es_heap s' = <[p := x <| x_state := TRANSFER_STATE_COMPLETED |> <| x_desc_cmpl := x_desc_num x |>]> (complete_all d h) ->
     Q 0 s') ->
  wp (engine_service pm wb) Q s.
Proof.
  intros e h Hok Hrun Heop Herr Hl Hd Hx Hpn Hdq Hwb Hcnt HQ.
  apply (wp_service_counted pm wb d p x r (x_desc_num x)); try done; [lia..|]. unfold final_of. fold e. rewrite Herr.
  rewrite u32_small, Z.ltb_irrefl by lia. cbn [f_xfer f_removed]. intros s' A1 A2 A3 A4 A5. rewrite A3 in A4. by apply HQ.
Qed.

(** What becomes of the transfers before [p]. *)
Lemma completed_before (h : gmap xfer_ptr xdma_transfer) d p x' :
  (forall q, q ∈ d -> is_Some (h !! q)) -> p ∉ d ->
  (forall q, q ∈ d -> x_state <$> <[p := x']> (complete_all d h) !! q = Some TRANSFER_STATE_COMPLETED)
  /\ (forall q, q ∉ d ++ [p] -> <[p := x']> (complete_all d h) !! q = h !! q).
Proof.
  intros Hin Hp. split; intros q Hq.
  - rewrite lookup_insert_ne, lookup_complete_all, decide_True by (done || (intros ->; done)).
    by destruct (Hin q Hq) as [y ->].
  - rewrite elem_of_app, list_elem_of_singleton in Hq.
    rewrite lookup_insert_ne, lookup_complete_all, decide_False by auto. done.
Qed.

(** ** Properties *)

(** C1 Take an engine that starts with an empty queue and no transfers.  However
    making transfers, queueing them, servicing by interrupt or by polling, the
    bottom half, aborts of the head of the queue, the freeing of transfers that are
    not [SUBMITTED], and steps that leave queue and transfers alone interleave, the
    queue contains exactly the transfers in state [SUBMITTED], each once: none is
    lost, none is queued twice, and every entry of the queue is a transfer that has
    not been freed.  (That a [SUBMITTED] transfer is not freed is a premise on the
    submitters; [xdma_xfer_submit] breaks it after a timeout on a device that is
    gone.) *)
Theorem engine_queue_invariant {D} `{Env D} pm xdev (s0 s : est D) :
  eng_transfer_list (es_eng s0) = [] -> es_heap s0 = ∅ ->
  rtc (engine_step pm xdev) s0 s ->
  NoDup (eng_transfer_list (es_eng s))
  /\ forall p, p ∈ eng_transfer_list (es_eng s) <->
       exists x, es_heap s !! p = Some x /\ x_state x = TRANSFER_STATE_SUBMITTED.
Proof.
  intros Hl Hh Hrun. change (est_ok s).
  assert (est_ok s0) as H0.
  { unfold est_ok. rewrite Hl, Hh. split; [constructor|]. intros p.
    rewrite lookup_empty. split; [intros Hp; by apply elem_of_nil in Hp|intros (x & ? & _); done]. }
  clear Hl Hh. induction Hrun as [|s0 s1 s2 Hstep _ IH]; [done|].
  apply IH. by eapply engine_step_ok.
Qed.

(** C7 Servicing an engine completes transfers in queue order: those that leave
    the queue are a prefix of it, every one of them ends [COMPLETED] or
    [FAILED], and no other transfer changes state. *)
Theorem engine_service_fifo {D} `{Env D} pm wb (s : est D) :
  est_ok s ->
  let '(rv, s') := engine_service pm wb s in
  exists gone,
    eng_transfer_list (es_eng s) = gone ++ eng_transfer_list (es_eng s')
    /\ (forall p, p ∈ gone -> exists x, es_heap s' !! p = Some x /\ finished (x_state x))
    /\ (forall p, p ∉ gone -> x_state <$> es_heap s' !! p = x_state <$> es_heap s !! p)
    /\ same_static (es_eng s) (es_eng s').
Proof.
  intros Hok. apply wp_elim. apply wp_engine_service; [by apply est_ok_in_heap| |].
  - intros v s' _ E1 E2 _. exists []. rewrite E1, E2. split_and!; [done|by intros ? ?%elem_of_nil|done|done].
  - intros st cnt s' _ Hst _ _ _ Hs. unfold serviced in Hs. destruct (cnt =? 0).
    + destruct Hs as (-> & -> & _). exists []. split_and!; [done|by intros ? ?%elem_of_nil|done|done].
    + destruct Hs as [Hs _].
      pose proof (service_queue_ok ((es_eng s) <| eng_status := st |>) (es_heap s)
        (eng_transfer_list (es_eng s)) (u32 (cnt - eng_desc_dequeued (es_eng s))) Hok) as Hq.
      rewrite <- Hs in Hq. destruct Hq as (_ & gone & ? & ? & ?). by exists gone.
Qed.


(** C17 [transfer_queue] either refuses a transfer, for want of descriptors, with
    the device offline or with the engine asked to shut down, and then changes
    nothing at all; or it marks it [SUBMITTED], puts it at the end of the queue
    and leaves the engine running. *)
Theorem transfer_queue_spec {D} `{Env D} pm xdev p (s : est D) :
  let '(rv, s') := transfer_queue pm xdev p s in
  match queue_refused xdev (es_eng s) (xfer_at s p) with
  | Some err => rv = err /\ s' = s
  | None => rv = 0
      /\ es_heap s' = alter (fun x => x <| x_state := TRANSFER_STATE_SUBMITTED |>) p (es_heap s)
      /\ eng_transfer_list (es_eng s') = eng_transfer_list (es_eng s) ++ [p]
      /\ eng_running (es_eng s') = true
      /\ same_static (es_eng s) (es_eng s') /\ es_sgts s' = es_sgts s
  end.
Proof.
  apply wp_elim. apply wp_transfer_queue. destruct (queue_refused _ _ _); [done|].
  intros s' E1 E2 E3 E4 E5. split_and!; done.
Qed.

(** C20 A running engine, not in EOP flush mode, whose status shows an error, serviced with
    a write back that counts all descriptors of the transfers [d] at the head of its queue,
    none of them cyclic, and at least one descriptor of the next, [p]: [d] end
    [COMPLETED], [p] ends [FAILED] even if all its descriptors were counted, both leave the
    queue, every other transfer is untouched, and the engine runs again exactly when
    something is left to do.  (With no descriptor of [p] counted the error is not reported
    to it: see the findings.) *)
Theorem engine_service_error {D} `{Env D} pm (s : est D) d p x r m wb :
  let e := es_eng s in let h := es_heap s in
  est_ok s -> eng_running e = true -> eng_eop_flush e = false -> has_error e = true ->
  eng_transfer_list e = d ++ p :: r -> Forall (plain h) d -> h !! p = Some x -> x_desc_num x < 2 ^ 31 ->
  0 < m <= x_desc_num x -> 0 <= eng_desc_dequeued e -> 0 < wb < 2 ^ 24 -> wb = eng_desc_dequeued e + (nums h d + m) ->
  let '(rv, s') := engine_service pm wb s in
  rv = 0 /\ eng_transfer_list (es_eng s') = r /\ eng_running (es_eng s') = nonempty r
  /\ (forall q, q ∈ d -> x_state <$> es_heap s' !! q = Some TRANSFER_STATE_COMPLETED)
  /\ es_heap s' !! p = Some (x <| x_state := TRANSFER_STATE_FAILED |>)
  /\ (forall q, q ∉ d ++ [p] -> es_heap s' !! q = h !! q).
Proof.
  intros e h Hok Hrun Heop Herr Hl Hd Hx Hpn Hm Hdq Hwb Hcnt. apply wp_elim.
  apply (wp_service_counted pm wb d p x r m); try done. unfold final_of. fold e. rewrite Herr. cbn [f_xfer f_removed].
  intros s' A1 A2 A3 A4 A5. rewrite A3 in A4.
  destruct (completed_before h d p (x <| x_state := TRANSFER_STATE_FAILED |>)) as [B1 B2].
  { intros q Hq. apply (est_ok_in_heap s Hok). fold e. rewrite Hl. set_solver. }
  { destruct Hok as [Hnd _]. fold e in Hnd. rewrite Hl in Hnd. apply NoDup_app in Hnd as (_ & Hdis & _).
    intros Hin. apply (Hdis p Hin). by left. }
  rewrite A5. split_and!; [done..|exact B1|by rewrite lookup_insert_eq|exact B2].
Qed.

(** ** The properties at work on a small engine *)

Definition ex_params : params :=
  {| poll_mode := false; interrupt_mode := 0; enable_st_c2h_credit := false;
     desc_blen_max := XDMA_DESC_BLEN_MAX |}.

Definition ex_xfer : xdma_transfer := xfer_zero <| x_desc_num := 2 |> <| x_desc_adjacent := 2 |>.

Definition ex_est : est sim :=
  {| es_k := sim_start [] (fun _ => 0);
     es_eng := engine_zero <| eng_magic := MAGIC_ENGINE |> <| eng_desc_max := 8 |>
                           <| eng_dir := DMA_TO_DEVICE |>;
     es_heap := ∅; es_sgts := ∅ |}.

Definition ex_made : est sim := ex_est <| es_heap ::= <[(1, 0) := ex_xfer]> |>.
Definition ex_queued : est sim := (transfer_queue ex_params xdev_zero (1, 0) ex_made).2.

Lemma ex_run : rtc (engine_step ex_params xdev_zero) ex_est ex_queued.
Proof.
  eapply rtc_l; [apply (step_new _ _ ex_est (1, 0) ex_xfer); reflexivity|].
  apply rtc_once. apply (step_queue _ _ ex_made (1, 0) ex_xfer); reflexivity.
Defined.

Lemma ex_est_ok : est_ok ex_est.
Proof.
  split; [constructor|]. intros p. split; [intros Hp; by apply elem_of_nil in Hp|].
  intros (x & Hx & _). discriminate.
Defined.

Lemma ex_queued_ok : est_ok ex_queued.
Proof.
  pose proof ex_run as Hrun. pose proof ex_est_ok as H0.
  induction Hrun as [|s0 s1 s2 Hstep _ IH]; [done|]. apply IH. by eapply engine_step_ok.
Defined.

Lemma engine_queue_invariant_witness :
  ltac:(statement_of (engine_queue_invariant ex_params xdev_zero ex_est ex_queued
                        eq_refl eq_refl ex_run)).
Proof. instance_of (engine_queue_invariant ex_params xdev_zero ex_est ex_queued eq_refl eq_refl ex_run).
Defined.

Lemma engine_service_fifo_witness :
  ltac:(statement_of (engine_service_fifo ex_params 2 ex_queued ex_queued_ok)).
Proof. instance_of (engine_service_fifo ex_params 2 ex_queued ex_queued_ok).
Defined.

Lemma ex_queued_list : eng_transfer_list (es_eng ex_queued) = [] ++ (1, 0) :: [].
Proof. vm_compute. reflexivity. Defined.
Lemma ex_queued_running : eng_running (es_eng ex_queued) = true.
Proof. vm_compute. reflexivity. Defined.
Lemma ex_queued_no_error :
  eng_eop_flush (es_eng ex_queued) = false /\ has_error (es_eng ex_queued) = false.
Proof. vm_compute. by split. Defined.
Lemma ex_queued_plain : Forall (plain (es_heap ex_queued)) ([] ++ [(1, 0)]).
Proof. repeat constructor; vm_compute; reflexivity. Defined.
Lemma ex_queued_count :
  0 <= eng_desc_dequeued (es_eng ex_queued) /\ 0 < 2 < 2 ^ 24
  /\ 2 = eng_desc_dequeued (es_eng ex_queued) + nums (es_heap ex_queued) ([] ++ [(1, 0)]).
Proof. vm_compute. repeat split; discriminate. Defined.


Definition ex_failed : est sim :=
  ex_queued <| es_eng ::= fun e => e <| eng_status := XDMA_STAT_MAGIC_STOPPED |> |>.

Lemma ex_failed_ok : est_ok ex_failed.
Proof. exact ex_queued_ok. Defined.
Lemma ex_failed_list : eng_transfer_list (es_eng ex_failed) = [] ++ (1, 0) :: [].
Proof. vm_compute. reflexivity. Defined.
Lemma ex_failed_xfer :
  es_heap ex_failed !! (1, 0) = Some (ex_xfer <| x_state := TRANSFER_STATE_SUBMITTED |>).
Proof. vm_compute. reflexivity. Defined.
Lemma ex_failed_error :
  eng_running (es_eng ex_failed) = true /\ eng_eop_flush (es_eng ex_failed) = false /\ has_error (es_eng ex_failed) = true.
Proof. vm_compute. by split_and!. Defined.
Lemma ex_failed_count :
  0 <= eng_desc_dequeued (es_eng ex_failed) /\ 1 = eng_desc_dequeued (es_eng ex_failed) + (nums (es_heap ex_failed) [] + 1).
Proof. vm_compute. by split. Defined.

Lemma engine_service_error_witness :
  let '(rv, s') := engine_service ex_params 1 ex_failed in
  rv = 0 /\ eng_transfer_list (es_eng s') = [].
Proof.
  generalize (engine_service_error ex_params ex_failed [] (1, 0) _ [] 1 1 ex_failed_ok
    (proj1 ex_failed_error) (proj1 (proj2 ex_failed_error)) (proj2 (proj2 ex_failed_error)) ex_failed_list
    (Forall_nil_2 _) ex_failed_xfer ltac:(done) ltac:(done) (proj1 ex_failed_count) ltac:(done) (proj2 ex_failed_count)).
  destruct (engine_service ex_params 1 ex_failed) as [rv s']. intros (H1 & H2 & _). by split.
Defined.
