(* ===== verification/EngineRegs.v ===== *)
(** The register-level behaviour of the engine: the order in which starting an
    engine programs it, the poll mode monitor and its timeout, and the text
    buffer of [engine_status_dump]. *)
From S2P Require Import Prelude Kernel Types Desc Engine EngineSpec EngineQueue.
From Stdlib Require Import Ascii.
Local Open Scope Z_scope.

(** ** [engine_status_dump]

    [sprintf(buf + len, t); len += ...] appends [t] and a NUL to a buffer of 256
    bytes; the model keeps the text and leaves the bound to be proved. *)

Definition put (c : bool) (t b : string) : string := if c then String.app b t else b.

(** [buf[len - 1] = ','] *)
Fixpoint comma (b : string) : string :=
  match b with
  | EmptyString => EmptyString
  | String _ EmptyString => String "," EmptyString
  | String c b => String c (comma b)
  end.

Definition hex_digit (d : Z) : ascii :=
  ascii_of_N (Z.to_N (if d <? 10 then 48 + d else 87 + d)).

(** [%08x] *)
Fixpoint hex (n : nat) (v : Z) : string :=
  match n with
  | O => EmptyString
  | S n => String.app (hex n (Z.shiftr v 4)) (String (hex_digit (Z.land v 15)) EmptyString)
  end.

Definition put_all (v : Z) (l : list (Z * string)) (b : string) : string :=
  foldl (fun b '(m, t) => put (tst v m) t b) b l.

(** [if (v & mask) { len += sprintf(title); ...; buf[len - 1] = ','; }] *)
Definition put_group (v mask : Z) (title : string) (l : list (Z * string)) (b : string) : string :=
  if tst v mask then comma (put_all v l (String.app b title)) else b.

(** The text in [buffer] when it is printed, one byte short of what was written:
    the last character is replaced by the final NUL. *)
(* @src xdma/libxdma.c:413-498 engine_status_dump *)
Definition engine_status_dump (name : string) (dir : dma_data_direction) (v : Z) : string :=
  let b := (("SG engine " ++ name ++ " status: 0x" ++ hex 8 v ++ ": ")%string) in
  let b := put_all v [(XDMA_STAT_BUSY, "BUSY,"); (XDMA_STAT_DESC_STOPPED, "DESC_STOPPED,");
                      (XDMA_STAT_DESC_COMPLETED, "DESC_COMPL,")]%string b in
  let b := put_group v XDMA_STAT_COMMON_ERR_MASK ""
             [(XDMA_STAT_ALIGN_MISMATCH, "ALIGN_MISMATCH "); (XDMA_STAT_MAGIC_STOPPED, "MAGIC_STOPPED ");
              (XDMA_STAT_INVALID_LEN, "INVLIAD_LEN "); (XDMA_STAT_IDLE_STOPPED, "IDLE_STOPPED ")]%string b in
  let b :=
    if dir_eqb dir DMA_TO_DEVICE then
      let b := put_group v XDMA_STAT_H2C_R_ERR_MASK "R:"
                 [(XDMA_STAT_H2C_R_UNSUPP_REQ, "UNSUPP_REQ "); (XDMA_STAT_H2C_R_COMPL_ABORT, "COMPL_ABORT ");
                  (XDMA_STAT_H2C_R_PARITY_ERR, "PARITY "); (XDMA_STAT_H2C_R_HEADER_EP, "HEADER_EP ");
                  (XDMA_STAT_H2C_R_UNEXP_COMPL, "UNEXP_COMPL ")]%string b in
      put_group v XDMA_STAT_H2C_W_ERR_MASK "W:"
        [(XDMA_STAT_H2C_W_DECODE_ERR, "DECODE_ERR "); (XDMA_STAT_H2C_W_SLAVE_ERR, "SLAVE_ERR ")]%string b
    else
      put_group v XDMA_STAT_C2H_R_ERR_MASK "R:"
        [(XDMA_STAT_C2H_R_DECODE_ERR, "DECODE_ERR "); (XDMA_STAT_C2H_R_SLAVE_ERR, "SLAVE_ERR ")]%string b in
  put_group v XDMA_STAT_DESC_ERR_MASK "DESC_ERR:"
    [(XDMA_STAT_DESC_UNSUPP_REQ, "UNSUPP_REQ "); (XDMA_STAT_DESC_COMPL_ABORT, "COMPL_ABORT ");
     (XDMA_STAT_DESC_PARITY_ERR, "PARITY "); (XDMA_STAT_DESC_HEADER_EP, "HEADER_EP ");
     (XDMA_STAT_DESC_UNEXP_COMPL, "UNEXP_COMPL ")]%string b.

Definition status_buffer_size : nat := 256.

(** *** Lemmas *)

Lemma length_app_string a b : String.length (String.app a b) = (String.length a + String.length b)%nat.
Proof.
  induction a as [|c a IH]; [done|].
  change (String.length (String.app (String c a) b)) with (S (String.length (String.app a b))).
  by rewrite IH.
Qed.

Lemma length_comma b : String.length (comma b) = String.length b.
Proof. induction b as [|c [|c' b] IH]; [done|done|]. cbn in *. by rewrite IH. Qed.

Lemma length_hex n v : String.length (hex n v) = n.
Proof. revert v. induction n as [|n IH]; intros v; [done|]. cbn [hex]. rewrite length_app_string, IH. cbn. lia. Qed.

Definition total (l : list (Z * string)) : nat := sum_list_with (fun p => String.length p.2) l.

Lemma length_put_all v l b :
  (String.length (put_all v l b) <= String.length b + total l)%nat.
Proof.
  revert b. induction l as [|[m t] l IH]; intros b; cbn; [lia|]. unfold put_all in IH.
  eapply Nat.le_trans; [apply IH|]. unfold put, total. destruct (tst v m); [|lia].
  rewrite length_app_string. lia.
Qed.

Lemma length_put_group v mask title l b :
  (String.length (put_group v mask title l b)
   <= String.length b + String.length title + total l)%nat.
Proof.
  unfold put_group. destruct (tst v mask); [|lia]. rewrite length_comma.
  eapply Nat.le_trans; [apply length_put_all|]. rewrite length_app_string. lia.
Qed.

(** [engine_status_dump] assembles its text in a buffer of 256 bytes without
    a bound.  For a C2H engine every status fits; for an H2C engine a status of
    all ones, which is what a read returns once the card has dropped off the
    bus, writes past the end of the buffer. *)
Theorem engine_status_dump_bound :
  (forall name v, (String.length name <= 15)%nat ->
     (String.length (engine_status_dump name DMA_FROM_DEVICE v) + 1 <= status_buffer_size)%nat)
  /\ (status_buffer_size < String.length (engine_status_dump "0-H2C0-MM" DMA_TO_DEVICE 0xFFFFFFFF) + 1)%nat.
Proof.
  split; [|vm_compute; lia]. intros name v Hn. unfold engine_status_dump, status_buffer_size.
  cbn [dir_eqb].
  etransitivity; [apply Nat.add_le_mono_r; do 3 (etransitivity; [apply length_put_group|];
    do 2 apply Nat.add_le_mono_r); apply length_put_all|].
  rewrite !length_app_string, length_hex. cbn. lia.
Qed.

(** ** The poll mode monitor *)

Lemma time_after_lt a b : 0 <= a < 2 ^ 62 -> 0 <= b < 2 ^ 62 -> time_after a b = (b <? a).
Proof.
  intros. unfold time_after, s64, u64. destruct (Z.ltb_spec b a).
  - rewrite <- (Z.mod_unique_pos (b - a) 18446744073709551616 (-1) (b - a + 18446744073709551616)) by lia.
    case_match; apply Z.ltb_lt || apply Z.ltb_ge; lia.
  - rewrite Z.mod_small by lia. case_match; apply Z.ltb_lt || apply Z.ltb_ge; lia.
Qed.

Lemma err_not_counted d expected :
  0 <= expected -> tst d WB_ERR_MASK = false -> 0 <= d < expected ->
  (expected <? Z.land d WB_COUNT_MASK) = false.
Proof.
  intros He _ Hd. apply Z.ltb_ge. change WB_COUNT_MASK with (2 ^ 24 - 1).
  rewrite land_ones_mod by lia. pose proof (Z.mod_le d (2 ^ 24)). lia.
Qed.

(** An environment with a clock: it counts in steps of which [rate] make a
    jiffy, every read of the jiffies advances it, nothing sets it back, and no
    single operation takes longer than [longest] steps. *)
Class Clock (D : Type) `{Env D} := {
  clock : D -> Z;
  rate : Z;
  longest : Z;
  clock_rate : 0 < rate /\ 0 <= longest <= rate * 2 ^ 58;
  clock_jiffies d : (env_call K_jiffies d).1 = clock d / rate
                    /\ clock d < clock (env_call K_jiffies d).2 <= clock d + longest;
  clock_read a d : clock d <= clock (env_read a d).2 <= clock d + longest;
  clock_write a v d : clock d <= clock (env_write a v d) <= clock d + longest;
  clock_schedule d : clock d <= clock (env_call K_schedule d).2 <= clock d + longest;
}.

Section Monitor.
Context {D : Type} `{Env D}.
Implicit Types (s : est D).

(** What a finished poll can have seen. *)
Definition poll_result (expected d : Z) : Prop :=
  tst d WB_ERR_MASK = true \/ expected <= d \/ (tst d WB_ERR_MASK = false /\ d < expected).

Definition was_read (wb d : Z) : Prop := exists e0, d = u32 (env_read (D := D) wb e0).1.

Lemma wb_loop_reads fuel wb expected timeout n s :
  0 <= expected ->
  wp (wb_loop fuel wb expected timeout n)
     (fun r _ => match r with Some d => was_read wb d | None => True end) s.
Proof.
  intros He. revert n s. induction fuel as [|fuel IH]; intros n s; cbn [wb_loop]; [by est_step|].
  apply wp_bind, wp_read. intros d k Hd Hv.
  assert (was_read wb d) as Hread by by eexists.
  apply wp_bind. est_step; [est_step|].
  all: est_step; [by est_step|]. all: est_step; [by est_step|].
  all: est_step; est_step; est_step.
  1,3: est_step; rewrite err_not_counted; try done; lia.
  all: est_step; est_step; [est_step|]; apply IH.
Qed.

Context `{!Clock D}.

Definition now_of (s : est D) : Z := clock (k_env (es_k s)).

Lemma now_of_set s k : now_of (s <| es_k := k |>) = clock (k_env k).
Proof. done. Qed.

Lemma wp_clk_read a (Q : Z -> est D -> Prop) s :
  (forall v k, now_of s <= clock (k_env k) <= now_of s + longest -> Q v (s <| es_k := k |>)) ->
  wp (read_register a) Q s.
Proof.
  intros HQ. apply wp_read_env. intros v d E. apply HQ. unfold now_of. cbn.
  change (part s) with (es_k s) in E. pose proof (clock_read a (k_env (es_k s))) as Hc.
  by rewrite E in Hc.
Qed.
Lemma wp_clk_write v a (Q : unit -> est D -> Prop) s :
  (forall k, now_of s <= clock (k_env k) <= now_of s + longest -> Q tt (s <| es_k := k |>)) ->
  wp (write_register v a) Q s.
Proof. intros HQ. apply wp_write, HQ. apply clock_write. Qed.
Lemma wp_clk_jiffies (Q : Z -> est D -> Prop) s :
  (forall k, now_of s < clock (k_env k) <= now_of s + longest ->
     Q (now_of s / rate) (s <| es_k := k |>)) ->
  wp (call K_jiffies) Q s.
Proof.
  intros HQ. apply wp_call_env. intros v d E. pose proof (clock_jiffies (k_env (es_k s))) as [Hv Hc].
  change (part s) with (es_k s) in E. rewrite E in Hv, Hc. cbn in Hv. subst v. apply HQ. exact Hc.
Qed.
Lemma wp_clk_schedule (Q : unit -> est D -> Prop) s :
  (forall k, now_of s <= clock (k_env k) <= now_of s + longest -> Q tt (s <| es_k := k |>)) ->
  wp (call_ K_schedule) Q s.
Proof.
  intros HQ. apply wp_bind, wp_call_env. intros v d E.
  pose proof (clock_schedule (k_env (es_k s))) as Hc.
  change (part s) with (es_k s) in E. rewrite E in Hc. est_step. apply HQ. exact Hc.
Qed.

Lemma wb_loop_terminates (fuel : nat) wb expected timeout n s :
  0 <= timeout < 2 ^ 60 -> 0 <= now_of s <= rate * (timeout + 1) + 2 * longest ->
  rate * (timeout + 1) - now_of s < Z.of_nat fuel -> (0 < fuel)%nat ->
  wp (wb_loop fuel wb expected timeout n) (fun r _ => is_Some r) s.
Proof.
  intros Ht. pose proof clock_rate as [Hr Hm].
  revert n s. induction fuel as [|fuel IH]; intros n s Hc Hf Hf0; [lia|]. cbn [wb_loop].
  apply wp_bind, wp_clk_read. intros d k1 Hk1. 
  assert (forall s1, now_of s <= now_of s1 <= now_of s + 2 * longest ->
    wp (if tst d WB_ERR_MASK then mret (Some d)
        else if expected <=? d then mret (Some d)
        else
          now ← call K_jiffies;
          if time_after now timeout then
            mret (Some (if expected <? Z.land d WB_COUNT_MASK
                        then Z.lor expected WB_ERR_MASK else d))
          else
            when (nz n && (n mod NUM_POLLS_PER_SCHED =? 0)) (call_ K_schedule) ;;
            wb_loop fuel wb expected timeout (u32 (n + 1))) (fun r _ => is_Some r) s1) as Hmain.
  { intros s1 Hs1. est_step; [by est_step|]. est_step; [by est_step|].
    apply wp_bind, wp_clk_jiffies. intros k2 Hk2.
    assert (0 <= now_of s1 / rate) by (apply Z.div_pos; lia).
    assert (now_of s1 / rate < 2 ^ 62) by (apply Z.div_lt_upper_bound; nia).
    rewrite time_after_lt by lia. est_step; [by est_step|].
    assert (now_of s1 < rate * (timeout + 1)).
    { match goal with E : (_ <? _) = false |- _ => apply Z.ltb_ge in E end.
      pose proof (Z.mul_succ_div_gt (now_of s1) rate Hr). nia. }
    est_step. est_step.
    - apply wp_clk_schedule. intros k3 Hk3. rewrite now_of_set in Hk3.
      apply IH; rewrite ?now_of_set; lia.
    - apply IH; rewrite ?now_of_set; lia. }
  apply wp_bind. apply wp_when; intros.
  - apply wp_clk_write. intros k2 Hk2. apply Hmain. rewrite now_of_set in *. lia.
  - apply Hmain. rewrite now_of_set. lia.
Qed.
End Monitor.

(** C22 The poll mode monitor always comes back: as long as the clock runs, there
    is a number of rounds after which the ten second limit has passed. *)
Theorem wb_monitor_terminates {D} `{Env D, !Clock D} hz expected (s : est D) :
  0 <= hz < 2 ^ 50 -> 0 <= now_of s < rate * 2 ^ 55 ->
  exists fuel, is_Some (engine_service_wb_monitor hz fuel expected s).1.
Proof.
  intros Hh Hn. pose proof clock_rate as [Hr Hm].
  set (timeout := now_of s / rate + POLL_TIMEOUT_SECONDS * hz).
  exists (S (S (Z.to_nat (rate * (timeout + 1))))).
  refine (wp_run _ (fun r _ => is_Some r) _ _). unfold engine_service_wb_monitor.
  est_step. est_step. apply wp_bind, wp_clk_jiffies. intros k Hk.
  est_step; [by est_step|].
  assert (0 <= now_of s / rate < 2 ^ 55).
  { split; [apply Z.div_pos; lia|apply Z.div_lt_upper_bound; lia]. }
  unfold POLL_TIMEOUT_SECONDS in *. rewrite u64_small by lia. fold timeout.
  pose proof (Z.mul_div_le (now_of s) rate Hr). pose proof (Z.mul_succ_div_gt (now_of s) rate Hr).
  apply wb_loop_terminates; rewrite ?now_of_set; subst timeout; nia.
Qed.

(** A poll that runs out of time is not reported: unless the device itself
    sets the error bit in the writeback word, the value handed to
    [engine_service] never carries it, although the code meant to add it. *)
Theorem wb_monitor_timeout_silent {D} `{Env D} hz fuel expected (s : est D) :
  0 <= expected ->
  (forall d, tst (u32 (env_read (default 0 (eng_poll_wb (es_eng s))) d).1) WB_ERR_MASK = false) ->
  match (engine_service_wb_monitor hz fuel expected s).1 with
  | Some d => tst d WB_ERR_MASK = false
  | None => True
  end.
Proof.
  intros He Hdev.
  refine (wp_run _ (fun r _ => match r with Some d => tst d WB_ERR_MASK = false | None => True end) _ _).
  unfold engine_service_wb_monitor. est_step. est_step. est_step. est_step.
  est_step; [by est_step|]. eapply wp_mono; [by apply wb_loop_reads|].
  intros [d|] s' Hr; [|done]. destruct Hr as [e0 ->]. apply Hdev.
Qed.

(** ** Starting an engine *)

Definition perf_irqs : Z :=
  lor_all [XDMA_CTRL_IE_DESC_STOPPED; XDMA_CTRL_IE_DESC_COMPLETED;
           XDMA_CTRL_IE_DESC_ALIGN_MISMATCH; XDMA_CTRL_IE_MAGIC_STOPPED;
           XDMA_CTRL_IE_IDLE_STOPPED; XDMA_CTRL_IE_READ_ERROR; XDMA_CTRL_IE_DESC_ERROR].

(** The register accesses of [engine_start] for the transfer [x]; [v1] and [v2]
    are the values the status register had. *)
Definition start_events (pm : params) (e : xdma_engine) (x : xdma_transfer) (v1 v2 : Z) :
    list event :=
  (if st_c2h_credit pm e then [Ev_write (eng_sgdma_regs e + sg_credits) (u32 (eng_desc_used e))]
   else [])
  ++ [Ev_write (eng_sgdma_regs e + sg_first_desc_lo) (u32 (PCI_DMA_L (x_desc_bus x)));
      Ev_write (eng_sgdma_regs e + sg_first_desc_hi) (u32 (PCI_DMA_H (x_desc_bus x)));
      Ev_write (eng_sgdma_regs e + sg_first_desc_adjacent)
        (u32 (xdma_get_next_adj (u32 (x_desc_adjacent x)) (PCI_DMA_L (x_desc_bus x))))]
  ++ (if eng_xdma_perf e is Some _
      then [Ev_write (eng_regs e + reg_interrupt_enable_mask) perf_irqs] else [])
  ++ [Ev_write (eng_regs e + reg_control) (ctrl_start pm (eng_non_incr_addr e));
      Ev_read (eng_regs e + reg_status) v1; Ev_read (eng_regs e + reg_status) v2].

Lemma ctrl_start_word pm b :
  u32 (ctrl_start pm b) = ctrl_start pm b /\ tst (ctrl_start pm b) XDMA_CTRL_RUN_STOP = true
  /\ tst (ctrl_stop pm) XDMA_CTRL_RUN_STOP = false.
Proof. destruct pm as [[] ? ? ?], b; by vm_compute. Qed.

Lemma engine_start_trace {D} `{Env D} pm p l (s : est D) :
  eng_running (es_eng s) = false -> eng_transfer_list (es_eng s) = p :: l ->
  wp (engine_start pm) (fun r s' => r = Some p /\
     exists v1 v2, k_trace (es_k s') = k_trace (es_k s)
                     ++ start_events pm (es_eng s) (xfer_at s p) v1 v2) s.
Proof.
  intros Hr Hl. unfold engine_start, start_events. est_step. est_step. rewrite Hr, Hl.
  unfold write_first_desc, engine_start_mode_config, engine_status_read, sg_reg_of, write_reg,
    read_reg, reg_of.
  pose proof (proj1 (ctrl_start_word pm (eng_non_incr_addr (es_eng s)))) as Hc.
  tr_step. tr_step. tr_step. tr_step. tr_step.
  destruct (st_c2h_credit pm (es_eng s)) eqn:Hcr; cbn [when].
  all: destruct (eng_xdma_perf (es_eng s)) as [pf|] eqn:Hpf.
  all: repeat tr_step; fld.
  all: try match goal with
           | E : bool_decide _ = true |- _ => apply bool_decide_eq_true in E as [? ?]; congruence
           | E : bool_decide _ = false |- _ =>
               apply bool_decide_eq_false in E; rewrite Hpf in E; destruct E; by eexists
           end.
  all: split; [done|]; do 2 eexists; rewrite Hc in *; trace_eq.
Qed.

(** C18 Starting an idle engine programs the address and the adjacency of the
    first queued transfer before, and only before, the control write that sets
    the run bit: the accesses are exactly those of [start_events], the low and
    high words combine to the transfer's bus address and the run bit is set in
    the control word (and clear in the one that stops the engine). *)
Theorem engine_start_programs {D} `{Env D} pm p l (s : est D) :
  let e := es_eng s in let x := xfer_at s p in
  eng_running e = false -> eng_transfer_list e = p :: l -> 0 <= x_desc_bus x < 2 ^ 64 ->
  let '(r, s') := engine_start pm s in
  r = Some p
  /\ (exists v1 v2, k_trace (es_k s') = k_trace (es_k s) ++ start_events pm e x v1 v2)
  /\ word64 (u32 (PCI_DMA_L (x_desc_bus x))) (u32 (PCI_DMA_H (x_desc_bus x))) = x_desc_bus x
  /\ tst (ctrl_start pm (eng_non_incr_addr e)) XDMA_CTRL_RUN_STOP = true
  /\ tst (ctrl_stop pm) XDMA_CTRL_RUN_STOP = false.
Proof.
  intros e x Hr Hl Hb. apply wp_elim. eapply wp_mono; [by eapply engine_start_trace|].
  intros r s' [-> Htr]. split_and!; [done|done| | |].
  - unfold PCI_DMA_H. rewrite u32_u32. rewrite u32_small; [by apply PCI_DMA_word64|].
    unfold PCI_DMA_L. change 0xffffffff with (2 ^ 32 - 1). rewrite land_ones_mod by lia.
    apply Z.mod_pos_bound. lia.
  - apply (ctrl_start_word pm).
  - apply (ctrl_start_word pm false).
Qed.

(** ** Witnesses *)

Definition ex_idle : est sim :=
  ex_queued <| es_eng ::= fun e => e <| eng_running := false |> |>.

Lemma ex_idle_ok :
  eng_running (es_eng ex_idle) = false /\ eng_transfer_list (es_eng ex_idle) = [(1, 0)]
  /\ 0 <= x_desc_bus (xfer_at ex_idle (1, 0)) < 2 ^ 64.
Proof. vm_compute. repeat split; discriminate. Defined.

Lemma engine_start_programs_witness :
  ltac:(statement_of (engine_start_programs ex_params (1, 0) [] ex_idle (proj1 ex_idle_ok)
                        (proj1 (proj2 ex_idle_ok)) (proj2 (proj2 ex_idle_ok)))).
Proof.
  instance_of (engine_start_programs ex_params (1, 0) [] ex_idle (proj1 ex_idle_ok)
                 (proj1 (proj2 ex_idle_ok)) (proj2 (proj2 ex_idle_ok))).
Defined.

(** A device that never writes back, with a clock of four steps to the jiffy. *)
Record ticking := { tick_time : Z }.
#[export] Instance ticking_env : Env ticking := {
  env_read _ d := (0, d);
  env_write _ _ d := d;
  env_call c d := match c with
                  | K_jiffies => (tick_time d / 4, {| tick_time := tick_time d + 1 |})
                  | _ => (0, d)
                  end;
}.
#[export] Instance ticking_clock : Clock ticking.
Proof.
  refine {| clock := tick_time; rate := 4; longest := 1 |}; intros; cbn; lia.
Defined.

Definition ex_ticking : est ticking :=
  {| es_k := mkK {| tick_time := 0 |} []; es_eng := engine_zero; es_heap := ∅; es_sgts := ∅ |}.

Lemma wb_monitor_terminates_witness :
  exists fuel, is_Some (engine_service_wb_monitor 100 fuel 3 ex_ticking).1.
Proof. apply wb_monitor_terminates; vm_compute; (split; [discriminate|reflexivity]). Defined.

Lemma wb_monitor_timeout_silent_witness :
  match (engine_service_wb_monitor 1 100 3 ex_ticking).1 with
  | Some d => tst d WB_ERR_MASK = false
  | None => True
  end.
Proof.
  apply wb_monitor_timeout_silent; [vm_compute; discriminate|]. intros d. vm_compute. reflexivity.
Defined.

(** The poll of [ex_ticking] does time out, with a count of zero. *)
Example wb_monitor_timeout_run : (engine_service_wb_monitor 1 100 3 ex_ticking).1 = Some 0.
Proof. vm_compute. reflexivity. Qed.
