(* ===== verification/Submit.v ===== *)
(** Submitting a request to an engine and collecting its result ([libxdma.c]):
    [xdma_xfer_submit], which waits for each transfer, and
    [xdma_xfer_submit_nowait] with [xdma_xfer_completion], which do not.  The
    functions start where the engine has been chosen; [Device] chooses it.

    While a caller sleeps, interrupt handlers, completion threads and other
    users of the engine run.  What they do is the parameter [wait]: any change
    of the engine's state.  The theorems say what they need of it. *)
From S2P Require Import Prelude Kernel Types Desc Request Transfer Engine EngineSpec EngineQueue.
Local Open Scope Z_scope.

Section Code.
Context {D : Type} `{Env D} (pm : params).
Variable sizeof_request_cb : Z.
Variable vmalloc_range : Z * Z.

(** [xlx_wait_event_interruptible(_timeout)] on a transfer. *)
Variable wait : xfer_ptr -> Z -> M (est D) unit.

(** Freeing a request frees its two transfers. *)
Definition free_request (p : Z) : M (est D) unit :=
  xdma_request_free vmalloc_range p ;;
  modify (fun s => s <| es_heap ::= fun h => delete (p, 0) (delete (p, 1) h) |>).

Definition the_sgt (id : Z) : M (est D) sg_table :=
  gets (fun s => default (Build_sg_table [] 0 0) (es_sgts s !! id)).
Definition set_nents (id n : Z) : M (est D) unit :=
  modify (fun s => s <| es_sgts ::= alter (fun t => t <| sgt_nents := n |>) id |>).

(** [unmap_sgl:] *)
(* @src xdma/libxdma.c:3681-3688 xdma_xfer_submit *)
Definition unmap_sgl (dma_mapped : bool) (sgt : Z) : M (est D) unit :=
  t ← the_sgt sgt;
  when (negb dma_mapped && nz (sgt_nents t))
    (call_ (K_dma_unmap_sg sgt (sgt_orig_nents t)) ;; set_nents sgt 0).

(** Mapping the table, or checking that the caller has mapped it. *)
(* @src xdma/libxdma.c:3520-3538 xdma_xfer_submit *)
Definition map_sgl (dma_mapped : bool) (sgt : Z) : M (est D) Z :=
  t ← the_sgt sgt;
  if negb dma_mapped then
    nents ← call (K_dma_map_sg sgt (sgt_orig_nents t));
    if nents =? 0 then mret (- EIO) else set_nents sgt nents ;; mret 0
  else mret (if sgt_nents t =? 0 then - EIO else 0).

(** [req->tfer[idx]] set up by [transfer_init]; the request is returned. *)
Definition init_tfer (p idx : Z) (req : xdma_request_cb) : M (est D) xdma_request_cb :=
  e ← the_engine;
  let '(e, req, xfer) := transfer_init e req in
  upd_engine (fun _ => e) ;;
  modify (fun s => s <| es_heap ::= <[(p, idx) := xfer]> |>) ;; mret req.

(** The error handling for a transfer that did not finish in time. *)
(* @src xdma/libxdma.c:3637-3662 xdma_xfer_submit *)
Definition submit_timed_out (x : xfer_ptr) : M (est D) Z :=
  rv ← engine_status_read false true;
  (if rv <? 0 then mret tt
   else if rv =? 0 then
     rv ← transfer_abort x;
     if rv <? 0 then mret tt
     else if rv =? 0 then xdma_engine_stop pm ;; mret tt else mret tt
   else mret tt) ;;
  mret (- ERESTARTSYS).

(** The lengths the engine wrote back for the first [n] descriptors. *)
Definition results_len (e : xdma_engine) (x : xdma_transfer) (n : Z) : Z :=
  sum_Z (r_length <$> take (Z.to_nat n) (drop (Z.to_nat (x_res_virt x)) (default [] (eng_cyclic_result e)))).

Definition wake_thread : M (est D) unit :=
  e ← the_engine;
  match eng_cmplthp e with Some id => call_ (K_kthread_wakeup id) | None => mret tt end.

(** Building the transfer of a round; the result is the request and what is left of
    [nents]. *)
(* @src xdma/libxdma.c:3557-3573 xdma_xfer_submit *)
Definition round_begin (p sgt : Z) (dma_mapped : bool) (req : xdma_request_cb) (nents : Z) :
    M (est D) (xdma_request_cb * Z) :=
  req ← init_tfer p 0 req;
  when (negb dma_mapped) (upd_xfer (p, 0) (fun t => t <| x_flags := XFER_FLAG_NEED_UNMAP |>)) ;;
  t ← the_xfer (p, 0);
  let nents := s32 (nents - x_desc_num t) in
  when (nents =? 0)
    (upd_xfer (p, 0) (fun t => t <| x_last_in_request := true |> <| x_sgt := Some sgt |>)) ;;
  mret (req, nents).

(** One round of the loop: build, queue, wait, collect.  The result is the
    request, what is left of [nents], the bytes done, [rv] and whether the loop
    was left because the transfer could not be queued. *)
(* @src xdma/libxdma.c:3553-3676 xdma_xfer_submit *)
Definition submit_round (xdev : xdma_dev) (p sgt : Z) (dma_mapped : bool) (timeout_ms : Z)
    (req : xdma_request_cb) (nents done : Z) :
    M (est D) (xdma_request_cb * Z * Z * Z) :=
  let x := (p, 0) in
  '(req, nents) ← round_begin p sgt dma_mapped req nents;
  rv ← transfer_queue pm xdev x;
  if rv <? 0 then mret (req, nents, done, rv)
  else
    wake_thread ;;
    wait x timeout_ms ;;
    t ← the_xfer x; e ← the_engine;
    '(nents, done, rv) ←
      match x_state t with
      | TRANSFER_STATE_COMPLETED =>
          if streaming_c2h e
          then mret (if eng_eop_flush e then 0 else nents,
                     s64 (done + results_len e t (x_desc_cmpl t)), 0)
          else mret (nents, s64 (done + x_len t), 0)
      | TRANSFER_STATE_FAILED => mret (nents, done, - EIO)
      | _ => rv ← submit_timed_out x; mret (nents, done, rv)
      end;
    upd_engine (fun e => e <| eng_desc_used ::= fun u => s32 (u - x_desc_num t) |>) ;;
    transfer_destroy x ;;
    mret (req, nents, done, rv).

(** [while (nents)], left early on an error. *)
(* @src xdma/libxdma.c:3553-3677 xdma_xfer_submit *)
Fixpoint submit_loop (fuel : nat) (xdev : xdma_dev) (p sgt : Z) (dma_mapped : bool)
    (timeout_ms : Z) (req : xdma_request_cb) (nents done rv : Z) : M (est D) (Z * Z) :=
  match fuel with
  | O => mret (done, rv)
  | S fuel =>
      if nents =? 0 then mret (done, rv)
      else
        '(req, nents, done, rv) ← submit_round xdev p sgt dma_mapped timeout_ms req nents done;
        if rv <? 0 then mret (done, rv)
        else submit_loop fuel xdev p sgt dma_mapped timeout_ms req nents done rv
  end.

(** The checks before anything is changed; [dir] is the direction asked for. *)
(* @src xdma/libxdma.c:3501-3518 xdma_xfer_submit *)
Definition submit_checks (xdev : xdma_dev) (dir : dma_data_direction) (e : xdma_engine) :
    option Z :=
  if negb (eng_magic e =? MAGIC_ENGINE) then Some (- EINVAL)
  else if xdma_device_flag_check xdev XDEV_FLAG_OFFLINE then Some (- EBUSY)
  else if negb (dir_eqb (eng_dir e) dir) then Some (- EINVAL)
  else None.

(* @src xdma/libxdma.c:3462-3695 xdma_xfer_submit *)
Definition xdma_xfer_submit (xdev : xdma_dev) (write : bool) (ep_addr sgt : Z)
    (dma_mapped : bool) (timeout_ms : Z) : M (est D) Z :=
  e ← the_engine;
  match submit_checks xdev (if write then DMA_TO_DEVICE else DMA_FROM_DEVICE) e with
  | Some rv => mret rv
  | None =>
      rv ← map_sgl dma_mapped sgt;
      if rv <? 0 then mret rv
      else
        t ← the_sgt sgt;
        r ← xdma_init_request sizeof_request_cb vmalloc_range (desc_blen_max pm) sgt t ep_addr;
        match r with
        | None => unmap_sgl dma_mapped sgt ;; mret (- ENOMEM)
        | Some (p, req) =>
            '(done, rv) ← submit_loop (S (Z.to_nat (rq_sw_desc_cnt req))) xdev p sgt dma_mapped
                             timeout_ms req (rq_sw_desc_cnt req) 0 0;
            unmap_sgl dma_mapped sgt ;; free_request p ;;
            mret (if nz done then done else rv)
        end
  end.

(** ** Without waiting

    The request has room for two transfers: [None] is an access to [tfer[2]] or
    beyond, outside the array. *)

(* @src xdma/libxdma.c:3917-3976 xdma_xfer_submit_nowait *)
Fixpoint nowait_loop (fuel : nat) (xdev : xdma_dev) (cb p sgt : Z) (dma_mapped : bool)
    (tfer_idx : Z) (req : xdma_request_cb) (nents : Z) : M (est D) (option Z) :=
  match fuel with
  | O => mret (Some 0)
  | S fuel =>
      if nents =? 0 then mret (Some 0)
      else if 2 <=? tfer_idx then mret None
      else
        let x := (p, tfer_idx) in
        req ← init_tfer p tfer_idx req;
        upd_xfer x (fun t => t <| x_cb := Some cb |>) ;;
        when (negb dma_mapped) (upd_xfer x (fun t => t <| x_flags := XFER_FLAG_NEED_UNMAP |>)) ;;
        t ← the_xfer x;
        let nents := s32 (nents - x_desc_num t) in
        when (nents =? 0)
          (upd_xfer x (fun t => t <| x_last_in_request := true |> <| x_sgt := Some sgt |>)) ;;
        rv ← transfer_queue pm xdev x;
        if rv <? 0 then mret (Some rv)
        else nowait_loop fuel xdev cb p sgt dma_mapped (tfer_idx + 1) req nents
  end.

(** The result carries the request that completion will need. *)
(* @src xdma/libxdma.c:3822-3995 xdma_xfer_submit_nowait *)
Definition xdma_xfer_submit_nowait (cb : Z) (xdev : xdma_dev) (write : bool) (ep_addr sgt : Z)
    (dma_mapped : bool) : M (est D) (option (Z * option (Z * xdma_request_cb))) :=
  e ← the_engine;
  match submit_checks xdev (if write then DMA_TO_DEVICE else DMA_FROM_DEVICE) e with
  | Some rv => mret (Some (rv, None))
  | None =>
      rv ← map_sgl dma_mapped sgt;
      if rv <? 0 then mret (Some (rv, None))
      else
        t ← the_sgt sgt;
        r ← xdma_init_request sizeof_request_cb vmalloc_range (desc_blen_max pm) sgt t ep_addr;
        match r with
        | None => unmap_sgl dma_mapped sgt ;; mret (Some (- ENOMEM, None))
        | Some (p, req) =>
            let req := req <| rq_cb := Some cb |> in
            rv ← nowait_loop (S (Z.to_nat (rq_sw_desc_cnt req))) xdev cb p sgt dma_mapped 0
                    req (rq_sw_desc_cnt req);
            match rv with
            | None => mret None
            | Some rv =>
                if rv <? 0 then
                  unmap_sgl dma_mapped sgt ;; free_request p ;; mret (Some (rv, None))
                else mret (Some (- EIOCBQUEUED, Some (p, req)))
            end
        end
  end.

(* @src xdma/libxdma.c:3748-3803 xdma_xfer_completion *)
Fixpoint completion_loop (fuel : nat) (p tfer_idx nents done : Z) : M (est D) (option Z) :=
  match fuel with
  | O => mret (Some done)
  | S fuel =>
      if nents =? 0 then mret (Some done)
      else if 2 <=? tfer_idx then mret None
      else
        let x := (p, tfer_idx) in
        t ← the_xfer x; e ← the_engine;
        '(done, rv) ←
          match x_state t with
          | TRANSFER_STATE_COMPLETED =>
              mret (s64 (done + (if streaming_c2h e then results_len e t (x_desc_num t) else x_len t)), 0)
          | TRANSFER_STATE_FAILED => mret (done, - EIO)
          | _ =>
              engine_status_read false true ;; transfer_abort x ;; xdma_engine_stop pm ;;
              mret (done, - ERESTARTSYS)
          end;
        transfer_destroy x ;;
        upd_engine (fun e => e <| eng_desc_used ::= fun u => s32 (u - x_desc_num t) |>) ;;
        if rv <? 0 then mret (Some done)
        else completion_loop fuel p (tfer_idx + 1) (s32 (nents - x_desc_num t)) done
  end.

(* @src xdma/libxdma.c:3697-3820 xdma_xfer_completion *)
Definition xdma_xfer_completion (p : Z) (req : xdma_request_cb) (sgt : Z) (dma_mapped : bool) :
    M (est D) (option Z) :=
  e ← the_engine;
  if negb (eng_magic e =? MAGIC_ENGINE) then mret (Some (- EINVAL))
  else
    done ← completion_loop (S (Z.to_nat (rq_sw_desc_cnt req))) p 0 (rq_sw_desc_cnt req) 0;
    match done with
    | None => mret None
    | Some done => unmap_sgl dma_mapped sgt ;; free_request p ;; mret (Some done)
    end.
End Code.
