(* ===== verification/SubmitSpec.v ===== *)
(** Properties of request submission: what a submitted request moves, how the
    descriptor ring and the DMA mapping are left, and the two ways it goes wrong. *)
From S2P Require Import Prelude Kernel Types Desc Request Transfer Engine EngineSpec EngineQueue Submit.
Local Open Scope Z_scope.

(** An engine that accepts transfers, as seen by a submitter. *)
Record accepting (xdev : xdma_dev) (e : xdma_engine) : Prop := {
  acc_ring : ring_ok e;
  acc_room : eng_desc_used e + eng_desc_max e <= 2 ^ 30;
  acc_online : xdma_device_flag_check xdev XDEV_FLAG_OFFLINE = false;
  acc_shutdown : tst (eng_shutdown e) ENGINE_SHUTDOWN_REQUEST = false;
}.

(** The fields of an engine that only submitters change. *)
Definition same_ring (e e' : xdma_engine) : Prop :=
  eng_desc e' = eng_desc e /\ eng_desc_idx e' = eng_desc_idx e
  /\ eng_desc_used e' = eng_desc_used e /\ eng_desc_max e' = eng_desc_max e
  /\ eng_desc_bus e' = eng_desc_bus e /\ eng_cyclic_result_bus e' = eng_cyclic_result_bus e
  /\ streaming_c2h e' = streaming_c2h e /\ eng_non_incr_addr e' = eng_non_incr_addr e
  /\ eng_magic e' = eng_magic e.

Lemma same_static_ring e e' : same_static e e' -> same_ring e e'.
Proof. unfold same_static. intros ->. unfold same_ring. by split_and!. Qed.

Lemma same_ring_trans e1 e2 e3 : same_ring e1 e2 -> same_ring e2 e3 -> same_ring e1 e3.
Proof. unfold same_ring. intuition congruence. Qed.
Lemma same_ring_mm e e' : same_ring e e' -> streaming_c2h e' = streaming_c2h e.
Proof. unfold same_ring. tauto. Qed.

Lemma same_ring_ok e e' : same_ring e e' -> ring_ok e -> ring_ok e'.
Proof.
  intros (H1 & H2 & H3 & H4 & H5 & H6 & _) [? ? ? ? ? ?].
  constructor; unfold eng_ring in *; rewrite ?H1, ?H2, ?H3, ?H4, ?H5, ?H6; done.
Qed.

Section Lemmas.
Context {D : Type} `{Env D} (pm : params) (xdev : xdma_dev).
Implicit Types (s : est D).

(** [transfer_queue] in terms of the shutdown request. *)
Lemma wp_queue_accept p (Q : Z -> est D -> Prop) s :
  x_desc_num (xfer_at s p) <> 0 -> xdma_device_flag_check xdev XDEV_FLAG_OFFLINE = false ->
  tst (eng_shutdown (es_eng s)) ENGINE_SHUTDOWN_REQUEST = false ->
  (forall s', same_static (es_eng s) (es_eng s') ->
     es_heap s' = set_state TRANSFER_STATE_SUBMITTED p (es_heap s) ->
     eng_transfer_list (es_eng s') = eng_transfer_list (es_eng s) ++ [p] ->
     tst (eng_shutdown (es_eng s')) ENGINE_SHUTDOWN_REQUEST = false ->
     es_sgts s' = es_sgts s -> Q 0 s') ->
  wp (transfer_queue pm xdev p) Q s.
Proof.
  intros Hn Ho Hs HQ. unfold transfer_queue. est_step. est_step.
  destruct (Z.eqb_spec (x_desc_num (xfer_at s p)) 0); [done|]. rewrite Ho. est_step. est_step. rewrite Hs.
  est_step. est_step. est_step. est_step. est_step. est_step.
  - est_step. apply wp_engine_start.
    + fld. intros [Hr|Hl]; [by rewrite Hr in *|]. by destruct (eng_transfer_list (es_eng s)).
    + intros p' l v s' _ _ E1 E2 E3. est_step. est_step.
      apply HQ; [rewrite E1; reflexivity|exact E2|by rewrite E1|by rewrite E1|exact E3].
  - est_step. apply HQ; fld; try reflexivity. exact Hs.
Qed.

(** The transfer that [init_tfer] stores. *)
Definition new_xfer (e : xdma_engine) (req : xdma_request_cb) : xdma_transfer :=
  (transfer_init e req).2.

Lemma new_xfer_fields e req :
  ring_ok e -> request_ok req ->
  x_desc_num (new_xfer e req) = transfer_count e req
  /\ x_len (new_xfer e req) = u32 (pieces_len req 0 (transfer_count e req))
  /\ x_desc_virt (new_xfer e req) = eng_desc_idx e /\ x_flags (new_xfer e req) = 0
  /\ x_last_in_request (new_xfer e req) = false /\ x_cb (new_xfer e req) = None.
Proof. intros. unfold new_xfer. rewrite transfer_init_eq by done. by split_and!. Qed.

Lemma transfer_init_keeps e req :
  ring_ok e -> request_ok req ->
  let e' := (transfer_init e req).1.1 in
  eng_desc_idx e' = (eng_desc_idx e + transfer_count e req) mod eng_desc_max e
  /\ eng_desc_used e' = eng_desc_used e + transfer_count e req /\ eng_desc_max e' = eng_desc_max e
  /\ eng_shutdown e' = eng_shutdown e /\ eng_transfer_list e' = eng_transfer_list e
  /\ streaming_c2h e' = streaming_c2h e /\ eng_magic e' = eng_magic e
  /\ eng_cmplthp e' = eng_cmplthp e.
Proof. intros. subst e'. rewrite transfer_init_eq by done. by split_and!. Qed.

Lemma transfer_init_req e req :
  ring_ok e -> request_ok req ->
  let n := transfer_count e req in let req' := (transfer_init e req).1.2 in
  rq_sw_desc_idx req' = rq_sw_desc_idx req + n /\ rq_sw_desc_cnt req' = rq_sw_desc_cnt req
  /\ rq_sdesc req' = rq_sdesc req
  /\ (n < rq_sw_desc_cnt req - rq_sw_desc_idx req -> request_ok req').
Proof.
  intros He Hr n req'. subst req'. pose proof (transfer_count_range e req He Hr) as (H0 & _ & _).
  pose proof (ep_at_range e req Hr n). fold n in H0.
  rewrite transfer_init_eq by done. cbn [fst snd]. fld. split_and!; try done.
  intros Hn. destruct Hr. constructor; fld; try done; fold n; lia.
Qed.

Lemma wp_init_tfer p idx req (Q : xdma_request_cb -> est D -> Prop) s :
  (forall s', es_eng s' = (transfer_init (es_eng s) req).1.1 ->
     es_heap s' = <[(p, idx) := new_xfer (es_eng s) req]> (es_heap s) ->
     es_sgts s' = es_sgts s -> Q (transfer_init (es_eng s) req).1.2 s') ->
  wp (init_tfer p idx req) Q s.
Proof.
  intros HQ. unfold init_tfer, new_xfer in *. est_step. est_step.
  destruct (transfer_init (es_eng s) req) as [[e' req'] xf]. repeat est_step.
  by apply HQ.
Qed.

(** *** Room for two transfers *)

Lemma nowait_next fuel cb p sgt mapped idx req nents (Q : option Z -> est D -> Prop) s :
  accepting xdev (es_eng s) -> request_ok req -> idx < 2 ->
  nents = rq_sw_desc_cnt req - rq_sw_desc_idx req ->
  (forall s', let n := transfer_count (es_eng s) req in
     let req' := (transfer_init (es_eng s) req).1.2 in
     (eng_desc_used (es_eng s') + eng_desc_max (es_eng s') <= 2 ^ 30 ->
      accepting xdev (es_eng s')) ->
     eng_desc_used (es_eng s') = eng_desc_used (es_eng s) + n ->
     eng_desc_max (es_eng s') = eng_desc_max (es_eng s) ->
     eng_desc_idx (es_eng s') = (eng_desc_idx (es_eng s) + n) mod eng_desc_max (es_eng s) ->
     wp (nowait_loop pm fuel xdev cb p sgt mapped (idx + 1) req' (nents - n)) Q s') ->
  wp (nowait_loop pm (S fuel) xdev cb p sgt mapped idx req nents) Q s.
Proof.
  intros [Hring Hroom Hon Hsh] Hreq Hidx Hnents HQ. cbn [nowait_loop].
  pose proof (transfer_count_range _ _ Hring Hreq) as (Hn0 & Hn1 & Hn2).
  pose proof (request_max _ Hreq). pose proof (request_idx _ Hreq).
  destruct (Z.eqb_spec nents 0) as [|_]; [lia|]. destruct (Z.leb_spec 2 idx); [lia|].
  pose proof (new_xfer_fields _ _ Hring Hreq) as (Hx1 & _).
  pose proof (transfer_init_keeps _ _ Hring Hreq) as Hk. cbv zeta in Hk.
  destruct Hk as (K1 & K2 & K3 & K4 & _).
  pose proof (ring_idx _ Hring). pose proof (ring_max _ Hring).
  pose proof (transfer_init_ring_ok _ _ Hring Hreq ltac:(lia)) as Hring'.
  set (n := transfer_count (es_eng s) req) in *.
  est_step. apply wp_init_tfer. intros s1 E1 E2 E3. est_step. est_step. est_step.
  assert (forall s2, es_eng s2 = es_eng s1 -> x_desc_num (xfer_at s2 (p, idx)) = n ->
    wp (t ← the_xfer (p, idx);
        when (s32 (nents - x_desc_num t) =? 0)
          (upd_xfer (p, idx) (fun t => t <| x_last_in_request := true |> <| x_sgt := Some sgt |>)) ;;
        rv ← transfer_queue pm xdev (p, idx);
        if rv <? 0 then mret (Some rv)
        else nowait_loop pm fuel xdev cb p sgt mapped (idx + 1) (transfer_init (es_eng s) req).1.2
               (s32 (nents - x_desc_num t))) Q s2) as Htail.
  { intros s2 F1 F2. est_step. est_step. rewrite F2. rewrite s32_small by lia.
    assert (forall s3, es_eng s3 = es_eng s1 -> x_desc_num (xfer_at s3 (p, idx)) = n ->
      wp (transfer_queue pm xdev (p, idx)) (fun rv => wp (if rv <? 0 then mret (Some rv)
        else nowait_loop pm fuel xdev cb p sgt mapped (idx + 1) (transfer_init (es_eng s) req).1.2
               (nents - n)) Q) s3) as Hq.
    { intros s3 G1 G2. apply wp_queue_accept; [lia|done|by rewrite G1, E1, K4|].
      intros s4 I1 I2 I3 I4 I5. cbn [Z.ltb Z.compare]. 
      destruct (same_static_ring _ _ I1) as (_ & J2 & J3 & J4 & _). rewrite G1, E1 in J2, J3, J4.
      apply HQ.
      - intros Hroom'. constructor; try done. apply same_static_ring in I1.
        apply (same_ring_ok _ _ I1). by rewrite G1, E1.
      - by rewrite J3.
      - by rewrite J4.
      - by rewrite J2. }
    est_step. apply wp_when; intros _; [est_step|]; est_step; apply Hq;
      [exact F1| |exact F1|exact F2].
    rewrite <- F2. unfold xfer_at. fld. rewrite lookup_alter_eq. by destruct (es_heap s2 !! _). }
  apply wp_when; intros _; [est_step|]; apply Htail; [done| |done|];
    unfold xfer_at; fld; rewrite ?lookup_alter_eq, E2, lookup_insert_eq; exact Hx1.
Qed.

Lemma nowait_done fuel cb p sgt mapped idx req (Q : option Z -> est D -> Prop) s :
  Q (Some 0) s -> wp (nowait_loop pm fuel xdev cb p sgt mapped idx req 0) Q s.
Proof. intros HQ. destruct fuel; cbn [nowait_loop Z.eqb]; by est_step. Qed.

Lemma wp_nowait_loop fuel cb p sgt mapped req nents s :
  accepting xdev (es_eng s) -> request_ok req ->
  eng_desc_used (es_eng s) + 3 * eng_desc_max (es_eng s) <= 2 ^ 30 ->
  nents = rq_sw_desc_cnt req - rq_sw_desc_idx req -> (2 < fuel)%nat ->
  wp (nowait_loop pm fuel xdev cb p sgt mapped 0 req nents)
    (fun r _ => r = if 2 * eng_desc_max (es_eng s) - eng_desc_idx (es_eng s) <? nents
                    then None else Some 0) s.
Proof.
  intros Hacc Hreq Hroom Hnents Hfuel.
  destruct fuel as [|[|[|fuel]]]; [lia|lia|lia|].
  apply nowait_next; [done|done|lia|done|]. intros s1 n1 req1 Hacc1 U1 M1 I1.
  pose proof (ring_idx _ (acc_ring _ _ Hacc)) as Hidx.
  pose proof (transfer_count_range _ _ (acc_ring _ _ Hacc) Hreq) as (Hn & Hn' & _).
  destruct (transfer_init_req _ _ (acc_ring _ _ Hacc) Hreq) as (R1 & R2 & _ & R3).
  fold n1 in Hn, Hn', R1, R3. fold req1 in R1, R2, R3.
  assert (n1 = Z.min nents (eng_desc_max (es_eng s) - eng_desc_idx (es_eng s))) as Hn1
    by (subst n1 nents; done).
  destruct (decide (n1 = nents)) as [E|Hne].
  { rewrite E, Z.sub_diag. apply nowait_done. destruct (Z.ltb_spec (2 * eng_desc_max (es_eng s) - eng_desc_idx (es_eng s)) nents); [lia|done]. }
  assert (n1 = eng_desc_max (es_eng s) - eng_desc_idx (es_eng s)) as E1 by lia.
  assert (eng_desc_idx (es_eng s1) = 0) as I1'.
  { rewrite I1, E1. replace (_ + _) with (eng_desc_max (es_eng s)) by lia. apply Z.mod_same. lia. }
  assert (request_ok req1) as Hreq1 by (apply R3; lia).
  assert (accepting xdev (es_eng s1)) as Hacc' by (apply Hacc1; lia).
  apply nowait_next; [done|done|lia|lia|]. intros s2 n2 req2 _ _ _ _.
  assert (n2 = Z.min (nents - n1) (eng_desc_max (es_eng s))) as Hn2.
  { subst n2. unfold transfer_count. rewrite I1', M1, R1, R2, Hnents. f_equal; lia. }
  destruct (decide (n2 = nents - n1)) as [E2|Hne2].
  - rewrite E2, Z.sub_diag. apply nowait_done. destruct (Z.ltb_spec (2 * eng_desc_max (es_eng s) - eng_desc_idx (es_eng s)) nents); [lia|done].
  - cbn [nowait_loop]. destruct (Z.eqb_spec (nents - n1 - n2) 0); [lia|].
    change (2 <=? 0 + 1 + 1) with true. cbv iota. est_step.
    destruct (Z.ltb_spec (2 * eng_desc_max (es_eng s) - eng_desc_idx (es_eng s)) nents); [done|lia].
Qed.
End Lemmas.

(** C23 An asynchronous request has room for two transfers, [tfer[0]] and
    [tfer[1]].  On an engine that accepts transfers the third one, which is
    written past the array, is needed exactly when the request has more pieces
    than the rest of the descriptor ring and one whole ring hold. *)
Theorem nowait_tfer_bound {D} `{Env D} pm xdev fuel cb p sgt mapped req (s : est D) :
  let e := es_eng s in
  accepting xdev e -> request_ok req -> eng_desc_used e + 3 * eng_desc_max e <= 2 ^ 30 ->
  (2 < fuel)%nat ->
  let left := rq_sw_desc_cnt req - rq_sw_desc_idx req in
  (nowait_loop pm fuel xdev cb p sgt mapped 0 req left s).1 = None
  <-> 2 * eng_desc_max e - eng_desc_idx e < left.
Proof.
  intros e Hacc Hreq Hroom Hf left.
  pose proof (wp_run _ _ _ (wp_nowait_loop pm xdev fuel cb p sgt mapped req left s Hacc Hreq Hroom
                eq_refl Hf)) as Hr.
  cbv beta in Hr. rewrite Hr. fold e.
  destruct (Z.ltb_spec (2 * eng_desc_max e - eng_desc_idx e) left); split; (done || lia).
Qed.

(** ** A request that completes *)

(** While the submitter sleeps on [x], the engine completes it: the transfer
    ends [COMPLETED], the engine runs on as it likes, and nobody else touches
    the submitter's tables.  [xdma_xfer_submit] holds the descriptor mutex, so
    the ring is its own. *)
Definition completes {D} (wait : xfer_ptr -> Z -> M (est D) unit) : Prop :=
  forall x timeout_ms s t,
    es_heap s !! x = Some t -> x_state t = TRANSFER_STATE_SUBMITTED ->
    tst (eng_shutdown (es_eng s)) ENGINE_SHUTDOWN_REQUEST = false ->
    let s' := (wait x timeout_ms s).2 in
    (exists c, es_heap s' !! x =
       Some (t <| x_state := TRANSFER_STATE_COMPLETED |> <| x_desc_cmpl := c |>))
    /\ same_static (es_eng s) (es_eng s') /\ es_sgts s' = es_sgts s
    /\ tst (eng_shutdown (es_eng s')) ENGINE_SHUTDOWN_REQUEST = false.

(** The bytes of the pieces a request has left. *)
Definition left_len (req : xdma_request_cb) : Z :=
  pieces_len req 0 (rq_sw_desc_cnt req - rq_sw_desc_idx req).

Lemma pieces_app req i a b :
  0 <= a -> 0 <= b -> pieces req i (a + b) = pieces req i a ++ pieces req (i + a) b.
Proof. intros. unfold pieces. by rewrite seqZ_app, fmap_app by lia. Qed.

Lemma pieces_shift req req' i n :
  rq_sdesc req' = rq_sdesc req -> rq_sw_desc_idx req' = rq_sw_desc_idx req + i ->
  pieces req' 0 n = pieces req i n.
Proof.
  intros Hs Hi. unfold pieces, sdesc_at. rewrite Hs, Hi. apply list_eq. intros k.
  rewrite !list_lookup_fmap. destruct (decide (Z.of_nat k < n)).
  - rewrite !lookup_seqZ_lt by lia. cbn. do 2 f_equal. lia.
  - by rewrite !lookup_seqZ_ge by lia.
Qed.

Section Complete.
Context {D : Type} `{Env D} (pm : params) (xdev : xdma_dev).
Variable wait : xfer_ptr -> Z -> M (est D) unit.
Hypothesis Hwait : completes wait.
Implicit Types (s : est D).

(** What the submitting side relies on between rounds. *)
Record ready (e : xdma_engine) (used : Z) : Prop := {
  ready_acc : accepting xdev e;
  ready_used : eng_desc_used e = used;
  ready_mm : streaming_c2h e = false;
}.

Lemma wp_wait x tmo t (Q : unit -> est D -> Prop) s :
  es_heap s !! x = Some t -> x_state t = TRANSFER_STATE_SUBMITTED ->
  tst (eng_shutdown (es_eng s)) ENGINE_SHUTDOWN_REQUEST = false ->
  (forall s' c, es_heap s' !! x =
       Some (t <| x_state := TRANSFER_STATE_COMPLETED |> <| x_desc_cmpl := c |>) ->
     same_ring (es_eng s) (es_eng s') -> es_sgts s' = es_sgts s ->
     tst (eng_shutdown (es_eng s')) ENGINE_SHUTDOWN_REQUEST = false -> Q tt s') ->
  wp (wait x tmo) Q s.
Proof using Hwait.
  intros Hx Hs Hsh HQ. pose proof (Hwait x tmo s t Hx Hs Hsh) as ([c Hc] & H1 & H2 & H3).
  apply wp_intro. destruct (wait x tmo s) as [[] s']. apply (HQ _ c); try done.
  by apply same_static_ring.
Qed.

Lemma wp_transfer_destroy x t (Q : unit -> est D -> Prop) s :
  es_heap s !! x = Some t ->
  (forall s', es_eng s' = upd_ring (xdma_desc_done (x_desc_virt t) (x_desc_num t)) (es_eng s) ->
     es_sgts s' = (if x_last_in_request t && tst (x_flags t) XFER_FLAG_NEED_UNMAP
                   then match x_sgt t with
                        | Some p => alter (fun t => t <| sgt_nents := 0 |>) p (es_sgts s)
                        | None => es_sgts s end
                   else es_sgts s) -> es_heap s' = es_heap s -> Q tt s') ->
  wp (transfer_destroy x) Q s.
Proof.
  intros Hx HQ. unfold transfer_destroy, transfer_unmap. est_step. est_step. est_step. est_step.
  unfold xfer_at. rewrite Hx. change (default xfer_zero (Some t)) with t.
  destruct (x_last_in_request t && tst (x_flags t) XFER_FLAG_NEED_UNMAP); cbn [when];
    [|by est_step; apply HQ].
  destruct (x_sgt t) as [p|]; [|by est_step; apply HQ].
  est_step. est_step. fld. destruct (es_sgts s !! p) as [tb|] eqn:Hp.
  - assert (alter (fun t => t <| sgt_nents := 0 |>) p (es_sgts s)
            = <[p := tb <| sgt_nents := 0 |>]> (es_sgts s)) as Ha.
    { apply map_eq. intros q. destruct (decide (p = q)) as [<-|Hne].
      - by rewrite lookup_alter_eq, lookup_insert_eq, Hp.
      - by rewrite lookup_alter_ne, lookup_insert_ne. }
    est_step.
    + repeat est_step. apply HQ; [done| |done]. fld. by rewrite Ha.
    + apply HQ; [done| |done]. fld. rewrite Ha. symmetry. apply insert_id. rewrite Hp. f_equal.
      assert (sgt_nents tb = 0) as Hz.
      { unfold nz in *. destruct (Z.eqb_spec (sgt_nents tb) 0); [done|discriminate]. }
      destruct tb as [l n o]. cbn in Hz. by subst n.
  - est_step. apply HQ; [done| |done]. fld. apply map_eq. intros q.
    destruct (decide (p = q)) as [<-|Hne]; [by rewrite lookup_alter_eq, Hp|by rewrite lookup_alter_ne].
Qed.

Lemma desc_done_ring_ok v n e :
  ring_ok e -> ring_ok (upd_ring (xdma_desc_done v n) e).
Proof.
  intros [? ? ? Hl ? ?]. constructor; try done.
  change (eng_desc_max (upd_ring (xdma_desc_done v n) e)) with (eng_desc_max e). rewrite <- Hl.
  unfold eng_ring, upd_ring. fld.
  destruct (eng_desc e); cbn; [|done]. unfold xdma_desc_done. by rewrite length_imap.
Qed.

Lemma wp_when_upd (b : bool) x f (Q : unit -> est D -> Prop) s :
  (forall s', es_eng s' = es_eng s -> es_sgts s' = es_sgts s ->
     es_heap s' = (if b then alter f x (es_heap s) else es_heap s) -> Q tt s') ->
  wp (when b (upd_xfer x f)) Q s.
Proof. intros HQ. est_step; [est_step|]; subst b; by apply HQ. Qed.

Lemma wp_wake_thread (Q : unit -> est D -> Prop) s :
  (forall k, Q tt (s <| es_k := k |>)) -> wp wake_thread Q s.
Proof.
  intros HQ. unfold wake_thread. est_step. est_step. destruct (eng_cmplthp (es_eng s)).
  - est_step. apply HQ.
  - est_step. pose proof (HQ (es_k s)) as HQ'. by destruct s.
Qed.

Lemma pieces_len_left req n :
  request_ok req -> 0 <= n <= rq_sw_desc_cnt req - rq_sw_desc_idx req ->
  0 <= pieces_len req 0 n <= left_len req
  /\ (forall req', rq_sdesc req' = rq_sdesc req -> rq_sw_desc_cnt req' = rq_sw_desc_cnt req ->
        rq_sw_desc_idx req' = rq_sw_desc_idx req + n ->
        left_len req = pieces_len req 0 n + left_len req').
Proof.
  intros Hr Hn.
  assert (forall i m, 0 <= i -> 0 <= pieces_len req i m) as Hpos.
  { intros i m Hi. unfold pieces_len. apply sum_Z_nonneg, Forall_fmap. unfold pieces.
    apply Forall_fmap. apply Forall_forall. intros k Hk. apply elem_of_seqZ in Hk. cbn.
    unfold sdesc_at. destruct (rq_sdesc req !! Z.to_nat (rq_sw_desc_idx req + k)) as [sd|] eqn:E.
    - rewrite (nth_lookup_Some _ _ _ _ E).
      pose proof (Forall_lookup_1 _ _ _ _ (request_len _ Hr) E) as Hsd. cbn in Hsd. lia.
    - rewrite nth_lookup, E. done. }
  assert (left_len req = pieces_len req 0 n
            + pieces_len req n (rq_sw_desc_cnt req - rq_sw_desc_idx req - n)) as Hsplit.
  { unfold left_len, pieces_len.
    replace (rq_sw_desc_cnt req - rq_sw_desc_idx req)
      with (n + (rq_sw_desc_cnt req - rq_sw_desc_idx req - n)) at 1 by lia.
    rewrite pieces_app, fmap_app, sum_Z_app by lia. done. }
  pose proof (Hpos 0 n ltac:(lia)).
  pose proof (Hpos n (rq_sw_desc_cnt req - rq_sw_desc_idx req - n) ltac:(lia)).
  split; [lia|]. intros req' Hs Hc Hi. rewrite Hsplit. f_equal. unfold left_len, pieces_len.
  rewrite (pieces_shift req req' n _ Hs Hi), Hc, Hi. do 3 f_equal. lia.
Qed.

(** The transfer of a round, as it is queued. *)
Definition round_xfer (e : xdma_engine) (req : xdma_request_cb) (sgt : Z) (mapped last : bool) : xdma_transfer :=
  let x := new_xfer e req in
  let x := if negb mapped then x <| x_flags := XFER_FLAG_NEED_UNMAP |> else x in
  if last then x <| x_last_in_request := true |> <| x_sgt := Some sgt |> else x.

Lemma round_xfer_fields e req sgt mapped last :
  ring_ok e -> request_ok req ->
  let x := round_xfer e req sgt mapped last in
  x_desc_num x = transfer_count e req /\ x_len x = u32 (pieces_len req 0 (transfer_count e req))
  /\ x_sgt x = (if last then Some sgt else x_sgt (new_xfer e req))
  /\ x_last_in_request x && tst (x_flags x) XFER_FLAG_NEED_UNMAP = last && negb mapped.
Proof.
  intros He Hr. destruct (new_xfer_fields _ _ He Hr) as (X1 & X2 & X3 & X4 & X5 & X6).
  unfold round_xfer. destruct last, mapped; cbn [negb]; fld; rewrite ?X4, ?X5; by split_and!.
Qed.

(** Describing the pieces of a round, before it is queued. *)
Lemma wp_round_begin p sgt mapped req nents (Q : xdma_request_cb * Z -> est D -> Prop) s :
  ring_ok (es_eng s) -> request_ok req -> 0 <= nents < 2 ^ 31 -> transfer_count (es_eng s) req <= nents ->
  let n := transfer_count (es_eng s) req in
  (forall s', es_eng s' = (transfer_init (es_eng s) req).1.1 ->
     es_heap s' = <[(p, 0) := round_xfer (es_eng s) req sgt mapped (nents - n =? 0)]> (es_heap s) ->
     es_sgts s' = es_sgts s -> Q ((transfer_init (es_eng s) req).1.2, nents - n) s') ->
  wp (round_begin p sgt mapped req nents) Q s.
Proof.
  intros He Hr Hnents Hn n HQ. destruct (new_xfer_fields _ _ He Hr) as (X1 & _).
  destruct (transfer_count_range _ _ He Hr) as (Hn0 & _). fold n in X1, Hn0, Hn. unfold round_begin.
  est_step. apply wp_init_tfer. intros s1 E1 E2 E3. est_step. apply wp_when_upd. intros s2 F1 F2 F3. est_step. est_step.
  set (x1 := if negb mapped then (new_xfer (es_eng s) req) <| x_flags := XFER_FLAG_NEED_UNMAP |> else new_xfer (es_eng s) req).
  assert (es_heap s2 = <[(p, 0) := x1]> (es_heap s)) as Hh2.
  { rewrite F3, E2. subst x1. destruct (negb mapped); [by rewrite alter_insert_eq|done]. }
  assert (xfer_at s2 (p, 0) = x1) as -> by (unfold xfer_at; by rewrite Hh2, lookup_insert_eq).
  assert (x_desc_num x1 = n) as -> by (subst x1; by case_match).
  cbv zeta. rewrite s32_small by lia. est_step. apply wp_when_upd. intros s3 G1 G2 G3. est_step. apply HQ.
  - by rewrite G1, F1, E1.
  - rewrite G3, Hh2. unfold round_xfer. fold x1. destruct (nents - n =? 0); [by rewrite alter_insert_eq|done].
  - by rewrite G2, F2, E3.
Qed.

(** The engine between rounds, once a transfer's descriptors are given back. *)
Lemma ready_again e req used e' v :
  ready e used -> request_ok req -> same_ring (transfer_init e req).1.1 e' ->
  tst (eng_shutdown e') ENGINE_SHUTDOWN_REQUEST = false ->
  ready (upd_ring (xdma_desc_done v (transfer_count e req))
           (e' <| eng_desc_used ::= fun u => s32 (u - transfer_count e req) |>)) used.
Proof.
  intros [[Hring Hroom Hon Hsh] Hused Hmm] Hreq (L1 & L2 & L3 & L4 & L5 & L6 & L7 & _) Hsh'.
  destruct (transfer_init_keeps _ _ Hring Hreq) as (K1 & K2 & K3 & K4 & K5 & K6 & _).
  destruct (transfer_count_range _ _ Hring Hreq) as (Hn0 & Hn1 & Hn2). pose proof (ring_idx _ Hring). pose proof (ring_used _ Hring).
  pose proof (ring_max _ Hring). unfold XDMA_ENGINE_XFER_MAX_DESC in *.
  destruct (transfer_init_ring_ok _ _ Hring Hreq ltac:(lia)) as [U1 U2 U3 U4 U5 U6].
  set (n := transfer_count e req) in *.
  assert (s32 (eng_desc_used e' - n) = used) as Hu by (rewrite L3, K2, s32_small; lia).
  constructor; [|exact Hu|].
  - constructor; [|change (s32 (eng_desc_used e' - n) + eng_desc_max e' <= 2 ^ 30)|done|exact Hsh'].
    + apply desc_done_ring_ok. constructor; unfold eng_ring in *; fld; rewrite ?Hu, ?L1, ?L2, ?L4, ?L5, ?L6; done || lia.
    + rewrite Hu, L4, K3. lia.
  - change (streaming_c2h e' = false). by rewrite L7, K6.
Qed.

Lemma wp_submit_round p sgt mapped tmo req nents done used
    (Q : xdma_request_cb * Z * Z * Z -> est D -> Prop) s :
  ready (es_eng s) used -> request_ok req -> left_len req < 2 ^ 32 ->
  nents = rq_sw_desc_cnt req - rq_sw_desc_idx req -> 0 <= done -> done + left_len req < 2 ^ 62 ->
  (forall s' req' n, 0 < n <= nents -> ready (es_eng s') used ->
     rq_sw_desc_idx req' = rq_sw_desc_idx req + n -> rq_sw_desc_cnt req' = rq_sw_desc_cnt req ->
     rq_sdesc req' = rq_sdesc req -> (n < nents -> request_ok req') ->
     es_sgts s' = (if bool_decide (n = nents) && negb mapped
                   then alter (fun t => t <| sgt_nents := 0 |>) sgt (es_sgts s) else es_sgts s) ->
     Q (req', nents - n, done + pieces_len req 0 n, 0) s') ->
  wp (submit_round pm wait xdev p sgt mapped tmo req nents done) Q s.
Proof using Hwait.
  intros Hready Hreq Hlen Hnents Hd Hdl HQ. unfold submit_round.
  pose proof (acc_ring _ _ (ready_acc _ _ Hready)) as Hring.
  pose proof (request_max _ Hreq). pose proof (request_idx _ Hreq).
  destruct (transfer_count_range _ _ Hring Hreq) as (Hn0 & Hn1 & Hn2).
  destruct (transfer_init_keeps _ _ Hring Hreq) as (_ & _ & _ & K4 & _ & K6 & _).
  destruct (transfer_init_req _ _ Hring Hreq) as (R1 & R2 & R3 & R4).
  pose proof (pieces_len_left req (transfer_count (es_eng s) req) Hreq ltac:(lia)) as (P1 & P2).
  est_step. apply wp_round_begin; [done..|lia|lia|]. intros s3 G1 G2 G3.
  destruct (round_xfer_fields (es_eng s) req sgt mapped (nents - transfer_count (es_eng s) req =? 0) Hring Hreq) as (Y1 & Y2 & Y4 & Y5).
  set (n := transfer_count (es_eng s) req) in *. set (x2 := round_xfer _ _ _ _ _) in *. set (x := (p, 0)) in *.
  est_step. apply wp_queue_accept.
  { unfold xfer_at. rewrite G2, lookup_insert_eq. cbn. lia. }
  { apply (ready_acc _ _ Hready). } { rewrite G1, K4. apply (ready_acc _ _ Hready). }
  intros s4 I1 I2 I3 I4 I5. cbn [Z.ltb Z.compare]. apply same_static_ring in I1.
  est_step. apply wp_wake_thread. intros k. est_step.
  eapply (wp_wait x tmo (x2 <| x_state := TRANSFER_STATE_SUBMITTED |>)).
  { fld. rewrite I2, G2. unfold set_state. by rewrite alter_insert_eq, lookup_insert_eq. }
  { done. } { exact I4. }
  intros s5 c J1 J2 J3 J4. do 5 est_step. unfold xfer_at. rewrite J1. change (default xfer_zero (Some ?a)) with a.
  match goal with |- context [match x_state ?a with _ => _ end] =>
    change (x_state a) with TRANSFER_STATE_COMPLETED; cbv iota end.
  change (same_ring (es_eng s4) (es_eng s5)) in J2. rewrite G1 in I1. pose proof (same_ring_trans _ _ _ I1 J2) as Hsame.
  assert (streaming_c2h (es_eng s5) = false) as -> by (rewrite (same_ring_mm _ _ Hsame), K6; apply Hready).
  set (x3 := x2 <| x_state := TRANSFER_STATE_SUBMITTED |> <| x_state := TRANSFER_STATE_COMPLETED |>
               <| x_desc_cmpl := c |>) in *.
  change (x_len x3) with (x_len x2). change (x_desc_num x3) with (x_desc_num x2). rewrite Y1, Y2.
  do 4 est_step. eapply (wp_transfer_destroy x x3); [exact J1|]. intros s6 N1 N2 _. est_step.
  rewrite (u32_small (pieces_len req 0 n)), s64_small by lia.
  apply (HQ s6 _ n); [lia| |exact R1|exact R2|exact R3|intros; apply R4; lia|].
  - rewrite N1. change (x_desc_num x3) with (x_desc_num x2). rewrite Y1. by apply ready_again.
  - rewrite N2. fld. change (x_last_in_request x3) with (x_last_in_request x2).
    change (x_flags x3) with (x_flags x2). change (x_sgt x3) with (x_sgt x2). rewrite Y5, Y4.
    rewrite J3. fld. rewrite I5, G3.
    destruct (Z.eqb_spec (nents - n) 0), (bool_decide_reflect (n = nents)); try lia; done.
Qed.

End Complete.

(** ** The loop

    [keep] is what holds of the engine and its queue between rounds. *)

(** What a round does on top of keeping [keep]: it moves [n] of the pieces that are left. *)
Definition round_spec {D} `{Env D} (pm : params) (xdev : xdma_dev) (wait : xfer_ptr -> Z -> M (est D) unit)
    (keep : est D -> Prop) : Prop :=
  forall p sgt mapped tmo req nents done (Q : xdma_request_cb * Z * Z * Z -> est D -> Prop) s,
    keep s -> request_ok req -> left_len req < 2 ^ 32 ->
    nents = rq_sw_desc_cnt req - rq_sw_desc_idx req -> 0 <= done -> done + left_len req < 2 ^ 62 ->
    (forall s' req' n, 0 < n <= nents -> keep s' ->
       rq_sw_desc_idx req' = rq_sw_desc_idx req + n -> rq_sw_desc_cnt req' = rq_sw_desc_cnt req ->
       rq_sdesc req' = rq_sdesc req -> (n < nents -> request_ok req') ->
       es_sgts s' = (if bool_decide (n = nents) && negb mapped
                     then alter (fun t => t <| sgt_nents := 0 |>) sgt (es_sgts s) else es_sgts s) ->
       Q (req', nents - n, done + pieces_len req 0 n, 0) s') ->
    wp (submit_round pm wait xdev p sgt mapped tmo req nents done) Q s.

Class Submits {D} `{Env D} (pm : params) (xdev : xdma_dev) (wait : xfer_ptr -> Z -> M (est D) unit)
    (keep : est D -> Prop) : Prop := {
  submits_round : round_spec pm xdev wait keep;
  submits_env : forall s k, keep s -> keep (s <| es_k := k |>);
  submits_sgts : forall s m, keep s -> keep (s <| es_sgts := m |>);
  submits_free : forall s p, keep s -> keep (s <| es_heap ::= fun h => delete (p, 0) (delete (p, 1) h) |>);
}.

Ltac kept := repeat first [apply submits_env | apply submits_sgts | apply submits_free]; assumption.

(** What the last transfer does to the table. *)
Definition unmapped (mapped : bool) (sgt : Z) (m : gmap Z sg_table) : gmap Z sg_table :=
  if mapped then m else alter (fun t => t <| sgt_nents := 0 |>) sgt m.

Lemma wp_submit_loop `{Submits D pm xdev wait keep} fuel p sgt mapped tmo req nents done (Q : Z * Z -> est D -> Prop) s :
  keep s -> request_ok req -> left_len req < 2 ^ 32 ->
  nents = rq_sw_desc_cnt req - rq_sw_desc_idx req -> nents < Z.of_nat fuel ->
  0 <= done -> done + left_len req < 2 ^ 62 ->
  (forall s', keep s' -> es_sgts s' = unmapped mapped sgt (es_sgts s) -> Q (done + left_len req, 0) s') ->
  wp (submit_loop pm wait fuel xdev p sgt mapped tmo req nents done 0) Q s.
Proof.
  revert req nents done s.
  induction fuel as [|fuel IH]; intros req nents done s Hr Hreq Hlen Hn Hf Hd Hdl HQ.
  { pose proof (request_idx _ Hreq). lia. }
  cbn [submit_loop]. pose proof (request_idx _ Hreq).
  destruct (Z.eqb_spec nents 0) as [|_]; [lia|]. est_step. apply submits_round; try done.
  intros s' req' n Hn' Hr' R1 R2 R3 R4 Hs. cbn [Z.ltb Z.compare].
  destruct (pieces_len_left req n Hreq ltac:(lia)) as [P1 P2].
  specialize (P2 req' R3 R2 R1). destruct (decide (n = nents)) as [->|Hne].
  - rewrite Z.sub_diag. assert (left_len req = pieces_len req 0 nents) as E by (by rewrite Hn).
    assert (forall F, wp (submit_loop pm wait F xdev p sgt mapped tmo req' 0
             (done + pieces_len req 0 nents) 0) Q s') as Hend; [|apply Hend].
    intros F. rewrite <- E. destruct F; cbn [submit_loop Z.eqb]; est_step; (apply HQ; [done|]);
      rewrite Hs; rewrite bool_decide_true by done; by destruct mapped.
  - rewrite bool_decide_false in Hs by done.
    apply IH; try done; [apply R4; lia|lia|lia|lia|lia|lia|].
    intros s2 Hr2 Hs2. rewrite <- Z.add_assoc, <- P2. apply HQ; [done|]. by rewrite Hs2, Hs.
Qed.

(** An engine whose transfers complete. *)
#[export] Instance completes_submits {D} `{Env D} pm xdev wait used :
  completes wait -> Submits pm xdev wait (fun s => ready xdev (es_eng s) used).
Proof. intros Hw. split; [|done..]. intros p sgt mapped tmo req nents done Q s. by apply wp_submit_round. Qed.

(** ** A whole request *)

Lemma pieces_all req :
  rq_sw_desc_idx req = 0 -> rq_sw_desc_cnt req = Z.of_nat (length (rq_sdesc req)) ->
  left_len req = sum_Z (sw_len <$> rq_sdesc req).
Proof.
  intros Hi Hc. unfold left_len, pieces_len, pieces. rewrite Hi, Hc, Z.sub_0_r. do 2 f_equal.
  apply list_eq. intros k. rewrite list_lookup_fmap.
  destruct (decide (k < length (rq_sdesc req))%nat) as [Hk|Hk].
  - rewrite lookup_seqZ_lt by lia. cbn. unfold sdesc_at.
    rewrite !Z.add_0_l, Nat2Z.id. destruct (lookup_lt_is_Some_2 _ _ Hk) as [d Hd].
    by rewrite (nth_lookup_Some _ _ _ _ Hd).
  - rewrite lookup_seqZ_ge by lia. by rewrite lookup_ge_None_2 by lia.
Qed.

Lemma length_ranges {A} (start len : A -> Z) (l : list A) :
  Forall (fun x => 0 <= len x) l ->
  Z.of_nat (length (mjoin ((fun x => seqZ (start x) (len x)) <$> l))) = sum_Z (len <$> l).
Proof.
  induction 1 as [|x l Hx Hl IH]; [done|].
  rewrite !fmap_cons, mjoin_cons, sum_Z_cons, length_app, length_seqZ. lia.
Qed.

Section Cover.
Context (blen id ep : Z) (sgt : sg_table) (req : xdma_request_cb)
  (Hcov : request_covers blen id ep sgt req) (Hblen : blen < 2 ^ 31) (Hep : 0 <= ep < 2 ^ 64)
  (Hsg : Forall sg_ok (mapped_sgl sgt)).

Lemma covers_total : left_len req = sum_Z (sg_dma_len <$> mapped_sgl sgt).
Proof using Hcov Hsg.
  destruct Hcov as [Hb Hl Hc _ _ (_ & _ & Hi)]. rewrite pieces_all by done.
  apply (f_equal (fun l => Z.of_nat (length l))) in Hb. unfold sw_bytes, sg_bytes in Hb.
  rewrite !length_ranges in Hb; [done| |]; (eapply Forall_impl; [eassumption|]); cbn; [intros x (?&?)|]; lia.
Qed.

Lemma covers_ok : rq_sw_desc_cnt req <> 0 -> request_ok req.
Proof using All.
  destruct Hcov as [Hb Hl Hc Hm _ (He & _ & Hi)]. intros Hz. constructor; try done; [lia|lia|by rewrite He|].
  apply Forall_forall. intros d Hd. pose proof (proj1 (Forall_forall _ _) Hl d Hd) as Hdl. cbn in Hdl.
  assert (sw_addr d ∈ mjoin (sg_bytes <$> mapped_sgl sgt)) as Hin.
  { rewrite <- Hb. apply list_elem_of_join. exists (sw_bytes d). split.
    - unfold sw_bytes. apply elem_of_seqZ. lia.
    - by apply list_elem_of_fmap_2. }
  apply list_elem_of_join in Hin as (l & Hin & Hlm). apply list_elem_of_fmap in Hlm as (sg & -> & Hsgin).
  pose proof (proj1 (Forall_forall _ _) Hsg sg Hsgin) as (? & ? & ?).
  unfold sg_bytes in Hin. apply elem_of_seqZ in Hin. lia.
Qed.
End Cover.

(** The table after the mapping step. *)
Definition map_result {D} `{Env D} (mapped : bool) (sgt : Z) (tb : sg_table) (s : est D) : Z :=
  if mapped then sgt_nents tb
  else (env_call (K_dma_map_sg sgt (sgt_orig_nents tb)) (k_env (es_k s))).1.

Section Submit.
Context {D : Type} `{Env D} (pm : params) (size_cb : Z) (vr : Z * Z) (xdev : xdma_dev)
  (wait : xfer_ptr -> Z -> M (est D) unit) (keep : est D -> Prop) (Hkeep : Submits pm xdev wait keep).

Lemma wp_map_sgl mapped sgt tb (Q : Z -> est D -> Prop) (s : est D) :
  es_sgts s !! sgt = Some tb ->
  (forall k, let n := map_result mapped sgt tb s in
     Q (if n =? 0 then - EIO else 0)
       (s <| es_k := k |> <| es_sgts := if n =? 0 then es_sgts s
                                        else <[sgt := tb <| sgt_nents := n |>]> (es_sgts s) |>)) ->
  wp (map_sgl mapped sgt) Q s.
Proof.
  intros Hs HQ. unfold map_sgl, the_sgt, set_nents, map_result in *. est_step. est_step. rewrite Hs.
  change (default (Build_sg_table [] 0 0) (Some tb)) with tb.
  destruct mapped; cbn [negb].
  - est_step. specialize (HQ (es_k s)). destruct (Z.eqb_spec (sgt_nents tb) 0).
    + by destruct s.
    + rewrite insert_id in HQ; [by destruct s|]. rewrite Hs. by destruct tb.
  - est_step. apply wp_call_env. intros v d E. change (k_env (part s)) with (k_env (es_k s)) in E.
    rewrite E in HQ. cbn [fst] in HQ.
    match goal with |- wp _ _ (with_part ?k s) => specialize (HQ k) end.
    destruct (v =? 0); [est_step; by destruct s|]. est_step. est_step. est_step.
    rewrite <- (alter_lookup (fun t => t <| sgt_nents := v |>) sgt _ tb Hs) in HQ. exact HQ.
Qed.

Lemma wp_unmap_sgl (mapped : bool) sgt tb (Q : unit -> est D -> Prop) (s : est D) :
  es_sgts s !! sgt = Some tb ->
  (forall k, Q tt (s <| es_k := k |> <| es_sgts := if mapped then es_sgts s
                       else <[sgt := tb <| sgt_nents := 0 |>]> (es_sgts s) |>)) ->
  wp (unmap_sgl mapped sgt) Q s.
Proof.
  intros Hs HQ. unfold unmap_sgl, the_sgt, set_nents. est_step. est_step. rewrite Hs.
  change (default (Build_sg_table [] 0 0) (Some tb)) with tb.
  destruct mapped; cbn [negb andb when] in *.
  - est_step. specialize (HQ (es_k s)). by destruct s.
  - unfold nz. destruct (Z.eqb_spec (sgt_nents tb) 0) as [E|_]; cbn [negb when].
    + est_step. specialize (HQ (es_k s)). rewrite insert_id in HQ; [by destruct s|].
      rewrite Hs, <- E. by destruct tb.
    + est_step. est_step. est_step.
      rewrite <- (alter_lookup (fun t => t <| sgt_nents := 0 |>) sgt _ tb Hs) in HQ. apply HQ.
Qed.

Lemma wp_free_request p (Q : unit -> est D -> Prop) (s : est D) :
  (forall k, Q tt (s <| es_k := k |> <| es_heap ::= fun h => delete (p, 0) (delete (p, 1) h) |>)) ->
  wp (free_request vr p) Q s.
Proof.
  intros HQ. unfold free_request, xdma_request_free. repeat est_step; by apply HQ.
Qed.

Lemma wp_submit (xwrite : bool) ep sgt (mapped : bool) tmo tb (Q : Z -> est D -> Prop) (s : est D) :
  let tb' := tb <| sgt_nents := map_result mapped sgt tb s |> in
  let total := sum_Z (sg_dma_len <$> mapped_sgl tb') in
  keep s ->
  submit_checks xdev (if xwrite then DMA_TO_DEVICE else DMA_FROM_DEVICE) (es_eng s) = None ->
  es_sgts s !! sgt = Some tb -> sgt_ok size_cb (desc_blen_max pm) tb' ->
  desc_blen_max pm < 2 ^ 31 -> 0 <= ep < 2 ^ 64 -> total < 2 ^ 32 ->
  (sgt_nents tb' = 0 -> forall k, Q (- EIO) (s <| es_k := k |>)) ->
  (forall s' r, keep s' -> es_sgts s' !! sgt = Some (if mapped then tb else tb <| sgt_nents := 0 |>) ->
     sgt_nents tb' <> 0 -> r = total \/
       (r = - ENOMEM /\ exists n (s0 : est D), (xdma_request_alloc size_cb n s0).1.1 = 0) -> Q r s') ->
  wp (xdma_xfer_submit pm size_cb vr wait xdev xwrite ep sgt mapped tmo) Q s.
Proof using Hkeep.
  intros tb' total Hready Hchk Hs Hok Hblen Hep Htot HQ0 HQ.
  unfold xdma_xfer_submit. est_step. est_step. rewrite Hchk. est_step.
  apply (wp_map_sgl _ _ tb); [done|]. intros k n. fold n in tb'. destruct (Z.eqb_spec n 0) as [Hn|Hn].
  { change (- EIO <? 0) with true. cbv iota. est_step. specialize (HQ0 Hn k). by destruct s. }
  change (0 <? 0) with false. cbv iota. est_step. unfold the_sgt. est_step. fld.
  rewrite lookup_insert_eq. change (default (Build_sg_table [] 0 0) (Some _)) with tb'.
  assert (forall tx, tx = tb' \/ mapped = false /\ tx = tb' <| sgt_nents := 0 |> ->
          (if mapped then tx else tx <| sgt_nents := 0 |>)
          = (if mapped then tb else tb <| sgt_nents := 0 |>)) as Htb.
  { intros tx [->|[Hm ->]]; subst tb' n; unfold map_result; [|rewrite Hm]; by destruct mapped, tb. }
  assert (Forall sg_ok (mapped_sgl tb')) as Hsg
    by (apply Forall_take, (sgt_entries _ _ _ Hok)).
  est_step. apply (wp_init_request _ _ _ _ Hok).
  - intros [m Hm] k'. est_step. apply (wp_unmap_sgl _ _ tb'); [fld; by rewrite lookup_insert_eq|].
    intros k2. est_step. apply HQ; [kept| |done|eauto].
    fld. rewrite <- (Htb tb') by auto. destruct mapped; by rewrite lookup_insert_eq.
  - intros p req k' Hp Hcov. pose proof (covers_total _ _ _ _ _ Hcov Hsg) as Hlt. fold total in Hlt.
    pose proof (cov_start _ _ _ _ _ Hcov) as (_ & _ & Hi0). pose proof (cov_cnt _ _ _ _ _ Hcov) as Hcnt.
    assert (forall s' tx, keep s' -> es_sgts s' !! sgt = Some tx -> (tx = tb' \/ mapped = false /\ tx = tb' <| sgt_nents := 0 |>) ->
       wp (unmap_sgl mapped sgt ;; free_request vr p ;; mret (if nz total then total else 0)) Q s') as Hend.
    { intros s' tx Hu Hx Hor. est_step. apply (wp_unmap_sgl _ _ tx); [done|]. intros k2. est_step.
      apply wp_free_request. intros k3. est_step. apply HQ.
      - kept.
      - fld. rewrite <- (Htb tx) by done. destruct mapped; [done|by rewrite lookup_insert_eq].
      - done.
      - left. unfold nz. by destruct (Z.eqb_spec total 0). }
    est_step. destruct (decide (rq_sw_desc_cnt req = 0)) as [Hz|Hz].
    + rewrite Hz. cbn [submit_loop Z.eqb]. est_step.
      assert (total = 0) as Ht0.
      { rewrite <- Hlt. unfold left_len. by rewrite Hz, Hi0. }
      rewrite Ht0 in Hend. apply (Hend _ tb'); [kept|fld; by rewrite lookup_insert_eq|auto].
    + apply wp_submit_loop; try done; try lia; [kept|by eapply covers_ok|].
      intros s' Hu Hx. cbv beta iota. rewrite Z.add_0_l, Hlt. unfold unmapped in Hx.
      apply (Hend s' (if mapped then tb' else tb' <| sgt_nents := 0 |>)); [done| |destruct mapped; auto].
      rewrite Hx. fld. destruct mapped; [by rewrite lookup_insert_eq|].
      by rewrite lookup_alter_eq, lookup_insert_eq.
Qed.
End Submit.

(** C2 Submitting a request to an engine whose transfers complete while the caller sleeps.
    The engine is online, not shut down, has a consistent ring with room, is not a streaming
    C2H engine, and has the direction asked for; the table, once mapped, is one the driver
    can count ([sgt_ok]: no entry within [desc_blen_max] bytes of 2^32, a request of less
    than 2^32 bytes of memory) and describes less than 2^32 bytes; [desc_blen_max] is below
    2^31.  Then, however many pieces the table is cut into and however many rounds over the
    descriptor ring they take, [xdma_xfer_submit] terminates and returns the number of bytes
    of the mapped table, [-EIO] exactly when nothing was mapped, or [-ENOMEM] when no
    request could be allocated.  It gives back every descriptor it took and, when it mapped
    the table itself, leaves it unmapped. *)
Theorem xfer_submit_total {D} `{Env D} pm size_cb vr xdev wait (write : bool) ep sgt (mapped : bool)
    tmo tb (s : est D) :
  let e := es_eng s in
  let tb' := tb <| sgt_nents := map_result mapped sgt tb s |> in
  let total := sum_Z (sg_dma_len <$> mapped_sgl tb') in
  completes wait -> ready xdev e (eng_desc_used e) ->
  submit_checks xdev (if write then DMA_TO_DEVICE else DMA_FROM_DEVICE) e = None ->
  es_sgts s !! sgt = Some tb -> sgt_ok size_cb (desc_blen_max pm) tb' ->
  desc_blen_max pm < 2 ^ 31 -> 0 <= ep < 2 ^ 64 -> total < 2 ^ 32 ->
  let '(r, s') := xdma_xfer_submit pm size_cb vr wait xdev write ep sgt mapped tmo s in
  eng_desc_used (es_eng s') = eng_desc_used e
  /\ (sgt_nents tb' = 0 /\ r = - EIO
      \/ sgt_nents tb' <> 0 /\ es_sgts s' !! sgt = Some (if mapped then tb else tb <| sgt_nents := 0 |>)
         /\ (r = total \/ r = - ENOMEM /\ exists n (s0 : est D), (xdma_request_alloc size_cb n s0).1.1 = 0)).
Proof.
  intros e tb' total Hw Hr Hc Hs Hok Hb He Ht. apply wp_elim.
  apply (wp_submit _ _ _ _ _ _ (completes_submits pm xdev wait (eng_desc_used e) Hw) _ _ _ _ _ tb); try done.
  - intros Hn k. split; [done|]. by left.
  - intros s' r [_ Hu _] Hx Hn Hor. split; [done|]. by right.
Qed.

(** An engine that completes a transfer as soon as its submitter sleeps. *)
Definition instant_wait {D} (x : xfer_ptr) (timeout_ms : Z) : M (est D) unit :=
  upd_xfer x (fun t => t <| x_state := TRANSFER_STATE_COMPLETED |>) ;;
  upd_engine (fun e => e <| eng_transfer_list ::= filter (fun y => y <> x) |> <| eng_running := false |>).

Lemma instant_completes {D} : completes (@instant_wait D).
Proof.
  intros x tmo s t Hx Hs Hsh s'. split; [exists (x_desc_cmpl t)|by split_and!].
  change (es_heap s') with (alter (fun t => t <| x_state := TRANSFER_STATE_COMPLETED |>) x (es_heap s)).
  rewrite lookup_alter_eq, Hx. by destruct t.
Defined.

Definition ex_pm : params :=
  {| poll_mode := false; interrupt_mode := 0; enable_st_c2h_credit := false;
     desc_blen_max := 0x1000 |}.

(** Two entries, three pieces, on a ring of two descriptors: two rounds. *)
Definition ex_submit_start : est sim :=
  {| es_k := sim_start [] (fun c => match c with K_dma_map_sg _ n => n | _ => 0x8000 end);
     es_eng := engine_zero <| eng_magic := MAGIC_ENGINE |> <| eng_dir := DMA_TO_DEVICE |>
                 <| eng_desc := Some (replicate 2 desc_zero) |> <| eng_desc_max := 2 |>
                 <| eng_desc_bus := 0x10000 |> <| eng_cyclic_result_bus := 0x20000 |>;
     es_heap := ∅; es_sgts := {[ 1 := ex_sgt <| sgt_nents := 0 |> ]} |}.

Lemma ex_ready : ready xdev_zero (es_eng ex_submit_start) 0.
Proof. constructor; [constructor; [constructor|..]|..]; decide_now. Defined.

Lemma xfer_submit_total_witness :
  ltac:(statement_of (xfer_submit_total ex_pm 256 (0, 0) xdev_zero instant_wait true 0x40 1 false 0
    (ex_sgt <| sgt_nents := 0 |>) ex_submit_start instant_completes ex_ready eq_refl eq_refl ex_sgt_ok
    ltac:(decide_now) ltac:(decide_now) ltac:(decide_now))).
Proof.
  instance_of (xfer_submit_total ex_pm 256 (0, 0) xdev_zero instant_wait true 0x40 1 false 0
    (ex_sgt <| sgt_nents := 0 |>) ex_submit_start instant_completes ex_ready eq_refl eq_refl ex_sgt_ok
    ltac:(decide_now) ltac:(decide_now) ltac:(decide_now)).
Defined.

(** The example submits in two rounds and returns its [0x2810] bytes. *)
Example ex_submit_run :
  let '(r, s) := xdma_xfer_submit ex_pm 256 (0, 0) instant_wait xdev_zero true 0x40 1 false 0
                   ex_submit_start in
  r = 0x2810 /\ eng_desc_used (es_eng s) = 0 /\ eng_transfer_list (es_eng s) = [].
Proof. by vm_compute. Qed.

(** *** Witness: five pieces on a ring of two descriptors *)

Definition ex_nowait_req : xdma_request_cb :=
  (request_zero 256 (256 + 5 * 16)) <| rq_sdesc := replicate 5 {| sw_addr := 0x1000; sw_len := 16 |} |>
    <| rq_sw_desc_cnt := 5 |>.

Lemma ex_nowait_req_ok : request_ok ex_nowait_req.
Proof. constructor; decide_now. Defined.

Lemma nowait_tfer_bound_witness :
  ltac:(statement_of (nowait_tfer_bound ex_pm xdev_zero 6 7 0x8000 1 false ex_nowait_req ex_submit_start
    (ready_acc _ _ _ ex_ready) ex_nowait_req_ok ltac:(decide_now) ltac:(decide_now))).
Proof.
  instance_of (nowait_tfer_bound ex_pm xdev_zero 6 7 0x8000 1 false ex_nowait_req ex_submit_start
    (ready_acc _ _ _ ex_ready) ex_nowait_req_ok ltac:(decide_now) ltac:(decide_now)).
Defined.

(** ** A device that is gone

    Nothing completes while the caller sleeps, and the register that names the
    block does not read as it should - on a device that was removed every register
    reads as ones. *)
Definition silent {D} (wait : xfer_ptr -> Z -> M (est D) unit) : Prop :=
  forall x timeout_ms s, exists k, (wait x timeout_ms s).2 = s <| es_k := k |>.

Definition unreadable {D} `{Env D} (e : xdma_engine) : Prop :=
  forall d : D, Z.land (u32 (env_read (eng_regs e + reg_identifier) d).1) BLOCK_ID_MASK <> BLOCK_ID_HEAD.

Section Gone.
Context {D : Type} `{Env D} (pm : params) (xdev : xdma_dev) (wait : xfer_ptr -> Z -> M (est D) unit)
  (Hwait : silent wait).
Implicit Types (s : est D).

Lemma wp_timed_out_gone x (Q : Z -> est D -> Prop) s :
  unreadable (D := D) (es_eng s) -> (forall k, Q (- ERESTARTSYS) (s <| es_k := k |>)) -> wp (submit_timed_out pm x) Q s.
Proof.
  intros Hu HQ. unfold submit_timed_out, engine_status_read, engine_reg_dump, read_reg, reg_of.
  do 7 est_step. apply wp_read. intros v d _ ->.
  destruct (Z.eqb_spec (Z.land (u32 (env_read (eng_regs (es_eng s) + reg_identifier) (k_env (part s))).1) BLOCK_ID_MASK) BLOCK_ID_HEAD) as [E|_].
  { by apply Hu in E. }
  cbn [negb]. est_step. change (- EINVAL <? 0) with true. cbv iota. do 2 est_step. change (- EINVAL <? 0) with true. cbv iota. do 2 est_step. apply HQ.
Qed.

Lemma wp_destroy_frame x (Q : unit -> est D -> Prop) s :
  (forall s', eng_transfer_list (es_eng s') = eng_transfer_list (es_eng s) -> Q tt s') -> wp (transfer_destroy x) Q s.
Proof.
  intros HQ. unfold transfer_destroy, transfer_unmap. do 4 est_step. est_step; [|by apply HQ].
  destruct (x_sgt (xfer_at s x)); repeat est_step; [case_match|]; repeat est_step; by apply HQ.
Qed.

Lemma wp_unmap_frame mapped sgt (Q : unit -> est D -> Prop) s :
  (forall s', eng_transfer_list (es_eng s') = eng_transfer_list (es_eng s) -> Q tt s') -> wp (unmap_sgl mapped sgt) Q s.
Proof. intros HQ. unfold unmap_sgl, the_sgt, set_nents. repeat est_step; by apply HQ. Qed.

(** The first round: the transfer is queued, times out, and stays queued. *)
Lemma wp_round_gone p sgt mapped tmo req nents done (Q : xdma_request_cb * Z * Z * Z -> est D -> Prop) s :
  accepting xdev (es_eng s) -> unreadable (D := D) (es_eng s) -> request_ok req ->
  nents = rq_sw_desc_cnt req - rq_sw_desc_idx req ->
  (forall s' req' nents', eng_transfer_list (es_eng s') = eng_transfer_list (es_eng s) ++ [(p, 0)] ->
     Q (req', nents', done, - ERESTARTSYS) s') ->
  wp (submit_round pm wait xdev p sgt mapped tmo req nents done) Q s.
Proof using Hwait.
  intros [Hring _ Hon Hsh] Hu Hreq Hnents HQ. unfold submit_round.
  pose proof (request_max _ Hreq). pose proof (request_idx _ Hreq).
  destruct (transfer_count_range _ _ Hring Hreq) as (Hn0 & Hn1 & Hn2).
  destruct (transfer_init_keeps _ _ Hring Hreq) as (_ & _ & _ & K4 & K5 & _).
  assert (eng_regs (transfer_init (es_eng s) req).1.1 = eng_regs (es_eng s)) as K9 by (by rewrite transfer_init_eq).
  est_step. apply wp_round_begin; [done..|lia|lia|]. intros s3 G1 G2 G3.
  destruct (round_xfer_fields (es_eng s) req sgt mapped (nents - transfer_count (es_eng s) req =? 0) Hring Hreq) as (Y1 & _).
  est_step. apply wp_queue_accept; [unfold xfer_at; rewrite G2, lookup_insert_eq; cbn; lia|done|by rewrite G1, K4|].
  intros s4 I1 I2 I3 _ _. cbn [Z.ltb Z.compare].
  est_step. apply wp_wake_thread. intros k. est_step. unfold wp at 1.
  destruct (Hwait (p, 0) tmo (s4 <| es_k := k |>)) as [k2 E2].
  destruct (wait (p, 0) tmo (s4 <| es_k := k |>)) as [[] s5]. cbn in E2. subst s5. cbn [snd].
  do 5 est_step. unfold xfer_at. fld. rewrite I2, G2. unfold set_state. rewrite alter_insert_eq, lookup_insert_eq.
  change (default xfer_zero (Some ?a)) with a.
  match goal with |- context [match x_state ?a with _ => _ end] => change (x_state a) with TRANSFER_STATE_SUBMITTED; cbv iota end.
  est_step. apply wp_timed_out_gone.
  { fld. unfold same_static in I1. unfold unreadable. rewrite I1. fld. rewrite G1, K9. exact Hu. }
  intros k3. do 4 est_step. apply wp_destroy_frame. intros s6 E6. est_step. apply HQ. rewrite E6. fld. by rewrite I3, G1, K5.
Qed.
End Gone.

(** C21 When nothing completes and the engine's registers cannot be read - the device
    has been removed, every register reads as ones - the first transfer of a request
    times out, and [xdma_xfer_submit] neither aborts it nor takes it off the engine's
    queue, but it frees the request that holds it.  For an engine that accepts the
    transfer and a table the driver can count that describes at least one byte, the
    call ends with [-ENOMEM], when no request could be allocated, or with
    [-ERESTARTSYS] and a transfer at the end of the engine's queue that no longer
    exists. *)
Theorem submit_timeout_dangling {D} `{Env D} pm size_cb vr xdev wait (write : bool) ep sgt (mapped : bool) tmo tb (s : est D) :
  let e := es_eng s in
  let tb' := tb <| sgt_nents := map_result mapped sgt tb s |> in
  silent wait -> unreadable (D := D) e -> accepting xdev e ->
  submit_checks xdev (if write then DMA_TO_DEVICE else DMA_FROM_DEVICE) e = None ->
  es_sgts s !! sgt = Some tb -> sgt_ok size_cb (desc_blen_max pm) tb' ->
  desc_blen_max pm < 2 ^ 31 -> 0 <= ep < 2 ^ 64 -> 0 < sum_Z (sg_dma_len <$> mapped_sgl tb') ->
  let '(r, s') := xdma_xfer_submit pm size_cb vr wait xdev write ep sgt mapped tmo s in
  r = - ENOMEM /\ (exists n (s0 : est D), (xdma_request_alloc size_cb n s0).1.1 = 0)
  \/ r = - ERESTARTSYS /\ exists p, p <> 0
     /\ eng_transfer_list (es_eng s') = eng_transfer_list e ++ [(p, 0)] /\ es_heap s' !! (p, 0) = None.
Proof.
  intros e tb' Hw Hu Ha Hc Hs Hok Hb Hep Htot. apply wp_elim. unfold xdma_xfer_submit. do 2 est_step. fold e. rewrite Hc. est_step.
  apply (wp_map_sgl _ _ tb); [done|]. intros k n. fold n in tb'. destruct (Z.eqb_spec n 0) as [Hn|Hn].
  { subst tb'. rewrite Hn in Htot. by cbv in Htot. }
  change (0 <? 0) with false. cbv iota. est_step. unfold the_sgt. est_step. fld. rewrite lookup_insert_eq.
  change (default (Build_sg_table [] 0 0) (Some _)) with tb'.
  assert (Forall sg_ok (mapped_sgl tb')) as Hsg by (apply Forall_take, (sgt_entries _ _ _ Hok)).
  est_step. apply (wp_init_request _ _ _ _ Hok).
  - intros [m Hm] k'. est_step. apply wp_unmap_frame. intros s1 _. est_step. left. eauto.
  - intros p req k' Hp Hcov. pose proof (covers_total _ _ _ _ _ Hcov Hsg) as Hlt.
    pose proof (cov_start _ _ _ _ _ Hcov) as (_ & _ & Hi0). pose proof (cov_cnt _ _ _ _ _ Hcov) as Hcnt.
    assert (rq_sw_desc_cnt req <> 0) as Hz.
    { intros Hz. rewrite <- Hlt in Htot. unfold left_len in Htot. by rewrite Hz, Hi0 in Htot. }
    est_step. cbn [submit_loop]. destruct (Z.eqb_spec (rq_sw_desc_cnt req) 0) as [|_]; [done|]. est_step.
    apply wp_round_gone; [done|exact Ha|exact Hu|by eapply covers_ok|lia|]. intros s1 req' nents' E1.
    change (- ERESTARTSYS <? 0) with true. cbv iota. do 2 est_step. apply wp_unmap_frame. intros s2 E2. est_step.
    apply wp_free_request. intros k3. est_step. right. split; [done|]. exists p. split; [done|]. split; [by fld; rewrite E2, E1|].
    fld. apply lookup_delete_eq.
Qed.

(** *** Witness: every register reads as ones *)
Definition ones : Env unit :=
  {| env_read := fun _ d => (0xFFFFFFFF, d); env_write := fun _ _ d => d;
     env_call := fun c d => (match c with K_dma_map_sg _ n => n | _ => 0x8000 end, d) |}.
#[local] Existing Instance ones.

Definition ex_gone_start : est unit :=
  {| es_k := mkK tt []; es_eng := es_eng ex_submit_start; es_heap := ∅; es_sgts := es_sgts ex_submit_start |}.
Definition no_wait (x : xfer_ptr) (timeout_ms : Z) : M (est unit) unit := mret tt.

Lemma ex_silent : silent no_wait.
Proof. intros x tmo [k e h g]. by exists k. Defined.
Lemma ex_unreadable : unreadable (D := unit) (es_eng ex_gone_start).
Proof. intros d. vm_compute. discriminate. Defined.

Lemma submit_timeout_dangling_witness :
  ltac:(statement_of (submit_timeout_dangling ex_pm 256 (0, 0) xdev_zero no_wait true 0x40 1 false 1000
    (ex_sgt <| sgt_nents := 0 |>) ex_gone_start ex_silent ex_unreadable (ready_acc _ _ _ ex_ready) eq_refl eq_refl ex_sgt_ok
    ltac:(decide_now) ltac:(decide_now) ltac:(decide_now))).
Proof.
  instance_of (submit_timeout_dangling ex_pm 256 (0, 0) xdev_zero no_wait true 0x40 1 false 1000
    (ex_sgt <| sgt_nents := 0 |>) ex_gone_start ex_silent ex_unreadable (ready_acc _ _ _ ex_ready) eq_refl eq_refl ex_sgt_ok
    ltac:(decide_now) ltac:(decide_now) ltac:(decide_now)).
Defined.

(** The engine of the example is left running, with its transfer freed. *)
Example ex_gone_run :
  let '(r, s) := xdma_xfer_submit ex_pm 256 (0, 0) no_wait xdev_zero true 0x40 1 false 1000 ex_gone_start in
  r = - ERESTARTSYS /\ eng_transfer_list (es_eng s) = [(0x8000, 0)] /\ eng_running (es_eng s) = true
  /\ es_heap s !! (0x8000, 0) = None /\ Ev_call (K_kfree 0x8000) 0x8000 ∈ k_trace (es_k s).
Proof. by vm_compute; split_and!; [..|repeat first [by left|right]]. Qed.
