(* ===== verification/Served.v ===== *)
(** Submitting and servicing put together: [xdma_xfer_submit] on an engine that is
    serviced by [engine_service] itself while the caller sleeps. *)
From S2P Require Import Prelude Kernel Types Desc Request Transfer Engine EngineSpec EngineQueue Submit SubmitSpec.
Local Open Scope Z_scope.

(** ** Sleeping until the engine is serviced

    The engine has written back the count of the transfer's descriptors, and its
    interrupt handler or polling thread services it. *)
Definition served_wait {D} `{Env D} (pm : params) (x : xfer_ptr) (timeout_ms : Z) : M (est D) unit :=
  t ← the_xfer x; engine_service pm (x_desc_num t) ;; mret tt.

(** ** A shutdown that is not requested stays so *)
Section Open.
Context {D : Type} `{Env D} (pm : params).
Implicit Types (s : est D).

Definition online (e : xdma_engine) : Prop := tst (eng_shutdown e) ENGINE_SHUTDOWN_REQUEST = false.
Definition stays {A} (m : M (est D) A) : Prop := forall s, online (es_eng s) -> wp m (fun _ s' => online (es_eng s')) s.

Lemma stays_ret {A} (x : A) : stays (mret x).
Proof. intros s Hs. by apply wp_ret. Qed.
Lemma stays_bind {A B} (m : M (est D) A) (k : A -> M (est D) B) : stays m -> (forall x, stays (k x)) -> stays (m ≫= k).
Proof. intros Hm Hk s Hs. apply wp_bind. eapply wp_mono; [by apply Hm|]. intros x s' Hs'. by apply Hk. Qed.
Lemma stays_engine : stays the_engine.
Proof. intros s Hs. by apply wp_the_engine. Qed.
Lemma stays_xfer p : stays (the_xfer p).
Proof. intros s Hs. by apply wp_the_xfer. Qed.
Lemma stays_upd_xfer p f : stays (upd_xfer p f).
Proof. intros s Hs. by apply wp_upd_xfer. Qed.
Lemma stays_upd_engine f : (forall e, online e -> online (f e)) -> stays (upd_engine f).
Proof. intros Hf s Hs. apply wp_upd_engine. by apply Hf. Qed.
Lemma stays_read a : stays (read_register a).
Proof. intros s Hs. by apply wp_est_read. Qed.
Lemma stays_write v a : stays (write_register v a).
Proof. intros s Hs. by apply wp_est_write. Qed.
Lemma stays_call c : stays (call c).
Proof. intros s Hs. by apply wp_est_call. Qed.
Lemma stays_call_ c : stays (call_ c).
Proof. intros s Hs. by apply wp_est_call_. Qed.
Lemma stays_when (b : bool) m : stays m -> stays (when b m).
Proof. intros. destruct b; [done|apply stays_ret]. Qed.
Lemma stays_if {A} (b : bool) (m1 m2 : M (est D) A) : stays m1 -> stays m2 -> stays (if b then m1 else m2).
Proof. by destruct b. Qed.

Lemma online_idle e : online e -> online (e <| eng_shutdown ::= fun v => Z.lor v ENGINE_SHUTDOWN_IDLE |>).
Proof.
  unfold online, tst, nz. fld. rewrite Z.land_lor_distr_l.
  by replace (Z.land ENGINE_SHUTDOWN_IDLE ENGINE_SHUTDOWN_REQUEST) with 0 by reflexivity; rewrite Z.lor_0_r.
Qed.

Create HintDb stays.
Ltac stay := repeat first
  [ apply stays_ret | apply stays_engine | apply stays_xfer | apply stays_upd_xfer | apply stays_read | apply stays_write
  | apply stays_call | apply stays_call_ | apply stays_when | apply stays_if
  | apply stays_upd_engine; first [done|apply online_idle|by intros ? ?] | solve [auto 1 with stays] | apply stays_bind; intros
  | match goal with |- stays (match ?x with _ => _ end) => destruct x end ].

Lemma stays_status clear : stays (engine_status_read clear false).
Proof. unfold engine_status_read, read_reg, reg_of. stay. Qed.
Lemma stays_stop : stays (xdma_engine_stop pm).
Proof. unfold xdma_engine_stop, write_reg, reg_of, sg_reg_of. stay. Qed.
#[local] Hint Resolve stays_status stays_stop : stays.
Lemma stays_shutdown : stays (engine_service_shutdown pm).
Proof. unfold engine_service_shutdown. stay. Qed.
Lemma stays_start : stays (engine_start pm).
Proof.
  unfold engine_start, write_first_desc, engine_start_mode_config, write_reg, read_reg, reg_of, sg_reg_of. stay.
Qed.
Lemma stays_completion p : stays (engine_transfer_completion p).
Proof. unfold engine_transfer_completion. stay. Qed.
#[local] Hint Resolve stays_shutdown stays_start stays_completion : stays.
Lemma stays_del p : stays (transfer_del p).
Proof. unfold transfer_del, list_del_head. stay. Qed.
#[local] Hint Resolve stays_del : stays.
Lemma stays_final t c : stays (engine_service_final_transfer pm t c).
Proof. unfold engine_service_final_transfer, final_eop, engine_err_handle, read_reg, reg_of. stay. Qed.
Lemma stays_list fuel t c : stays (service_list_loop fuel t c).
Proof. revert t c. induction fuel as [|fuel IH]; intros [p|] c; cbn [service_list_loop]; unfold list_del_head; stay. Qed.
Lemma stays_resume : stays (engine_service_resume pm).
Proof. unfold engine_service_resume. stay. Qed.
#[local] Hint Resolve stays_final stays_list stays_resume : stays.
Lemma stays_service wb : stays (engine_service pm wb).
Proof.
  unfold engine_service, service_transfers, engine_service_transfer_list, engine_service_perf, upd_perf, read_reg, reg_of. stay.
Qed.
End Open.

(** ** An engine with nothing to do *)
Section Idle.
Context {D : Type} `{Env D} (pm : params) (xdev : xdma_dev).
Implicit Types (s : est D).

Record idle s : Prop := {
  id_list : eng_transfer_list (es_eng s) = [];
  id_running : eng_running (es_eng s) = false;
  id_eop : eng_eop_flush (es_eng s) = false;
  id_heap : forall p x, es_heap s !! p = Some x -> x_state x <> TRANSFER_STATE_SUBMITTED;
}.

(** The status register never shows an error. *)
Definition no_errors (e : xdma_engine) : Prop :=
  forall d : D, has_error (e <| eng_status := u32 (env_read (eng_regs e + reg_status) d).1 |>) = false.

Lemma no_errors_same e e' : same_static e e' -> no_errors e -> no_errors e'.
Proof. unfold same_static. intros -> He d. apply He. Qed.

Lemma wp_status_healthy (Q : Z -> est D -> Prop) s :
  no_errors (es_eng s) -> (forall s', has_error (es_eng s') = false -> Q 0 s') -> wp (engine_status_read false false) Q s.
Proof.
  intros He HQ. unfold engine_status_read, read_reg, reg_of. est_step. est_step. cbn [Z.ltb Z.compare].
  do 5 est_step. apply wp_read. intros v d _ ->. est_step. est_step. est_step. apply HQ. apply He.
Qed.

Lemma wp_start_healthy s :
  no_errors (es_eng s) -> eng_running (es_eng s) = false -> eng_transfer_list (es_eng s) <> [] ->
  wp (engine_start pm) (fun _ s' => has_error (es_eng s') = false) s.
Proof.
  intros He Hr Hl. unfold engine_start. est_step. est_step. rewrite Hr.
  destruct (eng_transfer_list (es_eng s)) as [|p l]; [done|].
  unfold write_first_desc, sg_reg_of. est_step. est_step. est_step. est_step.
  est_step; repeat est_step; apply wp_mode_config; intros s2 (F1 & _); cbn [Z.ltb Z.compare]; est_step;
    (apply wp_status_healthy; [rewrite F1; exact He|]; intros s3 H3; cbn [Z.ltb Z.compare]; repeat est_step; exact H3).
Qed.

(** [transfer_queue] on such an engine starts it. *)
Lemma wp_queue_idle p t (Q : Z -> est D -> Prop) s :
  idle s -> online (es_eng s) -> xdma_device_flag_check xdev XDEV_FLAG_OFFLINE = false -> no_errors (es_eng s) ->
  es_heap s !! p = Some t -> x_desc_num t <> 0 ->
  (forall s', same_static (es_eng s) (es_eng s') -> eng_transfer_list (es_eng s') = [p] -> eng_running (es_eng s') = true ->
     eng_desc_dequeued (es_eng s') = 0 -> has_error (es_eng s') = false -> online (es_eng s') ->
     es_heap s' = <[p := t <| x_state := TRANSFER_STATE_SUBMITTED |>]> (es_heap s) -> es_sgts s' = es_sgts s -> Q 0 s') ->
  wp (transfer_queue pm xdev p) Q s.
Proof.
  intros [Il Ir Ie Ih] Hon Hoff He Ht Hn HQ. unfold transfer_queue. est_step. est_step.
  assert (xfer_at s p = t) as -> by (unfold xfer_at; by rewrite Ht).
  destruct (Z.eqb_spec (x_desc_num t) 0); [done|]. rewrite Hoff. est_step. est_step. unfold online in Hon. rewrite Hon.
  do 4 est_step. est_step. fld. rewrite Ir. cbn [negb when]. est_step.
  set (s1 := _ <| es_eng ::= _ |>).
  assert (eng_transfer_list (es_eng s1) = [p]) as El by (subst s1; fld; by rewrite Il).
  apply (wp_mono _ (fun _ s' => has_error (es_eng s') = false /\ es_heap s' = es_heap s1 /\ es_sgts s' = es_sgts s1
    /\ exists v, es_eng s' = (es_eng s1) <| eng_shutdown := ENGINE_SHUTDOWN_NONE |> <| eng_desc_dequeued := 0 |>
                                <| eng_status := v |> <| eng_running := true |>)).
  { eapply wp_and; [apply wp_start_healthy; [exact He|exact Ir|by rewrite El]|].
    apply wp_engine_start; [intros [Hr|Hl]; [|by rewrite El in Hl]; by rewrite (Ir : eng_running (es_eng s1) = false) in Hr|].
    intros p' l v s' _ _ E1 E2 E3 Hh. split_and!; [done..|by exists v]. }
  intros _ s' (G1 & G2 & G3 & v & G4). est_step. est_step. apply HQ; try done.
  - rewrite G4. reflexivity.
  - by rewrite G4.
  - by rewrite G4.
  - by rewrite G4.
  - by rewrite G4.
  - rewrite G2. subst s1. fld. by apply alter_at.
Qed.
End Idle.

(** ** One transfer after the other *)
Section Rounds.
Context {D : Type} `{Env D} (pm : params) (xdev : xdma_dev).
Implicit Types (s : est D).

(** The engine has been given [x] only, and has started. *)
Record started x t s : Prop := {
  st_list : eng_transfer_list (es_eng s) = [x];
  st_running : eng_running (es_eng s) = true;
  st_eop : eng_eop_flush (es_eng s) = false;
  st_error : has_error (es_eng s) = false;
  st_fresh : eng_desc_dequeued (es_eng s) = 0;
  st_online : online (es_eng s);
  st_xfer : es_heap s !! x = Some t;
  st_state : x_state t = TRANSFER_STATE_SUBMITTED;
  st_only : forall p y, es_heap s !! p = Some y -> x_state y = TRANSFER_STATE_SUBMITTED -> p = x;
}.

Lemma started_ok x t s : started x t s -> est_ok s.
Proof.
  intros [Hl _ _ _ _ _ Hx Hs Ho]. unfold est_ok. rewrite Hl. split; [apply NoDup_singleton|].
  intros p. rewrite list_elem_of_singleton. split; [intros ->; by exists t|]. intros (y & Hy & Hsy). by eapply Ho.
Qed.

Lemma wp_served_wait x tmo t (Q : unit -> est D -> Prop) s :
  started x t s -> 0 < x_desc_num t < 2 ^ 24 ->
  (forall s', same_static (es_eng s) (es_eng s') -> es_sgts s' = es_sgts s -> online (es_eng s') ->
     eng_transfer_list (es_eng s') = [] -> eng_running (es_eng s') = false ->
     es_heap s' = <[x := t <| x_state := TRANSFER_STATE_COMPLETED |> <| x_desc_cmpl := x_desc_num t |>]> (es_heap s) ->
     Q tt s') ->
  wp (served_wait pm x tmo) Q s.
Proof.
  intros Hst Hn HQ. pose proof (started_ok _ _ _ Hst) as Hok. destruct Hst as [Hl Hr He Hh Hq Ho Hx _ _].
  unfold served_wait. est_step. est_step. assert (xfer_at s x = t) as -> by (unfold xfer_at; by rewrite Hx).
  apply wp_bind. eapply wp_and; [by apply (stays_service pm)|]. apply (wp_service_exact pm _ [] x t []); try done; rewrite ?Hq; try done; change (nums (es_heap s) []) with 0; try lia.
  intros s' G1 G2 G3 G4 G5 G6. est_step. by apply HQ.
Qed.

(** A transfer given to an idle engine, up to its completion. *)
Lemma wp_served_transfer {B} x t tmo (no : Z -> M (est D) B) (k : unit -> M (est D) B) (Q : B -> est D -> Prop) s :
  idle s -> online (es_eng s) -> xdma_device_flag_check xdev XDEV_FLAG_OFFLINE = false -> no_errors (D := D) (es_eng s) ->
  es_heap s !! x = Some t -> 0 < x_desc_num t < 2 ^ 24 ->
  (forall s', same_static (es_eng s) (es_eng s') -> es_sgts s' = es_sgts s -> online (es_eng s') ->
     eng_transfer_list (es_eng s') = [] -> eng_running (es_eng s') = false ->
     es_heap s' = <[x := t <| x_state := TRANSFER_STATE_COMPLETED |> <| x_desc_cmpl := x_desc_num t |>]> (es_heap s) ->
     wp (k tt) Q s') ->
  wp (rv ← transfer_queue pm xdev x; if rv <? 0 then no rv else wake_thread ;; served_wait pm x tmo ≫= k) Q s.
Proof.
  intros Hi Ho Hoff Hh Hx Hn HQ. est_step. apply (wp_queue_idle pm xdev x t); try done; [lia|].
  intros s' I1 I2 I3 I4 I5 I6 I7 I8. cbn [Z.ltb Z.compare]. est_step. apply wp_wake_thread. intros k'. est_step.
  apply (wp_served_wait x tmo (t <| x_state := TRANSFER_STATE_SUBMITTED |>)); [|exact Hn|].
  - constructor; try done; fld; rewrite ?I7.
    + rewrite I1. apply Hi.
    + by rewrite lookup_insert_eq.
    + intros p y [[-> _]|[_ Hp]]%lookup_insert_Some Hs; [done|]. by destruct (id_heap _ Hi p y Hp).
  - intros s2 J1 J2 J3 J4 J5 J6. apply HQ; try done; [by eapply same_static_trans|by rewrite J2, <- I8|].
    rewrite J6. fld. rewrite I7. apply insert_insert_eq.
Qed.

(** What holds between rounds. *)
Record served (used : Z) s : Prop := {
  sv_ready : ready xdev (es_eng s) used;
  sv_idle : idle s;
  sv_health : no_errors (D := D) (es_eng s);
}.

(** What of an engine building a transfer and giving its descriptors back do not touch. *)
Definition same_work (e e' : xdma_engine) : Prop :=
  eng_transfer_list e' = eng_transfer_list e /\ eng_running e' = eng_running e /\ eng_eop_flush e' = eng_eop_flush e
  /\ eng_regs e' = eng_regs e /\ eng_dir e' = eng_dir e.

Lemma init_same_work e req : ring_ok e -> request_ok req -> same_work e (transfer_init e req).1.1.
Proof. intros. rewrite transfer_init_eq by done. by split_and!. Qed.

Lemma round_xfer_new e req sgt mapped last :
  ring_ok e -> request_ok req -> x_state (round_xfer e req sgt mapped last) = TRANSFER_STATE_NEW.
Proof. intros. unfold round_xfer, new_xfer. rewrite transfer_init_eq by done. by destruct last, mapped. Qed.

Lemma same_work_idle s s' x t :
  idle s -> same_work (es_eng s) (es_eng s') -> es_heap s' = <[x := t]> (es_heap s) -> x_state t <> TRANSFER_STATE_SUBMITTED -> idle s'.
Proof.
  intros [Il Ir Ie Ih] (W1 & W2 & W3 & _) Hh Ht. constructor; rewrite ?W1, ?W2, ?W3; try done.
  intros p y. rewrite Hh. intros [[-> <-]|[_ Hp]]%lookup_insert_Some; [done|by eapply Ih].
Qed.
Lemma same_work_health e e' : same_work e e' -> no_errors (D := D) e -> no_errors (D := D) e'.
Proof. intros (_ & _ & _ & W4 & W5) He d. specialize (He d). unfold has_error in *. fld. by rewrite W4, W5. Qed.

(** The end of a round: the transfer is done, its descriptors are given back. *)
Lemma served_again x t v req used s s5 s6 :
  served used s -> request_ok req -> same_static (transfer_init (es_eng s) req).1.1 (es_eng s5) -> online (es_eng s5) ->
  eng_transfer_list (es_eng s5) = [] -> eng_running (es_eng s5) = false ->
  es_eng s6 = upd_ring (xdma_desc_done v (transfer_count (es_eng s) req))
                ((es_eng s5) <| eng_desc_used ::= fun u => s32 (u - transfer_count (es_eng s) req) |>) ->
  es_heap s6 = <[x := t]> (es_heap s) -> x_state t <> TRANSFER_STATE_SUBMITTED -> served used s6.
Proof.
  intros [Hr Hi Hh] Hreq Hst Ho Hl Hrun E6 H6 Ht.
  pose proof (acc_ring _ _ (ready_acc _ _ _ Hr)) as Hring. pose proof (init_same_work _ _ Hring Hreq) as Hw.
  assert (same_work (es_eng s) (es_eng s6)) as Hw6.
  { destruct Hw as (W1 & W2 & W3 & W4 & W5). destruct Hi as [Il Ir _ _]. rewrite E6. unfold same_work, upd_ring. fld.
    rewrite Hl, Hrun, Il, Ir, <- W3, <- W4, <- W5, Hst. by split_and!. }
  constructor.
  - rewrite E6. apply ready_again; try done. by apply same_static_ring.
  - by eapply same_work_idle.
  - by eapply same_work_health.
Qed.

Lemma served_round used : round_spec pm xdev (served_wait pm) (served used).
Proof.
  intros p sgt mapped tmo req nents done Q s [Hready Hidle Hhealth] Hreq Hlen Hnents Hd Hdl HQ. unfold submit_round.
  pose proof (acc_ring _ _ (ready_acc _ _ _ Hready)) as Hring.
  pose proof (request_max _ Hreq). pose proof (request_idx _ Hreq). pose proof (ring_max _ Hring) as Hmax.
  pose proof (ring_idx _ Hring) as Hidx. unfold XDMA_ENGINE_XFER_MAX_DESC in Hmax.
  destruct (transfer_count_range _ _ Hring Hreq) as (Hn0 & Hn1 & Hn2).
  destruct (transfer_init_keeps _ _ Hring Hreq) as (_ & _ & _ & K4 & K5 & K6 & _).
  destruct (transfer_init_req _ _ Hring Hreq) as (R1 & R2 & R3 & R4).
  pose proof (pieces_len_left req (transfer_count (es_eng s) req) Hreq ltac:(lia)) as (P1 & _).
  est_step. apply wp_round_begin; [done..|lia|lia|]. intros s3 G1 G2 G3.
  destruct (round_xfer_fields (es_eng s) req sgt mapped (nents - transfer_count (es_eng s) req =? 0) Hring Hreq) as (Y1 & Y2 & Y4 & Y5).
  set (n := transfer_count (es_eng s) req) in *. set (x2 := round_xfer _ _ _ _ _) in *. set (x := (p, 0)) in *.
  apply (wp_served_transfer x x2 tmo); rewrite ?G1.
  { eapply same_work_idle; [done|rewrite G1; by apply init_same_work|done|]. subst x2. by rewrite round_xfer_new by done. }
  { unfold online. rewrite K4. apply Hready. }
  { apply Hready. }
  { eapply same_work_health; [by apply init_same_work|done]. }
  { by rewrite G2, lookup_insert_eq. }
  { lia. }
  intros s5 J1 J2 J3 J4 J5 J6. do 4 est_step. unfold xfer_at. rewrite J6, lookup_insert_eq. change (default xfer_zero (Some ?a)) with a.
  set (x3 := _ <| x_desc_cmpl := _ |>) in *.
  match goal with |- context [match x_state ?a with _ => _ end] =>
    change (x_state a) with TRANSFER_STATE_COMPLETED; cbv iota end.
  assert (streaming_c2h (es_eng s5) = false) as ->.
  { rewrite (same_ring_mm _ _ (same_static_ring _ _ J1)), K6. apply Hready. }
  change (x_len x3) with (x_len x2). change (x_desc_num x3) with (x_desc_num x2). rewrite Y1, Y2.
  do 5 est_step. eapply (wp_transfer_destroy x x3); [by fld; rewrite J6, lookup_insert_eq|].
  intros s6 N1 N2 N3. est_step. rewrite (u32_small (pieces_len req 0 n)), s64_small by lia.
  apply (HQ s6 _ n); [lia| |exact R1|exact R2|exact R3|intros; apply R4; lia|].
  2: { rewrite N2. fld. change (x_last_in_request x3) with (x_last_in_request x2). change (x_flags x3) with (x_flags x2).
       change (x_sgt x3) with (x_sgt x2). rewrite Y5, Y4, J2, G3.
       destruct (Z.eqb_spec (nents - n) 0), (bool_decide_reflect (n = nents)); try lia; done. }
  eapply (served_again x x3 (x_desc_virt x3) req used s s5); try done.
  - rewrite N1. change (x_desc_num x3) with (x_desc_num x2). by rewrite Y1.
  - rewrite N3. fld. rewrite J6, G2. apply insert_insert_eq.
Qed.

#[export] Instance served_submits used : Submits pm xdev (served_wait pm) (served used).
Proof.
  split; [apply served_round|by intros s k [? [] ?]|by intros s m [? [] ?]|].
  intros s p [Hr [Il Ie Ih Hh] He]. split; [done| |done]. constructor; try done.
  intros q y. fld. intros Hq. apply lookup_delete_Some in Hq as [_ Hq]. apply lookup_delete_Some in Hq as [_ Hq]. by eapply Hh.
Qed.
End Rounds.

(** C3 Submitting and servicing together.  The engine is idle, online, not shut down, not a
    streaming C2H engine and not in EOP flush mode, its ring is consistent with room, its
    direction is the one asked for and its status register never shows an error; every
    transfer's descriptors are counted in the write back, and [engine_service] is run on the
    engine while the submitter sleeps.  For a table that, once mapped, the driver can count
    ([sgt_ok], as for [xfer_submit_total]) and that describes less than 2^32 bytes, with
    [desc_blen_max] below 2^31, [xdma_xfer_submit] then finishes the request, however many
    rounds over the ring it takes: it returns the bytes of the mapped table, [-EIO] exactly
    when nothing was mapped, or [-ENOMEM] when no request could be allocated.  It leaves the
    engine idle again, with its queue empty, not running, every descriptor given back, and
    the table as it was or unmapped. *)
Theorem xfer_submit_served {D} `{Env D} pm size_cb vr xdev (write : bool) ep sgt (mapped : bool) tmo tb (s : est D) :
  let e := es_eng s in
  let tb' := tb <| sgt_nents := map_result mapped sgt tb s |> in
  let total := sum_Z (sg_dma_len <$> mapped_sgl tb') in
  ready xdev e (eng_desc_used e) -> idle s -> no_errors (D := D) e ->
  submit_checks xdev (if write then DMA_TO_DEVICE else DMA_FROM_DEVICE) e = None ->
  es_sgts s !! sgt = Some tb -> sgt_ok size_cb (desc_blen_max pm) tb' ->
  desc_blen_max pm < 2 ^ 31 -> 0 <= ep < 2 ^ 64 -> total < 2 ^ 32 ->
  let '(r, s') := xdma_xfer_submit pm size_cb vr (served_wait pm) xdev write ep sgt mapped tmo s in
  idle s' /\ ready xdev (es_eng s') (eng_desc_used e)
  /\ (sgt_nents tb' = 0 /\ r = - EIO
      \/ sgt_nents tb' <> 0 /\ es_sgts s' !! sgt = Some (if mapped then tb else tb <| sgt_nents := 0 |>)
         /\ (r = total \/ r = - ENOMEM /\ exists n (s0 : est D), (xdma_request_alloc size_cb n s0).1.1 = 0)).
Proof.
  intros e tb' total Hr Hi He Hc Hs Hok Hb Hep Ht. apply wp_elim.
  assert (served xdev (eng_desc_used e) s) as Hkeep by by split.
  apply (wp_submit _ _ _ _ _ _ (served_submits pm xdev (eng_desc_used e)) _ _ _ _ _ tb); try done.
  - intros Hn k. split; [by destruct Hi|]. split; [done|]. by left.
  - intros s' r [Hr' Hi' _] Hx Hn Hor. split; [done|]. split; [done|]. by right.
Qed.

(** *** Witness: two rounds on a ring of two descriptors, on a device whose registers read 0. *)

Definition quiet : Env unit :=
  {| env_read := fun _ d => (0, d); env_write := fun _ _ d => d;
     env_call := fun c d => (match c with K_dma_map_sg _ n => n | _ => 0x8000 end, d) |}.
#[local] Existing Instance quiet.

Definition ex_idle_start : est unit :=
  {| es_k := mkK tt []; es_eng := es_eng ex_submit_start; es_heap := ∅; es_sgts := es_sgts ex_submit_start |}.

Lemma ex_idle_ready : ready xdev_zero (es_eng ex_idle_start) (eng_desc_used (es_eng ex_idle_start)).
Proof. constructor; [constructor; [constructor|..]|..]; decide_now. Defined.
Lemma ex_idle : idle ex_idle_start.
Proof. by constructor. Defined.
Lemma ex_quiet : no_errors (D := unit) (es_eng ex_idle_start).
Proof. intros d. vm_compute. reflexivity. Defined.

Lemma xfer_submit_served_witness :
  ltac:(statement_of (xfer_submit_served ex_pm 256 (0, 0) xdev_zero true 0x40 1 false 0
    (ex_sgt <| sgt_nents := 0 |>) ex_idle_start ex_idle_ready ex_idle ex_quiet eq_refl eq_refl ex_sgt_ok
    ltac:(decide_now) ltac:(decide_now) ltac:(decide_now))).
Proof.
  instance_of (xfer_submit_served ex_pm 256 (0, 0) xdev_zero true 0x40 1 false 0
    (ex_sgt <| sgt_nents := 0 |>) ex_idle_start ex_idle_ready ex_idle ex_quiet eq_refl eq_refl ex_sgt_ok
    ltac:(decide_now) ltac:(decide_now) ltac:(decide_now)).
Defined.

(** All [0x2810] bytes, in two rounds. *)
Example ex_served_run :
  let '(r, s) := xdma_xfer_submit ex_pm 256 (0, 0) (served_wait ex_pm) xdev_zero true 0x40 1 false 0 ex_idle_start in
  r = 0x2810 /\ eng_desc_used (es_eng s) = 0 /\ eng_transfer_list (es_eng s) = [] /\ eng_running (es_eng s) = false.
Proof. by vm_compute. Qed.
