(* ===== verification/Async.v ===== *)
(** An asynchronous request ([libxdma.c]): what [xdma_xfer_submit_nowait] queues,
    [xdma_xfer_completion] collects. *)
From S2P Require Import Prelude Kernel Types Desc Request Transfer Engine EngineSpec EngineQueue Submit SubmitSpec.
Local Open Scope Z_scope.

Section Async.
Context {D : Type} `{Env D} (pm : params) (xdev : xdma_dev) (sgt : Z) (mapped : bool).
Implicit Types (s : est D).

(** *** Queueing *)

(** The transfer that a round of [nowait_loop] queues describes the first [n] pieces of [req]. *)
Record queued_as (req : xdma_request_cb) (n : Z) (x : xdma_transfer) : Prop := {
  qa_num : x_desc_num x = n;
  qa_len : x_len x = u32 (pieces_len req 0 n);
  qa_state : x_state x = TRANSFER_STATE_SUBMITTED;
  qa_flags : x_flags x = (if mapped then 0 else XFER_FLAG_NEED_UNMAP);
  qa_last : x_last_in_request x = true -> x_sgt x = Some sgt;
}.

(** What a round leaves, on top of what it leaves of the ring. *)
Lemma wp_nowait_round fuel cb p idx req nents (Q : option Z -> est D -> Prop) s :
  accepting xdev (es_eng s) -> request_ok req -> idx < 2 -> nents = rq_sw_desc_cnt req - rq_sw_desc_idx req ->
  (forall s' x, let n := transfer_count (es_eng s) req in
     same_ring (transfer_init (es_eng s) req).1.1 (es_eng s') ->
     tst (eng_shutdown (es_eng s')) ENGINE_SHUTDOWN_REQUEST = false ->
     es_heap s' = <[(p, idx) := x]> (es_heap s) -> queued_as req n x ->
     eng_transfer_list (es_eng s') = eng_transfer_list (es_eng s) ++ [(p, idx)] -> es_sgts s' = es_sgts s ->
     wp (nowait_loop pm fuel xdev cb p sgt mapped (idx + 1) (transfer_init (es_eng s) req).1.2 (nents - n)) Q s') ->
  wp (nowait_loop pm (S fuel) xdev cb p sgt mapped idx req nents) Q s.
Proof.
  intros [Hring Hroom Hon Hsh] Hreq Hidx Hnents HQ. cbn [nowait_loop].
  pose proof (transfer_count_range _ _ Hring Hreq) as (Hn0 & Hn1 & Hn2).
  pose proof (request_max _ Hreq). pose proof (request_idx _ Hreq).
  destruct (Z.eqb_spec nents 0) as [|_]; [lia|]. destruct (Z.leb_spec 2 idx); [lia|].
  pose proof (new_xfer_fields _ _ Hring Hreq) as (X1 & X2 & _ & X4 & X5 & _).
  pose proof (transfer_init_keeps _ _ Hring Hreq) as (_ & _ & _ & K4 & K5 & _).
  set (n := transfer_count (es_eng s) req) in *.
  est_step. apply wp_init_tfer. intros s1 E1 E2 E3. est_step. est_step. est_step. apply wp_when_upd. intros s2 F1 F2 F3.
  fld_in_hyps. rewrite E2, alter_insert_eq in F3. rewrite E3 in F2. rewrite E1 in F1.
  set (x0 := new_xfer (es_eng s) req) in *. set (f0 := fun t : xdma_transfer => t <| x_flags := XFER_FLAG_NEED_UNMAP |>) in *.
  assert (exists x1, es_heap s2 = <[(p, idx) := x1]> (es_heap s) /\ x_desc_num x1 = n /\ x_len x1 = x_len x0
    /\ x_flags x1 = (if mapped then 0 else XFER_FLAG_NEED_UNMAP) /\ x_last_in_request x1 = false) as (x1 & G3 & Y1 & Y2 & Y3 & Y4).
  { rewrite F3. destruct mapped; cbn [negb]; [|rewrite alter_insert_eq]; by eexists. }
  est_step. est_step. assert (xfer_at s2 (p, idx) = x1) as -> by (unfold xfer_at; by rewrite G3, lookup_insert_eq).
  rewrite Y1, s32_small by lia. est_step. apply wp_when_upd. intros s3 J1 J2 J3.
  assert (exists x2, es_heap s3 = <[(p, idx) := x2]> (es_heap s) /\ x_desc_num x2 = n /\ x_len x2 = x_len x0
    /\ x_flags x2 = x_flags x1 /\ (x_last_in_request x2 = true -> x_sgt x2 = Some sgt)) as (x2 & J3' & Z1 & Z2 & Z3 & Z4).
  { rewrite J3, G3. destruct (nents - n =? 0); [rewrite alter_insert_eq; by eexists|].
    eexists. split_and!; [done..|]. by rewrite Y4. }
  est_step. apply wp_queue_accept.
  { unfold xfer_at. rewrite J3', lookup_insert_eq. cbn. lia. } { done. } { by rewrite J1, F1, K4. }
  intros s4 I1 I2 I3 I4 I5. cbn [Z.ltb Z.compare]. apply (HQ s4 (x2 <| x_state := TRANSFER_STATE_SUBMITTED |>)).
  - apply same_static_ring. by rewrite <- F1, <- J1.
  - exact I4.
  - rewrite I2, J3'. unfold set_state. by rewrite alter_insert_eq.
  - constructor; [exact Z1|rewrite <- X2; exact Z2|done|by rewrite <- Y3|exact Z4].
  - by rewrite I3, J1, F1, K5.
  - by rewrite I5, J2, F2.
Qed.

(** *** Collecting *)

(** The table [sgt] is [tb], or was unmapped since. *)
Definition tabled (tb : sg_table) (s : est D) : Prop :=
  exists t, es_sgts s !! sgt = Some t /\ (t = tb \/ mapped = false /\ t = tb <| sgt_nents := 0 |>).

(** One turn of the loop, on a transfer that has completed. *)
Lemma wp_completion_round fuel p i nents done x (Q : option Z -> est D -> Prop) s :
  nents <> 0 -> i < 2 -> es_heap s !! (p, i) = Some x -> x_state x = TRANSFER_STATE_COMPLETED ->
  streaming_c2h (es_eng s) = false -> 0 <= done -> 0 <= x_len x -> done + x_len x < 2 ^ 62 ->
  -2 ^ 31 <= eng_desc_used (es_eng s) - x_desc_num x < 2 ^ 31 -> -2 ^ 31 <= nents - x_desc_num x < 2 ^ 31 ->
  x_flags x = (if mapped then 0 else XFER_FLAG_NEED_UNMAP) -> (x_last_in_request x = true -> x_sgt x = Some sgt) ->
  (forall s', eng_desc_used (es_eng s') = eng_desc_used (es_eng s) - x_desc_num x ->
     streaming_c2h (es_eng s') = false -> eng_transfer_list (es_eng s') = eng_transfer_list (es_eng s) ->
     es_heap s' = es_heap s -> (forall tb, tabled tb s -> tabled tb s') -> wp (completion_loop pm fuel p (i + 1) (nents - x_desc_num x) (done + x_len x)) Q s') ->
  wp (completion_loop pm (S fuel) p i nents done) Q s.
Proof.
  intros Hn Hi Hx Hst Hmm Hd Hl Hdl Hu Hnx Hfl Hla HQ. cbn [completion_loop].
  destruct (Z.eqb_spec nents 0); [done|]. destruct (Z.leb_spec 2 i); [lia|]. do 4 est_step.
  assert (xfer_at s (p, i) = x) as -> by exact (f_equal (default xfer_zero) Hx). rewrite Hst, Hmm. do 2 est_step.
  est_step. eapply (wp_transfer_destroy (p, i) x); [exact Hx|]. intros s2 N1 N2 N3. do 2 est_step.
  change (0 <? 0) with false. cbv iota. rewrite s64_small, s32_small by lia. apply HQ.
  - fld. rewrite N1. change (s32 (eng_desc_used (es_eng s) - x_desc_num x) = eng_desc_used (es_eng s) - x_desc_num x).
    by rewrite s32_small by lia.
  - fld. rewrite N1. exact Hmm.
  - fld. by rewrite N1.
  - fld. exact N3.
  - intros tb (t & Ht & Hor). unfold tabled. fld. rewrite N2. destruct (x_last_in_request x); [|by exists t].
    rewrite Hla, Hfl by done. destruct mapped; [by exists t|]. cbn [andb]. change (tst XFER_FLAG_NEED_UNMAP XFER_FLAG_NEED_UNMAP) with true.
    cbv iota. rewrite lookup_alter_eq, Ht. exists (t <| sgt_nents := 0 |>). split; [done|]. right. split; [done|].
    by destruct Hor as [->|[_ ->]].
Qed.

(** *** Both *)

(** The transfers of a request that has been queued: one, or two when it is cut at the end of the ring. *)
Inductive queued (p : Z) (req : xdma_request_cb) (left : Z) (h : gmap xfer_ptr xdma_transfer) : list xfer_ptr -> Prop :=
| queued_one x : h !! (p, 0) = Some x -> queued_as req left x -> queued p req left h [(p, 0)]
| queued_two n x y req' :
    0 < n < left -> h !! (p, 0) = Some x -> queued_as req n x -> h !! (p, 1) = Some y -> queued_as req' (left - n) y ->
    rq_sdesc req' = rq_sdesc req -> rq_sw_desc_cnt req' = rq_sw_desc_cnt req ->
    rq_sw_desc_idx req' = rq_sw_desc_idx req + n -> queued p req left h [(p, 0); (p, 1)].

(** [s1] is [s] with the request queued. *)
Record submitted (p : Z) (req : xdma_request_cb) (s s1 : est D) : Prop := {
  sub_queue : exists l, queued p req (rq_sw_desc_cnt req - rq_sw_desc_idx req) (es_heap s1) l
                        /\ eng_transfer_list (es_eng s1) = eng_transfer_list (es_eng s) ++ l;
  sub_used : eng_desc_used (es_eng s1) = eng_desc_used (es_eng s) + (rq_sw_desc_cnt req - rq_sw_desc_idx req);
  sub_mm : streaming_c2h (es_eng s1) = streaming_c2h (es_eng s);
  sub_magic : eng_magic (es_eng s1) = eng_magic (es_eng s);
  sub_sgts : es_sgts s1 = es_sgts s;
}.

Lemma wp_nowait_run fuel cb p req (Q : option Z -> est D -> Prop) s :
  let left := rq_sw_desc_cnt req - rq_sw_desc_idx req in
  accepting xdev (es_eng s) -> request_ok req -> eng_desc_used (es_eng s) + 3 * eng_desc_max (es_eng s) <= 2 ^ 30 ->
  left <= 2 * eng_desc_max (es_eng s) - eng_desc_idx (es_eng s) -> (1 < fuel)%nat ->
  (forall s1, submitted p req s s1 -> Q (Some 0) s1) ->
  wp (nowait_loop pm fuel xdev cb p sgt mapped 0 req left) Q s.
Proof.
  intros left Hacc Hreq Hroom Hleft Hfuel HQ. destruct fuel as [|[|fuel]]; [lia|lia|].
  pose proof (acc_ring _ _ Hacc) as Hring. pose proof (ring_idx _ Hring). pose proof (ring_max _ Hring).
  destruct (transfer_count_range _ _ Hring Hreq) as (Hn0 & Hn1 & Hn2).
  destruct (transfer_init_req _ _ Hring Hreq) as (R1 & R2 & R3 & R4).
  destruct (transfer_init_keeps _ _ Hring Hreq) as (K1 & K2 & K3 & _ & _ & K6 & K7 & _).
  apply wp_nowait_round; [done|done|lia|done|]. intros s1 x n S1 Sh1 Hh1 Q1 L1 G1. fold n in Hn0, Hn1, Hn2, R1, R4, K1, K2.
  pose proof S1 as (_ & S12 & S13 & S14 & _ & _ & S17 & _ & S19).
  destruct (Z.eq_dec n left) as [E|Hne].
  { rewrite E, Z.sub_diag. apply nowait_done. apply HQ. constructor; [|lia|congruence|congruence|done].
    exists [(p, 0)]. split; [|exact L1]. apply (queued_one _ _ _ _ x); [by rewrite Hh1, lookup_insert_eq|rewrite E in Q1; exact Q1]. }
  assert (n = eng_desc_max (es_eng s) - eng_desc_idx (es_eng s)) as En by (subst n left; unfold transfer_count in *; lia).
  assert (eng_desc_idx (es_eng s1) = 0) as I1.
  { rewrite S12, K1, En. replace (_ + _) with (eng_desc_max (es_eng s)) by lia. apply Z.mod_same. lia. }
  assert (accepting xdev (es_eng s1)) as Hacc1.
  { constructor; [|lia|apply Hacc|exact Sh1]. eapply same_ring_ok; [exact S1|]. apply transfer_init_ring_ok; [done|done|].
    fold n. pose proof (acc_room _ _ Hacc). lia. }
  assert (request_ok (transfer_init (es_eng s) req).1.2) as Hreq1 by (apply R4; lia).
  set (req1 := (transfer_init (es_eng s) req).1.2) in *.
  destruct (transfer_count_range _ _ (acc_ring _ _ Hacc1) Hreq1) as (Hm0 & _ & _).
  destruct (transfer_init_keeps _ _ (acc_ring _ _ Hacc1) Hreq1) as (_ & K2' & _ & _ & _ & K6' & K7' & _).
  apply wp_nowait_round; [done|done|lia|lia|]. intros s2 y m S2 _ Hh2 Q2 L2 G2. fold m in Hm0, K2'.
  assert (m = left - n) as Em by (subst m left; unfold transfer_count; rewrite I1, S14, K3; lia).
  pose proof S2 as (_ & _ & S23 & _ & _ & _ & S27 & _ & S29).
  rewrite Em, Z.sub_diag. apply nowait_done. apply HQ. constructor; [|lia|congruence|congruence|congruence].
  exists [(p, 0); (p, 1)]. split; [|by rewrite L2, L1, <- app_assoc].
  rewrite Hh2, Hh1. apply (queued_two _ _ _ _ n x y req1); try done; [lia| | |rewrite Em in Q2; exact Q2].
  - by rewrite lookup_insert_ne, lookup_insert_eq.
  - by rewrite lookup_insert_eq.
Qed.

(** What may happen before a queued request is collected: its transfers complete, the
    engine runs on as it likes, and the tables stay. *)
Record collected_after (p : Z) (s1 s2 : est D) : Prop := {
  ca_xfers : forall i x, es_heap s1 !! (p, i) = Some x ->
    exists c, es_heap s2 !! (p, i) = Some (x <| x_state := TRANSFER_STATE_COMPLETED |> <| x_desc_cmpl := c |>);
  ca_ring : same_ring (es_eng s1) (es_eng s2);
  ca_sgts : es_sgts s2 = es_sgts s1;
}.

Lemma completion_done fuel p i done (Q : option Z -> est D -> Prop) s :
  Q (Some done) s -> wp (completion_loop pm fuel p i 0 done) Q s.
Proof. intros HQ. destruct fuel; cbn [completion_loop Z.eqb]; by est_step. Qed.

(** Collecting what has been queued. *)
Lemma wp_completion_run fuel p req (Q : option Z -> est D -> Prop) s s1 s2 :
  let left := rq_sw_desc_cnt req - rq_sw_desc_idx req in
  request_ok req -> left_len req < 2 ^ 32 -> streaming_c2h (es_eng s) = false ->
  0 <= eng_desc_used (es_eng s) -> eng_desc_used (es_eng s) + left < 2 ^ 31 -> (1 < fuel)%nat ->
  submitted p req s s1 -> collected_after p s1 s2 ->
  (forall s3, eng_desc_used (es_eng s3) = eng_desc_used (es_eng s) -> eng_transfer_list (es_eng s3) = eng_transfer_list (es_eng s2) ->
     (forall tb, tabled tb s2 -> tabled tb s3) -> Q (Some (left_len req)) s3) ->
  wp (completion_loop pm fuel p 0 left 0) Q s2.
Proof.
  intros left Hreq Hlen Hmm Hu Hub Hfuel [(l & Hq & _) Su Sm _ _] [Cx Cr _] HQ.
  destruct fuel as [|[|fuel]]; [lia|lia|]. pose proof (request_idx _ Hreq). pose proof (request_max _ Hreq).
  assert (streaming_c2h (es_eng s2) = false) as Hmm2 by (by rewrite (same_ring_mm _ _ Cr), Sm).
  assert (eng_desc_used (es_eng s2) = eng_desc_used (es_eng s) + left) as Hu2 by (destruct Cr as (_ & _ & -> & _); exact Su).
  pose proof (pieces_len_left req left Hreq ltac:(lia)) as [P1 _].
  fold left in Hq. destruct Hq as [x Hx [Xn Xl _ Xf Xs]|n x y req' Hn Hx [Xn Xl _ Xf Xs] Hy [Yn Yl _ Yf Ys] R3 R2 R1].
  - destruct (Cx _ _ Hx) as [c Hc]. eapply wp_completion_round; [lia|lia|exact Hc|done|done|lia|..];
      change (x_len (_ <| x_desc_cmpl := _ |>)) with (x_len x); change (x_desc_num (_ <| x_desc_cmpl := _ |>)) with (x_desc_num x).
    all: try exact Xf; try exact Xs; try (rewrite ?Xn, ?Xl, ?Hu2, ?u32_small by (fold left in P1; lia); lia).
    intros s3 U3 _ L3 _ B3. rewrite Xn, Xl, Z.sub_diag, u32_small, Z.add_0_l by lia. apply completion_done. apply HQ; [lia|exact L3|exact B3].
  - destruct (Cx _ _ Hx) as [c Hc]. destruct (Cx _ _ Hy) as [c' Hc'].
    destruct (pieces_len_left req n Hreq ltac:(lia)) as [N1 N2]. specialize (N2 req' R3 R2 R1).
    assert (pieces_len req' 0 (left - n) = left_len req') as E2 by (unfold left_len; f_equal; lia).
    eapply wp_completion_round; [lia|lia|exact Hc|done|done|lia|..];
      change (x_len (_ <| x_desc_cmpl := _ |>)) with (x_len x); change (x_desc_num (_ <| x_desc_cmpl := _ |>)) with (x_desc_num x).
    all: try exact Xf; try exact Xs; try (rewrite ?Xn, ?Xl, ?Hu2, ?u32_small by lia; lia).
    intros s3 U3 M3 L3 H3 B3. rewrite Xn in U3. rewrite Xn, Xl, (u32_small (pieces_len req 0 n)) by lia.
    eapply wp_completion_round; [lia|lia|rewrite H3; exact Hc'|done|done|lia|..];
      change (x_len (_ <| x_desc_cmpl := _ |>)) with (x_len y); change (x_desc_num (_ <| x_desc_cmpl := _ |>)) with (x_desc_num y).
    all: try exact Yf; try exact Ys; try (rewrite ?Yn, ?Yl, ?U3, ?Hu2, ?u32_small by lia; lia).
    intros s4 U4 _ L4 _ B4. rewrite Yn, Yl, Z.sub_diag, u32_small, E2, (Z.add_0_l (pieces_len req 0 n)) by lia. rewrite <- N2. apply completion_done. apply HQ; [lia|congruence|auto].
Qed.

(** The whole of [xdma_xfer_completion]. *)
Lemma wp_collect vr p req tb (Q : option Z -> est D -> Prop) s s1 s2 :
  request_ok req -> rq_sw_desc_idx req = 0 -> left_len req < 2 ^ 32 -> eng_magic (es_eng s) = MAGIC_ENGINE ->
  streaming_c2h (es_eng s) = false -> 0 <= eng_desc_used (es_eng s) ->
  eng_desc_used (es_eng s) + rq_sw_desc_cnt req < 2 ^ 31 -> es_sgts s !! sgt = Some tb ->
  submitted p req s s1 -> collected_after p s1 s2 ->
  (forall s3 t, eng_desc_used (es_eng s3) = eng_desc_used (es_eng s) -> eng_transfer_list (es_eng s3) = eng_transfer_list (es_eng s2) ->
     es_sgts s3 !! sgt = Some (if mapped then t else t <| sgt_nents := 0 |>) ->
     t = tb \/ mapped = false /\ t = tb <| sgt_nents := 0 |> -> Q (Some (left_len req)) s3) ->
  wp (xdma_xfer_completion pm vr p req sgt mapped) Q s2.
Proof.
  intros Hreq Hi0 Hlen Hmg Hmm Hu Hub Htb Hsub Hca HQ. unfold xdma_xfer_completion. do 2 est_step.
  assert (eng_magic (es_eng s2) = MAGIC_ENGINE) as ->.
  { destruct (ca_ring _ _ _ Hca) as (_ & _ & _ & _ & _ & _ & _ & _ & ->). by rewrite (sub_magic _ _ _ _ Hsub). }
  rewrite Z.eqb_refl. cbn [negb]. est_step. pose proof (request_idx _ Hreq).
  replace (rq_sw_desc_cnt req) with (rq_sw_desc_cnt req - rq_sw_desc_idx req) at 2 by lia.
  eapply wp_completion_run; [exact Hreq|exact Hlen|exact Hmm|exact Hu|lia|lia|exact Hsub|exact Hca|].
  intros s4 U4 L4 B4. cbv beta iota. est_step. destruct (B4 tb) as (t & Ht & Hor).
  { exists tb. split; [|by left]. by rewrite (ca_sgts _ _ _ Hca), (sub_sgts _ _ _ _ Hsub). }
  apply (wp_unmap_sgl _ _ t); [done|]. intros k. est_step. apply wp_free_request. intros k2. est_step.
  apply (HQ _ t); [fld; exact U4|fld; exact L4| |exact Hor]. fld. destruct mapped; [done|by rewrite lookup_insert_eq].
Qed.

(** The whole of [xdma_xfer_submit_nowait], up to its loop. *)
Lemma wp_nowait size_cb vr cb (xwrite : bool) ep tb (Q : option (Z * option (Z * xdma_request_cb)) -> est D -> Prop) s :
  let tb' := tb <| sgt_nents := map_result mapped sgt tb s |> in
  submit_checks xdev (if xwrite then DMA_TO_DEVICE else DMA_FROM_DEVICE) (es_eng s) = None ->
  es_sgts s !! sgt = Some tb -> sgt_ok size_cb (desc_blen_max pm) tb' ->
  (sgt_nents tb' = 0 -> forall s', Q (Some (- EIO, None)) s') ->
  ((exists n (s0 : est D), (xdma_request_alloc size_cb n s0).1.1 = 0) -> forall s', Q (Some (- ENOMEM, None)) s') ->
  (forall p req s1, p <> 0 -> request_covers (desc_blen_max pm) sgt ep tb' req -> es_eng s1 = es_eng s ->
     es_sgts s1 !! sgt = Some tb' ->
     wp (nowait_loop pm (S (Z.to_nat (rq_sw_desc_cnt req))) xdev cb p sgt mapped 0 (req <| rq_cb := Some cb |>) (rq_sw_desc_cnt req))
       (fun rv s2 => match rv with
                     | None => Q None s2
                     | Some rv => if rv <? 0 then forall s', Q (Some (rv, None)) s'
                                  else Q (Some (- EIOCBQUEUED, Some (p, req <| rq_cb := Some cb |>))) s2 end) s1) ->
  wp (xdma_xfer_submit_nowait pm size_cb vr cb xdev xwrite ep sgt mapped) Q s.
Proof.
  intros tb' Hc Hs Hok HQ0 HQ1 HQ. unfold xdma_xfer_submit_nowait. do 2 est_step. rewrite Hc. est_step.
  apply (wp_map_sgl _ _ tb); [done|]. intros k n. fold n in tb'. destruct (Z.eqb_spec n 0) as [Hn|Hn].
  { change (- EIO <? 0) with true. cbv iota. est_step. by apply HQ0. }
  change (0 <? 0) with false. cbv iota. est_step. unfold the_sgt. est_step. fld. rewrite lookup_insert_eq.
  change (default (Build_sg_table [] 0 0) (Some _)) with tb'.
  est_step. apply (wp_init_request _ _ _ _ Hok).
  - intros [m Hm] k'. est_step. apply wp_unmap_frame. intros s1 _. est_step. apply HQ1. eauto.
  - intros p req k' Hp Hcov. est_step. eapply wp_mono; [match goal with |- wp _ _ ?st => refine (HQ p req st Hp Hcov eq_refl _) end; fld; by rewrite lookup_insert_eq|]. cbv beta. intros [rv|] s2 Hrv; [|by est_step].
    destruct (rv <? 0); [|by est_step]. est_step. apply wp_unmap_frame. intros s3 _. est_step. apply wp_free_request. intros k3. by est_step.
Qed.
End Async.

Lemma queued_all {D} mapped sgt p req left (s : est D) l :
  queued sgt mapped p req left (es_heap s) l -> Forall (fun q => q.1 = p /\ x_state (xfer_at s q) = TRANSFER_STATE_SUBMITTED) l.
Proof.
  assert (forall q x, es_heap s !! q = Some x -> xfer_at s q = x) as Hat by (intros q x Hx; exact (f_equal (default xfer_zero) Hx)).
  intros [x Hx [_ _ Xs _ _]|n x y req' Hn Hx [_ _ Xs _ _] Hy [_ _ Ys _ _] _ _ _].
  - apply Forall_singleton. split; [done|]. by rewrite (Hat _ _ Hx).
  - apply Forall_cons. split; [|apply Forall_singleton]; (split; [done|]); by rewrite ?(Hat _ _ Hx), ?(Hat _ _ Hy).
Qed.

Definition with_cb (cb : Z) (req : xdma_request_cb) : xdma_request_cb := req <| rq_cb := Some cb |>.

(** A request for a table with at least one byte. *)
Lemma covers_ready blen id ep tb req cb :
  request_covers blen id ep tb req -> blen < 2 ^ 31 -> 0 <= ep < 2 ^ 64 -> Forall sg_ok (mapped_sgl tb) ->
  0 < sum_Z (sg_dma_len <$> mapped_sgl tb) ->
  request_ok (with_cb cb req) /\ rq_sw_desc_idx (with_cb cb req) = 0
  /\ left_len (with_cb cb req) = sum_Z (sg_dma_len <$> mapped_sgl tb).
Proof.
  intros Hcov Hb Hep Hsg Htot. pose proof (covers_total _ _ _ _ _ Hcov Hsg) as Hlt.
  pose proof (cov_start _ _ _ _ _ Hcov) as (_ & _ & Hi0).
  assert (rq_sw_desc_cnt req <> 0) as Hz.
  { intros Hz. rewrite <- Hlt in Htot. unfold left_len in Htot. by rewrite Hz, Hi0 in Htot. }
  destruct (covers_ok _ _ _ _ _ Hcov Hb Hep Hsg Hz). by split_and!.
Qed.



(** The example queues two transfers, and collects its [0x2810] bytes once they have
    completed. *)
Example ex_nowait_run :
  let '(r, s) := xdma_xfer_submit_nowait ex_pm 256 (0, 0) 7 xdev_zero true 0x40 1 false ex_submit_start in
  fst <$> r = Some (- EIOCBQUEUED) /\ eng_transfer_list (es_eng s) = [(0x8000, 0); (0x8000, 1)]
  /\ match r with
     | Some (_, Some (p, req)) =>
         let s := s <| es_heap ::= fmap (fun x => x <| x_state := TRANSFER_STATE_COMPLETED |>) |> in
         let '(done, s) := xdma_xfer_completion ex_pm (0, 0) p req 1 false s in
         done = Some 0x2810 /\ eng_desc_used (es_eng s) = 0
     | _ => False
     end.
Proof. by vm_compute. Qed.
