(* ===== verification/Aperture.v ===== *)
(** Transfers through an address window ([libxdma.c]): [xdma_xfer_aperture]
    moves a scatterlist through [aperture] bytes of the card, starting over at
    the beginning of the window whenever its end is reached. *)
From S2P Require Import Prelude Kernel Types Desc Request Transfer Engine EngineSpec EngineQueue Submit.
Local Open Scope Z_scope.

(** ** Building a transfer

    The variables of the building loops; [ap_ring] is the descriptor array. *)
Record ap_state := {
  ap_ring : list xdma_desc;
  ap_desc_idx : Z;
  ap_desc_cnt : Z;
  ap_ep_addr : Z;
  ap_sg_offset : Z;
  ap_offset : Z;
  ap_len : Z;
}.
#[export] Instance ap_state_settable : Settable ap_state := fun s =>
  Build_ap_state (ap_ring s) (ap_desc_idx s) (ap_desc_cnt s) (ap_ep_addr s)
    (ap_sg_offset s) (ap_offset s) (ap_len s).

Section Build.
Context (dir : dma_data_direction) (req_ep ep_addr_max maxlen sg_max desc_max : Z).

(** One descriptor: how many of the [tlen] bytes at [addr] it takes. *)
(* @src xdma/libxdma.c:3284-3307 xdma_xfer_aperture *)
Definition ap_one (st : ap_state) (addr tlen : Z) : ap_state * Z :=
  let len := Z.min tlen maxlen in
  let ep := if ep_addr_max <? ap_ep_addr st then req_ep else ap_ep_addr st in
  let len := if ep_addr_max <? u64 (ep + len) then u32 (ep_addr_max - ep + 1) else len in
  (st <| ap_ring ::= upd_desc (ap_desc_idx st) (fun d => xdma_desc_set d addr ep len dir) |>
      <| ap_sg_offset ::= fun x => u32 (x + len) |> <| ap_offset ::= fun x => u32 (x + len) |>
      <| ap_len ::= fun x => u32 (x + len) |> <| ap_ep_addr := u64 (ep + len) |>
      <| ap_desc_idx ::= fun x => u32 (x + 1) |> <| ap_desc_cnt ::= fun x => u32 (x + 1) |>, len).

(** [while (tlen)]: every round takes a descriptor, so the descriptors left
    bound the rounds.  The result is what is left of [tlen]. *)
(* @src xdma/libxdma.c:3283-3310 xdma_xfer_aperture *)
Fixpoint ap_while (fuel : nat) (st : ap_state) (addr tlen : Z) : ap_state * Z :=
  match fuel with
  | O => (st, tlen)
  | S fuel =>
      if tlen =? 0 then (st, tlen)
      else
        let '(st, len) := ap_one st addr tlen in
        let tlen := u32 (tlen - len) in
        if ap_desc_idx st =? desc_max then (st, tlen)
        else ap_while fuel st (u64 (addr + len)) tlen
  end.

(** The [for] over the table from the entry [sg] on; the result has the [i]
    it ends with. *)
(* @src xdma/libxdma.c:3273-3316 xdma_xfer_aperture *)
Fixpoint ap_for (sg : list sg_entry) (i : Z) (st : ap_state) : Z * ap_state :=
  match sg with
  | [] => (i, st)
  | s :: sg =>
      if (i <? sg_max) && (ap_desc_idx st <? desc_max) then
        let o := ap_sg_offset st in
        let tlen := if nz o then u32 (sg_dma_len s - o) else sg_dma_len s in
        let addr := if nz o then u64 (sg_dma_address s + o) else sg_dma_address s in
        let '(st, tlen) := ap_while (Z.to_nat (desc_max - ap_desc_idx st)) st addr tlen in
        if tlen =? 0 then ap_for sg (i + 1) (st <| ap_sg_offset := 0 |>) else (i, st)
      else (i, st)
  end.
End Build.

(** The list of the descriptors built, [bus] being the address of the one
    before; the result has the index of the last one. *)
(* @src xdma/libxdma.c:3326-3332 xdma_xfer_aperture *)
Fixpoint ap_link_loop (n : nat) (v bus : Z) (ring : list xdma_desc) : Z * list xdma_desc :=
  match n with
  | O => (v, ring)
  | S n =>
      let bus := u64 (bus + sizeof_xdma_desc) in
      ap_link_loop n (v + 1) bus
        (upd_desc v (fun d => d <| d_next_lo := PCI_DMA_L bus |> <| d_next_hi := PCI_DMA_H bus |>
                                <| d_control := DESC_MAGIC |>) ring)
  end.

(* @src xdma/libxdma.c:3325-3338 xdma_xfer_aperture *)
Definition ap_link (v bus desc_cnt : Z) (ring : list xdma_desc) : list xdma_desc :=
  let '(v, ring) := ap_link_loop (Z.to_nat (desc_cnt - 1)) v bus ring in
  upd_desc v (fun d => d <| d_next_lo := 0 |> <| d_next_hi := 0 |>
    <| d_control := lor_all [DESC_MAGIC; XDMA_DESC_STOPPED; XDMA_DESC_EOP; XDMA_DESC_COMPLETED] |>) ring.

(** [memset], then the fields set from the engine. *)
(* @src xdma/libxdma.c:3244-3266 xdma_xfer_aperture *)
Definition ap_start (dma_mapped : bool) (e : xdma_engine) : xdma_transfer :=
  let x := transfer_start e in
  if dma_mapped then x else x <| x_flags := XFER_FLAG_NEED_UNMAP |>.

(** The whole construction.  The table is walked from its first entry each time
    ([req->sg] is never advanced) but counted from [req->sg_idx].  [None]: no
    descriptor was built, and the linking loop, whose bound [desc_cnt - 1] is
    unsigned, runs out of the array. *)
(* @src xdma/libxdma.c:3236-3358 xdma_xfer_aperture *)
Definition aperture_build (e : xdma_engine) (req : xdma_request_cb) (id : Z)
    (sgt : sg_table) (dma_mapped : bool) (ep_addr_max maxlen sg_max : Z) :
    option (xdma_engine * xdma_request_cb * xdma_transfer) :=
  let xfer := ap_start dma_mapped e in
  let v := x_desc_virt xfer in
  let ep := u64 (rq_ep_addr req + Z.land (rq_offset req) (u32 (rq_aperture req - 1))) in
  let '(i, st) := ap_for (eng_dir e) (rq_ep_addr req) ep_addr_max maxlen sg_max (eng_desc_max e)
                    (sgt_sgl sgt) (rq_sg_idx req)
                    {| ap_ring := eng_ring e; ap_desc_idx := eng_desc_idx e; ap_desc_cnt := 0;
                       ap_ep_addr := ep; ap_sg_offset := rq_sg_offset req;
                       ap_offset := rq_offset req; ap_len := x_len xfer |} in
  let n := ap_desc_cnt st in
  if n =? 0 then None
  else
    let req := req <| rq_offset := ap_offset st |> <| rq_sg_offset := ap_sg_offset st |>
                   <| rq_sg_idx := i |> in
    let xfer := xfer <| x_len := ap_len st |> <| x_desc_adjacent := n |> <| x_desc_num := n |>
                     <| x_desc_cmpl_th := n |> in
    let e := upd_ring (fun _ => ap_ring st) (e <| eng_desc_used ::= fun u => s32 (u + n) |>) in
    let e := upd_ring (ap_link v (x_desc_bus xfer) n) e in
    let e := upd_ring (set_adjacent v n) e in
    let e := e <| eng_desc_idx := u32 (eng_desc_idx e + n) mod eng_desc_max e |> in
    let xfer := if rq_offset req =? rq_total_len req
                then xfer <| x_last_in_request := true |> <| x_sgt := Some id |> else xfer in
    Some (e, req, xfer).

Section Code.
Context {D : Type} `{Env D} (pm : params).
Variable sizeof_request_cb : Z.
Variable vmalloc_range : Z * Z.
Variable wait : xfer_ptr -> Z -> M (est D) unit.

(** Waiting for the transfer and collecting its result, as in
    [xdma_xfer_submit]; the result is [done] and [rv]. *)
(* @src xdma/libxdma.c:3371-3436 xdma_xfer_aperture *)
Definition aperture_collect (x : xfer_ptr) (timeout_ms done : Z) : M (est D) (Z * Z) :=
  wake_thread ;;
  wait x timeout_ms ;;
  t ← the_xfer x;
  '(done, rv) ←
    match x_state t with
    | TRANSFER_STATE_COMPLETED => mret (s64 (done + x_len t), 0)
    | TRANSFER_STATE_FAILED => mret (done, - EIO)
    | _ => rv ← submit_timed_out pm x; mret (done, rv)
    end;
  upd_engine (fun e => e <| eng_desc_used ::= fun u => s32 (u - x_desc_num t) |>) ;;
  transfer_destroy x ;;
  mret (done, rv).

(** The loop, for at most [fuel] rounds.  [None]: it did not end, or a round
    left the descriptor array. *)
(* @src xdma/libxdma.c:3236-3442 xdma_xfer_aperture *)
Fixpoint aperture_loop (fuel : nat) (xdev : xdma_dev) (p id : Z) (sgt : sg_table)
    (dma_mapped : bool) (timeout_ms ep_addr_max maxlen : Z) (req : xdma_request_cb) (done rv : Z) :
    M (est D) (option (Z * Z)) :=
  if rq_total_len req <=? rq_offset req then mret (Some (done, rv))
  else
    match fuel with
    | O => mret None
    | S fuel =>
        let x := (p, 0) in
        e ← the_engine;
        match aperture_build e req id sgt dma_mapped ep_addr_max maxlen (u32 (sgt_nents sgt)) with
        | None => mret None
        | Some (e, req, xfer) =>
            upd_engine (fun _ => e) ;;
            modify (fun s => s <| es_heap ::= <[x := xfer]> |>) ;;
            rv ← transfer_queue pm xdev x;
            if rv <? 0 then mret (Some (done, rv))
            else
              '(done, rv) ← aperture_collect x timeout_ms done;
              if rv <? 0 then mret (Some (done, rv))
              else aperture_loop fuel xdev p id sgt dma_mapped timeout_ms ep_addr_max maxlen req done rv
        end
    end.

(* @src xdma/libxdma.c:3155-3460 xdma_xfer_aperture *)
Definition xdma_xfer_aperture (fuel : nat) (xdev : xdma_dev) (write : bool) (ep_addr aperture sgt : Z)
    (dma_mapped : bool) (timeout_ms : Z) : M (est D) (option Z) :=
  let maxlen := Z.min aperture (desc_blen_max pm) in
  let ep_addr_max := u64 (ep_addr + aperture - 1) in
  e ← the_engine;
  match submit_checks xdev (if write then DMA_TO_DEVICE else DMA_FROM_DEVICE) e with
  | Some rv => mret (Some rv)
  | None =>
      if eng_streaming e then mret (Some (- EINVAL))
      else
        rv ← map_sgl dma_mapped sgt;
        if rv <? 0 then mret (Some rv)
        else
          t ← the_sgt sgt;
          p ← call (K_kzalloc sizeof_request_cb);
          if p =? 0 then unmap_sgl dma_mapped sgt ;; mret (Some (- ENOMEM))
          else
            let req := (request_zero sizeof_request_cb sizeof_request_cb) <| rq_sgt := sgt |> <| rq_ep_addr := ep_addr |>
                         <| rq_aperture := aperture |>
                         <| rq_total_len := sgl_total_len (mapped_sgl t) 0 |> in
            r ← aperture_loop fuel xdev p sgt t dma_mapped timeout_ms ep_addr_max maxlen req 0 0;
            match r with
            | None => mret None
            | Some (done, rv) =>
                unmap_sgl dma_mapped sgt ;; free_request vmalloc_range p ;;
                mret (Some (if nz done then done else rv))
            end
  end.
End Code.

(** ** What a round builds

    A descriptor as the three numbers it was set from. *)
Record piece := { pc_addr : Z; pc_ep : Z; pc_len : Z }.

Definition put_piece (dir : dma_data_direction) (i : Z) (c : piece) (ring : list xdma_desc) :
    list xdma_desc :=
  upd_desc i (fun d => xdma_desc_set d (pc_addr c) (pc_ep c) (pc_len c) dir) ring.

Fixpoint put_pieces (dir : dma_data_direction) (i : Z) (l : list piece) (ring : list xdma_desc) :
    list xdma_desc :=
  match l with
  | [] => ring
  | c :: l => put_pieces dir (i + 1) l (put_piece dir i c ring)
  end.

Definition pcs_len (l : list piece) : Z := sum_Z (pc_len <$> l).
Definition host_bytes (l : list piece) : list Z := mjoin ((fun c => seqZ (pc_addr c) (pc_len c)) <$> l).
Definition card_bytes (l : list piece) : list Z := mjoin ((fun c => seqZ (pc_ep c) (pc_len c)) <$> l).

(** Byte [k] of the request goes through byte [k mod aperture] of the window. *)
Definition window (base aperture k n : Z) : list Z := (fun j => base + j mod aperture) <$> seqZ k n.

Lemma pcs_len_cons c l : pcs_len (c :: l) = pc_len c + pcs_len l.
Proof. done. Qed.

Lemma pcs_len_app l1 l2 : pcs_len (l1 ++ l2) = pcs_len l1 + pcs_len l2.
Proof. unfold pcs_len. by rewrite fmap_app, sum_Z_app. Qed.

Lemma put_pieces_app dir i l1 l2 ring :
  put_pieces dir i (l1 ++ l2) ring
  = put_pieces dir (i + Z.of_nat (length l1)) l2 (put_pieces dir i l1 ring).
Proof.
  revert i ring. induction l1 as [|c l1 IH]; intros i ring; cbn [app put_pieces length].
  - by rewrite Z.add_0_r.
  - rewrite IH. by replace (i + 1 + Z.of_nat (length l1)) with (i + Z.of_nat (S (length l1))) by lia.
Qed.

Lemma length_put_pieces dir i l ring : length (put_pieces dir i l ring) = length ring.
Proof.
  revert i ring. induction l as [|c l IH]; intros; cbn [put_pieces]; [done|].
  unfold put_piece. by rewrite IH, length_upd_desc.
Qed.

Lemma lookup_put_pieces dir i l ring (k : nat) :
  0 <= i ->
  put_pieces dir i l ring !! k =
  if decide (i <= Z.of_nat k)
  then match l !! (k - Z.to_nat i)%nat with
       | Some c => (fun d => xdma_desc_set d (pc_addr c) (pc_ep c) (pc_len c) dir) <$> ring !! k
       | None => ring !! k end
  else ring !! k.
Proof.
  revert i ring. induction l as [|c l IH]; intros i ring Hi; cbn [put_pieces].
  - by case_decide.
  - rewrite IH by lia. unfold put_piece. rewrite lookup_upd_desc by lia.
    destruct (decide (Z.of_nat k = i)) as [E|E].
    + rewrite decide_False, decide_True by lia.
      by replace (k - Z.to_nat i)%nat with O by lia.
    + destruct (decide (i <= Z.of_nat k)); [rewrite decide_True by lia|by rewrite decide_False by lia].
      by replace (k - Z.to_nat i)%nat with (S (k - Z.to_nat (i + 1))) by lia.
Qed.

Lemma window_app base aperture k m n :
  0 <= m -> 0 <= n -> window base aperture k (m + n) = window base aperture k m ++ window base aperture (k + m) n.
Proof. intros. unfold window. by rewrite seqZ_app, fmap_app by lia. Qed.

(** A run that does not reach the end of the window. *)
Lemma window_run base aperture k n :
  0 < aperture -> 0 <= n <= aperture - k mod aperture ->
  window base aperture k n = seqZ (base + k mod aperture) n.
Proof.
  intros Ha Hn. apply list_eq. intros j. unfold window. rewrite list_lookup_fmap.
  destruct (decide (Z.of_nat j < n)).
  - rewrite !lookup_seqZ_lt by lia. cbn. f_equal. pose proof (Z.mod_pos_bound k aperture Ha).
    pose proof (Z.div_mod k aperture ltac:(lia)).
    replace ((k + Z.of_nat j) mod aperture) with (k mod aperture + Z.of_nat j); [lia|].
    apply (Z.mod_unique_pos _ _ (k / aperture)); lia.
  - by rewrite !lookup_seqZ_ge by lia.
Qed.

Section Window.
Context (dir : dma_data_direction) (base aperture maxlen sg_max desc_max : Z).
Context (Hap : 0 < aperture < 2 ^ 32) (Hbase : 0 <= base) (Hend : base + aperture + maxlen < 2 ^ 64)
  (Hmax : 0 < maxlen) (Hdesc : desc_max < 2 ^ 31).
Let ep_addr_max := base + aperture - 1.

(** Where the next byte goes: at its place in the window, or one past the end
    when that place is the beginning. *)
Definition ep_ok (off ep : Z) : Prop :=
  ep = base + off mod aperture \/ (ep = base + aperture /\ off mod aperture = 0).

(** [st] after the descriptors of [l], the last one ending at [ep]. *)
Definition ap_after (st : ap_state) (l : list piece) (ep : Z) : ap_state :=
  {| ap_ring := put_pieces dir (ap_desc_idx st) l (ap_ring st);
     ap_desc_idx := ap_desc_idx st + Z.of_nat (length l);
     ap_desc_cnt := ap_desc_cnt st + Z.of_nat (length l);
     ap_ep_addr := ep; ap_sg_offset := ap_sg_offset st + pcs_len l;
     ap_offset := ap_offset st + pcs_len l; ap_len := ap_len st + pcs_len l |}.

(** Room for [n] more bytes in the 32-bit counters. *)
Record ap_room (st : ap_state) (n : Z) : Prop := {
  room_ep : ep_ok (ap_offset st) (ap_ep_addr st);
  room_sgo : 0 <= ap_sg_offset st /\ ap_sg_offset st + n < 2 ^ 32;
  room_off : 0 <= ap_offset st /\ ap_offset st + n < 2 ^ 32;
  room_len : 0 <= ap_len st /\ ap_len st + n < 2 ^ 32;
  room_idx : 0 <= ap_desc_idx st <= desc_max;
  room_cnt : 0 <= ap_desc_cnt st <= ap_desc_idx st;
}.

Lemma ap_one_eq st addr tlen :
  0 < tlen -> ap_room st tlen -> ap_desc_idx st < desc_max ->
  let m := ap_offset st mod aperture in
  let c := {| pc_addr := addr; pc_ep := base + m; pc_len := Z.min tlen (Z.min maxlen (aperture - m)) |} in
  ap_one dir base ep_addr_max maxlen st addr tlen = (ap_after st [c] (pc_ep c + pc_len c), pc_len c)
  /\ 0 < pc_len c <= tlen
  /\ seqZ (pc_ep c) (pc_len c) = window base aperture (ap_offset st) (pc_len c)
  /\ ep_ok (ap_offset st + pc_len c) (pc_ep c + pc_len c).
Proof using Hap Hbase Hdesc Hend Hmax.
  intros Ht [Hep Hsgo Hoff Hlen Hidx Hcnt] Hlt m c.
  pose proof (Z.mod_pos_bound (ap_offset st) aperture ltac:(lia)) as Hm. fold m in Hm.
  assert (0 < pc_len c <= tlen /\ pc_len c <= aperture - m) as [Hc1 Hc2] by (subst c; cbn; lia).
  split; [|split; [done|split]].
  - assert ((if ep_addr_max <? ap_ep_addr st then base else ap_ep_addr st) = base + m) as E.
    { unfold ep_ok in Hep. fold m in Hep. subst ep_addr_max.
      destruct (Z.ltb_spec (base + aperture - 1) (ap_ep_addr st)); lia. }
    unfold ap_one. cbv zeta. rewrite E. rewrite (u64_small (base + m + Z.min tlen maxlen)) by lia.
    assert ((if ep_addr_max <? base + m + Z.min tlen maxlen then u32 (ep_addr_max - (base + m) + 1)
             else Z.min tlen maxlen) = pc_len c) as ->.
    { subst c ep_addr_max. cbn [pc_len].
      destruct (Z.ltb_spec (base + aperture - 1) (base + m + Z.min tlen maxlen)); [rewrite u32_small by lia|]; lia. }
    clear E. unfold ap_after. cbn [put_pieces length]. unfold put_piece. rewrite pcs_len_cons.
    change (pcs_len []) with 0. change (pc_ep c) with (base + m). change (pc_addr c) with addr.
    f_equal. destruct st. unfold set_field. cbn in *. f_equal; rewrite ?Z.add_0_r; apply u32_small || apply u64_small; lia.
  - subst c. cbn [pc_ep pc_len] in *. by rewrite window_run by lia.
  - unfold ep_ok. subst c. cbn [pc_ep pc_len] in *. set (n := Z.min tlen _) in *.
    pose proof (Z.div_mod (ap_offset st) aperture ltac:(lia)) as Hd. fold m in Hd.
    destruct (decide (m + n = aperture)) as [E|E].
    + right. split; [lia|]. symmetry. apply (Z.mod_unique_pos _ _ (ap_offset st / aperture + 1)); lia.
    + left. replace ((ap_offset st + n) mod aperture) with (m + n); [lia|].
      apply (Z.mod_unique_pos _ _ (ap_offset st / aperture)); lia.
Qed.

Lemma ap_after_nil st : ap_after st [] (ap_ep_addr st) = st.
Proof using Type. clear ep_addr_max. destruct st. unfold ap_after. cbn. by rewrite !Z.add_0_r. Qed.

Lemma ap_after_app st l1 ep1 l2 ep2 :
  ap_after (ap_after st l1 ep1) l2 ep2 = ap_after st (l1 ++ l2) ep2.
Proof using Type.
  clear ep_addr_max. unfold ap_after. cbn [ap_ring ap_desc_idx ap_desc_cnt ap_sg_offset ap_offset ap_len].
  rewrite put_pieces_app, length_app, pcs_len_app. f_equal; lia.
Qed.

Lemma ap_room_after st l ep n :
  ap_room st n -> 0 <= pcs_len l <= n -> ep_ok (ap_offset st + pcs_len l) ep ->
  ap_desc_idx st + Z.of_nat (length l) <= desc_max -> ap_room (ap_after st l ep) (n - pcs_len l).
Proof using Type. clear ep_addr_max. intros [? ? ? ? ? ?] ? ? ?. constructor; cbn; try done; lia. Qed.

(** The pieces [l] cover the next [n] bytes at [addr]. *)
Record covers (st : ap_state) (addr : Z) (l : list piece) (ep : Z) : Prop := {
  cv_host : host_bytes l = seqZ addr (pcs_len l);
  cv_card : card_bytes l = window base aperture (ap_offset st) (pcs_len l);
  cv_ep : ep_ok (ap_offset st + pcs_len l) ep;
  cv_room : ap_desc_idx st + Z.of_nat (length l) <= desc_max;
  cv_pos : Forall (fun c => 0 < pc_len c <= maxlen) l;
}.

Lemma ap_while_spec fuel st addr tlen :
  0 <= tlen -> ap_room st tlen -> 0 <= addr -> addr + tlen < 2 ^ 64 ->
  ap_desc_idx st < desc_max -> Z.of_nat fuel = desc_max - ap_desc_idx st ->
  exists l ep,
    ap_while dir base ep_addr_max maxlen desc_max fuel st addr tlen
    = (ap_after st l ep, tlen - pcs_len l)
    /\ 0 <= pcs_len l <= tlen /\ covers st addr l ep
    /\ (pcs_len l = tlen \/ ap_desc_idx st + Z.of_nat (length l) = desc_max).
Proof using Hap Hbase Hdesc Hend Hmax.
  revert st addr tlen. induction fuel as [|fuel IH]; intros st addr tlen Ht Hr Ha Hat Hlt Hf; [lia|].
  cbn [ap_while]. destruct (Z.eqb_spec tlen 0) as [->|Hz].
  { exists [], (ap_ep_addr st). rewrite ap_after_nil. change (pcs_len []) with 0. split_and!; [done|lia|lia| |auto].
    constructor; cbn; [done|done|rewrite Z.add_0_r; apply Hr|lia|constructor]. }
  destruct (ap_one_eq st addr tlen ltac:(lia) Hr Hlt) as (E & Hc & Hw & He).
  rewrite E. clear E. set (c := Build_piece _ _ _) in *.
  assert (pc_len c <= maxlen) as Hcm by (subst c; cbn; lia). set (n := pc_len c) in *.
  assert (pcs_len [c] = n) as Hpc by (unfold pcs_len; cbn; fold n; lia).
  pose proof (ap_room_after st [c] (pc_ep c + n) tlen Hr ltac:(lia)) as Hr'. rewrite Hpc in Hr'.
  specialize (Hr' He ltac:(cbn [length]; lia)).
  pose proof (room_off _ _ Hr). rewrite u32_small by lia.
  assert (host_bytes [c] = seqZ addr n /\ card_bytes [c] = window base aperture (ap_offset st) n) as [Hh Hcb].
  { unfold host_bytes, card_bytes. cbn [fmap list_fmap]. rewrite !mjoin_cons. cbn. rewrite !app_nil_r. done. }
  change (ap_desc_idx (ap_after st [c] (pc_ep c + n))) with (ap_desc_idx st + 1) in *.
  destruct (Z.eqb_spec (ap_desc_idx st + 1) desc_max) as [Ed|Ed].
  - exists [c], (pc_ep c + n). rewrite Hpc. split_and!; [done|lia|lia| |cbn [length]; lia].
    constructor; rewrite ?Hpc; [done|done|done|cbn [length]; lia|].
    apply Forall_singleton. fold n. lia.
  - rewrite (u64_small (addr + n)) by lia.
    destruct (IH _ (addr + n) (tlen - n) ltac:(lia) Hr' ltac:(lia) ltac:(lia)) as (l & ep & E & Hl & [C1 C2 C3 C4 C5] & Hd);
      [cbn; lia|cbn; lia|].
    exists (c :: l), ep. rewrite E, ap_after_app. cbn [app]. rewrite pcs_len_cons. fold n.
    cbn [ap_offset ap_after ap_desc_idx] in C2, C3, C4, Hd. rewrite Hpc in C2, C3.
    change (Z.of_nat (length [c])) with 1 in *.
    assert (Z.of_nat (length (c :: l)) = 1 + Z.of_nat (length l)) as Hl' by (cbn [length]; lia).
    split_and!; [f_equal; lia|lia|lia| |rewrite Hl'; lia].
    constructor; rewrite ?pcs_len_cons; fold n.
    + change (c :: l) with ([c] ++ l). unfold host_bytes in *. rewrite fmap_app, mjoin_app, Hh, C1.
      by rewrite seqZ_app by lia.
    + change (c :: l) with ([c] ++ l). unfold card_bytes in *. rewrite fmap_app, mjoin_app, Hcb, C2.
      by rewrite window_app by lia.
    + by rewrite Z.add_assoc.
    + rewrite Hl'. lia.
    + constructor; [fold n; lia|done].
Qed.

Lemma ap_room_mono st n m : ap_room st n -> m <= n -> ap_room st m.
Proof using Type. clear ep_addr_max. intros [? ? ? ? ? ?] ?. constructor; try done; lia. Qed.

Lemma ap_room_sgo st n : ap_room st n -> n < 2 ^ 32 -> ap_room (st <| ap_sg_offset := 0 |>) n.
Proof using Type. clear ep_addr_max. intros [? ? ? ? ? ?] ?. constructor; cbn; try done; lia. Qed.

(** The pieces [l] are a prefix of the bytes of the table [sg]. *)
Record covers_table (st : ap_state) (sg : list sg_entry) (l : list piece) (ep : Z) : Prop := {
  ct_host : host_bytes l `prefix_of` mjoin (sg_bytes <$> sg);
  ct_len : 0 <= pcs_len l <= sum_Z (sg_dma_len <$> sg);
  ct_card : card_bytes l = window base aperture (ap_offset st) (pcs_len l);
  ct_ep : ep_ok (ap_offset st + pcs_len l) ep;
  ct_room : ap_desc_idx st + Z.of_nat (length l) <= desc_max;
  ct_done : pcs_len l = sum_Z (sg_dma_len <$> sg) \/ ap_desc_idx st + Z.of_nat (length l) = desc_max;
  ct_pos : Forall (fun c => 0 < pc_len c <= maxlen) l;
}.

Lemma sg_lens_nonneg sg : Forall sg_ok sg -> 0 <= sum_Z (sg_dma_len <$> sg).
Proof using Type.
  clear ep_addr_max. intros H. apply sum_Z_nonneg, Forall_fmap. apply (Forall_impl _ _ _ H). intros s (? & _). cbn. lia.
Qed.

Lemma covers_table_nil st sg :
  ap_room st 0 -> Forall sg_ok sg -> (sg = [] \/ ap_desc_idx st = desc_max) ->
  covers_table st sg [] (ap_ep_addr st).
Proof using Type.
  clear ep_addr_max. intros Hr Hok Hor. pose proof (sg_lens_nonneg sg Hok). constructor.
  - apply prefix_nil.
  - change (pcs_len []) with 0. lia.
  - done.
  - change (pcs_len []) with 0. rewrite Z.add_0_r. apply Hr.
  - cbn. destruct Hr. lia.
  - cbn [length]. change (pcs_len []) with 0. destruct Hor as [->|]; [by left|right; lia].
  - constructor.
Qed.

Lemma covers_table_app st s sg l1 ep1 l2 ep2 :
  sg_ok s -> covers st (sg_dma_address s) l1 ep1 -> pcs_len l1 = sg_dma_len s ->
  covers_table ((ap_after st l1 ep1) <| ap_sg_offset := 0 |>) sg l2 ep2 ->
  covers_table st (s :: sg) (l1 ++ l2) ep2.
Proof using Type.
  clear ep_addr_max. intros (Hs & _) [C1 C2 _ _ C5] Hl [D1 D2 D3 D4 D5 D6 D7].
  cbn [ap_offset ap_after ap_desc_idx] in *. fld.
  constructor; rewrite ?fmap_cons, ?sum_Z_cons, ?pcs_len_app, ?length_app.
  - unfold host_bytes in *. rewrite fmap_app, mjoin_app, C1, Hl, mjoin_cons. by apply prefix_app.
  - lia.
  - unfold card_bytes in *. rewrite fmap_app, mjoin_app, C2. cbn in D3. rewrite D3, Hl. by rewrite window_app by lia.
  - rewrite Z.add_assoc. exact D4.
  - cbn in D5. lia.
  - cbn in D6. lia.
  - by apply Forall_app.
Qed.

Lemma ap_for_spec sg i st :
  Forall sg_ok sg -> ap_sg_offset st = 0 -> sum_Z (sg_dma_len <$> sg) < 2 ^ 32 ->
  ap_room st (sum_Z (sg_dma_len <$> sg)) ->
  exists i' l ep sgo,
    ap_for dir base ep_addr_max maxlen sg_max desc_max sg i st
    = (i', (ap_after st l ep) <| ap_sg_offset := sgo |>)
    /\ covers_table st (take (Z.to_nat (sg_max - i)) sg) l ep.
Proof using Hap Hbase Hdesc Hend Hmax.
  revert i st. induction sg as [|s sg IH]; intros i st Hok Ho Hlt Hr.
  { exists i, [], (ap_ep_addr st), 0. rewrite take_nil. cbn [ap_for]. split.
    - rewrite ap_after_nil. destruct st. cbn in *. by subst.
    - apply covers_table_nil; [done|done|by left]. }
  cbn [ap_for]. rewrite fmap_cons, sum_Z_cons in *. inversion Hok as [|? ? Hs Hok']; subst.
  pose proof (sg_lens_nonneg sg Hok') as Hpos. destruct Hs as (Hs1 & Hs2 & Hs3).
  assert (forall sg', Forall sg_ok sg' -> (sg' = [] \/ ap_desc_idx st = desc_max) ->
     exists i' l ep sgo, (i, st) = (i', (ap_after st l ep) <| ap_sg_offset := sgo |>) /\ covers_table st sg' l ep) as Hstop.
  { intros sg' Hok2 Hor. exists i, [], (ap_ep_addr st), 0. split.
    - rewrite ap_after_nil. destruct st. cbn in *. by subst.
    - apply covers_table_nil; [|done|done]. by eapply ap_room_mono; [exact Hr|lia]. }
  destruct (Z.ltb_spec i sg_max) as [Hi|Hi]; cbn [andb].
  2: { replace (Z.to_nat (sg_max - i)) with O by lia. by apply Hstop; [|left]. }
  destruct (Z.ltb_spec (ap_desc_idx st) desc_max) as [Hd|Hd].
  2: { apply Hstop; [by apply Forall_take|right]. pose proof (room_idx _ _ Hr). lia. }
  rewrite Ho. change (nz 0) with false. cbv iota.
  destruct (ap_while_spec (Z.to_nat (desc_max - ap_desc_idx st)) st (sg_dma_address s) (sg_dma_len s))
    as (l1 & ep1 & E & Hl1 & Hc & Hend1); [lia|by eapply ap_room_mono; [exact Hr|lia]|done|lia|done|lia|].
  rewrite E. replace (Z.to_nat (sg_max - i)) with (S (Z.to_nat (sg_max - (i + 1)))) by lia. cbn [take].
  destruct (Z.eqb_spec (sg_dma_len s - pcs_len l1) 0) as [Hz|Hz].
  - pose proof (ap_room_after st l1 ep1 _ Hr ltac:(lia) (cv_ep _ _ _ _ Hc) (cv_room _ _ _ _ Hc)) as Hr1.
    apply (ap_room_mono _ _ (sum_Z (sg_dma_len <$> sg))) in Hr1; [|lia].
    apply ap_room_sgo in Hr1; [|lia].
    match type of Hr1 with ap_room ?st1 _ => assert (ap_sg_offset st1 = 0) as Hz1 by done end.
    destruct (IH (i + 1) _ Hok' Hz1 ltac:(lia) Hr1) as (i' & l2 & ep2 & sgo & E2 & Hc2).
    exists i', (l1 ++ l2), ep2, sgo. split; [|apply (covers_table_app _ _ _ _ ep1); done || lia].
    rewrite E2, <- (ap_after_app st l1 ep1). done.
  - exists i, l1, ep1, (pcs_len l1). split; [unfold ap_after; f_equal; cbn; by rewrite Ho|].
    destruct Hc as [C1 C2 C3 C4 C5]. pose proof (sg_lens_nonneg _ (Forall_take _ (Z.to_nat (sg_max - (i + 1))) _ Hok')).
    constructor; rewrite ?fmap_cons, ?sum_Z_cons; [|lia|done|done|done|lia|done].
    rewrite C1, mjoin_cons. unfold sg_bytes at 1.
    replace (sg_dma_len s) with (pcs_len l1 + (sg_dma_len s - pcs_len l1)) by lia.
    rewrite seqZ_app, <- app_assoc by lia. by apply prefix_app_r.
Qed.
End Window.

(** *** Linking *)

Definition link_one (next : Z) (d : xdma_desc) : xdma_desc :=
  d <| d_next_lo := PCI_DMA_L next |> <| d_next_hi := PCI_DMA_H next |> <| d_control := DESC_MAGIC |>.

Definition link_last (d : xdma_desc) : xdma_desc :=
  d <| d_next_lo := 0 |> <| d_next_hi := 0 |>
    <| d_control := lor_all [DESC_MAGIC; XDMA_DESC_STOPPED; XDMA_DESC_EOP; XDMA_DESC_COMPLETED] |>.

Lemma ap_link_loop_eq n v bus ring :
  0 <= bus -> bus + 32 * Z.of_nat n < 2 ^ 64 ->
  ap_link_loop n v bus ring =
  (v + Z.of_nat n, ring_for n 0 v (fun j => link_one (bus + 32 * (j + 1))) ring).
Proof.
  intros Hb Hn. assert (forall i, ap_link_loop n (v + i) bus ring =
    (v + i + Z.of_nat n, ring_for n i v (fun j => link_one (bus + 32 * (j - i + 1))) ring)) as Hi.
  - revert bus ring Hb Hn. induction n as [|n IH]; intros bus ring Hb Hn i; cbn [ap_link_loop ring_for].
    + f_equal. lia.
    + unfold sizeof_xdma_desc. rewrite u64_small by lia.
      rewrite <- Z.add_assoc, IH by lia. f_equal; [lia|].
      replace (bus + 32 * (i - i + 1)) with (bus + 32) by lia.
      apply ring_for_ext. intros j d _. by replace (bus + 32 + 32 * (j - (i + 1) + 1))
        with (bus + 32 * (j - i + 1)) by lia.
  - specialize (Hi 0). rewrite Z.add_0_r in Hi. rewrite Hi. f_equal. apply ring_for_ext.
    intros j d _. by rewrite Z.sub_0_r.
Qed.

Lemma lookup_ap_link v bus n ring (k : nat) :
  0 <= v -> 0 < n -> 0 <= bus -> bus + 32 * n < 2 ^ 64 ->
  ap_link v bus n ring !! k =
  if decide (v <= Z.of_nat k < v + n)
  then (if decide (Z.of_nat k = v + n - 1) then link_last
        else link_one (bus + 32 * (Z.of_nat k - v + 1))) <$> ring !! k
  else ring !! k.
Proof.
  intros. unfold ap_link. rewrite ap_link_loop_eq by lia.
  rewrite lookup_upd_desc by lia. rewrite lookup_ring_for by lia.
  destruct (decide (Z.of_nat k = v + Z.of_nat (Z.to_nat (n - 1)))) as [E|E].
  - rewrite (decide_False (P := v + 0 <= _ < _)) by lia. rewrite !decide_True by lia. done.
  - destruct (decide (v <= Z.of_nat k < v + n)).
    + by rewrite decide_True, decide_False by lia.
    + by rewrite decide_False by lia.
Qed.

Lemma length_ap_link v bus n ring : length (ap_link v bus n ring) = length ring.
Proof.
  unfold ap_link. assert (forall m i b r, length (ap_link_loop m i b r).2 = length r) as Hl.
  { intros m. induction m as [|m IH]; intros; cbn [ap_link_loop]; [done|]. by rewrite IH, length_upd_desc. }
  specialize (Hl (Z.to_nat (n - 1)) v bus ring). destruct (ap_link_loop _ _ _ _). by rewrite length_upd_desc.
Qed.

(** What a finished descriptor says: the piece [c], [j]-th of [n], at bus
    address [bus + 32 * j]. *)
Record piece_ok (dir : dma_data_direction) (bus n j : Z) (c : piece) (d : xdma_desc) : Prop := {
  po_bytes : d_bytes d = pc_len c;
  po_src : desc_src d = if dir_eqb dir DMA_TO_DEVICE then pc_addr c else pc_ep c;
  po_dst : desc_dst d = if dir_eqb dir DMA_TO_DEVICE then pc_ep c else pc_addr c;
  po_next : desc_next d = if decide (j = n - 1) then 0 else bus + 32 * (j + 1);
  po_flags : desc_flags d = if decide (j = n - 1) then 0x13 else 0;
  po_magic : desc_magic d = 0xAD4B;
}.

Lemma linked_piece_ok dir bus n j c d0 :
  0 <= pc_addr c < 2 ^ 64 -> 0 <= pc_ep c < 2 ^ 64 -> 0 <= pc_len c < 2 ^ 32 ->
  0 <= bus -> bus + 32 * n < 2 ^ 64 -> 0 <= j < n -> n < 2 ^ 31 ->
  let d := (if decide (j = n - 1) then link_last else link_one (bus + 32 * (j + 1)))
             (xdma_desc_set d0 (pc_addr c) (pc_ep c) (pc_len c) dir) in
  piece_ok dir bus n j c (xdma_desc_adjacent d (xdma_get_next_adj (n - j - 1) (d_next_lo d))).
Proof.
  intros Ha He Hl Hb Hn Hj Hn31 d. set (adj := xdma_get_next_adj _ _).
  assert (0 <= d_next_lo d) as Hlo.
  { subst d. case_decide; unfold link_last, link_one; fld; [lia|]. apply Z.land_nonneg. lia. }
  destruct (get_next_adj_range (n - j - 1) (d_next_lo d)) as (Hadj & _); [lia|done|]. fold adj in Hadj.
  destruct (adjacent_rest d adj) as (A1 & A2 & A3 & A4 & A5).
  assert (desc_flags d = if decide (j = n - 1) then 0x13 else 0) as Hf.
  { subst d. by destruct (decide (j = n - 1)). }
  constructor; rewrite ?A1, ?A2, ?A3, ?A4; rewrite ?desc_flags_adjacent; try done;
    [| | | |apply desc_magic_adjacent; lia]; subst d; clear adj A1 A2 A3 A4 A5 Hlo Hadj Hf;
    unfold xdma_desc_set, link_last, link_one, desc_src, desc_dst, desc_next;
    case_decide; destruct dir; cbn [dir_eqb]; fld; rewrite ?u32_small, ?PCI_DMA_word64 by lia; done.
Qed.

(** *** The pieces are where they should be *)

Lemma piece_in_host l c :
  c ∈ l -> 0 < pc_len c -> pc_addr c ∈ host_bytes l /\ pc_ep c ∈ card_bytes l.
Proof.
  intros Hc Hl. unfold host_bytes, card_bytes. split; apply list_elem_of_join;
    eexists; (split; [apply elem_of_seqZ|apply list_elem_of_fmap; exists c; split; [reflexivity|done]]); lia.
Qed.

Lemma sg_bytes_range sg a :
  Forall sg_ok sg -> a ∈ mjoin (sg_bytes <$> sg) -> 0 <= a < 2 ^ 64.
Proof.
  intros Hok Ha. apply list_elem_of_join in Ha as (b & Ha & Hb). apply list_elem_of_fmap in Hb as (s & -> & Hs).
  pose proof (proj1 (Forall_forall _ _) Hok s Hs) as (? & ? & ?). unfold sg_bytes in Ha.
  apply elem_of_seqZ in Ha. lia.
Qed.

Lemma window_range base aperture k n a :
  0 < aperture -> a ∈ window base aperture k n -> base <= a < base + aperture.
Proof.
  intros Hap Ha. unfold window in Ha. apply list_elem_of_fmap in Ha as (j & -> & _).
  pose proof (Z.mod_pos_bound j aperture Hap). lia.
Qed.

Lemma pcs_len_pos (m : Z) l : Forall (fun c => 0 < pc_len c <= m) l -> l <> [] -> 0 < pcs_len l.
Proof.
  intros Hl Hne. destruct Hl as [|c l Hc Hl]; [done|]. rewrite pcs_len_cons.
  assert (0 <= pcs_len l); [|lia]. apply sum_Z_nonneg, Forall_fmap.
  apply (Forall_impl _ _ _ Hl). intros x ?. cbn. lia.
Qed.

Lemma list_lens_nonneg sg : Forall sg_ok sg -> 0 <= sum_Z (sg_dma_len <$> sg).
Proof.
  intros H. apply sum_Z_nonneg, Forall_fmap. apply (Forall_impl _ _ _ H). intros s (? & _). cbn. lia.
Qed.

(** The ring after linking and the adjacency pass. *)
Section Ring.
Context (dir : dma_data_direction) (v bus : Z) (l : list piece) (ring : list xdma_desc) (m : Z).
Context (Hv : 0 <= v) (Hbus : 0 <= bus) (Hne : l <> []).
Let n := Z.of_nat (length l).
Context (Hroom : v + n <= Z.of_nat (length ring)) (Hn : n < 2 ^ 31) (Hend : bus + 32 * n < 2 ^ 64).
Context (Hrange : Forall (fun c => 0 <= pc_addr c < 2 ^ 64 /\ 0 <= pc_ep c < 2 ^ 64 /\ 0 <= pc_len c < 2 ^ 32) l).

Definition ap_final : list xdma_desc :=
  set_adjacent v n (ap_link v bus n (put_pieces dir v l ring)).

Lemma length_ap_final : length ap_final = length ring.
Proof using Type. unfold ap_final, set_adjacent. by rewrite length_ring_for, length_ap_link, length_put_pieces. Qed.

Lemma ap_final_at j c :
  l !! j = Some c ->
  exists d, ap_final !! (Z.to_nat v + j)%nat = Some d /\ piece_ok dir bus n (Z.of_nat j) c d.
Proof using Hbus Hend Hn Hrange Hroom Hv.
  intros Hc. pose proof (lookup_lt_Some _ _ _ Hc) as Hj.
  destruct (lookup_lt_is_Some_2 ring (Z.to_nat v + j)) as [d0 Hd0]; [lia|].
  unfold ap_final, set_adjacent. rewrite lookup_ring_for by lia. rewrite decide_True by lia.
  rewrite lookup_ap_link by lia. rewrite decide_True by lia.
  rewrite lookup_put_pieces by lia. rewrite (decide_True (P := v <= Z.of_nat (Z.to_nat v + j))) by lia.
  replace (Z.to_nat v + j - Z.to_nat v)%nat with j by lia. rewrite Hc, Hd0. cbn [fmap option_fmap option_map].
  eexists. split; [done|]. replace (Z.of_nat (Z.to_nat v + j) - v) with (Z.of_nat j) by lia.
  destruct (Forall_lookup_1 _ _ _ _ Hrange Hc) as (? & ? & ?).
  pose proof (linked_piece_ok dir bus n (Z.of_nat j) c d0) as Hok. cbv zeta in Hok.
  destruct (decide (Z.of_nat j = n - 1)).
  - rewrite decide_True by lia. apply Hok; lia.
  - rewrite decide_False by lia. apply Hok; lia.
Qed.

Lemma ap_final_chain base :
  base + 32 * v = bus ->
  fetch_chain (S (length l)) (ring_mem base ap_final) bus
  = Some (take (length l) (drop (Z.to_nat v) ap_final)).
Proof using All.
  intros Hb. assert (length l <> O) by (by destruct l).
  pose proof (fetch_run base ap_final (length l) v) as Hrun. rewrite Hb in Hrun. apply Hrun; [lia|lia|].
  intros j Hj. destruct (lookup_lt_is_Some_2 l (Z.to_nat j)) as [c Hc]; [lia|].
  destruct (ap_final_at _ _ Hc) as (d & Hd & Hok). exists d.
  replace (Z.to_nat v + Z.to_nat j)%nat with (Z.to_nat (v + j)) in Hd by lia.
  split; [done|]. destruct Hok as [_ _ _ Hx Hf _]. rewrite Z2Nat.id in * by lia. split.
  - rewrite desc_stop_flags, Hf. by destruct (decide (j = n - 1));
      [rewrite bool_decide_true|rewrite bool_decide_false].
  - intros. rewrite Hx, decide_False by lia. lia.
Qed.
End Ring.

(** Pieces that cover a table, folded into a window, have addresses and lengths that fit. *)
Lemma pieces_range sg l base aperture maxlen :
  Forall sg_ok sg -> host_bytes l `prefix_of` mjoin (sg_bytes <$> sg) -> card_bytes l = window base aperture 0 (pcs_len l) ->
  Forall (fun c => 0 < pc_len c <= maxlen) l -> 0 < maxlen <= aperture -> 0 < aperture < 2 ^ 32 -> 0 <= base -> base + aperture <= 2 ^ 64 ->
  Forall (fun c => 0 <= pc_addr c < 2 ^ 64 /\ 0 <= pc_ep c < 2 ^ 64 /\ 0 <= pc_len c < 2 ^ 32) l.
Proof.
  intros Hok [rest C1] C3 C7 Hm Hap Hb Hend. apply Forall_forall. intros c Hc.
  pose proof (proj1 (Forall_forall _ _) C7 c Hc) as Hcl. cbn in Hcl.
  destruct (piece_in_host l c Hc ltac:(lia)) as [Hh Hcd]. rewrite C3 in Hcd. apply window_range in Hcd; [|lia].
  assert (pc_addr c ∈ mjoin (sg_bytes <$> sg)) as Hin by (rewrite C1; apply elem_of_app; by left).
  apply sg_bytes_range in Hin; [lia|done].
Qed.

(** A request before its first round. *)
Record fresh (base aperture : Z) (req : xdma_request_cb) : Prop := {
  fresh_base : rq_ep_addr req = base;
  fresh_aperture : rq_aperture req = aperture;
  fresh_start : rq_offset req = 0 /\ rq_sg_idx req = 0 /\ rq_sg_offset req = 0;
}.

(** C25 The first round of [xdma_xfer_aperture] describes a prefix of the mapped
    table, as long as the rest of the descriptor ring allows: the host bytes of
    the descriptors are the table's, in order; byte [k] of them is exchanged
    with byte [k mod aperture] of the card's window, so no descriptor reaches
    outside it; and the engine fetches exactly these descriptors, linked, the
    last one stopping it. *)
Theorem aperture_window e req id sgt mapped base aperture maxlen :
  ring_ok e -> fresh base aperture req -> Forall sg_ok (sgt_sgl sgt) ->
  0 < aperture < 2 ^ 32 -> 0 <= base -> base + aperture + maxlen < 2 ^ 64 -> 0 < maxlen <= aperture ->
  0 < sum_Z (sg_dma_len <$> mapped_sgl sgt) -> sum_Z (sg_dma_len <$> sgt_sgl sgt) < 2 ^ 32 ->
  exists e' req' x l ds,
    aperture_build e req id sgt mapped (base + aperture - 1) maxlen (u32 (sgt_nents sgt))
    = Some (e', req', x)
    /\ 0 < pcs_len l /\ x_len x = pcs_len l /\ rq_offset req' = pcs_len l
    /\ x_desc_num x = Z.of_nat (length l)
    /\ host_bytes l `prefix_of` mjoin (sg_bytes <$> mapped_sgl sgt)
    /\ card_bytes l = window base aperture 0 (pcs_len l)
    /\ (pcs_len l = sum_Z (sg_dma_len <$> mapped_sgl sgt)
        \/ eng_desc_idx e + Z.of_nat (length l) = eng_desc_max e)
    /\ fetch_chain (S (length l)) (ring_mem (eng_desc_bus e') (eng_ring e')) (x_desc_bus x) = Some ds
    /\ length ds = length l
    /\ (forall j c d, l !! j = Some c -> ds !! j = Some d ->
          piece_ok (eng_dir e) (x_desc_bus x) (Z.of_nat (length l)) (Z.of_nat j) c d).
Proof.
  intros He [Hb Ha (Ho & Hi & Hso)] Hok Hap Hbase Hend Hmax Hpos Htot.
  pose proof (ring_max _ He). pose proof (ring_idx _ He). pose proof (ring_len _ He) as Hlen.
  pose proof (ring_bus _ He). unfold XDMA_ENGINE_XFER_MAX_DESC in *.
  unfold aperture_build. rewrite Hb, Ha, Ho, Hi, Hso, Z.land_0_l, Z.add_0_r, u64_small by lia.
  change (x_len (ap_start mapped e)) with 0 || (assert (x_len (ap_start mapped e) = 0) as -> by (by destruct mapped)).
  set (st0 := Build_ap_state _ _ _ _ _ _ _).
  destruct (ap_for_spec (eng_dir e) base aperture maxlen (u32 (sgt_nents sgt)) (eng_desc_max e)
              Hap Hbase Hend (proj1 Hmax) ltac:(lia) (sgt_sgl sgt) 0 st0 Hok eq_refl Htot)
    as (i' & l & ep & sgo & E & [C1 C2 C3 C4 C5 C6 C7]).
  { constructor; cbn; try lia. left. rewrite Z.mod_0_l by lia. lia. }
  rewrite E. rewrite Z.sub_0_r in *. fold (first_sgl (u32 (sgt_nents sgt)) sgt) in *.
  fold (mapped_sgl sgt) in *.
  assert (l <> []) as Hne.
  { intros ->. destruct C6 as [C6|C6]; [change (pcs_len []) with 0 in C6; lia|cbn in C6; lia]. }
  assert (Z.of_nat (length l) <> 0) as Hn0 by (by destruct l).
  pose proof (pcs_len_pos _ _ C7 Hne) as Hlpos.
  change (ap_desc_idx st0) with (eng_desc_idx e) in *. change (ap_offset st0) with 0 in *.
  destruct (transfer_start_bus e He) as [Hbus _].
  assert (x_desc_bus (ap_start mapped e) = eng_desc_bus e + 32 * eng_desc_idx e) as Hxb by (by destruct mapped).
  assert (x_desc_virt (ap_start mapped e) = eng_desc_idx e) as Hxv by (by destruct mapped).
  pose proof (pieces_range _ l base aperture maxlen (Forall_take _ _ _ Hok) C1 C3 C7 Hmax ltac:(lia) Hbase ltac:(lia)) as Hrange.
  fld. cbn [ap_desc_cnt ap_after]. change (ap_desc_cnt st0 + ?a) with a.
  rewrite Hxv, Hxb. destruct (Z.eqb_spec (Z.of_nat (length l)) 0); [done|].
  set (bus := eng_desc_bus e + 32 * eng_desc_idx e) in *.
  set (ring' := ap_final (eng_dir e) (eng_desc_idx e) bus l (eng_ring e)).
  match goal with |- context [Some (?e1, ?r1, ?x1)] => set (e' := e1); set (req' := r1); set (x := x1) end.
  assert (x_len x = pcs_len l /\ x_desc_num x = Z.of_nat (length l) /\ x_desc_bus x = bus)
    as (X1 & X2 & X3) by (subst x; case_match; by split_and!).
  assert (eng_ring e' = ring') as Hring.
  { subst e'. unfold upd_ring, eng_ring in *. fld. destruct (eng_desc e); [done|]. cbn in Hlen. lia. }
  pose proof (length_ap_final (eng_dir e) (eng_desc_idx e) bus l (eng_ring e)) as Hlf. fold ring' in Hlf.
  exists e', req', x, l, (take (length l) (drop (Z.to_nat (eng_desc_idx e)) ring')). rewrite X1, X2, X3, Hring.
  split_and!; try done.
  - apply ap_final_chain; done || lia.
  - rewrite length_take, length_drop. lia.
  - intros j c d Hc Hd. pose proof (lookup_lt_Some _ _ _ Hc).
    rewrite lookup_take_lt, lookup_drop in Hd by lia.
    edestruct (ap_final_at (eng_dir e) (eng_desc_idx e) bus l (eng_ring e)) as (d' & Hd' & Hp);
      [lia|lia|lia|lia|lia|done|exact Hc|].
    fold ring' in Hd'. rewrite Hd' in Hd. by injection Hd as <-.
Qed.

Definition ex_ap_req : xdma_request_cb :=
  (request_zero 256 256) <| rq_ep_addr := 0x40 |> <| rq_aperture := 0x1000 |> <| rq_total_len := 0x2810 |>.

Lemma ex_ap_fresh : fresh 0x40 0x1000 ex_ap_req.
Proof. by constructor. Defined.

Lemma aperture_window_witness :
  ltac:(statement_of (aperture_window ex_engine ex_ap_req 1 ex_sgt true 0x40 0x1000 0x1000 ex_engine_ok
    ex_ap_fresh (sgt_entries _ _ _ ex_sgt_ok) ltac:(decide_now) ltac:(decide_now) ltac:(decide_now)
    ltac:(decide_now) ltac:(decide_now) ltac:(decide_now))).
Proof.
  instance_of (aperture_window ex_engine ex_ap_req 1 ex_sgt true 0x40 0x1000 0x1000 ex_engine_ok
    ex_ap_fresh (sgt_entries _ _ _ ex_sgt_ok) ltac:(decide_now) ltac:(decide_now) ltac:(decide_now)
    ltac:(decide_now) ltac:(decide_now) ltac:(decide_now)).
Defined.

(** *** The second round

    Three entries of 16 bytes, a ring of two descriptors. *)
Definition ex_three : sg_table :=
  {| sgt_sgl := (fun a => {| sg_dma_address := a; sg_dma_len := 16 |}) <$> [0x1000; 0x2000; 0x3000];
     sgt_nents := 3; sgt_orig_nents := 3 |}.

Definition ex_two_rounds : option (list Z * Z) :=
  let e := ex_engine <| eng_desc_max := 2 |> <| eng_desc_idx := 0 |>
             <| eng_desc := Some (replicate 2 desc_zero) |> in
  let req := ex_ap_req <| rq_total_len := 48 |> in
  '(e1, req1, _) ← aperture_build e req 1 ex_three true 0x103f 0x1000 3;
  '(e2, req2, _) ← aperture_build e1 req1 1 ex_three true 0x103f 0x1000 3;
  Some (desc_src <$> (take 2 (eng_ring e1) ++ take 1 (eng_ring e2)), rq_offset req2).

(** From the second round on [xdma_xfer_aperture] walks the table from its
    first entry again, because [req->sg] is never advanced: when a table of
    three entries does not fit the ring, the third descriptor carries the first
    entry once more instead of the third, and the request still counts as
    complete. *)
Theorem aperture_restarts : ex_two_rounds = Some ([0x1000; 0x2000; 0x1000], 48).
Proof. by vm_compute. Qed.
