(* ===== verification/Device.v ===== *)
(** The state of one device: [struct xdma_dev] with its two arrays of engines,
    the transfers and tables they lead to, and the outside world.  The functions
    on one engine ([Engine], [EngineSetup]) run here on a chosen engine. *)
From S2P Require Import Prelude Kernel Types Desc Transfer Engine.
Local Open Scope Z_scope.

Record dst (D : Type) := {
  ds_k : kstate D;
  ds_dev : xdma_dev;
  ds_h2c : list xdma_engine;
  ds_c2h : list xdma_engine;
  ds_heap : gmap xfer_ptr xdma_transfer;
  ds_sgts : gmap Z sg_table;
}.
Arguments Build_dst {D}.
Arguments ds_k {D}.
Arguments ds_dev {D}.
Arguments ds_h2c {D}.
Arguments ds_c2h {D}.
Arguments ds_heap {D}.
Arguments ds_sgts {D}.
#[export] Instance dst_settable D : Settable (dst D) := fun s =>
  Build_dst (ds_k s) (ds_dev s) (ds_h2c s) (ds_c2h s) (ds_heap s) (ds_sgts s).

#[export] Instance dst_has_k D : Has (dst D) (kstate D) :=
  {| part := ds_k; with_part := fun k s => s <| ds_k := k |> |}.

Definition engine_in (l : list xdma_engine) (ch : Z) : xdma_engine :=
  default engine_zero (l !! Z.to_nat ch).

Section Access.
Context {D : Type}.

Definition the_dev : M (dst D) xdma_dev := gets ds_dev.
Definition upd_dev (f : xdma_dev -> xdma_dev) : M (dst D) unit :=
  modify (fun s => s <| ds_dev ::= f |>).

(** [&xdev->engine_h2c[ch]], [&xdev->engine_c2h[ch]] *)
Definition get_eng (h2c : bool) (ch : Z) (s : dst D) : xdma_engine :=
  engine_in (if h2c then ds_h2c s else ds_c2h s) ch.
Definition put_eng (h2c : bool) (ch : Z) (e : xdma_engine) (s : dst D) : dst D :=
  if h2c then s <| ds_h2c ::= <[Z.to_nat ch := e]> |> else s <| ds_c2h ::= <[Z.to_nat ch := e]> |>.

Definition the_eng (h2c : bool) (ch : Z) : M (dst D) xdma_engine := gets (get_eng h2c ch).

(** [m] on an engine of the device. *)
Definition est_of (h2c : bool) (ch : Z) (s : dst D) : est D :=
  {| es_k := ds_k s; es_eng := get_eng h2c ch s; es_heap := ds_heap s; es_sgts := ds_sgts s |}.
Definition with_est (h2c : bool) (ch : Z) (e : est D) (s : dst D) : dst D :=
  put_eng h2c ch (es_eng e)
    (s <| ds_k := es_k e |> <| ds_heap := es_heap e |> <| ds_sgts := es_sgts e |>).
Definition on_engine {A} (h2c : bool) (ch : Z) (m : M (est D) A) : M (dst D) A := fun s =>
  let '(a, e) := m (est_of h2c ch s) in (a, with_est h2c ch e s).

#[local] Transparent wp.
Lemma wp_the_dev (Q : _ -> dst D -> Prop) s : Q (ds_dev s) s -> wp the_dev Q s.
Proof. done. Qed.
Lemma wp_upd_dev f (Q : _ -> dst D -> Prop) s : Q tt (s <| ds_dev ::= f |>) -> wp (upd_dev f) Q s.
Proof. done. Qed.
Lemma wp_the_eng h2c ch (Q : _ -> dst D -> Prop) s : Q (get_eng h2c ch s) s -> wp (the_eng h2c ch) Q s.
Proof. done. Qed.
Lemma wp_on_engine {A} h2c ch (m : M (est D) A) (Q : A -> dst D -> Prop) s :
  wp m (fun a e => Q a (with_est h2c ch e s)) (est_of h2c ch s) -> wp (on_engine h2c ch m) Q s.
Proof. unfold wp, on_engine. by destruct (m _). Qed.
#[global] Opaque wp.

Lemma get_put_eng (h2c : bool) ch (h2c' : bool) ch' e (s : dst D) :
  0 <= ch -> 0 <= ch' ->
  (ch' < Z.of_nat (length (if h2c' then ds_h2c s else ds_c2h s))) ->
  get_eng h2c ch (put_eng h2c' ch' e s)
  = if decide (h2c = h2c' /\ ch = ch') then e else get_eng h2c ch s.
Proof.
  intros H1 H2 Hl. unfold get_eng, put_eng, engine_in.
  destruct (decide _) as [[-> ->]|Hne].
  - destruct h2c'; fld; rewrite list_lookup_insert_eq by lia; done.
  - destruct h2c, h2c'; fld; try done; rewrite list_lookup_insert_ne; [done|naive_solver lia|done|naive_solver lia].
Qed.

Lemma length_put_eng (h2c h2c' : bool) ch e (s : dst D) :
  length (if h2c then ds_h2c (put_eng h2c' ch e s) else ds_c2h (put_eng h2c' ch e s))
  = length (if h2c then ds_h2c s else ds_c2h s).
Proof. unfold put_eng. destruct h2c, h2c'; fld; by rewrite ?length_insert. Qed.
End Access.

(** ** Steps that keep track of the trace *)

Section Rules.
Context {D : Type} `{Env D}.

Lemma wp_dv_read a (Q : Z -> dst D -> Prop) s :
  (forall v k, 0 <= v < 4294967296 -> k_trace k = k_trace (ds_k s) ++ [Ev_read a v] ->
     Q v (s <| ds_k := k |>)) -> wp (read_register a) Q s.
Proof. intros HQ. apply wp_read. intros v d Hv _. by apply HQ. Qed.
Lemma wp_dv_write v a (Q : unit -> dst D -> Prop) s :
  (forall k, k_trace k = k_trace (ds_k s) ++ [Ev_write a (u32 v)] -> Q tt (s <| ds_k := k |>)) ->
  wp (write_register v a) Q s.
Proof. intros HQ. by apply wp_write, HQ. Qed.
Lemma wp_dv_call c (Q : Z -> dst D -> Prop) s :
  (forall v k, k_trace k = k_trace (ds_k s) ++ [Ev_call c v] -> Q v (s <| ds_k := k |>)) ->
  wp (call c) Q s.
Proof. intros HQ. apply wp_call. intros v d _. by apply HQ. Qed.
Lemma wp_dv_call_ c (Q : unit -> dst D -> Prop) s :
  (forall v k, k_trace k = k_trace (ds_k s) ++ [Ev_call c v] -> Q tt (s <| ds_k := k |>)) ->
  wp (call_ c) Q s.
Proof. intros HQ. apply wp_call_. intros v d _. by apply (HQ v). Qed.
End Rules.

Ltac dv_step :=
  lazymatch goal with
  | |- wp the_dev _ _ => apply wp_the_dev
  | |- wp (upd_dev _) _ _ => apply wp_upd_dev
  | |- wp (the_eng _ _) _ _ => apply wp_the_eng
  | |- wp (read_register _) _ _ => apply wp_dv_read; intros ? ? ? ?
  | |- wp (write_register _ _) _ _ => apply wp_dv_write; intros ? ?
  | |- wp (call _) _ _ => apply wp_dv_call; intros ? ? ?
  | |- wp (call_ _) _ _ => apply wp_dv_call_; intros ? ? ?
  | _ => wp_step
  end; cbv beta.

(** ** Events up to the results of calls *)
Definition silent (e : event) : event :=
  match e with Ev_call c _ => Ev_call c 0 | _ => e end.
Definition acts {D} (k : kstate D) : list event := silent <$> k_trace k.

Lemma acts_app {D} (k k' : kstate D) l :
  k_trace k' = k_trace k ++ l -> acts k' = acts k ++ (silent <$> l).
Proof. unfold acts. intros ->. by rewrite fmap_app. Qed.

(** Rewrites the actions of a later state into those of the first and a list. *)
Ltac acts_step :=
  repeat match goal with
  | E : k_trace ?k = _ |- context [acts ?k] => rewrite (acts_app _ _ _ E); clear E
  end; rewrite <- ?app_assoc; cbn [fmap list_fmap silent app].

(** A concrete device to run examples on. *)
Definition dev_start (k : kstate sim) (x : xdma_dev) (h2c c2h : list xdma_engine) : dst sim :=
  {| ds_k := k; ds_dev := x; ds_h2c := h2c; ds_c2h := c2h; ds_heap := ∅; ds_sgts := ∅ |}.
