(* ===== verification/Irq.v ===== *)
(** Interrupts ([libxdma.c]): the interrupt service routines, the enable masks,
    the MSI-X vector table and the life cycle of the interrupt lines. *)
From S2P Require Import Prelude Kernel Types Desc Transfer Engine Device.
Local Open Scope Z_scope.

Definition IRQ_HANDLED : Z := 1.

Section Code.
Context {D : Type} `{Env D} (pm : params).

(** A register of the interrupt block. *)
Definition int_reg (x : xdma_dev) (r : Z) : Z := xd_config_bar x + XDMA_OFS_INT_CTRL + r.

Definition dev_write (v r : Z) : M (dst D) unit := x ← the_dev; write_register v (int_reg x r).
Definition dev_read (r : Z) : M (dst D) Z := x ← the_dev; read_register (int_reg x r).

(** [channel_interrupts_enable] for the whole device ([Engine] has it for one engine). *)
(* @src xdma/libxdma.c:257-265 channel_interrupts_enable *)
Definition dev_channel_interrupts_enable (mask : Z) : M (dst D) unit :=
  dev_write mask irq_channel_int_enable_w1s.
(* @src xdma/libxdma.c:267-275 channel_interrupts_disable *)
Definition channel_interrupts_disable (mask : Z) : M (dst D) unit :=
  dev_write mask irq_channel_int_enable_w1c.
(* @src xdma/libxdma.c:277-285 user_interrupts_enable *)
Definition user_interrupts_enable (mask : Z) : M (dst D) unit :=
  dev_write mask irq_user_int_enable_w1s.
(* @src xdma/libxdma.c:287-295 user_interrupts_disable *)
Definition user_interrupts_disable (mask : Z) : M (dst D) unit :=
  dev_write mask irq_user_int_enable_w1c.

(* @src xdma/libxdma.c:297-316 read_interrupts *)
Definition read_interrupts : M (dst D) Z :=
  hi ← dev_read irq_user_int_request;
  lo ← dev_read irq_channel_int_request;
  mret (build_u32 hi lo).

Definition user_at (x : xdma_dev) (u : Z) : xdma_user_irq :=
  nth (Z.to_nat u) (xd_user_irq x) (Build_xdma_user_irq 0 0 0 0).
Definition upd_user (u : Z) (f : xdma_user_irq -> xdma_user_irq) : M (dst D) unit :=
  upd_dev (fun x => x <| xd_user_irq ::= alter f (Z.to_nat u) |>).

(* @src xdma/libxdma.c:1342-1362 user_irq_service *)
Definition user_irq_service (u : Z) : M (dst D) Z :=
  x ← the_dev;
  let user_irq := user_at x u in
  if nz (u_handler user_irq)
  then call (K_user_handler (u_handler user_irq) (u_dev user_irq) (u_user_idx user_irq))
  else
    when (u_events_irq user_irq =? 0)
      (upd_user u (fun i => i <| u_events_irq := 1 |>) ;; call_ (K_wake_up (WQ_events u))) ;;
    mret IRQ_HANDLED.

(** [for (; user < max && user_irq; user++, mask <<= 1)], [n = max - user]. *)
(* @src xdma/libxdma.c:1408-1419 xdma_isr *)
Fixpoint isr_user_loop (n : nat) (user user_irq mask : Z) : M (dst D) unit :=
  match n with
  | O => mret tt
  | S n =>
      if user_irq =? 0 then mret tt
      else if tst user_irq mask then
        user_irq_service user ;;
        isr_user_loop n (user + 1) (Z.ldiff user_irq mask) (u32 (Z.shiftl mask 1))
      else isr_user_loop n (user + 1) user_irq (u32 (Z.shiftl mask 1))
  end.

(** [for (channel = 0; channel < max && mask; channel++)], [n = max - channel]. *)
(* @src xdma/libxdma.c:1421-1457 xdma_isr *)
Fixpoint isr_channel_loop (h2c : bool) (n : nat) (channel mask : Z) : M (dst D) unit :=
  match n with
  | O => mret tt
  | S n =>
      if mask =? 0 then mret tt
      else
        engine ← the_eng h2c channel;
        if tst (eng_irq_bitmask engine) mask && (eng_magic engine =? MAGIC_ENGINE) then
          call_ (K_schedule_work h2c channel) ;;
          isr_channel_loop h2c n (channel + 1) (Z.ldiff mask (eng_irq_bitmask engine))
        else isr_channel_loop h2c n (channel + 1) mask
  end.

(** The part of [xdma_isr] after the channel requests have been read. *)
(* @src xdma/libxdma.c:1404-1460 xdma_isr *)
Definition isr_serve (ch_irq : Z) : M (dst D) Z :=
  user_irq ← dev_read irq_user_int_request;
  x ← the_dev;
  isr_user_loop (Z.to_nat (xd_user_max x)) 0 user_irq 1 ;;
  isr_channel_loop true (Z.to_nat (xd_h2c_channel_max x)) 0 (Z.land ch_irq (xd_mask_irq_h2c x)) ;;
  isr_channel_loop false (Z.to_nat (xd_c2h_channel_max x)) 0 (Z.land ch_irq (xd_mask_irq_c2h x)) ;;
  upd_dev (fun x => x <| xd_irq_count ::= fun n => s32 (n + 1) |>) ;;
  mret IRQ_HANDLED.

(* @src xdma/libxdma.c:1364-1461 xdma_isr *)
Definition xdma_isr : M (dst D) Z :=
  ch_irq ← dev_read irq_channel_int_request;
  when (nz ch_irq) (channel_interrupts_disable ch_irq) ;;
  isr_serve ch_irq.

(* @src xdma/libxdma.c:1463-1481 xdma_user_irq *)
Definition xdma_user_irq_handler (u : Z) : M (dst D) Z := user_irq_service u.

(* @src xdma/libxdma.c:1483-1529 xdma_channel_irq *)
Definition xdma_channel_irq (h2c : bool) (ch : Z) : M (dst D) Z :=
  e ← the_eng h2c ch;
  write_register (eng_interrupt_enable_mask_value e) (eng_regs e + reg_interrupt_enable_mask_w1c) ;;
  dev_read irq_channel_int_pending ;;
  call_ (K_schedule_work h2c ch) ;;
  upd_dev (fun x => x <| xd_irq_count ::= fun n => s32 (n + 1) |>) ;;
  mret IRQ_HANDLED.
End Code.

(** ** What an interrupt does *)

Definition serviced (i : xdma_user_irq) : xdma_user_irq :=
  if negb (nz (u_handler i)) && (u_events_irq i =? 0) then i <| u_events_irq := 1 |> else i.

(** What servicing user interrupt [u] does to the outside: its handler is
    called, or, when it has none and no event is pending, the waiters are woken. *)
Definition user_acts (x : xdma_dev) (u : Z) : list event :=
  let i := user_at x u in
  if nz (u_handler i) then [Ev_call (K_user_handler (u_handler i) (u_dev i) (u_user_idx i)) 0]
  else if u_events_irq i =? 0 then [Ev_call (K_wake_up (WQ_events u)) 0] else [].

Definition serve_users (us : list Z) (x : xdma_dev) : xdma_dev :=
  x <| xd_user_irq ::= fun l => foldl (fun l u => alter serviced (Z.to_nat u) l) l us |>.

Definition fired (word : Z) (bit : Z -> Z) (from n : Z) : list Z :=
  filter (fun c => Z.testbit word (bit c) = true) (seqZ from n).

Lemma fired_cons word bit from n :
  0 < n -> fired word bit from n
  = (if Z.testbit word (bit from) then [from] else []) ++ fired word bit (from + 1) (n - 1).
Proof.
  intros. unfold fired. rewrite (seqZ_cons from n) by lia. rewrite filter_cons.
  replace (Z.succ from) with (from + 1) by lia. replace (Z.pred n) with (n - 1) by lia.
  destruct (Z.testbit word (bit from)) eqn:E; case_decide; done.
Qed.

Lemma fired_nil word bit from : fired word bit from 0 = [].
Proof. done. Qed.

Lemma fired_ext w w' bit from (n : nat) :
  (forall c, from <= c < from + Z.of_nat n -> Z.testbit w (bit c) = Z.testbit w' (bit c)) ->
  fired w bit from (Z.of_nat n) = fired w' bit from (Z.of_nat n).
Proof.
  revert from. induction n as [|n IH]; intros from Hw; [done|].
  rewrite (fired_cons w), (fired_cons w') by lia. rewrite Hw by lia.
  replace (Z.of_nat (S n) - 1) with (Z.of_nat n) by lia. rewrite IH; [done|]. intros c Hc. apply Hw. lia.
Qed.

Lemma fired_zero bit from (n : nat) : fired 0 bit from (Z.of_nat n) = [].
Proof.
  revert from. induction n as [|n IH]; intros from; [done|]. rewrite fired_cons, Z.bits_0 by lia.
  replace (Z.of_nat (S n) - 1) with (Z.of_nat n) by lia. apply IH.
Qed.

Lemma ldiff_pow2_bit m b i :
  0 <= b -> Z.testbit (Z.ldiff m (2 ^ b)) i = Z.testbit m i && negb (i =? b).
Proof. intros. rewrite Z.ldiff_spec, Z.pow2_bits_eqb by lia. by rewrite Z.eqb_sym. Qed.

Section Isr.
Context {D : Type} `{Env D}.
Implicit Types (s : dst D).

(** The engines of one direction as [probe_engines] leaves them: each has a bit
    of its own, [bit ch], in the interrupt words. *)
Record lines_ok (s : dst D) (h2c : bool) (bit : Z -> Z) (from n : Z) : Prop := {
  lines_magic : forall c, from <= c < from + n -> eng_magic (get_eng h2c c s) = MAGIC_ENGINE;
  lines_mask : forall c, from <= c < from + n -> eng_irq_bitmask (get_eng h2c c s) = 2 ^ bit c;
  lines_bit : forall c, from <= c < from + n -> 0 <= bit c < 32;
  lines_inj : forall c c', from <= c < from + n -> from <= c' < from + n -> bit c = bit c' -> c = c';
}.

Lemma lines_ok_next s h2c bit from n : lines_ok s h2c bit from n -> lines_ok s h2c bit (from + 1) (n - 1).
Proof. intros [H1 H2 H3 H4]. constructor; intros; (apply H1 || apply H2 || apply H3 || apply H4); lia || done. Qed.

Lemma lines_ok_k s k h2c bit from n : lines_ok s h2c bit from n -> lines_ok (s <| ds_k := k |>) h2c bit from n.
Proof. by intros []. Qed.

Lemma wp_channel_loop h2c bit (n : nat) ch m (Q : unit -> dst D -> Prop) s :
  lines_ok s h2c bit ch (Z.of_nat n) -> 0 <= m ->
  (forall k, acts k = acts (ds_k s) ++ ((fun c => Ev_call (K_schedule_work h2c c) 0) <$> fired m bit ch (Z.of_nat n)) ->
     Q tt (s <| ds_k := k |>)) ->
  wp (isr_channel_loop h2c n ch m) Q s.
Proof.
  revert ch m s. induction n as [|n IH]; intros ch m s Hl Hm HQ; cbn [isr_channel_loop].
  { dv_step. specialize (HQ (ds_k s)). destruct s. apply HQ. by rewrite app_nil_r. }
  destruct (Z.eqb_spec m 0) as [->|_].
  { dv_step. specialize (HQ (ds_k s)). destruct s. apply HQ. by rewrite fired_zero, app_nil_r. }
  pose proof (lines_ok_next _ _ _ _ _ Hl) as Hl'. replace (Z.of_nat (S n) - 1) with (Z.of_nat n) in Hl' by lia.
  destruct Hl as [H1 H2 H3 H4]. rewrite fired_cons in HQ by lia.
  replace (Z.of_nat (S n) - 1) with (Z.of_nat n) in HQ by lia.
  dv_step. dv_step. rewrite H1, H2 by lia. rewrite Z.eqb_refl, andb_true_r.
  rewrite (proj2 (tst_pow2 _ _ Hm (proj1 (H3 ch ltac:(lia))))).
  destruct (Z.testbit m (bit ch)) eqn:Hb; try rewrite Hb in HQ.
  - do 2 dv_step. apply IH; [by apply lines_ok_k|apply Z.ldiff_nonneg; by left|].
    intros k' E. apply HQ. rewrite E. fld. acts_step. cbn [fmap list_fmap app]. do 3 f_equal.
    apply fired_ext. intros c Hc. rewrite ldiff_pow2_bit by (apply H3; lia).
    destruct (Z.eqb_spec (bit c) (bit ch)) as [E'|_]; [apply H4 in E'; lia|by rewrite andb_true_r].
  - apply IH; [done|done|]. intros k' E. by apply HQ.
Qed.

Lemma alter_id_at (f : xdma_user_irq -> xdma_user_irq) (l : list xdma_user_irq) (u : nat) :
  (forall i, l !! u = Some i -> f i = i) -> alter f u l = l.
Proof.
  intros Hf. apply list_eq. intros k. rewrite list_lookup_alter. case_decide as E; [|done]. subst k.
  destruct (l !! u) eqn:E; [|done]. cbn. by rewrite Hf.
Qed.

Lemma user_at_lookup x u i : xd_user_irq x !! Z.to_nat u = Some i -> user_at x u = i.
Proof. intros E. unfold user_at. by apply nth_lookup_Some. Qed.

Lemma serve_one x u :
  serve_users [u] x =
  if negb (nz (u_handler (user_at x u))) && (u_events_irq (user_at x u) =? 0)
  then x <| xd_user_irq ::= alter (fun i => i <| u_events_irq := 1 |>) (Z.to_nat u) |> else x.
Proof.
  unfold serve_users. cbn [foldl]. destruct (_ && _) eqn:E.
  - assert (alter serviced (Z.to_nat u) (xd_user_irq x)
            = alter (fun i => i <| u_events_irq := 1 |>) (Z.to_nat u) (xd_user_irq x)) as Ha.
    { apply list_alter_ext; [|done]. intros i Hi. apply user_at_lookup in Hi. rewrite Hi in E.
      unfold serviced. by rewrite E. }
    destruct x. unfold set_field. cbn in *. by rewrite Ha.
  - assert (alter serviced (Z.to_nat u) (xd_user_irq x) = xd_user_irq x) as Ha.
    { apply alter_id_at. intros i Hi. apply user_at_lookup in Hi. rewrite Hi in E. unfold serviced. by rewrite E. }
    destruct x. unfold set_field. cbn in *. by rewrite Ha.
Qed.

Lemma user_at_serve x u c : 0 <= u -> 0 <= c -> c <> u -> user_at (serve_users [u] x) c = user_at x c.
Proof.
  intros Hu Hc Hne. unfold user_at, serve_users. fld. cbn [foldl].
  rewrite !nth_lookup, list_lookup_alter_ne by lia. done.
Qed.

Lemma wp_user_service u (Q : Z -> dst D -> Prop) s :
  (forall v k, acts k = acts (ds_k s) ++ user_acts (ds_dev s) u ->
     Q v (s <| ds_k := k |> <| ds_dev ::= serve_users [u] |>)) ->
  wp (user_irq_service u) Q s.
Proof.
  intros HQ. unfold user_irq_service, user_acts in *. dv_step. dv_step.
  assert (forall k, s <| ds_k := k |> <| ds_dev ::= serve_users [u] |>
     = s <| ds_k := k |> <| ds_dev := serve_users [u] (ds_dev s) |>) as Hs by done.
  setoid_rewrite Hs in HQ. clear Hs. rewrite serve_one in HQ.
  destruct (nz (u_handler (user_at (ds_dev s) u))); cbn [negb andb] in HQ.
  - dv_step. specialize (HQ v k). destruct s. apply HQ. by acts_step.
  - dv_step. destruct (u_events_irq (user_at (ds_dev s) u) =? 0) eqn:E; cbn [when].
    + unfold upd_user. repeat dv_step. apply (HQ _ k). by acts_step.
    + repeat dv_step. specialize (HQ IRQ_HANDLED (ds_k s)). destruct s. apply HQ. by rewrite app_nil_r.
Qed.

Lemma fired_range word bit from n c : c ∈ fired word bit from n -> from <= c < from + n.
Proof. intros Hc. unfold fired in Hc. apply list_elem_of_filter in Hc as [_ Hc]. apply elem_of_seqZ in Hc. lia. Qed.

Lemma wp_user_loop (n : nat) user w (Q : unit -> dst D -> Prop) s :
  0 <= user -> user + Z.of_nat n <= 32 -> 0 <= w ->
  (forall k, let us := fired w (fun u => u) user (Z.of_nat n) in
     acts k = acts (ds_k s) ++ mjoin (user_acts (ds_dev s) <$> us) ->
     Q tt (s <| ds_k := k |> <| ds_dev ::= serve_users us |>)) ->
  wp (isr_user_loop n user w (2 ^ user)) Q s.
Proof.
  assert (forall s, s <| ds_k := ds_k s |> <| ds_dev ::= serve_users [] |> = s) as Hid
    by (intros [? [] ? ? ? ?]; done).
  revert user w s. induction n as [|n IH]; intros user w s Hu Hn Hw HQ; cbn [isr_user_loop].
  { dv_step. specialize (HQ (ds_k s)). cbn in HQ. change (Z.of_nat 0) with 0 in HQ. rewrite fired_nil, Hid in HQ.
    apply HQ. by rewrite app_nil_r. }
  destruct (Z.eqb_spec w 0) as [->|_].
  { dv_step. specialize (HQ (ds_k s)). cbv zeta in HQ. rewrite fired_zero, Hid in HQ. apply HQ. by rewrite app_nil_r. }
  rewrite fired_cons in HQ by lia. replace (Z.of_nat (S n) - 1) with (Z.of_nat n) in HQ by lia.
  rewrite (proj1 (tst_pow2 _ _ Hw Hu)).
  assert (0 < Z.of_nat n -> u32 (Z.shiftl (2 ^ user) 1) = 2 ^ (user + 1)) as Hmask.
  { intros Hn'. rewrite Z.shiftl_mul_pow2 by lia. rewrite <- Z.pow_add_r by lia. apply u32_small.
    split; [lia|]. change 4294967296 with (2 ^ 32). apply Z.pow_lt_mono_r; lia. }
  assert (forall w' s', 0 <= w' -> (forall k, let us := fired w' (fun u => u) (user + 1) (Z.of_nat n) in
     acts k = acts (ds_k s') ++ mjoin (user_acts (ds_dev s') <$> us) ->
     Q tt (s' <| ds_k := k |> <| ds_dev ::= serve_users us |>)) ->
     wp (isr_user_loop n (user + 1) w' (u32 (Z.shiftl (2 ^ user) 1))) Q s') as Hrest.
  { intros w' s' Hw' HQ'. destruct (decide (n = O)) as [->|Hn0].
    - cbn [isr_user_loop]. dv_step. specialize (HQ' (ds_k s')). cbv zeta in HQ'. change (Z.of_nat 0) with 0 in HQ'.
      rewrite fired_nil, Hid in HQ'. apply HQ'. by rewrite app_nil_r.
    - rewrite Hmask by lia. apply IH; [lia|lia|done|done]. }
  destruct (Z.testbit w user) eqn:Hb; try rewrite Hb in HQ.
  - dv_step. apply wp_user_service. intros v k E. apply Hrest; [apply Z.ldiff_nonneg; by left|].
    intros k' us E'. fld.
    assert (us = fired w (fun u => u) (user + 1) (Z.of_nat n)) as Hus.
    { apply fired_ext. intros c Hc. rewrite ldiff_pow2_bit by lia.
      destruct (Z.eqb_spec c user); [lia|by rewrite andb_true_r]. }
    enough (Q tt (s <| ds_k := k' |> <| ds_dev ::= serve_users ([user] ++ us) |>)) as HQ' by exact HQ'.
    rewrite Hus. apply HQ. rewrite <- Hus, E', E, <- app_assoc. do 2 f_equal. cbn [app].
    rewrite fmap_cons, mjoin_cons. f_equal. f_equal. apply list_fmap_ext. intros i c Hc.
    apply list_elem_of_lookup_2 in Hc. subst us. apply fired_range in Hc. unfold user_acts.
    rewrite user_at_serve by lia. done.
  - apply Hrest; [done|]. intros k us E. by apply HQ.
Qed.
End Isr.

(** A device whose engines own their interrupt bits, as [probe_engines] leaves it. *)
Record irq_ok {D} (s : dst D) (h2c_bit c2h_bit : Z -> Z) : Prop := {
  io_h2c : lines_ok s true h2c_bit 0 (xd_h2c_channel_max (ds_dev s));
  io_c2h : lines_ok s false c2h_bit 0 (xd_c2h_channel_max (ds_dev s));
  io_mask_h2c : forall c, 0 <= c < xd_h2c_channel_max (ds_dev s) ->
    Z.testbit (xd_mask_irq_h2c (ds_dev s)) (h2c_bit c) = true;
  io_mask_c2h : forall c, 0 <= c < xd_c2h_channel_max (ds_dev s) ->
    Z.testbit (xd_mask_irq_c2h (ds_dev s)) (c2h_bit c) = true;
  io_max : 0 <= xd_h2c_channel_max (ds_dev s) /\ 0 <= xd_c2h_channel_max (ds_dev s);
  io_user : 0 <= xd_user_max (ds_dev s) <= 32;
}.

Definition sched (h2c : bool) (cs : list Z) : list event :=
  (fun c => Ev_call (K_schedule_work h2c c) 0) <$> cs.

Lemma fired_masked w m bit n :
  0 <= n -> (forall c, 0 <= c < n -> Z.testbit m (bit c) = true) ->
  fired (Z.land w m) bit 0 n = fired w bit 0 n.
Proof.
  intros Hn Hm. replace n with (Z.of_nat (Z.to_nat n)) by lia. apply fired_ext. intros c Hc.
  rewrite Z.land_spec, Hm by lia. apply andb_true_r.
Qed.

Lemma lines_ok_same {D} (s s' : dst D) h2c bit from n :
  ds_h2c s' = ds_h2c s -> ds_c2h s' = ds_c2h s -> lines_ok s h2c bit from n -> lines_ok s' h2c bit from n.
Proof.
  intros E1 E2 [H1 H2 H3 H4].
  assert (forall c, get_eng h2c c s' = get_eng h2c c s) as E by (intros c; unfold get_eng; by rewrite E1, E2).
  constructor; intros; rewrite ?E; auto.
Qed.

Lemma wp_isr_serve {D} `{Env D} h2c_bit c2h_bit ch (Q : Z -> dst D -> Prop) (s : dst D) :
  irq_ok s h2c_bit c2h_bit -> 0 <= ch ->
  (forall us s', let x := ds_dev s in
    let users := fired us (fun u => u) 0 (xd_user_max x) in
    acts (ds_k s') = acts (ds_k s) ++ [Ev_read (int_reg x irq_user_int_request) us]
      ++ mjoin (user_acts x <$> users)
      ++ sched true (fired ch h2c_bit 0 (xd_h2c_channel_max x))
      ++ sched false (fired ch c2h_bit 0 (xd_c2h_channel_max x)) ->
    ds_dev s' = (serve_users users x) <| xd_irq_count ::= fun n => s32 (n + 1) |> ->
    ds_h2c s' = ds_h2c s -> ds_c2h s' = ds_c2h s -> Q IRQ_HANDLED s') ->
  wp (isr_serve ch) Q s.
Proof.
  intros [Hh Hc Hmh Hmc [Hn1 Hn2] Hu] Hch HQ. set (x := ds_dev s) in *. cbv zeta in HQ.
  unfold isr_serve, dev_read. do 2 dv_step. dv_step. dv_step. rename v into us. do 3 dv_step. fld. fold x.
  change 1 with (2 ^ 0) at 1. apply wp_user_loop; [lia|lia|lia|]. intros k2 users Hk2.
  subst users. rewrite Z2Nat.id in * by lia. fld. fold x in Hk2. fold x.
  rewrite <- (Z2Nat.id (xd_h2c_channel_max x)) in Hh by lia. rewrite <- (Z2Nat.id (xd_c2h_channel_max x)) in Hc by lia.
  dv_step. apply (wp_channel_loop true h2c_bit); [by eapply lines_ok_same; [..|exact Hh]|by apply Z.land_nonneg; left|].
  intros k3 Hk3. dv_step.
  apply (wp_channel_loop false c2h_bit); [by eapply lines_ok_same; [..|exact Hc]|by apply Z.land_nonneg; left|].
  intros k4 Hk4. do 3 dv_step. apply (HQ us); try done. fld. fold x.
  rewrite Hk4, Hk3, Hk2. acts_step. unfold sched, mret. rewrite !Z2Nat.id by lia.
  rewrite !fired_masked by done. done.
Qed.

(** C24 One run of the interrupt service routine: it reads the channel requests,
    disables exactly the lines that fired, reads the user requests, serves each
    user interrupt that fired once (its handler, or its event flag and waiters)
    and schedules the bottom half of each engine whose line fired, H2C first, each
    once and no other; nothing else happens and no engine is changed. *)
Theorem isr_exact {D} `{Env D} h2c_bit c2h_bit (s : dst D) :
  irq_ok s h2c_bit c2h_bit ->
  let x := ds_dev s in
  let '(rv, s') := xdma_isr s in
  exists ch us,
    let users := fired us (fun u => u) 0 (xd_user_max x) in
    acts (ds_k s') = acts (ds_k s)
      ++ [Ev_read (int_reg x irq_channel_int_request) ch]
      ++ (if nz ch then [Ev_write (int_reg x irq_channel_int_enable_w1c) ch] else [])
      ++ [Ev_read (int_reg x irq_user_int_request) us]
      ++ mjoin (user_acts x <$> users)
      ++ sched true (fired ch h2c_bit 0 (xd_h2c_channel_max x))
      ++ sched false (fired ch c2h_bit 0 (xd_c2h_channel_max x))
    /\ ds_dev s' = (serve_users users x) <| xd_irq_count ::= fun n => s32 (n + 1) |>
    /\ ds_h2c s' = ds_h2c s /\ ds_c2h s' = ds_c2h s.
Proof.
  intros Hok x. apply wp_elim. unfold xdma_isr.
  unfold dev_read at 1, channel_interrupts_disable, dev_write. do 2 dv_step. dv_step. dv_step. rename v into ch.
  assert (forall k1, irq_ok (s <| ds_k := k1 |>) h2c_bit c2h_bit) as Hok'
    by (intros k1; destruct Hok; constructor; try done; eapply (lines_ok_same s); done).
  dv_step. apply wp_when; intros Hz; [do 3 dv_step|]; cbv beta; (eapply wp_isr_serve; [by apply Hok'|lia|]);
    intros us s' x' users E1 E2 E3 E4; exists ch, us; fold x' in E1; rewrite E1; cbv zeta; fld;
    (split_and!; [|done|done|done]); acts_step; rewrite Hz, ?u32_small by lia; done.
Qed.

(** *** Witness: two H2C engines, one C2H engine, two user interrupts *)

Definition ex_irq_eng (b : Z) : xdma_engine :=
  engine_zero <| eng_magic := MAGIC_ENGINE |> <| eng_irq_bitmask := 2 ^ b |>.

Definition ex_irq_dev : dst sim :=
  dev_start (sim_start [(irq_channel_int_request + 0x2000, 0x5); (irq_user_int_request + 0x2000, 0x2)] (fun _ => 0))
    (xdev_zero <| xd_h2c_channel_max := 2 |> <| xd_c2h_channel_max := 1 |> <| xd_user_max := 2 |>
       <| xd_mask_irq_h2c := 0x3 |> <| xd_mask_irq_c2h := 0x4 |>)
    [ex_irq_eng 0; ex_irq_eng 1] [ex_irq_eng 2].

Lemma ex_irq_ok : irq_ok ex_irq_dev (fun c => c) (fun c => c + 2).
Proof.
  assert (forall c n, 0 <= c < 0 + n -> n = 2 -> c = 0 \/ c = 1) as H2 by lia.
  assert (forall c n, 0 <= c < 0 + n -> n = 1 -> c = 0) as H1 by lia.
  assert (forall c, 0 <= c < 2 -> c = 0 \/ c = 1) as H3 by lia.
  assert (forall c, 0 <= c < 1 -> c = 0) as H4 by lia.
  constructor; [constructor|constructor| | |by vm_compute|by vm_compute];
    change (xd_h2c_channel_max (ds_dev ex_irq_dev)) with 2; change (xd_c2h_channel_max (ds_dev ex_irq_dev)) with 1;
    intros; try lia;
    repeat match goal with
    | Hc : 0 <= ?c < 0 + 2 |- _ => destruct (H2 c 2 Hc eq_refl); clear Hc
    | Hc : 0 <= ?c < 0 + 1 |- _ => pose proof (H1 c 1 Hc eq_refl); clear Hc
    | Hc : 0 <= ?c < 2 |- _ => destruct (H3 c Hc); clear Hc
    | Hc : 0 <= ?c < 1 |- _ => pose proof (H4 c Hc); clear Hc
    end; subst; done.
Defined.

Lemma isr_exact_witness :
  ltac:(statement_of (isr_exact (fun c => c) (fun c => c + 2) ex_irq_dev ex_irq_ok)).
Proof. instance_of (isr_exact (fun c => c) (fun c => c + 2) ex_irq_dev ex_irq_ok). Defined.

(** Lines 0 and 2 and user interrupt 1 fired. *)
Example ex_isr_run :
  let s' := (xdma_isr ex_irq_dev).2 in
  k_trace (ds_k s') =
    [Ev_read 0x2044 5; Ev_write 0x2018 5; Ev_read 0x2040 2; Ev_call (K_wake_up (WQ_events 1)) 0;
     Ev_call (K_schedule_work true 0) 0; Ev_call (K_schedule_work false 0) 0]
  /\ u_events_irq <$> take 2 (xd_user_irq (ds_dev s')) = [0; 1].
Proof. by vm_compute. Qed.
