(* ===== verification/IrqSetup.v ===== *)
(** The life cycle of the interrupt lines ([libxdma.c]): MSI-X, MSI or legacy,
    the vector tables of the interrupt block, requesting and freeing lines. *)
From S2P Require Import Prelude Kernel Types Desc Transfer Engine Device Irq.
Local Open Scope Z_scope.

(** Registers of PCI configuration space, from the PCI specification. *)
Definition PCI_COMMAND : Z := 0x04.
Definition PCI_COMMAND_INTX_DISABLE : Z := 0x400.
Definition PCI_STATUS : Z := 0x06.
Definition PCI_STATUS_INTERRUPT : Z := 0x08.
Definition PCI_INTERRUPT_PIN : Z := 0x3d.

(** What the kernel knows of the PCI device: its interrupt line, whether the
    buses above it forbid MSI and which capabilities it has. *)
Record pci_info := {
  pci_irq : Z;
  pci_no_msi : bool;
  pci_bus_no_msi : list bool;
  pci_msix_cap : bool;
  pci_msi_cap : bool;
}.

(* @src xdma/libxdma.c:1775-1808 msi_msix_capable *)
Definition msi_msix_capable (p : pci_info) (msix : bool) : bool :=
  negb (pci_no_msi p) && negb (existsb id (pci_bus_no_msi p))
  && (if msix then pci_msix_cap p else pci_msi_cap p).

(** [for (k = 0; k < 4 && i < max; i++, k++, shift += 8)], [n = 4 - k]. *)
(* @src xdma/libxdma.c:1952-1953 prog_irq_msix_channel *)
Fixpoint pack_vectors (n : nat) (i max shift val : Z) : Z * Z :=
  match n with
  | O => (i, val)
  | S n =>
      if i <? max
      then pack_vectors n (i + 1) max (shift + 8) (Z.lor val (u32 (Z.shiftl (Z.land i 0x1f) shift)))
      else (i, val)
  end.

Section Code.
Context {D : Type} `{Env D} (pm : params) (pci : pci_info).

(** One word of a vector table per round; [max - i] bounds the rounds. *)
(* @src xdma/libxdma.c:1943-1961 prog_irq_msix_channel *)
Fixpoint prog_vectors (fuel : nat) (clear : bool) (reg i max j : Z) : M (dst D) unit :=
  match fuel with
  | O => mret tt
  | S fuel =>
      if i <? max then
        let '(i, val) := if clear then (i + 4, 0) else pack_vectors 4 i max 0 0 in
        dev_write val (reg + 4 * j) ;;
        prog_vectors fuel clear reg i max (j + 1)
      else mret tt
  end.

(* @src xdma/libxdma.c:1903-1932 prog_irq_msix_user *)
Definition prog_irq_msix_user (clear : bool) : M (dst D) unit :=
  x ← the_dev;
  let i := xd_c2h_channel_max x + xd_h2c_channel_max x in
  prog_vectors (Z.to_nat (xd_user_max x)) clear irq_user_msi_vector i (i + xd_user_max x) 0.

(* @src xdma/libxdma.c:1934-1962 prog_irq_msix_channel *)
Definition prog_irq_msix_channel (clear : bool) : M (dst D) unit :=
  x ← the_dev;
  let max := xd_c2h_channel_max x + xd_h2c_channel_max x in
  prog_vectors (Z.to_nat max) clear irq_channel_msi_vector 0 max 0.

(* @src xdma/libxdma.c:1810-1819 disable_msi_msix *)
Definition disable_msi_msix : M (dst D) unit :=
  x ← the_dev;
  if xd_msix_enabled x then call_ K_pci_disable_msix ;; upd_dev (fun x => x <| xd_msix_enabled := false |>)
  else when (xd_msi_enabled x)
         (call_ K_pci_disable_msi ;; upd_dev (fun x => x <| xd_msi_enabled := false |>)).

(* @src xdma/libxdma.c:1821-1871 enable_msi_msix *)
Definition enable_msi_msix : M (dst D) Z :=
  let mode := interrupt_mode pm in
  if ((mode =? 3) || (mode =? 0)) && msi_msix_capable pci true then
    x ← the_dev;
    rv ← call (K_pci_alloc_irq_vectors (xd_c2h_channel_max x + xd_h2c_channel_max x + xd_user_max x));
    upd_dev (fun x => x <| xd_msix_enabled := true |>) ;; mret rv
  else if ((mode =? 1) || (mode =? 0)) && msi_msix_capable pci false then
    rv ← call K_pci_enable_msi;
    upd_dev (fun x => x <| xd_msi_enabled := true |>) ;; mret rv
  else mret 0.

(* @src xdma/libxdma.c:1873-1883 pci_check_intr_pend *)
Definition pci_check_intr_pend : M (dst D) unit :=
  v ← call (K_pci_read_config PCI_STATUS);
  when (tst v PCI_STATUS_INTERRUPT) (call_ (K_pci_write_config PCI_STATUS PCI_STATUS_INTERRUPT)).

(* @src xdma/libxdma.c:1885-1901 pci_keep_intx_enabled *)
Definition pci_keep_intx_enabled : M (dst D) unit :=
  pcmd ← call (K_pci_read_config PCI_COMMAND);
  let pcmd_new := Z.ldiff pcmd PCI_COMMAND_INTX_DISABLE in
  when (negb (pcmd_new =? pcmd)) (call_ (K_pci_write_config PCI_COMMAND pcmd_new)).

Definition set_line (h2c : bool) (i vector : Z) : M (dst D) unit :=
  modify (fun s => put_eng h2c i ((get_eng h2c i s) <| eng_msix_irq_line := vector |>) s).

(** The loop over one direction's engines; [off + i] is the vector of engine [i]. *)
(* @src xdma/libxdma.c:2010-2045 irq_msix_channel_setup *)
Fixpoint channel_setup_loop (h2c : bool) (n : nat) (i off : Z) : M (dst D) Z :=
  match n with
  | O => mret 0
  | S n =>
      vector ← call (K_pci_irq_vector (off + i));
      rv ← call (K_request_irq vector false (Cookie_engine h2c i));
      if nz rv then mret rv
      else set_line h2c i vector ;; channel_setup_loop h2c n (i + 1) off
  end.

(* @src xdma/libxdma.c:1994-2048 irq_msix_channel_setup *)
Definition irq_msix_channel_setup : M (dst D) Z :=
  x ← the_dev;
  if negb (xd_msix_enabled x) then mret 0
  else
    rv ← channel_setup_loop true (Z.to_nat (xd_h2c_channel_max x)) 0 0;
    if nz rv then mret rv
    else channel_setup_loop false (Z.to_nat (xd_c2h_channel_max x)) 0 (xd_h2c_channel_max x).

(** The loop over one direction's engines, left at the first without a line. *)
(* @src xdma/libxdma.c:1975-1991 irq_msix_channel_teardown *)
Fixpoint channel_teardown_loop (h2c : bool) (n : nat) (i : Z) : M (dst D) unit :=
  match n with
  | O => mret tt
  | S n =>
      e ← the_eng h2c i;
      if eng_msix_irq_line e =? 0 then mret tt
      else
        call_ (K_free_irq (eng_msix_irq_line e) (Cookie_engine h2c i)) ;;
        channel_teardown_loop h2c n (i + 1)
  end.

(* @src xdma/libxdma.c:1964-1992 irq_msix_channel_teardown *)
Definition irq_msix_channel_teardown : M (dst D) unit :=
  x ← the_dev;
  if negb (xd_msix_enabled x) then mret tt
  else
    prog_irq_msix_channel true ;;
    channel_teardown_loop true (Z.to_nat (xd_h2c_channel_max x)) 0 ;;
    channel_teardown_loop false (Z.to_nat (xd_c2h_channel_max x)) 0.

(* @src xdma/libxdma.c:2067-2075 irq_msix_user_teardown *)
Fixpoint user_teardown_loop (n : nat) (i j : Z) : M (dst D) unit :=
  match n with
  | O => mret tt
  | S n =>
      vector ← call (K_pci_irq_vector j);
      call_ (K_free_irq vector (Cookie_user i)) ;;
      user_teardown_loop n (i + 1) (j + 1)
  end.

(* @src xdma/libxdma.c:2050-2076 irq_msix_user_teardown *)
Definition irq_msix_user_teardown : M (dst D) unit :=
  x ← the_dev;
  if negb (xd_msix_enabled x) then mret tt
  else
    prog_irq_msix_user true ;;
    user_teardown_loop (Z.to_nat (xd_user_max x)) 0 (xd_h2c_channel_max x + xd_c2h_channel_max x).

(** The first loop; the result is [rv] and the [i] it ends with. *)
(* @src xdma/libxdma.c:2084-2100 irq_msix_user_setup *)
Fixpoint user_setup_loop (n : nat) (i off : Z) : M (dst D) (Z * Z) :=
  match n with
  | O => mret (0, i)
  | S n =>
      vector ← call (K_pci_irq_vector (off + i));
      rv ← call (K_request_irq vector false (Cookie_user i));
      if nz rv then mret (rv, i) else user_setup_loop n (i + 1) off
  end.

(** [for (i--, j--; i >= 0; i--, j--)], from [i + 1]. *)
(* @src xdma/libxdma.c:2103-2112 irq_msix_user_setup *)
Fixpoint user_unwind_loop (n : nat) (off : Z) : M (dst D) unit :=
  match n with
  | O => mret tt
  | S n =>
      let i := Z.of_nat n in
      vector ← call (K_pci_irq_vector (off + i));
      call_ (K_free_irq vector (Cookie_user i)) ;;
      user_unwind_loop n off
  end.

(* @src xdma/libxdma.c:2078-2115 irq_msix_user_setup *)
Definition irq_msix_user_setup : M (dst D) Z :=
  x ← the_dev;
  let off := xd_h2c_channel_max x + xd_c2h_channel_max x in
  '(rv, i) ← user_setup_loop (Z.to_nat (xd_user_max x)) 0 off;
  when (nz rv) (user_unwind_loop (Z.to_nat i) off) ;; mret rv.

(* @src xdma/libxdma.c:2117-2129 irq_msi_setup *)
Definition irq_msi_setup : M (dst D) Z :=
  upd_dev (fun x => x <| xd_irq_line := pci_irq pci |>) ;;
  call (K_request_irq (pci_irq pci) false Cookie_dev).

(* @src xdma/libxdma.c:2131-2170 irq_legacy_setup *)
Definition irq_legacy_setup : M (dst D) Z :=
  v ← call (K_pci_read_config PCI_INTERRUPT_PIN);
  let val := u8 v in
  if val =? 0 then mret (- EINVAL)
  else
    when (1 <? val)
      (x ← the_dev;
       let val := val - 1 in
       let w := lor_all [Z.shiftl val 24; Z.shiftl val 16; Z.shiftl val 8; val] in
       for_up 4 0 (fun i => write_register w (xd_config_bar x + 0x2080 + 4 * i)) ;;
       for_up 2 0 (fun i => write_register w (xd_config_bar x + 0x20A0 + 4 * i))) ;;
    upd_dev (fun x => x <| xd_irq_line := pci_irq pci |>) ;;
    call (K_request_irq (pci_irq pci) true Cookie_dev).

(* @src xdma/libxdma.c:2172-2181 irq_teardown *)
Definition irq_teardown : M (dst D) unit :=
  x ← the_dev;
  if xd_msix_enabled x then irq_msix_channel_teardown ;; irq_msix_user_teardown
  else when (negb (xd_irq_line x =? -1)) (call_ (K_free_irq (xd_irq_line x) Cookie_dev)).

(* @src xdma/libxdma.c:2183-2203 irq_setup *)
Definition irq_setup : M (dst D) Z :=
  pci_keep_intx_enabled ;;
  x ← the_dev;
  if xd_msix_enabled x then
    rv ← irq_msix_channel_setup;
    if nz rv then mret rv
    else
      rv ← irq_msix_user_setup;
      if nz rv then mret rv
      else prog_irq_msix_channel false ;; prog_irq_msix_user false ;; mret 0
  else if xd_msi_enabled x then irq_msi_setup
  else irq_legacy_setup.
End Code.

(** ** The vector tables *)

(** The byte [k] of a table word. *)
Definition vec_byte (w k : Z) : Z := Z.land (Z.shiftr w (8 * k)) 0xff.

Lemma pack_vectors_spec i max :
  0 <= i < max ->
  let '(i', w) := pack_vectors 4 i max 0 0 in
  i' = Z.min (i + 4) max /\ 0 <= w < 2 ^ 32
  /\ forall k, 0 <= k < 4 -> vec_byte w k = if k <? i' - i then Z.land (i + k) 0x1f else 0.
Proof.
  intros Hi. assert (forall j, 0 <= Z.land j 0x1f < 32) as Ha by (intros j; apply (land_bound_r 5); lia).
  assert (forall w k, 0 <= k -> vec_byte w k = (w / 2 ^ (8 * k)) mod 256) as Hv.
  { intros w k Hk. unfold vec_byte. change 0xff with (2 ^ 8 - 1). rewrite land_ones_mod by lia.
    by rewrite Z.shiftr_div_pow2 by lia. }
  pose proof (Ha i) as H0. pose proof (Ha (i + 1)) as H1. pose proof (Ha (i + 1 + 1)) as H2.
  pose proof (Ha (i + 1 + 1 + 1)) as H3.
  cbn [pack_vectors]. destruct (Z.ltb_spec i max); [|lia].
  rewrite Z.shiftl_0_r, Z.lor_0_l, (u32_small (Z.land i 0x1f)) by lia.
  assert (forall a s, 0 <= a < 32 -> 0 <= s <= 24 -> u32 (Z.shiftl a s) = Z.shiftl a s) as Hs.
  { intros a s Ha' Hs. apply u32_small. rewrite Z.shiftl_mul_pow2 by lia.
    assert (0 < 2 ^ s <= 2 ^ 24) by (split; [lia|apply Z.pow_le_mono_r; lia]). nia. }
  rewrite !Hs by lia. change (0 + 8 + 8 + 8) with 24. change (0 + 8 + 8) with 16. change (0 + 8) with 8.
  rewrite (lor_shift_add (Z.land i 0x1f)) by lia.
  rewrite (lor_shift_add (Z.land i 0x1f + Z.land (i + 1) 0x1f * 2 ^ 8)) by lia.
  rewrite (lor_shift_add (Z.land i 0x1f + Z.land (i + 1) 0x1f * 2 ^ 8 + Z.land (i + 1 + 1) 0x1f * 2 ^ 16)) by lia.
  destruct (Z.ltb_spec (i + 1) max); [destruct (Z.ltb_spec (i + 1 + 1) max); [destruct (Z.ltb_spec (i + 1 + 1 + 1) max)|]|];
    (split_and!; [lia|lia|lia|]); intros k Hk; rewrite Hv by lia;
    (assert (k = 0 \/ k = 1 \/ k = 2 \/ k = 3) as [->|[->|[->| ->]]] by lia);
    match goal with |- context [?a <? ?b] => destruct (Z.ltb_spec a b) end; try lia;
    replace (i + 2) with (i + 1 + 1) by lia; replace (i + 3) with (i + 1 + 1 + 1) by lia;
    rewrite ?Z.add_0_r; clear Hv Ha Hs;
    match goal with |- context [2 ^ (8 * ?c)] => let v := eval vm_compute in (2 ^ (8 * c)) in change (2 ^ (8 * c)) with v end;
    repeat match goal with |- context [2 ^ ?c] => let v := eval vm_compute in (2 ^ c) in change (2 ^ c) with v end;
    generalize dependent (Z.land i 0x1f); generalize dependent (Z.land (i + 1) 0x1f);
    generalize dependent (Z.land (i + 1 + 1) 0x1f); generalize dependent (Z.land (i + 1 + 1 + 1) 0x1f);
    intros; Z.to_euclidean_division_equations; lia.
Qed.

(** The words of a table that starts at vector [i] and has [n] entries: every byte of
    every word, the entries and the unused bytes after the last one. *)
Record table_words (i n : Z) (words : list Z) : Prop := {
  tw_len : Z.of_nat (length words) = (n + 3) / 4;
  tw_word : Forall (fun w => 0 <= w < 2 ^ 32) words;
  tw_byte : forall c, 0 <= c < 4 * Z.of_nat (length words) ->
    exists w, words !! Z.to_nat (c / 4) = Some w
      /\ vec_byte w (c mod 4) = if c <? n then Z.land (i + c) 0x1f else 0;
}.

(** The entries are consecutive vectors from [i] on. *)
Definition numbered (i n : Z) (words : list Z) : Prop :=
  forall c, 0 <= c < n -> exists w, words !! Z.to_nat (c / 4) = Some w /\ vec_byte w (c mod 4) = i + c.

Lemma table_numbered i n words : table_words i n words -> 0 <= i -> i + n <= 32 -> numbered i n words.
Proof.
  intros [Hl _ Hb] Hi Hn c Hc. destruct (Hb c) as (w & Hw & E).
  { rewrite Hl. Z.to_euclidean_division_equations; lia. }
  exists w. split; [done|]. rewrite E. destruct (Z.ltb_spec c n); [|lia].
  change 0x1f with (2 ^ 5 - 1). rewrite land_ones_mod by lia. apply Z.mod_small. lia.
Qed.

Definition table_writes (x : xdma_dev) (reg j : Z) (words : list Z) : list event :=
  imap (fun t w => Ev_write (int_reg x (reg + 4 * (j + Z.of_nat t))) w) words.

Lemma table_words_cons i n w words :
  0 < n -> 0 <= w < 2 ^ 32 ->
  (forall k, 0 <= k < 4 -> vec_byte w k = if k <? Z.min 4 n then Z.land (i + k) 0x1f else 0) ->
  table_words (i + Z.min 4 n) (n - Z.min 4 n) words -> table_words i n (w :: words).
Proof.
  intros Hn Hr Hw [Hl Hf He]. constructor; [|by constructor|].
  - cbn [length]. rewrite Nat2Z.inj_succ, Hl. destruct (decide (n < 4)).
    + replace (Z.min 4 n) with n by lia. Z.to_euclidean_division_equations; lia.
    + replace (Z.min 4 n) with 4 by lia. Z.to_euclidean_division_equations; lia.
  - cbn [length]. rewrite Nat2Z.inj_succ. intros c Hc. destruct (decide (c < 4)) as [H4|H4].
    + exists w. replace (c / 4) with 0 by (Z.to_euclidean_division_equations; lia).
      replace (c mod 4) with c by (Z.to_euclidean_division_equations; lia). split; [done|]. rewrite Hw by lia.
      destruct (Z.ltb_spec c (Z.min 4 n)), (Z.ltb_spec c n); (done || lia).
    + destruct (He (c - 4) ltac:(lia)) as (w' & Hl' & Hb). exists w'.
      replace (c / 4) with ((c - 4) / 4 + 1) by (Z.to_euclidean_division_equations; lia).
      replace (c mod 4) with ((c - 4) mod 4) by (Z.to_euclidean_division_equations; lia).
      rewrite Z2Nat.inj_add by (Z.to_euclidean_division_equations; lia). rewrite Nat.add_comm. split; [done|].
      rewrite Hb. destruct (Z.ltb_spec (c - 4) (n - Z.min 4 n)), (Z.ltb_spec c n); try lia. f_equal. lia.
Qed.

Section Tables.
Context {D : Type} `{Env D}.
Implicit Types (s : dst D).

Lemma wp_prog_vectors fuel reg i max j (Q : unit -> dst D -> Prop) s :
  0 <= i <= max -> max - i <= Z.of_nat fuel -> 0 <= j ->
  (forall words k, table_words i (max - i) words ->
     k_trace k = k_trace (ds_k s) ++ table_writes (ds_dev s) reg j words -> Q tt (s <| ds_k := k |>)) ->
  wp (prog_vectors fuel false reg i max j) Q s.
Proof.
  assert (forall i, table_words i 0 []) as Hnil by (intros; constructor; [done..|cbn; lia]).
  revert i j s. induction fuel as [|fuel IH]; intros i j s Hi Hf Hj HQ; cbn [prog_vectors].
  { dv_step. replace max with i in * by lia. rewrite Z.sub_diag in HQ. specialize (HQ [] (ds_k s)).
    destruct s. apply HQ; [done|]. by rewrite app_nil_r. }
  destruct (Z.ltb_spec i max) as [Hlt|Hge].
  2: { dv_step. replace max with i in * by lia. rewrite Z.sub_diag in HQ. specialize (HQ [] (ds_k s)).
       destruct s. apply HQ; [done|]. by rewrite app_nil_r. }
  pose proof (pack_vectors_spec i max ltac:(lia)) as Hp. destruct (pack_vectors 4 i max 0 0) as [i' w].
  destruct Hp as (-> & Hw & Hb). unfold dev_write. do 4 dv_step. rewrite u32_small in * by lia.
  apply IH; [lia|lia|lia|]. intros words k2 Hwords E. apply (HQ (w :: words)).
  - apply table_words_cons; [lia|lia| |].
    + intros c Hc. rewrite Hb by lia. by replace (Z.min (i + 4) max - i) with (Z.min 4 (max - i)) by lia.
    + replace (i + Z.min 4 (max - i)) with (Z.min (i + 4) max) by lia.
      replace (max - i - Z.min 4 (max - i)) with (max - Z.min (i + 4) max) by lia. done.
  - rewrite E. fld. match goal with E' : k_trace k = _ |- _ => rewrite E' end. unfold table_writes.
    rewrite <- app_assoc. rewrite imap_cons. cbn [app]. rewrite Z.add_0_r. do 2 f_equal.
    apply imap_ext. intros t w' _. cbn. do 3 f_equal. lia.
Qed.
End Tables.

(** C28 The two MSI-X vector tables: [prog_irq_msix_channel] and [prog_irq_msix_user]
    write exactly the words of the two tables, four entries to a word, for any number
    of engines and user interrupts.  Every byte of every word is given: entry [c] of the
    channels' table has the low five bits of [c], entry [u] of the user interrupts' table
    those of the number of channels plus [u], and the bytes after the last entry are zero.
    With at most 32 vectors in all - the driver has no more than 24 - the entries are the
    vector numbers themselves. *)
Theorem msix_tables {D} `{Env D} (s : dst D) :
  let x := ds_dev s in
  let chans := xd_c2h_channel_max x + xd_h2c_channel_max x in
  0 <= chans -> 0 <= xd_user_max x ->
  let '(_, s') := (prog_irq_msix_channel false ;; prog_irq_msix_user false) s in
  exists cw uw,
    k_trace (ds_k s') = k_trace (ds_k s) ++ table_writes x irq_channel_msi_vector 0 cw
                          ++ table_writes x irq_user_msi_vector 0 uw
    /\ table_words 0 chans cw /\ table_words chans (xd_user_max x) uw
    /\ (chans + xd_user_max x <= 32 -> numbered 0 chans cw /\ numbered chans (xd_user_max x) uw)
    /\ ds_dev s' = ds_dev s.
Proof.
  intros x chans Hc Hu. apply wp_elim. unfold prog_irq_msix_channel, prog_irq_msix_user.
  do 3 dv_step. fold x chans. apply wp_prog_vectors; [lia|lia|lia|]. intros cw k1 Hcw E1. do 2 dv_step. fld. fold x chans.
  apply wp_prog_vectors; [lia|lia|lia|]. intros uw k2 Huw E2. exists cw, uw. fld.
  rewrite E2. fld. rewrite E1. rewrite <- app_assoc. rewrite Z.sub_0_r in Hcw.
  replace (chans + xd_user_max x - chans) with (xd_user_max x) in Huw by lia.
  split_and!; try done. intros Hn. split; apply table_numbered; done || lia.
Qed.

Lemma msix_tables_witness :
  ltac:(statement_of (msix_tables ex_irq_dev ltac:(decide_now) ltac:(decide_now))).
Proof. instance_of (msix_tables ex_irq_dev ltac:(decide_now) ltac:(decide_now)). Defined.

(** ** Lines held

    The cookies whose line a run of events requested with success, and those it
    freed. *)
Definition granted (l : list event) : list irq_cookie :=
  omap (fun e => match e with
                 | Ev_call (K_request_irq _ _ c) r => if r =? 0 then Some c else None
                 | _ => None end) l.
Definition freed (l : list event) : list irq_cookie :=
  omap (fun e => match e with Ev_call (K_free_irq _ c) _ => Some c | _ => None end) l.

Lemma granted_app l1 l2 : granted (l1 ++ l2) = granted l1 ++ granted l2.
Proof. unfold granted. apply omap_app. Qed.
Lemma freed_app l1 l2 : freed (l1 ++ l2) = freed l1 ++ freed l2.
Proof. unfold freed. apply omap_app. Qed.

Lemma table_writes_lines x reg j words :
  granted (table_writes x reg j words) = [] /\ freed (table_writes x reg j words) = [].
Proof.
  unfold table_writes, granted, freed. revert j. induction words as [|w words IH]; intros j; [done|].
  rewrite imap_cons. cbn. rewrite (imap_ext _ (fun t w => Ev_write (int_reg x (reg + 4 * (j + 1 + Z.of_nat t))) w)).
  - apply IH.
  - intros t w' _. cbn. do 3 f_equal. lia.
Qed.

Section Lines.
Context {D : Type} `{Env D} (pci : pci_info).
Implicit Types (s : dst D).

(** [s'] is [s] after the events [l], with other interrupt lines recorded. *)
Definition after (l : list event) (s s' : dst D) : Prop :=
  k_trace (ds_k s') = k_trace (ds_k s) ++ l /\ ds_dev s' = ds_dev s.

Lemma wp_user_setup_loop n i off (Q : Z * Z -> dst D -> Prop) s :
  0 <= i ->
  (forall rv j l s', after l s s' -> granted l = Cookie_user <$> seqZ i (j - i) -> freed l = [] ->
     i <= j <= i + Z.of_nat n -> (rv = 0 -> j = i + Z.of_nat n) -> Q (rv, j) s') ->
  wp (user_setup_loop n i off) Q s.
Proof.
  revert i s. induction n as [|n IH]; intros i s Hi HQ; cbn [user_setup_loop].
  { dv_step. apply (HQ _ _ []); [|by rewrite Z.sub_diag|done|lia|lia]. split; [by rewrite app_nil_r|done]. }
  do 4 dv_step. rename v into vector, v0 into rv.
  assert (forall k, k_trace k = k_trace (ds_k s) ++ [Ev_call (K_pci_irq_vector (off + i)) vector;
            Ev_call (K_request_irq vector false (Cookie_user i)) rv] ->
          wp (if nz rv then mret (rv, i) else user_setup_loop n (i + 1) off) Q (s <| ds_k := k |>)) as Hnext.
  { intros k2 E. unfold nz. destruct (Z.eqb_spec rv 0) as [->|Hrv]; cbn [negb].
    - apply IH; [lia|]. intros rv j l s' [E1 E2] Hg Hf Hj Hz. eapply HQ; [split; [|exact E2]| | |lia|lia].
      + rewrite E1. fld. rewrite E, <- app_assoc. reflexivity.
      + rewrite granted_app, Hg. cbn.
        rewrite (seqZ_cons i) by lia. rewrite fmap_cons. do 3 f_equal; lia.
      + by rewrite freed_app, Hf.
    - dv_step. eapply HQ; [split; [exact E|done]| |done|lia|lia].
      cbn. destruct (Z.eqb_spec rv 0); [lia|]. by rewrite Z.sub_diag. }
  apply Hnext. trace_eq.
Qed.

Lemma wp_user_unwind n off (Q : unit -> dst D -> Prop) s :
  (forall l s', after l s s' -> granted l = [] -> freed l = reverse (Cookie_user <$> seqZ 0 (Z.of_nat n)) ->
     Q tt s') ->
  wp (user_unwind_loop n off) Q s.
Proof.
  revert s. induction n as [|n IH]; intros s HQ; cbn [user_unwind_loop].
  { dv_step. apply (HQ []); [split; [by rewrite app_nil_r|done]|done|done]. }
  do 4 dv_step. apply IH. intros l s' [E1 E2] Hg Hf. eapply HQ; [split; [|exact E2]| |].
  - rewrite E1. fld. trace_eq.
  - exact Hg.
  - rewrite seqZ_S, fmap_app, reverse_app, <- Hf. done.
Qed.

Lemma wp_channel_setup h2c n i off (Q : Z -> dst D -> Prop) s :
  0 <= i ->
  (forall rv j l s', after l s s' -> granted l = Cookie_engine h2c <$> seqZ i (j - i) -> freed l = [] ->
     i <= j <= i + Z.of_nat n -> (rv = 0 -> j = i + Z.of_nat n) -> Q rv s') ->
  wp (channel_setup_loop h2c n i off) Q s.
Proof.
  revert i s. induction n as [|n IH]; intros i s Hi HQ; cbn [channel_setup_loop].
  { dv_step. apply (HQ _ i []); [|by rewrite Z.sub_diag|done|lia|lia]. split; [by rewrite app_nil_r|done]. }
  do 4 dv_step. rename v into vector, v0 into rv.
  assert (k_trace k0 = k_trace (ds_k s) ++ [Ev_call (K_pci_irq_vector (off + i)) vector;
            Ev_call (K_request_irq vector false (Cookie_engine h2c i)) rv]) as Ek by trace_eq.
  unfold nz. destruct (Z.eqb_spec rv 0) as [->|Hrv]; cbn [negb].
  - unfold set_line. do 2 dv_step. apply IH; [lia|]. intros rv j l s' [E1 E2] Hg Hf Hj Hz.
    eapply (HQ _ j); [split; [|rewrite E2; by destruct h2c]| | |lia|lia].
    + rewrite E1. replace (k_trace (ds_k (put_eng h2c i _ _))) with (k_trace k0) by (by destruct h2c).
      rewrite Ek, <- app_assoc. reflexivity.
    + rewrite granted_app, Hg. cbn. rewrite (seqZ_cons i) by lia. rewrite fmap_cons. do 3 f_equal; lia.
    + by rewrite freed_app, Hf.
  - dv_step. eapply (HQ _ i); [split; [exact Ek|done]| |done|lia|lia].
    cbn. destruct (Z.eqb_spec rv 0); [lia|]. by rewrite Z.sub_diag.
Qed.

Lemma after_trans l1 l2 s1 s2 s3 : after l1 s1 s2 -> after l2 s2 s3 -> after (l1 ++ l2) s1 s3.
Proof. intros [E1 E2] [F1 F2]. split; [by rewrite F1, E1, app_assoc|by rewrite F2]. Qed.

(** The cookies of all lines, in the order they are requested. *)
Definition channel_lines (x : xdma_dev) : list irq_cookie :=
  (Cookie_engine true <$> seqZ 0 (xd_h2c_channel_max x))
  ++ (Cookie_engine false <$> seqZ 0 (xd_c2h_channel_max x)).
Definition user_lines (x : xdma_dev) : list irq_cookie := Cookie_user <$> seqZ 0 (xd_user_max x).

Lemma seqZ_prefix {A} (f : Z -> A) j n : 0 <= j <= n -> (f <$> seqZ 0 j) `prefix_of` (f <$> seqZ 0 n).
Proof.
  intros Hj. replace n with (j + (n - j)) by lia. rewrite seqZ_app by lia. rewrite fmap_app. by apply prefix_app_r.
Qed.

Lemma wp_channel_lines (Q : Z -> dst D -> Prop) s :
  xd_msix_enabled (ds_dev s) = true ->
  0 <= xd_h2c_channel_max (ds_dev s) -> 0 <= xd_c2h_channel_max (ds_dev s) ->
  (forall rv l s', after l s s' -> granted l `prefix_of` channel_lines (ds_dev s) -> freed l = [] ->
     (rv = 0 -> granted l = channel_lines (ds_dev s)) -> Q rv s') ->
  wp irq_msix_channel_setup Q s.
Proof.
  intros Hm Hh Hc HQ. unfold irq_msix_channel_setup, channel_lines in *. do 2 dv_step. rewrite Hm. cbn [negb].
  dv_step. apply wp_channel_setup; [lia|]. intros rv j l s1 A1 G1 F1 Hj Hz. rewrite Z.sub_0_r in G1.
  unfold nz. destruct (Z.eqb_spec rv 0) as [->|Hrv]; cbn [negb].
  - apply wp_channel_setup; [lia|]. intros rv j2 l2 s2 A2 G2 F2 Hj2 Hz2. rewrite Z.sub_0_r in G2.
    assert (j = xd_h2c_channel_max (ds_dev s)) as -> by (rewrite Hz by done; lia).
    apply (HQ _ (l ++ l2)); [by eapply after_trans| |by rewrite freed_app, F1, F2|].
    + rewrite granted_app, G1, G2. apply prefix_app. apply seqZ_prefix. lia.
    + intros ->. rewrite granted_app, G1, G2, Hz2 by done. do 3 f_equal. lia.
  - dv_step. apply (HQ _ l); [done| |done|done]. rewrite G1. apply prefix_app_r, seqZ_prefix. lia.
Qed.

Lemma wp_user_lines (Q : Z -> dst D -> Prop) s :
  0 <= xd_user_max (ds_dev s) ->
  (forall rv l s', after l s s' ->
     (rv = 0 /\ granted l = user_lines (ds_dev s) /\ freed l = []
      \/ rv <> 0 /\ granted l `prefix_of` user_lines (ds_dev s) /\ freed l = reverse (granted l)) -> Q rv s') ->
  wp irq_msix_user_setup Q s.
Proof.
  intros Hu HQ. unfold irq_msix_user_setup, user_lines in *. do 3 dv_step.
  apply wp_user_setup_loop; [lia|]. intros rv j l s1 A1 G1 F1 Hj Hz. rewrite Z.sub_0_r in G1. cbv beta iota.
  dv_step. dv_step; unfold nz in *.
  - destruct (Z.eqb_spec rv 0); [done|]. apply wp_user_unwind. intros l2 s2 A2 G2 F2. dv_step.
    apply (HQ _ (l ++ l2)); [by eapply after_trans|right]. rewrite granted_app, freed_app, G1, G2, F1, F2, app_nil_r.
    split; [done|]. split; [apply seqZ_prefix; lia|]. cbn. do 3 f_equal. lia.
  - destruct (Z.eqb_spec rv 0) as [->|]; [|done]. dv_step. apply (HQ _ l); [done|left]. split_and!; [done| |done].
    rewrite G1, Hz by done. do 2 f_equal. lia.
Qed.

Lemma wp_keep_intx (Q : unit -> dst D -> Prop) s :
  (forall l s', after l s s' -> granted l = [] -> freed l = [] -> Q tt s') -> wp pci_keep_intx_enabled Q s.
Proof.
  intros HQ. unfold pci_keep_intx_enabled. do 3 dv_step; [dv_step|];
    (eapply HQ; [split; [trace_eq|done]|done|done]).
Qed.
End Lines.

(** C26 [irq_setup] in MSI-X mode: on success every channel line and every user
    line has been requested, in order, and none freed.  On failure the user
    lines requested so far are given back in reverse order, but the channel
    lines requested so far are not: they stay requested when it returns. *)
Theorem irq_setup_lines {D} `{Env D} pci (s : dst D) :
  let x := ds_dev s in
  xd_msix_enabled x = true ->
  0 <= xd_h2c_channel_max x -> 0 <= xd_c2h_channel_max x -> 0 <= xd_user_max x ->
  let '(rv, s') := irq_setup pci s in
  exists l, k_trace (ds_k s') = k_trace (ds_k s) ++ l /\
    (rv = 0 /\ granted l = channel_lines x ++ user_lines x /\ freed l = []
     \/ rv <> 0 /\ exists chans users, granted l = chans ++ users
          /\ chans `prefix_of` channel_lines x /\ users `prefix_of` user_lines x
          /\ freed l = reverse users).
Proof.
  intros x Hm Hh Hc Hu. apply wp_elim. unfold irq_setup. dv_step. apply wp_keep_intx.
  intros l0 s0 A0 G0 F0. do 2 dv_step. destruct A0 as [T0 D0]. rewrite D0. fold x. rewrite Hm. dv_step.
  apply wp_channel_lines; rewrite D0; try done. fold x. intros rv l1 s1 A1 G1 F1 Hz1.
  unfold nz. destruct (Z.eqb_spec rv 0) as [->|Hrv]; cbn [negb].
  2: { dv_step. exists (l0 ++ l1). rewrite (proj1 A1), T0, app_assoc. split; [done|right]. split; [done|].
       exists (granted l1), []. rewrite granted_app, freed_app, G0, F0, F1, app_nil_r. split_and!; try done. apply prefix_nil. }
  destruct A1 as [T1 D1]. rewrite D0 in D1. dv_step. apply wp_user_lines; rewrite D1; [done|]. fold x.
  intros rv l2 s2 [T2 D2] Hor. rewrite D1 in D2.
  destruct Hor as [(-> & G2 & F2)|(Hrv & G2 & F2)]; unfold nz.
  - cbn [Z.eqb negb]. unfold prog_irq_msix_channel, prog_irq_msix_user. do 3 dv_step. rewrite D2. fold x.
    apply wp_prog_vectors; [lia|lia|lia|]. intros cw k1 _ E1. do 3 dv_step. fld. rewrite D2. fold x.
    apply wp_prog_vectors; [lia|lia|lia|]. intros uw k2 _ E2. dv_step. fld.
    destruct (table_writes_lines (ds_dev s2) irq_channel_msi_vector 0 cw) as [g1 f1].
    destruct (table_writes_lines (ds_dev s2) irq_user_msi_vector 0 uw) as [g2 f2].
    eexists. split; [rewrite E2; fld; rewrite E1, T2, T1, T0, <- !app_assoc; reflexivity|left].
    rewrite !granted_app, !freed_app, G0, F0, F1, F2, G2, g1, g2, f1, f2, Hz1, !app_nil_r by done. done.
  - destruct (Z.eqb_spec rv 0); [done|]. cbn [negb]. dv_step. eexists.
    split; [rewrite T2, T1, T0, <- !app_assoc; reflexivity|right]. split; [done|].
    exists (granted l1), (granted l2). rewrite !granted_app, !freed_app, G0, F0, F1, F2. done.
Qed.

(** *** Witness: the second user line is refused *)
Definition ex_irq_lines : dst sim :=
  dev_start (sim_start [] (fun c => match c with K_request_irq _ _ (Cookie_user 1) => - EBUSY | _ => 0 end))
    ((ds_dev ex_irq_dev) <| xd_msix_enabled := true |>) (ds_h2c ex_irq_dev) (ds_c2h ex_irq_dev).

Lemma irq_setup_lines_witness :
  ltac:(statement_of (irq_setup_lines (Build_pci_info 11 false [] true true) ex_irq_lines eq_refl
    ltac:(decide_now) ltac:(decide_now) ltac:(decide_now))).
Proof.
  instance_of (irq_setup_lines (Build_pci_info 11 false [] true true) ex_irq_lines eq_refl
    ltac:(decide_now) ltac:(decide_now) ltac:(decide_now)).
Defined.

(** Three channel lines stay requested. *)
Example ex_irq_lines_leak :
  let '(rv, s') := irq_setup (Build_pci_info 11 false [] true true) ex_irq_lines in
  rv = - EBUSY
  /\ granted (k_trace (ds_k s')) = [Cookie_engine true 0; Cookie_engine true 1; Cookie_engine false 0; Cookie_user 0]
  /\ freed (k_trace (ds_k s')) = [Cookie_user 0].
Proof. by vm_compute. Qed.
