(* ===== verification/Bars.v ===== *)
(** The BARs of the card ([libxdma.c]): mapping them, finding the one with the
    DMA registers and deciding which of the others is which. *)
From S2P Require Import Prelude Kernel Types Desc Transfer Engine Device Irq IrqSetup.
Local Open Scope Z_scope.

Definition INT_MAX : Z := 2147483647.

Definition set_bar (i p : Z) : xdma_dev -> xdma_dev := fun x => x <| xd_bar ::= <[Z.to_nat i := p]> |>.

(** [bar_id_list] as the list of its first [num_bars] entries. *)
(* @src xdma/libxdma.c:1619-1687 identify_bars *)
Definition identify_bars (bar_id_list : list Z) (num_bars config_bar_pos : Z) (x : xdma_dev) : xdma_dev :=
  let id i := nth (Z.to_nat i) bar_id_list 0 in
  if num_bars =? 1 then x
  else if num_bars =? 2 then
    if config_bar_pos =? 0 then x <| xd_bypass_bar_idx := id 1 |>
    else if config_bar_pos =? 1 then x <| xd_user_bar_idx := id 0 |>
    else x
  else if (num_bars =? 3) || (num_bars =? 4) then
    if (config_bar_pos =? 1) || (config_bar_pos =? 2)
    then x <| xd_user_bar_idx := id 0 |> <| xd_bypass_bar_idx := id (num_bars - 1) |>
    else x
  else x.

Section Code.
Context {D : Type} `{Env D}.

(** [pci_resource_len(dev, idx)] *)
Variable bar_len : Z -> Z.

(* @src xdma/libxdma.c:1531-1547 unmap_bars *)
Definition unmap_bars : M (dst D) unit :=
  for_up (Z.to_nat XDMA_BAR_NUM) 0 (fun i =>
    x ← the_dev;
    when (nz (xd_bar_at x i)) (call_ (K_pci_iounmap (xd_bar_at x i)) ;; upd_dev (set_bar i 0))).

(* @src xdma/libxdma.c:1549-1589 map_single_bar *)
Definition map_single_bar (idx : Z) : M (dst D) Z :=
  upd_dev (set_bar idx 0) ;;
  if bar_len idx =? 0 then mret 0
  else
    let map_len := if INT_MAX <? bar_len idx then INT_MAX else bar_len idx in
    p ← call (K_pci_iomap idx map_len);
    upd_dev (set_bar idx p) ;;
    if p =? 0 then mret (-1) else mret (s32 map_len).

(* @src xdma/libxdma.c:1591-1616 is_config_bar *)
Definition is_config_bar (idx : Z) : M (dst D) bool :=
  x ← the_dev;
  irq_id ← read_register (xd_bar_at x idx + XDMA_OFS_INT_CTRL + irq_identifier);
  cfg_id ← read_register (xd_bar_at x idx + XDMA_OFS_CONFIG + cfg_identifier);
  mret ((Z.land irq_id 0xffff0000 =? IRQ_BLOCK_ID) && (Z.land cfg_id 0xffff0000 =? CONFIG_BLOCK_ID)).

(** The loop over the BARs; [ids] is [bar_id_list] up to [bar_id_idx].  [None]
    is the jump to [fail:]. *)
(* @src xdma/libxdma.c:1721-1745 map_bars *)
Fixpoint map_bars_loop (n : nat) (i : Z) (ids : list Z) (config_bar_pos : Z) :
    M (dst D) (option (list Z * Z)) :=
  match n with
  | O => mret (Some (ids, config_bar_pos))
  | S n =>
      len ← map_single_bar i;
      if len =? 0 then map_bars_loop n (i + 1) ids config_bar_pos
      else if len <? 0 then mret None
      else
        x ← the_dev;
        found ← (if (XDMA_BAR_SIZE <=? len) && (xd_config_bar_idx x <? 0)
                 then is_config_bar i else mret false);
        when (found : bool) (upd_dev (fun x => x <| xd_config_bar_idx := i |>)) ;;
        map_bars_loop n (i + 1) (ids ++ [i])
          (if (found : bool) then Z.of_nat (length ids) else config_bar_pos)
  end.

(* @src xdma/libxdma.c:1690-1768 map_bars *)
Definition map_bars : M (dst D) Z :=
  r ← map_bars_loop (Z.to_nat XDMA_BAR_NUM) 0 [] 0;
  match r with
  | None => unmap_bars ;; mret (- EINVAL)
  | Some (ids, config_bar_pos) =>
      x ← the_dev;
      if xd_config_bar_idx x <? 0 then unmap_bars ;; mret (- EINVAL)
      else upd_dev (identify_bars ids (Z.of_nat (length ids)) config_bar_pos) ;; mret 0
  end.
End Code.

(** ** Roles of the BARs *)

(** The two indices [identify_bars] leaves, from those it finds. *)
Definition roles (ids : list Z) (num pos u b : Z) : Z * Z :=
  let id i := nth (Z.to_nat i) ids 0 in
  if num =? 1 then (u, b)
  else if num =? 2 then if pos =? 0 then (u, id 1) else if pos =? 1 then (id 0, b) else (u, b)
  else if (num =? 3) || (num =? 4) then
    if (pos =? 1) || (pos =? 2) then (id 0, id (num - 1)) else (u, b)
  else (u, b).

Lemma identify_bars_eq ids num pos x :
  let r := roles ids num pos (xd_user_bar_idx x) (xd_bypass_bar_idx x) in
  xd_user_bar_idx (identify_bars ids num pos x) = r.1
  /\ xd_bypass_bar_idx (identify_bars ids num pos x) = r.2.
Proof. unfold identify_bars, roles. by repeat case_match. Qed.

(** The roles given, by number of BARs and position of the config BAR. *)
Lemma roles_spec ids num pos :
  let r := roles ids num pos (-1) (-1) in
  r = (-1, -1) /\ ~ (num = 3 /\ pos = 2)
  \/ r = (-1, nth 1 ids 0) /\ num = 2 /\ pos = 0 \/ r = (nth 0 ids 0, -1) /\ num = 2 /\ pos = 1
  \/ r = (nth 0 ids 0, nth 2 ids 0) /\ num = 3 /\ (pos = 1 \/ pos = 2)
  \/ r = (nth 0 ids 0, nth 3 ids 0) /\ num = 4 /\ (pos = 1 \/ pos = 2).
Proof.
  unfold roles. cbv zeta. repeat (case_match; rewrite ?Z.eqb_eq, ?Z.eqb_neq, ?orb_true_iff, ?orb_false_iff, ?Z.eqb_eq, ?Z.eqb_neq in *);
    try (left; split; [done|lia]).
  all: try (right; left; split; [done|lia]).
  all: try (right; right; left; split; [done|lia]).
  destruct (decide (num = 3)) as [->|].
  - right; right; right; left; split; [done|lia].
  - assert (num = 4) as -> by lia. right; right; right; right; split; [done|lia].
Qed.

(** C29 [identify_bars] gives the user and bypass roles to BARs of the list, never
    both to one BAR, and never takes the config BAR for the user BAR.  It takes
    it for the bypass BAR in exactly one case: three BARs of which the config
    BAR is the last. *)
Theorem identify_bars_roles ids config x :
  NoDup ids -> Forall (Z.le 0) ids -> (length ids <= 6)%nat ->
  0 <= config < Z.of_nat (length ids) ->
  xd_user_bar_idx x = -1 -> xd_bypass_bar_idx x = -1 ->
  let x' := identify_bars ids (Z.of_nat (length ids)) config x in
  (xd_user_bar_idx x' = -1 \/ xd_user_bar_idx x' ∈ ids)
  /\ (xd_bypass_bar_idx x' = -1 \/ xd_bypass_bar_idx x' ∈ ids)
  /\ (xd_user_bar_idx x' <> xd_bypass_bar_idx x' \/ xd_user_bar_idx x' = -1)
  /\ xd_user_bar_idx x' <> nth (Z.to_nat config) ids 0
  /\ (xd_bypass_bar_idx x' = nth (Z.to_nat config) ids 0
      <-> length ids = 3%nat /\ config = 2).
Proof.
  intros Hnd Hpos Hlen Hc Hu Hb x'. subst x'.
  destruct (identify_bars_eq ids (Z.of_nat (length ids)) config x) as [-> ->]. rewrite Hu, Hb. clear Hu Hb x.
  assert (forall i : nat, (i < length ids)%nat -> nth i ids 0 ∈ ids /\ 0 <= nth i ids 0) as Hin.
  { intros i Hi. destruct (lookup_lt_is_Some_2 ids i Hi) as [b Hb]. rewrite (nth_lookup_Some _ _ _ _ Hb).
    apply list_elem_of_lookup_2 in Hb. split; [done|]. by apply (proj1 (Forall_forall _ _) Hpos). }
  assert (forall i j : nat, (i < length ids)%nat -> (j < length ids)%nat -> nth i ids 0 = nth j ids 0 -> i = j) as Hinj.
  { intros i j Hi Hj E. destruct (lookup_lt_is_Some_2 ids i Hi) as [b Hb], (lookup_lt_is_Some_2 ids j Hj) as [c Hc'].
    rewrite (nth_lookup_Some _ _ _ _ Hb), (nth_lookup_Some _ _ _ _ Hc') in E. subst c.
    by eapply (NoDup_lookup ids). }
  destruct (Hin (Z.to_nat config) ltac:(lia)) as [_ Hcfg].
  assert (forall i : nat, (i < length ids)%nat -> (Z.of_nat i <> config -> nth i ids 0 <> nth (Z.to_nat config) ids 0)) as Hne.
  { intros i Hi Hic E. apply Hinj in E; lia. }
  destruct (roles_spec ids (Z.of_nat (length ids)) config) as [[-> Hn]|[[-> [Hn Hp]]|[[-> [Hn Hp]]|[[-> [Hn Hp]]|[-> [Hn Hp]]]]]];
    cbn [fst snd].
  - split_and!; [auto|auto|auto|lia|]. split; [lia|intros [? ?]; lia].
  - destruct (Hin 1%nat ltac:(lia)). pose proof (Hne 1%nat ltac:(lia) ltac:(lia)).
    split_and!; [auto|auto|auto|lia|]. split; [done|lia].
  - destruct (Hin 0%nat ltac:(lia)). pose proof (Hne 0%nat ltac:(lia) ltac:(lia)).
    split_and!; [auto|auto|left; lia|done|]. split; [lia|lia].
  - destruct (Hin 0%nat ltac:(lia)), (Hin 2%nat ltac:(lia)). pose proof (Hne 0%nat ltac:(lia) ltac:(lia)).
    pose proof (Hne 2%nat ltac:(lia)) as Hc2.
    split_and!; [auto|auto| |done|].
    + left. intros E. apply Hinj in E; lia.
    + split; [intros E; split; [lia|]; destruct Hp; [|done]; exfalso; apply Hc2; lia|].
      intros [_ ->]. done.
  - destruct (Hin 0%nat ltac:(lia)), (Hin 3%nat ltac:(lia)). pose proof (Hne 0%nat ltac:(lia) ltac:(lia)).
    pose proof (Hne 3%nat ltac:(lia) ltac:(lia)) as Hc3.
    split_and!; [auto|auto| |done|].
    + left. intros E. apply Hinj in E; lia.
    + split; [done|lia].
Qed.

(** ** Mapping and unmapping *)

Definition mapped (l : list event) : list Z :=
  omap (fun e => match e with Ev_call (K_pci_iomap _ _) p => if p =? 0 then None else Some p | _ => None end) l.
Definition unmapped (l : list event) : list Z :=
  omap (fun e => match e with Ev_call (K_pci_iounmap p) _ => Some p | _ => None end) l.
Definition nonzero (l : list Z) : list Z := filter (fun p => p <> 0) l.

Lemma mapped_app l1 l2 : mapped (l1 ++ l2) = mapped l1 ++ mapped l2.
Proof. apply omap_app. Qed.
Lemma unmapped_app l1 l2 : unmapped (l1 ++ l2) = unmapped l1 ++ unmapped l2.
Proof. apply omap_app. Qed.

Lemma nonzero_cons p l : nonzero (p :: l) = (if p =? 0 then [] else [p]) ++ nonzero l.
Proof. unfold nonzero. rewrite filter_cons. destruct (Z.eqb_spec p 0); case_decide; done. Qed.

Lemma nonzero_zeros n : nonzero (replicate n 0) = [].
Proof. induction n as [|n IH]; [done|]. cbn [replicate]. by rewrite nonzero_cons. Qed.

(** The two registers that tell whether a BAR mapped at [p] is the config BAR, and
    what they have to read. *)
Definition id_regs (p : Z) : Z * Z := (p + XDMA_OFS_INT_CTRL + irq_identifier, p + XDMA_OFS_CONFIG + cfg_identifier).
Definition identifies (v w : Z) : bool := (Z.land v 0xffff0000 =? IRQ_BLOCK_ID) && (Z.land w 0xffff0000 =? CONFIG_BLOCK_ID).

(** The tests a run made: the pairs of registers read, and whether what they read
    identifies the config BAR. *)
Fixpoint tests (l : list event) : list (Z * Z * bool) :=
  match l with
  | Ev_read a v :: (Ev_read b w :: l') => (a, b, identifies v w) :: tests l'
  | _ :: l' => tests l'
  | [] => []
  end.
Definition tests_of (l : list event) (t : list (Z * Z * bool)) : Prop := forall l', tests (l ++ l') = t ++ tests l'.

Lemma tests_app l1 l2 t1 t2 : tests_of l1 t1 -> tests_of l2 t2 -> tests_of (l1 ++ l2) (t1 ++ t2).
Proof. intros H1 H2 l'. by rewrite <- !app_assoc, H1, H2. Qed.
Lemma tests_all l t : tests_of l t -> tests l = t.
Proof. intros Ht. specialize (Ht []). by rewrite !app_nil_r in Ht. Qed.

Section Mapping.
Context {D : Type} `{Env D} (bar_len : Z -> Z) (Hbar : forall i, 0 <= bar_len i).
Implicit Types (s : dst D).

(** The BARs are all unmapped, in order, and forgotten. *)
Lemma wp_unmap n i (Q : unit -> dst D -> Prop) s :
  length (xd_bar (ds_dev s)) = (i + n)%nat ->
  (forall l s', k_trace (ds_k s') = k_trace (ds_k s) ++ l -> mapped l = [] -> tests l = [] ->
     unmapped l = nonzero (drop i (xd_bar (ds_dev s))) ->
     xd_bar (ds_dev s') = take i (xd_bar (ds_dev s)) ++ replicate n 0 -> Q tt s') ->
  wp (for_up n (Z.of_nat i) (fun i => x ← the_dev;
        when (nz (xd_bar_at x i)) (call_ (K_pci_iounmap (xd_bar_at x i)) ;; upd_dev (set_bar i 0)))) Q s.
Proof.
  revert i s. induction n as [|n IH]; intros i s Hl HQ; cbn [for_up].
  { dv_step. apply (HQ []); [by rewrite app_nil_r|done|done|by rewrite drop_ge by lia|]. rewrite app_nil_r, take_ge by lia. done. }
  destruct (lookup_lt_is_Some_2 (xd_bar (ds_dev s)) i) as [b Hb]; [lia|].
  assert (xd_bar_at (ds_dev s) (Z.of_nat i) = b) as Hat.
  { unfold xd_bar_at. rewrite Nat2Z.id. by apply nth_lookup_Some. }
  rewrite (drop_S _ _ _ Hb), nonzero_cons in HQ. replace (Z.of_nat i + 1) with (Z.of_nat (S i)) by lia.
  do 2 dv_step. dv_step. rewrite Hat. unfold nz. destruct (Z.eqb_spec b 0) as [E0|Hnz]; cbn [negb when].
  - dv_step. apply IH; [lia|]. intros l s' E Hm Ht Hu HB. apply (HQ l); [done|done|done|done|].
    rewrite HB, (take_S_r _ _ _ Hb), E0, <- app_assoc. done.
  - do 3 dv_step. apply IH.
    { fld. unfold set_bar. fld. rewrite length_insert. lia. }
    intros l s' E Hm Ht Hu HB. fld. unfold set_bar in *. fld. rewrite Nat2Z.id in *.
    rewrite drop_insert_lt in Hu by lia.
    eapply HQ; [rewrite E; trace_eq| | | |].
    + exact Hm.
    + exact Ht.
    + cbn. f_equal. exact Hu.
    + rewrite HB. rewrite (take_S_r _ _ 0) by (apply list_lookup_insert_eq; lia).
      rewrite take_insert_ge by lia. by rewrite <- app_assoc.
Qed.

(** What has been asked of the BARs from [i] up to [j]: each one large enough is
    tested, in order. *)
Definition asked (x : xdma_dev) (i j : Z) : list (Z * Z) :=
  (fun k => id_regs (xd_bar_at x k)) <$> filter (fun k => XDMA_BAR_SIZE <= bar_len k) (seqZ i (j - i)).

(** The search for the config BAR from BAR [i] on made the tests [t]: none identified
    it, or the last did, and it is the one recorded. *)
Definition searched (i : Z) (x : xdma_dev) (t : list (Z * Z * bool)) : Prop :=
  xd_config_bar_idx x < 0 /\ t = (fun r => (r, false)) <$> asked x i (Z.of_nat (length (xd_bar x)))
  \/ exists c, xd_config_bar_idx x = c /\ i <= c < Z.of_nat (length (xd_bar x)) /\ XDMA_BAR_SIZE <= bar_len c
       /\ t = ((fun r => (r, false)) <$> asked x i c) ++ [(id_regs (xd_bar_at x c), true)].

Definition map_failed (l : list event) : Prop := exists i n, Ev_call (K_pci_iomap i n) 0 ∈ l.

(** [s'] is [s] after mapping BARs from [i] on, with the events [l], as far as
    mapping them succeeds. *)
Record maps (i : nat) (ok : bool) (l : list event) (s s' : dst D) : Prop := {
  mp_trace : k_trace (ds_k s') = k_trace (ds_k s) ++ l;
  mp_unmapped : unmapped l = [];
  mp_mapped : mapped l = nonzero (drop i (xd_bar (ds_dev s')));
  mp_take : take i (xd_bar (ds_dev s')) = take i (xd_bar (ds_dev s));
  mp_len : length (xd_bar (ds_dev s')) = length (xd_bar (ds_dev s));
  mp_config : xd_config_bar_idx (ds_dev s) < 0 ->
    xd_config_bar_idx (ds_dev s') < 0
    \/ 0 <= xd_config_bar_idx (ds_dev s') /\ xd_config_bar (ds_dev s') <> 0;
  mp_found : 0 <= xd_config_bar_idx (ds_dev s) -> xd_config_bar_idx (ds_dev s') = xd_config_bar_idx (ds_dev s);
  mp_why : if ok then
      (forall k, Z.of_nat i <= k < Z.of_nat (length (xd_bar (ds_dev s'))) -> nz (xd_bar_at (ds_dev s') k) = nz (bar_len k))
      /\ exists t, tests_of l t /\ if xd_config_bar_idx (ds_dev s) <? 0 then searched (Z.of_nat i) (ds_dev s') t else t = []
    else map_failed l;
}.

Lemma asked_cons x i j : i < j ->
  asked x i j = (if XDMA_BAR_SIZE <=? bar_len i then [id_regs (xd_bar_at x i)] else []) ++ asked x (i + 1) j.
Proof.
  intros Hj. unfold asked. rewrite seqZ_cons by lia. rewrite filter_cons.
  replace (Z.pred (j - i)) with (j - (i + 1)) by lia. replace (Z.succ i) with (i + 1) by lia.
  case_decide; destruct (Z.leb_spec XDMA_BAR_SIZE (bar_len i)); (done || lia).
Qed.

Lemma asked_nil x i j : j <= i -> asked x i j = [].
Proof. intros Hj. unfold asked. by rewrite seqZ_nil by lia. Qed.

(** What the test of BAR [i], mapped at [p], does to the search. *)
Definition tested (i p : Z) (x x1 : xdma_dev) (t : list (Z * Z * bool)) : Prop :=
  if (XDMA_BAR_SIZE <=? bar_len i) && (xd_config_bar_idx x <? 0)
  then exists b, t = [(id_regs p, b)] /\ xd_config_bar_idx x1 = if b : bool then i else xd_config_bar_idx x
  else t = [] /\ xd_config_bar_idx x1 = xd_config_bar_idx x.

Lemma searched_step i p x x1 x' t1 t :
  0 <= i < Z.of_nat (length (xd_bar x')) -> xd_bar_at x' i = p -> xd_config_bar_idx x < 0 -> tested i p x x1 t1 ->
  (0 <= xd_config_bar_idx x1 -> xd_config_bar_idx x' = xd_config_bar_idx x1) ->
  (if xd_config_bar_idx x1 <? 0 then searched (i + 1) x' t else t = []) -> searched i x' (t1 ++ t).
Proof.
  intros Hi Hp Hx Ht Hf Hs. unfold tested in Ht. destruct (Z.ltb_spec (xd_config_bar_idx x) 0); [|lia].
  rewrite andb_true_r in Ht. destruct (Z.leb_spec XDMA_BAR_SIZE (bar_len i)) as [Hb|Hb].
  - destruct Ht as ([] & -> & E); rewrite E in *.
    + destruct (Z.ltb_spec i 0); [lia|]. subst t. right. exists i. rewrite asked_nil by lia. rewrite Hp. split_and!; auto; lia.
    + destruct (Z.ltb_spec (xd_config_bar_idx x) 0); [|lia]. destruct Hs as [[Hc ->]|(c & Hc & Hr & Hl & ->)].
      * left. split; [done|]. rewrite (asked_cons x' i) by lia. destruct (Z.leb_spec XDMA_BAR_SIZE (bar_len i)); [|lia]. by rewrite Hp.
      * right. exists c. split_and!; [done|lia|lia|done|]. rewrite (asked_cons x' i) by lia.
        destruct (Z.leb_spec XDMA_BAR_SIZE (bar_len i)); [|lia]. by rewrite Hp.
  - destruct Ht as [-> E]; rewrite E in *. destruct (Z.ltb_spec (xd_config_bar_idx x) 0); [|lia]. cbn [app].
    destruct Hs as [[Hc ->]|(c & Hc & Hr & Hl & ->)].
    + left. split; [done|]. rewrite (asked_cons x' i) by lia. by destruct (Z.leb_spec XDMA_BAR_SIZE (bar_len i)); [lia|].
    + right. exists c. split_and!; [done|lia|lia|done|]. rewrite (asked_cons x' i) by lia.
      by destruct (Z.leb_spec XDMA_BAR_SIZE (bar_len i)); [lia|].
Qed.

Lemma maps_none i s : length (xd_bar (ds_dev s)) = i -> maps i true [] s s.
Proof.
  intros Hl. constructor; auto; [by rewrite app_nil_r|by rewrite drop_ge by lia|]. split; [intros; lia|]. exists []. split; [done|].
  destruct (Z.ltb_spec (xd_config_bar_idx (ds_dev s)) 0); [|done]. left. split; [done|]. by rewrite asked_nil by lia.
Qed.

Lemma bar_zero_same n i s :
  drop i (xd_bar (ds_dev s)) = replicate (S n) 0 -> <[i := 0]> (xd_bar (ds_dev s)) = xd_bar (ds_dev s).
Proof.
  intros Hd. apply list_insert_id. pose proof (f_equal (fun l => l !! O) Hd) as E. cbn in E.
  by rewrite lookup_drop, Nat.add_0_r in E.
Qed.

(** The next BAR mapped at [p], and the rest. *)
Lemma maps_step i ok p l1 t1 l s s1 s' :
  length (xd_bar (ds_dev s)) = length (xd_bar (ds_dev s1)) -> (i < length (xd_bar (ds_dev s)))%nat ->
  xd_bar (ds_dev s1) = <[i := p]> (xd_bar (ds_dev s)) -> p <> 0 -> bar_len (Z.of_nat i) <> 0 ->
  k_trace (ds_k s1) = k_trace (ds_k s) ++ l1 -> unmapped l1 = [] -> mapped l1 = [p] ->
  tests_of l1 t1 -> tested (Z.of_nat i) p (ds_dev s) (ds_dev s1) t1 ->
  maps (S i) ok l s1 s' -> maps i ok (l1 ++ l) s s'.
Proof.
  intros Hl Hi HB Hp Hbl Ht Hu Hm Ht1 Htd [T U P K L C F W].
  assert (xd_bar (ds_dev s') !! i = Some p) as Hip.
  { rewrite <- (lookup_take_lt _ (S i)) by lia. rewrite K, lookup_take_lt by lia. rewrite HB. apply list_lookup_insert_eq. lia. }
  assert (xd_bar_at (ds_dev s') (Z.of_nat i) = p) as Hat.
  { unfold xd_bar_at. by rewrite Nat2Z.id, (nth_lookup_Some _ _ _ _ Hip). }
  assert (xd_config_bar_idx (ds_dev s1) = xd_config_bar_idx (ds_dev s)
   \/ xd_config_bar_idx (ds_dev s) < 0 /\ xd_config_bar_idx (ds_dev s1) = Z.of_nat i) as Hc.
  { unfold tested in Htd. destruct (Z.ltb_spec (xd_config_bar_idx (ds_dev s)) 0); [|rewrite andb_false_r in Htd; left; apply Htd].
    destruct (_ && true); [destruct Htd as ([] & _ & E); auto|left; apply Htd]. }
  constructor.
  - by rewrite T, Ht, app_assoc.
  - by rewrite unmapped_app, Hu, U.
  - rewrite mapped_app, Hm, P, (drop_S _ _ _ Hip), nonzero_cons. by destruct (Z.eqb_spec p 0).
  - assert (take i (xd_bar (ds_dev s')) = take i (xd_bar (ds_dev s1))) as ->.
    { apply (f_equal (take i)) in K. rewrite !take_take in K. by replace (i `min` S i)%nat with i in K by lia. }
    by rewrite HB, take_insert_ge by lia.
  - by rewrite L, Hl.
  - intros Hneg. destruct Hc as [Hc|[_ Hc]]; [apply C; by rewrite Hc|].
    right. rewrite F, Hc by lia. split; [lia|]. unfold xd_config_bar. by rewrite F, Hc, Hat by lia.
  - intros Hpos. destruct Hc as [Hc|[? _]]; [|lia]. rewrite F by (by rewrite Hc). done.
  - destruct ok; [|destruct W as (a & b & W); exists a, b; apply elem_of_app; by right]. destruct W as [W (t & Wt & Ws)]. split.
    + intros k Hk. destruct (decide (k = Z.of_nat i)) as [->|Hne]; [|apply W; lia]. rewrite Hat. unfold nz.
      by destruct (Z.eqb_spec p 0), (Z.eqb_spec (bar_len (Z.of_nat i)) 0).
    + exists (t1 ++ t). split; [by apply tests_app|]. destruct (Z.ltb_spec (xd_config_bar_idx (ds_dev s)) 0) as [Hx|Hx].
      * replace (Z.of_nat (S i)) with (Z.of_nat i + 1) in Ws by lia. eapply searched_step; [|exact Hat|exact Hx|exact Htd|exact F|exact Ws]. lia.
      * unfold tested in Htd. destruct (Z.ltb_spec (xd_config_bar_idx (ds_dev s)) 0); [lia|]. rewrite andb_false_r in Htd.
        destruct Htd as [-> E]. rewrite E in Ws. destruct (Z.ltb_spec (xd_config_bar_idx (ds_dev s)) 0); [lia|]. exact Ws.
Qed.

Lemma maps_ext i ok l s s0 s' :
  k_trace (ds_k s0) = k_trace (ds_k s) -> ds_dev s0 = ds_dev s -> maps i ok l s0 s' -> maps i ok l s s'.
Proof. intros E1 E2 [T U P K L C F W]. rewrite E1, E2 in *. by constructor. Qed.

(** A BAR without a length is passed over. *)
Lemma maps_skip i ok l s s' :
  xd_bar (ds_dev s) !! i = Some 0 -> bar_len (Z.of_nat i) = 0 -> maps (S i) ok l s s' -> maps i ok l s s'.
Proof.
  intros Hi Hb [T U P K L C F W]. assert (xd_bar (ds_dev s') !! i = Some 0) as Hi'.
  { rewrite <- (lookup_take_lt _ (S i)) by lia. by rewrite K, lookup_take_lt by lia. }
  assert (xd_bar_at (ds_dev s') (Z.of_nat i) = 0) as Hat.
  { unfold xd_bar_at. by rewrite Nat2Z.id, (nth_lookup_Some _ _ _ _ Hi'). }
  apply lookup_lt_Some in Hi' as Hlt. constructor; try done.
  - by rewrite P, (drop_S _ _ _ Hi'), nonzero_cons.
  - apply (f_equal (take i)) in K. rewrite !take_take in K. by replace (i `min` S i)%nat with i in K by lia.
  - destruct ok; [|done]. destruct W as [W (t & Wt & Ws)]. split.
    + intros k Hk. destruct (decide (k = Z.of_nat i)) as [->|Hne]; [by rewrite Hat, Hb|apply W; lia].
    + exists t. split; [done|]. destruct (Z.ltb_spec (xd_config_bar_idx (ds_dev s)) 0) as [Hx|Hx]; [|done].
      replace (Z.of_nat (S i)) with (Z.of_nat i + 1) in Ws by lia.
      apply (searched_step _ 0 (ds_dev s) (ds_dev s) (ds_dev s') []); [lia|done|done|unfold tested; by rewrite Hb|done|].
      by destruct (Z.ltb_spec (xd_config_bar_idx (ds_dev s)) 0); [|lia].
Qed.

Lemma wp_is_config_bar i (Q : bool -> dst D -> Prop) s :
  (forall b l k, k_trace k = k_trace (ds_k s) ++ l -> mapped l = [] -> unmapped l = [] ->
     tests_of l [(id_regs (xd_bar_at (ds_dev s) i), b)] -> Q b (s <| ds_k := k |>)) ->
  wp (is_config_bar i) Q s.
Proof. intros HQ. unfold is_config_bar. repeat dv_step. eapply HQ; [trace_eq|done|done|by intros l']. Qed.

(** Mapping one BAR: there is none; it cannot be mapped; it is mapped at [p]. *)
Lemma wp_map_single i (Q : Z -> dst D -> Prop) s :
  xd_bar (ds_dev s) !! i = Some 0 ->
  (forall s', bar_len (Z.of_nat i) = 0 -> ds_dev s' = ds_dev s -> k_trace (ds_k s') = k_trace (ds_k s) -> Q 0 s') ->
  (forall l s', k_trace (ds_k s') = k_trace (ds_k s) ++ l -> mapped l = [] -> unmapped l = [] -> map_failed l ->
     ds_dev s' = ds_dev s -> Q (-1) s') ->
  (forall v p l s', 0 < v -> (XDMA_BAR_SIZE <=? v) = (XDMA_BAR_SIZE <=? bar_len (Z.of_nat i)) -> bar_len (Z.of_nat i) <> 0 ->
     p <> 0 -> k_trace (ds_k s') = k_trace (ds_k s) ++ l -> mapped l = [p] -> unmapped l = [] -> tests_of l [] ->
     xd_bar (ds_dev s') = <[i := p]> (xd_bar (ds_dev s)) ->
     xd_config_bar_idx (ds_dev s') = xd_config_bar_idx (ds_dev s) -> Q v s') ->
  wp (map_single_bar bar_len (Z.of_nat i)) Q s.
Proof.
  intros Hi0 HN HF HM. assert (set_bar (Z.of_nat i) 0 (ds_dev s) = ds_dev s) as Hset.
  { unfold set_bar. rewrite Nat2Z.id. pose proof (list_insert_id _ _ _ Hi0) as E. destruct (ds_dev s). unfold set_field. cbn in *. by rewrite E. }
  unfold map_single_bar. do 2 dv_step.
  set (s0 := s <| ds_dev ::= set_bar (Z.of_nat i) 0 |>). assert (ds_dev s0 = ds_dev s) as E0 by done.
  destruct (Z.eqb_spec (bar_len (Z.of_nat i)) 0) as [Hz|Hz]; [dv_step; by apply HN|].
  set (len := if INT_MAX <? _ then _ else _). do 4 dv_step. rename v into p.
  match goal with E : k_trace k = _ |- _ => rename E into Ek end.
  set (s1 := _ <| ds_dev ::= set_bar (Z.of_nat i) p |>).
  assert (ds_dev s1 = set_bar (Z.of_nat i) p (ds_dev s)) as E1 by (subst s1; fld; by rewrite <- E0).
  destruct (Z.eqb_spec p 0) as [Hp|Hp]; dv_step.
  - eapply HF; [exact Ek| |done| |by rewrite E1, Hp]; [cbn; by rewrite Hp|]. eexists _, _. rewrite Hp. left.
  - pose proof (Hbar (Z.of_nat i)).
    assert (0 < s32 len /\ (XDMA_BAR_SIZE <=? s32 len) = (XDMA_BAR_SIZE <=? bar_len (Z.of_nat i))) as [Hs Hb].
    { subst len. unfold INT_MAX, XDMA_BAR_SIZE. destruct (Z.ltb_spec 2147483647 (bar_len (Z.of_nat i))); rewrite s32_small; lia. }
    eapply HM; [exact Hs|exact Hb|exact Hz|exact Hp|exact Ek| |done|by intros l'|by rewrite E1; unfold set_bar; fld; rewrite Nat2Z.id|by rewrite E1].
    cbn. by destruct (Z.eqb_spec p 0).
Qed.

Lemma wp_map_loop n i ids pos (Q : option (list Z * Z) -> dst D -> Prop) s :
  length (xd_bar (ds_dev s)) = (i + n)%nat -> drop i (xd_bar (ds_dev s)) = replicate n 0 ->
  (forall r l s', maps i (bool_decide (r <> None)) l s s' -> Q r s') ->
  wp (map_bars_loop bar_len n (Z.of_nat i) ids pos) Q s.
Proof.
  revert i ids pos s. induction n as [|n IH]; intros i ids pos s Hl Hd HQ; cbn [map_bars_loop].
  { dv_step. apply (HQ _ []). apply maps_none. lia. }
  pose proof (f_equal (drop 1) Hd) as Hd'. rewrite drop_drop, Nat.add_1_r in Hd'. change (drop 1 (replicate (S n) 0)) with (replicate n 0) in Hd'.
  assert (xd_bar (ds_dev s) !! i = Some 0) as Hi0.
  { pose proof (f_equal (fun l => l !! O) Hd) as E. cbn in E. by rewrite lookup_drop, Nat.add_0_r in E. }
  replace (Z.of_nat i + 1) with (Z.of_nat (S i)) by lia. dv_step.
  apply wp_map_single; [done|intros s1 HZ E1 T1|intros l1 s1 T1 M1 U1 W1 E1|intros v p l1 s1 Hv Hbig HZ Hp T1 M1 U1 W1 EB EC].
  { cbn [Z.eqb]. apply IH; rewrite ?E1; [lia|done|]. intros r l s' Hm. apply (HQ _ l), maps_skip; [done|done|]. by apply (maps_ext _ _ _ _ s1). }
  { cbn [Z.eqb Z.ltb Z.compare]. dv_step. apply (HQ _ l1). constructor; rewrite ?E1; try done; [by rewrite M1, Hd, nonzero_zeros|auto]. }
  assert (length (xd_bar (ds_dev s)) = length (xd_bar (ds_dev s1))) as EL by (by rewrite EB, length_insert).
  destruct (Z.eqb_spec v 0); [lia|]. destruct (Z.ltb_spec v 0); [lia|]. do 3 dv_step.
  rewrite Hbig.
  assert (forall (b : bool) l2 t2 k2, k_trace k2 = k_trace (ds_k s1) ++ l2 -> mapped l2 = [] -> unmapped l2 = [] -> tests_of l2 t2 ->
     tested (Z.of_nat i) p (ds_dev s) (if b then (ds_dev s1) <| xd_config_bar_idx := Z.of_nat i |> else ds_dev s1) t2 ->
     wp (when b (upd_dev (fun x => x <| xd_config_bar_idx := Z.of_nat i |>)) ;;
         map_bars_loop bar_len n (Z.of_nat (S i)) (ids ++ [Z.of_nat i])
           (if b then Z.of_nat (length ids) else pos)) Q (s1 <| ds_k := k2 |>)) as Hrest.
  { intros b l2 t2 k2 E2 M2 U2 W2 Htd. assert (i < length (xd_bar (ds_dev s)))%nat as Hi by lia.
    assert (k_trace k2 = k_trace (ds_k s) ++ l1 ++ l2) as ET by (by rewrite E2, T1, <- app_assoc).
    dv_step. destruct b; cbn [when]; dv_step; (apply IH; fld; [lia|by rewrite EB, drop_insert_lt by lia|]); intros r l s' Hm;
      apply (HQ _ ((l1 ++ l2) ++ l)); refine (maps_step i _ p _ ([] ++ t2) l _ _ _ _ Hi _ Hp HZ _ _ _ _ _ Hm);
      first [exact Htd|exact EL|exact EB|exact ET|by rewrite unmapped_app, U1, U2|by rewrite mapped_app, M1, M2|by apply tests_app]. }
  unfold tested in Hrest. apply wp_if; intros Hc.
  - rewrite EC in Hc. rewrite Hc in Hrest. apply wp_is_config_bar. intros b l2 k2 E2 M2 U2 W2. apply (Hrest b l2 _ _ E2 M2 U2 W2).
    assert (xd_bar_at (ds_dev s1) (Z.of_nat i) = p) as ->.
    { unfold xd_bar_at. rewrite Nat2Z.id, EB. apply nth_lookup_Some, list_lookup_insert_eq. lia. }
    exists b. split; [done|]. by destruct b.
  - rewrite EC in Hc. rewrite Hc in Hrest. dv_step. specialize (Hrest false [] [] (ds_k s1)).
    replace (s1 <| ds_k := ds_k s1 |>) with s1 in Hrest by (by destruct s1).
    apply Hrest; [by rewrite app_nil_r|done|done|done|done].
Qed.

Lemma identify_bars_keeps ids num pos x :
  xd_bar (identify_bars ids num pos x) = xd_bar x
  /\ xd_config_bar_idx (identify_bars ids num pos x) = xd_config_bar_idx x.
Proof. unfold identify_bars. by repeat case_match. Qed.

(** Exactly the BARs with a length are mapped. *)
Definition all_mapped (x : xdma_dev) : Prop := forall k, 0 <= k < 6 -> nz (xd_bar_at x k) = nz (bar_len k).

(** How [map_bars] ends. *)
Definition map_outcome (s : dst D) (r : Z) (s' : dst D) : Prop := exists l,
  k_trace (ds_k s') = k_trace (ds_k s) ++ l
  /\ (r = 0 /\ unmapped l = [] /\ mapped l = nonzero (xd_bar (ds_dev s'))
        /\ 0 <= xd_config_bar_idx (ds_dev s') /\ xd_config_bar (ds_dev s') <> 0
        /\ length (xd_bar (ds_dev s')) = 6%nat
        /\ all_mapped (ds_dev s') /\ searched 0 (ds_dev s') (tests l)
      \/ r = - EINVAL /\ unmapped l = mapped l /\ xd_bar (ds_dev s') = replicate 6 0
        /\ (map_failed l
            \/ exists x, all_mapped x /\ mapped l = nonzero (xd_bar x) /\ xd_config_bar_idx x < 0 /\ searched 0 x (tests l))).

Lemma wp_map_bars_cases s :
  xd_bar (ds_dev s) = replicate 6 0 -> xd_config_bar_idx (ds_dev s) < 0 -> wp (map_bars bar_len) (map_outcome s) s.
Proof.
  intros HB Hcfg. unfold map_bars. dv_step.
  apply (wp_map_loop 6 0); [by rewrite HB|by rewrite HB|]. intros r l1 s1 [T1 U1 M1 _ L1 C1 _ W1].
  rewrite HB in L1. specialize (C1 Hcfg). change (length (replicate 6 0)) with 6%nat in L1.
  assert (map_failed l1 \/ (exists x, all_mapped x /\ mapped l1 = nonzero (xd_bar x) /\ xd_config_bar_idx x < 0
            /\ exists t, tests_of l1 t /\ searched 0 x t) ->
          wp (unmap_bars ;; mret (- EINVAL)) (map_outcome s) s1) as Hfail.
  { intros Hwhy. dv_step. apply (wp_unmap 6 0); [done|]. intros l2 s2 T2 M2 W2 U2 B2. dv_step. exists (l1 ++ l2).
    rewrite T2, T1, app_assoc. split; [done|]. right. rewrite unmapped_app, mapped_app, U1, M1, M2, U2, app_nil_r.
    split_and!; [done|done|done|]. destruct Hwhy as [(a & b & Hin)|(x & Ha & Hm & Hc & t & Ht & Hs)].
    - left. exists a, b. apply elem_of_app. by left.
    - right. exists x. rewrite Ht, W2, app_nil_r, <- M1. auto. }
  destruct r as [[ids pos]|]; [|apply Hfail; by left]. rewrite bool_decide_true in W1 by done.
  destruct W1 as [Hall (t & Ht & Hs)]. destruct (Z.ltb_spec (xd_config_bar_idx (ds_dev s)) 0); [|lia].
  assert (all_mapped (ds_dev s1)) as Ha by (intros k Hk; apply Hall; lia). dv_step. dv_step.
  destruct (Z.ltb_spec (xd_config_bar_idx (ds_dev s1)) 0); [apply Hfail; right; by eauto 10|].
  do 3 dv_step. exists l1. split; [done|]. left. fld. rewrite (tests_all _ _ Ht).
  destruct (identify_bars_keeps ids (Z.of_nat (length ids)) pos (ds_dev s1)) as [Eb Ec].
  unfold xd_config_bar, all_mapped, searched, asked, xd_bar_at in *. rewrite Eb, Ec. split_and!; [done|done|exact M1|lia| |done|done|exact Hs].
  destruct C1 as [?|[_ ?]]; [lia|done].
Qed.

(** C27 On a device whose BARs are not mapped yet, [map_bars] either succeeds with exactly
    the BARs that have a length mapped and none of the mappings undone: the BARs of at least
    [XDMA_BAR_SIZE] bytes were then tested in order, up to the first whose two identifier
    registers read as those of the DMA engine, and this one is recorded as the config BAR.
    Or it fails with [-EINVAL] and every mapping it made is undone, once and in order, no
    BAR being left in the device; this happens when a BAR could not be mapped, or when all
    were and none of those tested is the config BAR. *)
Theorem map_bars_outcome s :
  xd_bar (ds_dev s) = replicate 6 0 -> xd_config_bar_idx (ds_dev s) < 0 ->
  let '(r, s') := map_bars bar_len s in map_outcome s r s'.
Proof. intros HB HC. apply wp_elim. by apply wp_map_bars_cases. Qed.
End Mapping.

(** ** Witnesses *)

Lemma identify_bars_roles_witness :
  ltac:(statement_of (identify_bars_roles [0; 1; 2] 2 (xdev_zero <| xd_user_bar_idx := -1 |> <| xd_bypass_bar_idx := -1 |>)
    ltac:(decide_now) ltac:(decide_now) ltac:(decide_now) ltac:(decide_now) eq_refl eq_refl)).
Proof.
  instance_of (identify_bars_roles [0; 1; 2] 2 (xdev_zero <| xd_user_bar_idx := -1 |> <| xd_bypass_bar_idx := -1 |>)
    ltac:(decide_now) ltac:(decide_now) ltac:(decide_now) ltac:(decide_now) eq_refl eq_refl).
Defined.

(** A card with two BARs, mapped at 0x10000 and 0x20000, the second with the DMA
    registers. *)
Definition ex_bar_len (i : Z) : Z := if i <? 2 then 0x10000 else 0.
Definition ex_bars : dst sim :=
  dev_start (sim_start [(0x20000 + XDMA_OFS_INT_CTRL, IRQ_BLOCK_ID); (0x20000 + XDMA_OFS_CONFIG, CONFIG_BLOCK_ID)]
               (fun c => match c with K_pci_iomap i _ => 0x10000 * (i + 1) | _ => 0 end))
    (xdev_zero <| xd_bar := replicate 6 0 |> <| xd_user_bar_idx := -1 |> <| xd_bypass_bar_idx := -1 |>
               <| xd_config_bar_idx := -1 |>) [] [].

Lemma ex_bar_len_nonneg i : 0 <= ex_bar_len i.
Proof. unfold ex_bar_len. by destruct (i <? 2). Qed.

Lemma map_bars_outcome_witness :
  ltac:(statement_of (map_bars_outcome ex_bar_len ex_bar_len_nonneg ex_bars eq_refl eq_refl)).
Proof. instance_of (map_bars_outcome ex_bar_len ex_bar_len_nonneg ex_bars eq_refl eq_refl). Defined.

(** The run of the example: the second BAR is the config BAR, the first the user
    BAR. *)
Example ex_bars_run :
  let (r, s) := map_bars ex_bar_len ex_bars in
  (r, xd_config_bar_idx (ds_dev s), xd_user_bar_idx (ds_dev s), xd_bypass_bar_idx (ds_dev s)) = (0, 1, 0, -1).
Proof. by vm_compute. Qed.
