(* ===== verification/EngineSetup.v ===== *)
(** Bringing an engine up and down ([libxdma.c]): its memory, the registers set
    when it is created or brought back online, the address mode, and the cyclic
    transfer of the performance test. *)
From S2P Require Import Prelude Kernel Types Desc Transfer Engine EngineSpec EngineQueue EngineRegs.
Local Open Scope Z_scope.

(* @src xdma/libxdma.c:55-55 XDMA_PERF_NUM_DESC *)
Definition XDMA_PERF_NUM_DESC : Z := 128.
(* @src xdma/libxdma.h:394-397 xdma_poll_wb *)
Definition sizeof_xdma_poll_wb : Z := 32.

(** The registers two and more engines share: [bar[config_bar_idx] + 6 * TARGET_SPACING]. *)
Definition common_reg (xdev : xdma_dev) (r : Z) : Z := xd_config_bar xdev + 0x6 * TARGET_SPACING + r.

Section Code.
Context {D : Type} `{Env D} (pm : params).

(** The bus address [dma_alloc_coherent] stores in its [dma_handle] for the
    memory it returns. *)
Variable dma_bus : Z -> Z.
Variable sizeof_transfer : Z.

(* @src xdma/libxdma.c:2526-2555 engine_alignments *)
Definition engine_alignments : M (est D) unit :=
  w ← read_reg reg_alignments;
  let align_bytes := Z.shiftr (Z.land w 0x00ff0000) 16 in
  let granularity_bytes := Z.shiftr (Z.land w 0x0000ff00) 8 in
  let address_bits := Z.land w 0x000000ff in
  if nz w then
    upd_engine (fun e => e <| eng_addr_align := align_bytes |>
      <| eng_len_granularity := granularity_bytes |> <| eng_addr_bits := address_bits |>)
  else
    upd_engine (fun e => e <| eng_addr_align := 1 |>
      <| eng_len_granularity := 1 |> <| eng_addr_bits := 64 |>).

(* @src xdma/libxdma.c:2557-2588 engine_free_resource *)
Definition engine_free_resource : M (est D) unit :=
  e ← the_engine;
  match eng_poll_wb e with
  | Some wb =>
      call_ (K_dma_free_coherent sizeof_xdma_poll_wb wb (eng_poll_mode_bus e)) ;;
      upd_engine (fun e => e <| eng_poll_wb := None |>)
  | None => mret tt
  end ;;
  match eng_desc e with
  | Some _ =>
      call_ (K_dma_free_coherent (eng_desc_max e * sizeof_xdma_desc) (eng_desc_virt e) (eng_desc_bus e)) ;;
      upd_engine (fun e => e <| eng_desc := None |>)
  | None => mret tt
  end ;;
  match eng_cyclic_result e with
  | Some _ =>
      call_ (K_dma_free_coherent (eng_desc_max e * sizeof_xdma_result)
               (eng_cyclic_result_virt e) (eng_cyclic_result_bus e)) ;;
      upd_engine (fun e => e <| eng_cyclic_result := None |>)
  | None => mret tt
  end.

(** [engine->desc = dma_alloc_coherent(size, &engine->desc_bus)] for [n]
    descriptors. *)
Definition alloc_desc (n : Z) : M (est D) bool :=
  p ← call (K_dma_alloc_coherent (n * sizeof_xdma_desc));
  if p =? 0 then upd_engine (fun e => e <| eng_desc := None |>) ;; mret false
  else upd_engine (fun e => e <| eng_desc := Some (replicate (Z.to_nat n) desc_zero) |>
                              <| eng_desc_virt := p |> <| eng_desc_bus := dma_bus p |>) ;; mret true.

Definition alloc_poll_wb : M (est D) bool :=
  p ← call (K_dma_alloc_coherent sizeof_xdma_poll_wb);
  if p =? 0 then upd_engine (fun e => e <| eng_poll_wb := None |>) ;; mret false
  else upd_engine (fun e => e <| eng_poll_wb := Some p |> <| eng_poll_mode_bus := dma_bus p |>) ;; mret true.

Definition alloc_result (n : Z) : M (est D) bool :=
  p ← call (K_dma_alloc_coherent (n * sizeof_xdma_result));
  if p =? 0 then upd_engine (fun e => e <| eng_cyclic_result := None |>) ;; mret false
  else upd_engine (fun e => e <| eng_cyclic_result := Some (replicate (Z.to_nat n) result_zero) |>
                              <| eng_cyclic_result_virt := p |> <| eng_cyclic_result_bus := dma_bus p |>) ;;
       mret true.

(* @src xdma/libxdma.c:2789-2833 engine_alloc_resource *)
Definition engine_alloc_resource : M (est D) Z :=
  e ← the_engine;
  let err_out := engine_free_resource ;; mret (- ENOMEM) in
  ok ← alloc_desc (eng_desc_max e);
  if negb ok then err_out
  else
    ok ← (if poll_mode pm then alloc_poll_wb else mret true);
    if negb ok then err_out
    else
      ok ← (if streaming_c2h e then alloc_result (eng_desc_max e) else mret true);
      if negb ok then err_out else mret 0.

(** The writeback word is memory the device writes; it is zeroed first. *)
(* @src xdma/libxdma.c:2682-2718 engine_writeback_setup *)
Definition engine_writeback_setup : M (est D) Z :=
  e ← the_engine;
  write_register 0 (default 0 (eng_poll_wb e)) ;;
  write_reg (PCI_DMA_L (eng_poll_mode_bus e)) reg_poll_mode_wb_lo ;;
  write_reg (PCI_DMA_H (eng_poll_mode_bus e)) reg_poll_mode_wb_hi ;; mret 0.

(* @src xdma/libxdma.c:2742-2761 engine_init_regs *)
Definition init_irq_mask : Z :=
  lor_all ([XDMA_CTRL_IE_DESC_ALIGN_MISMATCH; XDMA_CTRL_IE_MAGIC_STOPPED; XDMA_CTRL_IE_MAGIC_STOPPED;
            XDMA_CTRL_IE_READ_ERROR; XDMA_CTRL_IE_DESC_ERROR]
           ++ (if poll_mode pm then [] else [XDMA_CTRL_IE_DESC_STOPPED; XDMA_CTRL_IE_DESC_COMPLETED])).

(* @src xdma/libxdma.c:2731-2787 engine_init_regs *)
Definition engine_init_regs (xdev : xdma_dev) : M (est D) Z :=
  write_reg XDMA_CTRL_NON_INCR_ADDR reg_control_w1c ;;
  engine_alignments ;;
  rv ← (if poll_mode pm then engine_writeback_setup else mret 0);
  if nz rv then mret rv
  else
    write_reg init_irq_mask reg_interrupt_enable_mask ;;
    upd_engine (fun e => e <| eng_interrupt_enable_mask_value := init_irq_mask |>) ;;
    e ← the_engine;
    when (st_c2h_credit pm e)
      (write_register (u32 (Z.shiftl (Z.shiftl 1 (eng_channel e)) 16))
         (common_reg xdev common_credit_mode_enable_w1s)) ;;
    mret 0.

(** [get_user] is its result, then the value it stores. *)
(* @src xdma/libxdma.c:4773-4798 engine_addrmode_set *)
Definition engine_addrmode_set (arg : Z) : M (est D) Z :=
  rv ← call (K_get_user arg);
  when (rv =? 0)
    (dst ← call (K_user_value arg);
     upd_engine (fun e => e <| eng_non_incr_addr := nz dst |>) ;;
     if nz dst then write_reg XDMA_CTRL_NON_INCR_ADDR reg_control_w1s
     else write_reg XDMA_CTRL_NON_INCR_ADDR reg_control_w1c) ;;
  engine_alignments ;;
  mret rv.

(** [transfer_size], the field of the performance parameters, as the [int] the
    code keeps it in.  [engine->xdma_perf] is set by the callers. *)
Definition perf_size (e : xdma_engine) : Z :=
  match eng_xdma_perf e with Some p => s32 (p_transfer_size p) | None => 0 end.

(** The transfer stopped, [None] for [NULL]. *)
(* @src xdma/libxdma.c:2636-2680 engine_cyclic_stop *)
Definition engine_cyclic_stop : M (est D) (option xfer_ptr) :=
  e ← the_engine;
  let size := perf_size e in
  match eng_transfer_list e with
  | [] => mret None
  | p :: _ =>
      rv ← xdma_engine_stop pm;
      if rv <? 0 then mret None
      else
        x ← the_xfer p;
        when (x_cyclic x)
          (when (nz (eng_perf_buf_virt e))
             (call_ (K_dma_free_coherent (u64 size) (eng_perf_buf_virt e) (eng_perf_buf_bus e))) ;;
           upd_engine (fun e => e <| eng_perf_buf_virt := 0 |>) ;;
           list_del_head) ;;
        mret (Some p)
  end.

(** ** The performance test: a loop of descriptors over one buffer *)

(* @src xdma/libxdma.c:3999-4018 xdma_performance_submit *)
Definition perf_num_desc (size_in_desc : Z) : Z :=
  let max_consistent_size := XDMA_PERF_NUM_DESC * 32 * 1024 in
  let size := s32 (size_in_desc * XDMA_PERF_NUM_DESC) in
  if max_consistent_size <? u32 size then Z.quot max_consistent_size size_in_desc
  else XDMA_PERF_NUM_DESC.

(** The descriptors the test puts on the engine's array. *)
(* @src xdma/libxdma.c:4061-4086 xdma_performance_submit *)
Definition perf_ring (e : xdma_engine) (num size_in_desc : Z) (ring : list xdma_desc) : list xdma_desc :=
  let ring := transfer_desc_init 0 (eng_desc_bus e) num ring in
  let ring := imap (fun i d => if Z.of_nat i <? num
                               then xdma_desc_set d (eng_perf_buf_bus e) 0 size_in_desc (eng_dir e) else d) ring in
  let ring := upd_desc 0 (fun d => (xdma_desc_control_set d 0).2) ring in
  upd_desc (num - 1) (fun d => xdma_desc_link d (Some 0) (eng_desc_bus e)) ring.

(** [err_engine_transfer:] *)
(* @src xdma/libxdma.c:4120-4125 xdma_performance_submit *)
Definition perf_free_buf (size_in_desc : Z) : M (est D) unit :=
  e ← the_engine;
  when (nz (eng_perf_buf_virt e))
    (call_ (K_dma_free_coherent (u64 size_in_desc) (eng_perf_buf_virt e) (eng_perf_buf_bus e))) ;;
  upd_engine (fun e => e <| eng_perf_buf_virt := 0 |>).

(** The transfer the test queues, at [(p, 0)]. *)
(* @src xdma/libxdma.c:4037-4040 xdma_performance_submit *)
Definition perf_xfer (e : xdma_engine) (num : Z) : xdma_transfer :=
  xfer_zero <| x_dir := eng_dir e |> <| x_desc_num := num |>.

(** [None] is the [list_del] of a transfer that is on no list, which follows
    [NULL] pointers.  [engine->desc] is [NULL] only when the engine was not set
    up. *)
(* @src xdma/libxdma.c:3997-4126 xdma_performance_submit *)
Definition xdma_performance_submit (xdev : xdma_dev) : M (est D) (option Z) :=
  e ← the_engine;
  let size_in_desc := perf_size e in
  if XDMA_PERF_NUM_DESC * 32 * 1024 <? u32 size_in_desc then mret (Some (- EINVAL))
  else
    let num := perf_num_desc size_in_desc in
    buf ← call (K_dma_alloc_coherent (u64 size_in_desc));
    upd_engine (fun e => e <| eng_perf_buf_virt := buf |> <| eng_perf_buf_bus := dma_bus buf |>) ;;
    if buf =? 0 then mret (Some (- ENOMEM))
    else
      p ← call (K_kzalloc sizeof_transfer);
      if p =? 0 then perf_free_buf size_in_desc ;; mret (Some (- ENOMEM))
      else
        ok ← (if eng_desc e is Some _ then mret true else alloc_desc num);
        if negb ok then mret None
        else
          e ← the_engine;
          modify (fun s => s <| es_heap ::= <[(p, 0) := perf_xfer e num]> |>) ;;
          upd_xfer (p, 0) (fun x => x <| x_desc_virt := 0 |> <| x_desc_bus := eng_desc_bus e |>) ;;
          upd_engine (upd_ring (perf_ring e num size_in_desc)) ;;
          upd_xfer (p, 0) (fun x => x <| x_cyclic := true |>) ;;
          rv ← transfer_queue pm xdev (p, 0);
          if rv <? 0 then mret None else mret (Some 0).
End Code.

(** ** The memory of an engine *)

(** DMA memory as the size, address and bus address it is allocated and freed
    with. *)
Definition dma_mem : Type := Z * Z * Z.

Definition allocs (dma_bus : Z -> Z) (l : list event) : list dma_mem :=
  omap (fun ev => match ev with
    | Ev_call (K_dma_alloc_coherent n) p => if p =? 0 then None else Some (n, p, dma_bus p)
    | _ => None end) l.
Definition frees (l : list event) : list dma_mem :=
  omap (fun ev => match ev with Ev_call (K_dma_free_coherent n p b) _ => Some (n, p, b) | _ => None end) l.

Lemma allocs_app bus l1 l2 : allocs bus (l1 ++ l2) = allocs bus l1 ++ allocs bus l2.
Proof. apply omap_app. Qed.
Lemma frees_app l1 l2 : frees (l1 ++ l2) = frees l1 ++ frees l2.
Proof. apply omap_app. Qed.

(** The memory an engine holds. *)
Definition held_poll (e : xdma_engine) : list dma_mem :=
  if eng_poll_wb e is Some wb then [(sizeof_xdma_poll_wb, wb, eng_poll_mode_bus e)] else [].
Definition held_desc (e : xdma_engine) : list dma_mem :=
  if eng_desc e is Some _ then [(eng_desc_max e * sizeof_xdma_desc, eng_desc_virt e, eng_desc_bus e)] else [].
Definition held_result (e : xdma_engine) : list dma_mem :=
  if eng_cyclic_result e is Some _
  then [(eng_desc_max e * sizeof_xdma_result, eng_cyclic_result_virt e, eng_cyclic_result_bus e)] else [].
Definition held (e : xdma_engine) : list dma_mem := held_poll e ++ held_desc e ++ held_result e.

(** [engine_free_resource] as a change of the engine. *)
Definition no_memory (e : xdma_engine) : xdma_engine :=
  e <| eng_poll_wb := None |> <| eng_desc := None |> <| eng_cyclic_result := None |>.

Lemma held_no_memory e : held (no_memory e) = [].
Proof. done. Qed.

Section Memory.
Context {D : Type} `{Env D} (pm : params) (dma_bus : Z -> Z).
Implicit Types (s : est D).

Lemma wp_free_resource (Q : unit -> est D -> Prop) s :
  (forall l s', k_trace (es_k s') = k_trace (es_k s) ++ l -> allocs dma_bus l = [] ->
     frees l = held (es_eng s) -> held (es_eng s') = [] -> no_memory (es_eng s') = no_memory (es_eng s) ->
     es_heap s' = es_heap s -> es_sgts s' = es_sgts s -> Q tt s') ->
  wp engine_free_resource Q s.
Proof.
  intros HQ. unfold engine_free_resource. do 2 tr_step.
  unfold held at 1, held_poll, held_desc, held_result in HQ. 
  destruct (eng_poll_wb (es_eng s)) eqn:E1, (eng_desc (es_eng s)) eqn:E2, (eng_cyclic_result (es_eng s)) eqn:E3;
    repeat tr_step.
  all: first [ apply (HQ []); [by rewrite app_nil_r|done|done| | |done|done]
             | eapply HQ; [trace_eq|done|done| | |done|done] ]; [|done].
  all: unfold held, held_poll, held_desc, held_result; fld; by rewrite ?E1, ?E2, ?E3.
Qed.

(** [l] has been allocated since [s0], nothing freed, and [s] holds it all. *)
Definition owns (s0 s : est D) (l : list event) : Prop :=
  k_trace (es_k s) = k_trace (es_k s0) ++ l /\ frees l = [] /\ allocs dma_bus l ≡ₚ held (es_eng s).

Lemma wp_dma_alloc size (none : xdma_engine -> xdma_engine) (some : Z -> xdma_engine -> xdma_engine)
    (Q : bool -> est D -> Prop) s0 s l :
  owns s0 s l ->
  (held (none (es_eng s)) = held (es_eng s)) ->
  (forall p, p <> 0 -> held (some p (es_eng s)) ≡ₚ held (es_eng s) ++ [(size, p, dma_bus p)]) ->
  (forall l s', owns s0 s' l -> es_eng s' = none (es_eng s) -> Q false s') ->
  (forall p l s', owns s0 s' l -> es_eng s' = some p (es_eng s) -> Q true s') ->
  wp (p ← call (K_dma_alloc_coherent size);
      if p =? 0 then upd_engine none ;; mret false else upd_engine (some p) ;; mret true) Q s.
Proof.
  intros (Ht & Hf & Ha) Hnone Hsome HQ0 HQ1. tr_step. tr_step. destruct (Z.eqb_spec v 0) as [->|Hv]; do 3 tr_step.
  - eapply (HQ0 _); [|reflexivity]. split; [fld; rewrite H0, Ht; by rewrite <- app_assoc|]. split.
    + by rewrite frees_app, Hf.
    + rewrite allocs_app. cbn. rewrite app_nil_r. fld. by rewrite Hnone.
  - eapply (HQ1 v _); [|reflexivity]. split; [fld; rewrite H0, Ht; by rewrite <- app_assoc|]. split.
    + by rewrite frees_app, Hf.
    + rewrite allocs_app. cbn. destruct (Z.eqb_spec v 0); [done|]. fld. rewrite Hsome by done. by rewrite Ha.
Qed.

(** How [engine_alloc_resource] leaves an engine. *)
Definition alloc_outcome (s : est D) (r : Z) (s' : est D) : Prop :=
  exists l, k_trace (es_k s') = k_trace (es_k s) ++ l
    /\ (r = 0 /\ frees l = [] /\ allocs dma_bus l ≡ₚ held (es_eng s')
        /\ eng_desc (es_eng s') = Some (replicate (Z.to_nat (eng_desc_max (es_eng s))) desc_zero)
        /\ (poll_mode pm = true <-> is_Some (eng_poll_wb (es_eng s')))
        /\ (streaming_c2h (es_eng s) = true <-> is_Some (eng_cyclic_result (es_eng s')))
        \/ r = - ENOMEM /\ frees l ≡ₚ allocs dma_bus l /\ held (es_eng s') = []).

Lemma wp_alloc_fail s s0 l :
  owns s s0 l -> wp (engine_free_resource ;; mret (- ENOMEM)) (alloc_outcome s) s0.
Proof.
  intros (Ht & Hf & Ha). tr_step. apply wp_free_resource. intros l' s' El Ea Ef Eh _ _ _. tr_step.
  exists (l ++ l'). split; [by rewrite El, Ht, app_assoc|]. right. split; [done|]. split; [|done].
  rewrite frees_app, allocs_app, Hf, Ef, Ea, app_nil_r. by rewrite Ha.
Qed.

Lemma wp_alloc_results s s0 l :
  owns s s0 l -> eng_desc (es_eng s0) = Some (replicate (Z.to_nat (eng_desc_max (es_eng s))) desc_zero) ->
  (poll_mode pm = true <-> is_Some (eng_poll_wb (es_eng s0))) -> eng_cyclic_result (es_eng s0) = None ->
  eng_desc_max (es_eng s0) = eng_desc_max (es_eng s) ->
  wp (ok ← (if streaming_c2h (es_eng s) then alloc_result dma_bus (eng_desc_max (es_eng s)) else mret true);
      if negb ok then engine_free_resource ;; mret (- ENOMEM) else mret 0) (alloc_outcome s) s0.
Proof.
  intros O E2 E1 E3 Em. tr_step. destruct (streaming_c2h (es_eng s)) eqn:Es.
  - unfold alloc_result. eapply wp_dma_alloc; [exact O| | | |].
    + unfold held, held_poll, held_desc, held_result. fld_in_goal. by rewrite E3.
    + intros p Hp. unfold held, held_poll, held_desc, held_result. fld_in_goal. rewrite E3, Em. cbn.
      by rewrite app_nil_r, app_assoc.
    + intros l1 s1 O1 _. by apply (wp_alloc_fail s _ l1).
    + intros p1 l1 s1 O1 K1. cbn [negb]. tr_step. exists l1. destruct O1 as (Ht & Hf & Ha). split; [done|]. left.
      rewrite K1 at 2 3 4. fld_in_goal. rewrite Es. by split_and!.
  - tr_step. cbn [negb]. tr_step. exists l. destruct O as (Ht & Hf & Ha). split; [done|]. left.
    split_and!; try done. rewrite Es, E3. split; [done|intros [? ?]; done].
Qed.

(** C33 The memory of an engine is allocated all or nothing.  Either
    [engine_alloc_resource] returns 0, frees nothing, and the engine holds
    exactly the memory allocated: a zeroed array of [desc_max] descriptors, the
    writeback word in poll mode, and the results of a streaming C2H engine; or
    it returns [-ENOMEM], has freed exactly what it allocated, each at the size
    and address it was allocated with, and the engine holds nothing. *)
Theorem engine_alloc_resource_all s :
  held (es_eng s) = [] ->
  let '(r, s') := engine_alloc_resource pm dma_bus s in alloc_outcome s r s'.
Proof.
  intros Hh. apply wp_elim. unfold engine_alloc_resource.
  assert (eng_poll_wb (es_eng s) = None /\ eng_desc (es_eng s) = None /\ eng_cyclic_result (es_eng s) = None) as (E1 & E2 & E3).
  { unfold held, held_poll, held_desc, held_result in Hh. by repeat case_match. }
  assert (owns s s []) as Hown by (split; [by rewrite app_nil_r|split; [done|by rewrite Hh]]).
  do 3 tr_step. unfold alloc_desc. eapply wp_dma_alloc; [exact Hown| | | |].
  { unfold held, held_poll, held_desc, held_result. fld_in_goal. by rewrite E2. }
  { intros p Hp. unfold held, held_poll, held_desc, held_result. fld_in_goal. by rewrite E1, E2, E3. }
  { intros l1 s1 O1 _. cbn [negb]. by apply (wp_alloc_fail _ _ l1). }
  intros p1 l1 s1 O1 K1. cbn [negb]. assert (eng_poll_wb (es_eng s1) = None) as F1 by (rewrite K1; exact E1).
  assert (eng_cyclic_result (es_eng s1) = None) as F3 by (rewrite K1; exact E3).
  tr_step. destruct (poll_mode pm) eqn:Ep.
  - unfold alloc_poll_wb. eapply wp_dma_alloc; [exact O1| | | |].
    + unfold held, held_poll, held_desc, held_result. fld_in_goal. by rewrite F1.
    + intros p Hp. unfold held, held_poll, held_desc, held_result. fld_in_goal. rewrite F1, F3, K1. cbn.
      by rewrite Permutation_cons_append.
    + intros l2 s2 O2 _. by apply (wp_alloc_fail s _ l2).
    + intros p2 l2 s2 O2 K2. cbn [negb]. apply (wp_alloc_results s _ l2); [exact O2|..]; rewrite K2, ?K1; fld_in_goal;
        [done|rewrite Ep; split; [by eexists|done]|by rewrite E3|done].
  - tr_step. cbn [negb]. apply (wp_alloc_results s _ l1); [exact O1|..]; rewrite K1; fld_in_goal;
      [done|rewrite Ep, E1; split; [done|by intros [? ?]]|by rewrite E3|done].
Qed.
End Memory.

(** ** The descriptors of the performance test form a loop *)

(** The descriptor the engine reads [k] fetches after the one at [addr]. *)
Fixpoint fetch_nth (k : nat) (mem : Z -> option xdma_desc) (addr : Z) : option xdma_desc :=
  d ← mem addr;
  match k with O => Some d | S k => fetch_nth k mem (desc_next d) end.

(** A descriptor of the test: [size] bytes between the buffer and address 0 of
    the card, and on to [next]. *)
Record perf_desc (dir : dma_data_direction) (buf size next : Z) (d : xdma_desc) : Prop := {
  pd_go : desc_stop d = false;
  pd_bytes : d_bytes d = size;
  pd_src : desc_src d = if dir_eqb dir DMA_TO_DEVICE then buf else 0;
  pd_dst : desc_dst d = if dir_eqb dir DMA_TO_DEVICE then 0 else buf;
  pd_next : desc_next d = next;
}.

Lemma perf_num_range size :
  0 < size <= 0x400000 -> 1 <= perf_num_desc size <= 128 /\ perf_num_desc size * size <= 0x400000.
Proof.
  intros Hs. unfold perf_num_desc, XDMA_PERF_NUM_DESC. change (128 * 32 * 1024) with 0x400000.
  rewrite s32_small, u32_small by lia. destruct (Z.ltb_spec 0x400000 (size * 128)); [|lia].
  rewrite Z.quot_div_nonneg by lia. split; [split|].
  - apply Z.div_le_lower_bound; lia.
  - apply Z.div_le_upper_bound; lia.
  - rewrite Z.mul_comm. apply Z.mul_div_le. lia.
Qed.

Lemma perf_desc_make dir buf size next d :
  0 <= buf < 2 ^ 64 -> 0 <= size < 2 ^ 32 -> 0 <= next < 2 ^ 64 -> d_control d = DESC_MAGIC ->
  desc_next d = next -> perf_desc dir buf size next (xdma_desc_set d buf 0 size dir).
Proof.
  intros Hb Hs Hn Hc Hd. unfold xdma_desc_set.
  destruct (dir_eqb dir DMA_TO_DEVICE) eqn:Ed; constructor; rewrite ?Ed;
    unfold desc_stop, desc_src, desc_dst, desc_next in *; fld_in_goal; rewrite ?Hc;
    rewrite ?PCI_DMA_word64 by lia; rewrite ?u32_small by lia; done.
Qed.

Lemma perf_desc_control dir buf size next d :
  d_control d = DESC_MAGIC -> perf_desc dir buf size next d ->
  perf_desc dir buf size next (xdma_desc_control_set d 0).2
  /\ d_control (xdma_desc_control_set d 0).2 = DESC_MAGIC.
Proof.
  intros Hc [? ? ? ? ?]. unfold xdma_desc_control_set. cbn [nz Z.ldiff Z.eqb negb snd]. split; [|fld; by rewrite Hc].
  constructor; unfold desc_stop, desc_src, desc_dst, desc_next in *; fld_in_goal; rewrite ?Hc; done.
Qed.

Lemma perf_desc_link dir buf size next bus d :
  0 <= bus < 2 ^ 64 -> d_control d = DESC_MAGIC -> perf_desc dir buf size next d ->
  perf_desc dir buf size bus (xdma_desc_link d (Some 0) bus).
Proof.
  intros Hb Hc [? ? ? ? ?]. unfold xdma_desc_link.
  constructor; unfold desc_stop, desc_src, desc_dst, desc_next in *; fld_in_goal; rewrite ?Hc;
    rewrite ?PCI_DMA_word64 by lia; done.
Qed.

Section Loop.
Context (e : xdma_engine) (num size : Z) (ring : list xdma_desc).
Context (Hnum : 1 <= num <= Z.of_nat (length ring)) (Hsize : 0 <= size < 2 ^ 32)
        (Hbus : 0 <= eng_desc_bus e) (Hbus' : eng_desc_bus e + 32 * num < 2 ^ 64)
        (Hbuf : 0 <= eng_perf_buf_bus e < 2 ^ 64).

(** Descriptor [k] points to the next of the [num], the last to the first. *)
Lemma lookup_perf_ring (k : nat) :
  Z.of_nat k < num -> exists d, perf_ring e num size ring !! k = Some d
    /\ perf_desc (eng_dir e) (eng_perf_buf_bus e) size
         (eng_desc_bus e + 32 * ((Z.of_nat k + 1) mod num)) d.
Proof.
  intros Hk. destruct (lookup_lt_is_Some_2 ring k) as [d0 Hd0]; [lia|].
  set (next := if decide (Z.of_nat k = 0 + num - 1) then 0 else eng_desc_bus e + 32 * (Z.of_nat k - 0 + 1)).
  assert (0 <= next < 2 ^ 64) as Hnext by (subst next; destruct (decide _); lia).
  set (d1 := xdma_desc_set (desc_init_one next d0) (eng_perf_buf_bus e) 0 size (eng_dir e)).
  assert (d_control d1 = DESC_MAGIC) as Hc1.
  { subst d1. unfold xdma_desc_set. by destruct (dir_eqb _ _). }
  assert (perf_desc (eng_dir e) (eng_perf_buf_bus e) size next d1) as H1.
  { apply perf_desc_make; [lia|lia|lia|done|by apply desc_next_init]. }
  destruct (perf_desc_control _ _ _ _ _ Hc1 H1) as [H2 Hc2].
  set (d2 := if decide (Z.of_nat k = 0) then (xdma_desc_control_set d1 0).2 else d1).
  assert (perf_desc (eng_dir e) (eng_perf_buf_bus e) size next d2 /\ d_control d2 = DESC_MAGIC) as [H3 Hc3].
  { subst d2. clearbody d1. destruct (decide (Z.of_nat k = 0)); split; done. }
  unfold perf_ring. rewrite lookup_upd_desc, lookup_upd_desc, list_lookup_imap, lookup_transfer_desc_init by lia.
  rewrite Hd0. rewrite (decide_True (P := 0 <= Z.of_nat k < 0 + num)) by lia. cbn [fmap option_fmap option_map].
  fold next. destruct (Z.ltb_spec (Z.of_nat k) num); [|lia]. fold d1.
  assert ((if decide (Z.of_nat k = 0) then Some (xdma_desc_control_set d1 0).2 else Some d1) = Some d2) as ->
    by (subst d2; clearbody d1; by destruct (decide (Z.of_nat k = 0))).
  destruct (decide (Z.of_nat k = num - 1)) as [E|E]; cbn [fmap option_fmap option_map].
  - eexists. split; [reflexivity|]. replace ((Z.of_nat k + 1) mod num) with 0.
    + rewrite Z.mul_0_r, Z.add_0_r. by apply (perf_desc_link _ _ _ next); [lia|done|].
    + rewrite E. replace (num - 1 + 1) with num by lia. by rewrite Z_mod_same_full.
  - eexists. split; [reflexivity|]. rewrite Z.mod_small by lia.
    replace (eng_desc_bus e + 32 * (Z.of_nat k + 1)) with next; [done|].
    subst next. rewrite decide_False by lia. lia.
Qed.

Lemma fetch_perf_ring (j k : nat) :
  Z.of_nat k < num ->
  exists d next, fetch_nth j (ring_mem (eng_desc_bus e) (perf_ring e num size ring)) (eng_desc_bus e + 32 * Z.of_nat k)
                 = Some d /\ perf_desc (eng_dir e) (eng_perf_buf_bus e) size next d.
Proof.
  revert k. induction j as [|j IH]; intros k Hk; cbn [fetch_nth]; rewrite ring_mem_at by lia;
    rewrite Nat2Z.id; destruct (lookup_perf_ring k Hk) as (d & -> & Hd); cbn [mbind option_bind].
  - by exists d, (eng_desc_bus e + 32 * ((Z.of_nat k + 1) mod num)).
  - rewrite (pd_next _ _ _ _ _ Hd).
    pose proof (Z.mod_pos_bound (Z.of_nat k + 1) num ltac:(lia)).
    destruct (IH (Z.to_nat ((Z.of_nat k + 1) mod num)) ltac:(lia)) as (d' & next & Hf & Hp).
    rewrite Z2Nat.id in Hf by lia. by exists d', next.
Qed.
End Loop.

Lemma ring_upd_some f e r : eng_desc e = Some r -> eng_ring (upd_ring f e) = f r.
Proof. intros E. by rewrite eng_ring_upd, E. Qed.

(** The caller of the performance test has set its parameters; the engine has
    the descriptors [engine_alloc_resource] gave it. *)
Record perf_ok (e : xdma_engine) (ring : list xdma_desc) : Prop := {
  po_desc : eng_desc e = Some ring;
  po_len : XDMA_PERF_NUM_DESC <= Z.of_nat (length ring);
  po_bus : 0 <= eng_desc_bus e;
  po_bus' : eng_desc_bus e + 32 * XDMA_PERF_NUM_DESC < 2 ^ 64;
  po_size : 0 < perf_size e;
}.

Lemma queue_refused_neg xdev e x z : queue_refused xdev e x = Some z -> z < 0.
Proof. unfold queue_refused. repeat case_match; intros [= <-]; done. Qed.

Section Submit.
Context {D : Type} `{Env D} (pm : params) (dma_bus : Z -> Z) (sizeof_transfer : Z) (xdev : xdma_dev).
Implicit Types (s : est D).

(** The engine and the transfer when the transfer is queued, the buffer at
    [buf]. *)
Definition perf_engine (buf : Z) (e : xdma_engine) : xdma_engine :=
  e <| eng_perf_buf_virt := buf |> <| eng_perf_buf_bus := dma_bus buf |>.
Definition perf_queued (buf : Z) (e : xdma_engine) : xdma_transfer :=
  (perf_xfer e (perf_num_desc (perf_size e))) <| x_desc_virt := 0 |> <| x_desc_bus := eng_desc_bus e |>
    <| x_cyclic := true |>.

Lemma perf_size_bound e : 0 < perf_size e -> perf_size e < 2 ^ 31.
Proof.
  unfold perf_size, s32. destruct (eng_xdma_perf e) as [p|]; [|lia]. pose proof (u32_range (p_transfer_size p)).
  destruct (Z.ltb_spec (u32 (p_transfer_size p)) 2147483648); lia.
Qed.

Lemma wp_perf_submit (Q : option Z -> est D -> Prop) s ring :
  perf_ok (es_eng s) ring ->
  (0x400000 < perf_size (es_eng s) -> Q (Some (- EINVAL)) s) ->
  (forall s', eng_perf_buf_virt (es_eng s') = 0 -> Q (Some (- ENOMEM)) s') ->
  (forall buf p s1, let e0 := perf_engine buf (es_eng s) in
     let size := perf_size (es_eng s) in
     size <= 0x400000 ->
     es_eng s1 = upd_ring (perf_ring e0 (perf_num_desc size) size) e0 ->
     es_heap s1 = <[(p, 0) := perf_queued buf e0]> (es_heap s) ->
     match queue_refused xdev (es_eng s1) (perf_queued buf e0) with
     | Some _ => Q None s1
     | None => forall s', same_static (es_eng s1) (es_eng s') ->
         es_heap s' = set_state TRANSFER_STATE_SUBMITTED (p, 0) (es_heap s1) ->
         eng_transfer_list (es_eng s') = eng_transfer_list (es_eng s) ++ [(p, 0)] ->
         eng_running (es_eng s') = true -> Q (Some 0) s'
     end) ->
  wp (xdma_performance_submit pm dma_bus sizeof_transfer xdev) Q s.
Proof.
  intros [Hd Hl Hb Hb' Hs] HQ1 HQ2 HQ3. pose proof (perf_size_bound _ Hs) as Hs'.
  unfold xdma_performance_submit. est_step. est_step.
  change (XDMA_PERF_NUM_DESC * 32 * 1024) with 0x400000.
  rewrite u32_small by lia. destruct (Z.ltb_spec 0x400000 (perf_size (es_eng s))) as [Hbig|Hsmall].
  { est_step. by apply HQ1. }
  do 4 est_step. rename v into buf. destruct (Z.eqb_spec buf 0) as [->|Hbuf]; [est_step; by apply HQ2|].
  do 2 est_step. destruct (v =? 0).
  { unfold perf_free_buf. repeat est_step; by apply HQ2. }
  rewrite Hd. est_step. est_step. cbn [negb].
  repeat lazymatch goal with |- wp (transfer_queue _ _ _) _ _ => fail | _ => est_step end.
  match goal with |- wp _ _ ?st => set (s1 := st) end.
  specialize (HQ3 buf v s1 Hsmall eq_refl). set (x1 := perf_queued _ _) in *.
  assert (es_heap s1 = <[(v, 0) := x1]> (es_heap s)) as Hh1 by (subst s1; fld_in_goal; by rewrite !alter_insert_eq).
  specialize (HQ3 Hh1). assert (xfer_at s1 (v, 0) = x1) as Hx1 by (unfold xfer_at; rewrite Hh1, lookup_insert_eq; done).
  apply wp_transfer_queue. rewrite Hx1. destruct (queue_refused xdev (es_eng s1) x1) eqn:Hq.
  - apply queue_refused_neg in Hq. destruct (Z.ltb_spec z 0); [|lia]. by est_step.
  - intros s' Hst Hh Hlist Hrun _. change (0 <? 0) with false. cbv iota. est_step. by apply HQ3.
Qed.
End Submit.

(** The performance test runs until it is stopped.  When
    [xdma_performance_submit] succeeds its transfer is the last of the queue and
    the engine runs; from the address the transfer starts at, the engine can
    fetch descriptors for ever: every descriptor reached moves [transfer_size]
    bytes between the test's buffer and address 0 of the card, and none asks it
    to stop. *)
Theorem perf_loop_endless {D} `{Env D} pm dma_bus sizeof_transfer xdev (s s' : est D) ring :
  perf_ok (es_eng s) ring -> (forall p, 0 <= dma_bus p < 2 ^ 64) ->
  xdma_performance_submit pm dma_bus sizeof_transfer xdev s = (Some 0, s') ->
  exists p x, es_heap s' !! p = Some x /\ x_cyclic x = true
    /\ eng_transfer_list (es_eng s') = eng_transfer_list (es_eng s) ++ [p] /\ eng_running (es_eng s') = true
    /\ forall k, exists d next,
         fetch_nth k (ring_mem (eng_desc_bus (es_eng s')) (eng_ring (es_eng s'))) (x_desc_bus x) = Some d
         /\ perf_desc (eng_dir (es_eng s)) (eng_perf_buf_bus (es_eng s')) (perf_size (es_eng s)) next d.
Proof.
  intros Hok Hbus Hrun. pose proof Hok as [Hd Hl Hb Hb' Hs]. pose proof (perf_size_bound _ Hs).
  change XDMA_PERF_NUM_DESC with 128 in *. generalize (eq_refl (Some 0)). pattern (Some 0) at 1, s'. apply (wp_result _ _ _ _ _ Hrun).
  apply (wp_perf_submit _ _ _ _ _ _ ring Hok); [done|done|].
  intros buf p s1 e0 size Hsmall He1 Hh1. destruct (queue_refused _ _ _); [done|].
  intros s2 Hst Hh Hlist Hr _. destruct (perf_num_range size) as [Hn _]; [lia|].
  exists (p, 0), ((perf_queued buf e0) <| x_state := TRANSFER_STATE_SUBMITTED |>).
  split; [rewrite Hh, Hh1; unfold set_state; by rewrite lookup_alter_eq, lookup_insert_eq|].
  split; [done|]. split; [done|]. split; [done|].
  assert (eng_desc_bus (es_eng s2) = eng_desc_bus e0 /\ eng_perf_buf_bus (es_eng s2) = eng_perf_buf_bus e0
          /\ eng_ring (es_eng s2) = perf_ring e0 (perf_num_desc size) size ring) as (-> & -> & ->).
  { rewrite Hst, He1. split; [done|]. split; [done|]. exact (ring_upd_some _ e0 ring Hd). }
  intros k'. destruct (fetch_perf_ring e0 (perf_num_desc size) size ring) with (j := k') (k := O)
    as (d & next & Hf & Hp); [lia|subst size; lia|exact Hb|change (eng_desc_bus e0) with (eng_desc_bus (es_eng s)); lia|apply Hbus|lia|].
  exists d, next. rewrite Z.mul_0_r, Z.add_0_r in Hf. done.
Qed.

(** The performance test cannot report that the device is going away.  When
    the device is offline, or the engine shutting down, [transfer_queue] refuses
    the transfer, and the error path then unlinks the transfer, which is on no
    list, through its [NULL] links: the run ends there ([None]) unless it ended
    before, for a size too large or for lack of memory. *)
Theorem perf_refused_crashes {D} `{Env D} pm dma_bus sizeof_transfer xdev (s : est D) ring :
  perf_ok (es_eng s) ring ->
  xdma_device_flag_check xdev XDEV_FLAG_OFFLINE = true \/ tst (eng_shutdown (es_eng s)) ENGINE_SHUTDOWN_REQUEST = true ->
  let r := (xdma_performance_submit pm dma_bus sizeof_transfer xdev s).1 in
  r = Some (- EINVAL) /\ 0x400000 < perf_size (es_eng s) \/ r = Some (- ENOMEM) \/ r = None.
Proof.
  intros Hok Hoff r. subst r. refine (wp_run _ (fun r _ => r = Some (- EINVAL) /\ _ \/ r = Some (- ENOMEM) \/ r = None) _ _).
  apply (wp_perf_submit _ _ _ _ _ _ ring Hok); [by left|by right; left|].
  intros buf p s1 e0 size _ He1 _. destruct (queue_refused _ _ _) eqn:Hq; [by right; right|]. exfalso.
  assert (eng_shutdown (es_eng s1) = eng_shutdown (es_eng s)) as Es by (by rewrite He1).
  unfold queue_refused in Hq. rewrite Es in Hq. destruct Hoff as [Hf|Hf]; rewrite Hf in Hq; by repeat case_match.
Qed.

(** ** Witnesses *)

Lemma engine_alloc_resource_all_witness :
  ltac:(statement_of (engine_alloc_resource_all ex_params (fun p => p) ex_idle eq_refl)).
Proof. instance_of (engine_alloc_resource_all ex_params (fun p => p) ex_idle eq_refl). Defined.

Definition ex_perf : est sim :=
  {| es_k := sim_start [] (fun _ => 0x8000);
     es_eng := engine_zero <| eng_magic := MAGIC_ENGINE |> <| eng_dir := DMA_TO_DEVICE |> <| eng_desc_max := 128 |>
                 <| eng_desc_bus := 0x1000 |> <| eng_desc := Some (replicate 128 desc_zero) |>
                 <| eng_xdma_perf := Some (Build_xdma_performance_ioctl 1 0x10000 0 0 0 0 0) |>;
     es_heap := ∅; es_sgts := ∅ |}.

Lemma ex_perf_ok : perf_ok (es_eng ex_perf) (replicate 128 desc_zero).
Proof. by constructor. Qed.

Lemma ex_perf_run :
  xdma_performance_submit ex_params u64 136 xdev_zero ex_perf
  = (Some 0, (xdma_performance_submit ex_params u64 136 xdev_zero ex_perf).2).
Proof. by vm_compute. Qed.

Lemma perf_loop_endless_witness :
  ltac:(statement_of (perf_loop_endless ex_params u64 136 xdev_zero ex_perf _ _ ex_perf_ok u64_range ex_perf_run)).
Proof. instance_of (perf_loop_endless ex_params u64 136 xdev_zero ex_perf _ _ ex_perf_ok u64_range ex_perf_run). Defined.

Lemma perf_refused_crashes_witness :
  ltac:(statement_of (perf_refused_crashes ex_params u64 136 (xdev_zero <| xd_flags := XDEV_FLAG_OFFLINE |>) ex_perf _
    ex_perf_ok (or_introl eq_refl))).
Proof.
  instance_of (perf_refused_crashes ex_params u64 136 (xdev_zero <| xd_flags := XDEV_FLAG_OFFLINE |>) ex_perf _
    ex_perf_ok (or_introl eq_refl)).
Defined.
