(* ===== verification/Threads.v ===== *)
(** The completion threads of poll mode ([xdma_thread.c]): starting and stopping
    them, the assignment of engines to threads, and what a thread does each time
    it is scheduled.  The state is the device at hand, the threads, and the list
    of devices ([xdev_list]) of [libxdma.c]. *)
From S2P Require Import Prelude Kernel Types Desc Transfer Engine Device.
Local Open Scope Z_scope.

(** An engine on a work list: the device's handle, the direction and channel. *)
Definition work_item : Type := Z * bool * Z.

(** [th_task] is 0 for [NULL].  [fproc] and [fpending] are always the two
    functions below, [finit] and [fdone] always [NULL], [timeout] always 0. *)
(* @src xdma/xdma_thread.h:78-109 xdma_kthread *)
Record xdma_kthread := {
  th_cpu : Z;
  th_id : Z;
  th_schedule : Z;
  th_task : Z;
  th_work_cnt : Z;
  th_work_list : list work_item;
}.
#[export] Instance xdma_kthread_settable : Settable xdma_kthread := fun t =>
  Build_xdma_kthread (th_cpu t) (th_id t) (th_schedule t) (th_task t) (th_work_cnt t) (th_work_list t).

Definition kthread_zero : xdma_kthread := Build_xdma_kthread 0 0 0 0 0 [].

(** An entry of [xdev_list]: handle, PCI device and index of a device. *)
Record xdev_entry := { le_hndl : Z; le_pdev : Z; le_idx : Z }.

(** [w_threads] is the part of the array [cs_threads] in use, so that
    [thread_cnt] is its length.  [w_self] is the address of the device in
    [w_dst].  [w_oops] is set when the code follows a [NULL] pointer; what the
    model does after that means nothing. *)
Record wst (D : Type) := {
  w_dst : dst D;
  w_self : Z;
  w_cs_threads : Z;
  w_threads : list xdma_kthread;
  w_xdev_list : list xdev_entry;
  w_oops : bool;
}.
Arguments Build_wst {D}.
Arguments w_dst {D}.
Arguments w_self {D}.
Arguments w_cs_threads {D}.
Arguments w_threads {D}.
Arguments w_xdev_list {D}.
Arguments w_oops {D}.
#[export] Instance wst_settable D : Settable (wst D) := fun s =>
  Build_wst (w_dst s) (w_self s) (w_cs_threads s) (w_threads s) (w_xdev_list s) (w_oops s).

#[export] Instance wst_has_k D : Has (wst D) (kstate D) :=
  {| part := fun s => ds_k (w_dst s); with_part := fun k s => s <| w_dst ::= fun d => d <| ds_k := k |> |> |}.
#[export] Instance wst_has_dst D : Has (wst D) (dst D) :=
  {| part := w_dst; with_part := fun d s => s <| w_dst := d |> |}.

(** A function of the device, in the larger state. *)
Definition on_dev {D A} (m : M (dst D) A) : M (wst D) A := zoom m.

Definition thread_cnt {D} (s : wst D) : Z := Z.of_nat (length (w_threads s)).
Definition upd_thread {D} (i : Z) (f : xdma_kthread -> xdma_kthread) : M (wst D) unit :=
  modify (fun s => s <| w_threads ::= alter f (Z.to_nat i) |>).
Definition upd_eng {D} (h2c : bool) (ch : Z) (f : xdma_engine -> xdma_engine) : M (wst D) unit :=
  on_dev (on_engine h2c ch (upd_engine f)).

(** The loop that chooses a thread, from index [i] on, with the choice so far
    and the load [v] it remembers. *)
(* @src xdma/xdma_thread.c:240-258 xdma_thread_add_work *)
Fixpoint choose_thread (threads : list xdma_kthread) (cnt i idx v : Z) : Z :=
  match threads with
  | [] => idx
  | thp :: threads =>
      if idx =? cnt then choose_thread threads cnt (i + 1) i (th_work_cnt thp)
      else if th_work_cnt thp =? 0 then i
      else if th_work_cnt thp <? v then choose_thread threads cnt (i + 1) i v
      else choose_thread threads cnt (i + 1) idx v
  end.

Section Code.
Context {D : Type} `{Env D} (pm : params).

(** [for_each_online_cpu] *)
Variable online_cpus : list Z.
Variable sizeof_kthread : Z.

(** The new thread is the array element after those in use. *)
(* @src xdma/xdma_thread.c:139-180 xdma_kthread_start *)
Definition xdma_kthread_start (thp : xdma_kthread) (id : Z) : M (wst D) (Z * xdma_kthread) :=
  if nz (th_task thp) then mret (- EINVAL, thp)
  else
    let thp := thp <| th_id := u16 id |> <| th_work_list := [] |> in
    task ← call (K_kthread_create (u16 id) (th_cpu thp));
    if IS_ERR task then mret (- EFAULT, thp <| th_task := 0 |>)
    else
      call_ (K_kthread_bind task (th_cpu thp)) ;;
      call_ (K_wake_up_process task) ;;
      mret (0, thp <| th_task := task |>).

(* @src xdma/xdma_thread.c:182-202 xdma_kthread_stop *)
Definition xdma_kthread_stop (i : Z) : M (wst D) Z :=
  ts ← gets w_threads;
  let thp := default kthread_zero (ts !! Z.to_nat i) in
  if th_task thp =? 0 then mret 0
  else
    upd_thread i (fun t => t <| th_schedule := 1 |>) ;;
    rv ← call (K_kthread_stop (th_task thp));
    if rv <? 0 then mret rv
    else upd_thread i (fun t => t <| th_task := 0 |>) ;; mret 0.

(* @src xdma/xdma_thread.c:206-235 xdma_thread_remove_work *)
Definition xdma_thread_remove_work (h2c : bool) (ch : Z) : M (wst D) unit :=
  e ← on_dev (the_eng h2c ch);
  self ← gets w_self;
  upd_eng h2c ch (fun e => e <| eng_cmplthp := None |>) ;;
  match eng_cmplthp e with
  | Some thp =>
      upd_thread thp (fun t => t <| th_work_list ::= filter (fun w => w <> (self, h2c, ch)) |>
                                 <| th_work_cnt ::= fun n => u32 (n - 1) |>)
  | None => mret tt
  end.

(* @src xdma/xdma_thread.c:237-274 xdma_thread_add_work *)
Definition xdma_thread_add_work (h2c : bool) (ch : Z) : M (wst D) unit :=
  ts ← gets w_threads; self ← gets w_self;
  let cnt := Z.of_nat (length ts) in
  let idx := choose_thread ts cnt 0 cnt 0 in
  if cnt =? 0 then modify (fun s => s <| w_oops := true |>)
  else
    upd_thread idx (fun t => t <| th_work_list ::= fun l => l ++ [(self, h2c, ch)] |>
                               <| th_work_cnt ::= fun n => u32 (n + 1) |>) ;;
    upd_eng h2c ch (fun e => e <| eng_intr_work_cpu := idx |> <| eng_cmplthp := Some idx |>).

(** The loop over the CPUs; the result is 0 or the error of a thread that could
    not be started. *)
(* @src xdma/xdma_thread.c:294-310 xdma_threads_create *)
Fixpoint threads_create_loop (cpus : list Z) (num_threads : Z) : M (wst D) Z :=
  match cpus with
  | [] => mret 0
  | cpu :: cpus =>
      ts ← gets w_threads;
      '(rv, thp) ← xdma_kthread_start (kthread_zero <| th_cpu := u16 cpu |>) (Z.of_nat (length ts));
      if rv <? 0 then mret rv
      else
        modify (fun s => s <| w_threads ::= fun l => l ++ [thp] |>) ;;
        if Z.of_nat (length ts) + 1 =? num_threads then mret 0
        else threads_create_loop cpus num_threads
  end.

(* @src xdma/xdma_thread.c:276-320 xdma_threads_create *)
Definition xdma_threads_create (num_threads : Z) : M (wst D) Z :=
  ts ← gets w_threads;
  if nz (Z.of_nat (length ts)) then mret 0
  else
    p ← call (K_kzalloc (u64 (num_threads * sizeof_kthread)));
    modify (fun s => s <| w_cs_threads := p |>) ;;
    if p =? 0 then mret (- ENOMEM)
    else
      rv ← threads_create_loop online_cpus num_threads;
      if rv <? 0 then
        call_ (K_kfree p) ;; modify (fun s => s <| w_cs_threads := 0 |> <| w_threads := [] |>) ;; mret rv
      else mret 0.

(* @src xdma/xdma_thread.c:322-339 xdma_threads_destroy *)
Definition xdma_threads_destroy : M (wst D) unit :=
  ts ← gets w_threads;
  if length ts is O then mret tt
  else
    for_up (length ts) 0 (fun i => xdma_kthread_stop i ;; mret tt) ;;
    p ← gets w_cs_threads;
    call_ (K_kfree p) ;;
    modify (fun s => s <| w_cs_threads := 0 |> <| w_threads := [] |>).

(** ** What a thread does *)

(* @src xdma/xdma_thread.c:34-46 xdma_thread_cmpl_status_pend *)
Definition xdma_thread_cmpl_status_pend (h2c : bool) (ch : Z) : M (dst D) bool :=
  e ← the_eng h2c ch; mret (if eng_transfer_list e is [] then false else true).

(** [transfer] is never [NULL]: on an empty list it is the list head itself,
    and [desc_cmpl_th] a word of the engine, [head_cmpl_th]. *)
(* @src xdma/xdma_thread.c:48-59 xdma_thread_cmpl_status_proc *)
Definition xdma_thread_cmpl_status_proc (head_cmpl_th : xdma_engine -> Z) (hz : Z) (fuel : nat)
    (h2c : bool) (ch : Z) : M (dst D) (option Z) :=
  on_engine h2c ch
    (e ← the_engine;
     th ← (match eng_transfer_list e with
           | p :: _ => x ← the_xfer p; mret (x_desc_cmpl_th x)
           | [] => mret (head_cmpl_th e)
           end);
     engine_service_poll pm hz fuel (u32 th)).

(** The two functions of a thread, on any work item. *)
Variable fpending : work_item -> M (wst D) bool.
Variable fproc : work_item -> M (wst D) unit.

(* @src xdma/xdma_thread.c:69-75 xthread_work_pending *)
Fixpoint work_pending_loop (l : list work_item) : M (wst D) bool :=
  match l with
  | [] => mret false
  | w :: l => pend ← fpending w; if (pend : bool) then mret true else work_pending_loop l
  end.

(* @src xdma/xdma_thread.c:61-76 xthread_work_pending *)
Definition xthread_work_pending (i : Z) : M (wst D) bool :=
  ts ← gets w_threads; work_pending_loop (th_work_list (default kthread_zero (ts !! Z.to_nat i))).

(* @src xdma/xdma_thread.c:121-123 xthread_main *)
Fixpoint proc_loop (l : list work_item) : M (wst D) unit :=
  match l with [] => mret tt | w :: l => fproc w ;; proc_loop l end.

(** One turn of the loop; [wait] is what happens while the thread sleeps in
    [xthread_reschedule]. *)
(* @src xdma/xdma_thread.c:102-127 xthread_main *)
Definition xthread_turn (wait : M (wst D) unit) (i : Z) : M (wst D) unit :=
  pend ← xthread_work_pending i;
  when (negb pend) wait ;;
  upd_thread i (fun t => t <| th_schedule := 0 |>) ;;
  ts ← gets w_threads;
  let thp := default kthread_zero (ts !! Z.to_nat i) in
  when (nz (th_work_cnt thp)) (proc_loop (th_work_list thp)) ;;
  call_ K_schedule.
End Code.

(** ** Rules *)

#[local] Transparent wp.
Lemma wp_on_dev {D A} (m : M (dst D) A) (Q : A -> wst D -> Prop) s :
  wp m (fun a d => Q a (s <| w_dst := d |>)) (w_dst s) -> wp (on_dev m) Q s.
Proof. unfold wp, on_dev, zoom. cbn. by destruct (m _). Qed.
Lemma wp_upd_thread {D} i f (Q : unit -> wst D -> Prop) s :
  Q tt (s <| w_threads ::= alter f (Z.to_nat i) |>) -> wp (upd_thread i f) Q s.
Proof. done. Qed.
Lemma wp_upd_eng {D} h2c ch f (Q : unit -> wst D -> Prop) s :
  Q tt (s <| w_dst ::= fun d => put_eng h2c ch (f (get_eng h2c ch d)) d |>) -> wp (upd_eng h2c ch f) Q s.
Proof.
  intros HQ. unfold upd_eng. apply wp_on_dev, wp_on_engine, wp_upd_engine.
  match goal with |- Q tt ?st => replace st with (s <| w_dst ::= fun d => put_eng h2c ch (f (get_eng h2c ch d)) d |>) end; [done|].
  destruct s as [d self cs ts xl oops]. destruct d. by destruct h2c.
Qed.
Lemma wp_wv_call {D} `{Env D} c (Q : Z -> wst D -> Prop) s :
  (forall v k, k_trace k = k_trace (ds_k (w_dst s)) ++ [Ev_call c v] ->
     Q v (s <| w_dst ::= fun d => d <| ds_k := k |> |>)) -> wp (call c) Q s.
Proof. intros HQ. apply wp_call. intros v d _. by apply HQ. Qed.
Lemma wp_wv_call_ {D} `{Env D} c (Q : unit -> wst D -> Prop) s :
  (forall v k, k_trace k = k_trace (ds_k (w_dst s)) ++ [Ev_call c v] ->
     Q tt (s <| w_dst ::= fun d => d <| ds_k := k |> |>)) -> wp (call_ c) Q s.
Proof. intros HQ. apply wp_call_. intros v d _. by apply (HQ v). Qed.
Lemma wp_wv_dev {D} (Q : _ -> wst D -> Prop) s : Q (ds_dev (w_dst s)) s -> wp (on_dev the_dev) Q s.
Proof. by destruct s. Qed.
Lemma wp_wv_eng {D} h2c ch (Q : _ -> wst D -> Prop) s :
  Q (get_eng h2c ch (w_dst s)) s -> wp (on_dev (the_eng h2c ch)) Q s.
Proof. by destruct s. Qed.
Lemma wp_wv_upd_dev {D} f (Q : _ -> wst D -> Prop) s :
  Q tt (s <| w_dst ::= fun d => d <| ds_dev ::= f |> |>) -> wp (on_dev (upd_dev f)) Q s.
Proof. done. Qed.
Lemma wp_wv_read {D} `{Env D} a (Q : Z -> wst D -> Prop) s :
  (forall v k, 0 <= v < 4294967296 -> k_trace k = k_trace (ds_k (w_dst s)) ++ [Ev_read a v] ->
     Q v (s <| w_dst ::= fun d => d <| ds_k := k |> |>)) -> wp (read_register a) Q s.
Proof. intros HQ. apply wp_read. intros v d Hv _. by apply HQ. Qed.
Lemma wp_wv_write {D} `{Env D} v a (Q : unit -> wst D -> Prop) s :
  (forall k, k_trace k = k_trace (ds_k (w_dst s)) ++ [Ev_write a (u32 v)] ->
     Q tt (s <| w_dst ::= fun d => d <| ds_k := k |> |>)) -> wp (write_register v a) Q s.
Proof. intros HQ. by apply wp_write, HQ. Qed.
#[global] Opaque wp.

Ltac wv_step :=
  lazymatch goal with
  | |- wp (on_dev (the_eng _ _)) _ _ => apply wp_wv_eng
  | |- wp (on_dev the_dev) _ _ => apply wp_wv_dev
  | |- wp (on_dev (upd_dev _)) _ _ => apply wp_wv_upd_dev
  | |- wp (upd_thread _ _) _ _ => apply wp_upd_thread
  | |- wp (upd_eng _ _ _) _ _ => apply wp_upd_eng
  | |- wp (read_register _) _ _ => apply wp_wv_read; intros ? ? ? ?
  | |- wp (write_register _ _) _ _ => apply wp_wv_write; intros ? ?
  | |- wp (call _) _ _ => apply wp_wv_call; intros ? ? ?
  | |- wp (call_ _) _ _ => apply wp_wv_call_; intros ? ? ?
  | _ => wp_step
  end; cbv beta.

(** ** The choice of a thread *)

(** What the loop makes of the threads [l] from index [i] on. *)
Lemma choose_thread_rest l cnt i idx v :
  0 <= i -> i + Z.of_nat (length l) <= cnt -> idx <> cnt ->
  let r := choose_thread l cnt i idx v in
  (exists j t, l !! j = Some t /\ r = i + Z.of_nat j /\ th_work_cnt t = 0)
  \/ Forall (fun t => th_work_cnt t <> 0) l
     /\ ((exists j t, l !! j = Some t /\ r = i + Z.of_nat j /\ th_work_cnt t < v
            /\ Forall (fun t => v <= th_work_cnt t) (drop (S j) l))
         \/ r = idx /\ Forall (fun t => v <= th_work_cnt t) l).
Proof.
  revert i idx. induction l as [|t l IH]; intros i idx Hi Hc Hidx; cbn [choose_thread].
  { right. split; [done|]. by right. }
  cbn [length] in Hc. destruct (Z.eqb_spec idx cnt); [done|].
  destruct (Z.eqb_spec (th_work_cnt t) 0) as [E|E].
  { left. exists O, t. split; [done|]. lia. }
  assert (forall idx', idx' <> cnt -> let r := choose_thread l cnt (i + 1) idx' v in
    (exists j t, l !! j = Some t /\ r = i + 1 + Z.of_nat j /\ th_work_cnt t = 0)
    \/ Forall (fun t => th_work_cnt t <> 0) l
       /\ ((exists j t, l !! j = Some t /\ r = i + 1 + Z.of_nat j /\ th_work_cnt t < v
              /\ Forall (fun t => v <= th_work_cnt t) (drop (S j) l))
           \/ r = idx' /\ Forall (fun t => v <= th_work_cnt t) l)) as IH'
    by (intros; apply IH; lia).
  destruct (Z.ltb_spec (th_work_cnt t) v) as [Hlt|Hge].
  - destruct (IH' i ltac:(lia)) as [(j & t' & ? & Hr & ?)|[Hn [(j & t' & ? & Hr & ? & ?)|[Hr Hf]]]].
    + left. exists (S j), t'. split_and!; [done|lia|done].
    + right. split; [by constructor|]. left. exists (S j), t'. split_and!; [done|lia|done|done].
    + right. split; [by constructor|]. left. exists O, t. split_and!; [done|lia|done|done].
  - destruct (IH' idx ltac:(lia)) as [(j & t' & ? & Hr & ?)|[Hn [(j & t' & ? & Hr & ? & ?)|[Hr Hf]]]].
    + left. exists (S j), t'. split_and!; [done|lia|done].
    + right. split; [by constructor|]. left. exists (S j), t'. split_and!; [done|lia|done|done].
    + right. split; [by constructor|]. right. split; [done|]. by constructor.
Qed.

(** C35 The thread an engine is given: always one of the threads; an idle one when
    there is one; and otherwise the last thread with less work than the first,
    or the first.  (This is not the least loaded thread, since the load compared
    with is never updated: of loads 3, 1, 2 the last is chosen.) *)
Theorem choose_thread_spec ts :
  ts <> [] -> Forall (fun t => 0 <= th_work_cnt t) ts ->
  let cnt := Z.of_nat (length ts) in
  let idx := choose_thread ts cnt 0 cnt 0 in
  exists t0 t, ts !! 0%nat = Some t0 /\ ts !! Z.to_nat idx = Some t /\ 0 <= idx < cnt
    /\ (Exists (fun t => th_work_cnt t = 0) ts -> th_work_cnt t = 0)
    /\ (~ Exists (fun t => th_work_cnt t = 0) ts ->
         (idx = 0 \/ th_work_cnt t < th_work_cnt t0)
         /\ Forall (fun t => th_work_cnt t0 <= th_work_cnt t) (drop (S (Z.to_nat idx)) ts)).
Proof.
  intros Hne Hpos cnt idx. destruct ts as [|t0 l]; [done|]. subst cnt. exists t0. subst idx. cbn [choose_thread].
  rewrite Z.eqb_refl. change (0 + 1) with 1. set (cnt := Z.of_nat (length (t0 :: l))).
  assert (cnt = Z.of_nat (length l) + 1) as Ecnt by (subst cnt; cbn [length]; lia).
  pose proof (choose_thread_rest l cnt 1 0 (th_work_cnt t0) ltac:(lia) ltac:(lia) ltac:(lia)) as Hr.
  cbv zeta in Hr. set (r := choose_thread l cnt 1 0 (th_work_cnt t0)) in *.
  destruct Hr as [(j & t & Hj & -> & Ht)|[Hn [(j & t & Hj & -> & Hlt & Hf)|[-> Hf]]]].
  - exists t. pose proof (lookup_lt_Some _ _ _ Hj). replace (Z.to_nat (1 + Z.of_nat j)) with (S j) by lia.
    split_and!; [done|done|lia|lia|done|]. intros Hnone. destruct Hnone. apply Exists_exists. exists t.
    split; [right; by apply list_elem_of_lookup_2 in Hj|done].
  - exists t. pose proof (lookup_lt_Some _ _ _ Hj). replace (Z.to_nat (1 + Z.of_nat j)) with (S j) by lia.
    split_and!; [done|done|lia|lia| |].
    + intros He. apply Exists_cons in He as [He|He].
      * exfalso. apply Forall_cons in Hpos as [_ Hpos]. apply list_elem_of_lookup_2 in Hj.
        pose proof (proj1 (Forall_forall _ _) Hpos t Hj). cbn in *. lia.
      * exfalso. apply Exists_exists in He as (x & Hx & He). by apply (proj1 (Forall_forall _ _) Hn x Hx).
    + intros _. split; [by right|]. exact Hf.
  - exists t0. split_and!; [done|done|lia|lia| |].
    + intros He. apply Exists_cons in He as [He|He]; [done|].
      exfalso. apply Exists_exists in He as (x & Hx & He). by apply (proj1 (Forall_forall _ _) Hn x Hx).
    + intros _. split; [by left|]. exact Hf.
Qed.

Lemma choose_thread_range ts :
  ts <> [] ->
  0 <= choose_thread ts (Z.of_nat (length ts)) 0 (Z.of_nat (length ts)) 0 < Z.of_nat (length ts).
Proof.
  destruct ts as [|t0 l]; [done|]. intros _. cbn [choose_thread]. rewrite Z.eqb_refl. change (0 + 1) with 1.
  pose proof (choose_thread_rest l (Z.of_nat (length (t0 :: l))) 1 0 (th_work_cnt t0)) as Hr. cbn [length] in *.
  destruct Hr as [(j & t & Hj & -> & _)|[_ [(j & t & Hj & -> & _)|[-> _]]]]; try apply lookup_lt_Some in Hj; lia.
Qed.


(** ** Work lists *)

(** The work lists agree with what the engines and the counts say: every count
    is the length of its list and no engine is listed twice. *)
Record threads_ok (ts : list xdma_kthread) : Prop := {
  to_cnt : Forall (fun t => th_work_cnt t = Z.of_nat (length (th_work_list t))) ts;
  to_nodup : NoDup (ts ≫= th_work_list);
}.

Lemma threads_ok_pos ts : threads_ok ts -> Forall (fun t => 0 <= th_work_cnt t) ts.
Proof. intros [Hc _]. eapply Forall_impl; [exact Hc|]. cbn. intros; lia. Qed.

Section Work.
Context {D : Type}.
Implicit Types (s : wst D).

Lemma list_alter_at {A} (f : A -> A) (l : list A) (i : nat) x : l !! i = Some x -> alter f i l = <[i := f x]> l.
Proof.
  revert i. induction l as [|y l IH]; intros [|i] E; [done|done|cbn in *; by simplify_eq|].
  exact (f_equal (cons y) (IH i E)).
Qed.

(** The item at the end of the list of thread [idx]. *)
Definition with_work (item : work_item) (t : xdma_kthread) : xdma_kthread :=
  t <| th_work_list := th_work_list t ++ [item] |> <| th_work_cnt := th_work_cnt t + 1 |>.

Lemma works_insert ts i t item :
  ts !! i = Some t -> <[i := with_work item t]> ts ≫= th_work_list ≡ₚ item :: (ts ≫= th_work_list).
Proof.
  revert i. induction ts as [|t' ts IH]; intros i Hi; [done|]. destruct i as [|i]; cbn in *.
  - simplify_eq. change (th_work_list (with_work item t)) with (th_work_list t ++ [item]).
    rewrite <- app_assoc. cbn [app]. by rewrite <- Permutation_middle.
  - rewrite (IH i Hi). by rewrite <- Permutation_middle.
Qed.

Lemma threads_ok_add ts i t item :
  threads_ok ts -> ts !! i = Some t -> item ∉ (ts ≫= th_work_list) -> threads_ok (<[i := with_work item t]> ts).
Proof.
  intros [Hc Hn] Hi Hf. split.
  - apply Forall_insert; [done|]. unfold with_work. fld. rewrite length_app.
    apply (Forall_lookup_1 _ _ _ _ Hc) in Hi. cbn in *. lia.
  - rewrite (works_insert _ _ _ _ Hi). by constructor.
Qed.

Lemma filter_fresh {A} `{EqDecision A} (x : A) (l : list A) : x ∉ l -> filter (fun y => y <> x) l = l.
Proof.
  induction l as [|y l IH]; intros Hx; [done|]. apply not_elem_of_cons in Hx as [Hxy Hx].
  rewrite filter_cons_True by (intros ->; done). by rewrite IH.
Qed.

(** Taking the item off undoes putting it on. *)
Lemma without_work item t :
  item ∉ th_work_list t -> 0 <= th_work_cnt t < 2 ^ 32 - 1 ->
  (with_work item t) <| th_work_list ::= filter (fun w => w <> item) |> <| th_work_cnt ::= fun n => u32 (n - 1) |> = t.
Proof.
  intros Hf Hc. unfold with_work, set_field. cbn. replace (th_work_cnt t + 1 - 1) with (th_work_cnt t) by lia.
  rewrite u32_small by lia. rewrite filter_app, filter_cons_False by (intros E; by apply E). cbn.
  rewrite app_nil_r, filter_fresh by done. by destruct t.
Qed.

(** C34 Giving an engine to a thread and taking it back leaves the threads as they
    were.  In between, the engine names the thread it was given to, it is at the
    end of that thread's list, whose count is one more, the other threads are
    as before, and no engine is on two lists. *)
Theorem add_remove_work (h2c : bool) ch s :
  threads_ok (w_threads s) -> w_threads s <> [] -> Forall (fun t => th_work_cnt t < 2 ^ 32 - 1) (w_threads s) ->
  0 <= ch < Z.of_nat (length (if h2c then ds_h2c (w_dst s) else ds_c2h (w_dst s))) ->
  (w_self s, h2c, ch) ∉ (w_threads s ≫= th_work_list) ->
  let s1 := (xdma_thread_add_work h2c ch s).2 in
  let s2 := (xdma_thread_remove_work h2c ch s1).2 in
  (exists idx t, eng_cmplthp (get_eng h2c ch (w_dst s1)) = Some idx
     /\ w_threads s !! Z.to_nat idx = Some t
     /\ w_threads s1 = <[Z.to_nat idx := with_work (w_self s, h2c, ch) t]> (w_threads s))
  /\ threads_ok (w_threads s1) /\ w_oops s1 = w_oops s
  /\ w_threads s2 = w_threads s /\ eng_cmplthp (get_eng h2c ch (w_dst s2)) = None.
Proof.
  intros Hok Hne Hsmall Hch Hfresh s1 s2.
  destruct (choose_thread_range (w_threads s) Hne) as [Hi0 Hi].
  set (idx := choose_thread _ _ 0 _ 0) in *.
  destruct (lookup_lt_is_Some_2 (w_threads s) (Z.to_nat idx)) as [t Ht]; [lia|].
  pose proof (Forall_lookup_1 _ _ _ _ (threads_ok_pos _ Hok) Ht) as Hpos.
  pose proof (Forall_lookup_1 _ _ _ _ Hsmall Ht) as Hlt. cbn in Hpos, Hlt.
  assert (w_dst s1 = put_eng h2c ch ((get_eng h2c ch (w_dst s)) <| eng_intr_work_cpu := idx |> <| eng_cmplthp := Some idx |>) (w_dst s)
          /\ w_threads s1 = <[Z.to_nat idx := with_work (w_self s, h2c, ch) t]> (w_threads s)
          /\ w_oops s1 = w_oops s /\ w_self s1 = w_self s) as (Ed1 & Et1 & Eo1 & Es1).
  { subst s1. refine (wp_run _ (fun _ s1 => w_dst s1 = _ /\ w_threads s1 = _ /\ w_oops s1 = _ /\ w_self s1 = _) _ _).
    unfold xdma_thread_add_work. repeat wv_step.
    - apply Z.eqb_eq in H. destruct (w_threads s); [done|cbn in *; lia].
    - fld. split_and!; try done. fold idx. rewrite (list_alter_at _ _ _ t) by done. f_equal.
      unfold with_work, set_field. cbn. rewrite u32_small by lia. done. }
  assert (eng_cmplthp (get_eng h2c ch (w_dst s1)) = Some idx) as Ee1.
  { rewrite Ed1, get_put_eng, decide_True by (try split; lia || done). done. }
  assert (w_threads s2 = w_threads s /\ eng_cmplthp (get_eng h2c ch (w_dst s2)) = None) as [Et2 Ee2].
  { subst s2. refine (wp_run _ (fun _ s2 => w_threads s2 = w_threads s /\ eng_cmplthp (get_eng h2c ch (w_dst s2)) = None) _ _).
    unfold xdma_thread_remove_work. do 6 wv_step. rewrite Ee1. wv_step. fld. split.
    - rewrite Et1, Es1, (list_alter_at _ _ _ (with_work (w_self s, h2c, ch) t)) by (apply list_lookup_insert_eq; lia).
      rewrite list_insert_insert_eq. rewrite without_work; [by apply list_insert_id| |lia].
      intros Hin. apply Hfresh, list_elem_of_bind. exists t. split; [done|]. by apply list_elem_of_lookup_2 in Ht.
    - rewrite get_put_eng, decide_True; [done|done|lia|lia|]. rewrite Ed1, length_put_eng. lia. }
  split_and!; try done.
  - by exists idx, t.
  - rewrite Et1. by apply threads_ok_add.
Qed.
End Work.

(** ** Starting the threads *)

Definition started (l : list event) : list Z :=
  omap (fun ev => match ev with
    | Ev_call (K_kthread_create _ _) task => if IS_ERR task then None else Some task
    | _ => None end) l.
Definition stopped (l : list event) : list Z :=
  omap (fun ev => match ev with Ev_call (K_kthread_stop task) _ => Some task | _ => None end) l.

Lemma started_app l1 l2 : started (l1 ++ l2) = started l1 ++ started l2.
Proof. apply omap_app. Qed.
Lemma stopped_app l1 l2 : stopped (l1 ++ l2) = stopped l1 ++ stopped l2.
Proof. apply omap_app. Qed.

(** Thread number [i], bound to [cpu] and running as [task], without work. *)
Definition new_thread (i cpu task : Z) : xdma_kthread := Build_xdma_kthread (u16 cpu) (u16 i) 0 task 0 [].

(** The threads started for [tasks] on the first of [cpus], numbered from [i]. *)
Definition new_threads (i : Z) (cpus tasks : list Z) : list xdma_kthread :=
  imap (fun j ct => new_thread (i + Z.of_nat j) ct.1 ct.2) (zip cpus tasks).

Lemma new_threads_cons i cpu cpus task tasks :
  new_threads i (cpu :: cpus) (task :: tasks) = new_thread i cpu task :: new_threads (i + 1) cpus tasks.
Proof.
  unfold new_threads. cbn [zip_with imap]. rewrite Z.add_0_r. f_equal. apply imap_ext.
  intros j x _. cbn. f_equal. lia.
Qed.

Section Create.
Context {D : Type} `{Env D}.
Implicit Types (s : wst D).

Lemma wp_kthread_start cpu id (Q : Z * xdma_kthread -> wst D -> Prop) s :
  (forall l k, k_trace k = k_trace (ds_k (w_dst s)) ++ l -> stopped l = [] ->
     let s' := s <| w_dst ::= fun d => d <| ds_k := k |> |> in
     (started l = [] -> forall t, Q (- EFAULT, t) s')
     /\ (forall task, started l = [task] -> Q (0, new_thread id cpu task) s')) ->
  wp (xdma_kthread_start (kthread_zero <| th_cpu := u16 cpu |>) id) Q s.
Proof.
  intros HQ. unfold xdma_kthread_start. change (nz _) with false. cbv iota zeta. wv_step. wv_step.
  destruct (IS_ERR v) eqn:Ev.
  - wv_step. destruct (HQ [Ev_call (K_kthread_create (u16 id) (u16 cpu)) v] k) as [HQ1 _]; [done|done|].
    apply HQ1. cbn. by rewrite Ev.
  - do 5 wv_step. fld.
    assert (k_trace k1 = k_trace (ds_k (w_dst s)) ++ [Ev_call (K_kthread_create (u16 id) (u16 cpu)) v;
      Ev_call (K_kthread_bind v (u16 cpu)) v0; Ev_call (K_wake_up_process v) v1]) as Ek by trace_eq.
    destruct (HQ _ _ Ek eq_refl) as [_ HQ1]. apply HQ1. cbn. by rewrite Ev.
Qed.

Lemma wp_create_loop cpus num (Q : Z -> wst D -> Prop) s :
  Z.of_nat (length (w_threads s)) < num ->
  (forall rv l s', k_trace (ds_k (w_dst s')) = k_trace (ds_k (w_dst s)) ++ l -> stopped l = [] ->
     w_cs_threads s' = w_cs_threads s -> w_xdev_list s' = w_xdev_list s ->
     w_threads s' = w_threads s ++ new_threads (Z.of_nat (length (w_threads s))) cpus (started l) ->
     (length (started l) <= length cpus)%nat -> Z.of_nat (length (w_threads s')) <= num ->
     rv = 0 /\ (Z.of_nat (length (w_threads s')) = num \/ length (started l) = length cpus)
     \/ rv = - EFAULT /\ Z.of_nat (length (w_threads s')) < num /\ (length (started l) < length cpus)%nat ->
     Q rv s') ->
  wp (threads_create_loop cpus num) Q s.
Proof.
  revert s. induction cpus as [|cpu cpus IH]; intros s Hlen HQ; cbn [threads_create_loop].
  { wv_step. apply (HQ 0 []); try done; [by rewrite app_nil_r|by rewrite app_nil_r|lia|]. left. split; [done|by right]. }
  do 3 wv_step. apply wp_kthread_start. intros l k Ek Hs s'. split.
  - intros Hst t. change (- EFAULT <? 0) with true. cbv iota. wv_step.
    apply (HQ _ l); rewrite ?Hst; [done|done|done|done|symmetry; apply app_nil_r|cbn; lia|apply Z.lt_le_incl, Hlen|].
    right. split; [done|]. split; [exact Hlen|cbn; lia].
  - intros task Hst. change (0 <? 0) with false. cbv iota. do 2 wv_step.
    set (s1 := s' <| w_threads ::= fun l => l ++ [new_thread (Z.of_nat (length (w_threads s))) cpu task] |>).
    assert (length (w_threads s1) = S (length (w_threads s))) as El by (subst s1 s'; fld; rewrite length_app; cbn; lia).
    destruct (Z.eqb_spec (Z.of_nat (length (w_threads s)) + 1) num) as [E|E].
    + wv_step. apply (HQ 0 l s1); rewrite ?Hst; [done|done|done|done| |cbn; lia|lia|left; split; [done|left; lia]].
      subst s1 s'. fld. rewrite new_threads_cons. f_equal. f_equal. unfold new_threads. by destruct cpus.
    + apply IH; [lia|]. intros rv l' s2 Et Hs2 Ec Ex Eth Hle Hle' Hr.
      apply (HQ rv (l ++ l')); rewrite ?stopped_app, ?started_app, ?Hst, ?Hs, ?Hs2; cbn [app length];
        [|done|exact Ec|exact Ex| |lia|exact Hle'|].
      * rewrite Et. subst s1 s'. fld. by rewrite Ek, <- app_assoc.
      * rewrite Eth, new_threads_cons. subst s1 s'. fld. rewrite <- app_assoc. cbn [app].
        rewrite length_app. cbn [length]. do 3 f_equal. lia.
      * destruct Hr as [[-> [Hr|Hr]]|[-> [Hr Hr']]]; [left|left|right]; split_and!; try done; try lia.
Qed.

(** Starting the completion threads.  On success there is one thread for each
    of the first [num_threads] online CPUs, numbered in order, bound to its CPU,
    running and without work.  On failure there are no threads: out of memory,
    or because a thread could not be started; the threads started before that
    one are not stopped, although their memory is freed. *)
Theorem threads_create_outcome online_cpus size num s :
  w_threads s = [] -> 0 < num ->
  let '(r, s') := xdma_threads_create online_cpus size num s in
  exists l, k_trace (ds_k (w_dst s')) = k_trace (ds_k (w_dst s)) ++ l /\ stopped l = []
    /\ (r = 0 /\ w_threads s' = new_threads 0 online_cpus (started l)
          /\ Z.of_nat (length (w_threads s')) = Z.min num (Z.of_nat (length online_cpus))
        \/ (r = - ENOMEM /\ started l = [] \/ r = - EFAULT /\ exists p v, Ev_call (K_kfree p) v ∈ l)
           /\ w_threads s' = [] /\ w_cs_threads s' = 0).
Proof.
  intros Hnil Hnum. apply wp_elim. unfold xdma_threads_create. do 2 wv_step. rewrite Hnil. cbn [length].
  change (nz (Z.of_nat 0)) with false. cbv iota. do 5 wv_step; [wv_step|wv_step].
  - exists [Ev_call (K_kzalloc (u64 (num * size))) v]. split; [done|]. split; [done|]. right. apply Z.eqb_eq in H1. subst v.
    split; [by left|]. done.
  - apply wp_create_loop; [fld; rewrite Hnil; cbn; lia|]. intros rv l s1 Et Hs _ _ Eth Hle Hle' Hr. fld. rewrite Hnil in Eth. cbn [length app] in Eth.
    change (Z.of_nat 0) with 0 in Eth.
    assert (length (new_threads 0 online_cpus (started l)) = length (started l)) as Elen.
    { unfold new_threads. rewrite length_imap, length_zip_with. lia. }
    rewrite Eth, Elen in Hle', Hr. destruct Hr as [[-> Hr]|[-> _]].
    + change (0 <? 0) with false. cbv iota. wv_step. eexists. split; [rewrite Et, H0, <- app_assoc; reflexivity|].
      split; [done|]. left. cbn [started omap app]. rewrite Eth. split_and!; [done|done|rewrite Elen; lia].
    + change (- EFAULT <? 0) with true. cbv iota. do 5 wv_step.
      exists ([Ev_call (K_kzalloc (u64 (num * size))) v] ++ l ++ [Ev_call (K_kfree v) v0]).
      split; [trace_eq|]. split.
      * rewrite !stopped_app, Hs. done.
      * right. split; [|done]. right. split; [done|]. eexists _, _. rewrite !elem_of_app. right. right. by left.
Qed.
End Create.

(** ** Witnesses *)

Definition ex_threads (ret : kcall -> Z) (ts : list xdma_kthread) : wst sim :=
  {| w_dst := dev_start (sim_start [] ret) xdev_zero (replicate 4 engine_zero) (replicate 4 engine_zero);
     w_self := 0x100; w_cs_threads := 0; w_threads := ts; w_xdev_list := []; w_oops := false |}.

Definition ex_loaded (n : Z) : xdma_kthread :=
  kthread_zero <| th_work_cnt := n |> <| th_work_list := (fun i => (0x200 + n, true, i)) <$> seqZ 0 n |>.

Lemma choose_thread_spec_witness :
  ltac:(statement_of (choose_thread_spec [ex_loaded 3; ex_loaded 1; ex_loaded 2] ltac:(done) ltac:(decide_now))).
Proof. instance_of (choose_thread_spec [ex_loaded 3; ex_loaded 1; ex_loaded 2] ltac:(done) ltac:(decide_now)). Defined.

(** Not the least loaded one. *)
Example ex_choose : choose_thread [ex_loaded 3; ex_loaded 1; ex_loaded 2] 3 0 3 0 = 2.
Proof. reflexivity. Qed.

Lemma ex_loaded_ok : threads_ok [ex_loaded 3; ex_loaded 1; ex_loaded 2].
Proof. split; decide_now. Qed.

Lemma add_remove_work_witness :
  ltac:(statement_of (add_remove_work true 0 (ex_threads (fun _ => 0) [ex_loaded 3; ex_loaded 1; ex_loaded 2])
    ex_loaded_ok ltac:(done) ltac:(decide_now) ltac:(decide_now) ltac:(decide_now))).
Proof.
  instance_of (add_remove_work true 0 (ex_threads (fun _ => 0) [ex_loaded 3; ex_loaded 1; ex_loaded 2])
    ex_loaded_ok ltac:(done) ltac:(decide_now) ltac:(decide_now) ltac:(decide_now)).
Defined.

Lemma threads_create_outcome_witness :
  ltac:(statement_of (threads_create_outcome [0; 1; 2] 200 2 (ex_threads (fun _ => 0x8000) []) eq_refl eq_refl)).
Proof. instance_of (threads_create_outcome [0; 1; 2] 200 2 (ex_threads (fun _ => 0x8000) []) eq_refl eq_refl). Defined.
