(* ===== verification/Frame.v ===== *)
(** What a computation leaves alone.  [calm P pp m]: every event of a run of [m]
    satisfies [P], and the part [pp] of the state is as before.  The rules follow
    the structure of the code, so that [calm_step] proves such facts by itself;
    they are what longer arguments about what the driver acquires and releases
    rest on. *)
From S2P Require Import Prelude Kernel Types Desc Transfer Engine Device Threads.
Local Open Scope Z_scope.

(** A state and a part of it that effects on the outside do not reach. *)
Class Framed (D S X : Type) `{Has S (kstate D)} (pp : S -> X) := {
  framed_part : forall k s, part (with_part k s) = (k : kstate D);
  framed_keeps : forall k s, pp (with_part (k : kstate D) s) = pp s;
}.

Section Calm.
Context {D : Type} `{Env D} {S X : Type} `{Has S (kstate D)} (pp : S -> X) `{!Framed D S X pp}
  (P : event -> Prop).

Definition calm_rel (s s' : S) : Prop :=
  (exists l, k_trace (part s') = k_trace (part s) ++ l /\ Forall P l) /\ pp s' = pp s.

Definition calm {A} (m : M S A) : Prop := forall s, wp m (fun _ s' => calm_rel s s') s.

#[global] Instance calm_rel_preorder : PreOrder calm_rel.
Proof.
  split.
  - intros s. split; [|done]. exists []. by rewrite app_nil_r.
  - intros s1 s2 s3 [(l1 & E1 & F1) K1] [(l2 & E2 & F2) K2]. split; [|by rewrite K2].
    exists (l1 ++ l2). rewrite E2, E1, app_assoc. split; [done|]. by apply Forall_app.
Qed.

Lemma calm_ret {A} (x : A) : calm (mret x).
Proof. intros s. apply wp_ret. reflexivity. Qed.
Lemma calm_bind {A B} (m : M S A) (k : A -> M S B) : calm m -> (forall x, calm (k x)) -> calm (m ≫= k).
Proof.
  intros Hm Hk s. apply wp_bind. eapply wp_mono; [apply Hm|]. intros x s1 H1. cbv beta.
  eapply wp_mono; [apply Hk|]. intros y s2 H2. exact (transitivity H1 H2).
Qed.
Lemma calm_gets {A} (f : S -> A) : calm (gets f).
Proof. intros s. apply wp_gets. reflexivity. Qed.
Lemma calm_modify (f : S -> S) : (forall s, part (f s) = part s /\ pp (f s) = pp s) -> calm (modify f).
Proof.
  intros Hf s. apply wp_modify. destruct (Hf s) as [E1 E2]. split; [|done]. exists [].
  by rewrite E1, app_nil_r.
Qed.
Lemma calm_when (c : bool) (m : M S unit) : calm m -> calm (when c m).
Proof. intros Hm. destruct c; [exact Hm|apply calm_ret]. Qed.
Lemma calm_if {A} (c : bool) (m1 m2 : M S A) : calm m1 -> calm m2 -> calm (if c then m1 else m2).
Proof. by destruct c. Qed.
Lemma calm_option {A B} (o : option B) (m1 : B -> M S A) (m2 : M S A) :
  (forall x, calm (m1 x)) -> calm m2 -> calm (match o with Some x => m1 x | None => m2 end).
Proof. intros. by destruct o. Qed.
Lemma calm_read a : (forall v, P (Ev_read a v)) -> calm (read_register a).
Proof.
  intros HP s. apply wp_read. intros v d _ _. split; [|by rewrite framed_keeps].
  rewrite framed_part. eexists. split; [done|]. by constructor.
Qed.
Lemma calm_write v a : (forall v, P (Ev_write a v)) -> calm (write_register v a).
Proof.
  intros HP s. apply wp_write. split; [|by rewrite framed_keeps].
  rewrite framed_part. eexists. split; [done|]. by constructor.
Qed.
Lemma calm_call c : (forall v, P (Ev_call c v)) -> calm (call c).
Proof.
  intros HP s. apply wp_call. intros v d _. split; [|by rewrite framed_keeps].
  rewrite framed_part. eexists. split; [done|]. by constructor.
Qed.
Lemma calm_call_ c : (forall v, P (Ev_call c v)) -> calm (call_ c).
Proof. intros HP. unfold call_. apply calm_bind; [by apply calm_call|]. intros. apply calm_ret. Qed.
Lemma calm_for_up n from body : (forall i, calm (body i)) -> calm (for_up n from body).
Proof.
  intros Hb. revert from. induction n as [|n IH]; intros from; cbn [for_up]; [apply calm_ret|].
  apply calm_bind; [apply Hb|]. intros _. apply IH.
Qed.
Lemma calm_wp {A} (m : M S A) (Q : A -> S -> Prop) s :
  calm m -> (forall x s', calm_rel s s' -> Q x s') -> wp m Q s.
Proof. intros Hm HQ. eapply wp_mono; [apply Hm|]. cbv beta. auto. Qed.
End Calm.

(** ** The three levels of state *)

#[export] Instance est_framed D : Framed D (est D) unit (fun _ => tt).
Proof. by constructor. Qed.

(** What is fixed when a device is opened: its PCI device and its limits. *)
Definition dev_fixed (x : xdma_dev) : Z * Z * Z * Z :=
  (xd_pdev x, xd_user_max x, xd_h2c_channel_max x, xd_c2h_channel_max x).

(** What only opening and closing a device changes in it. *)
Definition dev_part {D} (s : dst D) : list Z * Z * bool * bool * (Z * Z * Z * Z) :=
  (xd_bar (ds_dev s), xd_config_bar_idx (ds_dev s), xd_got_regions (ds_dev s), xd_regions_in_use (ds_dev s),
   dev_fixed (ds_dev s)).
#[export] Instance dst_framed D : Framed D (dst D) _ dev_part.
Proof. by constructor. Qed.

(** ... and in the rest of the driver's state. *)
Definition drv_part {D} (s : wst D) : list Z * Z * bool * bool * (Z * Z * Z * Z) * Z * list xdev_entry :=
  (dev_part (w_dst s), w_self s, w_xdev_list s).
#[export] Instance wst_framed D : Framed D (wst D) _ drv_part.
Proof. by constructor. Qed.

Section Lift.
Context {D : Type} `{Env D} (P : event -> Prop).

Lemma calm_on_engine {A} h2c ch (m : M (est D) A) :
  calm (fun _ => tt) P m -> calm dev_part P (on_engine h2c ch m).
Proof.
  intros Hm s. apply wp_on_engine. eapply wp_mono; [apply Hm|]. intros x e [(l & E & F) _]. split.
  - exists l. split; [|done]. unfold with_est, put_eng. by destruct h2c.
  - unfold dev_part, with_est, put_eng. by destruct h2c.
Qed.
Lemma calm_on_dev {A} (m : M (dst D) A) : calm dev_part P m -> calm drv_part P (on_dev m).
Proof.
  intros Hm s. apply wp_on_dev. eapply wp_mono; [apply Hm|]. intros x d [(l & E & F) K]. split.
  - by exists l.
  - unfold drv_part. fld. by rewrite K.
Qed.
Lemma calm_upd_engine f : calm (D := D) (fun _ : est D => tt) P (upd_engine f).
Proof. by apply calm_modify. Qed.
Lemma calm_upd_xfer p f : calm (D := D) (fun _ : est D => tt) P (upd_xfer p f).
Proof. by apply calm_modify. Qed.
Lemma calm_upd_dev f :
  (forall x, (xd_bar (f x), xd_config_bar_idx (f x), xd_got_regions (f x), xd_regions_in_use (f x), dev_fixed (f x))
             = (xd_bar x, xd_config_bar_idx x, xd_got_regions x, xd_regions_in_use x, dev_fixed x)) -> calm (D := D) dev_part P (upd_dev f).
Proof. intros Hf. apply calm_modify. intros s. split; [done|]. apply Hf. Qed.
Lemma calm_upd_thread i f : calm (D := D) drv_part P (upd_thread i f).
Proof. by apply calm_modify. Qed.
Lemma calm_upd_eng h2c ch f : calm (D := D) drv_part P (upd_eng h2c ch f).
Proof. apply calm_on_dev, calm_on_engine, calm_upd_engine. Qed.
End Lift.

Create HintDb calm.

(** One structural step; the events are left to [done]. *)
Ltac calm_step :=
  lazymatch goal with
  | |- calm _ _ (mbind _ _) => apply calm_bind; [|intros]
  | |- calm _ _ (mret _) => apply calm_ret
  | |- calm _ _ (gets _) => apply calm_gets
  | |- calm _ _ the_engine => apply calm_gets
  | |- calm _ _ (the_xfer _) => apply calm_gets
  | |- calm _ _ the_dev => apply calm_gets
  | |- calm _ _ (the_eng _ _) => apply calm_gets
  | |- calm _ _ (upd_engine _) => apply calm_upd_engine
  | |- calm _ _ (upd_xfer _ _) => apply calm_upd_xfer
  | |- calm _ _ (upd_dev _) => first [ apply calm_upd_dev; intros ?; try reflexivity | apply calm_modify; intros ?; split; reflexivity ]
  | |- calm _ _ (upd_thread _ _) => apply calm_upd_thread
  | |- calm _ _ (upd_eng _ _ _) => apply calm_upd_eng
  | |- calm _ _ (on_dev _) => apply calm_on_dev
  | |- calm _ _ (on_engine _ _ _) => apply calm_on_engine
  | |- calm _ _ (when _ _) => apply calm_when
  | |- calm _ _ (read_register _) => apply calm_read; [apply _|intros; exact I]
  | |- calm _ _ (write_register _ _) => apply calm_write; [apply _|intros; exact I]
  | |- calm _ _ (call _) => apply calm_call; [apply _|intros; exact I]
  | |- calm _ _ (call_ _) => apply calm_call_; [apply _|intros; exact I]
  | |- calm _ _ (for_up _ _ _) => apply calm_for_up; intros
  | |- calm _ _ (match ?o with Some _ => _ | None => _ end) => apply calm_option; intros
  | |- calm _ _ (match ?n with O => _ | S _ => _ end) => destruct n
  | |- calm _ _ (if _ then _ else _) => apply calm_if
  | |- calm _ _ (let '(_, _) := ?p in _) => destruct p
  | _ => solve [eauto with calm nocore]
  end; cbv beta zeta.
Ltac calm := repeat calm_step.
