(* ===== verification/Probe.v ===== *)
(** Finding the engines of the card ([libxdma.c]): [probe_engines] reads the
    identifier of each channel, sets up an engine for each one present, and
    [remove_engines] takes them down again. *)
From S2P Require Import Prelude Kernel Types Desc Transfer Engine EngineQueue Device Irq EngineSetup Threads.
Local Open Scope Z_scope.

Section Code.
Context {D : Type} `{Env D} (pm : params) (dma_bus : Z -> Z).

Definition on_eng {A} (h2c : bool) (ch : Z) (m : M (est D) A) : M (wst D) A := on_dev (on_engine h2c ch m).

(** The fields [engine_init] fills in before the engine has any memory. *)
(* @src xdma/libxdma.c:2843-2873 engine_init *)
Definition init_engine (x : xdma_dev) (offset channel : Z) (h2c : bool) (identifier : Z) (e : xdma_engine) :
    xdma_engine :=
  let e := e <| eng_magic := MAGIC_ENGINE |> <| eng_channel := channel |>
    <| eng_irq_bitmask := u32 (Z.shiftl (Z.shiftl 1 XDMA_ENG_IRQ_NUM - 1) (xd_engines_num x * XDMA_ENG_IRQ_NUM)) |>
    <| eng_bypass_offset := xd_engines_num x * BYPASS_MODE_SPACING |>
    <| eng_regs := xd_config_bar x + offset |>
    <| eng_sgdma_regs := xd_config_bar x + offset + SGDMA_OFFSET_FROM_CHANNEL |>
    <| eng_streaming ::= fun b => b || tst identifier 0x8000 |>
    <| eng_dir := if h2c then DMA_TO_DEVICE else DMA_FROM_DEVICE |> in
  e <| eng_desc_max := if st_c2h_credit pm e then XDMA_ENGINE_CREDIT_XFER_MAX_DESC
                       else XDMA_ENGINE_XFER_MAX_DESC |>.

(* @src xdma/libxdma.c:2881-2885 engine_init *)
Definition count_engine (h2c : bool) (mask : Z) (x : xdma_dev) : xdma_dev :=
  (if h2c then x <| xd_mask_irq_h2c ::= fun m => Z.lor m mask |>
   else x <| xd_mask_irq_c2h ::= fun m => Z.lor m mask |>) <| xd_engines_num ::= fun n => n + 1 |>.

(* @src xdma/libxdma.c:2835-2899 engine_init *)
Definition engine_init (h2c : bool) (ch offset : Z) : M (wst D) Z :=
  x ← on_dev the_dev;
  val ← read_register (xd_config_bar x + offset + reg_identifier);
  upd_eng h2c ch (init_engine x offset ch h2c val) ;;
  e ← on_dev (the_eng h2c ch);
  on_dev (upd_dev (count_engine h2c (eng_irq_bitmask e))) ;;
  rv ← on_eng h2c ch (engine_alloc_resource pm dma_bus);
  if nz rv then mret rv
  else
    x ← on_dev the_dev;
    rv ← on_eng h2c ch (engine_init_regs pm x);
    if nz rv then mret rv
    else when (poll_mode pm) (xdma_thread_add_work h2c ch) ;; mret 0.

(* @src xdma/libxdma.c:2590-2629 engine_destroy *)
Definition engine_destroy (h2c : bool) (ch : Z) : M (wst D) Z :=
  x ← on_dev the_dev;
  e ← on_dev (the_eng h2c ch);
  write_register 0 (eng_regs e + reg_interrupt_enable_mask) ;;
  when (st_c2h_credit pm e)
    (write_register (u32 (Z.shiftl (Z.shiftl 1 (eng_channel e)) 16)) (common_reg x common_credit_mode_enable_w1c)) ;;
  when (poll_mode pm) (xdma_thread_remove_work h2c ch) ;;
  on_eng h2c ch engine_free_resource ;;
  upd_eng h2c ch (fun _ => engine_zero) ;;
  on_dev (upd_dev (fun x => x <| xd_engines_num ::= fun n => n - 1 |>)) ;;
  mret 0.

(* @src xdma/libxdma.c:4269-4281 get_engine_channel_id *)
Definition get_engine_channel_id (regs : Z) : M (wst D) Z :=
  value ← read_register (regs + reg_identifier); mret (Z.shiftr (Z.land value 0x00000f00) 8).

(* @src xdma/libxdma.c:4283-4294 get_engine_id *)
Definition get_engine_id (regs : Z) : M (wst D) Z :=
  value ← read_register (regs + reg_identifier); mret (Z.shiftr (Z.land value 0xffff0000) 16).

(* @src xdma/libxdma.c:4308-4317 remove_engines *)
Fixpoint remove_loop (h2c : bool) (n : nat) (i : Z) : M (wst D) unit :=
  match n with
  | O => mret tt
  | S n =>
      e ← on_dev (the_eng h2c i);
      when (eng_magic e =? MAGIC_ENGINE) (engine_destroy h2c i ;; mret tt) ;;
      remove_loop h2c n (i + 1)
  end.

(* @src xdma/libxdma.c:4296-4329 remove_engines *)
Definition remove_engines : M (wst D) unit :=
  x ← on_dev the_dev;
  remove_loop true (Z.to_nat (xd_h2c_channel_max x)) 0 ;;
  remove_loop false (Z.to_nat (xd_c2h_channel_max x)) 0.

(* @src xdma/libxdma.c:4331-4381 probe_for_engine *)
Definition probe_for_engine (h2c : bool) (channel : Z) : M (wst D) Z :=
  x ← on_dev the_dev;
  let offset := channel * CHANNEL_SPACING + (if h2c then 0 else H2C_CHANNEL_OFFSET) in
  let engine_id_expected := if h2c then XDMA_ID_H2C else XDMA_ID_C2H in
  let regs := xd_config_bar x + offset in
  engine_id ← get_engine_id regs;
  channel_id ← get_engine_channel_id regs;
  if negb (engine_id =? engine_id_expected) || negb (channel_id =? channel) then mret (- EINVAL)
  else engine_init h2c channel offset.

(** The value [i] has when the loop over the channels ends, by [break] or not. *)
(* @src xdma/libxdma.c:4394-4398 probe_engines *)
Fixpoint probe_loop (h2c : bool) (n : nat) (i : Z) : M (wst D) Z :=
  match n with
  | O => mret i
  | S n => rv ← probe_for_engine h2c i; if nz rv then mret i else probe_loop h2c n (i + 1)
  end.

(* @src xdma/libxdma.c:4383-4409 probe_engines *)
Definition probe_engines : M (wst D) Z :=
  x ← on_dev the_dev;
  i ← probe_loop true (Z.to_nat (xd_h2c_channel_max x)) 0;
  on_dev (upd_dev (fun x => x <| xd_h2c_channel_max := i |>)) ;;
  x ← on_dev the_dev;
  i ← probe_loop false (Z.to_nat (xd_c2h_channel_max x)) 0;
  on_dev (upd_dev (fun x => x <| xd_c2h_channel_max := i |>)) ;;
  mret 0.
End Code.

(** ** What an operation on one engine leaves alone *)

(** The identity of an engine for the interrupt handler. *)
Definition same_id (e e' : xdma_engine) : Prop :=
  eng_magic e' = eng_magic e /\ eng_irq_bitmask e' = eng_irq_bitmask e.

Definition engines_of {D} (h2c : bool) (s : wst D) : list xdma_engine :=
  if h2c then ds_h2c (w_dst s) else ds_c2h (w_dst s).
Definition wget {D} (h2c : bool) (ch : Z) (s : wst D) : xdma_engine := get_eng h2c ch (w_dst s).
Definition w_dev {D} (s : wst D) : xdma_dev := ds_dev (w_dst s).

(** [s'] differs from [s] in engine [ch] only, which keeps its identity, and
    in what is outside the device. *)
Record eng_frame {D} (h2c : bool) (ch : Z) (s s' : wst D) : Prop := {
  ef_dev : w_dev s' = w_dev s;
  ef_len : forall h, length (engines_of h s') = length (engines_of h s);
  ef_other : forall h c, 0 <= c -> (h, c) <> (h2c, ch) -> wget h c s' = wget h c s;
  ef_id : same_id (wget h2c ch s) (wget h2c ch s');
}.

Lemma eng_frame_refl {D} h2c ch (s s' : wst D) :
  w_dev s' = w_dev s -> engines_of true s' = engines_of true s -> engines_of false s' = engines_of false s ->
  eng_frame h2c ch s s'.
Proof.
  intros E1 E2 E3. assert (forall h c, wget h c s' = wget h c s) as Eg.
  { intros h c. unfold wget, get_eng, engines_of in *. destruct h; congruence. }
  constructor; [done|by intros []; congruence|by intros; rewrite Eg|by rewrite Eg].
Qed.

Lemma eng_frame_trans {D} h2c ch (s1 s2 s3 : wst D) :
  eng_frame h2c ch s1 s2 -> eng_frame h2c ch s2 s3 -> eng_frame h2c ch s1 s3.
Proof.
  intros [A1 A2 A3 [A4 A5]] [B1 B2 B3 [B4 B5]]. constructor.
  - by rewrite B1.
  - intros. by rewrite B2.
  - intros. by rewrite B3, A3.
  - split; [by rewrite B4|by rewrite B5].
Qed.

Lemma eng_frame_put {D} (h2c : bool) ch e (d : dst D) (s s' : wst D) :
  w_dst s' = put_eng h2c ch e d -> ds_dev d = w_dev s -> ds_h2c d = engines_of true s -> ds_c2h d = engines_of false s ->
  0 <= ch < Z.of_nat (length (engines_of h2c s)) -> same_id (wget h2c ch s) e -> eng_frame h2c ch s s'.
Proof.
  intros Ed E1 E2 E3 Hch Hid.
  assert (0 <= ch < Z.of_nat (length (if h2c then ds_h2c d else ds_c2h d))) as Hch' by (destruct h2c; congruence).
  assert (forall h c, get_eng h c d = wget h c s) as Eg.
  { intros h c. unfold wget, get_eng, engines_of in *. destruct h; congruence. }
  constructor.
  - rewrite <- E1. unfold w_dev. rewrite Ed. unfold put_eng. by destruct h2c.
  - intros h. unfold engines_of in *. rewrite Ed, length_put_eng. destruct h; congruence.
  - intros h c Hc Hne. unfold wget at 1. rewrite Ed, get_put_eng by lia. rewrite decide_False by (intros [-> ->]; done). apply Eg.
  - unfold wget at 2. rewrite Ed, get_put_eng, decide_True by (done || lia). done.
Qed.

(** An operation of one engine that keeps its identity. *)
Definition keeps_id {D A} (m : M (est D) A) : Prop :=
  forall s, wp m (fun _ s' => same_id (es_eng s) (es_eng s')) s.

Section Frame.
Context {D : Type} `{Env D}.
Implicit Types (s : wst D).

Lemma wp_on_eng {A} (m : M (est D) A) h2c ch (Q : A -> wst D -> Prop) s :
  keeps_id m -> 0 <= ch < Z.of_nat (length (engines_of h2c s)) ->
  (forall a s', eng_frame h2c ch s s' -> Q a s') -> wp (on_eng h2c ch m) Q s.
Proof.
  intros Hm Hch HQ. unfold on_eng. apply wp_on_dev, wp_on_engine.
  eapply wp_mono; [apply Hm|]. intros a e' Hid. apply HQ. eapply eng_frame_put; [done..|exact Hid].
Qed.

Lemma keeps_free_resource : keeps_id (D := D) engine_free_resource.
Proof.
  intros s. unfold engine_free_resource. do 2 est_step.
  destruct (eng_poll_wb _), (eng_desc _), (eng_cyclic_result _); repeat est_step; done.
Qed.

Lemma keeps_alloc_resource pm dma_bus : keeps_id (D := D) (engine_alloc_resource pm dma_bus).
Proof.
  intros s. unfold engine_alloc_resource, alloc_desc, alloc_poll_wb, alloc_result.
  repeat est_step; try done.
  all: eapply wp_mono; [apply keeps_free_resource|]; intros [] s' [E1 E2]; est_step; split; [by rewrite E1|by rewrite E2].
Qed.

Lemma keeps_init_regs pm x : keeps_id (D := D) (engine_init_regs pm x).
Proof.
  intros s. unfold engine_init_regs, engine_alignments, engine_writeback_setup, write_reg, read_reg, reg_of.
  by repeat est_step.
Qed.

Lemma wp_add_work_frame h2c ch (Q : unit -> wst D -> Prop) s :
  0 <= ch < Z.of_nat (length (engines_of h2c s)) ->
  (forall s', eng_frame h2c ch s s' -> Q tt s') -> wp (xdma_thread_add_work h2c ch) Q s.
Proof.
  intros Hch HQ. unfold xdma_thread_add_work. do 5 wv_step; [wv_step|do 3 wv_step].
  - apply HQ. by apply eng_frame_refl.
  - apply HQ. eapply eng_frame_put; [done..|by split].
Qed.

(** [engine_init]: the engine is counted, with the next bit of the interrupt
    words, whether or not it could be set up. *)
Record counted (h2c : bool) (ch : Z) (s s' : wst D) : Prop := {
  ct_dev : w_dev s' = count_engine h2c (u32 (Z.shiftl 1 (xd_engines_num (w_dev s)))) (w_dev s);
  ct_len : forall h, length (engines_of h s') = length (engines_of h s);
  ct_other : forall h c, 0 <= c -> (h, c) <> (h2c, ch) -> wget h c s' = wget h c s;
  ct_magic : eng_magic (wget h2c ch s') = MAGIC_ENGINE;
  ct_mask : eng_irq_bitmask (wget h2c ch s') = u32 (Z.shiftl 1 (xd_engines_num (w_dev s)));
}.

Lemma counted_frame h2c ch s s1 s2 : counted h2c ch s s1 -> eng_frame h2c ch s1 s2 -> counted h2c ch s s2.
Proof.
  intros [A1 A2 A3 A4 A5] [B1 B2 B3 [B4 B5]]. constructor.
  - by rewrite B1.
  - intros. by rewrite B2.
  - intros. by rewrite B3, A3.
  - by rewrite B4.
  - by rewrite B5.
Qed.

Lemma wp_engine_init pm dma_bus h2c ch offset (Q : Z -> wst D -> Prop) s :
  0 <= ch < Z.of_nat (length (engines_of h2c s)) ->
  (forall rv s', counted h2c ch s s' -> Q rv s') -> wp (engine_init pm dma_bus h2c ch offset) Q s.
Proof.
  intros Hch HQ. unfold engine_init. do 6 wv_step.
  match goal with |- wp _ _ ?st => set (s0 := st) end. set (e1 := init_engine pm (w_dev s) offset ch h2c v (wget h2c ch s)).
  assert (get_eng h2c ch (w_dst s0) = e1) as E0.
  { subst s0. fld. rewrite get_put_eng, decide_True; [done|done|lia|lia|]. unfold engines_of in Hch. destruct h2c; fld; lia. }
  assert (eng_irq_bitmask e1 = u32 (Z.shiftl 1 (xd_engines_num (w_dev s)))) as Em
    by (change (eng_irq_bitmask e1) with (u32 (Z.shiftl 1 (xd_engines_num (w_dev s) * 1))); by rewrite Z.mul_1_r).
  wv_step. wv_step. rewrite E0, Em. do 3 wv_step.
  match goal with |- wp _ _ ?st => set (s1 := st) end.
  assert (counted h2c ch s s1) as Hc.
  { constructor.
    - subst s1 s0. unfold w_dev. fld. unfold put_eng. by destruct h2c.
    - intros h. subst s1 s0. unfold engines_of. fld. unfold put_eng. destruct h, h2c; fld; by rewrite ?length_insert.
    - intros h c Hcc Hne. change (wget h c s1) with (get_eng h c (put_eng h2c ch e1 ((w_dst s) <| ds_k := k |>))).
      rewrite get_put_eng by (try lia; unfold engines_of in Hch; destruct h2c; fld; lia).
      by rewrite decide_False by (intros [-> ->]; done).
    - change (wget h2c ch s1) with (get_eng h2c ch (w_dst s0)). by rewrite E0.
    - change (wget h2c ch s1) with (get_eng h2c ch (w_dst s0)). by rewrite E0. }
  clearbody s1. assert (forall s2, eng_frame h2c ch s1 s2 -> counted h2c ch s s2 /\ 0 <= ch < Z.of_nat (length (engines_of h2c s2))) as Hf.
  { intros s2 F. split; [by eapply counted_frame|]. by rewrite (ef_len _ _ _ _ F), (ct_len _ _ _ _ Hc). }
  apply wp_on_eng; [apply keeps_alloc_resource|by rewrite (ct_len _ _ _ _ Hc)|]. intros rv s2 F2.
  destruct (Hf _ F2) as [C2 Hch2]. destruct (nz rv); [wv_step; by apply HQ|]. do 3 wv_step.
  apply wp_on_eng; [apply keeps_init_regs|done|]. intros rv' s3 F3. pose proof (counted_frame _ _ _ _ _ C2 F3) as C3.
  destruct (nz rv'); [wv_step; by apply HQ|]. wv_step. apply wp_when; intros _; cbv beta; [|wv_step; by apply HQ].
  apply wp_add_work_frame; [by rewrite (ef_len _ _ _ _ F3)|]. intros s4 F4. wv_step. apply HQ. by eapply counted_frame.
Qed.

Definition irq_mask (h2c : bool) (x : xdma_dev) : Z := if h2c then xd_mask_irq_h2c x else xd_mask_irq_c2h x.

(** Nothing of the device has changed. *)
Definition same_dev s s' : Prop :=
  w_dev s' = w_dev s /\ engines_of true s' = engines_of true s /\ engines_of false s' = engines_of false s.

Lemma same_dev_get h c s s' : same_dev s s' -> wget h c s' = wget h c s.
Proof. intros (E1 & E2 & E3). unfold wget, get_eng, engines_of in *. destruct h; congruence. Qed.

Lemma wp_probe_for pm dma_bus h2c ch (Q : Z -> wst D -> Prop) s :
  0 <= ch < Z.of_nat (length (engines_of h2c s)) ->
  (forall s', same_dev s s' -> Q (- EINVAL) s') ->
  (forall rv s', counted h2c ch s s' -> Q rv s') -> wp (probe_for_engine pm dma_bus h2c ch) Q s.
Proof.
  intros Hch HQ1 HQ2. unfold probe_for_engine, get_engine_id, get_engine_channel_id. do 10 wv_step.
  match goal with |- wp _ _ ?st => set (s1 := st) end. assert (same_dev s s1) as Hs1 by done. clearbody s1.
  apply wp_if; intros _; [wv_step; by apply HQ1|]. apply wp_engine_init.
  { destruct Hs1 as (_ & E2 & E3). destruct h2c; congruence. }
  intros rv s' [C1 C2 C3 C4 C5]. apply HQ2. pose proof Hs1 as (E1 & E2 & E3).
  constructor; rewrite <- ?E1; try done.
  - intros h. rewrite C2. destruct h; congruence.
  - intros h c Hc Hne. rewrite C3 by done. by apply same_dev_get.
Qed.

(** The channels [0], ..., [i - 1] of a direction have engines, with bits from
    [base] on. *)
Record probing (h2c : bool) (base i : Z) (s : wst D) : Prop := {
  pb_magic : forall c, 0 <= c < i -> eng_magic (wget h2c c s) = MAGIC_ENGINE;
  pb_mask : forall c, 0 <= c < i -> eng_irq_bitmask (wget h2c c s) = 2 ^ (base + c);
  pb_word : forall c, 0 <= c < i -> Z.testbit (irq_mask h2c (w_dev s)) (base + c) = true;
}.

(** What probing one direction leaves alone. *)
Record probe_rest (h2c : bool) (s s' : wst D) : Prop := {
  pr_len : forall h, length (engines_of h s') = length (engines_of h s);
  pr_other : forall c, 0 <= c -> wget (negb h2c) c s' = wget (negb h2c) c s;
  pr_mask : irq_mask (negb h2c) (w_dev s') = irq_mask (negb h2c) (w_dev s);
  pr_h2c_max : xd_h2c_channel_max (w_dev s') = xd_h2c_channel_max (w_dev s);
  pr_c2h_max : xd_c2h_channel_max (w_dev s') = xd_c2h_channel_max (w_dev s);
  pr_user_max : xd_user_max (w_dev s') = xd_user_max (w_dev s);
}.

Lemma probe_rest_trans h2c s1 s2 s3 : probe_rest h2c s1 s2 -> probe_rest h2c s2 s3 -> probe_rest h2c s1 s3.
Proof. intros [A1 A2 A3 A4 A5 A6] [B1 B2 B3 B4 B5 B6]. constructor; intros; rewrite ?B1, ?B2, ?B3 by done; auto; congruence. Qed.

Lemma probe_rest_same h2c s s' : same_dev s s' -> probe_rest h2c s s'.
Proof.
  intros Hs. pose proof Hs as (E1 & E2 & E3). constructor; try (by rewrite E1).
  - intros []; congruence.
  - intros. by apply same_dev_get.
Qed.

Lemma probe_rest_counted h2c ch s s' : counted h2c ch s s' -> probe_rest h2c s s'.
Proof.
  intros [C1 C2 C3 _ _]. constructor; try done; rewrite ?C1; try by destruct h2c.
  intros c Hc. apply C3; [done|]. intros [=]. by destruct h2c.
Qed.

Lemma probing_same h2c base i s s' : same_dev s s' -> probing h2c base i s -> probing h2c base i s'.
Proof.
  intros Hs [P1 P2 P3]. pose proof Hs as (E1 & _ & _). constructor; intros; rewrite ?(same_dev_get h2c _ _ _ Hs), ?E1; auto.
Qed.

Lemma probing_counted h2c base i s s' :
  0 <= base -> 0 <= i -> base + i < 32 -> xd_engines_num (w_dev s) = base + i ->
  counted h2c i s s' -> probing h2c base i s -> probing h2c base (i + 1) s'.
Proof.
  intros Hb Hi Hbi Hn [C1 C2 C3 C4 C5] [P1 P2 P3]. rewrite Hn in *.
  assert (u32 (Z.shiftl 1 (base + i)) = 2 ^ (base + i)) as Ebit.
  { rewrite Z.shiftl_1_l, u32_small; [done|]. split; [apply Z.pow_nonneg; lia|].
    change 4294967296 with (2 ^ 32). apply Z.pow_lt_mono_r; lia. }
  rewrite Ebit in *. assert (forall c, 0 <= c < i -> wget h2c c s' = wget h2c c s) as E.
  { intros c Hc. apply C3; [lia|]. intros [=]. lia. }
  constructor; intros c Hc; (destruct (decide (c = i)) as [->|Hne]; [|assert (0 <= c < i) as Hc' by lia]); rewrite ?E by done; auto.
  - rewrite C1. unfold irq_mask, count_engine. destruct h2c; fld; rewrite Z.lor_spec, Z.pow2_bits_true by lia; apply orb_true_r.
  - specialize (P3 c Hc'). rewrite C1. unfold irq_mask, count_engine in *. destruct h2c; fld; rewrite Z.lor_spec, P3; done.
Qed.

Lemma wp_probe_loop pm dma_bus h2c base n i (Q : Z -> wst D -> Prop) s :
  0 <= base -> 0 <= i -> base + i + Z.of_nat n <= 32 -> i + Z.of_nat n <= Z.of_nat (length (engines_of h2c s)) ->
  xd_engines_num (w_dev s) = base + i -> probing h2c base i s ->
  (forall r s', i <= r <= i + Z.of_nat n -> probing h2c base r s' -> probe_rest h2c s s' ->
     base + r <= xd_engines_num (w_dev s') <= base + r + 1 -> Q r s') ->
  wp (probe_loop pm dma_bus h2c n i) Q s.
Proof.
  revert i s. induction n as [|n IH]; intros i s Hb Hi Hn Hl Hnum Hp HQ; cbn [probe_loop].
  { wv_step. apply HQ; [lia|done|by apply probe_rest_same|lia]. }
  wv_step. apply wp_probe_for; [lia| |].
  - intros s' Hs. change (nz (- EINVAL)) with true. cbv iota. wv_step.
    apply HQ; [lia|by eapply probing_same|by apply probe_rest_same|]. destruct Hs as (-> & _). lia.
  - intros rv s' Hc. pose proof (probing_counted _ _ _ _ _ Hb Hi ltac:(lia) Hnum Hc Hp) as Hp'.
    assert (xd_engines_num (w_dev s') = base + (i + 1)) as Hnum'.
    { rewrite (ct_dev _ _ _ _ Hc). unfold count_engine. destruct h2c; fld; lia. }
    pose proof (probe_rest_counted _ _ _ _ Hc) as Hr. destruct (nz rv).
    + wv_step. apply HQ; [lia| |done|lia]. destruct Hp' as [P1 P2 P3].
      constructor; intros; [apply P1|apply P2|apply P3]; lia.
    + apply IH; try done; try lia; [rewrite (pr_len _ _ _ Hr); lia|].
      intros r s2 Hr1 Hr2 Hr3 Hr4. apply HQ; [lia|done| |done]. by eapply probe_rest_trans.
Qed.
End Frame.

(** ** The device after probing *)

(** A device as [xdma_device_open] hands it to [probe_engines]. *)
Record unprobed {D} (s : wst D) : Prop := {
  up_num : xd_engines_num (w_dev s) = 0;
  up_h2c : 0 <= xd_h2c_channel_max (w_dev s) <= XDMA_CHANNEL_NUM_MAX;
  up_c2h : 0 <= xd_c2h_channel_max (w_dev s) <= XDMA_CHANNEL_NUM_MAX;
  up_user : 0 <= xd_user_max (w_dev s) <= MAX_USER_IRQ;
  up_len : forall h, Z.of_nat (length (engines_of h s)) = XDMA_CHANNEL_NUM_MAX;
}.

Lemma probing_ext {D} h2c base n (s s' : wst D) :
  (forall c, wget h2c c s' = wget h2c c s) -> irq_mask h2c (w_dev s') = irq_mask h2c (w_dev s) ->
  probing h2c base n s -> probing h2c base n s'.
Proof. intros E1 E2 [P1 P2 P3]. constructor; intros; rewrite ?E1, ?E2; auto. Qed.

Lemma probing_nil {D} h2c base (s : wst D) : probing h2c base 0 s.
Proof. constructor; intros; lia. Qed.

Lemma probing_lines {D} h2c base n (s : wst D) :
  0 <= base -> base + n <= 32 -> probing h2c base n s -> lines_ok (w_dst s) h2c (fun c => base + c) 0 n.
Proof. intros Hb Hn [P1 P2 _]. constructor; intros; try lia; [by apply P1|by apply P2]. Qed.

Lemma probing_rest {D} h2c base n (s s' : wst D) : probe_rest (negb h2c) s s' -> probing h2c base n s -> probing h2c base n s'.
Proof.
  intros [_ R2 R3 _ _ _] [P1 P2 P3]. rewrite negb_involutive in R2, R3.
  constructor; intros c Hc; rewrite ?R2, ?R3 by lia; auto.
Qed.

(** C31 What [probe_engines] finds is what the interrupt handler needs.  It
    returns 0; the channels counted in each direction, never more than asked
    for, all have engines; and every engine has a bit of its own in the
    interrupt words, which the masks of its direction contain: bit [c] for H2C
    channel [c], and the bits from [off] on for the C2H channels, [off] being the
    number of H2C engines, or one more when the set up of the next one failed
    half way. *)
Theorem probe_engines_irq_ok {D} `{Env D} pm dma_bus (s : wst D) :
  unprobed s ->
  let '(r, s') := probe_engines pm dma_bus s in
  r = 0 /\ exists off, irq_ok (w_dst s') (fun c => c) (fun c => off + c)
    /\ xd_h2c_channel_max (w_dev s') <= off <= xd_h2c_channel_max (w_dev s') + 1
    /\ xd_h2c_channel_max (w_dev s') <= xd_h2c_channel_max (w_dev s)
    /\ xd_c2h_channel_max (w_dev s') <= xd_c2h_channel_max (w_dev s).
Proof.
  intros [U1 U2 U3 U4 U5]. unfold XDMA_CHANNEL_NUM_MAX, MAX_USER_IRQ in *. apply wp_elim. unfold probe_engines. do 3 wv_step.
  apply (wp_probe_loop _ _ _ 0); [lia|lia|fold (w_dev s); lia|rewrite U5; fold (w_dev s); lia|by rewrite U1|apply probing_nil|].
  fold (w_dev s). rewrite Z2Nat.id by lia. intros h s1 Hh P1 R1 N1. do 4 wv_step.
  match goal with |- wp _ _ ?st => set (s2 := st) end.
  assert (probing true 0 h s2) as P2 by (eapply probing_ext; [..|exact P1]; done).
  pose proof R1 as [L1 _ _ _ C1 _]. wv_step. change (ds_dev (w_dst s2)) with (w_dev s2).
  assert (xd_c2h_channel_max (w_dev s2) = xd_c2h_channel_max (w_dev s)) as -> by exact C1.
  set (off := xd_engines_num (w_dev s1)) in *.
  apply (wp_probe_loop _ _ _ off); [lia|lia|lia| |by rewrite Z.add_0_r|apply probing_nil|].
  { change (length (engines_of false s2)) with (length (engines_of false s1)). rewrite L1, U5. lia. }
  rewrite Z2Nat.id by lia. intros c s3 Hc P3 R3 N3. do 3 wv_step.
  match goal with |- context [irq_ok (w_dst ?st)] => set (s4 := st) end.
  split; [done|]. exists off. pose proof (probing_rest true _ _ _ _ R3 P2) as P4.
  assert (probing true 0 h s4) as P5 by (eapply probing_ext; [..|exact P4]; done).
  assert (probing false off c s4) as P6 by (eapply probing_ext; [..|exact P3]; done).
  assert (xd_h2c_channel_max (w_dev s4) = h) as Eh by (change (xd_h2c_channel_max (w_dev s4)) with (xd_h2c_channel_max (w_dev s3)); by rewrite (pr_h2c_max _ _ _ R3)).
  assert (xd_user_max (w_dev s4) = xd_user_max (w_dev s)) as Eu.
  { change (xd_user_max (w_dev s4)) with (xd_user_max (w_dev s3)). rewrite (pr_user_max _ _ _ R3). exact (pr_user_max _ _ _ R1). }
  split_and!; [|rewrite Eh; lia|rewrite Eh; lia|rewrite Eh; lia|change (c <= xd_c2h_channel_max (w_dev s)); lia].
  change (w_dev s4) with (ds_dev (w_dst s4)) in *. constructor; rewrite ?Eh, ?Eu.
  - refine (probing_lines true 0 h s4 _ _ P5); lia.
  - change (xd_c2h_channel_max (ds_dev (w_dst s4))) with c. by apply probing_lines; [lia|lia|].
  - exact (pb_word _ _ _ _ P5).
  - exact (pb_word _ _ _ _ P6).
  - change (xd_c2h_channel_max (ds_dev (w_dst s4))) with c. lia.
  - lia.
Qed.

(** *** Witness: a card with two H2C channels and one C2H channel *)

Definition ex_card (ret : kcall -> Z) : wst sim :=
  {| w_dst := dev_start (sim_start [(0x10000, 0x1fc00006); (0x10100, 0x1fc00106); (0x11000, 0x1fc10006)] ret)
       (xdev_zero <| xd_bar := [0x10000; 0; 0; 0; 0; 0] |> <| xd_h2c_channel_max := 4 |>
                  <| xd_c2h_channel_max := 4 |> <| xd_user_max := 16 |>)
       (replicate 4 engine_zero) (replicate 4 engine_zero);
     w_self := 0x100; w_cs_threads := 0; w_threads := []; w_xdev_list := []; w_oops := false |}.

Lemma ex_card_unprobed : unprobed (ex_card (fun _ => 0x8000)).
Proof. constructor; try decide_now. Qed.

Lemma probe_engines_irq_ok_witness :
  ltac:(statement_of (probe_engines_irq_ok ex_params (fun p => p) _ ex_card_unprobed)).
Proof. instance_of (probe_engines_irq_ok ex_params (fun p => p) _ ex_card_unprobed). Defined.

Example ex_probe_run :
  let s' := (probe_engines ex_params (fun p => p) (ex_card (fun _ => 0x8000))).2 in
  (xd_h2c_channel_max (w_dev s'), xd_c2h_channel_max (w_dev s'), xd_mask_irq_h2c (w_dev s'), xd_mask_irq_c2h (w_dev s'),
   eng_dir <$> take 1 (engines_of false s')) = (2, 1, 3, 4, [DMA_FROM_DEVICE]).
Proof. by vm_compute. Qed.
