(* ===== verification/Open.v ===== *)
(** The life of a device ([libxdma.c]): the list of devices, opening and closing,
    taking it offline and back, and the user interrupts. *)
From S2P Require Import Prelude Kernel Types Desc Transfer Engine Device Irq IrqSetup Bars EngineSetup Threads Probe.
Local Open Scope Z_scope.

(** [u32 mask = ~0] *)
Definition all_ones : Z := 0xFFFFFFFF.
Definition PCI_EXP_DEVCTL_RELAX_EN : Z := 0x0010.
Definition PCI_EXP_DEVCTL_EXT_TAG : Z := 0x0100.

Section Code.
Context {D : Type} `{Env D} (pm : params) (pci : pci_info) (dma_bus bar_len : Z -> Z).
Variable online_cpus : list Z.
Variable sizeof_kthread sizeof_xdma_dev : Z.

(* @src xdma/libxdma.c:107-137 xdev_list_add *)
Definition xdev_list_add : M (wst D) Z :=
  x ← on_dev the_dev;
  l ← gets w_xdev_list; self ← gets w_self;
  rv ← match last l with
       | None =>
           on_dev (upd_dev (fun x => x <| xd_idx := 0 |>)) ;;
           if poll_mode pm
           then xdma_threads_create online_cpus sizeof_kthread (xd_h2c_channel_max x + xd_c2h_channel_max x)
           else mret 0
       | Some last => on_dev (upd_dev (fun x => x <| xd_idx := le_idx last + 1 |>)) ;; mret 0
       end;
  if rv <? 0 then mret rv
  else
    x ← on_dev the_dev;
    modify (fun s => s <| w_xdev_list ::= fun l => l ++ [Build_xdev_entry self (xd_pdev x) (xd_idx x)] |>) ;;
    mret 0.

Definition is_nil {A} (l : list A) : bool := match l with [] => true | _ => false end.

(* @src xdma/libxdma.c:141-153 xdev_list_remove *)
Definition xdev_list_remove : M (wst D) unit :=
  self ← gets w_self;
  modify (fun s => s <| w_xdev_list ::= filter (fun e => le_hndl e <> self) |>) ;;
  l ← gets w_xdev_list;
  when (poll_mode pm && is_nil l) xdma_threads_destroy.

(** The handle of the first device on the list with this [pdev]. *)
(* @src xdma/libxdma.c:155-168 xdev_find_by_pdev *)
Definition xdev_find_by_pdev (l : list xdev_entry) (pdev : Z) : option Z :=
  le_hndl <$> head (filter (fun e => le_pdev e = pdev) l).

(* @src xdma/libxdma.c:170-191 debug_check_dev_hndl *)
Definition debug_check_dev_hndl (l : list xdev_entry) (pdev hndl : Z) : Z :=
  if pdev =? 0 then - EINVAL
  else match xdev_find_by_pdev l pdev with
       | None => - EINVAL
       | Some xdev => if xdev =? hndl then 0 else - EINVAL
       end.

(* @src xdma/libxdma.c:221-255 check_nonzero_interrupt_status *)
Definition check_nonzero_interrupt_status : M (dst D) unit :=
  dev_read irq_user_int_enable ;; dev_read irq_channel_int_enable ;;
  dev_read irq_user_int_request ;; dev_read irq_channel_int_request ;;
  dev_read irq_user_int_pending ;; dev_read irq_channel_int_pending ;; mret tt.

(** The device [kzalloc] and the initialisations make. *)
(* @src xdma/libxdma.c:4147-4164 alloc_dev_instance *)
Definition new_xdev (pdev : Z) : xdma_dev :=
  xdev_zero <| xd_magic := MAGIC_DEVICE |> <| xd_config_bar_idx := -1 |> <| xd_user_bar_idx := -1 |>
    <| xd_bypass_bar_idx := -1 |> <| xd_irq_line := -1 |> <| xd_pdev := pdev |>
    <| xd_user_irq := (fun i => Build_xdma_user_irq i 0 0 0) <$> seqZ 0 16 |>.

(** 0 is [NULL].  The new device becomes the one at hand. *)
(* @src xdma/libxdma.c:4128-4195 alloc_dev_instance *)
Definition alloc_dev_instance (pdev : Z) : M (wst D) Z :=
  p ← call (K_kzalloc sizeof_xdma_dev);
  if p =? 0 then mret 0
  else
    modify (fun s => s <| w_self := p |> <| w_dst ::= fun d => d <| ds_dev := new_xdev pdev |>
      <| ds_h2c := replicate (Z.to_nat XDMA_CHANNEL_NUM_MAX) engine_zero |>
      <| ds_c2h := replicate (Z.to_nat XDMA_CHANNEL_NUM_MAX) engine_zero |> |>) ;;
    mret p.

(* @src xdma/libxdma.c:4197-4223 request_regions *)
Definition request_regions : M (dst D) Z :=
  rv ← call K_pci_request_regions;
  (if nz rv then upd_dev (fun x => x <| xd_regions_in_use := true |>)
   else upd_dev (fun x => x <| xd_got_regions := true |>)) ;;
  mret rv.

(* @src xdma/libxdma.c:4225-4267 set_dma_mask *)
Definition set_dma_mask : M (dst D) Z :=
  rv ← call (K_dma_set_mask 64);
  if rv =? 0 then mret 0
  else
    rv ← call (K_dma_set_mask 32);
    mret (if rv =? 0 then 0 else - EINVAL).

(* @src xdma/libxdma.c:4412-4415 pci_enable_capability *)
Definition pci_enable_capability (cap : Z) : M (dst D) unit := call_ (K_pcie_capability_set_word cap).

(** A limit given as 0, or above what the driver supports, is the most it
    supports. *)
(* @src xdma/libxdma.c:4450-4457 xdma_device_open *)
Definition clamp (v max : Z) : Z := if (v =? 0) || (max <? v) then max else v.

(* @src xdma/libxdma.c:4443-4457 xdma_device_open *)
Definition open_limits (user_max h2c_channel_max c2h_channel_max : Z) (x : xdma_dev) : xdma_dev :=
  x <| xd_flags ::= fun f => Z.lor f XDEV_FLAG_OFFLINE |>
    <| xd_user_max := clamp user_max MAX_USER_IRQ |>
    <| xd_h2c_channel_max := clamp h2c_channel_max XDMA_CHANNEL_NUM_MAX |>
    <| xd_c2h_channel_max := clamp c2h_channel_max XDMA_CHANNEL_NUM_MAX |>.

(** The PCI setup before the regions are requested. *)
(* @src xdma/libxdma.c:4469-4485 xdma_device_open *)
Definition open_pci : M (dst D) unit :=
  pci_check_intr_pend ;;
  pci_enable_capability PCI_EXP_DEVCTL_RELAX_EN ;;
  pci_enable_capability PCI_EXP_DEVCTL_EXT_TAG ;;
  call_ (K_pcie_set_readrq 512) ;;
  call_ K_pci_set_master.

(** The labels of the error path, from the last to the first. *)
(* @src xdma/libxdma.c:4544-4546 xdma_device_open *)
Definition free_xdev : M (wst D) Z := p ← gets w_self; call_ (K_kfree p) ;; mret 0.
(* @src xdma/libxdma.c:4542-4546 xdma_device_open *)
Definition err_enable : M (wst D) Z := xdev_list_remove ;; free_xdev.
(* @src xdma/libxdma.c:4539-4546 xdma_device_open *)
Definition err_regions : M (wst D) Z :=
  x ← on_dev the_dev; when (negb (xd_regions_in_use x)) (call_ K_pci_disable_device) ;; err_enable.
(* @src xdma/libxdma.c:4536-4546 xdma_device_open *)
Definition err_map : M (wst D) Z :=
  x ← on_dev the_dev; when (xd_got_regions x) (call_ K_pci_release_regions) ;; err_regions.
(* @src xdma/libxdma.c:4534-4546 xdma_device_open *)
Definition err_mask : M (wst D) Z := on_dev unmap_bars ;; err_map.
(* @src xdma/libxdma.c:4532-4546 xdma_device_open *)
Definition err_engines : M (wst D) Z := remove_engines pm ;; err_mask.
(* @src xdma/libxdma.c:4530-4546 xdma_device_open *)
Definition err_msix : M (wst D) Z := on_dev disable_msi_msix ;; err_engines.

(** From the interrupts on. *)
(* @src xdma/libxdma.c:4499-4528 xdma_device_open *)
Definition open_engines : M (wst D) Z :=
  on_dev check_nonzero_interrupt_status ;;
  on_dev (channel_interrupts_disable all_ones) ;;
  on_dev (user_interrupts_disable all_ones) ;;
  on_dev read_interrupts ;;
  rv ← probe_engines pm dma_bus;
  if nz rv then err_mask
  else
    rv ← on_dev (enable_msi_msix pm pci);
    if rv <? 0 then err_engines
    else
      rv ← on_dev (irq_setup pci);
      if rv <? 0 then err_msix
      else
        when (negb (poll_mode pm)) (on_dev (dev_channel_interrupts_enable all_ones)) ;;
        on_dev read_interrupts ;;
        on_dev (upd_dev (fun x => xdma_device_flag_clear x XDEV_FLAG_OFFLINE)) ;;
        gets w_self.

(** From [map_bars] on, and from [request_regions] on. *)
(* @src xdma/libxdma.c:4491-4528 xdma_device_open *)
Definition open_bars : M (wst D) Z :=
  rv ← on_dev (map_bars bar_len);
  if nz rv then err_map
  else
    rv ← on_dev set_dma_mask;
    if nz rv then err_mask else open_engines.
(* @src xdma/libxdma.c:4487-4528 xdma_device_open *)
Definition open_regions : M (wst D) Z :=
  rv ← on_dev request_regions;
  if nz rv then err_regions else open_bars.

(** The handle, 0 for [NULL].  The limits found are left in the device. *)
(* @src xdma/libxdma.c:4431-4547 xdma_device_open *)
Definition xdma_device_open (pdev user_max h2c_channel_max c2h_channel_max : Z) : M (wst D) Z :=
  xdev ← alloc_dev_instance pdev;
  if xdev =? 0 then mret 0
  else
    on_dev (upd_dev (open_limits user_max h2c_channel_max c2h_channel_max)) ;;
    rv ← xdev_list_add;
    if rv <? 0 then free_xdev
    else
      rv ← call K_pci_enable_device;
      if nz rv then err_enable
      else on_dev open_pci ;; open_regions.

(** The first steps of closing and of going offline. *)
(* @src xdma/libxdma.c:4641-4645 xdma_device_offline *)
Definition irqs_off : M (wst D) unit :=
  on_dev (channel_interrupts_disable all_ones) ;;
  on_dev (user_interrupts_disable all_ones) ;;
  on_dev read_interrupts ;;
  on_dev (irq_teardown).

(* @src xdma/libxdma.c:4549-4591 xdma_device_close *)
Definition xdma_device_close (pdev dev_hndl : Z) : M (wst D) unit :=
  l ← gets w_xdev_list;
  if dev_hndl =? 0 then mret tt
  else if debug_check_dev_hndl l pdev dev_hndl <? 0 then mret tt
  else
    irqs_off ;;
    on_dev disable_msi_msix ;;
    remove_engines pm ;;
    on_dev unmap_bars ;;
    x ← on_dev the_dev;
    when (xd_got_regions x) (call_ K_pci_release_regions) ;;
    when (negb (xd_regions_in_use x)) (call_ K_pci_disable_device) ;;
    xdev_list_remove ;;
    p ← gets w_self;
    call_ (K_kfree p).

(* @src xdma/libxdma.c:4610-4624 xdma_device_offline *)
Fixpoint offline_loop (h2c : bool) (n : nat) (i : Z) : M (wst D) unit :=
  match n with
  | O => mret tt
  | S n =>
      e ← on_dev (the_eng h2c i);
      when (eng_magic e =? MAGIC_ENGINE)
        (on_dev (on_engine h2c i
           (upd_engine (fun e => e <| eng_shutdown ::= fun v => Z.lor v ENGINE_SHUTDOWN_REQUEST |>) ;;
            xdma_engine_stop pm ;; mret tt))) ;;
      offline_loop h2c n (i + 1)
  end.

(* @src xdma/libxdma.c:4593-4648 xdma_device_offline *)
Definition xdma_device_offline (pdev dev_hndl : Z) : M (wst D) unit :=
  l ← gets w_xdev_list;
  if dev_hndl =? 0 then mret tt
  else if debug_check_dev_hndl l pdev dev_hndl <? 0 then mret tt
  else
    on_dev (upd_dev (fun x => xdma_device_flag_set x XDEV_FLAG_OFFLINE)) ;;
    x ← on_dev the_dev;
    offline_loop true (Z.to_nat (xd_h2c_channel_max x)) 0 ;;
    offline_loop false (Z.to_nat (xd_c2h_channel_max x)) 0 ;;
    irqs_off.

(* @src xdma/libxdma.c:4665-4673 xdma_device_online *)
Fixpoint online_loop (h2c : bool) (n : nat) (i : Z) : M (wst D) unit :=
  match n with
  | O => mret tt
  | S n =>
      e ← on_dev (the_eng h2c i); x ← on_dev the_dev;
      when (eng_magic e =? MAGIC_ENGINE)
        (on_dev (on_engine h2c i
           (engine_init_regs pm x ;;
            upd_engine (fun e => e <| eng_shutdown ::= fun v => Z.ldiff v ENGINE_SHUTDOWN_REQUEST |>)))) ;;
      online_loop h2c n (i + 1)
  end.

(* @src xdma/libxdma.c:4650-4696 xdma_device_online *)
Definition xdma_device_online (pdev dev_hndl : Z) : M (wst D) unit :=
  l ← gets w_xdev_list;
  if dev_hndl =? 0 then mret tt
  else if debug_check_dev_hndl l pdev dev_hndl <? 0 then mret tt
  else
    x ← on_dev the_dev;
    online_loop true (Z.to_nat (xd_h2c_channel_max x)) 0 ;;
    online_loop false (Z.to_nat (xd_c2h_channel_max x)) 0 ;;
    when (negb (poll_mode pm))
      (on_dev (irq_setup pci) ;;
       on_dev (dev_channel_interrupts_enable all_ones) ;;
       x ← on_dev the_dev;
       on_dev (user_interrupts_enable (xd_mask_irq_user x)) ;;
       on_dev read_interrupts ;; mret tt) ;;
    on_dev (upd_dev (fun x => xdma_device_flag_clear x XDEV_FLAG_OFFLINE)).

(* @src xdma/libxdma.c:4698-4710 xdma_device_restart *)
Definition xdma_device_restart (pdev dev_hndl : Z) : M (wst D) Z := mret (- EINVAL).

(** [n = user_max - i] *)
(* @src xdma/libxdma.c:4724-4733 xdma_user_isr_register *)
Fixpoint isr_register_loop (n : nat) (i mask handler dev : Z) : M (dst D) unit :=
  match n with
  | O => mret tt
  | S n =>
      let bit := u32 (Z.shiftl 1 i) in
      if mask =? 0 then mret tt
      else if Z.land bit mask =? 0 then isr_register_loop n (i + 1) mask handler dev
      else
        upd_user i (fun u => u <| u_handler := handler |> <| u_dev := dev |>) ;;
        isr_register_loop n (i + 1) (Z.ldiff mask bit) handler dev
  end.

(* @src xdma/libxdma.c:4712-4736 xdma_user_isr_register *)
Definition xdma_user_isr_register (dev_hndl mask handler dev : Z) : M (wst D) Z :=
  l ← gets w_xdev_list; x ← on_dev the_dev;
  if dev_hndl =? 0 then mret (- EINVAL)
  else if debug_check_dev_hndl l (xd_pdev x) dev_hndl <? 0 then mret (- EINVAL)
  else on_dev (isr_register_loop (Z.to_nat (xd_user_max x)) 0 mask handler dev) ;; mret 0.

(* @src xdma/libxdma.c:4738-4754 xdma_user_isr_enable *)
Definition xdma_user_isr_enable (dev_hndl mask : Z) : M (wst D) Z :=
  l ← gets w_xdev_list; x ← on_dev the_dev;
  if dev_hndl =? 0 then mret (- EINVAL)
  else if debug_check_dev_hndl l (xd_pdev x) dev_hndl <? 0 then mret (- EINVAL)
  else
    on_dev (upd_dev (fun x => x <| xd_mask_irq_user ::= fun m => Z.lor m mask |>)) ;;
    on_dev (user_interrupts_enable mask) ;; on_dev read_interrupts ;; mret 0.

(* @src xdma/libxdma.c:4756-4771 xdma_user_isr_disable *)
Definition xdma_user_isr_disable (dev_hndl mask : Z) : M (wst D) Z :=
  l ← gets w_xdev_list; x ← on_dev the_dev;
  if dev_hndl =? 0 then mret (- EINVAL)
  else if debug_check_dev_hndl l (xd_pdev x) dev_hndl <? 0 then mret (- EINVAL)
  else
    on_dev (upd_dev (fun x => x <| xd_mask_irq_user ::= fun m => Z.ldiff m mask |>)) ;;
    on_dev (user_interrupts_disable mask) ;; on_dev read_interrupts ;; mret 0.
End Code.
