(* ===== verification/OpenSpec.v ===== *)
(** What opening a device acquires, its error path releases ([libxdma.c]); the
    list of devices; and what being offline means to submitters. *)
From Stdlib Require Import Sorted.
From S2P Require Import Prelude Kernel Types Desc Transfer Engine EngineSpec EngineQueue Device Irq IrqSetup Bars EngineSetup Threads Frame Probe Open.
Local Open Scope Z_scope.

(** ** Resources *)

Inductive resource := R_mem (p : Z) | R_dev | R_regions | R_map (p : Z).

Definition acquires (e : event) : option resource :=
  match e with
  | Ev_call (K_kzalloc _) p | Ev_call (K_kmalloc _) p => if p =? 0 then None else Some (R_mem p)
  | Ev_call K_pci_enable_device rv => if rv =? 0 then Some R_dev else None
  | Ev_call K_pci_request_regions rv => if rv =? 0 then Some R_regions else None
  | Ev_call (K_pci_iomap _ _) p => if p =? 0 then None else Some (R_map p)
  | _ => None
  end.
Definition releases (e : event) : option resource :=
  match e with
  | Ev_call (K_kfree p) _ => Some (R_mem p)
  | Ev_call K_pci_disable_device _ => Some R_dev
  | Ev_call K_pci_release_regions _ => Some R_regions
  | Ev_call (K_pci_iounmap p) _ => Some (R_map p)
  | _ => None
  end.
Definition acquired (l : list event) : list resource := omap acquires l.
Definition released (l : list event) : list resource := omap releases l.

Lemma acquired_app l1 l2 : acquired (l1 ++ l2) = acquired l1 ++ acquired l2.
Proof. apply omap_app. Qed.
Lemma released_app l1 l2 : released (l1 ++ l2) = released l1 ++ released l2.
Proof. apply omap_app. Qed.

(** The calls that do not concern these resources. *)
Definition quiet (e : event) : Prop :=
  match e with
  | Ev_call c _ =>
      match c with
      | K_kzalloc _ | K_kmalloc _ | K_kfree _ | K_pci_enable_device | K_pci_disable_device | K_pci_request_regions
      | K_pci_release_regions | K_pci_iomap _ _ | K_pci_iounmap _ => False
      | _ => True
      end
  | _ => True
  end.

Lemma quiet_none l : Forall quiet l -> acquired l = [] /\ released l = [].
Proof.
  induction l as [|e l IH]; [done|]. intros [He [IH1 IH2]%IH]%Forall_cons. cbn.
  destruct e as [| |c v]; [done..|]. by destruct c.
Qed.

Lemma tst_ldiff f m : tst (Z.ldiff f m) m = false.
Proof.
  unfold tst, nz. replace (Z.land (Z.ldiff f m) m) with 0; [done|]. apply Z.bits_inj'. intros n Hn.
  rewrite Z.land_spec, Z.ldiff_spec, Z.bits_0. by destruct (Z.testbit f n), (Z.testbit m n).
Qed.

(** ** The functions that are quiet *)

Section Quiet.
Context {D : Type} `{Env D} (pm : params).
Abbreviation calm_e := (calm (D := D) (fun _ : est D => tt) quiet).
Abbreviation calm_d := (calm (D := D) dev_part quiet).
Abbreviation calm_w := (calm (D := D) drv_part quiet).

Lemma quiet_free_resource : calm_e engine_free_resource.
Proof. unfold engine_free_resource. calm. Qed.
#[local] Hint Resolve quiet_free_resource : calm.
Lemma quiet_alloc_resource dma_bus : calm_e (engine_alloc_resource pm dma_bus).
Proof. unfold engine_alloc_resource, alloc_desc, alloc_poll_wb, alloc_result. calm. Qed.
Lemma quiet_init_regs x : calm_e (engine_init_regs pm x).
Proof. unfold engine_init_regs, engine_alignments, engine_writeback_setup, write_reg, read_reg, reg_of. calm. Qed.
Lemma quiet_dev_read r : calm_d (dev_read r).
Proof. unfold dev_read. calm. Qed.
Lemma quiet_dev_write v r : calm_d (dev_write v r).
Proof. unfold dev_write. calm. Qed.
#[local] Hint Resolve quiet_alloc_resource quiet_init_regs quiet_dev_read quiet_dev_write : calm.

(** Interrupts *)
Lemma quiet_prog_vectors fuel clear reg i max j : calm_d (prog_vectors fuel clear reg i max j).
Proof. revert i j. induction fuel; intros i j; cbn [prog_vectors]; [calm|]. apply calm_if; [|calm]. destruct (if clear then _ else _). calm. Qed.
#[local] Hint Resolve quiet_prog_vectors : calm.
Lemma quiet_set_line h2c i v : calm_d (set_line h2c i v).
Proof. apply calm_modify. intros s. unfold dev_part, put_eng. by destruct h2c. Qed.
#[local] Hint Resolve quiet_set_line : calm.
Lemma quiet_channel_setup h2c n i off : calm_d (channel_setup_loop h2c n i off).
Proof. revert i. induction n; intros; cbn [channel_setup_loop]; calm. Qed.
Lemma quiet_user_setup n i off : calm_d (user_setup_loop n i off).
Proof. revert i. induction n; intros; cbn [user_setup_loop]; calm. Qed.
Lemma quiet_user_unwind n off : calm_d (user_unwind_loop n off).
Proof. induction n; cbn [user_unwind_loop]; calm. Qed.
#[local] Hint Resolve quiet_channel_setup quiet_user_setup quiet_user_unwind : calm.
Lemma quiet_irq_setup pci : calm_d (irq_setup pci).
Proof.
  unfold irq_setup, pci_keep_intx_enabled, irq_msix_channel_setup, irq_msix_user_setup, irq_msi_setup,
    irq_legacy_setup, prog_irq_msix_channel, prog_irq_msix_user. calm.
Qed.
Lemma quiet_enable_msi pci : calm_d (enable_msi_msix pm pci).
Proof. unfold enable_msi_msix. calm. Qed.
Lemma quiet_disable_msi : calm_d disable_msi_msix.
Proof. unfold disable_msi_msix. calm. Qed.

(** Engines *)
Lemma quiet_add_work h2c ch : calm_w (xdma_thread_add_work h2c ch).
Proof. unfold xdma_thread_add_work. calm. by apply calm_modify. Qed.
Lemma quiet_remove_work h2c ch : calm_w (xdma_thread_remove_work h2c ch).
Proof. unfold xdma_thread_remove_work. calm. Qed.
#[local] Hint Resolve quiet_add_work quiet_remove_work : calm.
Lemma quiet_engine_destroy h2c ch : calm_w (engine_destroy pm h2c ch).
Proof. unfold engine_destroy, on_eng. calm. Qed.
#[local] Hint Resolve quiet_engine_destroy : calm.
Lemma quiet_remove_loop h2c n i : calm_w (remove_loop pm h2c n i).
Proof. revert i. induction n; intros; cbn [remove_loop]; calm. Qed.
#[local] Hint Resolve quiet_remove_loop : calm.
Lemma quiet_remove_engines : calm_w (remove_engines pm).
Proof. unfold remove_engines. calm. Qed.
Lemma quiet_engine_init dma_bus h2c ch offset : calm_w (engine_init pm dma_bus h2c ch offset).
Proof. unfold engine_init, on_eng. calm. by destruct h2c. Qed.
#[local] Hint Resolve quiet_engine_init : calm.
Lemma quiet_probe_loop dma_bus h2c n i : calm_w (probe_loop pm dma_bus h2c n i).
Proof.
  revert i. induction n; intros; cbn [probe_loop]; unfold probe_for_engine, get_engine_id, get_engine_channel_id; calm.
Qed.
#[local] Hint Resolve quiet_probe_loop : calm.
Lemma quiet_open_pci : calm_d open_pci.
Proof. unfold open_pci, pci_check_intr_pend, pci_enable_capability. calm. Qed.
Lemma quiet_dma_mask : calm_d set_dma_mask.
Proof. unfold set_dma_mask. calm. Qed.
End Quiet.

#[export] Hint Resolve quiet_free_resource quiet_alloc_resource quiet_init_regs quiet_dev_read quiet_dev_write
  quiet_irq_setup quiet_enable_msi quiet_disable_msi quiet_remove_engines quiet_probe_loop quiet_open_pci
  quiet_dma_mask : calm.

(** ** Mapping the BARs, as resources *)

Definition map_event (e : event) : Prop :=
  match e with Ev_call (K_pci_iomap _ _) _ | Ev_call (K_pci_iounmap _) _ | Ev_read _ _ => True | _ => False end.

Lemma map_events l : Forall map_event l ->
  acquired l = R_map <$> mapped l /\ released l = R_map <$> unmapped l.
Proof.
  induction l as [|e l IH]; [done|]. intros [He [IH1 IH2]%IH]%Forall_cons.
  change (e :: l) with ([e] ++ l). rewrite acquired_app, released_app, mapped_app, unmapped_app.
  rewrite !fmap_app, IH1, IH2. destruct e as [| |c v]; [done..|]. destruct c; try done.
  split; [|done]. f_equal. cbn. by destruct (v =? 0).
Qed.

Definition region_part {D} (s : dst D) : bool * bool * (Z * Z * Z * Z) :=
  (xd_got_regions (ds_dev s), xd_regions_in_use (ds_dev s), dev_fixed (ds_dev s)).
#[export] Instance region_framed D : Framed D (dst D) _ region_part.
Proof. by constructor. Qed.

Section Bars.
Context {D : Type} `{Env D} (bar_len : Z -> Z) (Hbar : forall i, 0 <= bar_len i).
Implicit Types (s : dst D).
Abbreviation calm_m := (calm (D := D) region_part map_event).

Lemma maps_unmap_bars : calm_m unmap_bars.
Proof. unfold unmap_bars. calm. Qed.
#[local] Hint Resolve maps_unmap_bars : calm.
Lemma maps_map_loop n i ids pos : calm_m (map_bars_loop bar_len n i ids pos).
Proof.
  revert i ids pos. induction n; intros; cbn [map_bars_loop]; unfold map_single_bar, is_config_bar; calm.
Qed.
#[local] Hint Resolve maps_map_loop : calm.
Lemma identify_bars_regions ids num pos x :
  xd_got_regions (identify_bars ids num pos x) = xd_got_regions x
  /\ xd_regions_in_use (identify_bars ids num pos x) = xd_regions_in_use x
  /\ dev_fixed (identify_bars ids num pos x) = dev_fixed x.
Proof. unfold identify_bars. by repeat case_match. Qed.
Lemma maps_map_bars : calm_m (map_bars bar_len).
Proof.
  unfold map_bars. calm. apply calm_modify. intros s. split; [done|]. unfold region_part. fld.
  match goal with |- context [identify_bars ?a ?b ?c ?x] => by destruct (identify_bars_regions a b c x) as (-> & -> & ->) end.
Qed.

(** The BARs that are mapped and unmapped, as resources. *)
Lemma wp_unmap_bars (Q : unit -> dst D -> Prop) s :
  length (xd_bar (ds_dev s)) = 6%nat ->
  (forall l s', k_trace (ds_k s') = k_trace (ds_k s) ++ l -> acquired l = [] ->
     released l = R_map <$> nonzero (xd_bar (ds_dev s)) -> region_part s' = region_part s -> Q tt s') ->
  wp unmap_bars Q s.
Proof.
  intros Hlen HQ. pose proof (maps_unmap_bars s) as Hc.
  assert (wp unmap_bars (fun _ s' => exists l, k_trace (ds_k s') = k_trace (ds_k s) ++ l /\ mapped l = []
    /\ unmapped l = nonzero (xd_bar (ds_dev s))) s) as Hu.
  { apply (wp_unmap 6 0); [done|]. intros l s' E M _ U _. by exists l. }
  eapply wp_and; [exact Hc|]. eapply wp_mono; [exact Hu|]. intros [] s' (l' & E' & M & U) [(l & E & F) K].
  assert (l' = l) as -> by (apply (app_inv_head (k_trace (ds_k s))); by rewrite <- E').
  destruct (map_events l F) as [A R]. apply (HQ l); [done|by rewrite A, M|by rewrite R, U|done].
Qed.

Lemma wp_map_bars (Q : Z -> dst D -> Prop) s :
  xd_bar (ds_dev s) = replicate 6 0 -> xd_config_bar_idx (ds_dev s) < 0 ->
  (forall r l s', k_trace (ds_k s') = k_trace (ds_k s) ++ l -> region_part s' = region_part s ->
     length (xd_bar (ds_dev s')) = 6%nat ->
     r = 0 /\ released l = [] /\ acquired l = R_map <$> nonzero (xd_bar (ds_dev s'))
     \/ r <> 0 /\ released l = acquired l -> Q r s') ->
  wp (map_bars bar_len) Q s.
Proof.
  intros HB HC HQ. pose proof (maps_map_bars s) as Hc.
  eapply wp_and; [exact Hc|]. eapply wp_mono; [exact (wp_map_bars_cases bar_len Hbar s HB HC)|].
  intros r s' (l' & E' & Hr) [(l & E & F) K].
  assert (l' = l) as -> by (apply (app_inv_head (k_trace (ds_k s))); by rewrite <- E').
  destruct (map_events l F) as [A R]. apply (HQ r l); [done|done| |].
  - destruct Hr as [(_ & _ & _ & _ & _ & Hl & _)|(_ & _ & -> & _)]; done.
  - rewrite A, R. destruct Hr as [(-> & -> & -> & _)|(-> & -> & _)]; [left|right]; by split_and!.
Qed.
End Bars.

(** ** Opening a device *)

(** Since [s0], what has been acquired and not released is [R]. *)
Definition holds {D} (s0 : wst D) (R : list resource) (s : wst D) : Prop :=
  exists l, k_trace (ds_k (w_dst s)) = k_trace (ds_k (w_dst s0)) ++ l /\ acquired l ≡ₚ released l ++ R.

Section Opening.
Context {D : Type} `{Env D} (pm : params) (pci : pci_info) (dma_bus bar_len : Z -> Z).
Context (online_cpus : list Z) (sizeof_kthread sizeof_xdma_dev : Z).
Context (Hint : poll_mode pm = false) (Hbar : forall i, 0 <= bar_len i).
Context (pdev user h2c c2h : Z) (Hh2c : 0 <= h2c) (Hc2h : 0 <= c2h).
Implicit Types (s : wst D).

(** A device within the limits it was opened with. *)
Definition within (x : xdma_dev) : Prop :=
  xd_pdev x = pdev /\ xd_user_max x = user /\ xd_h2c_channel_max x <= h2c /\ xd_c2h_channel_max x <= c2h.
Lemma within_fixed x x' : dev_fixed x' = dev_fixed x -> within x -> within x'.
Proof. unfold dev_fixed, within. by intros [= -> -> -> ->]. Qed.

Lemma holds_events s0 R R' s s' l :
  holds s0 R s -> k_trace (ds_k (w_dst s')) = k_trace (ds_k (w_dst s)) ++ l ->
  acquired l ++ R ≡ₚ released l ++ R' -> holds s0 R' s'.
Proof.
  intros (l0 & E0 & P0) E HP. exists (l0 ++ l). split; [by rewrite E, E0, app_assoc|].
  rewrite acquired_app, released_app, P0, <- !app_assoc, (Permutation_app_comm R), HP. done.
Qed.

Lemma holds_calm s0 R s s' : calm_rel drv_part quiet s s' -> holds s0 R s -> holds s0 R s'.
Proof.
  intros [(l & E & F) _] Hh. destruct (quiet_none l F) as [A Rl].
  eapply holds_events; [exact Hh|exact E|]. by rewrite A, Rl.
Qed.

(** A device being opened: it is on the list, nothing else is. *)
Record opening (s0 : wst D) (R : list resource) (s : wst D) : Prop := {
  op_holds : holds s0 (R_mem (w_self s) :: R) s;
  op_list : exists idx, w_xdev_list s = w_xdev_list s0 ++ [Build_xdev_entry (w_self s) pdev idx];
  op_fresh : Forall (fun e => le_hndl e <> w_self s) (w_xdev_list s0);
  op_within : within (w_dev s);
}.

Lemma opening_calm s0 R s s' : calm_rel drv_part quiet s s' -> opening s0 R s -> opening s0 R s'.
Proof.
  intros Hc [O1 O2 O3 O4]. pose proof Hc as [_ K].
  pose proof (f_equal (fun t => t.1.2) K) as K1. pose proof (f_equal snd K) as K2.
  pose proof (f_equal (fun t => t.1.1.2) K) as K3. cbn in K1, K2, K3.
  constructor; rewrite ?K1, ?K2; [by eapply holds_calm|done|done|by eapply within_fixed].
Qed.

Lemma opening_events s0 R R' s s' l :
  opening s0 R s -> k_trace (ds_k (w_dst s')) = k_trace (ds_k (w_dst s)) ++ l ->
  acquired l ++ R ≡ₚ released l ++ R' -> w_self s' = w_self s -> w_xdev_list s' = w_xdev_list s ->
  dev_fixed (w_dev s') = dev_fixed (w_dev s) -> opening s0 R' s'.
Proof.
  intros [O1 O2 O3 O4] E HP E1 E2 E3. constructor; rewrite ?E1, ?E2; try done; [|by eapply within_fixed].
  eapply holds_events; [exact O1|exact E|]. rewrite <- !Permutation_middle. by rewrite HP.
Qed.

(** What the error path leaves: the list as it was, [R] held, and what the device
    said about the regions being in use. *)
Definition given_up (s0 : wst D) (R : list resource) (in_use : bool) (r : Z) (s : wst D) : Prop :=
  r = 0 /\ holds s0 R s /\ w_xdev_list s = w_xdev_list s0 /\ xd_regions_in_use (w_dev s) = in_use.

Lemma wp_free_xdev s0 R s :
  holds s0 (R_mem (w_self s) :: R) s -> w_xdev_list s = w_xdev_list s0 ->
  wp free_xdev (given_up s0 R (xd_regions_in_use (w_dev s))) s.
Proof.
  intros Hh Hl. unfold free_xdev. do 5 wv_step. split; [done|]. split; [|done].
  eapply holds_events; [exact Hh|done|]. done.
Qed.

Lemma filter_self (l : list xdev_entry) self p idx :
  Forall (fun e => le_hndl e <> self) l ->
  filter (fun e => le_hndl e <> self) (l ++ [Build_xdev_entry self p idx]) = l.
Proof.
  intros Hf. rewrite filter_app, filter_cons_False by (cbn; auto). cbn. rewrite app_nil_r.
  induction Hf as [|e l He Hf IH]; [done|]. rewrite filter_cons_True by done. by rewrite IH.
Qed.

Lemma wp_err_enable s0 R s : opening s0 R s -> wp (err_enable pm) (given_up s0 R (xd_regions_in_use (w_dev s))) s.
Proof.
  intros [Hh (idx & Hl) Hf _]. unfold err_enable, xdev_list_remove. do 7 wv_step. rewrite Hint. cbn [andb when]. wv_step.
  match goal with |- wp _ _ ?st => apply (wp_free_xdev s0 R st) end; [|fld; rewrite Hl; by apply filter_self].
  eapply holds_events; [exact Hh|fld; by rewrite app_nil_r|done].
Qed.

Lemma wp_err_regions s0 R s :
  opening s0 (R_dev :: R) s ->
  let b := xd_regions_in_use (w_dev s) in
  wp (err_regions pm) (given_up s0 (if b then R_dev :: R else R) b) s.
Proof.
  intros Ho. unfold err_regions. do 3 wv_step. fold (w_dev s). destruct (xd_regions_in_use (w_dev s)) eqn:Eb; cbn [negb when].
  - wv_step. rewrite <- Eb. by apply wp_err_enable.
  - wv_step. rewrite <- Eb. match goal with |- wp _ _ ?st => apply (wp_err_enable s0 R st) end. destruct Ho as [Hh Hl Hf Hx]. constructor; [|done|done|done].
    eapply holds_events; [exact Hh|done|]. cbn. apply Permutation_swap.
Qed.

Lemma wp_err_map s0 R s :
  opening s0 (R_dev :: R_regions :: R) s -> xd_got_regions (w_dev s) = true -> xd_regions_in_use (w_dev s) = false ->
  wp (err_map pm) (given_up s0 R false) s.
Proof.
  intros Ho Hg Hu. unfold err_map. do 3 wv_step. fold (w_dev s). rewrite Hg. cbn [when]. wv_step.
  match goal with |- wp _ _ ?st => set (s1 := st) end.
  assert (xd_regions_in_use (w_dev s1) = false) as Hu1 by exact Hu.
  pose proof (wp_err_regions s0 R s1) as Hw. cbv zeta in Hw. rewrite Hu1 in Hw. apply Hw.
  destruct Ho as [Hh Hl Hf Hx]. constructor; [|done|done|done]. eapply holds_events; [exact Hh|done|]. cbn.
  rewrite (Permutation_swap R_regions R_dev). rewrite (Permutation_swap R_regions (R_mem _)). done.
Qed.

(** A device with its BARs mapped. *)
Record with_bars (s0 s : wst D) : Prop := {
  wb_opening : opening s0 (R_dev :: R_regions :: (R_map <$> nonzero (xd_bar (w_dev s)))) s;
  wb_got : xd_got_regions (w_dev s) = true;
  wb_in_use : xd_regions_in_use (w_dev s) = false;
  wb_len : length (xd_bar (w_dev s)) = 6%nat;
}.

Lemma with_bars_calm s0 s s' : calm_rel drv_part quiet s s' -> with_bars s0 s -> with_bars s0 s'.
Proof.
  intros Hc [O G U L]. pose proof Hc as [_ K].
  pose proof (f_equal (fun t => t.1.1) K) as E. unfold drv_part, dev_part in E. cbn in E. injection E as E1 _ E2 E3.
  unfold w_dev in *. constructor; unfold w_dev; rewrite ?E1, ?E2, ?E3; [by eapply opening_calm|done|done|done].
Qed.

Lemma wp_err_mask s0 s : with_bars s0 s -> wp (err_mask pm) (given_up s0 [] false) s.
Proof.
  intros [[Hh Hl Hf Hx] G U L]. unfold err_mask. wv_step. apply wp_on_dev, wp_unmap_bars; [done|].
  intros l d E A Rl K. pose proof (f_equal (fun t => t.1.1) K) as K1.
  pose proof (f_equal (fun t => t.1.2) K) as K2. pose proof (f_equal snd K) as K3. cbn in K1, K2, K3.
  apply wp_err_map; [|by unfold w_dev; fld; rewrite K1|by unfold w_dev; fld; rewrite K2]. constructor; [|done|done|exact (within_fixed _ _ K3 Hx)].
  eapply holds_events; [exact Hh|exact E|]. rewrite A, Rl. cbn [app].
  rewrite (Permutation_app_comm (R_map <$> _)). done.
Qed.

Lemma wp_err_engines s0 s : with_bars s0 s -> wp (err_engines pm) (given_up s0 [] false) s.
Proof.
  intros Hb. unfold err_engines. wv_step. eapply calm_wp; [apply quiet_remove_engines|]. intros _ s' Hc.
  apply wp_err_mask. by eapply with_bars_calm.
Qed.

Lemma wp_err_msix s0 s : with_bars s0 s -> wp (err_msix pm) (given_up s0 [] false) s.
Proof.
  intros Hb. unfold err_msix. wv_step. eapply calm_wp; [apply calm_on_dev, quiet_disable_msi|]. intros _ s' Hc.
  apply wp_err_engines. by eapply with_bars_calm.
Qed.

(** How [xdma_device_open] ends: with the list as before and all given back, but
    perhaps the PCI device left enabled; or with a device that is on the list, is
    within its limits, is not offline, and has been given what it holds. *)
Record opened (s0 s : wst D) : Prop := {
  od_bars : with_bars s0 s;
  od_self : w_self s <> 0;
  od_online : xdma_device_flag_check (w_dev s) XDEV_FLAG_OFFLINE = false;
}.
Definition open_outcome (s0 : wst D) (r : Z) (s : wst D) : Prop :=
  (exists b, given_up s0 [] b r s) \/ given_up s0 [R_dev] true r s \/ r = w_self s /\ opened s0 s.

Definition ready (s0 s : wst D) : Prop := with_bars s0 s /\ w_self s <> 0.

Lemma ready_calm s0 s s' : calm_rel drv_part quiet s s' -> ready s0 s -> ready s0 s'.
Proof.
  intros Hc [Hb Hs]. split; [by eapply with_bars_calm|]. pose proof Hc as [_ K].
  pose proof (f_equal (fun t => t.1.2) K) as E. cbn in E. by rewrite E.
Qed.

(** The next step is quiet: run it. *)
Ltac quiet_step Hr :=
  wv_step; eapply calm_wp;
    [unfold check_nonzero_interrupt_status, channel_interrupts_disable, user_interrupts_disable, read_interrupts,
       dev_channel_interrupts_enable; calm|];
    let Hc := fresh "Hc" in intros ? ? Hc; apply (ready_calm _ _ _ Hc) in Hr; clear Hc.

(** Probing the engines sets the number of channels to what is found, within the limits. *)
Lemma probe_loop_bound h n i s : wp (probe_loop pm dma_bus h n i) (fun j _ => j <= i + Z.of_nat n) s.
Proof.
  revert i s. induction n as [|n IH]; intros i s; cbn [probe_loop]; [wv_step; lia|]. wv_step. apply wp_intro.
  apply wp_if; intros _; [wv_step; lia|]. eapply wp_mono; [apply IH|]. intros j s' Hj. cbv beta in *. lia.
Qed.
Lemma ready_limits s0 s f :
  ready s0 s -> (forall x, xd_bar (f x) = xd_bar x /\ xd_got_regions (f x) = xd_got_regions x /\ xd_regions_in_use (f x) = xd_regions_in_use x) ->
  within (f (w_dev s)) -> ready s0 (s <| w_dst ::= fun d => d <| ds_dev ::= f |> |>).
Proof.
  intros [[[Hh Hl Hf Hx] G U L] Hs] Hfx Hw. destruct (Hfx (w_dev s)) as (F1 & F2 & F3). unfold w_dev in *.
  split; [|done]. constructor; [constructor|..]; unfold w_dev; fld; rewrite ?F1, ?F2, ?F3; done.
Qed.
Lemma wp_probe_channels (b : bool) (n : nat) s0 s (Q : Z -> wst D -> Prop) :
  ready s0 s -> (forall i s', i <= Z.of_nat n -> ready s0 s' -> Q i s') -> wp (probe_loop pm dma_bus b n 0) Q s.
Proof.
  intros Hr HQ. eapply wp_and; [apply probe_loop_bound|]. eapply calm_wp; [apply quiet_probe_loop|].
  intros i s' Hc Hi. apply HQ; [lia|by eapply ready_calm].
Qed.
Lemma wp_probe_engines s0 s (Q : Z -> wst D -> Prop) :
  ready s0 s -> (forall rv s', ready s0 s' -> Q rv s') -> wp (probe_engines pm dma_bus) Q s.
Proof using Hh2c Hc2h.
  intros Hr HQ. unfold probe_engines. do 2 wv_step.
  wv_step. apply (wp_probe_channels true _ s0); [done|]. intros i s1 Hi Hr1. do 2 wv_step.
  pose proof (op_within _ _ _ (wb_opening _ _ (proj1 Hr))) as (_ & _ & X3 & _).
  pose proof (op_within _ _ _ (wb_opening _ _ (proj1 Hr1))) as (Y1 & Y2 & Y3 & Y4).
  assert (ready s0 (s1 <| w_dst ::= fun d => d <| ds_dev ::= fun x => x <| xd_h2c_channel_max := i |> |> |>)) as Hr2.
  { apply ready_limits; [done|done|]. unfold within, w_dev in *. fld. split_and!; try done. lia. }
  do 3 wv_step. apply (wp_probe_channels false _ s0); [done|]. intros j s2 Hj Hr3. do 3 wv_step. apply HQ.
  pose proof (op_within _ _ _ (wb_opening _ _ (proj1 Hr3))) as (Z1 & Z2 & Z3 & Z4).
  apply ready_limits; [done|done|]. unfold within, w_dev in *. fld. split_and!; try done. lia.
Qed.

Lemma wp_open_engines s0 s : ready s0 s -> wp (open_engines pm pci dma_bus) (open_outcome s0) s.
Proof.
  intros Hr. unfold open_engines. do 4 quiet_step Hr. wv_step. eapply wp_probe_engines; [exact Hr|]. clear Hr. intros rv s1 Hr.
  apply wp_if; intros _; [eapply wp_mono; [apply wp_err_mask, Hr|intros ? ? Hg; left; by exists false]|].
  quiet_step Hr. apply wp_if; intros _; [eapply wp_mono; [apply wp_err_engines, Hr|intros ? ? Hg; left; by exists false]|].
  quiet_step Hr. apply wp_if; intros _; [eapply wp_mono; [apply wp_err_msix, Hr|intros ? ? Hg; left; by exists false]|].
  do 2 quiet_step Hr. do 3 wv_step. destruct Hr as [[[Hh Hl Hf Hx] G U L] Hs].
  right. right. split; [done|]. constructor; [constructor; [by constructor|done..]|done|apply tst_ldiff].
Qed.

(** The device before its regions are requested. *)
Record enabled (s0 s : wst D) : Prop := {
  en_opening : opening s0 [R_dev] s;
  en_part : (dev_part (w_dst s)).1 = (replicate 6 0, -1, false, false);
  en_self : w_self s <> 0;
}.

Lemma enabled_calm s0 s s' : calm_rel drv_part quiet s s' -> enabled s0 s -> enabled s0 s'.
Proof.
  intros Hc [O E N]. pose proof Hc as [_ K]. constructor; [by eapply opening_calm| |].
  - pose proof (f_equal (fun t => t.1.1.1) K) as E1. exact (eq_trans E1 E).
  - pose proof (f_equal (fun t => t.1.2) K) as E1. cbn in E1. by rewrite E1.
Qed.

Lemma wp_open_bars s0 s :
  opening s0 [R_dev; R_regions] s -> (dev_part (w_dst s)).1 = (replicate 6 0, -1, true, false) -> w_self s <> 0 ->
  wp (open_bars pm pci dma_bus bar_len) (open_outcome s0) s.
Proof.
  intros Ho E N. injection E as EB EC EG EU. unfold open_bars. wv_step.
  apply wp_on_dev, wp_map_bars; [done|done|lia|]. intros r l d Et K Hlen Hr.
  pose proof (f_equal snd K) as KX. pose proof (f_equal fst K) as K1. cbn in KX, K1. rewrite EG, EU in K1. injection K1 as KG KU.
  destruct Hr as [(-> & Hrel & Hacq)|[Hr Hacq]].
  - change (nz 0) with false. cbv iota.
    match goal with |- wp _ _ ?st => set (s1 := st) end.
    assert (ready s0 s1) as Hr.
    { split; [|done]. constructor; [|done..]. eapply opening_events; [exact Ho|exact Et| |done|done|exact KX].
      rewrite Hrel, Hacq. etransitivity; [apply Permutation_app_comm|]. done. }
    clearbody s1. quiet_step Hr. apply wp_if; intros _; [|by apply wp_open_engines].
    eapply wp_mono; [apply wp_err_mask, Hr|intros ? ? Hg; left; by exists false].
  - replace (nz r) with true by (unfold nz; by destruct (Z.eqb_spec r 0)).
    match goal with |- wp _ _ ?st => set (s1 := st) end.
    eapply wp_mono; [apply (wp_err_map s0 [] s1); [|done|done]|intros ? ? Hg; left; by exists false].
    eapply opening_events; [exact Ho|exact Et| |done|done|exact KX]. by rewrite Hacq.
Qed.

Lemma wp_open_regions s0 s : enabled s0 s -> wp (open_regions pm pci dma_bus bar_len) (open_outcome s0) s.
Proof.
  intros [O E N]. injection E as EB EC EG EU. unfold open_regions, request_regions. wv_step. apply wp_on_dev.
  do 2 dv_step. dv_step. dv_step; do 2 dv_step.
  all: match goal with |- wp (if nz ?v then _ else _) _ ?st => set (s1 := st); set (rv := v) in * end.
  - match goal with E : nz _ = true |- _ => rewrite E end.
    eapply wp_mono; [apply (wp_err_regions s0 [] s1)|intros ? ? Hg; right; left; exact Hg].
    eapply opening_events; [exact O|done| |done|done|done]. unfold nz in *. cbn. by destruct (rv =? 0).
  - match goal with E : nz _ = false |- _ => rewrite E end.
    apply wp_open_bars; [| |done].
    2:{ change ((dev_part (w_dst s1)).1) with (xd_bar (w_dev s), xd_config_bar_idx (w_dev s), true, xd_regions_in_use (w_dev s)).
        unfold w_dev. by rewrite EB, EC, EU. }
    eapply opening_events; [exact O|done| |done|done|done]. unfold nz in *. cbn. 
    destruct (rv =? 0); [apply Permutation_swap|done].
Qed.

Lemma wp_list_add s0 s (Q : Z -> wst D -> Prop) :
  w_xdev_list s = w_xdev_list s0 -> Forall (fun e => le_hndl e <> w_self s) (w_xdev_list s0) ->
  (forall s' idx, w_xdev_list s' = w_xdev_list s0 ++ [Build_xdev_entry (w_self s) (xd_pdev (w_dev s)) idx] ->
     k_trace (ds_k (w_dst s')) = k_trace (ds_k (w_dst s)) -> w_self s' = w_self s ->
     dev_part (w_dst s') = dev_part (w_dst s) -> Q 0 s') ->
  wp (xdev_list_add pm online_cpus sizeof_kthread) Q s.
Proof.
  intros Hl Hf HQ. unfold xdev_list_add. do 6 wv_step. wv_step. rewrite Hint.
  destruct (last (w_xdev_list s)); do 3 wv_step; change (0 <? 0) with false; cbv iota; do 5 wv_step;
    (eapply HQ; [fld; by rewrite Hl|done..]).
Qed.

Lemma wp_device_open umax h2c_max c2h_max s :
  Forall (fun e => le_hndl e <> (env_call (K_kzalloc sizeof_xdma_dev) (k_env (ds_k (w_dst s)))).1) (w_xdev_list s) ->
  (forall x, within (open_limits umax h2c_max c2h_max (x <| xd_pdev := pdev |>))) ->
  wp (xdma_device_open pm pci dma_bus bar_len online_cpus sizeof_kthread sizeof_xdma_dev pdev umax h2c_max c2h_max) (open_outcome s) s.
Proof using Hint Hbar Hh2c Hc2h.
  intros Hfresh Hlim. unfold xdma_device_open, alloc_dev_instance.
  wv_step. wv_step. apply wp_call. intros p k Hp. change (k_env (part s)) with (k_env (ds_k (w_dst s))) in Hp.
  rewrite <- Hp in Hfresh. clear Hp. destruct (Z.eqb_spec p 0) as [->|Hp0].
  { wv_step. rewrite Z.eqb_refl. wv_step. left. eexists. split; [done|]. split; [|done]. eexists. split; [reflexivity|]. done. }
  do 3 wv_step. destruct (Z.eqb_spec p 0); [done|]. do 2 wv_step.
  match goal with |- wp _ _ ?st => set (s1 := st) end.
  assert (holds s [R_mem p] s1) as H1.
  { eexists. split; [reflexivity|]. cbn. by destruct (Z.eqb_spec p 0). }
  assert (within (w_dev s1)) as W1 by exact (Hlim (new_xdev pdev)).
  wv_step. apply (wp_list_add s); [done|exact Hfresh|]. intros s2 idx L2 T2 S2 P2.
  change (0 <? 0) with false. cbv iota. pose proof (f_equal fst P2) as D2. pose proof (f_equal snd P2) as X2. cbn [fst snd] in D2, X2.
  assert (opening s [] s2) as O2.
  { constructor; rewrite ?S2; [|exists idx; rewrite L2; by destruct W1 as [-> _]|exact Hfresh|exact (within_fixed _ _ X2 W1)].
    destruct H1 as (l & E & HP). exists l. by rewrite T2. }
  assert (w_self s2 <> 0) as N2 by (rewrite S2; exact Hp0).
  clear X2 P2 H1 T2 L2 S2 W1. change ((dev_part (w_dst s1)).1) with (replicate 6 0, -1, false, false) in D2. clearbody s1.
  wv_step. wv_step. rename v into rv. destruct (Z.eqb_spec rv 0) as [->|Hrv].
  - change (nz 0) with false. cbv iota. match goal with |- wp _ _ ?st => set (s3 := st) end.
    assert (enabled s s3) as H3 by (constructor; [by eapply opening_events; [exact O2|..]|done|done]). clearbody s3.
    wv_step. eapply calm_wp; [apply calm_on_dev, quiet_open_pci|]. intros _ s4 Hc.
    apply wp_open_regions. by eapply enabled_calm.
  - replace (nz rv) with true by (unfold nz; by destruct (Z.eqb_spec rv 0)).
    eapply wp_mono; [apply (wp_err_enable s [])|intros ? ? Hg; left; by eexists].
    eapply opening_events; [exact O2|done|..]; [cbn; by destruct (Z.eqb_spec rv 0)|done|done|done].
Qed.
End Opening.

(** C30 Opening a device acquires what it needs or nothing (interrupt mode).  Either
    [xdma_device_open] returns a handle: the device is on the list, it is not
    offline, and what has been acquired and not released since is its memory,
    the PCI device, its regions and the mapping of every BAR it has.  Or it
    returns [NULL]: the list is as before and all of this has been released
    again; only a PCI device whose regions were taken by someone else is left
    enabled. *)
Theorem device_open_outcome {D} `{Env D} pm pci dma_bus bar_len cpus size_th size_dev pdev user h2c c2h (s : wst D) :
  poll_mode pm = false -> (forall i, 0 <= bar_len i) ->
  (forall n d, Forall (fun e => le_hndl e <> (env_call (K_kzalloc n) d).1) (w_xdev_list s)) ->
  let '(r, s') := xdma_device_open pm pci dma_bus bar_len cpus size_th size_dev pdev user h2c c2h s in
  open_outcome pdev (clamp user MAX_USER_IRQ) (Z.max 0 (clamp h2c XDMA_CHANNEL_NUM_MAX)) (Z.max 0 (clamp c2h XDMA_CHANNEL_NUM_MAX)) s r s'.
Proof.
  intros Hint Hbar Hfresh. apply wp_elim. apply wp_device_open; [done|done|lia|lia|apply Hfresh|].
  intros x. unfold within, open_limits. fld. split_and!; done || lia.
Qed.

(** ** The list of devices *)

(** The devices are in the order of their indices, and no two share one. *)
Definition list_ok (l : list xdev_entry) : Prop := StronglySorted (fun a b => le_idx a < le_idx b) l.

Definition list_part {D} (s : wst D) : Z * list xdev_entry * xdma_dev := (w_self s, w_xdev_list s, w_dev s).
#[export] Instance list_framed D : Framed D (wst D) _ list_part.
Proof. by constructor. Qed.

Section Devices.
Context {D : Type} `{Env D} (pm : params) (online_cpus : list Z) (sizeof_kthread : Z).
Implicit Types (s : wst D).
Abbreviation calm_l := (calm (D := D) list_part (fun _ => True)).

Lemma list_kthread_start t id : calm_l (xdma_kthread_start t id).
Proof. unfold xdma_kthread_start. calm. Qed.
#[local] Hint Resolve list_kthread_start : calm.
Lemma list_create_loop cpus num : calm_l (threads_create_loop cpus num).
Proof. induction cpus; cbn [threads_create_loop]; calm. by apply calm_modify. Qed.
#[local] Hint Resolve list_create_loop : calm.
Lemma list_threads_create num : calm_l (xdma_threads_create online_cpus sizeof_kthread num).
Proof. unfold xdma_threads_create. calm; by apply calm_modify. Qed.

Lemma list_threads_destroy : calm_l xdma_threads_destroy.
Proof. unfold xdma_threads_destroy, xdma_kthread_stop. calm; by apply calm_modify. Qed.

(** [w_threads] aside, adding a device appends it, with the next index. *)
Lemma wp_list_add_any (Q : Z -> wst D -> Prop) s :
  (forall rv s', rv < 0 -> Q rv s') ->
  (forall idx s', idx = match last (w_xdev_list s) with Some e => le_idx e + 1 | None => 0 end ->
     w_xdev_list s' = w_xdev_list s ++ [Build_xdev_entry (w_self s) (xd_pdev (w_dev s)) idx] ->
     w_self s' = w_self s -> w_dev s' = (w_dev s) <| xd_idx := idx |> -> Q 0 s') ->
  wp (xdev_list_add pm online_cpus sizeof_kthread) Q s.
Proof.
  intros HQ1 HQ2. unfold xdev_list_add. do 7 wv_step.
  set (idx := match last (w_xdev_list s) with Some e => le_idx e + 1 | None => 0 end) in *.
  assert (forall rv s', list_part s' = (w_self s, w_xdev_list s, (w_dev s) <| xd_idx := idx |>) ->
    wp (if rv <? 0 then mret rv
        else x ← on_dev the_dev;
             modify (fun z => z <| w_xdev_list ::= fun l => l ++ [Build_xdev_entry (w_self s) (xd_pdev x) (xd_idx x)] |>) ;;
             mret 0) Q s') as Hend.
  { intros rv s' E. injection E as E1 E2 E3. destruct (Z.ltb_spec rv 0); [wv_step; by apply HQ1|].
    do 5 wv_step. unfold w_dev in E3. apply (HQ2 idx); [done| |done|exact E3].
    fld. by rewrite E2, E3. }
  destruct (last (w_xdev_list s)) as [e|] eqn:El.
  - do 3 wv_step. by apply Hend.
  - do 2 wv_step. destruct (poll_mode pm); [|wv_step; by apply Hend].
    eapply calm_wp; [apply list_threads_create|]. intros rv s' [_ K]. apply Hend. rewrite K. done.
Qed.

Lemma list_ok_snoc l e :
  list_ok l -> (forall x, last l = Some x -> le_idx x < le_idx e) -> list_ok (l ++ [e]) /\ Forall (fun x => le_idx x < le_idx e) l.
Proof.
  induction 1 as [|x l Hs IH Hx]; intros Hlast; [by repeat constructor|].
  destruct l as [|y l].
  - specialize (Hlast x eq_refl). split; [|by constructor]. repeat constructor; done.
  - destruct IH as [IH1 IH2]; [intros z Hz; by apply Hlast|]. apply Forall_cons in Hx as [Hxy Hx].
    pose proof (proj1 (Forall_cons _ _ _) IH2) as [Hye _].
    split; [|constructor; [lia|done]]. constructor; [done|]. change (Forall (fun b => le_idx x < le_idx b) ((y :: l) ++ [e])).
    apply Forall_app. split; [by constructor|]. repeat constructor. lia.
Qed.

(** Devices are listed under indices of their own, and can be found and removed
    again.  When [xdev_list_add] succeeds, the new device is the last of the
    list, its index above every other and the list still in order; a handle check
    with its PCI device accepts it; and after [xdev_list_remove] the list is
    exactly as before, and the check refuses the handle. *)
Theorem device_list_roundtrip s s1 :
  list_ok (w_xdev_list s) -> Forall (fun e => le_hndl e <> w_self s /\ le_pdev e <> xd_pdev (w_dev s)) (w_xdev_list s) ->
  xd_pdev (w_dev s) <> 0 ->
  xdev_list_add pm online_cpus sizeof_kthread s = (0, s1) ->
  let pdev := xd_pdev (w_dev s) in
  let s2 := (xdev_list_remove pm s1).2 in
  list_ok (w_xdev_list s1) /\ Forall (fun e => le_idx e < xd_idx (w_dev s1)) (w_xdev_list s)
  /\ debug_check_dev_hndl (w_xdev_list s1) pdev (w_self s) = 0
  /\ w_xdev_list s2 = w_xdev_list s
  /\ debug_check_dev_hndl (w_xdev_list s2) pdev (w_self s) = - EINVAL.
Proof.
  intros Hok Hfresh Hpdev Hrun pdev s2.
  assert (exists idx, w_xdev_list s1 = w_xdev_list s ++ [Build_xdev_entry (w_self s) pdev idx] /\ w_self s1 = w_self s
    /\ xd_idx (w_dev s1) = idx /\ (forall x, last (w_xdev_list s) = Some x -> le_idx x < idx)) as (idx & E1 & E2 & E3 & E4).
  { generalize (eq_refl 0). pattern 0 at 1, s1. apply (wp_result _ _ _ _ _ Hrun). apply wp_list_add_any; [lia|].
    intros idx s' -> L S Dv _. eexists. split_and!; [exact L|exact S|by rewrite Dv|]. intros x ->. lia. }
  destruct (list_ok_snoc _ (Build_xdev_entry (w_self s) pdev idx) Hok E4) as [Hok' Hlt].
  assert (w_xdev_list s2 = w_xdev_list s) as L2.
  { subst s2. refine (wp_run _ (fun _ s2 => w_xdev_list s2 = w_xdev_list s) _ _).
    unfold xdev_list_remove. do 6 wv_step. eapply calm_wp; [apply calm_when, list_threads_destroy|].
    intros _ s' [_ K]. pose proof (f_equal (fun t => t.1.2) K) as Kl. cbn in Kl. rewrite Kl. fld. rewrite E1, E2.
    apply filter_self. eapply Forall_impl; [exact Hfresh|]. by intros e [He _]. }
  assert (filter (fun e => le_pdev e = pdev) (w_xdev_list s) = []) as Hnone.
  { clear -Hfresh. induction Hfresh as [|e l [_ He] _ IH]; [done|]. by rewrite filter_cons_False. }
  split_and!; [by rewrite E1|by rewrite E3| |done|].
  - unfold debug_check_dev_hndl, xdev_find_by_pdev. destruct (Z.eqb_spec pdev 0); [done|].
    rewrite E1, filter_app, Hnone, filter_cons_True by done. cbn. by rewrite Z.eqb_refl.
  - unfold debug_check_dev_hndl, xdev_find_by_pdev. destruct (Z.eqb_spec pdev 0); [done|]. by rewrite L2, Hnone.
Qed.
End Devices.

(** *** Witnesses *)
Definition ex_open_ret (c : kcall) : Z :=
  match c with
  | K_kzalloc _ => 0x100 | K_pci_iomap i _ => 0x10000 * (i + 1) | K_dma_alloc_coherent _ => 0x8000 | _ => 0
  end.
Definition ex_closed : wst sim :=
  {| w_dst := dev_start (sim_start [(0x10000, 0x1fc00006); (0x10100, 0x1fc00106); (0x11000, 0x1fc10006);
         (0x12000, 0x1fc20006); (0x13000, 0x1fc30006)] ex_open_ret) xdev_zero (replicate 4 engine_zero) (replicate 4 engine_zero);
     w_self := 0; w_cs_threads := 0; w_threads := []; w_xdev_list := []; w_oops := false |}.

Lemma ex_bar_len_pos i : 0 <= ex_bar_len i.
Proof. unfold ex_bar_len. by case_match. Qed.

Lemma device_open_outcome_witness :
  ltac:(statement_of (device_open_outcome ex_params (Build_pci_info 11 false [] true true) (fun p => p) ex_bar_len [0; 1] 64 4096
    0x77 16 4 4 ex_closed eq_refl ex_bar_len_pos (fun _ _ => Forall_nil_2 _))).
Proof.
  instance_of (device_open_outcome ex_params (Build_pci_info 11 false [] true true) (fun p => p) ex_bar_len [0; 1] 64 4096
    0x77 16 4 4 ex_closed eq_refl ex_bar_len_pos (fun _ _ => Forall_nil_2 _)).
Defined.

Example ex_open_run :
  (xdma_device_open ex_params (Build_pci_info 11 false [] true true) (fun p => p) ex_bar_len [0; 1] 64 4096 0x77 16 4 4 ex_closed).1 = 0x100.
Proof. by vm_compute. Qed.

Definition ex_unlisted : wst sim := (ex_card ex_open_ret) <| w_dst ::= fun d => d <| ds_dev ::= fun x => x <| xd_pdev := 0x77 |> |> |>.

Lemma device_list_roundtrip_witness :
  ltac:(statement_of (device_list_roundtrip ex_params [0; 1] 64 ex_unlisted
    (xdev_list_add ex_params [0; 1] 64 ex_unlisted).2 ltac:(constructor) ltac:(apply Forall_nil_2) ltac:(done) ltac:(by vm_compute))).
Proof.
  instance_of (device_list_roundtrip ex_params [0; 1] 64 ex_unlisted
    (xdev_list_add ex_params [0; 1] 64 ex_unlisted).2 ltac:(constructor) ltac:(apply Forall_nil_2) ltac:(done) ltac:(by vm_compute)).
Defined.
