(* ===== verification/Close.v ===== *)
(** What opening a device has acquired, closing it releases ([libxdma.c]). *)
From S2P Require Import Prelude Kernel Types Desc Transfer Engine EngineSpec EngineQueue Device Irq IrqSetup Bars EngineSetup Threads Frame Probe Open OpenSpec.
Local Open Scope Z_scope.

Section Close.
Context {D : Type} `{Env D} (pm : params) (Hint : poll_mode pm = false) (pdev user h2c c2h : Z).
Implicit Types (s : wst D).

Lemma quiet_channel_teardown b n i : calm (D := D) dev_part quiet (channel_teardown_loop b n i).
Proof. revert i. induction n; intros; cbn [channel_teardown_loop]; calm. Qed.
Lemma quiet_user_teardown n i o : calm (D := D) dev_part quiet (user_teardown_loop n i o).
Proof. revert i o. induction n; intros; cbn [user_teardown_loop]; calm. Qed.
#[local] Hint Resolve quiet_prog_vectors quiet_channel_teardown quiet_user_teardown : calm.
Lemma quiet_irqs_off : calm (D := D) drv_part quiet irqs_off.
Proof.
  unfold irqs_off, channel_interrupts_disable, user_interrupts_disable, read_interrupts. unfold irq_teardown, irq_msix_channel_teardown, irq_msix_user_teardown, prog_irq_msix_channel, prog_irq_msix_user. calm.
Qed.

(** A handle is found by its PCI device. *)
Lemma handle_found (l : list xdev_entry) h idx :
  Forall (fun e => le_pdev e <> pdev) l -> pdev <> 0 ->
  xdev_find_by_pdev (l ++ [Build_xdev_entry h pdev idx]) pdev = Some h
  /\ debug_check_dev_hndl (l ++ [Build_xdev_entry h pdev idx]) pdev h = 0.
Proof.
  intros Hl Hp. assert (xdev_find_by_pdev (l ++ [Build_xdev_entry h pdev idx]) pdev = Some h) as E.
  { unfold xdev_find_by_pdev. rewrite filter_app, filter_cons_True by done.
    replace (filter (fun e => le_pdev e = pdev) l) with (@nil xdev_entry); [done|].
    induction Hl as [|e l He _ IH]; [done|]. by rewrite filter_cons_False. }
  split; [done|]. unfold debug_check_dev_hndl. rewrite E. destruct (Z.eqb_spec pdev 0); [done|]. by rewrite Z.eqb_refl.
Qed.

Lemma wp_device_close s0 s :
  ready pdev user h2c c2h s0 s -> pdev <> 0 -> Forall (fun e => le_pdev e <> pdev) (w_xdev_list s0) ->
  wp (xdma_device_close pm pdev (w_self s)) (fun _ s' => holds s0 [] s' /\ w_xdev_list s' = w_xdev_list s0) s.
Proof.
  intros Hr Hp Hf. pose proof Hr as [Hb Hs]. destruct (op_list _ _ _ _ _ _ _ (wb_opening _ _ _ _ _ _ Hb)) as (idx & Hl).
  unfold xdma_device_close. do 2 wv_step. rewrite Hl. destruct (Z.eqb_spec (w_self s) 0); [done|].
  destruct (handle_found _ (w_self s) idx Hf Hp) as [_ ->]. change (0 <? 0) with false. cbv iota. clear Hb Hs Hl.
  wv_step. eapply calm_wp; [apply quiet_irqs_off|]. intros _ s1 Hc. apply (ready_calm _ _ _ _ _ _ _ Hc) in Hr. clear Hc.
  wv_step. eapply calm_wp; [apply calm_on_dev, quiet_disable_msi|]. intros _ s2 Hc. apply (ready_calm _ _ _ _ _ _ _ Hc) in Hr. clear Hc.
  wv_step. eapply calm_wp; [apply quiet_remove_engines|]. intros _ s3 Hc. apply (ready_calm _ _ _ _ _ _ _ Hc) in Hr. clear Hc.
  destruct Hr as [[[Hh (i3 & Hl) Hfr _] G U L] Hs].
  wv_step. apply wp_on_dev, wp_unmap_bars; [done|]. intros l d E A Rl K.
  pose proof (f_equal (fun t => t.1.1) K) as K1. pose proof (f_equal (fun t => t.1.2) K) as K2. cbn in K1, K2.
  assert (holds s0 [R_mem (w_self s3); R_dev; R_regions] (s3 <| w_dst := d |>)) as H3.
  { eapply holds_events; [exact Hh|exact E|]. rewrite A, Rl. cbn [app]. unfold w_dev. symmetry.
    etransitivity; [apply Permutation_app_comm|]. done. }
  clear Hh E A Rl K L. unfold w_dev in *. do 3 wv_step. fld. rewrite K1, G. cbn [when]. do 2 wv_step. rewrite K2, U. cbn [when negb]. wv_step.
  unfold xdev_list_remove. do 6 wv_step. rewrite Hint. cbn [andb when]. do 3 wv_step.
  do 2 wv_step. split; [|fld; rewrite Hl; by apply filter_self].
  eapply (holds_events _ _ _ _ _ [_; _; _]); [exact H3|fld|].
  - rewrite H2, H1, H0, <- !app_assoc. reflexivity.
  - cbn. exact (Permutation_rev [_; _; _]).
Qed.
End Close.

(** C40 Closing undoes opening (interrupt mode).  When [xdma_device_open] returns a
    handle, the handle is found by its PCI device, and [xdma_device_close] with it
    releases everything opening has acquired and not released since - the memory,
    the PCI device, its regions and the mapping of every BAR - and leaves the list
    of devices as it was before. *)
Theorem open_close_roundtrip {D} `{Env D} pm pci dma_bus bar_len cpus size_th size_dev pdev user h2c c2h (s : wst D) :
  poll_mode pm = false -> (forall i, 0 <= bar_len i) -> pdev <> 0 -> Forall (fun e => le_pdev e <> pdev) (w_xdev_list s) ->
  (forall n d, Forall (fun e => le_hndl e <> (env_call (K_kzalloc n) d).1) (w_xdev_list s)) ->
  let '(r, s1) := xdma_device_open pm pci dma_bus bar_len cpus size_th size_dev pdev user h2c c2h s in
  r = 0 \/ xdev_find_by_pdev (w_xdev_list s1) pdev = Some r
    /\ let '(_, s2) := xdma_device_close pm pdev r s1 in holds s [] s2 /\ w_xdev_list s2 = w_xdev_list s.
Proof.
  intros Hint Hbar Hp Hf Hfresh. apply wp_elim.
  eapply wp_mono; [apply (wp_device_open _ _ _ _ _ _ _ Hint Hbar pdev (clamp user MAX_USER_IRQ)
    (Z.max 0 (clamp h2c XDMA_CHANNEL_NUM_MAX)) (Z.max 0 (clamp c2h XDMA_CHANNEL_NUM_MAX))); [lia|lia|apply Hfresh|]|].
  { intros x. unfold within, open_limits. fld. split_and!; done || lia. }
  intros r s1 [(b & -> & _)|[(-> & _)|[-> [Hb Hs _]]]]; [by left..|right].
  destruct (op_list _ _ _ _ _ _ _ (wb_opening _ _ _ _ _ _ Hb)) as (idx & Hl).
  split; [rewrite Hl; by apply handle_found|]. apply (wp_elim _ (fun _ s2 => _)). by eapply wp_device_close.
Qed.

Lemma open_close_roundtrip_witness :
  ltac:(statement_of (open_close_roundtrip ex_params (Build_pci_info 11 false [] true true) (fun p => p) ex_bar_len [0; 1] 64 4096
    0x77 16 4 4 ex_closed eq_refl ex_bar_len_pos ltac:(done) (Forall_nil_2 _) (fun _ _ => Forall_nil_2 _))).
Proof.
  instance_of (open_close_roundtrip ex_params (Build_pci_info 11 false [] true true) (fun p => p) ex_bar_len [0; 1] 64 4096
    0x77 16 4 4 ex_closed eq_refl ex_bar_len_pos ltac:(done) (Forall_nil_2 _) (fun _ _ => Forall_nil_2 _)).
Defined.
