(* ===== verification/Offline.v ===== *)
(** Taking a device offline and back online ([libxdma.c]): what it does to the
    engines, and to those who submit transfers. *)
From S2P Require Import Prelude Kernel Types Desc Transfer Engine EngineSpec EngineQueue Device Irq IrqSetup EngineSetup Threads Frame Probe Open OpenSpec.
Local Open Scope Z_scope.

(** [s'] is [s] after a loop has run an operation on the engines [i], ...,
    [i + n - 1] of a direction; those set up satisfy [P] now. *)
Record loop_done {D} (P : xdma_engine -> Prop) (h2c : bool) (i n : Z) (s s' : wst D) : Prop := {
  ld_dev : w_dev s' = w_dev s;
  ld_list : w_xdev_list s' = w_xdev_list s;
  ld_len : forall h, length (engines_of h s') = length (engines_of h s);
  ld_other : forall h c, 0 <= c -> h <> h2c \/ c < i \/ i + n <= c -> wget h c s' = wget h c s;
  ld_id : forall h c, 0 <= c -> same_id (wget h c s) (wget h c s');
  ld_post : forall c, i <= c < i + n -> eng_magic (wget h2c c s) = MAGIC_ENGINE -> P (wget h2c c s');
}.

Section Loops.
Context {D : Type} `{Env D} (P : xdma_engine -> Prop).
Implicit Types (s : wst D).

Lemma loop_done_nil h2c i s : loop_done P h2c i 0 s s.
Proof. constructor; intros; by (lia || split). Qed.

Lemma loop_done_skip h2c i n s s' :
  0 <= i -> eng_magic (wget h2c i s) <> MAGIC_ENGINE -> loop_done P h2c (i + 1) n s s' -> loop_done P h2c i (n + 1) s s'.
Proof.
  intros Hi Hm [L1 L0 L2 L3 L4 L5]. constructor; try done.
  - intros h c Hc Ho. apply L3; [done|]. destruct Ho as [|[|]]; [by left|right; left; lia|right; right; lia].
  - intros c Hc Hmc. destruct (decide (c = i)) as [->|]; [done|]. apply L5; [lia|done].
Qed.

Lemma loop_done_step h2c i n s s1 s' :
  0 <= i -> 0 <= n -> eng_frame h2c i s s1 -> w_xdev_list s1 = w_xdev_list s -> P (wget h2c i s1) ->
  loop_done P h2c (i + 1) n s1 s' -> loop_done P h2c i (n + 1) s s'.
Proof.
  intros Hi Hn [F1 F2 F3 F4] HL HP [L1 L0 L2 L3 L4 L5].
  assert (forall h c, 0 <= c -> same_id (wget h c s) (wget h c s1)) as F5.
  { intros h c Hc. destruct (decide ((h, c) = (h2c, i))) as [[= -> ->]|Hne]; [done|]. by rewrite F3. }
  constructor.
  - by rewrite L1.
  - by rewrite L0.
  - intros. by rewrite L2.
  - intros h c Hc Ho. rewrite L3; [|done|destruct Ho as [|[|]]; [by left|right; left; lia|right; right; lia]].
    apply F3; [done|]. intros [= -> ->]. destruct Ho as [|[|]]; [done|lia|lia].
  - intros h c Hc. destruct (F5 h c Hc) as [A1 A2], (L4 h c Hc) as [B1 B2]. split; congruence.
  - intros c Hc Hm. destruct (decide (c = i)) as [->|]; [by rewrite L3 by lia|].
    apply L5; [lia|]. by rewrite F3 by (lia || congruence).
Qed.

(** One round of such a loop. *)
Lemma wp_loop_round (m : M (est D) unit) h2c i n (rest : M (wst D) unit) (Q : unit -> wst D -> Prop) s :
  0 <= i -> i < Z.of_nat (length (engines_of h2c s)) ->
  (forall e, wp m (fun _ e' => same_id (es_eng e) (es_eng e') /\ P (es_eng e')) e) ->
  (forall s1, w_dev s1 = w_dev s -> length (engines_of h2c s1) = length (engines_of h2c s) ->
     wp rest (fun _ s' => loop_done P h2c (i + 1) (Z.of_nat n) s1 s') s1) ->
  (forall s', loop_done P h2c i (Z.of_nat (S n)) s s' -> Q tt s') ->
  wp (when (eng_magic (wget h2c i s) =? MAGIC_ENGINE) (on_dev (on_engine h2c i m)) ;; rest) Q s.
Proof.
  intros Hi Hl Hm Hrest HQ. wp_step. destruct (Z.eqb_spec (eng_magic (wget h2c i s)) MAGIC_ENGINE) as [E|E]; cbn [when].
  - apply wp_on_dev, wp_on_engine. eapply wp_mono; [apply Hm|]. intros [] e' [Hid HP].
    match goal with |- wp _ _ ?st => set (s1 := st) end.
    assert (eng_frame h2c i s s1) as F by (eapply (eng_frame_put h2c i (es_eng e')); [reflexivity|done..|exact Hid]).
    assert (wget h2c i s1 = es_eng e') as E1.
    { subst s1. unfold wget. fld. unfold with_est. rewrite get_put_eng, decide_True; [done|done|lia|lia|].
      unfold engines_of in Hl. destruct h2c; fld; lia. }
    eapply wp_mono; [apply Hrest; [exact (ef_dev _ _ _ _ F)|exact (ef_len _ _ _ _ F h2c)]|]. intros [] s' L. apply HQ.
    replace (Z.of_nat (S n)) with (Z.of_nat n + 1) by lia. eapply loop_done_step; [done|lia|exact F|done|by rewrite E1|exact L].
  - wp_step. eapply wp_mono; [by apply Hrest|]. intros [] s' L. apply HQ.
    replace (Z.of_nat (S n)) with (Z.of_nat n + 1) by lia. by apply loop_done_skip.
Qed.
End Loops.

(** An engine told to shut down, and one that is not. *)
Definition shut (e : xdma_engine) : Prop := tst (eng_shutdown e) ENGINE_SHUTDOWN_REQUEST = true /\ eng_running e = false.
Definition unshut (e : xdma_engine) : Prop := tst (eng_shutdown e) ENGINE_SHUTDOWN_REQUEST = false.

Lemma tst_lor_same v m : m <> 0 -> tst (Z.lor v m) m = true.
Proof.
  intros Hm. unfold tst, nz. replace (Z.land (Z.lor v m) m) with m; [by destruct (Z.eqb_spec m 0)|].
  apply Z.bits_inj'. intros n Hn. rewrite Z.land_spec, Z.lor_spec. by destruct (Z.testbit v n), (Z.testbit m n).
Qed.

(** The part of the device the engines and their users see. *)
Definition queue_part {D} (s : dst D) : list (Z * bool * Z) * list (Z * bool * Z) * Z * (Z * Z) :=
  let view e := (eng_shutdown e, eng_running e, eng_magic e) in
  (view <$> ds_h2c s, view <$> ds_c2h s, xd_flags (ds_dev s), (xd_h2c_channel_max (ds_dev s), xd_c2h_channel_max (ds_dev s))).
#[export] Instance queue_framed D : Framed D (dst D) _ queue_part.
Proof. by constructor. Qed.

Section Code.
Context {D : Type} `{Env D} (pm : params) (pci : pci_info).
Implicit Types (s : wst D).
Abbreviation calm_q := (calm (D := D) queue_part (fun _ => True)).

Lemma wp_offline_loop h2c n i (Q : unit -> wst D -> Prop) s :
  0 <= i -> i + Z.of_nat n <= Z.of_nat (length (engines_of h2c s)) ->
  (forall s', loop_done shut h2c i (Z.of_nat n) s s' -> Q tt s') -> wp (offline_loop pm h2c n i) Q s.
Proof.
  revert i Q s. induction n as [|n IH]; intros i Q s Hi Hl HQ; cbn [offline_loop].
  { wv_step. apply HQ, loop_done_nil. }
  do 2 wv_step. apply (wp_loop_round shut _ h2c i n); [done|lia| | |done].
  - intros e. do 3 est_step. apply wp_engine_stop. intros e' E _ _. est_step. rewrite E. split; [done|].
    split; [|done]. fld. by apply tst_lor_same.
  - intros s1 Hd Hl1. apply IH; [lia|lia|done].
Qed.

Lemma wp_online_loop h2c n i (Q : unit -> wst D -> Prop) s :
  0 <= i -> i + Z.of_nat n <= Z.of_nat (length (engines_of h2c s)) ->
  (forall s', loop_done unshut h2c i (Z.of_nat n) s s' -> Q tt s') -> wp (online_loop pm h2c n i) Q s.
Proof.
  revert i Q s. induction n as [|n IH]; intros i Q s Hi Hl HQ; cbn [online_loop].
  { wv_step. apply HQ, loop_done_nil. }
  do 4 wv_step. apply (wp_loop_round unshut _ h2c i n); [done|lia| | |done].
  - intros e. est_step. eapply wp_mono; [apply keeps_init_regs|]. intros _ e1 [E1 E2]. cbv beta. est_step.
    split; [by split|]. apply tst_ldiff.
  - intros s1 Hd Hl1. apply IH; [lia|lia|done].
Qed.

(** Programming the interrupts leaves the engines and the flags alone. *)
Lemma queue_set_line h2c i v : calm_q (set_line h2c i v).
Proof.
  apply calm_modify. intros s. split; [by destruct h2c|].
  unfold queue_part, put_eng, get_eng, engine_in. destruct h2c; fld; f_equal; f_equal; try f_equal.
  all: rewrite list_fmap_insert; apply list_insert_id'; intros Hl; rewrite length_fmap in Hl.
  all: rewrite list_lookup_fmap; match goal with |- context [?l !! ?k] => destruct (lookup_lt_is_Some_2 l k Hl) as [e He] end.
  all: by rewrite !He.
Qed.
#[local] Hint Resolve queue_set_line : calm.
Lemma queue_dev_read r : calm_q (dev_read r).
Proof. unfold dev_read. calm. Qed.
Lemma queue_dev_write v r : calm_q (dev_write v r).
Proof. unfold dev_write. calm. Qed.
#[local] Hint Resolve queue_dev_read queue_dev_write : calm.
Lemma queue_prog_vectors fuel clear reg i max j : calm_q (prog_vectors fuel clear reg i max j).
Proof. revert i j. induction fuel; intros i j; cbn [prog_vectors]; [calm|]. apply calm_if; [|calm]. destruct (if clear then _ else _). calm. Qed.
Lemma queue_channel_setup h2c' n i off : calm_q (channel_setup_loop h2c' n i off).
Proof. revert i. induction n; intros; cbn [channel_setup_loop]; calm. Qed.
Lemma queue_user_setup n i off : calm_q (user_setup_loop n i off).
Proof. revert i. induction n; intros; cbn [user_setup_loop]; calm. Qed.
Lemma queue_user_unwind n off : calm_q (user_unwind_loop n off).
Proof. induction n; cbn [user_unwind_loop]; calm. Qed.
#[local] Hint Resolve queue_prog_vectors queue_channel_setup queue_user_setup queue_user_unwind : calm.
Lemma queue_irq_setup : calm_q (irq_setup pci).
Proof.
  unfold irq_setup, pci_keep_intx_enabled, irq_msix_channel_setup, irq_msix_user_setup, irq_msi_setup,
    irq_legacy_setup, prog_irq_msix_channel, prog_irq_msix_user. calm.
Qed.

Lemma queue_channel_teardown h2c' n i : calm_q (channel_teardown_loop h2c' n i).
Proof. revert i. induction n; intros; cbn [channel_teardown_loop]; calm. Qed.
Lemma queue_user_teardown n i j : calm_q (user_teardown_loop n i j).
Proof. revert i j. induction n; intros; cbn [user_teardown_loop]; calm. Qed.
#[local] Hint Resolve queue_channel_teardown queue_user_teardown : calm.
Lemma queue_irq_teardown : calm_q irq_teardown.
Proof. unfold irq_teardown, irq_msix_channel_teardown, irq_msix_user_teardown, prog_irq_msix_channel, prog_irq_msix_user. calm. Qed.
#[local] Hint Resolve queue_irq_teardown queue_irq_setup : calm.

(** [s'] is [s] but for what [queue_part] does not see of the device. *)
Definition queue_same (s s' : wst D) : Prop :=
  queue_part (w_dst s') = queue_part (w_dst s) /\ w_xdev_list s' = w_xdev_list s.

Lemma wp_irqs_off (Q : unit -> wst D -> Prop) s :
  (forall s', queue_same s s' -> Q tt s') -> wp irqs_off Q s.
Proof.
  intros HQ. unfold irqs_off, channel_interrupts_disable, user_interrupts_disable, read_interrupts.
  do 3 (wv_step; apply wp_on_dev; eapply calm_wp; [by calm|]; intros ? ? [_ ?]).
  apply wp_on_dev. eapply calm_wp; [by calm|]. intros [] ? [_ ?]. apply HQ. split; [|done]. fld. congruence.
Qed.

(** The channels the device looks for in a direction. *)
Definition channels (h2c : bool) (s : wst D) : Z :=
  if h2c then xd_h2c_channel_max (w_dev s) else xd_c2h_channel_max (w_dev s).

(** A device that is listed and whose engine arrays cover its channels. *)
Record listed (pdev hndl : Z) (s : wst D) : Prop := {
  li_hndl : hndl <> 0;
  li_check : debug_check_dev_hndl (w_xdev_list s) pdev hndl = 0;
  li_room : forall h2c, channels h2c s <= Z.of_nat (length (engines_of h2c s));
}.

(** After a loop over each direction every engine of the device that is set up
    satisfies [P]; the rest of what the submitters see is as before. *)
Record both_done (P : xdma_engine -> Prop) (s s' : wst D) : Prop := {
  bd_dev : w_dev s' = w_dev s;
  bd_list : w_xdev_list s' = w_xdev_list s;
  bd_len : forall h, length (engines_of h s') = length (engines_of h s);
  bd_post : forall h c, 0 <= c < channels h s -> eng_magic (wget h c s) = MAGIC_ENGINE ->
    eng_magic (wget h c s') = MAGIC_ENGINE /\ P (wget h c s');
}.

Lemma both_done_intro P s s1 s2 :
  loop_done P true 0 (Z.of_nat (Z.to_nat (channels true s))) s s1 ->
  loop_done P false 0 (Z.of_nat (Z.to_nat (channels false s))) s1 s2 -> both_done P s s2.
Proof.
  intros [A1 A0 A2 A3 A4 A5] [B1 B0 B2 B3 B4 B5]. constructor.
  - congruence.
  - congruence.
  - intros h. by rewrite B2.
  - intros h c Hc Hm. assert (eng_magic (wget h c s1) = MAGIC_ENGINE) as Hm1.
    { destruct (A4 h c ltac:(lia)) as [E _]. congruence. }
    destruct (B4 h c ltac:(lia)) as [E _]. split; [congruence|].
    destruct h; [rewrite B3 by (lia || by left); apply A5; [lia|done]|apply B5; [lia|done]].
Qed.

Lemma queue_same_get h c s s' : queue_same s s' ->
  eng_shutdown (wget h c s') = eng_shutdown (wget h c s) /\ eng_running (wget h c s') = eng_running (wget h c s)
  /\ eng_magic (wget h c s') = eng_magic (wget h c s).
Proof.
  intros [E _]. injection E as E1 E2 _ _ _. unfold wget, get_eng, engine_in.
  assert (forall l l' : list xdma_engine, (fun e => (eng_shutdown e, eng_running e, eng_magic e)) <$> l'
    = (fun e => (eng_shutdown e, eng_running e, eng_magic e)) <$> l ->
    forall n, let e := default engine_zero (l !! n) in let e' := default engine_zero (l' !! n) in
    eng_shutdown e' = eng_shutdown e /\ eng_running e' = eng_running e /\ eng_magic e' = eng_magic e) as Hn.
  { intros l l' El n. pose proof (f_equal (.!! n) El) as Eln. cbn beta in Eln. rewrite !list_lookup_fmap in Eln.
    destruct (l !! n), (l' !! n); cbn in *; try done. by injection Eln. }
  destruct h; by apply Hn.
Qed.

Lemma queue_same_len h s s' : queue_same s s' -> length (engines_of h s') = length (engines_of h s).
Proof.
  intros [E _]. injection E as E1 E2 _ _ _. unfold engines_of.
  destruct h; [rewrite <- (length_fmap (fun e => (eng_shutdown e, eng_running e, eng_magic e)) (ds_h2c (w_dst s'))), E1
    |rewrite <- (length_fmap (fun e => (eng_shutdown e, eng_running e, eng_magic e)) (ds_c2h (w_dst s'))), E2];
    by rewrite length_fmap.
Qed.

(** What going offline establishes, and what coming back online does. *)
Record is_offline (s s' : wst D) : Prop := {
  off_flag : xdma_device_flag_check (w_dev s') XDEV_FLAG_OFFLINE = true;
  off_list : w_xdev_list s' = w_xdev_list s;
  off_room : forall h, length (engines_of h s') = length (engines_of h s) /\ channels h s' = channels h s;
  off_shut : forall h c, 0 <= c < channels h s -> eng_magic (wget h c s) = MAGIC_ENGINE ->
    eng_magic (wget h c s') = MAGIC_ENGINE /\ shut (wget h c s');
}.

Lemma wp_offline pdev hndl s :
  listed pdev hndl s -> wp (xdma_device_offline pm pdev hndl) (fun _ s' => is_offline s s') s.
Proof.
  intros [L1 L2 L3]. unfold xdma_device_offline. do 2 wv_step. rewrite L2. destruct (Z.eqb_spec hndl 0); [done|].
  change (0 <? 0) with false. cbv iota. do 3 wv_step. wv_step.
  match goal with |- wp _ _ ?st => set (s1 := st) end.
  assert (forall h, channels h s1 = channels h s /\ length (engines_of h s1) = length (engines_of h s)) as C1 by (by intros []).
  wv_step. eapply (wp_offline_loop true); [done| |].
  { destruct (C1 true) as [C2 C3]. specialize (L3 true). change (xd_h2c_channel_max (ds_dev (w_dst s1))) with (channels true s1). lia. }
  intros s2 D1. wv_step. eapply (wp_offline_loop false); [done| |].
  { destruct (C1 false) as [C2 C3]. rewrite (ld_len _ _ _ _ _ _ D1). specialize (L3 false).
    change (xd_c2h_channel_max (ds_dev (w_dst s1))) with (channels false s1). lia. }
  intros s3 D2. assert (both_done shut s1 s3) as [B1 B0 B2 B3] by (by eapply both_done_intro).
  apply wp_irqs_off. intros s4 Hq. pose proof (queue_same_len) as Hlen. pose proof Hq as [E EL]. injection E as _ _ E3 E4 E5.
  fold (w_dev s4) (w_dev s3) in E3, E4, E5. rewrite B1 in E3, E4, E5. constructor.
  - unfold xdma_device_flag_check. rewrite E3. by apply tst_lor_same.
  - by rewrite EL, B0.
  - intros h. rewrite (Hlen _ _ _ Hq), B2. split; [done|]. destruct h; cbn; by rewrite ?E4, ?E5.
  - intros h c Hc Hm. destruct (B3 h c Hc Hm) as [M1 [M2 M3]].
    destruct (queue_same_get h c _ _ Hq) as (G1 & G2 & G3). unfold shut. by rewrite G1, G2, G3.
Qed.

Lemma wp_online pdev hndl s :
  listed pdev hndl s ->
  wp (xdma_device_online pm pci pdev hndl) (fun _ s' => xdma_device_flag_check (w_dev s') XDEV_FLAG_OFFLINE = false
    /\ forall h c, 0 <= c < channels h s -> eng_magic (wget h c s) = MAGIC_ENGINE -> unshut (wget h c s')) s.
Proof.
  intros [L1 L2 L3]. unfold xdma_device_online. do 2 wv_step. rewrite L2. destruct (Z.eqb_spec hndl 0); [done|].
  change (0 <? 0) with false. cbv iota. do 2 wv_step.
  wv_step. eapply (wp_online_loop true); [done| |].
  { specialize (L3 true). change (xd_h2c_channel_max (ds_dev (w_dst s))) with (channels true s). lia. }
  intros s2 D1. wv_step. eapply (wp_online_loop false); [done| |].
  { rewrite (ld_len _ _ _ _ _ _ D1). specialize (L3 false).
    change (xd_c2h_channel_max (ds_dev (w_dst s))) with (channels false s). lia. }
  intros s3 D2. assert (both_done unshut s s3) as [B1 B0 B2 B3] by (by eapply both_done_intro).
  wv_step. eapply (wp_mono _ (fun _ s' => queue_same s3 s')).
  { destruct (poll_mode pm); [by wv_step|].
    unfold negb, when, dev_channel_interrupts_enable, user_interrupts_enable, read_interrupts. 
    do 2 (wv_step; apply wp_on_dev; eapply calm_wp; [by calm|]; intros ? ? [_ ?]).
    do 2 wv_step.
    do 2 (wv_step; apply wp_on_dev; eapply calm_wp; [by calm|]; intros ? ? [_ ?]).
    wv_step. split; [|done]. fld. congruence. }
  intros _ s4 Hq. wv_step. split; [apply tst_ldiff|]. intros h c Hc Hm. destruct (B3 h c Hc Hm) as [_ M2].
  destruct (queue_same_get h c _ _ Hq) as (G1 & _). unfold unshut in *. rewrite <- G1 in M2. exact M2.
Qed.

(** C32 A device that is offline takes no work, and online again it does.  After
    [xdma_device_offline] the device is marked offline, each of its engines has
    been asked to shut down and is not running, and queueing any transfer on any
    engine is refused and changes nothing; after a later [xdma_device_online]
    neither the mark nor a shutdown request is left. *)
Theorem offline_refuses pdev hndl s :
  listed pdev hndl s ->
  let s1 := (xdma_device_offline pm pdev hndl s).2 in
  let s2 := (xdma_device_online pm pci pdev hndl s1).2 in
  let eng_up h c := 0 <= c < channels h s /\ eng_magic (wget h c s) = MAGIC_ENGINE in
  xdma_device_flag_check (w_dev s1) XDEV_FLAG_OFFLINE = true
  /\ (forall h c, eng_up h c -> shut (wget h c s1))
  /\ (forall p (e : est D), transfer_queue pm (w_dev s1) p e
        = (if x_desc_num (xfer_at e p) =? 0 then - EINVAL else - EBUSY, e))
  /\ xdma_device_flag_check (w_dev s2) XDEV_FLAG_OFFLINE = false
  /\ (forall h c, eng_up h c -> unshut (wget h c s2)).
Proof.
  intros HL s1 s2 eng_up. pose proof HL as [L1 L2 L3].
  assert (is_offline s s1) as [O1 O2 O3 O4] by (subst s1; refine (wp_run _ _ _ (wp_offline pdev hndl s HL))).
  assert (listed pdev hndl s1) as HL1.
  { constructor; [done|by rewrite O2|]. intros h. destruct (O3 h) as [-> ->]. apply L3. }
  pose proof (wp_run _ _ _ (wp_online pdev hndl s1 HL1)) as [N1 N2]. fold s2 in N1, N2.
  split_and!; [done| | |done|].
  - intros h c [Hc Hm]. by apply O4.
  - intros p e. rewrite (surjective_pairing (transfer_queue _ _ _ _)).
    assert (wp (transfer_queue pm (w_dev s1) p) (fun r e' => (r, e') = (if x_desc_num (xfer_at e p) =? 0 then - EINVAL else - EBUSY, e)) e) as Hw.
    { unfold transfer_queue. do 2 est_step. destruct (x_desc_num (xfer_at e p) =? 0); [by est_step|]. rewrite O1. by est_step. }
    exact (wp_run _ _ _ Hw).
  - intros h c [Hc Hm]. apply N2; [by destruct (O3 h) as [_ ->]|by apply O4].
Qed.
End Code.

(** *** Witness: the probed card, on the list *)
Definition ex_opened : wst sim :=
  (probe_engines ex_params (fun p => p) (ex_card (fun _ => 0x8000))).2
    <| w_xdev_list := [Build_xdev_entry 0x100 0x77 0] |>.

Lemma ex_opened_listed : listed 0x77 0x100 ex_opened.
Proof. constructor; [done|by vm_compute|intros []; by vm_compute]. Qed.

Lemma offline_refuses_witness :
  ltac:(statement_of (offline_refuses ex_params (Build_pci_info 11 false [] true true) 0x77 0x100 ex_opened ex_opened_listed)).
Proof. instance_of (offline_refuses ex_params (Build_pci_info 11 false [] true true) 0x77 0x100 ex_opened ex_opened_listed). Defined.

Example ex_offline_run :
  let s1 := (xdma_device_offline ex_params 0x77 0x100 ex_opened).2 in
  (eng_shutdown (wget true 0 s1), eng_shutdown (wget true 1 s1), eng_shutdown (wget true 2 s1)) = (1, 1, 0).
Proof. by vm_compute. Qed.
