(* ===== verification/Cdev.v ===== *)
(** The character devices of a card ([xdma_cdev.c], [xdma_mod.h]): their creation
    and removal, and the checks every file operation starts with. *)
From S2P Require Import Prelude Kernel Types Device Threads.
Local Open Scope Z_scope.

(* @src xdma/xdma_mod.h:54-54 MAGIC_CHAR *)
Definition MAGIC_CHAR : Z := 0xCCCCCCCC.
(* @src xdma/xdma_cdev.h:30-30 XDMA_MINOR_BASE *)
Definition XDMA_MINOR_BASE : Z := 0.
(* @src xdma/xdma_cdev.h:31-31 XDMA_MINOR_COUNT *)
Definition XDMA_MINOR_COUNT : Z := 255.

(* @src xdma/xdma_cdev.c:28-38 cdev_type *)
Inductive cdev_type :=
| CHAR_USER | CHAR_CTRL | CHAR_XVC | CHAR_EVENTS | CHAR_XDMA_H2C | CHAR_XDMA_C2H
| CHAR_BYPASS_H2C | CHAR_BYPASS_C2H | CHAR_BYPASS.

#[export] Instance cdev_type_eq : EqDecision cdev_type.
Proof. solve_decision. Defined.

(** The values of the enumeration. *)
Definition type_num (t : cdev_type) : Z :=
  match t with
  | CHAR_USER => 0 | CHAR_CTRL => 1 | CHAR_XVC => 2 | CHAR_EVENTS => 3 | CHAR_XDMA_H2C => 4 | CHAR_XDMA_C2H => 5
  | CHAR_BYPASS_H2C => 6 | CHAR_BYPASS_C2H => 7 | CHAR_BYPASS => 8
  end.
#[export] Instance cdev_type_countable : Countable cdev_type.
Proof.
  refine (inj_countable type_num (fun n => List.find (fun t => type_num t =? n)
    [CHAR_USER; CHAR_CTRL; CHAR_XVC; CHAR_EVENTS; CHAR_XDMA_H2C; CHAR_XDMA_C2H; CHAR_BYPASS_H2C; CHAR_BYPASS_C2H; CHAR_BYPASS]) _).
  by intros [].
Defined.

(* @src xdma/xdma_cdev.c:53-53 xpdev_flags_bits *)
Definition XDF_CDEV_USER : Z := 0.
(* @src xdma/xdma_cdev.c:54-54 xpdev_flags_bits *)
Definition XDF_CDEV_CTRL : Z := 1.
(* @src xdma/xdma_cdev.c:55-55 xpdev_flags_bits *)
Definition XDF_CDEV_XVC : Z := 2.
(* @src xdma/xdma_cdev.c:56-56 xpdev_flags_bits *)
Definition XDF_CDEV_EVENT : Z := 3.
(* @src xdma/xdma_cdev.c:57-57 xpdev_flags_bits *)
Definition XDF_CDEV_SG : Z := 4.
(* @src xdma/xdma_cdev.c:58-58 xpdev_flags_bits *)
Definition XDF_CDEV_BYPASS : Z := 5.

(** Which [file_operations] a device was initialised with. *)
Inductive cdev_fops := ctrl_fops | xvc_fops | sgdma_fops | events_fops | bypass_fops.

(** [engine] and [user_irq] point into the device: the direction and channel, and
    the index.  [xpdev] is the structure the device is part of; the number has
    two parts; [xc_fops] stands for [cdev]. *)
(* @src xdma/xdma_mod.h:61-73 xdma_cdev *)
Record xdma_cdev := {
  xc_magic : Z;
  xc_xdev : Z;
  xc_cdevno : Z * Z;
  xc_fops : option cdev_fops;
  xc_bar : Z;
  xc_base : Z;
  xc_engine : option (bool * Z);
  xc_user_irq : option Z;
  xc_sys_device : Z;
}.
#[export] Instance xdma_cdev_settable : Settable xdma_cdev := fun c =>
  Build_xdma_cdev (xc_magic c) (xc_xdev c) (xc_cdevno c) (xc_fops c) (xc_bar c) (xc_base c) (xc_engine c)
    (xc_user_irq c) (xc_sys_device c).
Definition cdev_zero : xdma_cdev := Build_xdma_cdev 0 0 (0, 0) None 0 0 None None 0.

(** The character devices are named by their type and, for those in arrays, their
    index; an absent entry is all zero. *)
(* @src xdma/xdma_mod.h:76-101 xdma_pci_dev *)
Record xdma_pci_dev := {
  xp_magic : Z;
  xp_pdev : Z;
  xp_xdev : Z;
  xp_major : Z;
  xp_user_max : Z;
  xp_c2h_channel_max : Z;
  xp_h2c_channel_max : Z;
  xp_flags : Z;
  xp_cdevs : gmap (cdev_type * Z) xdma_cdev;
}.
#[export] Instance xdma_pci_dev_settable : Settable xdma_pci_dev := fun x =>
  Build_xdma_pci_dev (xp_magic x) (xp_pdev x) (xp_xdev x) (xp_major x) (xp_user_max x) (xp_c2h_channel_max x)
    (xp_h2c_channel_max x) (xp_flags x) (xp_cdevs x).
Definition xpdev_zero : xdma_pci_dev := Build_xdma_pci_dev 0 0 0 0 0 0 0 0 ∅.

(** The module: the library's state, the card's [xpdev], the class and cache of
    [xdma_cdev.c], and what [xdma_mod.c] keeps: [xpdev_cnt] and the driver data of
    the PCI device (the address of [xpdev], or 0). *)
Record pst (D : Type) := {
  p_wst : wst D;
  p_xpdev : xdma_pci_dev;
  p_class : Z;
  p_cache : Z;
  p_cnt : Z;
  p_drvdata : Z;
}.
Arguments Build_pst {D}.
Arguments p_wst {D}.
Arguments p_xpdev {D}.
Arguments p_class {D}.
Arguments p_cache {D}.
Arguments p_cnt {D}.
Arguments p_drvdata {D}.
#[export] Instance pst_settable D : Settable (pst D) := fun s =>
  Build_pst (p_wst s) (p_xpdev s) (p_class s) (p_cache s) (p_cnt s) (p_drvdata s).
#[export] Instance pst_has_k D : Has (pst D) (kstate D) :=
  {| part := fun s => ds_k (w_dst (p_wst s));
     with_part := fun k s => s <| p_wst ::= fun w => w <| w_dst ::= fun d => d <| ds_k := k |> |> |> |}.
#[export] Instance pst_has_wst D : Has (pst D) (wst D) :=
  {| part := p_wst; with_part := fun w s => s <| p_wst := w |> |}.

(** A function of the library, in the larger state. *)
Definition on_lib {D A} (m : M (wst D) A) : M (pst D) A := zoom m.

Definition the_xpdev {D} : M (pst D) xdma_pci_dev := gets p_xpdev.
Definition upd_xpdev {D} (f : xdma_pci_dev -> xdma_pci_dev) : M (pst D) unit := modify (fun s => s <| p_xpdev ::= f |>).
Definition cdev_at (x : xdma_pci_dev) (i : cdev_type * Z) : xdma_cdev := default cdev_zero (xp_cdevs x !! i).
Definition the_cdev {D} (i : cdev_type * Z) : M (pst D) xdma_cdev := gets (fun s => cdev_at (p_xpdev s) i).
Definition upd_cdev {D} (i : cdev_type * Z) (f : xdma_cdev -> xdma_cdev) : M (pst D) unit :=
  upd_xpdev (fun x => x <| xp_cdevs := <[i := f (cdev_at x i)]> (xp_cdevs x) |>).

(** ** Flags *)
(* @src xdma/xdma_cdev.c:61-65 xpdev_flag_set *)
Definition xpdev_flag_set (fbit : Z) (x : xdma_pci_dev) : xdma_pci_dev := x <| xp_flags ::= fun f => Z.lor f (Z.shiftl 1 fbit) |>.
(* @src xdma/xdma_cdev.c:67-71 xcdev_flag_clear *)
Definition xcdev_flag_clear (fbit : Z) (x : xdma_pci_dev) : xdma_pci_dev := x <| xp_flags ::= fun f => Z.ldiff f (Z.shiftl 1 fbit) |>.
(* @src xdma/xdma_cdev.c:73-77 xpdev_flag_test *)
Definition xpdev_flag_test (fbit : Z) (x : xdma_pci_dev) : bool := tst (xp_flags x) (Z.shiftl 1 fbit).

Section Code.
Context {D : Type} `{Env D}.

Definition lib_dev : M (pst D) xdma_dev := on_lib (on_dev the_dev).
Definition lib_eng (h2c : bool) (ch : Z) : M (pst D) xdma_engine := on_lib (on_dev (the_eng h2c ch)).

(** ** One character device *)
(* @src xdma/xdma_cdev.c:94-131 config_kobject *)
Definition config_kobject (i : cdev_type * Z) : M (pst D) Z :=
  c ← the_cdev i; x ← lib_dev;
  match i.1 with
  | CHAR_XDMA_H2C | CHAR_XDMA_C2H | CHAR_BYPASS_H2C | CHAR_BYPASS_C2H =>
      match xc_engine c with
      | None => mret (- EINVAL)
      | Some (h2c, ch) => e ← lib_eng h2c ch; call (K_kobject_set_name (type_num i.1) (xd_idx x) (eng_channel e))
      end
  | CHAR_BYPASS | CHAR_USER | CHAR_CTRL | CHAR_XVC => call (K_kobject_set_name (type_num i.1) (xd_idx x) 0)
  | CHAR_EVENTS => call (K_kobject_set_name (type_num i.1) (xd_idx x) (xc_bar c))
  end.

(** The handle at hand is the only device there is. *)
(* @src xdma/xdma_cdev.c:133-161 xcdev_check *)
Definition xcdev_check (c : option xdma_cdev) (check_engine : bool) : M (pst D) Z :=
  match c with
  | None => mret (- EINVAL)
  | Some c =>
      if negb (xc_magic c =? MAGIC_CHAR) then mret (- EINVAL)
      else
        x ← lib_dev;
        if (xc_xdev c =? 0) || negb (xd_magic x =? MAGIC_DEVICE) then mret (- EINVAL)
        else if check_engine then
          match xc_engine c with
          | None => mret (- EINVAL)
          | Some (h2c, ch) => e ← lib_eng h2c ch; mret (if eng_magic e =? MAGIC_ENGINE then 0 else - EINVAL)
          end
        else mret 0
  end.

(** The device a file is opened on; [None] leaves [private_data] alone. *)
(* @src xdma/xdma_cdev.c:163-178 char_open *)
Definition char_open (i : cdev_type * Z) : M (pst D) (Z * option (cdev_type * Z)) :=
  c ← the_cdev i;
  mret (if negb (xc_magic c =? MAGIC_CHAR) then (- EINVAL, None) else (0, Some i)).

(* @src xdma/xdma_cdev.c:183-214 char_close *)
Definition char_close (private_data : option (cdev_type * Z)) : M (pst D) Z :=
  match private_data with
  | None => mret (- EINVAL)
  | Some i =>
      c ← the_cdev i; x ← lib_dev;
      mret (if negb (xc_magic c =? MAGIC_CHAR) then - EINVAL
            else if xc_xdev c =? 0 then - EINVAL
            else if negb (xd_magic x =? MAGIC_DEVICE) then - EINVAL else 0)
  end.

(* @src xdma/xdma_cdev.c:223-244 create_sys_device *)
Definition create_sys_device (i : cdev_type * Z) : M (pst D) Z :=
  c ← the_cdev i; x ← lib_dev;
  last_param ← match i.1, xc_engine c with
               | CHAR_EVENTS, _ => mret (xc_bar c)
               | _, Some (h2c, ch) => e ← lib_eng h2c ch; mret (eng_channel e)
               | _, None => mret 0
               end;
  p ← call (K_device_create (xc_cdevno c).1 (xc_cdevno c).2 (type_num i.1) (xd_idx x) last_param);
  upd_cdev i (fun c => c <| xc_sys_device := p |>) ;;
  mret (if p =? 0 then -1 else 0).

(** The pointer is never [NULL]. *)
(* @src xdma/xdma_cdev.c:246-278 destroy_xcdev *)
Definition destroy_xcdev (i : cdev_type * Z) : M (pst D) Z :=
  c ← the_cdev i; class ← gets p_class;
  if negb (xc_magic c =? MAGIC_CHAR) then mret (- EINVAL)
  else if xc_xdev c =? 0 then mret (- EINVAL)
  else if class =? 0 then mret (- EINVAL)
  else if xc_sys_device c =? 0 then mret (- EINVAL)
  else
    call_ (K_device_destroy (xc_cdevno c).1 (xc_cdevno c).2) ;;
    call_ (K_cdev_del (xc_cdevno c).1 (xc_cdevno c).2) ;;
    mret 0.

(* @src xdma/cdev_ctrl.c:271-274 cdev_ctrl_init *)
Definition cdev_ctrl_init (c : xdma_cdev) : xdma_cdev := c <| xc_fops := Some ctrl_fops |>.
(* @src xdma/cdev_xvc.h:28-28 XVC_BAR_OFFSET_DFLT *)
Definition XVC_BAR_OFFSET_DFLT : Z := 0x40000.
(* @src xdma/cdev_xvc.c:237-250 cdev_xvc_init *)
Definition cdev_xvc_init (c : xdma_cdev) : xdma_cdev := c <| xc_base := XVC_BAR_OFFSET_DFLT |> <| xc_fops := Some xvc_fops |>.
(* @src xdma/cdev_sgdma.c:951-954 cdev_sgdma_init *)
Definition cdev_sgdma_init (c : xdma_cdev) : xdma_cdev := c <| xc_fops := Some sgdma_fops |>.
(* @src xdma/cdev_events.c:116-120 cdev_event_init *)
Definition cdev_event_init (c : xdma_cdev) : xdma_cdev := c <| xc_user_irq := Some (xc_bar c) |> <| xc_fops := Some events_fops |>.
(* @src xdma/cdev_bypass.c:195-198 cdev_bypass_init *)
Definition cdev_bypass_init (c : xdma_cdev) : xdma_cdev := c <| xc_fops := Some bypass_fops |>.

(** The minor number, and the initialisation, by type; [ch] is the engine's
    channel. *)
(* @src xdma/xdma_cdev.c:317-356 create_xcdev *)
Definition minor_init (t : cdev_type) (bar ch : Z) : Z * (xdma_cdev -> xdma_cdev) :=
  match t with
  | CHAR_USER | CHAR_CTRL => (type_num t, cdev_ctrl_init)
  | CHAR_XVC => (type_num t, cdev_xvc_init)
  | CHAR_XDMA_H2C => (32 + ch, cdev_sgdma_init)
  | CHAR_XDMA_C2H => (36 + ch, cdev_sgdma_init)
  | CHAR_EVENTS => (10 + bar, cdev_event_init)
  | CHAR_BYPASS_H2C => (64 + ch, cdev_bypass_init)
  | CHAR_BYPASS_C2H => (68 + ch, cdev_bypass_init)
  | CHAR_BYPASS => (100, cdev_bypass_init)
  end.

(** The region the device numbers are taken from, once per card. *)
(* @src xdma/xdma_cdev.c:291-301 create_xcdev *)
Definition get_major : M (pst D) Z :=
  x ← the_xpdev;
  if xp_major x =? 0 then
    rv ← call (K_alloc_chrdev_region XDMA_MINOR_BASE XDMA_MINOR_COUNT);
    if nz rv then mret rv
    else major ← call K_chrdev_major; upd_xpdev (fun x => x <| xp_major := major |>) ;; mret 0
  else mret 0.

(* @src xdma/xdma_cdev.c:280-383 create_xcdev *)
Definition create_xcdev (i : cdev_type * Z) (bar : Z) (engine : option (bool * Z)) : M (pst D) Z :=
  rv ← get_major;
  if nz rv then mret rv
  else
    x ← the_xpdev;
    upd_cdev i (fun c => c <| xc_magic := MAGIC_CHAR |> <| xc_xdev := xp_xdev x |> <| xc_engine := engine |> <| xc_bar := bar |>) ;;
    rv ← config_kobject i;
    if rv <? 0 then mret rv
    else
      ch ← match engine with Some (h2c, ch) => e ← lib_eng h2c ch; mret (eng_channel e) | None => mret 0 end;
      let '(minor, init) := minor_init i.1 bar ch in
      upd_cdev i (fun c => init c <| xc_cdevno := (xp_major x, minor) |>) ;;
      rv ← call (K_cdev_add (xp_major x) minor);
      if rv <? 0 then call_ (K_unregister_chrdev_region (xp_major x) minor XDMA_MINOR_COUNT) ;; mret rv
      else
        class ← gets p_class;
        rv ← (if class =? 0 then mret 0 else create_sys_device i);
        if rv <? 0 then
          call_ (K_cdev_del (xp_major x) minor) ;;
          call_ (K_unregister_chrdev_region (xp_major x) minor XDMA_MINOR_COUNT) ;; mret rv
        else mret 0.

(** ** All of a card's devices *)

(** Removal of a range of an array; the results are only logged. *)
(* @src xdma/xdma_cdev.c:395-401 xpdev_destroy_interfaces *)
Fixpoint destroy_loop (t : cdev_type) (n : nat) (i : Z) : M (pst D) unit :=
  match n with
  | O => mret tt
  | S n => destroy_xcdev (t, i) ;; destroy_loop t n (i + 1)
  end.

(* @src xdma/xdma_cdev.c:385-466 xpdev_destroy_interfaces *)
Definition xpdev_destroy_interfaces : M (pst D) unit :=
  x ← the_xpdev;
  when (xpdev_flag_test XDF_CDEV_SG x)
    (destroy_loop CHAR_XDMA_H2C (Z.to_nat (xp_h2c_channel_max x)) 0 ;;
     destroy_loop CHAR_XDMA_C2H (Z.to_nat (xp_c2h_channel_max x)) 0) ;;
  when (xpdev_flag_test XDF_CDEV_EVENT x) (destroy_loop CHAR_EVENTS (Z.to_nat (xp_user_max x)) 0) ;;
  when (xpdev_flag_test XDF_CDEV_CTRL x) (destroy_xcdev (CHAR_CTRL, 0) ;; mret tt) ;;
  when (xpdev_flag_test XDF_CDEV_USER x) (destroy_xcdev (CHAR_USER, 0) ;; mret tt) ;;
  when (xpdev_flag_test XDF_CDEV_XVC x) (destroy_xcdev (CHAR_XVC, 0) ;; mret tt) ;;
  when (xpdev_flag_test XDF_CDEV_BYPASS x)
    (destroy_loop CHAR_BYPASS_H2C (Z.to_nat (xp_h2c_channel_max x)) 0 ;;
     destroy_loop CHAR_BYPASS_C2H (Z.to_nat (xp_c2h_channel_max x)) 0 ;;
     destroy_xcdev (CHAR_BYPASS, 0) ;; mret tt) ;;
  when (nz (xp_major x)) (call_ (K_unregister_chrdev_region (xp_major x) XDMA_MINOR_BASE XDMA_MINOR_COUNT)).

(** The loops that create the devices of an array; they stop at the first failure,
    whose negative result they return, and return 0 otherwise. *)
(* @src xdma/xdma_cdev.c:485-492 xpdev_create_interfaces *)
Fixpoint create_events_loop (n : nat) (i : Z) : M (pst D) Z :=
  match n with
  | O => mret 0
  | S n =>
      rv ← create_xcdev (CHAR_EVENTS, i) i None;
      if rv <? 0 then mret rv else create_events_loop n (i + 1)
  end.

(* @src xdma/xdma_cdev.c:496-508 xpdev_create_interfaces *)
Fixpoint create_engines_loop (t : cdev_type) (h2c : bool) (n : nat) (i : Z) : M (pst D) Z :=
  match n with
  | O => mret 0
  | S n =>
      e ← lib_eng h2c i;
      if negb (eng_magic e =? MAGIC_ENGINE) then create_engines_loop t h2c n (i + 1)
      else
        rv ← create_xcdev (t, i) i (Some (h2c, i));
        if rv <? 0 then mret rv else create_engines_loop t h2c n (i + 1)
  end.

(** [m1], and [m2] when it did not fail. *)
Definition and_then (m1 m2 : M (pst D) Z) : M (pst D) Z := rv ← m1; if rv <? 0 then mret rv else m2.
Definition set_flag (fbit : Z) : M (pst D) Z := upd_xpdev (xpdev_flag_set fbit) ;; mret 0.

(** The groups, in the order they are created. *)
(* @src xdma/xdma_cdev.c:475-482 xpdev_create_interfaces *)
Definition create_ctrl : M (pst D) Z :=
  x ← lib_dev; and_then (create_xcdev (CHAR_CTRL, 0) (xd_config_bar_idx x) None) (set_flag XDF_CDEV_CTRL).
(* @src xdma/xdma_cdev.c:484-493 xpdev_create_interfaces *)
Definition create_events : M (pst D) Z :=
  x ← the_xpdev; and_then (create_events_loop (Z.to_nat (xp_user_max x)) 0) (set_flag XDF_CDEV_EVENT).
(* @src xdma/xdma_cdev.c:495-523 xpdev_create_interfaces *)
Definition create_sg : M (pst D) Z :=
  x ← the_xpdev;
  and_then (create_engines_loop CHAR_XDMA_H2C true (Z.to_nat (xp_h2c_channel_max x)) 0)
    (and_then (create_engines_loop CHAR_XDMA_C2H false (Z.to_nat (xp_c2h_channel_max x)) 0) (set_flag XDF_CDEV_SG)).
(* @src xdma/xdma_cdev.c:525-564 xpdev_create_interfaces *)
Definition create_bypass : M (pst D) Z :=
  d ← lib_dev; x ← the_xpdev;
  if 0 <? xd_bypass_bar_idx d then
    and_then (create_engines_loop CHAR_BYPASS_H2C true (Z.to_nat (xp_h2c_channel_max x)) 0)
      (and_then (create_engines_loop CHAR_BYPASS_C2H false (Z.to_nat (xp_c2h_channel_max x)) 0)
         (and_then (create_xcdev (CHAR_BYPASS, 0) (xd_bypass_bar_idx d) None) (set_flag XDF_CDEV_BYPASS)))
  else mret 0.
(* @src xdma/xdma_cdev.c:566-584 xpdev_create_interfaces *)
Definition create_user : M (pst D) Z :=
  d ← lib_dev;
  if 0 <=? xd_user_bar_idx d then
    and_then (create_xcdev (CHAR_USER, 0) (xd_user_bar_idx d) None)
      (and_then (set_flag XDF_CDEV_USER)
         (and_then (create_xcdev (CHAR_XVC, 0) (xd_user_bar_idx d) None) (set_flag XDF_CDEV_XVC)))
  else mret 0.

(* @src xdma/xdma_cdev.c:468-602 xpdev_create_interfaces *)
Definition xpdev_create_interfaces : M (pst D) Z :=
  rv ← and_then create_ctrl (and_then create_events (and_then create_sg (and_then create_bypass create_user)));
  if rv <? 0 then xpdev_destroy_interfaces ;; mret (-1) else mret 0.

(** ** The class and the cache *)
(* @src xdma/xdma_cdev.c:604-633 xdma_cdev_init *)
Definition xdma_cdev_init : M (pst D) Z :=
  p ← call K_class_create;
  modify (fun s => s <| p_class := p |>) ;;
  if IS_ERR p then mret (- EINVAL)
  else
    c ← call K_kmem_cache_create;
    modify (fun s => s <| p_cache := c |>) ;;
    mret (if c =? 0 then - ENOMEM else 0).

(* @src xdma/xdma_cdev.c:635-642 xdma_cdev_cleanup *)
Definition xdma_cdev_cleanup : M (pst D) unit :=
  cache ← gets p_cache; class ← gets p_class;
  when (nz cache) (call_ (K_kmem_cache_destroy cache)) ;;
  when (nz class) (call_ (K_class_destroy class)).
End Code.
