(* ===== verification/CdevSpec.v ===== *)
(** The character devices of a card have distinct numbers, and those that are
    created are removed again ([xdma_cdev.c]). *)
From S2P Require Import Prelude Kernel Types Device Threads Cdev.
Local Open Scope Z_scope.

(** ** What a trace did to the character devices *)
Definition chr_added (e : event) : option (Z * Z) :=
  match e with Ev_call (K_cdev_add M m) rv => if rv <? 0 then None else Some (M, m) | _ => None end.
Definition chr_removed (e : event) : option (Z * Z) :=
  match e with Ev_call (K_cdev_del M m) _ => Some (M, m) | _ => None end.
(** The nodes the driver takes to exist: it asked for them and was not given [NULL].
    [device_create] answers with the node or with an error pointer, never with [NULL],
    so some of them may be missing: those added are the ones really there. *)
Definition sys_asked (e : event) : option (Z * Z) :=
  match e with Ev_call (K_device_create M m _ _ _) p => if p =? 0 then None else Some (M, m) | _ => None end.
Definition sys_added (e : event) : option (Z * Z) :=
  match e with Ev_call (K_device_create M m _ _ _) p => if (p =? 0) || IS_ERR p then None else Some (M, m) | _ => None end.
Definition sys_missed (e : event) : option (Z * Z) :=
  match e with Ev_call (K_device_create M m _ _ _) p => if IS_ERR p then Some (M, m) else None | _ => None end.
Definition sys_removed (e : event) : option (Z * Z) :=
  match e with Ev_call (K_device_destroy M m) _ => Some (M, m) | _ => None end.
Definition region_added (e : event) : option unit :=
  match e with Ev_call (K_alloc_chrdev_region _ _) rv => if rv =? 0 then Some tt else None | _ => None end.
Definition region_removed (e : event) : option (Z * Z * Z) :=
  match e with Ev_call (K_unregister_chrdev_region M m n) _ => Some (M, m, n) | _ => None end.

(** The six in one: [a], [r] number the devices added and removed, in both ways (for
    the nodes, as the driver takes them), [ra] and [rr] are the regions. *)
Record did (l : list event) (a r : list (Z * Z)) (ra : nat) (rr : list (Z * Z * Z)) : Prop := {
  did_chr_added : omap chr_added l = a;
  did_sys_asked : omap sys_asked l = a;
  did_chr_removed : omap chr_removed l = r;
  did_sys_removed : omap sys_removed l = r;
  did_region_added : length (omap region_added l) = ra;
  did_region_removed : omap region_removed l = rr;
}.

(** Every node taken to exist is there or was missed. *)
Lemma sys_split l : omap sys_added l ++ omap sys_missed l ≡ₚ omap sys_asked l.
Proof.
  induction l as [|e l IH]; [done|]. cbn. destruct e as [| |c p]; [done..|]. destruct c; try done. cbn.
  destruct (Z.eqb_spec p 0) as [->|Hp]; [done|]. destruct (IS_ERR p); cbn; [|by rewrite IH].
  rewrite <- Permutation_middle. by rewrite IH.
Qed.
Lemma sys_none_missed l : omap sys_missed l = [] -> omap sys_added l = omap sys_asked l.
Proof.
  induction l as [|e l IH]; [done|]. cbn. destruct e as [| |c p]; [done..|]. destruct c; try done. cbn.
  destruct (Z.eqb_spec p 0) as [->|Hp]; [done|]. destruct (IS_ERR p); cbn; [done|]. intros E. by rewrite IH.
Qed.

Lemma did_nil : did [] [] [] 0 [].
Proof. done. Qed.
Lemma did_app l1 l2 a1 a2 r1 r2 n1 n2 rr1 rr2 :
  did l1 a1 r1 n1 rr1 -> did l2 a2 r2 n2 rr2 -> did (l1 ++ l2) (a1 ++ a2) (r1 ++ r2) (n1 + n2) (rr1 ++ rr2).
Proof. intros [] []. constructor; rewrite omap_app, ?length_app; congruence. Qed.

(** The trace, and the part of the library's state the devices depend on. *)
Definition ptrace {D} (s : pst D) : list event := k_trace (ds_k (w_dst (p_wst s))).
Definition lib_part {D} (s : pst D) : xdma_dev * list xdma_engine * list xdma_engine :=
  (ds_dev (w_dst (p_wst s)), ds_h2c (w_dst (p_wst s)), ds_c2h (w_dst (p_wst s))).

(** [s'] is [s] after the events [l], with [x] for the card's structure. *)
Record moved {D} (s : pst D) (l : list event) (x : xdma_pci_dev) (s' : pst D) : Prop := {
  mv_trace : ptrace s' = ptrace s ++ l;
  mv_lib : lib_part s' = lib_part s;
  mv_class : p_class s' = p_class s;
  mv_xpdev : p_xpdev s' = x;
}.

Lemma moved_refl {D} (s : pst D) : moved s [] (p_xpdev s) s.
Proof. constructor; try done. by rewrite app_nil_r. Qed.
Lemma moved_trans {D} (s s1 s2 : pst D) l1 l2 x1 x2 : moved s l1 x1 s1 -> moved s1 l2 x2 s2 -> moved s (l1 ++ l2) x2 s2.
Proof. intros [] []. constructor; rewrite ?app_assoc; congruence. Qed.

Section Rules.
Context {D : Type} `{Env D}.
Implicit Types (s : pst D).

Lemma wp_p_call c (Q : Z -> pst D -> Prop) s :
  (forall v s', moved s [Ev_call c v] (p_xpdev s) s' -> (exists d, v = (env_call c d).1) -> Q v s') -> wp (call c) Q s.
Proof. intros HQ. apply wp_call. intros v d Hd. apply HQ; [done|]. by eexists. Qed.
Lemma wp_p_call_ c (Q : unit -> pst D -> Prop) s :
  (forall v s', moved s [Ev_call c v] (p_xpdev s) s' -> Q tt s') -> wp (call_ c) Q s.
Proof. intros HQ. apply wp_call_. intros v d _. by apply (HQ v). Qed.
Lemma wp_upd_xpdev f (Q : unit -> pst D -> Prop) s :
  (forall s', moved s [] (f (p_xpdev s)) s' -> Q tt s') -> wp (upd_xpdev f) Q s.
Proof. intros HQ. apply wp_modify, HQ. constructor; try done. by rewrite app_nil_r. Qed.
Lemma wp_on_lib {A} (m : M (wst D) A) (Q : A -> pst D -> Prop) s :
  wp m (fun a w => Q a (s <| p_wst := w |>)) (p_wst s) -> wp (on_lib m) Q s.
Proof. intros Hm%wp_run. apply wp_intro. unfold on_lib, zoom. cbn. by destruct (m _). Qed.
Lemma wp_lib_dev (Q : _ -> pst D -> Prop) s : Q (ds_dev (w_dst (p_wst s))) s -> wp lib_dev Q s.
Proof. destruct s as [[]]. intros HQ. by apply wp_intro. Qed.
Lemma wp_lib_eng h2c ch (Q : _ -> pst D -> Prop) s : Q (get_eng h2c ch (w_dst (p_wst s))) s -> wp (lib_eng h2c ch) Q s.
Proof. destruct s as [[]]. intros HQ. by apply wp_intro. Qed.
End Rules.

Ltac pv_step :=
  lazymatch goal with
  | |- wp lib_dev _ _ => apply wp_lib_dev
  | |- wp (lib_eng _ _) _ _ => apply wp_lib_eng
  | |- wp (call _) _ _ => apply wp_p_call; intros ? ? ? ?
  | |- wp (call_ _) _ _ => apply wp_p_call_; intros ? ? ?
  | |- wp (upd_xpdev _) _ _ => apply wp_upd_xpdev; intros ? ?
  | |- wp (upd_cdev _ _) _ _ => apply wp_upd_xpdev; intros ? ?
  | |- wp the_xpdev _ _ => apply wp_gets
  | |- wp (the_cdev _) _ _ => apply wp_gets
  | _ => wp_step
  end; cbv beta.

(** ** The devices created *)

(** The minor number of each device. *)
Definition minor_of (i : cdev_type * Z) : Z := (minor_init i.1 i.2 i.2).1.

(** A device that is set up, under its number. *)
Record live (M m : Z) (c : xdma_cdev) : Prop := {
  lv_magic : xc_magic c = MAGIC_CHAR;
  lv_xdev : xc_xdev c <> 0;
  lv_cdevno : xc_cdevno c = (M, m);
  lv_sys : xc_sys_device c <> 0;
}.

(** [s] is [s0] after the devices [L] have been created, with the events [l]. *)
Record made {D} (s0 : pst D) (L : list (cdev_type * Z)) (s : pst D) : Prop := {
  md_moved : exists l, moved s0 l (p_xpdev s) s
    /\ did l ((fun i => (xp_major (p_xpdev s), minor_of i)) <$> L) [] (match L with [] => 0 | _ => 1 end) [];
  md_fields : exists f c M, p_xpdev s = (p_xpdev s0) <| xp_flags := f |> <| xp_cdevs := c |> <| xp_major := M |>;
  md_major : (xp_major (p_xpdev s) = 0 <-> L = []);
  md_live : forall i, i ∈ L -> live (xp_major (p_xpdev s)) (minor_of i) (cdev_at (p_xpdev s) i);
  md_dead : forall i, i ∉ L -> xp_cdevs (p_xpdev s) !! i = None;
}.

Section Create.
Context {D : Type} `{Env D} (s0 : pst D).
Context (Hclass : p_class s0 <> 0) (Hxdev : xp_xdev (p_xpdev s0) <> 0).
Context (Hmajor : forall d : D, (env_call K_chrdev_major d).1 <> 0).
Context (Halloc : forall b c (d : D), (env_call (K_alloc_chrdev_region b c) d).1 <= 0).
Implicit Types (s : pst D) (i : cdev_type * Z).

(** The device of an engine's array is for the engine of the same index. *)
Definition eng_of (i : cdev_type * Z) : option (bool * Z) :=
  match i.1 with
  | CHAR_XDMA_H2C | CHAR_BYPASS_H2C => Some (true, i.2)
  | CHAR_XDMA_C2H | CHAR_BYPASS_C2H => Some (false, i.2)
  | _ => None
  end.
Definition channel_ok (i : cdev_type * Z) : Prop :=
  match eng_of i with Some (h2c, ch) => eng_channel (get_eng h2c ch (w_dst (p_wst s0))) = ch | None => True end.
Definition bar_ok (i : cdev_type * Z) (bar : Z) : Prop := match i.1 with CHAR_EVENTS => bar = i.2 | _ => True end.

Lemma lib_eng_eq s s' h2c ch : lib_part s' = lib_part s -> get_eng h2c ch (w_dst (p_wst s')) = get_eng h2c ch (w_dst (p_wst s)).
Proof. intros [= _ E1 E2]. unfold get_eng. destruct h2c; by rewrite ?E1, ?E2. Qed.

Lemma nz_neg rv : rv < 0 -> nz rv = true.
Proof. intros Hr. unfold nz. by destruct (Z.eqb_spec rv 0); [lia|]. Qed.

(** The region is allocated by the first device. *)
Lemma wp_get_major L s (Q : Z -> pst D -> Prop) :
  made s0 L s ->
  (forall rv s', rv < 0 -> Q rv s') ->
  (forall l M s', moved s l ((p_xpdev s) <| xp_major := M |>) s' -> M <> 0 -> (L <> [] -> M = xp_major (p_xpdev s)) ->
     did l [] [] (match L with [] => 1 | _ => 0 end) [] -> Q 0 s') ->
  wp get_major Q s.
Proof.
  intros [_ _ M _ _] HQ1 HQ2. unfold get_major. do 2 pv_step.
  destruct (Z.eqb_spec (xp_major (p_xpdev s)) 0) as [E|E].
  - assert (L = []) as -> by (by apply M). pv_step. pv_step. destruct (Z.eqb_spec v 0) as [->|Hv].
    + change (nz 0) with false. cbv iota. do 4 pv_step. pv_step.
      match goal with E : exists d, ?v = (env_call K_chrdev_major d).1 |- _ => rename v into M0; destruct E as [d0 Em] end.
      specialize (Hmajor d0). rewrite <- Em in Hmajor.
      match goal with A : moved s _ _ ?a, B : moved ?a _ _ ?b, C : moved ?b _ _ ?c |- _ =>
        pose proof (moved_trans _ _ _ _ _ _ _ A (moved_trans _ _ _ _ _ _ _ B C)) as Hm; rewrite (mv_xpdev _ _ _ _ B), (mv_xpdev _ _ _ _ A) in Hm end.
      eapply (HQ2 _ M0); [exact Hm|done|done|done].
    + replace (nz v) with true by (unfold nz; by destruct (Z.eqb_spec v 0)). pv_step. apply HQ1.
      match goal with E : exists d, v = _ |- _ => destruct E as [d0 Em]; specialize (Halloc XDMA_MINOR_BASE XDMA_MINOR_COUNT d0); rewrite <- Em in Halloc end. lia.
  - pv_step. apply (HQ2 [] (xp_major (p_xpdev s))); [|done|done|].
    + pose proof (moved_refl s) as R. by destruct s as [? []].
    + destruct L; [by destruct E; apply M|done].
Qed.

Lemma wp_config_kobject i (Q : Z -> pst D -> Prop) s :
  (forall rv s', rv < 0 -> Q rv s') ->
  (forall rv t a b s', 0 <= rv -> moved s [Ev_call (K_kobject_set_name t a b) rv] (p_xpdev s) s' -> Q rv s') ->
  wp (config_kobject i) Q s.
Proof.
  intros HQ1 HQ2. unfold config_kobject. do 4 pv_step.
  assert (forall t a b s1, s1 = s -> wp (call (K_kobject_set_name t a b)) Q s1) as Hcall.
  { intros t a b s1 ->. pv_step. destruct (Z.ltb_spec v 0); [by apply HQ1|by eapply HQ2]. }
  destruct i.1; try (by apply Hcall); (destruct (xc_engine _) as [[h2c ch]|]; [do 2 pv_step; by apply Hcall|pv_step; by apply HQ1]).
Qed.

Lemma wp_create_sys i (Q : Z -> pst D -> Prop) s :
  let c := cdev_at (p_xpdev s) i in
  (forall p t a b s', p = 0 \/ moved s [Ev_call (K_device_create (xc_cdevno c).1 (xc_cdevno c).2 t a b) p]
       ((p_xpdev s) <| xp_cdevs := <[i := c <| xc_sys_device := p |>]> (xp_cdevs (p_xpdev s)) |>) s' ->
     Q (if p =? 0 then -1 else 0) s') ->
  wp (create_sys_device i) Q s.
Proof.
  intros c HQ. unfold create_sys_device. do 5 pv_step.
  assert (forall b, wp (p ← call (K_device_create (xc_cdevno c).1 (xc_cdevno c).2 (type_num i.1) (xd_idx (ds_dev (w_dst (p_wst s)))) b);
    upd_cdev i (fun c => c <| xc_sys_device := p |>) ;; mret (if p =? 0 then -1 else 0)) Q s) as Hend.
  { intros b. do 4 pv_step. pv_step.
    match goal with A : moved s _ _ ?a, B : moved ?a _ _ ?b |- _ =>
      pose proof (moved_trans _ _ _ _ _ _ _ A B) as Hm; rewrite (mv_xpdev _ _ _ _ A) in Hm end.
    eapply HQ. right. exact Hm. }
  destruct i.1, (xc_engine (cdev_at (p_xpdev s) i)) as [[h2c ch]|]; repeat first [apply Hend|pv_step].
Qed.

Lemma minor_of_engine i bar : bar_ok i bar ->
  minor_of i = (minor_init i.1 bar (match eng_of i with Some (_, ch) => ch | None => 0 end)).1.
Proof. destruct i as [[] n]; cbn; intros Hb; try done. by rewrite Hb. Qed.

Lemma minor_init_keeps t bar ch c : let init := (minor_init t bar ch).2 in
  xc_magic (init c) = xc_magic c /\ xc_xdev (init c) = xc_xdev c /\ xc_cdevno (init c) = xc_cdevno c.
Proof. by destruct t. Qed.

Lemma cdev_at_insert x i c j f M :
  cdev_at (x <| xp_flags := f |> <| xp_major := M |> <| xp_cdevs := <[i := c]> (xp_cdevs x) |>) j = if decide (j = i) then c else cdev_at x j.
Proof.
  unfold cdev_at. fld. destruct (decide (j = i)) as [->|Hne]; [by rewrite lookup_insert_eq|by rewrite lookup_insert_ne].
Qed.

(** One more device. *)
Lemma made_step L s s' i l M c :
  made s0 L s -> i ∉ L ->
  moved s l ((p_xpdev s) <| xp_major := M |> <| xp_cdevs := <[i := c]> (xp_cdevs (p_xpdev s)) |>) s' ->
  M <> 0 -> (L <> [] -> M = xp_major (p_xpdev s)) ->
  did l [(M, minor_of i)] [] (match L with [] => 1 | _ => 0 end) [] -> live M (minor_of i) c -> made s0 (L ++ [i]) s'.
Proof.
  intros [(l0 & N & Dd) (f & c0 & M0 & Ex) HM Hl Hd] Hi Hm HM0 HMs D1 Hlive.
  pose proof (mv_xpdev _ _ _ _ Hm) as Ex'. assert (xp_major (p_xpdev s') = M) as EM by (by rewrite Ex').
  assert (forall j, cdev_at (p_xpdev s') j = if decide (j = i) then c else cdev_at (p_xpdev s) j) as Hat.
  { intros j. rewrite Ex'. apply (cdev_at_insert _ _ _ _ (xp_flags (p_xpdev s))). }
  constructor; rewrite ?EM.
  - exists (l0 ++ l). split; [rewrite Ex'; exact (moved_trans _ _ _ _ _ _ _ N Hm)|]. rewrite fmap_app.
    replace ((fun i => (M, minor_of i)) <$> L) with ((fun i => (xp_major (p_xpdev s), minor_of i)) <$> L).
    2:{ destruct L; [done|]. by rewrite HMs. }
    replace (match L ++ [i] with [] => 0 | _ => 1 end)%nat with ((match L with [] => 0 | _ => 1 end) + (match L with [] => 1 | _ => 0 end))%nat by (by destruct L).
    exact (did_app _ _ _ _ _ [] _ _ _ [] Dd D1).
  - rewrite Ex', Ex. fld. by eexists f, _, M.
  - split; [done|]. by destruct L.
  - intros j [Hj|Hj]%elem_of_app.
    + rewrite Hat. destruct (decide (j = i)) as [->|]; [done|]. rewrite HMs by (by intros ->; apply not_elem_of_nil in Hj). by apply Hl.
    + apply list_elem_of_singleton in Hj as ->. by rewrite Hat, decide_True.
  - intros j Hj. rewrite Ex'. fld. rewrite not_elem_of_app, list_elem_of_singleton in Hj. rewrite lookup_insert_ne by (intros ->; tauto).
    apply Hd. tauto.
Qed.

(** Filling in a device in two steps, after the region has been allocated. *)
Lemma cdev_moved s s1 s2 s3 s4 l l3 i M f g :
  let fill f (x : xdma_pci_dev) := x <| xp_cdevs := <[i := f (cdev_at x i)]> (xp_cdevs x) |> in
  moved s l ((p_xpdev s) <| xp_major := M |>) s1 -> moved s1 [] (fill f (p_xpdev s1)) s2 ->
  moved s2 l3 (p_xpdev s2) s3 -> moved s3 [] (fill g (p_xpdev s3)) s4 ->
  moved s (l ++ l3) ((p_xpdev s) <| xp_major := M |>
                       <| xp_cdevs := <[i := g (f (cdev_at (p_xpdev s) i))]> (xp_cdevs (p_xpdev s)) |>) s4.
Proof.
  intros fill M1 M2 M3 M4. pose proof (mv_xpdev _ _ _ _ M1) as X1. pose proof (mv_xpdev _ _ _ _ M2) as X2.
  pose proof (mv_xpdev _ _ _ _ M3) as X3. rewrite X1 in X2, M2. rewrite X2 in X3, M3. rewrite X3 in M4.
  pose proof (moved_trans _ _ _ _ _ _ _ M1 (moved_trans _ _ _ _ _ _ _ M2 (moved_trans _ _ _ _ _ _ _ M3 M4))) as Hm.
  cbn [app] in Hm. rewrite app_nil_r in Hm. revert Hm. subst fill. unfold cdev_at. fld. by rewrite lookup_insert_eq, insert_insert_eq.
Qed.

(** What [create_xcdev] does to the structure and to the trace. *)
Lemma wp_create i bar (Q : Z -> pst D -> Prop) L s :
  made s0 L s -> i ∉ L -> channel_ok i -> bar_ok i bar ->
  (forall rv s', rv < 0 -> Q rv s') ->
  (forall s', made s0 (L ++ [i]) s' -> xp_flags (p_xpdev s') = xp_flags (p_xpdev s) -> Q 0 s') ->
  wp (create_xcdev i bar (eng_of i)) Q s.
Proof.
  intros HM Hi Hch Hbar HQ1 HQ2. unfold create_xcdev. wp_step.
  apply (wp_get_major L s); [done|intros rv s' Hrv; rewrite (nz_neg _ Hrv); pv_step; by apply HQ1|].
  intros l M s1 M1 HM0 HMs D1. change (nz 0) with false. cbv iota. do 2 pv_step. rewrite (mv_xpdev _ _ _ _ M1).
  do 2 pv_step. match goal with A : moved s1 _ _ ?a |- _ => rename a into s2, A into M2 end.
  wp_step. apply wp_config_kobject; [intros rv s' Hrv; destruct (Z.ltb_spec rv 0); [pv_step; by apply HQ1|lia]|].
  intros rv t a b s3 Hrv M3. destruct (Z.ltb_spec rv 0); [lia|]. wp_step.
  assert (lib_part s3 = lib_part s0) as L3.
  { destruct HM as [(l0 & N & _) _ _ _ _]. rewrite (mv_lib _ _ _ _ M3), (mv_lib _ _ _ _ M2), (mv_lib _ _ _ _ M1). apply N. }
  set (ch := match eng_of i with Some (_, ch) => ch | None => 0 end).
  apply (wp_mono _ (fun c s' => c = ch /\ s' = s3)).
  { unfold channel_ok in Hch. subst ch. destruct (eng_of i) as [[h2c ch]|]; [|by pv_step].
    do 2 pv_step. rewrite (lib_eng_eq s0 s3 _ _ L3). by pv_step. }
  intros _ _ [-> ->]. pose proof (minor_of_engine i bar Hbar) as Em. fold ch in Em.
  pose proof (minor_init_keeps i.1 bar ch) as Hk. destruct (minor_init i.1 bar ch) as [minor init]. cbn [fst snd] in Em, Hk. subst minor.
  fld_in_goal. do 2 pv_step. match goal with A : moved s3 _ _ ?a |- _ => rename a into s4, A into M4 end.
  set (f := fun c => c <| xc_magic := MAGIC_CHAR |> <| xc_xdev := xp_xdev (p_xpdev s) |> <| xc_engine := eng_of i |> <| xc_bar := bar |>).
  set (g := fun c => init (c <| xc_cdevno := (M, minor_of i) |>)).
  pose proof (cdev_moved _ _ _ _ _ _ _ i M f g M1 M2 M3 M4) as Hm. set (c4 := g _) in Hm.
  assert (xc_magic c4 = MAGIC_CHAR /\ xc_xdev c4 <> 0 /\ xc_cdevno c4 = (M, minor_of i)) as (C1 & C2 & C3).
  { destruct (Hk (f (cdev_at (p_xpdev s) i) <| xc_cdevno := (M, minor_of i) |>)) as (K1 & K2 & K3).
    split_and!; [exact K1| |exact K3]. assert (xc_xdev c4 = xp_xdev (p_xpdev s)) as -> by exact K2.
    destruct HM as [_ (f0 & c0 & M0 & ->) _ _ _]. exact Hxdev. }
  clear M1 M2 M3 M4 L3. clearbody ch. do 2 pv_step. match goal with A : moved s4 _ _ ?a |- _ => rename a into s5, A into M5 end.
  destruct (Z.ltb_spec v 0); [do 3 pv_step; by apply HQ1|]. do 2 pv_step.
  assert (p_class s5 = p_class s0) as EC.
  { destruct HM as [(l0 & N & _) _ _ _ _]. rewrite (mv_class _ _ _ _ M5), (mv_class _ _ _ _ Hm). apply N. }
  rewrite EC. destruct (Z.eqb_spec (p_class s0) 0); [done|]. pv_step. apply wp_create_sys. intros p t' a' b' s6 Hp.
  destruct (Z.eqb_spec p 0) as [->|Hp0]; [change (-1 <? 0) with true; cbv iota; do 5 pv_step; by apply HQ1|].
  destruct Hp as [?|M6]; [done|]. change (0 <? 0) with false. cbv iota. pv_step.
  apply HQ2; [|]. 
  - pose proof (mv_xpdev _ _ _ _ Hm) as X4. pose proof (mv_xpdev _ _ _ _ M5) as X5. rewrite X4 in X5, M5.
    assert (cdev_at (p_xpdev s5) i = c4) as E4 by (unfold cdev_at; rewrite X5; fld; by rewrite lookup_insert_eq).
    rewrite E4, X5, C3 in M6. cbn [fst snd] in M6.
    pose proof (moved_trans _ _ _ _ _ _ _ Hm (moved_trans _ _ _ _ _ _ _ M5 M6)) as Hm6.
    revert Hm6. fld. rewrite insert_insert_eq. intros Hm6.
    refine (made_step _ _ _ _ _ _ _ HM Hi Hm6 HM0 HMs _ _).
    + rewrite <- !app_assoc. rewrite <- (Nat.add_0_r (match L with [] => 1 | _ => 0 end)). refine (did_app l _ [] [_] [] [] _ 0 [] [] D1 _). constructor; cbn; try done.
      * by destruct (Z.ltb_spec v 0); [lia|].
      * by destruct (Z.eqb_spec p 0).
    + constructor; by fld.
  - rewrite (mv_xpdev _ _ _ _ M6). fld. by rewrite (mv_xpdev _ _ _ _ M5), (mv_xpdev _ _ _ _ Hm).
Qed.

(** ** The groups *)

Lemma wp_and_then m1 m2 (Q : Z -> pst D -> Prop) s :
  wp m1 (fun rv s' => rv < 0 /\ Q rv s' \/ rv = 0 /\ wp m2 Q s') s -> wp (and_then m1 m2) Q s.
Proof.
  intros Hm. unfold and_then. wp_step. eapply wp_mono; [exact Hm|]. cbv beta. intros rv s' [[Hr HQ]|[-> HQ]]; [|exact HQ].
  destruct (Z.ltb_spec rv 0); [by pv_step|lia].
Qed.

Lemma made_flag L s s' f : made s0 L s -> moved s [] ((p_xpdev s) <| xp_flags := f |>) s' -> made s0 L s'.
Proof.
  intros [(l0 & N & Dd) (f0 & c0 & M0 & Ex) HM Hl Hd] Hm. pose proof (mv_xpdev _ _ _ _ Hm) as Ex'.
  constructor; rewrite ?Ex'; fld; try done.
  - exists l0. split; [|done]. rewrite <- (app_nil_r l0). exact (moved_trans _ _ _ _ _ _ _ N Hm).
  - rewrite Ex. by exists f, c0, M0.
Qed.

(** What creating the devices [l] after [L] has to establish. *)
Definition creates (m : M (pst D) Z) (l : list (cdev_type * Z)) (flags : Z -> Z) : Prop :=
  forall L (Q : Z -> pst D -> Prop) s, made s0 L s -> NoDup l -> (forall i, i ∈ l -> (i ∉ L) /\ channel_ok i) ->
    (forall rv s', rv < 0 -> Q rv s') ->
    (forall s', made s0 (L ++ l) s' -> xp_flags (p_xpdev s') = flags (xp_flags (p_xpdev s)) -> Q 0 s') -> wp m Q s.

Lemma creates_one i bar : bar_ok i bar -> creates (create_xcdev i bar (eng_of i)) [i] id.
Proof.
  intros Hb L Q s HM _ Hl HQ1 HQ2. destruct (Hl i) as [H1 H2]; [by apply list_elem_of_singleton|].
  by eapply wp_create.
Qed.

Lemma creates_then m1 m2 l1 l2 f1 f2 :
  creates m1 l1 f1 -> creates m2 l2 f2 -> creates (and_then m1 m2) (l1 ++ l2) (f2 ∘ f1).
Proof.
  intros C1 C2 L Q s HM (N1 & N12 & N2)%NoDup_app Hl HQ1 HQ2. apply wp_and_then. apply (C1 L); [done|done| | |].
  - intros i Hi. apply Hl, elem_of_app. by left.
  - intros rv s' Hr. left. split; [done|]. by apply HQ1.
  - intros s1 HM1 F1. right. split; [done|]. apply (C2 (L ++ l1)); [done|done| |done|].
    + intros i Hi. rewrite not_elem_of_app. destruct (Hl i) as [A B]; [apply elem_of_app; by right|].
      split; [|done]. split; [done|]. intros Hi'. by destruct (N12 i Hi').
    + intros s2 HM2 F2. apply HQ2; [by rewrite app_assoc|]. by rewrite F2, F1.
Qed.

Lemma creates_flag b : creates (set_flag b) [] (fun f => Z.lor f (Z.shiftl 1 b)).
Proof.
  intros L Q s HM _ _ _ HQ. unfold set_flag, xpdev_flag_set. do 3 pv_step. apply HQ; [|by rewrite (mv_xpdev _ _ _ _ H0)].
  rewrite app_nil_r. by apply (made_flag _ _ _ (Z.lor (xp_flags (p_xpdev s)) (Z.shiftl 1 b)) HM).
Qed.

Lemma creates_none : creates (mret 0) [] id.
Proof. intros L Q s HM _ _ _ HQ. pv_step. apply HQ; [by rewrite app_nil_r|done]. Qed.

(** A part of the library's state, read first. *)
Lemma creates_dev k l f : creates (k (ds_dev (w_dst (p_wst s0)))) l f -> creates (x ← lib_dev; k x) l f.
Proof.
  intros C L Q s HM. intros. do 2 pv_step. destruct (md_moved _ _ _ HM) as (l0 & N & _).
  pose proof (mv_lib _ _ _ _ N) as [= -> _ _]. by apply (C L).
Qed.
Lemma creates_limits k l f :
  (forall x, xp_user_max x = xp_user_max (p_xpdev s0) -> xp_h2c_channel_max x = xp_h2c_channel_max (p_xpdev s0) ->
     xp_c2h_channel_max x = xp_c2h_channel_max (p_xpdev s0) -> creates (k x) l f) ->
  creates (x ← the_xpdev; k x) l f.
Proof.
  intros C L Q s HM. intros. do 2 pv_step. destruct (md_fields _ _ _ HM) as (f0 & c0 & M0 & Ex).
  apply (C (p_xpdev s)) with (L := L); try done; by rewrite Ex.
Qed.

Lemma creates_events n (i : Z) : creates (create_events_loop n i) (pair CHAR_EVENTS <$> seqZ i (Z.of_nat n)) id.
Proof.
  revert i. induction n as [|n IH]; intros i; cbn [create_events_loop]; [exact creates_none|].
  rewrite seqZ_cons by lia. replace (Z.pred (Z.of_nat (S n))) with (Z.of_nat n) by lia.
  exact (creates_then _ _ [_] _ id id (creates_one (CHAR_EVENTS, i) i eq_refl) (IH (Z.succ i))).
Qed.

(** The channels of a direction that have an engine. *)
Definition set_up (h2c : bool) (ch : Z) : Prop := eng_magic (get_eng h2c ch (w_dst (p_wst s0))) = MAGIC_ENGINE.
#[global] Instance set_up_dec h2c ch : Decision (set_up h2c ch).
Proof. unfold set_up. apply _. Defined.

Lemma creates_engines t h2c n (i : Z) : (forall k, eng_of (t, k) = Some (h2c, k)) ->
  creates (create_engines_loop t h2c n i) (pair t <$> filter (set_up h2c) (seqZ i (Z.of_nat n))) id.
Proof.
  intros Ht. revert i. induction n as [|n IH]; intros i; cbn [create_engines_loop]; [exact creates_none|].
  rewrite seqZ_cons by lia. replace (Z.pred (Z.of_nat (S n))) with (Z.of_nat n) by lia.
  assert (forall l, creates (if negb (eng_magic (get_eng h2c i (w_dst (p_wst s0))) =? MAGIC_ENGINE) then create_engines_loop t h2c n (i + 1)
    else and_then (create_xcdev (t, i) i (Some (h2c, i))) (create_engines_loop t h2c n (i + 1))) l id ->
    creates (e ← lib_eng h2c i; if negb (eng_magic e =? MAGIC_ENGINE) then create_engines_loop t h2c n (i + 1)
    else and_then (create_xcdev (t, i) i (Some (h2c, i))) (create_engines_loop t h2c n (i + 1))) l id) as Heng.
  { intros l C L Q s HM. intros. do 2 pv_step. destruct (md_moved _ _ _ HM) as (l0 & N & _).
    rewrite (lib_eng_eq _ _ _ _ (mv_lib _ _ _ _ N)). by apply (C L). }
  apply Heng. rewrite filter_cons. unfold set_up at 1. destruct (Z.eqb_spec (eng_magic (get_eng h2c i (w_dst (p_wst s0)))) MAGIC_ENGINE) as [E|E]; cbn [negb].
  - rewrite decide_True by done. rewrite <- Ht.
    assert (bar_ok (t, i) i) as Hb by (unfold bar_ok; cbn; by destruct t).
    exact (creates_then _ _ [_] _ id id (creates_one (t, i) i Hb) (IH (Z.succ i))).
  - rewrite decide_False by done. apply IH.
Qed.

(** The devices of a card, in the order of their creation. *)
Definition up_list (t : cdev_type) (h2c : bool) : list (cdev_type * Z) :=
  let n := if h2c then xp_h2c_channel_max (p_xpdev s0) else xp_c2h_channel_max (p_xpdev s0) in
  pair t <$> filter (set_up h2c) (seqZ 0 (Z.of_nat (Z.to_nat n))).
Definition has_bypass : bool := 0 <? xd_bypass_bar_idx (ds_dev (w_dst (p_wst s0))).
Definition has_user : bool := 0 <=? xd_user_bar_idx (ds_dev (w_dst (p_wst s0))).
Definition created : list (cdev_type * Z) :=
  [(CHAR_CTRL, 0)] ++ (pair CHAR_EVENTS <$> seqZ 0 (Z.of_nat (Z.to_nat (xp_user_max (p_xpdev s0)))))
  ++ (up_list CHAR_XDMA_H2C true ++ up_list CHAR_XDMA_C2H false)
  ++ (if has_bypass then up_list CHAR_BYPASS_H2C true ++ up_list CHAR_BYPASS_C2H false ++ [(CHAR_BYPASS, 0)] else [])
  ++ (if has_user then [(CHAR_USER, 0); (CHAR_XVC, 0)] else []).
Definition flags_after (f : Z) : Z :=
  let f := Z.lor (Z.lor (Z.lor f (bit XDF_CDEV_CTRL)) (bit XDF_CDEV_EVENT)) (bit XDF_CDEV_SG) in
  let f := if has_bypass then Z.lor f (bit XDF_CDEV_BYPASS) else f in
  if has_user then Z.lor (Z.lor f (bit XDF_CDEV_USER)) (bit XDF_CDEV_XVC) else f.

Lemma creates_eq m l l' f f' : creates m l f -> l = l' -> (forall x, f x = f' x) -> creates m l' f'.
Proof. intros C <- Hf L Q s HM Hn Hl HQ1 HQ2. apply (C L); [done..|]. intros s' H1 H2. apply HQ2; [done|]. by rewrite <- Hf. Qed.

Lemma creates_all :
  creates (and_then create_ctrl (and_then create_events (and_then create_sg (and_then create_bypass create_user)))) created flags_after.
Proof.
  assert (creates create_ctrl [(CHAR_CTRL, 0)] (fun f => Z.lor f (bit XDF_CDEV_CTRL))) as C1.
  { apply creates_dev. exact (creates_then _ _ [_] [] id _ (creates_one (CHAR_CTRL, 0) _ I) (creates_flag _)). }
  assert (creates create_events (pair CHAR_EVENTS <$> seqZ 0 (Z.of_nat (Z.to_nat (xp_user_max (p_xpdev s0)))))
    (fun f => Z.lor f (bit XDF_CDEV_EVENT))) as C2.
  { apply creates_limits. intros x -> _ _. eapply creates_eq; [exact (creates_then _ _ _ [] id _ (creates_events _ 0) (creates_flag _))|by rewrite app_nil_r|done]. }
  assert (forall t (h2c : bool) (n : Z), n = (if h2c then xp_h2c_channel_max (p_xpdev s0) else xp_c2h_channel_max (p_xpdev s0)) ->
    (forall k, eng_of (t, k) = Some (h2c, k)) -> creates (create_engines_loop t h2c (Z.to_nat n) 0) (up_list t h2c) id) as Ce.
  { intros t h2c n -> Ht. by apply creates_engines. }
  assert (creates create_sg (up_list CHAR_XDMA_H2C true ++ up_list CHAR_XDMA_C2H false) (fun f => Z.lor f (bit XDF_CDEV_SG))) as C3.
  { apply creates_limits. intros x _ E1 E2.
    eapply creates_eq; [refine (creates_then _ _ (up_list CHAR_XDMA_H2C true) _ id _ (Ce _ _ _ _ _) (creates_then _ _ _ [] id _ (Ce CHAR_XDMA_C2H false _ _ _) (creates_flag _))); done|by rewrite app_nil_r|done]. }
  assert (creates create_bypass (if has_bypass then up_list CHAR_BYPASS_H2C true ++ up_list CHAR_BYPASS_C2H false ++ [(CHAR_BYPASS, 0)] else [])
    (fun f => if has_bypass then Z.lor f (bit XDF_CDEV_BYPASS) else f)) as C4.
  { apply creates_dev, creates_limits. intros x _ E1 E2. unfold has_bypass.
    destruct (0 <? xd_bypass_bar_idx _); [|exact creates_none].
    eapply creates_eq; [refine (creates_then _ _ (up_list CHAR_BYPASS_H2C true) _ id _ (Ce _ _ _ _ _) (creates_then _ _ _ _ id _ (Ce CHAR_BYPASS_C2H false _ _ _)
      (creates_then _ _ [_] [] id _ (creates_one (CHAR_BYPASS, 0) _ I) (creates_flag _)))); done|done|done]. }
  assert (creates create_user (if has_user then [(CHAR_USER, 0); (CHAR_XVC, 0)] else [])
    (fun f => if has_user then Z.lor (Z.lor f (bit XDF_CDEV_USER)) (bit XDF_CDEV_XVC) else f)) as C5.
  { apply creates_dev. unfold has_user. destruct (0 <=? xd_user_bar_idx _); [|exact creates_none].
    exact (creates_then _ _ [_] [_] id _ (creates_one (CHAR_USER, 0) _ I) (creates_then _ _ [] [_] _ _ (creates_flag _)
      (creates_then _ _ [_] [] id _ (creates_one (CHAR_XVC, 0) _ I) (creates_flag _)))). }
  exact (creates_then _ _ _ _ _ _ C1 (creates_then _ _ _ _ _ _ C2 (creates_then _ _ _ _ _ _ C3 (creates_then _ _ _ _ _ _ C4 C5)))).
Qed.
End Create.

(** ** Removal *)
Section Destroy.
Context {D : Type} `{Env D} (x : xdma_pci_dev) (maj : Z) (L : list (cdev_type * Z)).
Context (Hlive : forall i, i ∈ L -> live maj (minor_of i) (cdev_at x i)) (Hdead : forall i, i ∉ L -> xp_cdevs x !! i = None).
Implicit Types (s : pst D) (i : cdev_type * Z).

(** [m] removes the devices [l] and changes nothing else. *)
Definition destroys {A} (m : M (pst D) A) (l : list (cdev_type * Z)) (rr : list (Z * Z * Z)) : Prop :=
  forall s, p_xpdev s = x -> p_class s <> 0 ->
    wp m (fun _ s' => exists ev, moved s ev x s' /\ did ev [] ((fun i => (maj, minor_of i)) <$> l) 0 rr) s.

Lemma destroys_ret {A} (a : A) : destroys (mret a) [] [].
Proof. intros s <- _. pv_step. exists []. split; [apply moved_refl|done]. Qed.
Lemma destroys_bind {A B} (m : M (pst D) A) (k : A -> M (pst D) B) l1 l2 rr1 rr2 :
  destroys m l1 rr1 -> (forall a, destroys (k a) l2 rr2) -> destroys (m ≫= k) (l1 ++ l2) (rr1 ++ rr2).
Proof.
  intros H1 H2 s E C. wp_step. eapply wp_mono; [by apply H1|]. cbv beta. intros a s1 (ev1 & M1 & D1).
  eapply wp_mono; [apply H2; [exact (mv_xpdev _ _ _ _ M1)|by rewrite (mv_class _ _ _ _ M1)]|].
  cbv beta. intros b s2 (ev2 & M2 & D2). exists (ev1 ++ ev2). split; [exact (moved_trans _ _ _ _ _ _ _ M1 M2)|].
  rewrite fmap_app. exact (did_app _ _ [] [] _ _ _ _ _ _ D1 D2).
Qed.
Lemma destroys_when (c : bool) (m : M (pst D) unit) l : destroys m l [] -> destroys (when c m) (if c then l else []) [].
Proof. intros Hm. destruct c; [exact Hm|apply destroys_ret]. Qed.

Lemma destroys_one i : destroys (destroy_xcdev i) (if decide (i ∈ L) then [i] else []) [].
Proof.
  intros s <- C. unfold destroy_xcdev. do 4 pv_step. destruct (decide (i ∈ L)) as [Hi|Hi].
  - destruct (Hlive i Hi) as [E1 E2 E3 E4]. rewrite E1, E3. cbn [fst snd].
    destruct (Z.eqb_spec (xc_xdev (cdev_at (p_xpdev s) i)) 0), (Z.eqb_spec (p_class s) 0), (Z.eqb_spec (xc_sys_device (cdev_at (p_xpdev s) i)) 0); try done.
    change (negb (MAGIC_CHAR =? MAGIC_CHAR)) with false. cbv iota. do 4 pv_step. pv_step.
    match goal with A : moved s _ _ ?a, B : moved ?a _ _ ?b |- _ =>
      pose proof (moved_trans _ _ _ _ _ _ _ A B) as Hm; rewrite (mv_xpdev _ _ _ _ A) in Hm end.
    eexists. split; [exact Hm|done].
  - unfold cdev_at. rewrite (Hdead i Hi). cbn. pv_step. exists []. split; [apply moved_refl|done].
Qed.

Lemma destroys_loop t n (j : Z) :
  destroys (destroy_loop t n j) (pair t <$> filter (fun k => (t, k) ∈ L) (seqZ j (Z.of_nat n))) [].
Proof.
  revert j. induction n as [|n IH]; intros j; cbn [destroy_loop]; [apply destroys_ret|].
  rewrite seqZ_cons by lia. replace (Z.pred (Z.of_nat (S n))) with (Z.of_nat n) by lia.
  rewrite filter_cons. pose proof (destroys_bind _ (fun _ => destroy_loop t n (j + 1)) _ _ [] [] (destroys_one (t, j)) (fun _ => IH (j + 1))) as Hd.
  by destruct (decide ((t, j) ∈ L)).
Qed.

(** The devices of a card, in the order of their removal. *)
Definition range_of (t : cdev_type) (n : Z) : list (cdev_type * Z) :=
  pair t <$> filter (fun k => (t, k) ∈ L) (seqZ 0 (Z.of_nat (Z.to_nat n))).
Definition single (t : cdev_type) : list (cdev_type * Z) := if decide ((t, 0) ∈ L) then [(t, 0)] else [].
Definition removal : list (cdev_type * Z) :=
  let on b l := if xpdev_flag_test b x then l else [] : list (cdev_type * Z) in
  on XDF_CDEV_SG (range_of CHAR_XDMA_H2C (xp_h2c_channel_max x) ++ range_of CHAR_XDMA_C2H (xp_c2h_channel_max x))
  ++ on XDF_CDEV_EVENT (range_of CHAR_EVENTS (xp_user_max x))
  ++ on XDF_CDEV_CTRL (single CHAR_CTRL) ++ on XDF_CDEV_USER (single CHAR_USER) ++ on XDF_CDEV_XVC (single CHAR_XVC)
  ++ on XDF_CDEV_BYPASS (range_of CHAR_BYPASS_H2C (xp_h2c_channel_max x) ++ range_of CHAR_BYPASS_C2H (xp_c2h_channel_max x)
                          ++ single CHAR_BYPASS).

Lemma destroys_single t : destroys (destroy_xcdev (t, 0) ;; mret tt) (single t) [].
Proof. rewrite <- (app_nil_r (single t)). apply (destroys_bind _ _ _ [] [] []); [apply destroys_one|intros; apply destroys_ret]. Qed.

Lemma destroys_all : xp_major x = maj -> maj <> 0 ->
  destroys xpdev_destroy_interfaces removal [(maj, XDMA_MINOR_BASE, XDMA_MINOR_COUNT)].
Proof.
  intros EM HM s E C. unfold xpdev_destroy_interfaces. do 2 pv_step. rewrite E. revert s E C.
  assert (forall (m : M (pst D) unit) l, destroys m l [] -> forall (k : M (pst D) unit) l2 rr, destroys k l2 rr -> destroys (m ;; k) (l ++ l2) rr) as Hseq.
  { intros m l Hm k l2 rr Hk. exact (destroys_bind m (fun _ => k) l l2 [] rr Hm (fun _ => Hk)). }
  repeat (refine (Hseq _ _ _ _ _ _ _); [apply destroys_when|]).
  - refine (Hseq _ _ _ _ _ _ _); apply destroys_loop.
  - apply destroys_loop.
  - apply destroys_single.
  - apply destroys_single.
  - apply destroys_single.
  - match goal with |- destroys _ ?l _ => rewrite <- (app_nil_r l) end. refine (Hseq _ _ _ _ _ _ _).
    + apply destroys_when. refine (Hseq _ _ (destroys_loop _ _ _) _ _ _ _). exact (Hseq _ _ (destroys_loop _ _ _) _ _ _ (destroys_single _)).
    + rewrite EM. replace (nz maj) with true by (unfold nz; by destruct (Z.eqb_spec maj 0)). cbn [when].
      intros s <- C. pv_step. eexists. split; [eassumption|done].
Qed.
End Destroy.

(** ** Creation and removal *)
Section Interfaces.
Context {D : Type} `{Env D}.

(** A card about to be given its devices: nothing is created, its limits are in
    the driver's range, and its engines know their channels. *)
Record blank (s : pst D) : Prop := {
  bl_class : p_class s <> 0;
  bl_xdev : xp_xdev (p_xpdev s) <> 0;
  bl_major : xp_major (p_xpdev s) = 0;
  bl_flags : xp_flags (p_xpdev s) = 0;
  bl_cdevs : xp_cdevs (p_xpdev s) = ∅;
  bl_user : 0 <= xp_user_max (p_xpdev s) <= 16;
  bl_h2c : 0 <= xp_h2c_channel_max (p_xpdev s) <= 4;
  bl_c2h : 0 <= xp_c2h_channel_max (p_xpdev s) <= 4;
  bl_channel : forall h2c ch, 0 <= ch -> set_up s h2c ch -> eng_channel (get_eng h2c ch (w_dst (p_wst s))) = ch;
}.

Lemma elem_pair (t t' : cdev_type) k (l : list Z) : (t, k) ∈ pair t' <$> l <-> t = t' /\ k ∈ l.
Proof. rewrite list_elem_of_fmap. split; [intros (y & [= -> ->] & Hy); done|intros [-> Hk]; by exists k]. Qed.

Lemma in_up (s : pst D) t t' k h2c : (t, k) ∈ up_list s t' h2c <->
  t = t' /\ set_up s h2c k /\ 0 <= k < (if h2c then xp_h2c_channel_max (p_xpdev s) else xp_c2h_channel_max (p_xpdev s)).
Proof. unfold up_list. rewrite elem_pair, list_elem_of_filter, elem_of_seqZ. split; intros (? & ? & ?); split_and!; (done || lia). Qed.

Lemma in_created (s : pst D) t k : (t, k) ∈ created s <->
  match t with
  | CHAR_CTRL => k = 0
  | CHAR_EVENTS => 0 <= k < xp_user_max (p_xpdev s)
  | CHAR_XDMA_H2C => set_up s true k /\ 0 <= k < xp_h2c_channel_max (p_xpdev s)
  | CHAR_XDMA_C2H => set_up s false k /\ 0 <= k < xp_c2h_channel_max (p_xpdev s)
  | CHAR_BYPASS_H2C => has_bypass s = true /\ set_up s true k /\ 0 <= k < xp_h2c_channel_max (p_xpdev s)
  | CHAR_BYPASS_C2H => has_bypass s = true /\ set_up s false k /\ 0 <= k < xp_c2h_channel_max (p_xpdev s)
  | CHAR_BYPASS => has_bypass s = true /\ k = 0
  | CHAR_USER | CHAR_XVC => has_user s = true /\ k = 0
  end.
Proof.
  unfold created. rewrite !elem_of_app, !in_up, elem_pair, elem_of_seqZ, list_elem_of_singleton.
  destruct (has_bypass s), (has_user s); rewrite ?elem_of_app, ?in_up, ?elem_of_cons, ?list_elem_of_singleton, ?elem_of_nil.
  all: destruct t; split; intros Hx; intuition (congruence || lia).
Qed.

Lemma nodup_pair (t : cdev_type) (l : list Z) : NoDup l -> NoDup (pair t <$> l).
Proof. apply NoDup_fmap_2. by intros ?? [=]. Qed.
Lemma nodup_up (s : pst D) t h2c : NoDup (up_list s t h2c).
Proof. apply nodup_pair, NoDup_filter, NoDup_seqZ. Qed.

Lemma created_nodup (s : pst D) : NoDup (created s).
Proof.
  assert (forall l1 l2 : list (cdev_type * Z), NoDup l1 -> NoDup l2 -> (forall t k, (t, k) ∈ l1 -> (t, k) ∈ l2 -> False) -> NoDup (l1 ++ l2)) as Happ.
  { intros l1 l2 H1 H2 Hd. apply NoDup_app. split_and!; [done| |done]. intros [t k] ??. by eapply Hd. }
  unfold created. repeat first [apply Happ|apply NoDup_singleton|apply nodup_up|apply nodup_pair, NoDup_seqZ].
  all: try (destruct (has_bypass s); repeat first [apply Happ|apply NoDup_singleton|apply nodup_up|apply NoDup_nil_2]).
  all: try (destruct (has_user s); [decide_now|apply NoDup_nil_2]).
  all: intros t k; destruct (has_bypass s), (has_user s); rewrite ?elem_of_app, ?in_up, ?elem_of_cons, ?elem_pair, ?elem_of_nil; intuition congruence.
Qed.

(** No two of the devices share a number. *)
Lemma created_minors (s : pst D) i j : blank s -> i ∈ created s -> j ∈ created s -> 
  0 <= minor_of i < XDMA_MINOR_COUNT /\ (minor_of i = minor_of j -> i = j).
Proof.
  intros Hb. pose proof (bl_user _ Hb). pose proof (bl_h2c _ Hb). pose proof (bl_c2h _ Hb).
  destruct i as [t k], j as [t' k']. rewrite !in_created. unfold minor_of, XDMA_MINOR_COUNT.
  destruct t, t'; cbn [minor_init fst snd type_num]; intros Hi Hj; (split; [lia|]); intros E; first [f_equal; lia|exfalso; lia].
Qed.

Lemma filter_iff_in {A} (P Q : A -> Prop) `{!forall x, Decision (P x), !forall x, Decision (Q x)} (l : list A) :
  (forall x, x ∈ l -> (P x <-> Q x)) -> filter P l = filter Q l.
Proof.
  induction l as [|x l IH]; intros Hl; [done|]. rewrite !filter_cons, IH by (intros; apply Hl; by right).
  destruct (Hl x) as [PQ QP]; [by left|]. destruct (decide (P x)), (decide (Q x)); tauto || done.
Qed.

(** The range of an array that is removed is what was created in it. *)
Lemma range_created (s : pst D) t n (f : Z -> Prop) `{!forall k, Decision (f k)} :
  (forall k, 0 <= k < n -> ((t, k) ∈ created s <-> f k)) ->
  range_of (created s) t n = pair t <$> filter f (seqZ 0 (Z.of_nat (Z.to_nat n))).
Proof. intros Hf. unfold range_of. f_equal. apply filter_iff_in. intros k Hk%elem_of_seqZ. apply Hf. lia. Qed.

Lemma perm_groups {A} (g e c u x b : list A) : g ++ e ++ c ++ u ++ x ++ b ≡ₚ c ++ e ++ g ++ b ++ u ++ x.
Proof.
  transitivity ((g ++ e ++ c) ++ (u ++ x) ++ b); [by rewrite <- !app_assoc|].
  transitivity ((c ++ e ++ g) ++ b ++ u ++ x); [|by rewrite <- !app_assoc].
  apply Permutation_app; [|apply Permutation_app_comm].
  rewrite (Permutation_app_comm e c), app_assoc, (Permutation_app_comm g c), <- app_assoc. apply Permutation_app_head, Permutation_app_comm.
Qed.

Lemma removal_created (s : pst D) x :
  blank s -> xp_user_max x = xp_user_max (p_xpdev s) -> xp_h2c_channel_max x = xp_h2c_channel_max (p_xpdev s) ->
  xp_c2h_channel_max x = xp_c2h_channel_max (p_xpdev s) -> xp_flags x = flags_after s 0 ->
  removal x (created s) ≡ₚ created s.
Proof.
  intros Hb E1 E2 E3 E4. unfold removal. rewrite E1, E2, E3.
  rewrite (range_created s CHAR_XDMA_H2C _ (set_up s true)) by (intros; rewrite in_created; tauto).
  rewrite (range_created s CHAR_XDMA_C2H _ (set_up s false)) by (intros; rewrite in_created; tauto).
  rewrite (range_created s CHAR_EVENTS _ (fun _ => True)) by (intros; rewrite in_created; tauto).
  assert (forall fl, xpdev_flag_test fl x = tst (flags_after s 0) (Z.shiftl 1 fl)) as Hfl by (intros; unfold xpdev_flag_test; by rewrite E4).
  rewrite !Hfl. unfold flags_after.
  assert (filter (fun _ : Z => True) (seqZ 0 (Z.of_nat (Z.to_nat (xp_user_max (p_xpdev s))))) = seqZ 0 (Z.of_nat (Z.to_nat (xp_user_max (p_xpdev s))))) as ->.
  { generalize (seqZ 0 (Z.of_nat (Z.to_nat (xp_user_max (p_xpdev s))))) as l. induction l as [|k l IH]; [done|]. by rewrite filter_cons_True, IH. }
  assert (forall t, ((t, 0) ∈ created s) -> single (created s) t = [(t, 0)]) as Hs by (intros t Ht; unfold single; by rewrite decide_True).
  pose proof (fun t => in_created s t 0) as Hc.
  rewrite (Hs CHAR_CTRL) by (by apply Hc).
  destruct (has_bypass s) eqn:EB, (has_user s) eqn:EU; cbv zeta iota;
    rewrite ?(Hs CHAR_BYPASS), ?(Hs CHAR_USER), ?(Hs CHAR_XVC) by (by apply Hc);
    repeat match goal with |- context [tst ?a ?b] => let v := eval vm_compute in (tst a b) in change (tst a b) with v end; cbv iota.
  1,2: rewrite (range_created s CHAR_BYPASS_H2C _ (set_up s true)), (range_created s CHAR_BYPASS_C2H _ (set_up s false))
    by (intros; rewrite in_created, EB; tauto).
  all: unfold created; rewrite EB, EU; unfold up_list.
  - exact (perm_groups _ _ _ _ [_] _).
  - exact (perm_groups _ _ _ [] [] _).
  - refine (perm_groups _ _ _ [_] [_] []).
  - exact (perm_groups _ _ _ [] [] []).
Qed.

(** C36 A card's character devices have numbers of their own, and those created are removed
    again.  Take a card whose devices have not been created yet, with the class there, at
    most 16 user interrupts and 4 channels per direction and the engines numbered as they
    are stored, and a kernel that gives a region of numbers or a negative error and whose
    major numbers are not 0.  [xpdev_create_interfaces] returns 0 or -1; when it returns 0
    it has registered exactly the devices listed in [created] (the control device, one per
    user interrupt, one per engine and direction, and with the BARs for them the bypass,
    user and XVC devices), each under a minor number of its own below 255, from one region
    of numbers, and has asked for a node for each of them, in the same order.  Each of these
    nodes is there or its [device_create] answered with an error pointer, which goes
    unnoticed; without such an answer all are there.  [xpdev_destroy_interfaces] then
    unregisters exactly these devices and the region, and destroys their nodes. *)
Theorem interfaces_roundtrip (s : pst D) :
  blank s -> (forall d : D, (env_call K_chrdev_major d).1 <> 0) ->
  (forall b c (d : D), (env_call (K_alloc_chrdev_region b c) d).1 <= 0) ->
  let '(rv, s1) := xpdev_create_interfaces s in
  rv = -1 \/ rv = 0 /\ exists ev1 maj,
    let nums := (fun i => (maj, minor_of i)) <$> created s in
    ptrace s1 = ptrace s ++ ev1 /\ did ev1 nums [] 1 []
    /\ omap sys_added ev1 ++ omap sys_missed ev1 ≡ₚ nums
    /\ (omap sys_missed ev1 = [] -> omap sys_added ev1 = nums)
    /\ NoDup nums /\ Forall (fun n => 0 <= n.2 < XDMA_MINOR_COUNT) nums
    /\ let '(_, s2) := xpdev_destroy_interfaces s1 in
       exists ev2 nums', ptrace s2 = ptrace s1 ++ ev2
         /\ did ev2 [] nums' 0 [(maj, XDMA_MINOR_BASE, XDMA_MINOR_COUNT)] /\ nums' ≡ₚ nums.
Proof.
  intros Hb Hmaj Halloc. apply wp_elim. unfold xpdev_create_interfaces. wp_step.
  assert (made s [] s) as M0.
  { pose proof (bl_major _ Hb) as E1. pose proof (bl_cdevs _ Hb) as E2. constructor.
    - exists []. split; [apply moved_refl|done].
    - exists (xp_flags (p_xpdev s)), (xp_cdevs (p_xpdev s)), (xp_major (p_xpdev s)). by destruct (p_xpdev s).
    - done.
    - intros i Hi. by apply not_elem_of_nil in Hi.
    - intros i _. by rewrite E2, lookup_empty. }
  apply (creates_all s (bl_class _ Hb) (bl_xdev _ Hb) Hmaj Halloc [] _ _ M0 (created_nodup s)).
  { intros [t k] Hi. split; [apply not_elem_of_nil|]. pose proof (bl_channel _ Hb) as Hc. apply in_created in Hi.
    unfold channel_ok. destruct t; cbn; try done; apply Hc; (lia || tauto). }
  { intros rv s' Hrv. destruct (Z.ltb_spec rv 0); [|lia]. wp_step. apply wp_intro. wp_step. by left. }
  cbn [app]. intros s1 M1 F1. change (0 <? 0) with false. cbv iota. pv_step. right. split; [done|].
  destruct (md_moved _ _ _ M1) as (ev1 & N1 & D1). set (maj := xp_major (p_xpdev s1)) in *. exists ev1, maj. cbv zeta.
  assert (created s <> []) as Hne by done.
  assert (did ev1 ((fun i => (maj, minor_of i)) <$> created s) [] 1 []) as Dn by (by destruct (created s)).
  split_and!; [exact (mv_trace _ _ _ _ N1)|exact Dn| | | | |].
  - rewrite sys_split. by rewrite (did_sys_asked _ _ _ _ _ Dn).
  - intros Hnone. rewrite sys_none_missed by done. exact (did_sys_asked _ _ _ _ _ Dn).
  - apply NoDup_fmap_2_strong; [|apply created_nodup]. intros i j Hi Hj [= E]. by apply (created_minors s i j).
  - apply Forall_fmap, Forall_forall. intros i Hi. by apply (created_minors s i i).
  - destruct (md_fields _ _ _ M1) as (f & c & M' & Ex).
    assert (maj <> 0) as Hm0 by (intros E; by apply Hne, (md_major _ _ _ M1)).
    pose proof (destroys_all (p_xpdev s1) maj (created s) (md_live _ _ _ M1) (md_dead _ _ _ M1) eq_refl Hm0 s1 eq_refl) as Hd.
    apply wp_elim. eapply wp_mono; [apply Hd; rewrite (mv_class _ _ _ _ N1); exact (bl_class _ Hb)|].
    cbv beta. intros _ s2 (ev2 & N2 & D2). eexists ev2, _. split_and!; [exact (mv_trace _ _ _ _ N2)|exact D2|].
    apply fmap_Permutation, (removal_created s (p_xpdev s1) Hb); [by rewrite Ex..|]. rewrite F1. by rewrite (bl_flags _ Hb).
Qed.
End Interfaces.

(** *** Witness: the probed card with a bypass BAR and a user BAR *)
Definition ex_card_ret (c : kcall) : Z :=
  match c with K_chrdev_major => 240 | K_device_create _ _ _ _ _ => 0x9000 | K_alloc_chrdev_region _ _ => 0 | _ => 0 end.
(** A world that answers so whatever its state, and whose registers read 0. *)
Inductive ex_world := ex_still.
#[local] Instance ex_world_env : Env ex_world := {
  env_read _ d := (0, d); env_write _ _ d := d; env_call c d := (ex_card_ret c, d)
}.
Definition ex_up_engine (ch : Z) : xdma_engine := engine_zero <| eng_magic := MAGIC_ENGINE |> <| eng_channel := ch |>.
Definition ex_blank : pst ex_world :=
  {| p_wst := {| w_dst := {| ds_k := mkK ex_still []; ds_heap := ∅; ds_sgts := ∅;
                   ds_dev := xdev_zero <| xd_bypass_bar_idx := 2 |> <| xd_user_bar_idx := 0 |> <| xd_config_bar_idx := 1 |>;
                   ds_h2c := [ex_up_engine 0; ex_up_engine 1; engine_zero; engine_zero];
                   ds_c2h := [ex_up_engine 0; engine_zero; engine_zero; engine_zero] |};
                 w_self := 0x100; w_cs_threads := 0; w_threads := []; w_xdev_list := []; w_oops := false |};
     p_xpdev := xpdev_zero <| xp_xdev := 0x100 |> <| xp_user_max := 16 |> <| xp_h2c_channel_max := 2 |> <| xp_c2h_channel_max := 1 |>;
     p_class := 0x200; p_cache := 0x300; p_cnt := 1; p_drvdata := 0 |}.

Lemma ex_blank_engine (h2c : bool) n :
  let e := default engine_zero ((if h2c then ds_h2c (w_dst (p_wst ex_blank)) else ds_c2h (w_dst (p_wst ex_blank))) !! n) in
  eng_magic e = MAGIC_ENGINE -> eng_channel e = Z.of_nat n.
Proof. destruct h2c; do 5 (destruct n as [|n]; [done|]); done. Qed.

Lemma ex_blank_ok : blank ex_blank.
Proof.
  constructor; try done. intros h2c ch Hch Hup. unfold set_up, get_eng, engine_in in *.
  pose proof (ex_blank_engine h2c (Z.to_nat ch)) as He. rewrite Z2Nat.id in He by done. destruct h2c; by apply He.
Qed.

Lemma ex_major (d : ex_world) : (env_call K_chrdev_major d).1 <> 0.
Proof. done. Qed.
Lemma ex_alloc b c (d : ex_world) : (env_call (K_alloc_chrdev_region b c) d).1 <= 0.
Proof. done. Qed.

Lemma interfaces_roundtrip_witness :
  ltac:(statement_of (interfaces_roundtrip ex_blank ex_blank_ok ex_major ex_alloc)).
Proof. instance_of (interfaces_roundtrip ex_blank ex_blank_ok ex_major ex_alloc). Defined.

Example ex_interfaces_run :
  let '(rv, s1) := xpdev_create_interfaces ex_blank in
  (rv, omap chr_added (ptrace s1)) = (0, (fun m => (240, m)) <$> [1; 10; 11; 12; 13; 14; 15; 16; 17; 18; 19; 20; 21; 22; 23; 24; 25;
     32; 33; 36; 64; 65; 68; 100; 0; 2]).
Proof. by vm_compute. Qed.
