(* ===== verification/Mod.v ===== *)
(** The driver module ([xdma_mod.c]): probing and removing a card, recovery from
    PCI errors, and loading and unloading the module. *)
From S2P Require Import Prelude Kernel Types Device IrqSetup Threads Probe Open Cdev.
Local Open Scope Z_scope.

(** The vendors and devices the driver is for. *)
(* @src xdma/xdma_mod.c:47-116 pci_ids *)
Definition pci_ids : list (Z * Z) :=
  (pair 0x10ee <$>
    [0x9048; 0x9044; 0x9042; 0x9041; 0x903f; 0x9038; 0x9028; 0x9018; 0x9034; 0x9024; 0x9014; 0x9032; 0x9022; 0x9012;
     0x9031; 0x9021; 0x9011; 0x8011; 0x8012; 0x8014; 0x8018; 0x8021; 0x8022; 0x8024; 0x8028; 0x8031; 0x8032; 0x8034;
     0x8038; 0x7011; 0x7012; 0x7014; 0x7018; 0x7021; 0x7022; 0x7024; 0x7028; 0x7031; 0x7032; 0x7034; 0x7038;
     0x6828; 0x6830; 0x6928; 0x6930; 0x6A28; 0x6A30; 0x6D30; 0x4808; 0x4828; 0x4908; 0x4A28; 0x4B28; 0x2808])
  ++ (pair 0x1d0f <$> [0xf000; 0xf001]).

(** The answers of the error handlers, and the states they are given. *)
Inductive pci_ers_result := CAN_RECOVER | NEED_RESET | DISCONNECT | RECOVERED.
Inductive pci_channel_state := io_normal | io_frozen | io_perm_failure.

Section Code.
Context {D : Type} `{Env D} (pm : params) (pci : pci_info) (dma_bus bar_len : Z -> Z).
Variable online_cpus : list Z.
Variable sizeof_kthread sizeof_xdma_dev sizeof_xdma_pci_dev : Z.

Definition upd_cnt (f : Z -> Z) : M (pst D) unit := modify (fun s => s <| p_cnt ::= f |>).

(* @src xdma/xdma_mod.c:119-131 xpdev_free *)
Definition xpdev_free (xpdev : Z) : M (pst D) unit :=
  x ← the_xpdev;
  let xdev := xp_xdev x in
  xpdev_destroy_interfaces ;;
  upd_xpdev (fun x => x <| xp_xdev := 0 |>) ;;
  on_lib (xdma_device_close pm (xp_pdev x) xdev) ;;
  upd_cnt (fun n => s32 (n - 1)) ;;
  call_ (K_kfree xpdev).

(* @src xdma/xdma_mod.c:133-149 xpdev_alloc *)
Definition xpdev_alloc (pdev : Z) : M (pst D) Z :=
  p ← call (K_kmalloc sizeof_xdma_pci_dev);
  if p =? 0 then mret 0
  else
    upd_xpdev (fun _ => xpdev_zero <| xp_magic := MAGIC_DEVICE |> <| xp_pdev := pdev |> <| xp_user_max := MAX_USER_IRQ |>
      <| xp_h2c_channel_max := XDMA_CHANNEL_NUM_MAX |> <| xp_c2h_channel_max := XDMA_CHANNEL_NUM_MAX |>) ;;
    upd_cnt (fun n => s32 (n + 1)) ;;
    mret p.

(** [xdma_device_open] stores the limits it found through the pointers. *)
(* @src xdma/xdma_mod.c:162-167 probe_one *)
Definition probe_open (pdev : Z) : M (pst D) Z :=
  x ← the_xpdev;
  hndl ← on_lib (xdma_device_open pm pci dma_bus bar_len online_cpus sizeof_kthread sizeof_xdma_dev pdev
                   (xp_user_max x) (xp_h2c_channel_max x) (xp_c2h_channel_max x));
  when (nz hndl)
    (d ← lib_dev;
     upd_xpdev (fun x => x <| xp_user_max := xd_user_max d |> <| xp_h2c_channel_max := xd_h2c_channel_max d |>
       <| xp_c2h_channel_max := xd_c2h_channel_max d |>)) ;;
  mret hndl.

(** The checks between opening the device and creating its interfaces; 0 to go on. *)
(* @src xdma/xdma_mod.c:169-210 probe_one *)
Definition probe_checks (pdev hndl : Z) : M (pst D) Z :=
  x ← the_xpdev;
  if MAX_USER_IRQ <? xp_user_max x then mret (- EINVAL)
  else if XDMA_CHANNEL_NUM_MAX <? xp_h2c_channel_max x then mret (- EINVAL)
  else if XDMA_CHANNEL_NUM_MAX <? xp_c2h_channel_max x then mret (- EINVAL)
  else
    rv ← (if nz (xp_user_max x) then
            on_lib (xdma_user_isr_enable hndl (u32 (Z.shiftl 1 (xp_user_max x + 1) - 1)))
          else mret 0);
    if nz rv then mret rv
    else
      l ← gets (fun s => w_xdev_list (p_wst s));
      mret (match xdev_find_by_pdev l pdev with
            | None => - EINVAL
            | Some xdev => if hndl =? xdev then 0 else - EINVAL
            end).

(* @src xdma/xdma_mod.c:151-231 probe_one *)
Definition probe_one (pdev : Z) : M (pst D) Z :=
  xpdev ← xpdev_alloc pdev;
  if xpdev =? 0 then mret (- ENOMEM)
  else
    hndl ← probe_open pdev;
    if hndl =? 0 then xpdev_free xpdev ;; mret (- EINVAL)
    else
      rv ← probe_checks pdev hndl;
      if nz rv then xpdev_free xpdev ;; mret rv
      else
        upd_xpdev (fun x => x <| xp_xdev := hndl |>) ;;
        rv ← xpdev_create_interfaces;
        if nz rv then xpdev_free xpdev ;; mret rv
        else
          call_ (K_set_drvdata xpdev) ;;
          modify (fun s => s <| p_drvdata := xpdev |>) ;;
          mret 0.

(* @src xdma/xdma_mod.c:233-249 remove_one *)
Definition remove_one (pdev : Z) : M (pst D) unit :=
  if pdev =? 0 then mret tt
  else
    xpdev ← gets p_drvdata;
    if xpdev =? 0 then mret tt
    else
      xpdev_free xpdev ;;
      call_ (K_set_drvdata 0) ;;
      modify (fun s => s <| p_drvdata := 0 |>).

(* @src xdma/xdma_mod.c:251-271 xdma_error_detected *)
Definition xdma_error_detected (pdev : Z) (state : pci_channel_state) : M (pst D) pci_ers_result :=
  x ← the_xpdev;
  match state with
  | io_normal => mret CAN_RECOVER
  | io_frozen =>
      on_lib (xdma_device_offline pm pdev (xp_xdev x)) ;; call_ K_pci_disable_device ;; mret NEED_RESET
  | io_perm_failure => mret DISCONNECT
  end.

(* @src xdma/xdma_mod.c:273-289 xdma_slot_reset *)
Definition xdma_slot_reset (pdev : Z) : M (pst D) pci_ers_result :=
  x ← the_xpdev;
  rv ← call K_pci_enable_device_mem;
  if nz rv then mret DISCONNECT
  else
    call_ K_pci_set_master ;; call_ K_pci_restore_state ;; call_ K_pci_save_state ;;
    on_lib (xdma_device_online pm pci pdev (xp_xdev x)) ;;
    mret RECOVERED.

(* @src xdma/xdma_mod.c:291-302 xdma_error_resume *)
Definition xdma_error_resume : M (pst D) unit := call_ K_pci_clear_error_status.

(* @src xdma/xdma_mod.c:305-311 xdma_reset_prepare *)
Definition xdma_reset_prepare (pdev : Z) : M (pst D) unit :=
  x ← the_xpdev; on_lib (xdma_device_offline pm pdev (xp_xdev x)).

(* @src xdma/xdma_mod.c:313-319 xdma_reset_done *)
Definition xdma_reset_done (pdev : Z) : M (pst D) unit :=
  x ← the_xpdev; on_lib (xdma_device_online pm pci pdev (xp_xdev x)).

(** [desc_blen_max] is a module parameter the initialisation limits; the limited
    value is returned beside the result. *)
(* @src xdma/xdma_mod.c:355-371 xdma_mod_init *)
Definition xdma_mod_init (desc_blen_max : Z) : M (pst D) (Z * Z) :=
  let blen := if XDMA_DESC_BLEN_MAX <? desc_blen_max then XDMA_DESC_BLEN_MAX else desc_blen_max in
  rv ← xdma_cdev_init;
  if rv <? 0 then mret (rv, blen)
  else rv ← call K_pci_register_driver; mret (rv, blen).

(* @src xdma/xdma_mod.c:373-379 xdma_mod_exit *)
Definition xdma_mod_exit : M (pst D) unit := call_ K_pci_unregister_driver ;; xdma_cdev_cleanup.
End Code.
