(* ===== verification/ModSpec.v ===== *)
(** Probing and removing a card ([xdma_mod.c]). *)
From S2P Require Import Prelude Kernel Types Desc Transfer Engine EngineSpec EngineQueue Device Irq IrqSetup Bars EngineSetup Threads Frame Probe Open OpenSpec Close Cdev CdevSpec Mod.
Local Open Scope Z_scope.

(** ** What the character devices leave alone *)
Definition mod_part {D} (s : pst D) : Z * Z * (Z * Z) * (list Z * Z * bool * bool * (Z * Z * Z * Z) * Z * list xdev_entry) :=
  (p_cnt s, p_drvdata s, (xp_pdev (p_xpdev s), xp_xdev (p_xpdev s)), drv_part (p_wst s)).
#[export] Instance pst_framed D : Framed D (pst D) _ mod_part.
Proof. by constructor. Qed.

Section Interfaces.
Context {D : Type} `{Env D}.
Abbreviation calm_p := (calm (D := D) mod_part quiet).

Lemma calm_on_lib {A} (m : M (wst D) A) : calm drv_part quiet m -> calm_p (on_lib m).
Proof.
  intros Hm s. apply wp_on_lib. eapply wp_mono; [apply Hm|]. intros x w [(l & E & F) K]. split; [by exists l|].
  unfold mod_part. fld. by rewrite K.
Qed.
Lemma calm_upd_xpdev f : (forall x, xp_pdev (f x) = xp_pdev x /\ xp_xdev (f x) = xp_xdev x) -> calm_p (upd_xpdev f).
Proof.
  intros Hf. apply calm_modify. intros s. split; [done|]. destruct (Hf (p_xpdev s)) as [E1 E2].
  unfold mod_part. fld. by rewrite E1, E2.
Qed.
Lemma calm_lib_dev : calm_p lib_dev.
Proof. unfold lib_dev. apply calm_on_lib. calm. Qed.
Lemma calm_lib_eng h2c ch : calm_p (lib_eng h2c ch).
Proof. unfold lib_eng. apply calm_on_lib. calm. Qed.
#[local] Hint Extern 1 (calm _ _ (upd_xpdev _)) => apply calm_upd_xpdev; intros ?; split; reflexivity : calm.
#[local] Hint Resolve calm_lib_dev calm_lib_eng : calm.
Lemma calm_the_xpdev : calm_p the_xpdev.
Proof. apply calm_gets. Qed.
Lemma calm_the_cdev i : calm_p (the_cdev i).
Proof. apply calm_gets. Qed.
Lemma calm_upd_cdev i f : calm_p (upd_cdev i f).
Proof. by apply calm_upd_xpdev. Qed.
#[local] Hint Resolve calm_the_xpdev calm_the_cdev calm_upd_cdev : calm.
Lemma calm_and_then m1 m2 : calm_p m1 -> calm_p m2 -> calm_p (and_then m1 m2).
Proof. intros. unfold and_then. calm. Qed.
Lemma calm_set_flag b : calm_p (set_flag b).
Proof. unfold set_flag. calm. Qed.

Lemma calm_config_kobject i : calm_p (config_kobject i).
Proof. unfold config_kobject. calm. destruct i.1; calm. Qed.
Lemma calm_create_sys i : calm_p (create_sys_device i).
Proof. unfold create_sys_device. calm. destruct i.1; calm. Qed.
#[local] Hint Resolve calm_config_kobject calm_create_sys : calm.
Lemma calm_get_major : calm_p get_major.
Proof. unfold get_major. calm. Qed.
#[local] Hint Resolve calm_get_major : calm.
Lemma calm_create i bar e : calm_p (create_xcdev i bar e).
Proof. unfold create_xcdev. calm. Qed.
Lemma calm_destroy i : calm_p (destroy_xcdev i).
Proof. unfold destroy_xcdev. calm. Qed.
#[local] Hint Resolve calm_create calm_destroy calm_and_then calm_set_flag : calm.
Lemma calm_destroy_loop t n i : calm_p (destroy_loop t n i).
Proof. revert i. induction n; intros; cbn [destroy_loop]; calm. Qed.
#[local] Hint Resolve calm_destroy_loop : calm.
Lemma calm_destroy_all : calm_p xpdev_destroy_interfaces.
Proof. unfold xpdev_destroy_interfaces. calm. Qed.
Lemma calm_events_loop n i : calm_p (create_events_loop n i).
Proof. revert i. induction n; intros; cbn [create_events_loop]; calm. Qed.
Lemma calm_engines_loop t h2c n i : calm_p (create_engines_loop t h2c n i).
Proof. revert i. induction n; intros; cbn [create_engines_loop]; calm. Qed.
#[local] Hint Resolve calm_destroy_all calm_events_loop calm_engines_loop : calm.
Lemma calm_create_all : calm_p xpdev_create_interfaces.
Proof.
  unfold xpdev_create_interfaces, create_ctrl, create_events, create_sg, create_bypass, create_user.
  repeat lazymatch goal with |- calm _ _ (and_then _ _) => apply calm_and_then | _ => calm_step end.
Qed.
End Interfaces.

(** ** Probing and removing *)

Lemma holds_trans {D} (s0 s1 s2 : wst D) R0 R : holds s0 R0 s1 -> holds s1 R s2 -> holds s0 (R ++ R0) s2.
Proof.
  intros (l0 & E0 & P0) (l & E & P). exists (l0 ++ l). split; [by rewrite E, E0, app_assoc|].
  rewrite acquired_app, released_app, P0, P, <- !app_assoc. f_equiv. rewrite Permutation_app_comm, <- app_assoc. done.
Qed.

Section Probe.
Context {D : Type} `{Env D} (pm : params) (pci : pci_info) (dma_bus bar_len : Z -> Z).
Context (cpus : list Z) (size_th size_dev size_xpdev : Z).
Context (Hint : poll_mode pm = false) (Hbar : forall i, 0 <= bar_len i) (pdev : Z) (Hp : pdev <> 0).
Implicit Types (s : pst D).

(** The library's part of a probed card: opened since [w0], by [w]. *)
Definition card_open (w0 w : wst D) : Prop := ready pdev MAX_USER_IRQ XDMA_CHANNEL_NUM_MAX XDMA_CHANNEL_NUM_MAX w0 w.

Lemma calm_rel_lib s s' : calm_rel mod_part quiet s s' -> calm_rel drv_part quiet (p_wst s) (p_wst s').
Proof. intros [(l & E & F) K]. split; [by exists l|]. by pose proof (f_equal snd K). Qed.

(** What may stay held: nothing, or the enabled PCI device when its regions are in use. *)
Definition kept (R : list resource) (w : wst D) : Prop :=
  R = [] \/ R = [R_dev] /\ xd_regions_in_use (w_dev w) = true.

(** The device was never opened, with [R] left held, or is open; [w0] is before. *)
Definition resting (R : list resource) (w0 : wst D) (xdev : Z) (w : wst D) : Prop :=
  xdev = 0 /\ holds w0 R w /\ w_xdev_list w = w_xdev_list w0 /\ kept R w \/ R = [] /\ xdev = w_self w /\ card_open w0 w.

Lemma resting_calm R w0 xdev w w' : calm_rel drv_part quiet w w' -> resting R w0 xdev w -> resting R w0 xdev w'.
Proof.
  intros Hc [(-> & Hh & Hl & Hk)|(-> & -> & Ho)]; pose proof Hc as [_ K].
  - left. split; [done|]. split; [by eapply holds_calm|]. pose proof (f_equal snd K) as E. cbn in E. rewrite E. split; [done|].
    pose proof (f_equal (fun t => t.1.1.1.2) K) as E2. unfold kept, w_dev. cbn in E2. by rewrite E2.
  - right. split; [done|]. split; [|by eapply ready_calm]. pose proof (f_equal (fun t => t.1.2) K) as E. cbn in E. by rewrite E.
Qed.

Lemma wp_close_resting R w0 xdev w :
  Forall (fun e => le_pdev e <> pdev) (w_xdev_list w0) -> resting R w0 xdev w ->
  wp (xdma_device_close pm pdev xdev) (fun _ w' => holds w0 R w' /\ w_xdev_list w' = w_xdev_list w0 /\ kept R w') w.
Proof using Hint Hp.
  intros Hf [(-> & Hh & Hl & Hk)|(-> & -> & Ho)].
  2: { eapply wp_mono; [by eapply wp_device_close|]. intros _ w' [Hh Hl]. split; [done|]. split; [done|by left]. }
  unfold xdma_device_close. wv_step. wv_step. cbn [Z.eqb]. by wv_step.
Qed.

(** [xpdev_free]: the device is closed if it is open, the card's memory freed. *)
Lemma wp_xpdev_free R xpdev w00 w0 s (Q : unit -> pst D -> Prop) :
  -2 ^ 31 < p_cnt s < 2 ^ 31 -> xp_pdev (p_xpdev s) = pdev -> Forall (fun e => le_pdev e <> pdev) (w_xdev_list w0) ->
  resting R w0 (xp_xdev (p_xpdev s)) (p_wst s) -> holds w00 [R_mem xpdev] w0 ->
  (forall s', p_cnt s' = p_cnt s - 1 -> p_drvdata s' = p_drvdata s -> w_xdev_list (p_wst s') = w_xdev_list w0 ->
     holds w00 R (p_wst s') -> kept R (p_wst s') -> Q tt s') ->
  wp (xpdev_free pm xpdev) Q s.
Proof using Hint Hp.
  intros Hc Hpd Hf Hst Hx HQ. unfold xpdev_free. do 2 pv_step. pv_step.
  eapply calm_wp; [apply calm_destroy_all|]. intros _ s1 C1. rewrite Hpd.
  apply (resting_calm _ _ _ _ _ (calm_rel_lib _ _ C1)) in Hst. destruct C1 as [_ K].
  pose proof (f_equal (fun t => t.1.1.1) K) as K1. pose proof (f_equal (fun t => t.1.1.2) K) as K2. cbn in K1, K2. clear K.
  wp_step. apply wp_modify. wp_step. apply wp_on_lib. eapply wp_mono; [by apply wp_close_resting|]. intros _ w (Hh & Hl & Hk).
  pose proof (holds_trans _ _ _ _ _ Hx Hh) as Hh'.
  wp_step. unfold upd_cnt. apply wp_modify. apply wp_call_. intros v k Hv. apply HQ; cbn [with_part pst_has_k]; fld.
  - rewrite K1. by rewrite s32_small by lia.
  - done.
  - done.
  - eapply (holds_events _ _ _ _ _ [_]); [exact Hh'|fld; reflexivity|]. cbn. symmetry. apply Permutation_cons_append.
  - exact Hk.
Qed.

(** The card's structure while it is being probed. *)
Record carded (hndl : Z) (x : xdma_pci_dev) : Prop := {
  cd_xdev : xp_xdev x = hndl;
  cd_pdev : xp_pdev x = pdev;
  cd_user : xp_user_max x = MAX_USER_IRQ;
  cd_h2c : xp_h2c_channel_max x <= XDMA_CHANNEL_NUM_MAX;
  cd_c2h : xp_c2h_channel_max x <= XDMA_CHANNEL_NUM_MAX;
}.
Definition new_card (x : xdma_pci_dev) : Prop :=
  carded 0 x /\ xp_h2c_channel_max x = XDMA_CHANNEL_NUM_MAX /\ xp_c2h_channel_max x = XDMA_CHANNEL_NUM_MAX.

Lemma wp_probe_open s (Q : Z -> pst D -> Prop) :
  new_card (p_xpdev s) -> (forall n d, Forall (fun e => le_hndl e <> (env_call (K_kzalloc n) d).1) (w_xdev_list (p_wst s))) ->
  (forall hndl s', carded 0 (p_xpdev s') -> p_cnt s' = p_cnt s -> p_drvdata s' = p_drvdata s ->
     hndl = 0 /\ (exists R, resting R (p_wst s) 0 (p_wst s'))
     \/ hndl = w_self (p_wst s') /\ card_open (p_wst s) (p_wst s') -> Q hndl s') ->
  wp (probe_open pm pci dma_bus bar_len cpus size_th size_dev pdev) Q s.
Proof using Hint Hbar.
  intros [[C1 C2 C3 C4 C5] [N1 N2]] Hfresh HQ. unfold probe_open. do 2 pv_step. rewrite C3, N1, N2. pv_step. apply wp_on_lib.
  eapply wp_mono; [apply (wp_device_open _ _ _ _ _ _ _ Hint Hbar pdev MAX_USER_IRQ XDMA_CHANNEL_NUM_MAX XDMA_CHANNEL_NUM_MAX);
    [done|done|apply Hfresh|by intros x]|].
  assert (forall b R w, given_up (p_wst s) R b 0 w -> R = [] \/ R = [R_dev] /\ b = true ->
    wp (when (nz 0) (d ← lib_dev; upd_xpdev (fun x => x <| xp_user_max := xd_user_max d |>
          <| xp_h2c_channel_max := xd_h2c_channel_max d |> <| xp_c2h_channel_max := xd_c2h_channel_max d |>)) ;; mret 0)
       Q (s <| p_wst := w |>)) as Hnone.
  { intros b R w (_ & Hh & Hl & <-) HR. change (nz 0) with false. cbn [when]. do 3 wp_step. apply HQ; [by constructor|done..|]. left. split; [done|].
    exists R. by left. }
  intros r w [[b Hg]|[Hg|[-> [Hb Hs _]]]].
  - pose proof Hg as (-> & _). apply (Hnone b [] w Hg). by left.
  - pose proof Hg as (-> & _). apply (Hnone true [R_dev] w Hg). by right.
  - replace (nz (w_self w)) with true by (unfold nz; by destruct (Z.eqb_spec (w_self w) 0)).
    destruct (op_within _ _ _ _ _ _ _ (wb_opening _ _ _ _ _ _ Hb)) as (W1 & W2 & W3 & W4).
    cbn [when]. do 3 pv_step. apply wp_modify. wp_step. apply HQ; [|done..|].
    + by constructor.
    + right. split; [done|]. by split.
Qed.

(** A card that is open is found, and accepted, under its handle. *)
Lemma card_open_found w0 w :
  card_open w0 w -> Forall (fun e => le_pdev e <> pdev) (w_xdev_list w0) ->
  w_self w <> 0 /\ xd_pdev (w_dev w) = pdev
  /\ xdev_find_by_pdev (w_xdev_list w) pdev = Some (w_self w) /\ debug_check_dev_hndl (w_xdev_list w) pdev (w_self w) = 0.
Proof using Hp.
  intros [Hb Hs] Hf. destruct (op_list _ _ _ _ _ _ _ (wb_opening _ _ _ _ _ _ Hb)) as (idx & ->).
  destruct (op_within _ _ _ _ _ _ _ (wb_opening _ _ _ _ _ _ Hb)) as (W1 & _).
  split_and!; [done|done|by apply handle_found..].
Qed.

Lemma wp_isr_enable w0 w mask :
  card_open w0 w -> Forall (fun e => le_pdev e <> pdev) (w_xdev_list w0) ->
  wp (xdma_user_isr_enable (w_self w) mask) (fun rv w' => rv = 0 /\ calm_rel drv_part quiet w w') w.
Proof using Hp.
  intros Ho Hf. destruct (card_open_found _ _ Ho Hf) as (Hs & Hd & _ & Hc). unfold xdma_user_isr_enable.
  do 4 wv_step. fold (w_dev w). rewrite Hd, Hc. destruct (Z.eqb_spec (w_self w) 0); [done|]. change (0 <? 0) with false. cbv iota.
  wv_step. eapply calm_wp; [calm|]. intros _ w1 C1.
  wv_step. eapply calm_wp; [unfold user_interrupts_enable; calm|]. intros _ w2 C2.
  wv_step. eapply calm_wp; [unfold read_interrupts; calm|]. intros _ w3 C3. wv_step. split; [done|].
  exact (transitivity (transitivity C1 C2) C3).
Qed.

(** With such a card the checks go through. *)
Lemma wp_probe_checks w0 s (Q : Z -> pst D -> Prop) :
  carded 0 (p_xpdev s) -> card_open w0 (p_wst s) -> Forall (fun e => le_pdev e <> pdev) (w_xdev_list w0) ->
  (forall w', calm_rel drv_part quiet (p_wst s) w' -> Q 0 (s <| p_wst := w' |>)) ->
  wp (probe_checks pdev (w_self (p_wst s))) Q s.
Proof using Hp.
  intros [C1 C2 C3 C4 C5] Ho Hf HQ. unfold probe_checks. do 2 pv_step. rewrite C3, Z.ltb_irrefl.
  rewrite (proj2 (Z.ltb_ge _ _) C4), (proj2 (Z.ltb_ge _ _) C5). change (nz MAX_USER_IRQ) with true. cbv iota.
  wp_step. apply wp_on_lib. eapply wp_mono; [by eapply wp_isr_enable|]. intros rv w' [-> Hc].
  change (nz 0) with false. cbv iota. do 3 wp_step. fld.
  assert (card_open w0 w') as Ho' by (by eapply ready_calm).
  destruct (card_open_found _ _ Ho' Hf) as (_ & _ & -> & _).
  destruct Hc as [? K]. pose proof (f_equal (fun t => t.1.2) K) as E. cbn in E. rewrite E, Z.eqb_refl. by apply HQ.
Qed.

(** A card with its device open, since [s1]. *)
Record probed (s1 s : pst D) : Prop := {
  pb_cnt : p_cnt s = p_cnt s1;
  pb_drvdata : p_drvdata s = p_drvdata s1;
  pb_pdev : xp_pdev (p_xpdev s) = pdev;
  pb_xdev : xp_xdev (p_xpdev s) = w_self (p_wst s);
  pb_open : card_open (p_wst s1) (p_wst s);
}.

Lemma probed_calm s1 s s' : calm_rel mod_part quiet s s' -> probed s1 s -> probed s1 s'.
Proof.
  intros Hc [P1 P2 P3 P4 P5]. pose proof Hc as [_ K].
  pose proof (f_equal (fun t => t.1.1.1) K) as K1. pose proof (f_equal (fun t => t.1.1.2) K) as K2.
  pose proof (f_equal (fun t => t.1.2.1) K) as K3. pose proof (f_equal (fun t => t.1.2.2) K) as K4.
  pose proof (f_equal (fun t => t.2.1.2) K) as K5. cbn in K1, K2, K3, K4, K5.
  constructor; [congruence..|]. by eapply ready_calm; [apply calm_rel_lib|].
Qed.

(** From creating the interfaces on. *)
Lemma wp_probe_interfaces xp s1 s (fails : Z -> M (pst D) Z) (Q : Z -> pst D -> Prop) :
  probed s1 s -> (forall rv s', rv <> 0 -> probed s1 s' -> wp (fails rv) Q s') ->
  (forall s', probed s1 (s' <| p_drvdata := p_drvdata s1 |>) -> p_drvdata s' = xp -> Q 0 s') ->
  wp (rv ← xpdev_create_interfaces;
      if nz rv then fails rv else call_ (K_set_drvdata xp) ;; modify (fun s => s <| p_drvdata := xp |>) ;; mret 0) Q s.
Proof.
  intros Hs Hfail HQ. wp_step. eapply calm_wp; [apply calm_create_all|]. intros rv s2 Hc. cbv beta.
  pose proof (probed_calm _ _ _ Hc Hs) as Hs2. unfold nz. destruct (Z.eqb_spec rv 0) as [->|Hrv]; cbn [negb]; [|by apply Hfail].
  wp_step. eapply (calm_wp mod_part quiet); [by calm|]. intros _ s3 Hc3. apply (probed_calm _ _ _ Hc3) in Hs2.
  wp_step. apply wp_modify. wp_step. apply HQ; [|done]. destruct Hs2 as [P1 P2 P3 P4 P5]. by constructor.
Qed.

Lemma wp_probe_one s (Q : Z -> pst D -> Prop) :
  -2 ^ 31 <= p_cnt s < 2 ^ 31 - 1 -> Forall (fun e => le_pdev e <> pdev) (w_xdev_list (p_wst s)) ->
  (forall n d, Forall (fun e => le_hndl e <> (env_call (K_kzalloc n) d).1) (w_xdev_list (p_wst s))) ->
  (forall rv s', rv <> 0 -> p_cnt s' = p_cnt s -> p_drvdata s' = p_drvdata s -> w_xdev_list (p_wst s') = w_xdev_list (p_wst s) ->
     (exists R, kept R (p_wst s') /\ holds (p_wst s) R (p_wst s')) -> Q rv s') ->
  (forall s' w0, p_cnt s' = p_cnt s + 1 -> p_drvdata s' <> 0 -> xp_pdev (p_xpdev s') = pdev ->
     xp_xdev (p_xpdev s') = w_self (p_wst s') -> card_open w0 (p_wst s') -> w_xdev_list w0 = w_xdev_list (p_wst s) ->
     holds (p_wst s) [R_mem (p_drvdata s')] w0 -> Q 0 s') ->
  wp (probe_one pm pci dma_bus bar_len cpus size_th size_dev size_xpdev pdev) Q s.
Proof using Hint Hbar Hp.
  intros Hc Hf Hfresh Hbad Hgood. unfold probe_one, xpdev_alloc. do 2 wp_step. apply wp_call. intros xp k Hk. clear Hk.
  destruct (Z.eqb_spec xp 0) as [->|Hxp].
  { wp_step. rewrite Z.eqb_refl. wp_step. apply Hbad; [done..|]. exists []. split; [by left|].
    exists [Ev_call (K_kmalloc size_xpdev) 0]. by split. }
  unfold upd_xpdev at 1, upd_cnt. wp_step. apply wp_modify. wp_step. apply wp_modify. wp_step.
  destruct (Z.eqb_spec xp 0); [done|].
  match goal with |- wp _ _ ?st => set (s1 := st) end.
  assert (p_cnt s1 = p_cnt s + 1) as Hcnt by (subst s1; unfold with_part, pst_has_k; fld; by rewrite s32_small by lia).
  assert (p_drvdata s1 = p_drvdata s) as Hdrv by done.
  assert (w_xdev_list (p_wst s1) = w_xdev_list (p_wst s)) as Hlist by done.
  assert (holds (p_wst s) [R_mem xp] (p_wst s1)) as Hmem.
  { exists [Ev_call (K_kmalloc size_xpdev) xp]. split; [done|]. cbn. by destruct (Z.eqb_spec xp 0). }
  assert (new_card (p_xpdev s1)) as Hnew by done. clearbody s1.
  assert (forall R rv s', rv <> 0 -> p_cnt s' = p_cnt s + 1 -> p_drvdata s' = p_drvdata s -> xp_pdev (p_xpdev s') = pdev ->
    resting R (p_wst s1) (xp_xdev (p_xpdev s')) (p_wst s') -> wp (xpdev_free pm xp ;; mret rv) Q s') as Hfree.
  { intros R rv s' Hrv A1 A2 A3 A5. wp_step.
    eapply wp_xpdev_free; [lia|done|by rewrite Hlist|exact A5|exact Hmem|].
    intros s2 B1 B2 B3 B4 B5. wp_step. apply Hbad; [done|lia|congruence|congruence|]. by exists R. }
  wp_step. apply wp_probe_open; [done|by rewrite Hlist|]. intros hndl s2 D1 D2 D3 Ho. cbv beta.
  destruct (Z.eqb_spec hndl 0) as [->|Hz].
  { destruct Ho as [[_ (R & Hres)]|[Hs Ho]]; [|by destruct Ho]. eapply Hfree; [done|lia|congruence|apply D1|].
    by rewrite (cd_xdev _ _ D1). }
  destruct Ho as [[-> _]|[-> Ho]]; [done|]. wp_step. eapply wp_probe_checks; [done|exact Ho|by rewrite Hlist|].
  intros w' Hc'. change (nz 0) with false. cbv iota. wp_step. apply wp_modify.
  apply (wp_probe_interfaces xp s1 _ (fun rv => xpdev_free pm xp ;; mret rv)).
  - pose proof Hc' as [_ K]. pose proof (f_equal (fun t => t.1.2) K) as E. cbn in E.
    constructor; fld; [done|done|apply D1|by rewrite E|by eapply ready_calm].
  - intros rv s' Hrv [P1 P2 P3 P4 P5]. apply (Hfree []); [done|congruence|congruence|done|by right].
  - intros s' [P1 P2 P3 P4 P5] Hd. apply (Hgood s' (p_wst s1)); try done; [by rewrite <- Hcnt, <- P1|by rewrite Hd..].
Qed.

(** [remove_one] closes the device and frees the card. *)
Lemma wp_remove_one w00 w0 s :
  -2 ^ 31 < p_cnt s < 2 ^ 31 -> p_drvdata s <> 0 -> xp_pdev (p_xpdev s) = pdev -> xp_xdev (p_xpdev s) = w_self (p_wst s) ->
  card_open w0 (p_wst s) -> Forall (fun e => le_pdev e <> pdev) (w_xdev_list w0) -> holds w00 [R_mem (p_drvdata s)] w0 ->
  wp (remove_one pm pdev) (fun _ s' => p_cnt s' = p_cnt s - 1 /\ p_drvdata s' = 0 /\ w_xdev_list (p_wst s') = w_xdev_list w0
    /\ holds w00 [] (p_wst s')) s.
Proof using Hint Hp.
  intros Hc Hd Hpd Hx Ho Hf Hh. unfold remove_one. destruct (Z.eqb_spec pdev 0); [done|]. do 2 wp_step.
  destruct (Z.eqb_spec (p_drvdata s) 0); [done|]. wp_step.
  eapply (wp_xpdev_free []); [exact Hc|exact Hpd|exact Hf|by right|exact Hh|].
  intros s' A1 A2 A3 A4 _. wp_step. apply wp_call_. intros v k _. apply wp_modify. split_and!; [done..|].
  eapply (holds_events _ _ _ _ _ [_]); [exact A4|fld; reflexivity|done].
Qed.
End Probe.

(** C16 Removing a card undoes probing it, and a probe that fails undoes itself (interrupt
    mode, a PCI device that is not on the list of devices yet, fewer than 2^31 - 1 cards,
    and memory from the kernel that is not a device on the list).  What is counted is memory
    of the card and the device, the enabled PCI device, its regions and the mappings of its
    BARs (not interrupt lines, which a failing [irq_setup] keeps, nor the engines' DMA
    memory).  When [probe_one] fails, the count of cards, the driver data and the list of
    devices are as before, and everything acquired has been released; only when the regions
    of the PCI device turned out to be in use by somebody else, it may stay enabled.  When
    it succeeds there is one card more, the device is found by its PCI device, and
    [remove_one] restores the count and the list, clears the driver data, and releases all
    that probing acquired. *)
Theorem probe_remove_roundtrip {D} `{Env D} pm pci dma_bus bar_len cpus size_th size_dev size_xpdev pdev (s : pst D) :
  poll_mode pm = false -> (forall i, 0 <= bar_len i) -> pdev <> 0 -> -2 ^ 31 <= p_cnt s < 2 ^ 31 - 1 ->
  Forall (fun e => le_pdev e <> pdev) (w_xdev_list (p_wst s)) ->
  (forall n d, Forall (fun e => le_hndl e <> (env_call (K_kzalloc n) d).1) (w_xdev_list (p_wst s))) ->
  let '(rv, s1) := probe_one pm pci dma_bus bar_len cpus size_th size_dev size_xpdev pdev s in
  rv <> 0 /\ p_cnt s1 = p_cnt s /\ p_drvdata s1 = p_drvdata s /\ w_xdev_list (p_wst s1) = w_xdev_list (p_wst s)
    /\ (holds (p_wst s) [] (p_wst s1)
        \/ holds (p_wst s) [R_dev] (p_wst s1) /\ xd_regions_in_use (w_dev (p_wst s1)) = true)
  \/ rv = 0 /\ p_cnt s1 = p_cnt s + 1 /\ p_drvdata s1 <> 0
    /\ xdev_find_by_pdev (w_xdev_list (p_wst s1)) pdev = Some (xp_xdev (p_xpdev s1))
    /\ let '(_, s2) := remove_one pm pdev s1 in
       p_cnt s2 = p_cnt s /\ p_drvdata s2 = 0 /\ w_xdev_list (p_wst s2) = w_xdev_list (p_wst s)
       /\ holds (p_wst s) [] (p_wst s2).
Proof.
  intros Hint Hbar Hp Hc Hf Hfresh. apply wp_elim. apply wp_probe_one; try done.
  { intros rv s' Hrv E1 E2 E3 (R & [->|[-> Hu]] & Hh); left; split_and!; auto. }
  intros s1 w0 A1 A2 A3 A4 A5 A6 A7. right. rewrite <- A6 in Hf.
  split_and!; [done..| |].
  - rewrite A4. by apply (card_open_found pdev Hp w0).
  - apply (wp_elim _ (fun _ s2 => p_cnt s2 = _ /\ _)). eapply wp_mono; [eapply wp_remove_one; done || lia|].
    intros _ s2 (B1 & B2 & B3 & B4). split_and!; [lia|done|congruence|done].
Qed.

(** *** Witness: a card with four engines, and one whose interfaces fail. *)
Definition ex_probe_ret (c : kcall) : Z :=
  match c with
  | K_kmalloc _ => 0x200 | K_chrdev_major => 240 | K_device_create _ _ _ _ _ => 0x300 | _ => ex_open_ret c
  end.
Definition ex_unprobed (ret : kcall -> Z) : pst sim :=
  {| p_wst := ex_closed <| w_dst ::= fun d => d <| ds_k ::= fun k => mkK {| sim_regs := sim_regs (k_env k); sim_ret := ret |} [] |> |>;
     p_xpdev := xpdev_zero; p_class := 1; p_cache := 1; p_cnt := 0; p_drvdata := 0 |}.
Definition ex_pci : pci_info := Build_pci_info 11 false [] true true.

Lemma probe_remove_roundtrip_witness :
  ltac:(statement_of (probe_remove_roundtrip ex_params ex_pci (fun p => p) ex_bar_len [0; 1] 64 4096 512 0x77 (ex_unprobed ex_probe_ret)
    eq_refl ex_bar_len_pos ltac:(done) ltac:(done) (Forall_nil_2 _) (fun _ _ => Forall_nil_2 _))).
Proof.
  instance_of (probe_remove_roundtrip ex_params ex_pci (fun p => p) ex_bar_len [0; 1] 64 4096 512 0x77 (ex_unprobed ex_probe_ret)
    eq_refl ex_bar_len_pos ltac:(done) ltac:(done) (Forall_nil_2 _) (fun _ _ => Forall_nil_2 _)).
Defined.

(** The probe succeeds; it fails when the numbers of its devices cannot be had. *)
Example ex_probe_runs :
  let probe ret := probe_one ex_params ex_pci (fun p => p) ex_bar_len [0; 1] 64 4096 512 0x77 (ex_unprobed ret) in
  let '(rv, s) := probe ex_probe_ret in
  rv = 0 /\ p_drvdata s = 0x200 /\ xp_xdev (p_xpdev s) = 0x100 /\ xp_h2c_channel_max (p_xpdev s) = 2
  /\ let '(rv, s) := probe (fun c => match c with K_alloc_chrdev_region _ _ => -16 | _ => ex_probe_ret c end) in
     rv = -1 /\ p_cnt s = 0 /\ p_drvdata s = 0 /\ w_xdev_list (p_wst s) = [].
Proof. by vm_compute. Qed.
