(* ===== verification/Bytes.v ===== *)
(** Little-endian words as bytes, and the bytes the driver takes from a user's
    buffer. *)
From S2P Require Import Prelude Kernel.
Local Open Scope Z_scope.

(** The [n] low bytes of a word, and the word of some bytes. *)
Fixpoint le_bytes (n : nat) (v : Z) : list Z :=
  match n with O => [] | S n => v mod 256 :: le_bytes n (v / 256) end.
Fixpoint le_word (l : list Z) : Z :=
  match l with [] => 0 | b :: l => b + 256 * le_word l end.

Lemma length_le_bytes n v : length (le_bytes n v) = n.
Proof. revert v. induction n; intros v; cbn; [done|]. by f_equal. Qed.

Lemma le_bytes_range n v : Forall (fun b => 0 <= b < 256) (le_bytes n v).
Proof.
  revert v. induction n; intros v; cbn; constructor; [|done]. apply Z.mod_pos_bound. lia.
Qed.

Lemma le_word_bytes n v : 0 <= v < 256 ^ Z.of_nat n -> le_word (le_bytes n v) = v.
Proof.
  revert v. induction n as [|n IH]; intros v Hv; cbn; [cbn in Hv; lia|].
  rewrite IH.
  - pose proof (Z.div_mod v 256). lia.
  - rewrite Nat2Z.inj_succ, Z.pow_succ_r in Hv by lia.
    split; [apply Z.div_pos; lia|apply Z.div_lt_upper_bound; lia].
Qed.

Lemma le_bytes_word l : Forall (fun b => 0 <= b < 256) l -> le_bytes (length l) (le_word l) = l.
Proof.
  induction 1 as [|b l Hb Hl IH]; [done|]. cbn [le_word length le_bytes].
  replace ((b + 256 * le_word l) mod 256) with b by (apply (Z.mod_unique_pos _ _ (le_word l)); lia).
  replace ((b + 256 * le_word l) / 256) with (le_word l) by (apply (Z.div_unique_pos _ _ _ b); lia). by rewrite IH.
Qed.

Lemma le_word_app l1 l2 : le_word (l1 ++ l2) = le_word l1 + 256 ^ Z.of_nat (length l1) * le_word l2.
Proof.
  induction l1 as [|b l1 IH]; cbn [app le_word length]; [lia|].
  rewrite IH, Nat2Z.inj_succ, Z.pow_succ_r by lia. lia.
Qed.

Lemma le_word_range l : Forall (fun b => 0 <= b < 256) l -> 0 <= le_word l < 256 ^ Z.of_nat (length l).
Proof.
  induction 1 as [|b l Hb Hl IH]; cbn [le_word length]; [lia|]. rewrite Nat2Z.inj_succ, Z.pow_succ_r by lia. lia.
Qed.

Lemma le_word_drop n l : Forall (fun b => 0 <= b < 256) l -> le_word (drop n l) = le_word l / 256 ^ Z.of_nat n.
Proof.
  intros Hl. destruct (decide (n <= length l)%nat) as [Hn|Hn].
  - rewrite <- (take_drop n l) at 2. rewrite le_word_app, length_take_le by done.
    pose proof (le_word_range (take n l) (Forall_take _ _ _ Hl)) as Hr. rewrite length_take_le in Hr by done.
    apply (Z.div_unique_pos _ _ _ (le_word (take n l))); lia.
  - rewrite drop_ge by lia. pose proof (le_word_range l Hl) as Hr. cbn [le_word]. symmetry. apply Z.div_small.
    split; [lia|]. eapply Z.lt_le_trans; [apply Hr|]. apply Z.pow_le_mono_r; lia.
Qed.

Lemma le_word_take n l : Forall (fun b => 0 <= b < 256) l -> le_word (take n l) = le_word l mod 256 ^ Z.of_nat n.
Proof.
  intros Hl. destruct (decide (n <= length l)%nat) as [Hn|Hn].
  - rewrite <- (take_drop n l) at 2. rewrite le_word_app, length_take_le by done.
    pose proof (le_word_range (take n l) (Forall_take _ _ _ Hl)) as Hr. rewrite length_take_le in Hr by done.
    apply (Z.mod_unique_pos _ _ (le_word (drop n l))); lia.
  - rewrite take_ge by lia. pose proof (le_word_range l Hl) as Hr. symmetry. apply Z.mod_small.
    split; [lia|]. eapply Z.lt_le_trans; [apply Hr|]. apply Z.pow_le_mono_r; lia.
Qed.

Lemma le_bytes_app n m v : le_bytes (n + m) v = le_bytes n v ++ le_bytes m (v / 256 ^ Z.of_nat n).
Proof.
  revert v. induction n as [|n IH]; intros v; cbn [Nat.add le_bytes app]; [by rewrite Z.div_1_r|].
  by rewrite IH, Nat2Z.inj_succ, Z.pow_succ_r, Z.div_div by lia.
Qed.

Lemma le_bytes_mod n v : le_bytes n (v mod 256 ^ Z.of_nat n) = le_bytes n v.
Proof.
  rewrite <- (length_le_bytes n v) at 1. rewrite <- (le_bytes_word (le_bytes n v)) by apply le_bytes_range.
  rewrite length_le_bytes. f_equal. revert v. induction n as [|n IH]; intros v; [cbn; apply Z.mod_1_r|].
  rewrite Nat2Z.inj_succ, Z.pow_succ_r, Z.rem_mul_r by lia. cbn [le_bytes le_word]. by rewrite IH.
Qed.

(** A word as bits, the least significant first, and back. *)
Definition bits_of (n w : Z) : list bool := Z.testbit w <$> seqZ 0 n.
Definition word_of_bits (l : list bool) : Z := foldr (fun b w => Z.b2z b + 2 * w) 0 l.

Lemma length_bits_of n w : length (bits_of n w) = Z.to_nat n.
Proof. unfold bits_of. by rewrite length_fmap, length_seqZ. Qed.

Lemma bits_of_app n m w : 0 <= n -> 0 <= m -> bits_of (n + m) w = bits_of n w ++ bits_of m (w / 2 ^ n).
Proof.
  intros Hn Hm. unfold bits_of. rewrite seqZ_app, fmap_app by done. f_equal.
  rewrite <- Z.shiftr_div_pow2 by done.
  replace (seqZ (0 + n) m) with (Z.add n <$> seqZ 0 m) by (rewrite fmap_add_seqZ; f_equal; lia). rewrite <- list_fmap_compose.
  apply list_fmap_ext. intros i x Hx%list_elem_of_lookup_2%elem_of_seqZ. cbn. rewrite Z.shiftr_spec by lia. f_equal. lia.
Qed.

Lemma bits_of_mod n k w : n <= k -> bits_of n (w mod 2 ^ k) = bits_of n w.
Proof.
  intros Hk. unfold bits_of. apply list_fmap_ext. intros i x Hx%list_elem_of_lookup_2%elem_of_seqZ.
  apply Z.mod_pow2_bits_low. lia.
Qed.

Lemma word_of_bits_range l : 0 <= word_of_bits l < 2 ^ Z.of_nat (length l).
Proof.
  induction l as [|b l IH]; cbn [word_of_bits foldr length]; [lia|]. fold (word_of_bits l).
  rewrite Nat2Z.inj_succ, Z.pow_succ_r by lia. destruct b; cbn [Z.b2z]; lia.
Qed.

Lemma word_of_bits_app l1 l2 : word_of_bits (l1 ++ l2) = word_of_bits l1 + 2 ^ Z.of_nat (length l1) * word_of_bits l2.
Proof.
  induction l1 as [|b l1 IH].
  - change (word_of_bits l2 = 0 + 2 ^ 0 * word_of_bits l2). lia.
  - change (Z.b2z b + 2 * word_of_bits (l1 ++ l2) = Z.b2z b + 2 * word_of_bits l1 + 2 ^ Z.of_nat (S (length l1)) * word_of_bits l2).
    rewrite IH, Nat2Z.inj_succ, Z.pow_succ_r by lia. ring.
Qed.

(** [memcpy] into a word from [l] at [at], and from a word over [l] at [at]. *)
Definition word_at (l : list Z) (at_ n : Z) : Z := le_word (take (Z.to_nat n) (drop (Z.to_nat at_) l)).
Definition put_word (v : Z) (l : list Z) (at_ n : Z) : list Z :=
  take (Z.to_nat at_) l ++ le_bytes (Z.to_nat n) v ++ drop (Z.to_nat (at_ + n)) l.

Section User.
Context {D : Type} `{Env D} {St : Type} `{Has St (kstate D)}.

(** The values at [p], [p + 1], ... in the user's memory. *)
Fixpoint user_bytes (n : nat) (p : Z) : M St (list Z) :=
  match n with
  | O => mret []
  | S n => b ← call (K_user_value p); l ← user_bytes n (p + 1); mret (u8 b :: l)
  end.
End User.
