(* ===== verification/Ctrl.v ===== *)
(** The control, event and bypass devices: their file operations ([cdev_ctrl.c],
    [cdev_events.c], [cdev_bypass.c]). *)
From S2P Require Import Prelude Kernel Types Engine Device Irq IrqSetup Threads Probe Open Cdev Bytes.
Local Open Scope Z_scope.

(* @src xdma/cdev_ctrl.h:28-28 XDMA_XCL_MAGIC *)
Definition XDMA_XCL_MAGIC : Z := 0X586C0C6C.
(* @src xdma/version.h:32-33 DRV_MOD_VERSION_NUMBER *)
Definition DRV_MOD_VERSION_NUMBER : Z := 2020 * 1000 + 2 * 100 + 2.
Definition PAGE_SHIFT : Z := 12.

(** The fields of [struct pci_dev] that [version_ioctl] reports. *)
Record pci_dev_ids := {
  pd_vendor : Z; pd_device : Z; pd_subsystem_vendor : Z; pd_subsystem_device : Z; pd_devfn : Z;
}.

(* @src xdma/cdev_ctrl.h:62-75 xdma_ioc_info *)
Record xdma_ioc_info := {
  ii_vendor : Z; ii_device : Z; ii_subsystem_vendor : Z; ii_subsystem_device : Z;
  ii_driver_version : Z; ii_feature_id : Z; ii_domain : Z; ii_bus : Z; ii_dev : Z; ii_func : Z;
}.

(** The structure's bytes, in the order and with the padding of its C layout; the
    base and the engine version are 0. *)
Definition info_bytes (i : xdma_ioc_info) : list Z :=
  le_bytes 8 0 ++ le_bytes 2 (ii_vendor i) ++ le_bytes 2 (ii_device i) ++ le_bytes 2 (ii_subsystem_vendor i)
  ++ le_bytes 2 (ii_subsystem_device i) ++ le_bytes 4 0 ++ le_bytes 4 (ii_driver_version i)
  ++ le_bytes 8 (ii_feature_id i) ++ le_bytes 2 (ii_domain i) ++ le_bytes 1 (ii_bus i) ++ le_bytes 1 (ii_dev i)
  ++ le_bytes 1 (ii_func i) ++ le_bytes 3 0.

Section Code.
Context {D : Type} `{Env D} (pm : params) (pci : pci_info).

(** [pci_resource_start], [pci_resource_end] of a BAR, and the device's ids. *)
Variable bar_start bar_end : Z -> Z.
Variable ids : pci_dev_ids.
(** Macros of the kernel's headers: parts of a device function number, parts of an
    ioctl command, and the commands made with them. *)
Variable PCI_BUS_NUM PCI_SLOT PCI_FUNC : Z -> Z.
Variable IOC_TYPE IOC_SIZE : Z -> Z.
Variable IOC_reads IOC_writes : Z -> bool.
Variable XDMA_IOC_MAGIC XDMA_IOCINFO XDMA_IOCOFFLINE XDMA_IOCONLINE : Z.
(** [wait_event_interruptible] on a user interrupt, with the interrupts that are
    served meanwhile: 0, or [- ERESTARTSYS]. *)
Variable wait_events : Z -> M (pst D) Z.

(** Every operation starts with the check of the device behind the file. *)
Definition checked {A} (f : option (cdev_type * Z)) (check_engine : bool) (bad : Z -> A) (k : xdma_cdev -> M (pst D) A) : M (pst D) A :=
  c ← gets (fun s => cdev_at (p_xpdev s) <$> f);
  rv ← xcdev_check c check_engine;
  if rv <? 0 then mret (bad rv) else k (default cdev_zero c).

(** ** The control device *)

(** [reg = xdev->bar[xcdev->bar] + *pos] *)
Definition ctrl_reg (x : xdma_dev) (c : xdma_cdev) (pos : Z) : Z := xd_bar_at x (xc_bar c) + pos.

(** The result and the new position. *)
(* @src xdma/cdev_ctrl.c:36-65 char_ctrl_read *)
Definition char_ctrl_read (f : option (cdev_type * Z)) (buf count pos : Z) : M (pst D) (Z * Z) :=
  checked f false (fun rv => (rv, pos)) (fun c =>
    if tst pos 3 then mret (- EPROTO, pos)
    else
      x ← lib_dev;
      w ← read_register (ctrl_reg x c pos);
      call_ (K_copy_to_user buf (le_bytes 4 w)) ;;
      mret (4, s64 (pos + 4))).

(** A failed copy is only logged. *)
(* @src xdma/cdev_ctrl.c:67-97 char_ctrl_write *)
Definition char_ctrl_write (f : option (cdev_type * Z)) (buf count pos : Z) : M (pst D) (Z * Z) :=
  checked f false (fun rv => (rv, pos)) (fun c =>
    if tst pos 3 then mret (- EPROTO, pos)
    else
      x ← lib_dev;
      call_ (K_copy_from_user buf 4) ;;
      w ← user_bytes 4 buf;
      write_register (le_word w) (ctrl_reg x c pos) ;;
      mret (4, s64 (pos + 4))).

(* @src xdma/cdev_ctrl.c:99-125 version_ioctl *)
Definition version_ioctl (arg : Z) : M (pst D) Z :=
  x ← lib_dev;
  rv ← call (K_copy_from_user arg 40);
  if nz rv then mret (- EFAULT)
  else
    rv ← call (K_copy_to_user arg (info_bytes
           {| ii_vendor := pd_vendor ids; ii_device := pd_device ids;
              ii_subsystem_vendor := pd_subsystem_vendor ids; ii_subsystem_device := pd_subsystem_device ids;
              ii_driver_version := DRV_MOD_VERSION_NUMBER; ii_feature_id := xd_feature_id x; ii_domain := 0;
              ii_bus := u8 (PCI_BUS_NUM (pd_devfn ids)); ii_dev := u8 (PCI_SLOT (pd_devfn ids)); ii_func := u8 (PCI_FUNC (pd_devfn ids)) |}));
    mret (if nz rv then - EFAULT else 0).

(** The result of [access_ok] is 0 when the access is bad. *)
(* @src xdma/cdev_ctrl.c:127-189 char_ctrl_ioctl *)
Definition char_ctrl_ioctl (f : option (cdev_type * Z)) (cmd arg : Z) : M (pst D) Z :=
  checked f false id (fun c =>
    x ← lib_dev;
    if negb (IOC_TYPE cmd =? XDMA_IOC_MAGIC) then mret (- ENOTTY)
    else
      ok ← (if IOC_reads cmd || IOC_writes cmd then call (K_access_ok arg (IOC_SIZE cmd)) else mret 1);
      if ok =? 0 then mret (- EFAULT)
      else if cmd =? XDMA_IOCINFO then
        rv ← call (K_copy_from_user arg 8);
        if nz rv then mret (- EFAULT)
        else
          magic ← user_bytes 4 arg;
          if negb (le_word magic =? XDMA_XCL_MAGIC) then mret (- ENOTTY)
          else version_ioctl arg
      else if cmd =? XDMA_IOCOFFLINE then on_lib (xdma_device_offline pm (xd_pdev x) (xc_xdev c)) ;; mret 0
      else if cmd =? XDMA_IOCONLINE then on_lib (xdma_device_online pm pci (xd_pdev x) (xc_xdev c)) ;; mret 0
      else mret (- ENOTTY)).

(** The bounds [bridge_mmap] compares: what is asked for, and the rest of the BAR
    from the offset on.  All are [unsigned long]. *)
(* @src xdma/cdev_ctrl.c:207-213 bridge_mmap *)
Definition mmap_sizes (bar vm_start vm_end vm_pgoff : Z) : Z * Z * Z :=
  let off := u64 (Z.shiftl vm_pgoff PAGE_SHIFT) in
  (u64 (bar_start bar + off), u64 (vm_end - vm_start), u64 (bar_end bar - bar_start bar + 1 - off)).

(* @src xdma/cdev_ctrl.c:192-256 bridge_mmap *)
Definition bridge_mmap (f : option (cdev_type * Z)) (vm_start vm_end vm_pgoff : Z) : M (pst D) Z :=
  checked f false id (fun c =>
    let '(phys, vsize, psize) := mmap_sizes (xc_bar c) vm_start vm_end vm_pgoff in
    if psize <? vsize then mret (- EINVAL)
    else
      rv ← call (K_io_remap_pfn_range vm_start (Z.shiftr phys PAGE_SHIFT) vsize);
      mret (if nz rv then - EAGAIN else 0)).

(** ** The event devices *)
(* @src xdma/cdev_events.c:27-75 char_events_read *)
Definition char_events_read (f : option (cdev_type * Z)) (buf count pos : Z) : M (pst D) Z :=
  checked f false id (fun c =>
    match xc_user_irq c with
    | None => mret (- EINVAL)
    | Some u =>
        if negb (count =? 4) then mret (- EPROTO)
        else if tst pos 3 then mret (- EPROTO)
        else
          rv ← wait_events u;
          if rv =? - ERESTARTSYS then mret (- ERESTARTSYS)
          else
            x ← lib_dev;
            let events_user := u_events_irq (user_at x u) in
            on_lib (on_dev (upd_user u (fun i => i <| u_events_irq := 0 |>))) ;;
            call_ (K_copy_to_user buf (le_bytes 4 events_user)) ;;
            mret 4
    end).

(** [POLLIN | POLLRDNORM] when there is an event. *)
(* @src xdma/cdev_events.c:77-103 char_events_poll *)
Definition char_events_poll (f : option (cdev_type * Z)) : M (pst D) Z :=
  checked f false u32 (fun c =>
    match xc_user_irq c with
    | None => mret (u32 (- EINVAL))
    | Some u =>
        call_ (K_poll_wait (WQ_events u)) ;;
        x ← lib_dev;
        mret (if nz (u_events_irq (user_at x u)) then 0x41 else 0)
    end).

(** ** The bypass devices *)
Definition desc_bytes (d : xdma_desc) : list Z :=
  mjoin (le_bytes 4 <$> [d_control d; d_bytes d; d_src_addr_lo d; d_src_addr_hi d; d_dst_addr_lo d; d_dst_addr_hi d; d_next_lo d; d_next_hi d]).

(** The loop over the descriptors [ds]; the result so far and the offset. *)
(* @src xdma/cdev_bypass.c:43-60 copy_desc_data *)
Fixpoint copy_desc_loop (ds : list xdma_desc) (buf buf_offset buf_size rc : Z) : M (pst D) (Z * Z) :=
  match ds with
  | [] => mret (rc, buf_offset)
  | d :: ds =>
      if buf_offset + sizeof_xdma_desc <=? buf_size then
        copy_err ← call (K_copy_to_user (buf + buf_offset) (desc_bytes d));
        if nz copy_err then copy_desc_loop ds buf buf_size buf_size (- EINVAL)
        else copy_desc_loop ds buf (buf_offset + sizeof_xdma_desc) buf_size rc
      else copy_desc_loop ds buf buf_offset buf_size (- ENOMEM)
  end.

(** The descriptors of a transfer, from the engine's ring. *)
Definition xfer_descs (e : xdma_engine) (x : xdma_transfer) : list xdma_desc :=
  (fun j => default desc_zero (default [] (eng_desc e) !! Z.to_nat (x_desc_virt x + j))) <$> seqZ 0 (x_desc_num x).

(* @src xdma/cdev_bypass.c:26-63 copy_desc_data *)
Definition copy_desc_data (e : xdma_engine) (x : xdma_transfer) (buf buf_offset buf_size : Z) : M (pst D) (Z * Z) :=
  if buf =? 0 then mret (- EINVAL, buf_offset)
  else copy_desc_loop (xfer_descs e x) buf buf_offset buf_size 0.

(** The result of the last transfer is the one kept. *)
(* @src xdma/cdev_bypass.c:101-107 char_bypass_read *)
Fixpoint bypass_read_loop (e : xdma_engine) (xs : list xdma_transfer) (buf buf_offset count rc : Z) : M (pst D) (Z * Z) :=
  match xs with
  | [] => mret (rc, buf_offset)
  | x :: xs =>
      '(rc, buf_offset) ← copy_desc_data e x buf buf_offset count;
      bypass_read_loop e xs buf buf_offset count rc
  end.

(* @src xdma/cdev_bypass.c:65-115 char_bypass_read *)
Definition char_bypass_read (f : option (cdev_type * Z)) (buf count : Z) : M (pst D) Z :=
  checked f true id (fun c =>
    x ← lib_dev;
    if tst count 3 then mret (- EINVAL)
    else if buf =? 0 then mret (- EINVAL)
    else if xd_bypass_bar_idx x <? 0 then mret (- ENODEV)
    else
      let '(h2c, ch) := default (true, 0) (xc_engine c) in
      e ← lib_eng h2c ch;
      heap ← gets (fun s => ds_heap (w_dst (p_wst s)));
      '(rc, buf_offset) ← bypass_read_loop e ((fun p => default xfer_zero (heap !! p)) <$> eng_transfer_list e) buf 0 count 0;
      mret (if rc <? 0 then rc else buf_offset)).

(** The loop writing [n] words; the result so far. *)
(* @src xdma/cdev_bypass.c:160-173 char_bypass_write *)
Fixpoint bypass_write_loop (n : nat) (buf buf_offset bypass_addr rc : Z) : M (pst D) Z :=
  match n with
  | O => mret rc
  | S n =>
      copy_err ← call (K_copy_from_user (buf + buf_offset) 4);
      if nz copy_err then mret (- EINVAL)
      else
        desc_data ← user_bytes 4 (buf + buf_offset);
        write_register (le_word desc_data) bypass_addr ;;
        bypass_write_loop n buf (buf_offset + 4) bypass_addr (s32 (buf_offset + 4))
  end.

(** The offset is added to a pointer to 32-bit words.  The count is a multiple of
    4, so that the loop takes [count / 4] rounds. *)
(* @src xdma/cdev_bypass.c:117-179 char_bypass_write *)
Definition char_bypass_write (f : option (cdev_type * Z)) (buf count : Z) : M (pst D) Z :=
  checked f true id (fun c =>
    x ← lib_dev;
    if tst count 3 then mret (- EINVAL)
    else if buf =? 0 then mret (- EINVAL)
    else if xd_bypass_bar_idx x <? 0 then mret (- ENODEV)
    else
      let '(h2c, ch) := default (true, 0) (xc_engine c) in
      e ← lib_eng h2c ch;
      let bypass_addr := xd_bar_at x (xd_bypass_bar_idx x) + 4 * eng_bypass_offset e in
      bypass_write_loop (Z.to_nat (count / 4)) buf 0 bypass_addr 0).
End Code.
