(* ===== verification/CtrlSpec.v ===== *)
(** Properties of the control, event and bypass devices ([cdev_ctrl.c],
    [cdev_events.c], [cdev_bypass.c]). *)
From S2P Require Import Prelude Kernel Types Engine Device Irq IrqSetup Threads Probe Open Cdev CdevSpec Bytes Ctrl.
Local Open Scope Z_scope.

(** A file whose device passes [xcdev_check]. *)
Record usable {D} (s : pst D) (i : cdev_type * Z) : Prop := {
  us_magic : xc_magic (cdev_at (p_xpdev s) i) = MAGIC_CHAR;
  us_xdev : xc_xdev (cdev_at (p_xpdev s) i) <> 0;
  us_device : xd_magic (ds_dev (w_dst (p_wst s))) = MAGIC_DEVICE;
}.
(** ... and whose engine does. *)
Definition engine_usable {D} (s : pst D) (i : cdev_type * Z) : Prop :=
  exists h2c ch, xc_engine (cdev_at (p_xpdev s) i) = Some (h2c, ch)
    /\ eng_magic (get_eng h2c ch (w_dst (p_wst s))) = MAGIC_ENGINE.

Section Check.
Context {D : Type} `{Env D}.
Implicit Types (s : pst D).

Lemma wp_checked {A} i check_engine bad (k : xdma_cdev -> M (pst D) A) (Q : A -> pst D -> Prop) s :
  usable s i -> (check_engine = true -> engine_usable s i) -> wp (k (cdev_at (p_xpdev s) i)) Q s ->
  wp (checked (Some i) check_engine bad k) Q s.
Proof.
  intros [U1 U2 U3] He HQ. unfold checked. do 3 pv_step. cbn [fmap option_fmap option_map xcdev_check].
  rewrite U1. change (negb (MAGIC_CHAR =? MAGIC_CHAR)) with false. cbv iota. do 2 pv_step. rewrite U3.
  destruct (Z.eqb_spec (xc_xdev (cdev_at (p_xpdev s) i)) 0); [done|].
  change (false || negb (MAGIC_DEVICE =? MAGIC_DEVICE)) with false. cbv iota. destruct check_engine.
  - destruct (He eq_refl) as (h2c & ch & -> & Hm). do 2 pv_step. rewrite Hm. by pv_step.
  - by pv_step.
Qed.

(** A file whose device was removed, or is something else, is refused. *)
Lemma checked_refuses {A} i check_engine bad (k : xdma_cdev -> M (pst D) A) s :
  ~ usable s i -> checked (Some i) check_engine bad k s = (bad (- EINVAL), s).
Proof.
  intros Hu. rewrite (surjective_pairing (checked _ _ _ _ _)).
  assert (wp (checked (Some i) check_engine bad k) (fun r s' => (r, s') = (bad (- EINVAL), s)) s) as Hw; [|exact (wp_run _ _ _ Hw)].
  unfold checked. do 3 pv_step. cbn [fmap option_fmap option_map xcdev_check].
  destruct (Z.eqb_spec (xc_magic (cdev_at (p_xpdev s) i)) MAGIC_CHAR) as [E|]; cbn [negb]; [|do 2 pv_step; done].
  do 2 pv_step. destruct (Z.eqb_spec (xc_xdev (cdev_at (p_xpdev s) i)) 0); cbn [orb]; [do 2 pv_step; done|].
  destruct (Z.eqb_spec (xd_magic (ds_dev (w_dst (p_wst s)))) MAGIC_DEVICE); cbn [negb]; [by destruct Hu|do 2 pv_step; done].
Qed.
End Check.

(** ** Mapping a BAR *)
Section Mmap.
Context {D : Type} `{Env D} (bar_start bar_end : Z -> Z).
Implicit Types (s : pst D).

(** C37 [bridge_mmap] maps exactly the part of the BAR asked for, or refuses.  For an
    offset within the BAR, the request is refused with [- EINVAL], before anything
    is mapped, when the range ends behind the BAR's end; otherwise the pages from
    the BAR's start plus the offset on are mapped, for exactly the size asked for,
    all of them in the BAR.  For an offset behind the BAR's end the remaining size
    wraps around: the request is not refused, and what is mapped lies outside of
    the BAR. *)
Theorem bridge_mmap_range i vm_start vm_end vm_pgoff s :
  usable s i ->
  let bar := xc_bar (cdev_at (p_xpdev s) i) in
  let len := bar_end bar - bar_start bar + 1 in
  let off := vm_pgoff * 2 ^ 12 in
  let size := vm_end - vm_start in
  0 <= bar_start bar -> 0 < len -> bar_start bar + len < 2 ^ 63 -> (4096 | bar_start bar) ->
  0 <= off < 2 ^ 62 -> 0 <= vm_start <= vm_end -> vm_end < 2 ^ 62 ->
  let '(rv, s') := bridge_mmap bar_start bar_end (Some i) vm_start vm_end vm_pgoff s in
  if bool_decide (off <= len) && bool_decide (len < off + size) then rv = - EINVAL /\ s' = s
  else exists r,
    ptrace s' = ptrace s ++ [Ev_call (K_io_remap_pfn_range vm_start (bar_start bar / 4096 + vm_pgoff) size) r]
    /\ (rv = 0 <-> r = 0)
    /\ (off <= len -> bar_start bar <= 4096 * (bar_start bar / 4096 + vm_pgoff)
                      /\ 4096 * (bar_start bar / 4096 + vm_pgoff) + size <= bar_start bar + len)
    /\ (len < off -> bar_start bar + len < 4096 * (bar_start bar / 4096 + vm_pgoff)).
Proof.
  intros Hu bar len off size Hs Hlen Hend Hal Hoff Hvm Hvm2. apply wp_elim. unfold bridge_mmap. apply wp_checked; [done|done|].
  fold bar. unfold mmap_sizes, PAGE_SHIFT. rewrite Z.shiftl_mul_pow2 by lia. fold off size. fold len.
  rewrite (u64_small off), (u64_small size), (u64_small (bar_start bar + off)) by lia.
  assert (u64 (len - off) = if decide (off <= len) then len - off else len - off + 2 ^ 64) as ->.
  { destruct (decide (off <= len)); [apply u64_small; lia|]. symmetry. apply (Z.mod_unique_pos _ _ (-1)); lia. }
  assert (Z.shiftr (bar_start bar + off) 12 = bar_start bar / 4096 + vm_pgoff) as Hpfn.
  { rewrite Z.shiftr_div_pow2 by lia. subst off. change (2 ^ 12) with 4096. apply Z.div_add. lia. }
  assert (4096 * (bar_start bar / 4096) = bar_start bar) as Hdiv by (destruct Hal as [q ->]; rewrite Z.div_mul by lia; lia).
  assert (forall b : bool, b = bool_decide (off <= len) && bool_decide (len < off + size) ->
    ((if decide (off <= len) then len - off else len - off + 2 ^ 64) <? size) = b) as Hb.
  { intros b ->. case_bool_decide; case_bool_decide; destruct (decide (off <= len)); try lia; cbn [andb];
      apply Z.ltb_lt || apply Z.ltb_ge; lia. }
  rewrite (Hb _ eq_refl). destruct (_ && _) eqn:E; [by pv_step|].
  do 3 pv_step. rewrite Hpfn in *. exists v. split_and!.
  - by match goal with M : moved _ _ _ _ |- _ => apply M end.
  - unfold nz. destruct (Z.eqb_spec v 0); cbn; split; (done || intros; exfalso; done).
  - intros Hle. rewrite bool_decide_eq_true_2 in E by done. apply bool_decide_eq_false in E. lia.
  - lia.
Qed.
End Mmap.

(** *** Witness: a 64 KB BAR, of which 8 KB are asked for at 4 KB *)
Definition ex_file : pst sim :=
  {| p_wst := {| w_dst := dev_start (sim_start [] (fun _ => 0)) (xdev_zero <| xd_magic := MAGIC_DEVICE |>) [] [];
                 w_self := 0x100; w_cs_threads := 0; w_threads := []; w_xdev_list := []; w_oops := false |};
     p_xpdev := xpdev_zero <| xp_cdevs := {[ (CHAR_CTRL, 0) := cdev_zero <| xc_magic := MAGIC_CHAR |> <| xc_xdev := 0x100 |> ]} |>;
     p_class := 0x200; p_cache := 0x300; p_cnt := 1; p_drvdata := 0x400 |}.

Lemma ex_file_usable : usable ex_file (CHAR_CTRL, 0).
Proof. by constructor. Qed.
Lemma ex_bar_aligned : (4096 | 0xf0000000).
Proof. by exists 0xf0000. Qed.
Lemma ex_bar_bounds : 0 <= 0xf0000000 /\ 0 < 0x10000 /\ 0xf0000000 + 0x10000 < 2 ^ 63.
Proof. lia. Qed.
Lemma ex_mmap_bounds : 0 <= 1 * 2 ^ 12 < 2 ^ 62 /\ 0 <= 0x7000 <= 0x9000 /\ 0x9000 < 2 ^ 62.
Proof. lia. Qed.

Lemma bridge_mmap_range_witness :
  ltac:(statement_of (bridge_mmap_range (fun _ => 0xf0000000) (fun _ => 0xf000ffff) (CHAR_CTRL, 0) 0x7000 0x9000 1 ex_file ex_file_usable
    (proj1 ex_bar_bounds) (proj1 (proj2 ex_bar_bounds)) (proj2 (proj2 ex_bar_bounds)) ex_bar_aligned
    (proj1 ex_mmap_bounds) (proj1 (proj2 ex_mmap_bounds)) (proj2 (proj2 ex_mmap_bounds)))).
Proof.
  instance_of (bridge_mmap_range (fun _ => 0xf0000000) (fun _ => 0xf000ffff) (CHAR_CTRL, 0) 0x7000 0x9000 1 ex_file ex_file_usable
    (proj1 ex_bar_bounds) (proj1 (proj2 ex_bar_bounds)) (proj2 (proj2 ex_bar_bounds)) ex_bar_aligned
    (proj1 ex_mmap_bounds) (proj1 (proj2 ex_mmap_bounds)) (proj2 (proj2 ex_mmap_bounds))).
Defined.

Example ex_mmap_past_end :
  (bridge_mmap (fun _ => 0xf0000000) (fun _ => 0xf000ffff) (Some (CHAR_CTRL, 0)) 0x7000 0x9000 0x100 ex_file).1 = 0.
Proof. by vm_compute. Qed.
