(* ===== verification/Sgdma.v ===== *)
(** The DMA devices ([cdev_sgdma.c]): a user's buffer is pinned, described by a
    scatterlist and handed to the engine behind the device; asynchronous requests
    of several segments; the ioctls of the engine. *)
From S2P Require Import Prelude Kernel Types Desc Request Transfer Engine EngineRegs Submit Aperture Device Threads EngineSetup Open Cdev Bytes Ctrl.
Local Open Scope Z_scope.

Definition PAGE_SIZE : Z := 4096.

(** An entry of a scatterlist before it is mapped: page, length, offset. *)
Record sg_page := { sp_page : Z; sp_len : Z; sp_offset : Z }.

(** [cb_pages] is the address of the array, [cb_page] its contents; [cb_sgt] the
    entries of the table.  [count] is not used; [io_done] is set exactly when
    [private] is, to [async_io_handler]. *)
(* @src xdma/libxdma.h:279-294 xdma_io_cb *)
Record xdma_io_cb := {
  cb_buf : Z;
  cb_len : Z;
  cb_private : Z;
  cb_pages_nr : Z;
  cb_sgt : list sg_page;
  cb_pages : Z;
  cb_page : list Z;
  cb_ep_addr : Z;
  cb_req : option (Z * xdma_request_cb);
  cb_write : bool;
}.
#[export] Instance xdma_io_cb_settable : Settable xdma_io_cb := fun c =>
  Build_xdma_io_cb (cb_buf c) (cb_len c) (cb_private c) (cb_pages_nr c) (cb_sgt c) (cb_pages c) (cb_page c)
    (cb_ep_addr c) (cb_req c) (cb_write c).
Definition io_cb_zero : xdma_io_cb := Build_xdma_io_cb 0 0 0 0 [] 0 [] 0 None false.

(** [iocb] is named by its address; [ca_file] is the private data of its file. *)
(* @src xdma/xdma_mod.h:103-116 cdev_async_io *)
Record cdev_async_io := {
  ca_iocb : Z;
  ca_file : option (cdev_type * Z);
  ca_cb : Z;
  ca_write : bool;
  ca_cancel : bool;
  ca_cmpl_cnt : Z;
  ca_req_cnt : Z;
  ca_res : Z;
  ca_res2 : Z;
  ca_err_cnt : Z;
}.
#[export] Instance cdev_async_io_settable : Settable cdev_async_io := fun c =>
  Build_cdev_async_io (ca_iocb c) (ca_file c) (ca_cb c) (ca_write c) (ca_cancel c) (ca_cmpl_cnt c) (ca_req_cnt c)
    (ca_res c) (ca_res2 c) (ca_err_cnt c).

(** The module with its requests in flight: the control blocks by their address,
    the asynchronous requests, and the addresses of the performance parameters. *)
Record ast (D : Type) := {
  a_pst : pst D;
  a_cbs : gmap Z xdma_io_cb;
  a_caios : gmap Z cdev_async_io;
  a_perf : gmap (bool * Z) Z;
}.
Arguments Build_ast {D}.
Arguments a_pst {D}.
Arguments a_cbs {D}.
Arguments a_caios {D}.
Arguments a_perf {D}.
#[export] Instance ast_settable D : Settable (ast D) := fun s => Build_ast (a_pst s) (a_cbs s) (a_caios s) (a_perf s).
#[export] Instance ast_has_pst D : Has (ast D) (pst D) :=
  {| part := a_pst; with_part := fun p s => s <| a_pst := p |> |}.
#[export] Instance ast_has_k D : Has (ast D) (kstate D) :=
  {| part := fun s => part (a_pst s); with_part := fun k s => s <| a_pst ::= with_part k |> |}.

(** The padding, which is copied in and out, has fields of its own. *)
(* @src xdma/cdev_sgdma.h:61-68 xdma_aperture_ioctl *)
Record xdma_aperture_ioctl := {
  io_ep_addr : Z;
  io_aperture : Z;
  io_pad1 : Z;
  io_buffer : Z;
  io_len : Z;
  io_error : Z;
  io_pad2 : Z;
  io_done : Z;
}.
#[export] Instance xdma_aperture_ioctl_settable : Settable xdma_aperture_ioctl := fun i =>
  Build_xdma_aperture_ioctl (io_ep_addr i) (io_aperture i) (io_pad1 i) (io_buffer i) (io_len i) (io_error i) (io_pad2 i) (io_done i).

(** The two structures as the bytes that are copied from and to the user. *)
Definition aperture_of_bytes (l : list Z) : xdma_aperture_ioctl :=
  Build_xdma_aperture_ioctl (word_at l 0 8) (word_at l 8 4) (word_at l 12 4) (word_at l 16 8) (word_at l 24 8)
    (s32 (word_at l 32 4)) (word_at l 36 4) (word_at l 40 8).
Definition aperture_bytes (i : xdma_aperture_ioctl) : list Z :=
  le_bytes 8 (io_ep_addr i) ++ le_bytes 4 (io_aperture i) ++ le_bytes 4 (io_pad1 i) ++ le_bytes 8 (io_buffer i) ++
  le_bytes 8 (io_len i) ++ le_bytes 4 (io_error i) ++ le_bytes 4 (io_pad2 i) ++ le_bytes 8 (io_done i).
Definition perf_bytes (p : xdma_performance_ioctl) : list Z :=
  mjoin (le_bytes 4 <$> [p_version p; p_transfer_size p; p_stopped p; p_iterations p]) ++
  mjoin (le_bytes 8 <$> [p_clock_cycle_count p; p_data_cycle_count p; p_pending_count p]).
Definition perf_of_bytes (l : list Z) : xdma_performance_ioctl :=
  Build_xdma_performance_ioctl (word_at l 0 4) (word_at l 4 4) (word_at l 8 4) (word_at l 12 4) (word_at l 16 8) (word_at l 24 8)
    (word_at l 32 8).

Section Code.
Context {D : Type} `{Env D} (pm : params).
Variable sizeof_request_cb : Z.
Variable vmalloc_range : Z * Z.
(** Waiting for a transfer, with what runs meanwhile. *)
Variable wait : xfer_ptr -> Z -> M (est D) unit.
(** What mapping a scatterlist for DMA makes of its entries. *)
Variable dma_view : list sg_page -> list sg_entry.
(** The module parameters, in seconds. *)
Variables h2c_timeout c2h_timeout : Z.

Definition timeout_ms (write : bool) : Z := s32 ((if write then h2c_timeout else c2h_timeout) * 1000).

(** ** Alignment *)
(* @src xdma/cdev_sgdma.c:203-251 check_transfer_align *)
Definition check_transfer_align (engine : option xdma_engine) (buf count pos : Z) (sync : bool) : Z :=
  match engine with
  | None => - EINVAL
  | Some e =>
      let buf_lsb := Z.land (s32 buf) (eng_addr_align e - 1) in
      let pos_lsb := Z.land (s32 pos) (eng_addr_align e - 1) in
      if eng_non_incr_addr e then
        let len_lsb := Z.land count (u64 (eng_len_granularity e - 1)) in
        if nz buf_lsb then - EINVAL
        else if nz pos_lsb && sync then - EINVAL
        else if nz len_lsb then - EINVAL else 0
      else if negb (buf_lsb =? pos_lsb) then - EINVAL else 0
  end.

(** ** Position *)
(** The result and the new position of the file. *)
(* @src xdma/cdev_sgdma.c:158-186 char_sgdma_llseek *)
Definition char_sgdma_llseek (f_pos off whence : Z) : Z * Z :=
  let newpos := if whence =? 0 then Some off
                else if whence =? 1 then Some (s64 (f_pos + off))
                else if whence =? 2 then Some (s64 (4294967295 + off)) else None in
  match newpos with
  | None => (- EINVAL, f_pos)
  | Some newpos => if newpos <? 0 then (- EINVAL, f_pos) else (newpos, newpos)
  end.

(** ** User buffers

    The functions below work on a control block as a value; [id] is the name of
    its table among those the library knows. *)

Definition set_sgt (id : Z) (t : option sg_table) : M (pst D) unit :=
  on_lib (on_dev (modify (fun s => s <| ds_sgts ::= partial_alter (fun _ => t) id |>))).

(** The loop that lets the pages go; it stops at an empty entry. *)
(* @src xdma/cdev_sgdma.c:279-286 char_sgdma_unmap_user_buf *)
Fixpoint put_pages (pages : list Z) (write : bool) : M (pst D) unit :=
  match pages with
  | [] => mret tt
  | p :: pages =>
      if nz p then
        when (negb write) (call_ (K_set_page_dirty p)) ;;
        call_ (K_put_page p) ;; put_pages pages write
      else mret tt
  end.

(* @src xdma/cdev_sgdma.c:270-293 char_sgdma_unmap_user_buf *)
Definition char_sgdma_unmap_user_buf (id : Z) (cb : xdma_io_cb) (write : bool) : M (pst D) xdma_io_cb :=
  call_ K_sg_free_table ;; set_sgt id None ;;
  let cb := cb <| cb_sgt := [] |> in
  if (cb_pages cb =? 0) || (cb_pages_nr cb =? 0) then mret cb
  else
    put_pages (take (Z.to_nat (cb_pages_nr cb)) (cb_page cb)) write ;;
    call_ (K_kfree (cb_pages cb)) ;;
    mret (cb <| cb_pages := 0 |>).

Fixpoint put_all (pages : list Z) : M (pst D) unit :=
  match pages with [] => mret tt | p :: pages => call_ (K_put_page p) ;; put_all pages end.

(* @src xdma/cdev_sgdma.c:257-268 xdma_io_cb_release *)
Definition xdma_io_cb_release (id : Z) (cb : xdma_io_cb) : M (pst D) xdma_io_cb :=
  put_all (take (Z.to_nat (cb_pages_nr cb)) (cb_page cb)) ;;
  call_ K_sg_free_table ;; set_sgt id None ;; call_ (K_kfree (cb_pages cb)) ;;
  mret io_cb_zero.

(* @src xdma/cdev_sgdma.c:301-303 char_sgdma_map_user_buf_to_sgl *)
Definition buf_pages_nr (buf len : Z) : Z :=
  u32 (Z.shiftr (u64 (buf + len + PAGE_SIZE - 1 - Z.ldiff buf (PAGE_SIZE - 1))) PAGE_SHIFT).

(** The array [get_user_pages_fast] fills in. *)
Fixpoint pinned (n : nat) (i : Z) : M (pst D) (list Z) :=
  match n with
  | O => mret []
  | S n => p ← call (K_pinned_page i); l ← pinned n (i + 1); mret (p :: l)
  end.

(** Whether a page is followed by itself. *)
(* @src xdma/cdev_sgdma.c:339-347 char_sgdma_map_user_buf_to_sgl *)
Fixpoint dup_pages (pages : list Z) : bool :=
  match pages with
  | p :: (q :: _) as l => (p =? q) || dup_pages l
  | _ => false
  end.

(** The entries made, and what is left of [len]. *)
(* @src xdma/cdev_sgdma.c:349-360 char_sgdma_map_user_buf_to_sgl *)
Fixpoint fill_sgl (pages : list Z) (buf len : Z) : M (pst D) (list sg_page * Z) :=
  match pages with
  | [] => mret ([], len)
  | p :: pages =>
      let offset := Z.land buf (PAGE_SIZE - 1) in
      let nbytes := Z.min (PAGE_SIZE - offset) (u32 len) in
      call_ (K_flush_dcache_page p) ;;
      '(sg, rest) ← fill_sgl pages (u64 (buf + nbytes)) (u64 (len - nbytes));
      mret ({| sp_page := p; sp_len := nbytes; sp_offset := offset |} :: sg, rest)
  end.

(** [goto err_out] *)
(* @src xdma/cdev_sgdma.c:369-372 char_sgdma_map_user_buf_to_sgl *)
Definition map_err_out (id : Z) (cb : xdma_io_cb) (write : bool) (rv : Z) : M (pst D) (Z * xdma_io_cb) :=
  cb ← char_sgdma_unmap_user_buf id cb write; mret (rv, cb).

(** The table's entries for the library are those it will find in it once it is
    mapped. *)
(* @src xdma/cdev_sgdma.c:295-373 char_sgdma_map_user_buf_to_sgl *)
Definition char_sgdma_map_user_buf_to_sgl (id : Z) (cb : xdma_io_cb) (write : bool) : M (pst D) (Z * xdma_io_cb) :=
  let n := buf_pages_nr (cb_buf cb) (cb_len cb) in
  if n =? 0 then mret (- EINVAL, cb)
  else
    rv ← call (K_sg_alloc_table n);
    if nz rv then mret (- ENOMEM, cb)
    else
      set_sgt id (Some (Build_sg_table [] n n)) ;;
      pages ← call (K_kcalloc n 8);
      let cb := cb <| cb_pages := pages |> <| cb_page := replicate (Z.to_nat n) 0 |> in
      if pages =? 0 then map_err_out id cb write (- ENOMEM)
      else
        rv ← call (K_get_user_pages_fast (cb_buf cb) n);
        if rv <? 0 then map_err_out id cb write rv
        else
          l ← pinned (Z.to_nat rv) 0;
          let cb := cb <| cb_page := l ++ replicate (Z.to_nat (n - rv)) 0 |> in
          if negb (rv =? n) then map_err_out id (cb <| cb_pages_nr := rv |>) write (- EFAULT)
          else if dup_pages l then map_err_out id (cb <| cb_pages_nr := n |>) write (- EFAULT)
          else
            '(sg, rest) ← fill_sgl l (cb_buf cb) (cb_len cb);
            let cb := cb <| cb_sgt := sg |> in
            set_sgt id (Some (Build_sg_table (dma_view sg) n n)) ;;
            if nz rest then mret (- EINVAL, cb)
            else mret (0, cb <| cb_pages_nr := n |>).

(** ** Reading and writing *)

(** The engine a transfer is for. *)
(* @src xdma/libxdma.c:3480-3499 xdma_xfer_submit *)
Definition on_channel {A} (bad : Z -> A) (write : bool) (channel : Z) (m : xdma_dev -> M (est D) A) : M (pst D) A :=
  x ← lib_dev;
  if (if write then xd_h2c_channel_max x else xd_c2h_channel_max x) <=? channel then mret (bad (- EINVAL))
  else on_lib (on_dev (on_engine write channel (m x))).

(** The handle a file's device keeps, checked as every submission does. *)
(* @src xdma/libxdma.c:3474-3478 xdma_xfer_submit *)
Definition with_handle {A} (bad : Z -> A) (hndl : Z) (m : M (pst D) A) : M (pst D) A :=
  if hndl =? 0 then mret (bad (- EINVAL))
  else
    x ← lib_dev; l ← on_lib (gets w_xdev_list);
    if debug_check_dev_hndl l (xd_pdev x) hndl <? 0 then mret (bad (- EINVAL)) else m.

(** The engine behind a device, when it has one. *)
Definition engine_of (c : xdma_cdev) : M (pst D) (option xdma_engine) :=
  match xc_engine c with None => mret None | Some (h2c, ch) => e ← lib_eng h2c ch; mret (Some e) end.

Definition dir_mismatch (write : bool) (e : xdma_engine) : bool :=
  negb (dir_eqb (eng_dir e) (if write then DMA_TO_DEVICE else DMA_FROM_DEVICE)).

(** The control block is on the stack, at [cb_id]. *)
(* @src xdma/cdev_sgdma.c:375-424 char_sgdma_read_write *)
Definition char_sgdma_read_write (cb_id : Z) (f : option (cdev_type * Z)) (buf count pos : Z) (write : bool) : M (pst D) Z :=
  checked f true id (fun c =>
    engine ← engine_of c;
    let e := default engine_zero engine in
    if dir_mismatch write e then mret (- EINVAL)
    else
      let rv := check_transfer_align engine buf count pos true in
      if nz rv then mret rv
      else
        let cb := io_cb_zero <| cb_buf := buf |> <| cb_len := count |> <| cb_ep_addr := u64 pos |> <| cb_write := write |> in
        '(rv, cb) ← char_sgdma_map_user_buf_to_sgl cb_id cb write;
        if rv <? 0 then mret rv
        else
          res ← with_handle id (xc_xdev c) (on_channel id write (eng_channel e) (fun x =>
                  xdma_xfer_submit pm sizeof_request_cb vmalloc_range wait x write (u64 pos) cb_id false (timeout_ms write)));
          char_sgdma_unmap_user_buf cb_id cb write ;;
          mret res).

(* @src xdma/cdev_sgdma.c:427-431 char_sgdma_write *)
Definition char_sgdma_write (cb_id : Z) (f : option (cdev_type * Z)) (buf count pos : Z) : M (pst D) Z :=
  char_sgdma_read_write cb_id f buf count pos true.

(* @src xdma/cdev_sgdma.c:433-437 char_sgdma_read *)
Definition char_sgdma_read (cb_id : Z) (f : option (cdev_type * Z)) (buf count pos : Z) : M (pst D) Z :=
  char_sgdma_read_write cb_id f buf count pos false.
(** ** Asynchronous requests *)

(** The code follows a pointer that is [NULL], freed or out of its array. *)
Definition oops : M (ast D) unit := modify (fun s => s <| a_pst ::= fun p => p <| p_wst ::= fun w => w <| w_oops := true |> |> |>).
Definition on_mod {A} (m : M (pst D) A) : M (ast D) A := zoom m.

Definition the_cb (a : Z) : M (ast D) xdma_io_cb := gets (fun s => default io_cb_zero (a_cbs s !! a)).
Definition set_cb (a : Z) (c : xdma_io_cb) : M (ast D) unit := modify (fun s => s <| a_cbs ::= <[a := c]> |>).
Definition upd_caio (a : Z) (f : cdev_async_io -> cdev_async_io) : M (ast D) unit :=
  modify (fun s => s <| a_caios ::= alter f a |>).

(** [kmem_cache_free] *)
Definition free_caio (a : Z) : M (ast D) unit :=
  cache ← on_mod (gets p_cache);
  call_ (K_kmem_cache_free cache a) ;; modify (fun s => s <| a_caios ::= delete a |>).

(** The bytes a completed segment moved. *)
(* @src xdma/cdev_sgdma.c:88-93 async_io_handler *)
Definition aio_completion (cb_hndl : Z) (c : xdma_cdev) (err : Z) : M (ast D) Z :=
  cb ← the_cb cb_hndl; engine ← on_mod (engine_of c);
  if nz err then mret 0
  else
    match cb_req cb with
    | None => oops ;; mret 0
    | Some (p, req) =>
        r ← on_mod (on_channel Some (cb_write cb) (eng_channel (default engine_zero engine)) (fun _ =>
              xdma_xfer_completion pm vmalloc_range p req cb_hndl false));
        match r with None => oops ;; mret 0 | Some n => mret n end
    end.

(** What a finished segment adds to its request. *)
(* @src xdma/cdev_sgdma.c:97-102 async_io_handler *)
Definition aio_account (err numbytes : Z) (c : cdev_async_io) : cdev_async_io :=
  let c := c <| ca_res2 ::= fun r => Z.lor r (if err <? 0 then err else 0) |> in
  (if nz (ca_res2 c) then c <| ca_err_cnt ::= fun n => s32 (n + 1) |> else c)
    <| ca_cmpl_cnt ::= fun n => s32 (n + 1) |> <| ca_res ::= fun r => s64 (r + numbytes) |>.

(** [lock_stat] is that of another context: [cancel] and the accounting run under
    the lock. *)
(* @src xdma/cdev_sgdma.c:51-152 async_io_handler *)
Definition async_io_handler (cb_hndl err : Z) : M (ast D) unit :=
  cb ← the_cb cb_hndl;
  let a := cb_private cb in
  if a =? 0 then mret tt
  else
    caio ← gets (fun s => a_caios s !! a);
    match caio with
    | None => oops
    | Some caio =>
        c ← on_mod (gets (fun s => cdev_at (p_xpdev s) <$> ca_file caio));
        rv ← on_mod (xcdev_check c true);
        if rv <? 0 then mret tt
        else
          lock_stat ← call (K_spin_trylock a);
          if lock_stat =? 0 then call_ (K_ki_complete (ca_iocb caio) (- EBUSY)) ;; free_caio a
          else if ca_cancel caio then free_caio a ;; call_ (K_kfree cb_hndl)
          else
            numbytes ← aio_completion cb_hndl (default cdev_zero c) err;
            cb ← the_cb cb_hndl;
            cb ← on_mod (char_sgdma_unmap_user_buf cb_hndl cb (cb_write cb));
            set_cb cb_hndl cb ;;
            let caio := aio_account err numbytes caio in
            upd_caio a (fun _ => caio) ;;
            when (ca_cmpl_cnt caio =? ca_req_cnt caio)
              (call_ (K_ki_complete (ca_iocb caio) (if nz (ca_err_cnt caio) then ca_res2 caio else ca_res caio)) ;;
               free_caio a ;; call_ (K_kfree cb_hndl))
    end.

Variables sizeof_io_cb sizeof_performance : Z.

(** The segments [io] from index [i] on, for the request at [a]; [Some] is an early
    return. *)
(* @src xdma/cdev_sgdma.c:477-503 cdev_aio_write *)
Fixpoint aio_loop (io : list (Z * Z)) (a cbs : Z) (c : xdma_cdev) (write : bool) (pos i : Z) : M (ast D) (option Z) :=
  match io with
  | [] => mret None
  | (iov_base, iov_len) :: io =>
      let id := cbs + i * sizeof_io_cb in
      engine ← on_mod (engine_of c);
      let cb := io_cb_zero <| cb_buf := iov_base |> <| cb_len := iov_len |> <| cb_ep_addr := u64 pos |>
                  <| cb_write := write |> <| cb_private := a |> in
      set_cb id cb ;;
      let rv := check_transfer_align engine (cb_buf cb) (cb_len cb) pos true in
      if nz rv then free_caio a ;; mret (Some rv)
      else
        '(rv, cb) ← on_mod (char_sgdma_map_user_buf_to_sgl id cb write);
        set_cb id cb ;;
        if rv <? 0 then mret (Some rv)
        else
          r ← on_mod (with_handle (fun rv => Some (rv, None)) (xc_xdev c)
                (on_channel (fun rv => Some (rv, None)) write (eng_channel (default engine_zero engine)) (fun x =>
                   xdma_xfer_submit_nowait pm sizeof_request_cb vmalloc_range id x write (cb_ep_addr cb) id false)));
          match r with
          | None => oops
          | Some (_, req) => set_cb id (cb <| cb_req := req |>)
          end ;;
          aio_loop io a cbs c write pos (i + 1)
  end.

(** Both directions: they differ in [write] only. *)
(* @src xdma/cdev_sgdma.c:439-509 cdev_aio_write *)
Definition cdev_aio (write : bool) (iocb : Z) (f : option (cdev_type * Z)) (io : list (Z * Z)) (count pos : Z) : M (ast D) Z :=
  match f with
  | None => mret (- EINVAL)
  | Some i =>
      c ← on_mod (the_cdev i); engine ← on_mod (engine_of c);
      match engine with
      | None => oops ;; mret 0
      | Some e =>
          if dir_mismatch write e then mret (- EINVAL)
          else
            cache ← on_mod (gets p_cache);
            a ← call (K_kmem_cache_alloc cache);
            if a =? 0 then oops ;; mret 0
            else
              cbs ← call (K_kzalloc (u64 (count * sizeof_io_cb)));
              modify (fun s => s <| a_caios ::= <[a := Build_cdev_async_io iocb f cbs write false 0 (s32 count) 0 0 0]> |>) ;;
              if (cbs =? 0) && negb (count =? 0) then oops ;; mret 0
              else
                r ← aio_loop io a cbs c write pos 0;
                match r with
                | Some rv => mret rv
                | None =>
                    e ← on_mod (engine_of c);
                    match e ≫= eng_cmplthp with Some id => call_ (K_kthread_wakeup id) | None => mret tt end ;;
                    mret (- EIOCBQUEUED)
                end
      end
  end.

Definition cdev_aio_write := cdev_aio true.
(* @src xdma/cdev_sgdma.c:511-583 cdev_aio_read *)
Definition cdev_aio_read := cdev_aio false.

(** An iterator over a user's segments. *)
Record iov_iter := { it_iov : list (Z * Z); it_nr_segs : Z; it_iov_offset : Z }.

(* @src xdma/cdev_sgdma.c:586-599 cdev_write_iter *)
Definition cdev_write_iter (iocb : Z) (f : option (cdev_type * Z)) (io : iov_iter) : M (ast D) Z :=
  cdev_aio_write iocb f (take (Z.to_nat (it_nr_segs io)) (it_iov io)) (it_nr_segs io) (it_iov_offset io).
(* @src xdma/cdev_sgdma.c:601-614 cdev_read_iter *)
Definition cdev_read_iter (iocb : Z) (f : option (cdev_type * Z)) (io : iov_iter) : M (ast D) Z :=
  cdev_aio_read iocb f (take (Z.to_nat (it_nr_segs io)) (it_iov io)) (it_nr_segs io) (it_iov_offset io).
(** ** The ioctls of an engine *)

(** A function of the library on the engine behind a device. *)
Definition on_eng {A} (h : bool * Z) (m : M (est D) A) : M (ast D) A :=
  on_mod (on_lib (on_dev (on_engine h.1 h.2 m))).
Definition eng_at (h : bool * Z) : M (ast D) xdma_engine := on_eng h the_engine.

Variable IOCTL_XDMA_PERF_V1 : Z.
Variable dma_bus : Z -> Z.
Variable sizeof_transfer : Z.

Definition set_perf (h : bool * Z) (p : option xdma_performance_ioctl) : M (ast D) unit :=
  on_eng h (upd_engine (fun e => e <| eng_xdma_perf := p |>)).

(* @src xdma/cdev_sgdma.c:618-672 ioctl_do_perf_start *)
Definition ioctl_do_perf_start (h : bool * Z) (arg : Z) : M (ast D) Z :=
  e ← eng_at h;
  if eng_xdma_perf e is Some _ then mret (- EBUSY)
  else
    p ← call (K_kzalloc sizeof_performance);
    if p =? 0 then mret (- ENOMEM)
    else
      modify (fun s => s <| a_perf ::= <[h := p]> |>) ;;
      set_perf h (Some (Build_xdma_performance_ioctl 0 0 0 0 0 0 0)) ;;
      rv ← call (K_copy_from_user arg sizeof_performance);
      if rv <? 0 then mret (- EINVAL)
      else
        l ← user_bytes 40 arg;
        set_perf h (Some (perf_of_bytes l)) ;;
        if negb (p_version (perf_of_bytes l) =? IOCTL_XDMA_PERF_V1) then mret (- EINVAL)
        else
          on_eng h enable_perf ;;
          x ← on_mod lib_dev;
          r ← on_eng h (xdma_performance_submit pm dma_bus sizeof_transfer x);
          match r with None => oops ;; mret 0 | Some rv => mret rv end.

(** The copy of the parameters to the user, those of [e]. *)
Definition copy_perf (h : bool * Z) (arg : Z) : M (ast D) Z :=
  e ← eng_at h;
  call (K_copy_to_user arg (default [] (perf_bytes <$> eng_xdma_perf e))).

(* @src xdma/cdev_sgdma.c:674-715 ioctl_do_perf_stop *)
Definition ioctl_do_perf_stop (h : bool * Z) (arg : Z) : M (ast D) Z :=
  e ← eng_at h;
  if eng_xdma_perf e is Some _ then
    transfer ← on_eng h (engine_cyclic_stop pm);
    match transfer with
    | None => mret (- EINVAL)
    | Some x =>
        on_eng h get_perf_stats ;;
        rv ← copy_perf h arg;
        if nz rv then mret rv
        else
          call_ (K_kfree x.1) ;;
          on_eng h (modify (fun s => s <| es_heap ::= delete x |>)) ;;
          perf ← gets (fun s => default 0 (a_perf s !! h));
          call_ (K_kfree perf) ;;
          modify (fun s => s <| a_perf ::= delete h |>) ;; set_perf h None ;;
          mret 0
    end
  else mret (- EINVAL).

(* @src xdma/cdev_sgdma.c:717-743 ioctl_do_perf_get *)
Definition ioctl_do_perf_get (h : bool * Z) (arg : Z) : M (ast D) Z :=
  e ← eng_at h;
  if eng_xdma_perf e is Some _ then on_eng h get_perf_stats ;; copy_perf h arg
  else mret (- EPROTO).

(* @src xdma/cdev_sgdma.c:745-748 ioctl_do_addrmode_set *)
Definition ioctl_do_addrmode_set (h : bool * Z) (arg : Z) : M (ast D) Z := on_eng h (engine_addrmode_set arg).

(* @src xdma/cdev_sgdma.c:750-765 ioctl_do_addrmode_get *)
Definition ioctl_do_addrmode_get (h : bool * Z) (arg : Z) : M (ast D) Z :=
  e ← eng_at h; call (K_put_user arg (b2z (eng_non_incr_addr e))).

(* @src xdma/cdev_sgdma.c:767-776 ioctl_do_align_get *)
Definition ioctl_do_align_get (h : bool * Z) (arg : Z) : M (ast D) Z :=
  e ← eng_at h; call (K_put_user arg (eng_addr_align e)).

(** The rounds [xdma_xfer_aperture] may take; [None] when it takes more. *)
Variable fuel : nat.

(* @src xdma/cdev_sgdma.c:779-841 ioctl_do_aperture_dma *)
Definition ioctl_do_aperture_dma (cb_id : Z) (h : bool * Z) (arg : Z) (write : bool) : M (ast D) (option Z) :=
  rv ← call (K_copy_from_user arg 48);
  if rv <? 0 then mret (Some (- EINVAL))
  else
    l ← user_bytes 48 arg;
    let io := aperture_of_bytes l in
    e ← eng_at h;
    if dir_mismatch write e then mret (Some (- EINVAL))
    else
      let rv := check_transfer_align (Some e) (io_buffer io) (io_len io) (io_ep_addr io) true in
      if nz rv then mret (Some rv)
      else
        let cb := io_cb_zero <| cb_buf := io_buffer io |> <| cb_len := io_len io |> <| cb_ep_addr := io_ep_addr io |>
                    <| cb_write := write |> in
        '(rv, cb) ← on_mod (char_sgdma_map_user_buf_to_sgl cb_id cb write);
        if rv <? 0 then mret (Some rv)
        else
          let io := io <| io_error := 0 |> in
          x ← on_mod lib_dev;
          res ← on_eng h (xdma_xfer_aperture pm sizeof_request_cb vmalloc_range wait fuel x write (io_ep_addr io) (io_aperture io)
                            cb_id false (timeout_ms write));
          match res with
          | None => mret None
          | Some res =>
              on_mod (char_sgdma_unmap_user_buf cb_id cb write) ;;
              let io := if res <? 0 then io <| io_error := s32 res |> else io <| io_done := res |> in
              rv ← call (K_copy_to_user arg (aperture_bytes io));
              mret (Some (if rv <? 0 then - EINVAL else io_error io))
          end.

Variables IOCTL_XDMA_PERF_START IOCTL_XDMA_PERF_STOP IOCTL_XDMA_PERF_GET IOCTL_XDMA_ADDRMODE_SET IOCTL_XDMA_ADDRMODE_GET
  IOCTL_XDMA_ALIGN_GET IOCTL_XDMA_APERTURE_R IOCTL_XDMA_APERTURE_W : Z.

(** The check of the device behind a file, before what needs its engine. *)
Definition engine_checked {A} (f : option (cdev_type * Z)) (bad : Z -> A) (k : bool * Z -> M (ast D) A) : M (ast D) A :=
  r ← on_mod (checked f true (fun rv => (rv, None)) (fun c => mret (0, xc_engine c)));
  match r.2 with Some h => k h | None => mret (bad r.1) end.

Definition done_with (m : M (ast D) Z) : M (ast D) (option Z) := rv ← m; mret (Some rv).

(* @src xdma/cdev_sgdma.c:843-891 char_sgdma_ioctl *)
Definition char_sgdma_ioctl (cb_id : Z) (f : option (cdev_type * Z)) (cmd arg : Z) : M (ast D) (option Z) :=
  engine_checked f Some (fun h =>
    if cmd =? IOCTL_XDMA_PERF_START then done_with (ioctl_do_perf_start h arg)
    else if cmd =? IOCTL_XDMA_PERF_STOP then done_with (ioctl_do_perf_stop h arg)
    else if cmd =? IOCTL_XDMA_PERF_GET then done_with (ioctl_do_perf_get h arg)
    else if cmd =? IOCTL_XDMA_ADDRMODE_SET then done_with (ioctl_do_addrmode_set h arg)
    else if cmd =? IOCTL_XDMA_ADDRMODE_GET then done_with (ioctl_do_addrmode_get h arg)
    else if cmd =? IOCTL_XDMA_ALIGN_GET then done_with (ioctl_do_align_get h arg)
    else if cmd =? IOCTL_XDMA_APERTURE_R then ioctl_do_aperture_dma cb_id h arg false
    else if cmd =? IOCTL_XDMA_APERTURE_W then ioctl_do_aperture_dma cb_id h arg true
    else mret (Some (- EINVAL))).

(** ** Opening and closing *)

(** Bits of [f_flags]. *)
Variable O_TRUNC : Z.

Definition exclusive (e : xdma_engine) : bool := eng_streaming e && dir_eqb (eng_dir e) DMA_FROM_DEVICE.

(** The result and the private data of the file, which were empty. *)
(* @src xdma/cdev_sgdma.c:893-912 char_sgdma_open *)
Definition char_sgdma_open (i : cdev_type * Z) (f_flags : Z) : M (ast D) (Z * option (cdev_type * Z)) :=
  r ← on_mod (char_open i);
  match r.2 with
  | None => oops ;; mret (0, None)
  | Some i =>
      c ← on_mod (the_cdev i);
      match xc_engine c with
      | None => oops ;; mret (0, Some i)
      | Some h =>
          e ← eng_at h;
          if exclusive e then
            if eng_device_open e then mret (- EBUSY, Some i)
            else
              on_eng h (upd_engine (fun e => e <| eng_device_open := true |> <| eng_eop_flush := tst f_flags O_TRUNC |>)) ;;
              mret (0, Some i)
          else mret (0, Some i)
      end
  end.

(* @src xdma/cdev_sgdma.c:914-930 char_sgdma_close *)
Definition char_sgdma_close (f : option (cdev_type * Z)) : M (ast D) Z :=
  engine_checked f id (fun h =>
    e ← eng_at h;
    when (exclusive e) (on_eng h (upd_engine (fun e => e <| eng_device_open := false |>))) ;;
    mret 0).
End Code.
