(* ===== verification/SgdmaSpec.v ===== *)
(** Properties of the DMA devices ([cdev_sgdma.c]): a user's buffer is described
    exactly, its pages are let go whatever happens, and a transfer moves all of
    it. *)
From S2P Require Import Prelude Kernel Types Desc Request Transfer Engine EngineSpec EngineQueue EngineRegs Submit SubmitSpec Aperture Device Threads Frame Open Cdev CdevSpec Bytes Ctrl CtrlSpec Sgdma.
Local Open Scope Z_scope.

(** ** The entries of a table

    The addresses, in the user's memory, of the bytes the entries describe when
    the first is in page [n] and each of the others in the page after. *)
Fixpoint covered (n : Z) (l : list sg_page) : list Z :=
  match l with
  | [] => []
  | e :: l => seqZ (n * PAGE_SIZE + sp_offset e) (sp_len e) ++ covered (n + 1) l
  end.

Definition in_page (e : sg_page) : Prop := 0 <= sp_offset e /\ 0 <= sp_len e /\ sp_offset e + sp_len e <= PAGE_SIZE.

(** The pages a buffer touches. *)
Definition npages (buf len : Z) : Z := (buf mod PAGE_SIZE + len + (PAGE_SIZE - 1)) / PAGE_SIZE.

Record buf_ok (buf len : Z) : Prop := {
  bo_buf : 0 <= buf;
  bo_len : 0 <= len < 2 ^ 32;
  bo_end : buf + len + PAGE_SIZE <= 2 ^ 64;
}.

Lemma land_page x : Z.land x (PAGE_SIZE - 1) = x mod PAGE_SIZE.
Proof. apply (land_ones_mod 12). lia. Qed.

Lemma npages_range buf len : buf_ok buf len -> 0 <= npages buf len < 2 ^ 21.
Proof.
  intros [H1 H2 H3]. unfold npages, PAGE_SIZE in *. pose proof (Z.mod_pos_bound buf 4096).
  split; [apply Z.div_pos; lia|apply Z.div_lt_upper_bound; lia].
Qed.

Lemma buf_pages_nr_eq buf len : buf_ok buf len -> buf_pages_nr buf len = npages buf len.
Proof.
  intros Hok. pose proof (npages_range buf len Hok) as Hn. destruct Hok as [H1 H2 H3]. unfold buf_pages_nr.
  assert (buf - Z.ldiff buf (PAGE_SIZE - 1) = buf mod PAGE_SIZE) as E.
  { rewrite <- land_page. pose proof (Z.lor_ldiff_and buf (PAGE_SIZE - 1)) as E.
    rewrite lor_add in E; [lia|]. by rewrite (Z.land_comm buf), Z.land_assoc, Z.land_ldiff. }
  replace (buf + len + PAGE_SIZE - 1 - Z.ldiff buf (PAGE_SIZE - 1)) with (buf mod PAGE_SIZE + len + (PAGE_SIZE - 1)) by lia.
  unfold PAGE_SIZE in *. pose proof (Z.mod_pos_bound buf 4096). rewrite u64_small by (clear E; lia).
  rewrite Z.shiftr_div_pow2 by (unfold PAGE_SHIFT; lia). apply u32_small. change (2 ^ PAGE_SHIFT) with 4096.
  change (0 <= npages buf len < 4294967296). lia.
Qed.

Lemma npages_0 buf len : buf_ok buf len -> npages buf len <= 0 -> len = 0.
Proof.
  intros [H1 H2 H3] Hn. unfold npages, PAGE_SIZE in *. pose proof (Z.mod_pos_bound buf 4096).
  destruct (decide (len = 0)); [done|]. assert (1 <= (buf mod 4096 + len + (4096 - 1)) / 4096); [|lia].
  apply Z.div_le_lower_bound; lia.
Qed.

(** A buffer that ends in the page it starts in, and one that does not. *)
Lemma npages_last buf len :
  buf_ok buf len -> len <= PAGE_SIZE - buf mod PAGE_SIZE -> npages buf len <= 1.
Proof.
  intros [H1 H2 H3] Hl. unfold npages, PAGE_SIZE in *. pose proof (Z.mod_pos_bound buf 4096).
  assert ((buf mod 4096 + len + (4096 - 1)) / 4096 < 2); [|lia]. apply Z.div_lt_upper_bound; lia.
Qed.

Lemma npages_next buf len :
  buf_ok buf len -> PAGE_SIZE - buf mod PAGE_SIZE < len ->
  let d := PAGE_SIZE - buf mod PAGE_SIZE in
  buf_ok (buf + d) (len - d) /\ npages (buf + d) (len - d) = npages buf len - 1 /\
  (buf + d) / PAGE_SIZE = buf / PAGE_SIZE + 1.
Proof.
  intros [H1 H2 H3] Hl d. unfold npages, PAGE_SIZE in *. pose proof (Z.mod_pos_bound buf 4096).
  assert (buf + d = (buf / 4096 + 1) * 4096) as E by (pose proof (Z.div_mod buf 4096); lia).
  split; [split; unfold PAGE_SIZE; lia|]. rewrite E, Z.mod_mul, Z.div_mul by lia. split; [|done].
  replace (buf mod 4096 + len + (4096 - 1)) with (0 + (len - d) + (4096 - 1) + 1 * 4096) by lia.
  rewrite Z.div_add by lia. lia.
Qed.

(** The table of a buffer, entry for entry. *)
Fixpoint sgl_of (pages : list Z) (buf len : Z) : list sg_page :=
  match pages with
  | [] => []
  | p :: pages =>
      let offset := buf mod PAGE_SIZE in
      let nbytes := Z.min (PAGE_SIZE - offset) len in
      {| sp_page := p; sp_len := nbytes; sp_offset := offset |} :: sgl_of pages (buf + nbytes) (len - nbytes)
  end.

Lemma sgl_of_pages pages buf len : sp_page <$> sgl_of pages buf len = pages.
Proof. revert buf len. induction pages as [|p l IH]; intros buf len; cbn; [done|]. f_equal. apply IH. Qed.

Lemma sgl_of_end pages buf : sp_len <$> sgl_of pages buf 0 = replicate (length pages) 0.
Proof.
  revert buf. induction pages as [|p l IH]; intros buf; cbn -[PAGE_SIZE]; [done|].
  pose proof (Z.mod_pos_bound buf PAGE_SIZE). rewrite Z.min_r by (unfold PAGE_SIZE in *; lia). f_equal. apply IH.
Qed.

Lemma sgl_of_covers pages buf len :
  buf_ok buf len -> Z.of_nat (length pages) = npages buf len ->
  covered (buf / PAGE_SIZE) (sgl_of pages buf len) = seqZ buf len /\
  sum_Z (sp_len <$> sgl_of pages buf len) = len /\ Forall in_page (sgl_of pages buf len).
Proof.
  revert buf len. induction pages as [|p l IH]; intros buf len Hok Hn.
  - cbn in *. rewrite (npages_0 buf len) by (done || lia). done.
  - pose proof (Z.mod_pos_bound buf PAGE_SIZE ltac:(done)) as Hm. pose proof (bo_len _ _ Hok).
    pose proof (Z.div_mod buf PAGE_SIZE ltac:(done)) as Hd. cbn [sgl_of covered fmap list_fmap sp_len sp_offset].
    rewrite sum_Z_cons. replace (buf / PAGE_SIZE * PAGE_SIZE + buf mod PAGE_SIZE) with buf by lia.
    destruct (decide (len <= PAGE_SIZE - buf mod PAGE_SIZE)) as [Hl|Hl].
    + pose proof (npages_last _ _ Hok Hl). destruct l as [|]; [|cbn in Hn; lia]. rewrite Z.min_r by lia. cbn [sgl_of covered].
      split; [by rewrite app_nil_r|]. split; [cbn; lia|]. constructor; [|done]. unfold in_page. cbn [sp_offset sp_len]. lia.
    + destruct (npages_next _ _ Hok ltac:(lia)) as (N1 & N2 & N3). rewrite Z.min_l by lia.
      destruct (IH _ _ N1 ltac:(cbn in Hn; lia)) as (I1 & I2 & I3). rewrite N3 in I1. rewrite I1, I2.
      split; [|split; [lia|constructor; [|done]; unfold in_page; cbn [sp_offset sp_len]; lia]].
      rewrite <- seqZ_app by lia. f_equal. lia.
Qed.

(** Distinct pages next to each other. *)
Lemma dup_pages_false l : dup_pages l = false <-> forall i p q, l !! i = Some p -> l !! S i = Some q -> p <> q.
Proof.
  induction l as [|p [|q l] IH]; [done| |].
  - split; [|done]. intros _ i p' q Hp Hq. by destruct i.
  - change (dup_pages (p :: q :: l)) with ((p =? q) || dup_pages (q :: l)). rewrite orb_false_iff, IH. split.
    + intros [H1 H2] [|i] p' q' Hp Hq; [|by apply (H2 i)]. cbn in *. by simplify_eq; apply Z.eqb_neq.
    + intros Hall. split; [by apply Z.eqb_neq, (Hall 0%nat)|]. intros i p' q' Hp Hq. by apply (Hall (S i)).
Qed.

(** ** What a run does to pages and tables *)
Definition sgts {D} (s : pst D) : gmap Z sg_table := ds_sgts (w_dst (p_wst s)).
Definition with_io {D} (k : kstate D) (g : gmap Z sg_table) (s : pst D) : pst D :=
  s <| p_wst ::= fun w => w <| w_dst ::= fun d => d <| ds_k := k |> <| ds_sgts := g |> |> |>.

(** [s'] is [s] after the events [l], with [g] for the tables. *)
Definition paged {D} (s : pst D) (l : list event) (g : gmap Z sg_table) (s' : pst D) : Prop :=
  exists k, k_trace k = ptrace s ++ l /\ s' = with_io k g s.

Lemma paged_refl {D} (s : pst D) : paged s [] (sgts s) s.
Proof. destruct s as [[[]]]. eexists. split; [|done]. by rewrite app_nil_r. Qed.
Lemma paged_trans {D} (s s1 s2 : pst D) l1 l2 g1 g2 : paged s l1 g1 s1 -> paged s1 l2 g2 s2 -> paged s (l1 ++ l2) g2 s2.
Proof. intros (k1 & E1 & ->) (k2 & E2 & ->). exists k2. split; [|done]. rewrite E2, app_assoc. by rewrite <- E1. Qed.
Lemma paged_sgts {D} (s s' : pst D) l g : paged s l g s' -> sgts s' = g.
Proof. by intros (k & _ & ->). Qed.
Lemma paged_trace {D} (s s' : pst D) l g : paged s l g s' -> ptrace s' = ptrace s ++ l.
Proof. by intros (k & E & ->). Qed.

(** Pages pinned and let go, arrays of pages allocated and freed. *)
Definition pins (l : list event) : list Z :=
  omap (fun e => match e with Ev_call (K_pinned_page _) p => Some p | _ => None end) l.
Definition puts (l : list event) : list Z :=
  omap (fun e => match e with Ev_call (K_put_page p) _ => Some p | _ => None end) l.

Lemma pins_app l1 l2 : pins (l1 ++ l2) = pins l1 ++ pins l2.
Proof. apply omap_app. Qed.
Lemma puts_app l1 l2 : puts (l1 ++ l2) = puts l1 ++ puts l2.
Proof. apply omap_app. Qed.

(** The events [l] pin [p] and let go [q]. *)
Record holds_pages (l : list event) (p q : list Z) : Prop := { hp_pins : pins l = p; hp_puts : puts l = q }.
Lemma holds_pages_nil : holds_pages [] [] [].
Proof. done. Qed.
Lemma holds_pages_app l1 l2 p1 p2 q1 q2 :
  holds_pages l1 p1 q1 -> holds_pages l2 p2 q2 -> holds_pages (l1 ++ l2) (p1 ++ p2) (q1 ++ q2).
Proof. intros [] []. constructor; rewrite ?pins_app, ?puts_app; congruence. Qed.

Ltac pages :=
  constructor; rewrite ?pins_app, ?puts_app;
  repeat match goal with H : holds_pages _ _ _ |- _ => rewrite ?(hp_pins _ _ _ H), ?(hp_puts _ _ _ H); clear H end;
  unfold pins, puts; cbn [omap list_omap app]; rewrite ?app_nil_r; done.

(** What the kernel promises about pinning. *)
Class Pins (D : Type) `{Env D} : Prop := {
  pin_count : forall start n d, (env_call (K_get_user_pages_fast start n) d).1 <= n;
  pin_page : forall i d, (env_call (K_pinned_page i) d).1 <> 0;
}.

(** A kernel that grants what mapping a buffer asks for. *)
Record grants_pages (D : Type) `{Env D} : Prop := {
  gr_table : forall n d, (env_call (K_sg_alloc_table n) d).1 = 0;
  gr_array : forall n m d, (env_call (K_kcalloc n m) d).1 <> 0;
  gr_pin : forall a n d, (env_call (K_get_user_pages_fast a n) d).1 = n;
  gr_page : forall i d d', (env_call (K_pinned_page i) d).1 <> (env_call (K_pinned_page (i + 1)) d').1;
}.

Section Pages.
Context {D : Type} `{Env D} `{!Pins D}.
Implicit Types (s : pst D) (Q : unit -> pst D -> Prop).

Lemma wp_io_call c (Q : Z -> pst D -> Prop) s :
  (forall v d s', paged s [Ev_call c v] (sgts s) s' -> v = (env_call c d).1 -> Q v s') -> wp (call c) Q s.
Proof.
  intros HQ. apply wp_call. intros v d Hv. apply (HQ v (k_env (part s))); [|exact Hv].
  exists (mkK d (k_trace (part s) ++ [Ev_call c v])). split; [done|]. by destruct s as [[[]]].
Qed.
Lemma wp_io_call_ c Q s : (forall v s', paged s [Ev_call c v] (sgts s) s' -> Q tt s') -> wp (call_ c) Q s.
Proof. intros HQ. apply wp_bind, wp_io_call. intros v d s' Hs _. by eapply wp_ret, HQ. Qed.

Lemma wp_set_sgt id t Q s :
  (forall s', paged s [] (partial_alter (fun _ => t) id (sgts s)) s' -> Q tt s') -> wp (set_sgt id t) Q s.
Proof.
  intros HQ. unfold set_sgt, on_lib. apply wp_intro. destruct s as [[[]]]. apply HQ. eexists. split; [|done]. cbn. by rewrite app_nil_r.
Qed.

Lemma wp_put_pages l write Q s :
  Forall (fun p => p <> 0) l ->
  (forall ev s', paged s ev (sgts s) s' -> holds_pages ev [] l -> Q tt s') -> wp (put_pages l write) Q s.
Proof.
  intros Hl. revert s. induction Hl as [|p l Hp Hl IH]; intros s HQ; cbn [put_pages].
  { apply wp_ret. eapply HQ; [apply paged_refl|done]. }
  unfold nz. destruct (Z.eqb_spec p 0); [done|]. cbn [negb]. apply wp_bind.
  assert (forall s1 ev1, paged s ev1 (sgts s) s1 -> holds_pages ev1 [] [] ->
          wp (call_ (K_put_page p) ;; put_pages l write) Q s1) as Hnext.
  { intros s1 ev1 P1 H1. apply wp_bind, wp_io_call_. intros v s2 P2. apply IH. intros ev s3 P3 H3.
    rewrite (paged_sgts _ _ _ _ P2), (paged_sgts _ _ _ _ P1) in *.
    eapply HQ; [exact (paged_trans _ _ _ _ _ _ _ P1 (paged_trans _ _ _ _ _ _ _ P2 P3))|].
    pages. }
  destruct write; cbn [negb when].
  - apply wp_ret. by apply (Hnext s []); [apply paged_refl|].
  - apply wp_io_call_. intros v s1 P1. by eapply Hnext.
Qed.

(** The pages of a control block that are still held. *)
Definition held (cb : xdma_io_cb) : list Z :=
  if (cb_pages cb =? 0) || (cb_pages_nr cb =? 0) then [] else take (Z.to_nat (cb_pages_nr cb)) (cb_page cb).

Lemma wp_unmap_buf id cb write (Q : xdma_io_cb -> pst D -> Prop) s :
  Forall (fun p => p <> 0) (held cb) ->
  (forall cb' ev s', paged s ev (delete id (sgts s)) s' -> holds_pages ev [] (held cb) -> held cb' = [] -> Q cb' s') ->
  wp (char_sgdma_unmap_user_buf id cb write) Q s.
Proof.
  intros Hh HQ. unfold char_sgdma_unmap_user_buf. apply wp_bind, wp_io_call_. intros v s1 P1. apply wp_bind, wp_set_sgt.
  intros s2 P2. rewrite (paged_sgts _ _ _ _ P1) in P2. pose proof (paged_trans _ _ _ _ _ _ _ P1 P2) as P. cbv zeta. fld.
  unfold held in Hh, HQ. destruct ((cb_pages cb =? 0) || (cb_pages_nr cb =? 0)) eqn:Hc.
  - apply wp_ret. eapply HQ; [exact P|done|]. unfold held. fld. by rewrite Hc.
  - apply wp_bind, wp_put_pages; [done|]. intros ev s3 P3 H3. rewrite (paged_sgts _ _ _ _ P2) in P3.
    apply wp_bind, wp_io_call_. intros v' s4 P4. rewrite (paged_sgts _ _ _ _ P3) in P4. apply wp_ret.
    eapply HQ; [exact (paged_trans _ _ _ _ _ _ _ P (paged_trans _ _ _ _ _ _ _ P3 P4))| |done].
    pages.
Qed.

Lemma wp_pinned n i (Q : list Z -> pst D -> Prop) s :
  (forall l ev s', paged s ev (sgts s) s' -> holds_pages ev l [] -> Forall (fun p => p <> 0) l -> length l = n ->
     (grants_pages D -> dup_pages l = false) -> Q l s') ->
  wp (pinned n i) Q s.
Proof.
  intros HQ.
  enough (wp (pinned n i) (fun l s' => exists ev, paged s ev (sgts s) s' /\ holds_pages ev l [] /\ Forall (fun p => p <> 0) l
    /\ length l = n /\ forall j p, l !! j = Some p -> exists d, p = (env_call (K_pinned_page (i + Z.of_nat j)) d).1) s) as Hw.
  { eapply wp_mono; [exact Hw|]. intros l s' (ev & P & H1 & Hl & Hn & Hj). eapply HQ; [exact P|done..|].
    intros Hg. apply dup_pages_false. intros j p q (d & ->)%Hj (d' & ->)%Hj.
    replace (i + Z.of_nat (S j)) with (i + Z.of_nat j + 1) by lia. by apply gr_page. }
  clear Q HQ. revert i s. induction n as [|n IH]; intros i s; cbn [pinned].
  { apply wp_ret. exists []. split_and!; [apply paged_refl|done..]. }
  apply wp_bind, wp_io_call. intros p d s1 P1 Hp. apply wp_bind. eapply wp_mono; [apply IH|].
  intros l s2 (ev & P2 & H2 & Hl & Hn & Hj). apply wp_ret. rewrite (paged_sgts _ _ _ _ P1) in P2.
  eexists. split_and!; [exact (paged_trans _ _ _ _ _ _ _ P1 P2)|pages| |cbn; by rewrite Hn|].
  - constructor; [|done]. rewrite Hp. apply pin_page.
  - intros [|j] q Hq; cbn in Hq.
    + simplify_eq. exists d. by rewrite Z.add_0_r.
    + destruct (Hj _ _ Hq) as [d' ->]. exists d'. do 3 f_equal. lia.
Qed.

Lemma wp_fill_sgl l buf len (Q : list sg_page * Z -> pst D -> Prop) s :
  buf_ok buf len -> Z.of_nat (length l) = npages buf len ->
  (forall ev s', paged s ev (sgts s) s' -> holds_pages ev [] [] -> Q (sgl_of l buf len, 0) s') ->
  wp (fill_sgl l buf len) Q s.
Proof.
  revert buf len Q s. induction l as [|p l IH]; intros buf len Q s Hok Hn HQ; cbn [fill_sgl].
  { rewrite (npages_0 buf len) in * by (done || cbn in Hn; lia). apply wp_ret. eapply HQ; [apply paged_refl|done]. }
  apply wp_bind, wp_io_call_. intros v s1 P1. apply wp_bind. rewrite land_page.
  pose proof (Z.mod_pos_bound buf PAGE_SIZE ltac:(done)) as Hm. destruct Hok as [B1 B2 B3]. rewrite (u32_small len) by lia.
  set (n := Z.min (PAGE_SIZE - buf mod PAGE_SIZE) len). assert (0 <= n <= len) by lia.
  rewrite (u64_small (buf + n)), (u64_small (len - n)) by (unfold PAGE_SIZE in *; lia).
  assert (wp (fill_sgl l (buf + n) (len - n)) (fun r s2 => r = (sgl_of l (buf + n) (len - n), 0) /\
            exists ev, paged s1 ev (sgts s1) s2 /\ holds_pages ev [] []) s1) as Hw.
  { destruct (decide (len <= PAGE_SIZE - buf mod PAGE_SIZE)) as [Hl|Hl].
    - pose proof (npages_last buf len ltac:(done) Hl). assert (n = len) as -> by lia. destruct l; [|cbn in Hn; lia].
      apply wp_ret. rewrite Z.sub_diag. split; [done|]. exists []. split; [apply paged_refl|done].
    - destruct (npages_next buf len ltac:(done) ltac:(lia)) as (N1 & N2 & N3).
      replace n with (PAGE_SIZE - buf mod PAGE_SIZE) by lia.
      apply IH; [done|rewrite N2; cbn in Hn; lia|]. intros ev s2 P2 H2. split; [done|]. by exists ev. }
  eapply wp_mono; [exact Hw|]. intros r s2 (-> & ev & P2 & H2). apply wp_ret. rewrite (paged_sgts _ _ _ _ P1) in P2.
  eapply HQ; [exact (paged_trans _ _ _ _ _ _ _ P1 P2)|]. pages.
Qed.
Variable dma_view : list sg_page -> list sg_entry.

(** The table of a mapped buffer. *)
Definition buf_table (pages : list Z) (buf len : Z) : sg_table :=
  Build_sg_table (dma_view (sgl_of pages buf len)) (npages buf len) (npages buf len).

Lemma wp_map_err id cb write rv p ev (Q : Z * xdma_io_cb -> pst D -> Prop) s s1 g t :
  paged s ev g s1 -> g = partial_alter (fun _ => t) id (sgts s) -> holds_pages ev p [] -> held cb = p ->
  Forall (fun q => q <> 0) p ->
  (forall cb' ev s', paged s ev (delete id (sgts s)) s' -> holds_pages ev p p -> Q (rv, cb') s') ->
  wp (map_err_out id cb write rv) Q s1.
Proof.
  intros P1 Hg H1 Hc Hp HQ. apply wp_bind, wp_unmap_buf; [by rewrite Hc|]. intros cb' ev2 s2 P2 H2 _. apply wp_ret.
  rewrite (paged_sgts _ _ _ _ P1), Hg in P2. unfold delete, map_delete in P2. rewrite partial_alter_partial_alter_eq in P2.
  rewrite Hc in H2. eapply HQ; [exact (paged_trans _ _ _ _ _ _ _ P1 P2)|pages].
Qed.

Lemma wp_map_buf id cb write (Q : Z * xdma_io_cb -> pst D -> Prop) s :
  buf_ok (cb_buf cb) (cb_len cb) -> cb_pages_nr cb = 0 ->
  (forall rv cb' p ev g s', rv < 0 -> paged s ev g s' -> g = sgts s \/ g = delete id (sgts s) -> holds_pages ev p p ->
     (npages (cb_buf cb) (cb_len cb) <> 0 -> ~ grants_pages D) -> Q (rv, cb') s') ->
  (forall cb' pages ev s', Z.of_nat (length pages) = npages (cb_buf cb) (cb_len cb) -> dup_pages pages = false ->
     Forall (fun p => p <> 0) pages -> cb_sgt cb' = sgl_of pages (cb_buf cb) (cb_len cb) -> held cb' = pages ->
     paged s ev (<[id := buf_table pages (cb_buf cb) (cb_len cb)]> (sgts s)) s' -> holds_pages ev pages [] ->
     Q (0, cb') s') ->
  wp (char_sgdma_map_user_buf_to_sgl dma_view id cb write) Q s.
Proof.
  intros Hok Hnr He HQ. unfold char_sgdma_map_user_buf_to_sgl. rewrite (buf_pages_nr_eq _ _ Hok). cbv zeta.
  pose proof (npages_range _ _ Hok) as Hn. set (n := npages (cb_buf cb) (cb_len cb)) in *.
  destruct (Z.eqb_spec n 0) as [Hz|Hz].
  { apply wp_ret. by eapply (He _ _ []); [| apply paged_refl|left|..]. }
  apply wp_bind, wp_io_call. intros rv d s1 P1 Hrv0. destruct (nz rv) eqn:Hnz.
  { apply wp_ret. eapply (He _ _ []); [done|exact P1|by left|done|]. intros _ Hg. by rewrite Hrv0, gr_table in Hnz. }
  apply wp_bind, wp_set_sgt. intros s2 P2. rewrite (paged_sgts _ _ _ _ P1) in P2.
  pose proof (paged_trans _ _ _ _ _ _ _ P1 P2) as P. clear P1 P2 s1. apply wp_bind, wp_io_call. intros pages d' s3 P3 Hpages.
  rewrite (paged_sgts _ _ _ _ P) in P3. pose proof (paged_trans _ _ _ _ _ _ _ P P3) as P4. clear P P3 s2.
  assert (forall rv cb1 p ev s1 t, rv < 0 -> paged s ev (partial_alter (fun _ => t) id (sgts s)) s1 -> holds_pages ev p [] ->
    held cb1 = p -> Forall (fun q => q <> 0) p -> ~ grants_pages D -> wp (map_err_out id cb1 write rv) Q s1) as Herr.
  { intros rv1 cb1 p ev s1 t Hrv P1 H1 Hc Hp Hg. eapply wp_map_err; [exact P1|done|exact H1|done|done|].
    intros cb' ev' s' P' H'. by eapply He; [|exact P'|right|exact H'|intros _]. }
  destruct (Z.eqb_spec pages 0) as [Hp|Hp]; [eapply (Herr _ _ []); [done|exact P4|done|unfold held; fld; by rewrite Hp|done|]|].
  { intros Hg. apply (gr_array _ Hg n 8 d'). by rewrite <- Hpages. }
  apply wp_bind, wp_io_call. intros rv1 d1 s5 P5 Hrv. rewrite (paged_sgts _ _ _ _ P4) in P5.
  pose proof (paged_trans _ _ _ _ _ _ _ P4 P5) as P6. clear P4 P5 s3. fld. pose proof (pin_count (cb_buf cb) n d1) as Hle.
  rewrite <- Hrv in Hle. destruct (Z.ltb_spec rv1 0) as [Hneg|Hpos].
  { eapply (Herr _ _ []); [done|exact P6|done| |done|].
    - unfold held. fld. rewrite Hnr. by rewrite orb_true_r.
    - intros Hg. rewrite (gr_pin _ Hg) in Hrv. lia. }
  apply wp_bind, wp_pinned. intros l ev s7 P7 H7 Hl Hlen Hd. rewrite (paged_sgts _ _ _ _ P6) in P7.
  pose proof (paged_trans _ _ _ _ _ _ _ P6 P7) as P8. clear P6 P7 s5. fld.
  assert (forall cb1 m, cb_pages cb1 = pages -> cb_page cb1 = l ++ replicate (Z.to_nat (n - rv1)) 0 -> m = rv1 ->
    held (cb1 <| cb_pages_nr := m |>) = l) as Hheld.
  { intros cb1 m E1 E2 ->. unfold held. fld. rewrite E1, E2. destruct (Z.eqb_spec pages 0); [done|]. cbn [orb].
    destruct (Z.eqb_spec rv1 0) as [E|]; [rewrite E in Hlen; by destruct l|]. by rewrite take_app_length'. }
  destruct (Z.eqb_spec rv1 n) as [->|Hne]; cbn [negb].
  2:{ eapply (Herr _ _ l); [done|exact P8|pages|by apply Hheld|done|]. intros Hg. rewrite (gr_pin _ Hg) in Hrv. lia. }
  destruct (dup_pages l) eqn:Hdup.
  { eapply (Herr _ _ l); [done|exact P8|pages|by apply Hheld|done|]. intros Hg. by specialize (Hd Hg). }
  apply wp_bind, wp_fill_sgl; [done|lia|]. intros ev9 s9 P9 H9. rewrite (paged_sgts _ _ _ _ P8) in P9.
  pose proof (paged_trans _ _ _ _ _ _ _ P8 P9) as P10. clear P8 P9 s7. apply wp_bind, wp_set_sgt. intros s11 P11.
  rewrite (paged_sgts _ _ _ _ P10), partial_alter_partial_alter_eq in P11. pose proof (paged_trans _ _ _ _ _ _ _ P10 P11) as P12.
  change (nz 0) with false. cbv iota. apply wp_ret. eapply (HQ _ l); [lia|done|done|done|by apply Hheld|exact P12|pages].
Qed.
End Pages.

(** C38 Mapping a user's buffer of less than 4 GiB that does not reach the end of the
    address space ([char_sgdma_map_user_buf_to_sgl] on a control block that holds no pages;
    a longer buffer is refused with its pages kept) either fails with every page it pinned
    let go again, once each and in order, or succeeds holding exactly the pages it pinned,
    with a table that has one entry for each of them, in order: read page for page, the
    entries describe exactly the bytes of the buffer, each once and in order, and none
    reaches over the end of its page. *)
Theorem map_user_buf_exact {D} `{Env D} `{!Pins D} dma_view id cb write (s : pst D) :
  buf_ok (cb_buf cb) (cb_len cb) -> cb_pages_nr cb = 0 ->
  let '(rv, cb', s') := char_sgdma_map_user_buf_to_sgl dma_view id cb write s in
  exists ev, ptrace s' = ptrace s ++ ev /\
  if rv <? 0 then puts ev = pins ev /\ (sgts s' = sgts s \/ sgts s' = delete id (sgts s))
  else
    rv = 0 /\ puts ev = [] /\ held cb' = pins ev /\ sp_page <$> cb_sgt cb' = pins ev
    /\ covered (cb_buf cb / PAGE_SIZE) (cb_sgt cb') = seqZ (cb_buf cb) (cb_len cb)
    /\ Forall in_page (cb_sgt cb')
    /\ sgts s' = <[id := buf_table dma_view (pins ev) (cb_buf cb) (cb_len cb)]> (sgts s).
Proof.
  intros Hok Hnr.
  pose proof (wp_elim (char_sgdma_map_user_buf_to_sgl dma_view id cb write) (fun r s' =>
    exists ev, ptrace s' = ptrace s ++ ev /\
    if r.1 <? 0 then puts ev = pins ev /\ (sgts s' = sgts s \/ sgts s' = delete id (sgts s))
    else r.1 = 0 /\ puts ev = [] /\ held r.2 = pins ev /\ sp_page <$> cb_sgt r.2 = pins ev
      /\ covered (cb_buf cb / PAGE_SIZE) (cb_sgt r.2) = seqZ (cb_buf cb) (cb_len cb)
      /\ Forall in_page (cb_sgt r.2)
      /\ sgts s' = <[id := buf_table dma_view (pins ev) (cb_buf cb) (cb_len cb)]> (sgts s)) s) as Hw.
  destruct (char_sgdma_map_user_buf_to_sgl dma_view id cb write s) as [[rv cb'] s']. apply Hw.
  apply wp_map_buf; [done|done| |].
  - intros r c p ev g s1 Hr P1 Hg H1 _. exists ev. split; [exact (paged_trace _ _ _ _ P1)|]. cbn [fst].
    destruct (Z.ltb_spec r 0); [|lia]. rewrite (paged_sgts _ _ _ _ P1). destruct H1 as [-> ->]. done.
  - intros c pages ev s1 Hlen Hdup Hnz Hsg Hh P1 H1. exists ev. split; [exact (paged_trace _ _ _ _ P1)|]. cbn [fst snd].
    destruct (sgl_of_covers _ _ _ Hok Hlen) as (C1 & C2 & C3). rewrite (paged_sgts _ _ _ _ P1), Hsg, Hh.
    destruct H1 as [-> ->]. split_and!; try done. apply sgl_of_pages.
Qed.

(** ** What a transfer leaves of pages to its caller *)
Definition no_page (e : event) : Prop :=
  match e with Ev_call (K_pinned_page _) _ | Ev_call (K_put_page _) _ => False | _ => True end.

Lemma no_pages l : Forall no_page l -> holds_pages l [] [].
Proof.
  induction 1 as [|e l He Hl IH]; [done|]. apply (holds_pages_app [e] l [] [] [] []); [|done].
  destruct e as [| |[]]; done.
Qed.

Section Release.
Context {D : Type} `{Env D} (pm : params) (size_cb : Z) (vr : Z * Z).
Abbreviation calm_p := (calm (D := D) (fun _ : est D => tt) no_page).

Lemma page_stop : calm_p (xdma_engine_stop pm).
Proof. unfold xdma_engine_stop, write_reg, reg_of, sg_reg_of. calm. Qed.
Lemma page_status_read clear dump : calm_p (engine_status_read clear dump).
Proof. unfold engine_status_read, engine_reg_dump, read_reg, reg_of, sg_reg_of. calm. Qed.
#[local] Hint Resolve page_stop page_status_read : calm.
Lemma page_start : calm_p (engine_start pm).
Proof.
  unfold engine_start, engine_start_mode_config, write_first_desc, read_reg, write_reg, reg_of, sg_reg_of. calm.
  destruct (eng_transfer_list _); calm.
Qed.
#[local] Hint Resolve page_start : calm.
Lemma page_queue xdev p : calm_p (transfer_queue pm xdev p).
Proof. unfold transfer_queue. calm. Qed.
Lemma page_abort p : calm_p (transfer_abort p).
Proof. unfold transfer_abort, list_del_head. calm. Qed.
Lemma page_destroy p : calm_p (transfer_destroy p).
Proof. unfold transfer_destroy, transfer_unmap. calm. by apply calm_modify. Qed.
#[local] Hint Resolve page_queue page_abort page_destroy : calm.
Lemma page_unmap mapped sgt : calm_p (unmap_sgl mapped sgt).
Proof. unfold unmap_sgl, the_sgt, set_nents. calm. by apply calm_modify. Qed.
Lemma page_map mapped sgt : calm_p (map_sgl mapped sgt).
Proof. unfold map_sgl, the_sgt, set_nents. calm. by apply calm_modify. Qed.
Lemma page_free p : calm_p (free_request vr p).
Proof. unfold free_request, xdma_request_free. calm. by apply calm_modify. Qed.
#[local] Hint Resolve page_unmap page_map page_free : calm.

Variable wait : xfer_ptr -> Z -> M (est D) unit.
Hypothesis Hwait : forall x tmo, calm_p (wait x tmo).
#[local] Hint Resolve Hwait : calm.

Lemma page_init_request blen id t ep : calm_p (xdma_init_request size_cb vr blen id t ep).
Proof. unfold xdma_init_request, xdma_request_alloc, xdma_request_free. calm. Qed.
Lemma page_timed_out x : calm_p (submit_timed_out pm x).
Proof. unfold submit_timed_out. calm. Qed.
#[local] Hint Resolve page_init_request page_timed_out : calm.
Lemma page_round xdev p sgt mapped tmo req nents done :
  calm_p (submit_round pm wait xdev p sgt mapped tmo req nents done).
Proof.
  unfold submit_round, round_begin, init_tfer, wake_thread. calm.
  all: try (destruct (transfer_init _ _) as [[? ?] ?]; calm).
  all: try by apply calm_modify.
  all: destruct (x_state _); calm.
Qed.
#[local] Hint Resolve page_round : calm.
Lemma page_loop fuel xdev p sgt mapped tmo req nents done rv :
  calm_p (submit_loop pm wait fuel xdev p sgt mapped tmo req nents done rv).
Proof. revert req nents done rv. induction fuel as [|n IH]; intros; cbn [submit_loop]; calm; apply IH. Qed.
#[local] Hint Resolve page_loop : calm.
Lemma page_submit xdev write ep sgt mapped tmo : calm_p (xdma_xfer_submit pm size_cb vr wait xdev write ep sgt mapped tmo).
Proof. unfold xdma_xfer_submit, the_sgt. calm. Qed.

(** ... in the module's state. *)
Definition paged_none {A} (m : M (pst D) A) : Prop := forall (Q : A -> pst D -> Prop) s,
  (forall r ev s', ptrace s' = ptrace s ++ ev -> holds_pages ev [] [] -> Q r s') -> wp m Q s.

Lemma none_ret {A} (x : A) : paged_none (mret x).
Proof. intros Q s HQ. apply wp_ret. by apply (HQ _ []); rewrite ?app_nil_r. Qed.
Lemma none_if {A} (b : bool) (m1 m2 : M (pst D) A) : paged_none m1 -> paged_none m2 -> paged_none (if b then m1 else m2).
Proof. by destruct b. Qed.

Lemma none_channel {A} (bad : Z -> A) write ch (m : xdma_dev -> M (est D) A) :
  (forall x, calm_p (m x)) -> paged_none (on_channel bad write ch m).
Proof.
  intros Hm Q s HQ. unfold on_channel. pv_step. pv_step. generalize (ds_dev (w_dst (p_wst s))). intros x. revert Q s HQ.
  apply none_if; [apply none_ret|]. intros Q s HQ. apply wp_on_lib. eapply wp_mono.
  { apply calm_on_dev, calm_on_engine, Hm. }
  intros r w [(l & E & F) _]. by apply (HQ r l); [|apply no_pages].
Qed.

Lemma none_handle {A} (bad : Z -> A) hndl (m : M (pst D) A) : paged_none m -> paged_none (with_handle bad hndl m).
Proof.
  intros Hm. unfold with_handle. apply none_if; [apply none_ret|]. intros Q s HQ. pv_step. pv_step. pv_step.
  apply wp_on_lib, wp_gets. replace (s <| p_wst := p_wst s |>) with s by (by destruct s).
  generalize (ds_dev (w_dst (p_wst s))), (w_xdev_list (p_wst s)). intros x l. revert Q s HQ.
  apply none_if; [apply none_ret|done].
Qed.
Lemma wp_check_any c check_engine (Q : Z -> pst D -> Prop) s : (forall r, Q r s) -> wp (xcdev_check c check_engine) Q s.
Proof.
  intros HQ. destruct c as [c|]; cbn [xcdev_check]; [|by apply wp_ret]. apply wp_if; intros _; [by pv_step|].
  pv_step. pv_step. apply wp_if; intros _; [by pv_step|]. apply wp_if; intros _; [|by pv_step].
  destruct (xc_engine c) as [[h ch]|]; [|by pv_step]. pv_step. pv_step. by pv_step.
Qed.
Lemma wp_checked_any {A} f check_engine bad (k : xdma_cdev -> M (pst D) A) (Q : A -> pst D -> Prop) s :
  (forall r, Q (bad r) s) -> (forall c, wp (k c) Q s) -> wp (checked f check_engine bad k) Q s.
Proof.
  intros H1 H2. unfold checked. pv_step. pv_step. pv_step. apply wp_check_any. intros r.
  by apply wp_if; intros; [pv_step|].
Qed.
Lemma wp_engine_of c (Q : option xdma_engine -> pst D -> Prop) s :
  Q ((fun h => get_eng h.1 h.2 (w_dst (p_wst s))) <$> xc_engine c) s -> wp (engine_of c) Q s.
Proof. intros HQ. unfold engine_of. destruct (xc_engine c) as [[h ch]|]; [|by pv_step]. pv_step. pv_step. by pv_step. Qed.
End Release.

(** C39 Reading and writing less than 4 GiB through a DMA device, from a buffer that
    does not reach the end of the address space, never keep a page of it: whichever way
    [char_sgdma_read_write] ends - a check that fails, pages that cannot be pinned, a submission
    that is refused, times out or is interrupted, or success - the pages let go are exactly
    those pinned, once each.  What runs while a transfer is waited for may do anything but touch
    pages.  (Longer buffers, which only the aperture request can pass, can leave pages pinned.) *)
Theorem read_write_releases {D} `{Env D} `{!Pins D} pm size_cb vr wait dma_view h2c_timeout c2h_timeout id f buf count pos
    write (s : pst D) :
  buf_ok buf count -> (forall x tmo, calm (fun _ : est D => tt) no_page (wait x tmo)) ->
  let '(_, s') := char_sgdma_read_write pm size_cb vr wait dma_view h2c_timeout c2h_timeout id f buf count pos write s in
  exists ev, ptrace s' = ptrace s ++ ev /\ puts ev = pins ev.
Proof.
  intros Hok Hwait. apply wp_elim.
  assert (exists ev, ptrace s = ptrace s ++ ev /\ puts ev = pins ev) as Hnone by (exists []; by rewrite app_nil_r).
  apply wp_checked_any; [done|]. intros c. apply wp_bind, wp_engine_of. apply wp_if; intros _; [by pv_step|].
  cbv zeta. apply wp_if; intros _; [by pv_step|]. apply wp_bind, wp_map_buf; [done|done| |].
  { intros rv cb p ev g s1 Hrv P1 _ H1 _. destruct (Z.ltb_spec rv 0); [|lia]. apply wp_ret. exists ev.
    split; [exact (paged_trace _ _ _ _ P1)|]. by destruct H1 as [-> ->]. }
  intros cb pages ev s1 _ _ Hnz _ Hheld P1 H1. change (0 <? 0) with false. cbv iota. apply wp_bind.
  apply (none_handle _ _ _ (none_channel _ _ _ _ (fun x => page_submit pm size_cb vr wait Hwait x _ _ _ _ _))).
  intros r ev2 s2 E2 H2. apply wp_bind, wp_unmap_buf; [by rewrite Hheld|]. intros cb' ev3 s3 P3 H3 _. apply wp_ret.
  exists (ev ++ ev2 ++ ev3). rewrite Hheld in H3. split.
  - by rewrite (paged_trace _ _ _ _ P3), E2, (paged_trace _ _ _ _ P1), !app_assoc.
  - assert (holds_pages (ev ++ ev2 ++ ev3) pages pages) as []; [pages|congruence].
Qed.

(** ** A transfer from the file to the engine *)

(** A transfer of [count] bytes that every check lets through: the file's device is
    live, its engine is the one of that direction and channel, idle or running but
    accepting, and completes what it is given. *)
Record can_transfer {D} (pm : params) (wait : xfer_ptr -> Z -> M (est D) unit) (s : pst D) (i : cdev_type * Z) (ch : Z)
    (write : bool) (buf count pos : Z) : Prop := {
  ct_usable : usable s i;
  ct_engine : xc_engine (cdev_at (p_xpdev s) i) = Some (write, ch);
  ct_channel : eng_channel (get_eng write ch (w_dst (p_wst s))) = ch;
  ct_max : ch < (if write then xd_h2c_channel_max (ds_dev (w_dst (p_wst s))) else xd_c2h_channel_max (ds_dev (w_dst (p_wst s))));
  ct_handle : debug_check_dev_hndl (w_xdev_list (p_wst s)) (xd_pdev (ds_dev (w_dst (p_wst s))))
                (xc_xdev (cdev_at (p_xpdev s) i)) = 0;
  ct_checks : submit_checks (ds_dev (w_dst (p_wst s))) (if write then DMA_TO_DEVICE else DMA_FROM_DEVICE)
                (get_eng write ch (w_dst (p_wst s))) = None;
  ct_ready : ready (ds_dev (w_dst (p_wst s))) (get_eng write ch (w_dst (p_wst s)))
               (eng_desc_used (get_eng write ch (w_dst (p_wst s))));
  ct_completes : completes wait;
  ct_align : check_transfer_align (Some (get_eng write ch (w_dst (p_wst s)))) buf count pos true = 0;
  ct_buf : buf_ok buf count;
  ct_pos : 0 <= pos < 2 ^ 63;
  ct_blen : desc_blen_max pm < 2 ^ 31;
}.

(** Mapping a table for DMA fails, or keeps its bytes, in entries the driver can
    count. *)
Definition maps_bytes {D} `{Env D} (pm : params) (size_cb : Z) (dma_view : list sg_page -> list sg_entry) (id buf count : Z) : Prop :=
  forall pages (d : D), Z.of_nat (length pages) = npages buf count ->
  let t := buf_table dma_view pages buf count in
  let n := (env_call (K_dma_map_sg id (sgt_orig_nents t)) d).1 in
  n <> 0 -> sgt_ok size_cb (desc_blen_max pm) (t <| sgt_nents := n |>)
            /\ sum_Z (sg_dma_len <$> mapped_sgl (t <| sgt_nents := n |>)) = sum_Z (sp_len <$> sgl_of pages buf count).

(** ... and a kernel that grants all a transfer asks for. *)
Record grants_transfer (D : Type) `{Env D} (id : Z) : Prop := {
  gt_pages : grants_pages D;
  gt_map : forall n d, n <> 0 -> (env_call (K_dma_map_sg id n) d).1 <> 0;
  gt_alloc : forall n d, (env_call (K_kzalloc n) d).1 <> 0;
}.

Lemma request_alloc_grants {D} `{Env D} size_cb n (s : est D) :
  (forall n d, (env_call (K_kzalloc n) d).1 <> 0) -> (xdma_request_alloc size_cb n s).1.1 <> 0.
Proof.
  intros Hg. apply (wp_run (xdma_request_alloc size_cb n) (fun r _ => r.1 <> 0)). unfold xdma_request_alloc.
  apply wp_bind, wp_call. intros v d Hv. assert (v <> 0) by (rewrite Hv; apply Hg).
  destruct (Z.eqb_spec v 0); [done|]. by apply wp_ret.
Qed.

Lemma wp_channel_submit {D} `{Env D} pm size_cb vr (wait : xfer_ptr -> Z -> M (est D) unit) dma_view sgt write ch pos tmo pages buf count (Q : Z -> pst D -> Prop) s :
  let x := ds_dev (w_dst (p_wst s)) in let e := get_eng write ch (w_dst (p_wst s)) in
  completes wait -> ready x e (eng_desc_used e) -> submit_checks x (if write then DMA_TO_DEVICE else DMA_FROM_DEVICE) e = None ->
  ch < (if write then xd_h2c_channel_max x else xd_c2h_channel_max x) ->
  desc_blen_max pm < 2 ^ 31 -> 0 <= pos < 2 ^ 64 -> buf_ok buf count ->
  Z.of_nat (length pages) = npages buf count -> maps_bytes pm size_cb dma_view sgt buf count ->
  sgts s !! sgt = Some (buf_table dma_view pages buf count) ->
  (forall r s', r = count \/ r < 0 -> (grants_transfer D sgt -> npages buf count <> 0 -> r = count) -> Q r s') ->
  wp (on_channel id write ch (fun x => xdma_xfer_submit pm size_cb vr wait x write pos sgt false tmo)) Q s.
Proof.
  intros x e Hw Hr Hc Hch Hbl Hpos Hok Hlen Hmap Hs HQ. unfold on_channel. pv_step. pv_step. fold x.
  rewrite (proj2 (Z.leb_gt _ _) Hch). apply wp_on_lib, wp_on_dev, wp_on_engine.
  set (tb := buf_table dma_view pages buf count) in *. destruct (sgl_of_covers pages buf count Hok Hlen) as (_ & Hsum & _).
  set (n := (env_call (K_dma_map_sg sgt (sgt_orig_nents tb)) (k_env (ds_k (w_dst (p_wst s))))).1).
  destruct (decide (n = 0)) as [Hn|Hn].
  - unfold xdma_xfer_submit. est_step. est_step. change (es_eng (est_of write ch (w_dst (p_wst s)))) with e. rewrite Hc.
    est_step. apply (wp_map_sgl _ _ tb); [done|]. intros k n'. change n' with n. rewrite Hn. cbn [Z.eqb]. cbv iota.
    change (- EIO <? 0) with true. cbv iota. est_step. apply HQ; [by right|]. intros Hg Hz. exfalso.
    apply (gt_map _ _ Hg (npages buf count) (k_env (ds_k (w_dst (p_wst s))))); [done|exact Hn].
  - destruct (Hmap pages (k_env (ds_k (w_dst (p_wst s)))) Hlen Hn) as [M1 M2]. fold tb in M1, M2. fold n in M1, M2.
    rewrite Hsum in M2. pose proof (bo_len _ _ Hok).
    apply (wp_submit pm size_cb vr x wait _ (completes_submits pm x wait (eng_desc_used e) Hw) write pos sgt false tmo tb); try done.
    + change (sum_Z (sg_dma_len <$> mapped_sgl (tb <| sgt_nents := n |>)) < 2 ^ 32). lia.
    + intros s' r _ _ _ Hor. change (r = sum_Z (sg_dma_len <$> mapped_sgl (tb <| sgt_nents := n |>)) \/
         r = - ENOMEM /\ exists n (s0 : est D), (xdma_request_alloc size_cb n s0).1.1 = 0) in Hor. rewrite M2 in Hor.
      apply HQ; [destruct Hor as [->|[-> _]]; [by left|by right]|]. intros Hg _.
      destruct Hor as [|[_ (m & s0 & E)]]; [done|]. by apply request_alloc_grants in E; [|apply (gt_alloc _ _ Hg)].
Qed.

(** C5 What a read or write of [count] bytes through a DMA device returns when the
    transfer can be made ([can_transfer]: the file's device is live, its engine online, not
    streaming C2H and accepting transfers, each of which completes while the caller sleeps; the
    alignment check passes; the buffer is shorter than 4 GiB and does not reach the end of the
    address space; [desc_blen_max] is below 2^31) and the mapping keeps the bytes in entries the
    driver can count: [count] or a negative error, never a number in between; and [count]
    whenever the kernel grants the pages, the mapping and the memory it asks for and the buffer
    touches a page at all. *)
Theorem read_write_all {D} `{Env D} `{!Pins D} pm size_cb vr wait dma_view h2c_timeout c2h_timeout sgt i ch buf count pos write
    (s : pst D) :
  can_transfer pm wait s i ch write buf count pos -> maps_bytes pm size_cb dma_view sgt buf count ->
  let '(r, _) := char_sgdma_read_write pm size_cb vr wait dma_view h2c_timeout c2h_timeout sgt (Some i) buf count pos write s in
  (r = count \/ r < 0) /\ (grants_transfer D sgt -> npages buf count <> 0 -> r = count).
Proof.
  intros [U1 U2 U3 U4 U5 U6 U7 U8 U9 U10 U11 U12] Hmap.
  assert (eng_magic (get_eng write ch (w_dst (p_wst s))) = MAGIC_ENGINE /\
          eng_dir (get_eng write ch (w_dst (p_wst s))) = (if write then DMA_TO_DEVICE else DMA_FROM_DEVICE)) as [Hmagic Hdir].
  { unfold submit_checks in U6. destruct (Z.eqb_spec (eng_magic (get_eng write ch (w_dst (p_wst s)))) MAGIC_ENGINE); [|done].
    split; [done|]. cbn [negb] in U6. destruct (xdma_device_flag_check _ _); [done|].
    by destruct (eng_dir _), write. }
  apply (wp_elim _ (fun r _ => (r = count \/ r < 0) /\ (grants_transfer D sgt -> npages buf count <> 0 -> r = count))).
  apply wp_checked; [done|intros _; by exists write, ch|]. apply wp_bind, wp_engine_of. rewrite U2.
  cbn [fmap option_fmap option_map fst snd]. unfold dir_mismatch, default, from_option. cbv beta iota delta [id]. rewrite Hdir.
  assert (dir_eqb (if write then DMA_TO_DEVICE else DMA_FROM_DEVICE) (if write then DMA_TO_DEVICE else DMA_FROM_DEVICE) = true)
    as -> by (by destruct write). cbn [negb]. cbv zeta. rewrite U9. change (nz 0) with false. cbv iota.
  apply wp_bind, wp_map_buf; [done|done| |].
  { intros rv cb p ev g s1 Hrv P1 _ _ Hno. destruct (Z.ltb_spec rv 0); [|lia]. apply wp_ret. split; [by right|].
    intros Hg Hn. by destruct (Hno Hn (gt_pages _ _ Hg)). }
  fld. intros cb pages ev s1 Hlen _ Hnz _ Hheld (k & _ & ->) _. change (0 <? 0) with false. cbv iota. apply wp_bind.
  unfold with_handle. destruct (Z.eqb_spec (xc_xdev (cdev_at (p_xpdev s) i)) 0) as [E|_]; [by destruct (us_xdev _ _ U1)|].
  pv_step. pv_step. pv_step. apply wp_on_lib, wp_gets.
  match goal with |- wp _ _ ?s1 => change s1 with (with_io k (<[sgt:=buf_table dma_view pages buf count]> (sgts s)) s) end.
  change (w_xdev_list (p_wst (with_io k ?g s))) with (w_xdev_list (p_wst s)).
  change (ds_dev (w_dst (p_wst (with_io k ?g s)))) with (ds_dev (w_dst (p_wst s))). rewrite U5. change (0 <? 0) with false. cbv iota.
  rewrite U3, u64_small by lia.
  apply (wp_channel_submit pm size_cb vr wait dma_view sgt write ch pos _ pages buf count); try done; [lia|by apply lookup_insert_eq|].
  intros r s2 Hr1 Hr2. apply wp_bind, wp_unmap_buf; [by rewrite Hheld|]. intros cb' ev3 s3 _ _ _. by apply wp_ret.
Qed.

(** ** The properties at work

    A kernel that grants everything, pages with odd addresses, and a mapping that
    keeps the entries. *)
Inductive ex_kernel := ex_generous.
Definition ex_kernel_ret (c : kcall) : Z :=
  match c with
  | K_kcalloc _ _ => 0x5000 | K_kzalloc _ => 0x8000 | K_get_user_pages_fast _ n => n | K_pinned_page i => 2 * i + 1
  | K_dma_map_sg _ n => n | _ => 0
  end.
#[local] Instance ex_kernel_env : Env ex_kernel := {
  env_read _ d := (0, d); env_write _ _ d := d; env_call c d := (ex_kernel_ret c, d)
}.
#[local] Instance ex_pins : Pins ex_kernel.
Proof. constructor; intros; cbn; lia. Defined.

Definition ex_view (l : list sg_page) : list sg_entry :=
  imap (fun i e => {| sg_dma_address := 0x100000 + 4096 * Z.of_nat i + sp_offset e; sg_dma_len := sp_len e |}) l.

(** 8200 bytes from the middle of a page: three pages, the last for few bytes. *)
Lemma ex_buf_ok : buf_ok 0x7f0000000800 8200.
Proof. constructor; decide_now. Defined.
Definition ex_cb : xdma_io_cb := io_cb_zero <| cb_buf := 0x7f0000000800 |> <| cb_len := 8200 |>.

Definition ex_dma_engine : xdma_engine :=
  engine_zero <| eng_magic := MAGIC_ENGINE |> <| eng_dir := DMA_TO_DEVICE |> <| eng_addr_align := 1 |>
    <| eng_desc := Some (replicate 2 desc_zero) |> <| eng_desc_max := 2 |>
    <| eng_desc_bus := 0x10000 |> <| eng_cyclic_result_bus := 0x20000 |>.
Definition ex_dma : pst ex_kernel :=
  {| p_wst := {| w_dst := {| ds_k := mkK ex_generous []; ds_heap := ∅; ds_sgts := ∅;
                   ds_dev := xdev_zero <| xd_magic := MAGIC_DEVICE |> <| xd_pdev := 0x40 |> <| xd_h2c_channel_max := 1 |>;
                   ds_h2c := [ex_dma_engine]; ds_c2h := [] |};
                 w_self := 0x100; w_cs_threads := 0; w_threads := [];
                 w_xdev_list := [{| le_hndl := 0x100; le_pdev := 0x40; le_idx := 0 |}]; w_oops := false |};
     p_xpdev := xpdev_zero <| xp_cdevs := {[ (CHAR_XDMA_H2C, 0) :=
                  cdev_zero <| xc_magic := MAGIC_CHAR |> <| xc_xdev := 0x100 |> <| xc_engine := Some (true, 0) |> ]} |>;
     p_class := 0x200; p_cache := 0x300; p_cnt := 1; p_drvdata := 0 |}.

Lemma map_user_buf_exact_witness :
  ltac:(statement_of (map_user_buf_exact ex_view 7 ex_cb true ex_dma ex_buf_ok eq_refl)).
Proof. instance_of (map_user_buf_exact ex_view 7 ex_cb true ex_dma ex_buf_ok eq_refl). Defined.

Lemma ex_wait_no_page x tmo : calm (fun _ : est ex_kernel => tt) no_page (instant_wait x tmo).
Proof. unfold instant_wait. calm. Qed.

Lemma read_write_releases_witness :
  ltac:(statement_of (read_write_releases ex_pm 256 (0, 0) instant_wait ex_view 10 10 7 (Some (CHAR_XDMA_H2C, 0)) 0x7f0000000800 8200
    0x40 true ex_dma ex_buf_ok ex_wait_no_page)).
Proof.
  instance_of (read_write_releases ex_pm 256 (0, 0) instant_wait ex_view 10 10 7 (Some (CHAR_XDMA_H2C, 0)) 0x7f0000000800 8200
    0x40 true ex_dma ex_buf_ok ex_wait_no_page).
Defined.

Lemma ex_dma_usable : usable ex_dma (CHAR_XDMA_H2C, 0).
Proof. constructor; by vm_compute. Qed.
Lemma ex_dma_ready : ready (ds_dev (w_dst (p_wst ex_dma))) ex_dma_engine 0.
Proof. constructor; [constructor; [constructor|..]|..]; decide_now. Qed.
Lemma ex_can_transfer : can_transfer ex_pm instant_wait ex_dma (CHAR_XDMA_H2C, 0) 0 true 0x7f0000000800 8200 0x40.
Proof.
  constructor; first [exact ex_dma_usable|exact ex_dma_ready|exact instant_completes|exact ex_buf_ok|decide_now].
Qed.
Lemma ex_maps_bytes : maps_bytes ex_pm 256 ex_view 7 0x7f0000000800 8200.
Proof.
  intros pages d Hlen. change (npages 0x7f0000000800 8200) with 3 in Hlen. destruct pages as [|a [|b [|c [|]]]]; cbn in Hlen; try lia.
  intros t n _. subst t n. split; [constructor|by vm_compute]; decide_now.
Qed.

Lemma read_write_all_witness :
  ltac:(statement_of (read_write_all ex_pm 256 (0, 0) instant_wait ex_view 10 10 7 (CHAR_XDMA_H2C, 0) 0 0x7f0000000800 8200 0x40 true
    ex_dma ex_can_transfer ex_maps_bytes)).
Proof.
  instance_of (read_write_all ex_pm 256 (0, 0) instant_wait ex_view 10 10 7 (CHAR_XDMA_H2C, 0) 0 0x7f0000000800 8200 0x40 true
    ex_dma ex_can_transfer ex_maps_bytes).
Defined.

(** The kernel of the example grants everything, and the write moves all its bytes. *)
Lemma ex_grants : grants_transfer ex_kernel 7.
Proof. constructor; [constructor|..]; intros; cbn; try done; lia. Qed.
Example ex_write_run :
  let '(r, s) := char_sgdma_write ex_pm 256 (0, 0) instant_wait ex_view 10 10 7 (Some (CHAR_XDMA_H2C, 0)) 0x7f0000000800 8200 0x40 ex_dma in
  r = 8200 /\ pins (ptrace s) = [1; 3; 5] /\ puts (ptrace s) = [1; 3; 5].
Proof. by vm_compute. Qed.

(** A buffer of 4 GiB or more: the length left is cut to 32 bits, the table does not
    fill up, and the pages pinned stay. *)
Example ex_long_buffer :
  let '(rv, _, s) := fill_sgl [1; 3] 0x1000 (2 ^ 32 + 4096) ex_dma in
  rv = [{| sp_page := 1; sp_len := 4096; sp_offset := 0 |}; {| sp_page := 3; sp_len := 0; sp_offset := 0 |}].
Proof. by vm_compute. Qed.
