(* ===== verification/Xvc.v ===== *)
(** The XVC device ([cdev_xvc.c]): JTAG vectors shifted through a register
    interface, 32 bits at a time. *)
From S2P Require Import Prelude Kernel Types Device Threads Cdev Bytes Ctrl.
Local Open Scope Z_scope.

(* @src xdma/cdev_xvc.c:25-25 COMPLETION_LOOP_MAX *)
Definition COMPLETION_LOOP_MAX : nat := 100.
(* @src xdma/cdev_xvc.c:27-27 XVC_BAR_LENGTH_REG *)
Definition XVC_BAR_LENGTH_REG : Z := 0x0.
(* @src xdma/cdev_xvc.c:28-28 XVC_BAR_TMS_REG *)
Definition XVC_BAR_TMS_REG : Z := 0x4.
(* @src xdma/cdev_xvc.c:29-29 XVC_BAR_TDI_REG *)
Definition XVC_BAR_TDI_REG : Z := 0x8.
(* @src xdma/cdev_xvc.c:30-30 XVC_BAR_TDO_REG *)
Definition XVC_BAR_TDO_REG : Z := 0xC.
(* @src xdma/cdev_xvc.c:31-31 XVC_BAR_CTRL_REG *)
Definition XVC_BAR_CTRL_REG : Z := 0x10.

(* @src xdma/cdev_xvc.h:32-38 xvc_ioc *)
Record xvc_ioc := { xi_opcode : Z; xi_length : Z; xi_tms_buf : Z; xi_tdi_buf : Z; xi_tdo_buf : Z }.

Section Code.
Context {D : Type} `{Env D}.

Section Regs.
Context {St : Type} `{Has St (kstate D)}.

(** The poll for the end of a shift: whether it came before [n] reads. *)
(* @src xdma/cdev_xvc.c:71-80 xvc_shift_bits *)
Fixpoint xvc_poll (n : nat) (base : Z) : M St bool :=
  match n with
  | O => mret false
  | S n =>
      control ← read_register (base + XVC_BAR_CTRL_REG);
      if Z.land control 0x01 =? 0 then mret true else xvc_poll n base
  end.

(** The result, and [*tdo_bits]. *)
(* @src xdma/cdev_xvc.c:58-91 xvc_shift_bits *)
Definition xvc_shift_bits (base tms_bits tdi_bits tdo_bits : Z) : M St (Z * Z) :=
  write_register tms_bits (base + XVC_BAR_TMS_REG) ;;
  write_register tdi_bits (base + XVC_BAR_TDI_REG) ;;
  write_register 0x1 (base + XVC_BAR_CTRL_REG) ;;
  done ← xvc_poll COMPLETION_LOOP_MAX base;
  if negb done then mret (- ETIMEDOUT, tdo_bits)
  else tdo ← read_register (base + XVC_BAR_TDO_REG); mret (0, tdo).

(** The loop over the words, with [rv] before it; the result and the buffer that
    collects the bits shifted out.  [bits] rises by 32 in a 32-bit word. *)
(* @src xdma/cdev_xvc.c:175-198 xvc_ioctl *)
Fixpoint xvc_loop (n : nat) (iobase total_bits : Z) (tms_buf tdi_buf : list Z) (bits bits_left rv : Z) (tdo_buf : list Z)
  : M St (option (Z * list Z)) :=
  if bits <? total_bits then
    match n with
    | O => mret None
    | S n =>
        let bytes := Z.shiftr bits 3 in
        when (bits_left <? 32) (write_register bits_left (iobase + XVC_BAR_LENGTH_REG)) ;;
        let shift_bytes := if bits_left <? 32 then Z.shiftr (u32 (bits_left + 7)) 3 else 4 in
        '(rv, tdo_store) ← xvc_shift_bits iobase (word_at tms_buf bytes shift_bytes) (word_at tdi_buf bytes shift_bytes) 0;
        if rv <? 0 then mret (Some (rv, tdo_buf))
        else xvc_loop n iobase total_bits tms_buf tdi_buf (u32 (bits + 32)) (u32 (bits_left - 32)) rv
               (put_word tdo_store tdo_buf bytes shift_bytes)
    end
  else mret (Some (rv, tdo_buf)).

(** The transfer: the result, and what is copied back to the user, if anything. *)
(* @src xdma/cdev_xvc.c:168-213 xvc_ioctl *)
Definition xvc_transfer (iobase opcode total_bits : Z) (tms_buf tdi_buf tdo_buf : list Z) (tdo_user : Z) : M St (option Z) :=
  when (32 <=? total_bits) (write_register 0x20 (iobase + XVC_BAR_LENGTH_REG)) ;;
  r ← xvc_loop (S (Z.to_nat (total_bits / 32))) iobase total_bits tms_buf tdi_buf 0 total_bits 0 tdo_buf;
  match r with
  | None => mret None
  | Some (rv, tdo_buf) =>
      if rv <? 0 then mret (Some rv)
      else rv ← call (K_copy_to_user tdo_user (if opcode =? 0x2 then tdi_buf else tdo_buf)); mret (Some rv)
  end.
End Regs.

(** [XDMA_IOCXVC], made by a macro of the kernel; the contents [kmalloc] leaves in
    the third of the buffer that receives the bits. *)
Variable XDMA_IOCXVC : Z.
Variable garbage : Z -> list Z.

(* @src xdma/cdev_xvc.c:120-121 xvc_ioctl *)
Definition user_ioc (arg : Z) : M (pst D) xvc_ioc :=
  opcode ← user_bytes 4 arg; length ← user_bytes 4 (arg + 4);
  tms ← user_bytes 8 (arg + 8); tdi ← user_bytes 8 (arg + 16); tdo ← user_bytes 8 (arg + 24);
  mret {| xi_opcode := le_word opcode; xi_length := le_word length; xi_tms_buf := le_word tms; xi_tdi_buf := le_word tdi;
          xi_tdo_buf := le_word tdo |}.

(** [goto cleanup] with a result. *)
Definition cleanup (buffer rv : Z) : M (pst D) (option Z) := call_ (K_kfree buffer) ;; mret (Some rv).

(** [None] only if the loop does not end. *)
(* @src xdma/cdev_xvc.c:93-225 xvc_ioctl *)
Definition xvc_ioctl (f : option (cdev_type * Z)) (cmd arg : Z) : M (pst D) (option Z) :=
  checked f false Some (fun c =>
    x ← lib_dev;
    if negb (cmd =? XDMA_IOCXVC) then mret (Some (- ENOIOCTLCMD))
    else
      rv ← call (K_copy_from_user arg 32);
      if nz rv then cleanup 0 rv
      else
        o ← user_ioc arg;
        if negb (xi_opcode o =? 0x01) && negb (xi_opcode o =? 0x02) then mret (Some (- EINVAL))
        else
          let total_bits := xi_length o in
          let total_bytes := Z.shiftr (u32 (total_bits + 7)) 3 in
          buffer ← call (K_kmalloc (u32 (total_bytes * 3)));
          if buffer =? 0 then cleanup 0 (- ENOMEM)
          else
            rv ← call (K_copy_from_user (xi_tms_buf o) total_bytes);
            if nz rv then cleanup buffer rv
            else
              tms_buf ← user_bytes (Z.to_nat total_bytes) (xi_tms_buf o);
              rv ← call (K_copy_from_user (xi_tdi_buf o) total_bytes);
              if nz rv then cleanup buffer rv
              else
                tdi_buf ← user_bytes (Z.to_nat total_bytes) (xi_tdi_buf o);
                r ← xvc_transfer (xd_bar_at x (xc_bar c) + xc_base c) (xi_opcode o) total_bits tms_buf tdi_buf
                      (garbage total_bytes) (xi_tdo_buf o);
                match r with Some rv => cleanup buffer rv | None => mret None end).
End Code.
