(* ===== verification/XvcSpec.v ===== *)
(** The XVC device against a JTAG chain: whatever the length of the vectors, the
    transfer shifts them through the chain as one run over all their bits. *)
From S2P Require Import Prelude Kernel Types Device Threads Cdev Bytes Ctrl Xvc.
Local Open Scope Z_scope.

(** ** The reference: a chain, one clock at a time

    A chain takes a [tms] and a [tdi] bit and gives a [tdo] bit. *)
Section Chain.
Context {T : Type} (tap : bool * bool -> T -> bool * T).

Fixpoint chain_out (l : list (bool * bool)) (t : T) : list bool :=
  match l with [] => [] | x :: l => (tap x t).1 :: chain_out l (tap x t).2 end.
Definition chain_end (l : list (bool * bool)) (t : T) : T := foldl (fun t x => (tap x t).2) t l.

(** The clocks that two vectors of [n] bits make. *)
Definition clocks (n tms tdi : Z) : list (bool * bool) := zip (bits_of n tms) (bits_of n tdi).

Lemma length_clocks n a b : length (clocks n a b) = Z.to_nat n.
Proof. unfold clocks. rewrite length_zip_with, !length_bits_of. lia. Qed.

Lemma length_chain_out l t : length (chain_out l t) = length l.
Proof. revert t. induction l as [|x l IH]; intros t; cbn; [done|]. by rewrite IH. Qed.

Lemma chain_out_app l1 l2 t : chain_out (l1 ++ l2) t = chain_out l1 t ++ chain_out l2 (chain_end l1 t).
Proof. revert t. induction l1 as [|x l1 IH]; intros t; cbn; [done|]. by rewrite IH. Qed.

Lemma chain_end_app l1 l2 t : chain_end (l1 ++ l2) t = chain_end l2 (chain_end l1 t).
Proof. apply foldl_app. Qed.

Lemma clocks_app n m a b :
  0 <= n -> 0 <= m -> clocks (n + m) a b = clocks n a b ++ clocks m (a / 2 ^ n) (b / 2 ^ n).
Proof.
  intros Hn Hm. unfold clocks. rewrite !bits_of_app by done. apply zip_with_app. by rewrite !length_bits_of.
Qed.

Lemma clocks_mod n i k a b : n <= i -> n <= k -> clocks n (a mod 2 ^ i) (b mod 2 ^ k) = clocks n a b.
Proof. intros Hi Hk. unfold clocks. by rewrite !bits_of_mod. Qed.

(** ** The device

    Its registers, the chain behind it, and the reads of the control register
    that still answer busy.  A shift is run when the control register is
    written. *)
Record jtag := { j_state : T; j_len : Z; j_tms : Z; j_tdi : Z; j_tdo : Z; j_busy : nat }.

Variables (base : Z) (delay : nat).

Definition j_write (reg v : Z) (j : jtag) : jtag :=
  if reg =? XVC_BAR_LENGTH_REG then
    {| j_state := j_state j; j_len := v; j_tms := j_tms j; j_tdi := j_tdi j; j_tdo := j_tdo j; j_busy := j_busy j |}
  else if reg =? XVC_BAR_TMS_REG then
    {| j_state := j_state j; j_len := j_len j; j_tms := v; j_tdi := j_tdi j; j_tdo := j_tdo j; j_busy := j_busy j |}
  else if reg =? XVC_BAR_TDI_REG then
    {| j_state := j_state j; j_len := j_len j; j_tms := j_tms j; j_tdi := v; j_tdo := j_tdo j; j_busy := j_busy j |}
  else if reg =? XVC_BAR_CTRL_REG then
    let l := clocks (j_len j) (j_tms j) (j_tdi j) in
    {| j_state := chain_end l (j_state j); j_len := j_len j; j_tms := j_tms j; j_tdi := j_tdi j;
       j_tdo := word_of_bits (chain_out l (j_state j)); j_busy := delay |}
  else j.

Definition j_read (reg : Z) (j : jtag) : Z * jtag :=
  if reg =? XVC_BAR_TDO_REG then (j_tdo j, j)
  else if reg =? XVC_BAR_CTRL_REG then
    match j_busy j with
    | O => (0, j)
    | S n => (1, {| j_state := j_state j; j_len := j_len j; j_tms := j_tms j; j_tdi := j_tdi j; j_tdo := j_tdo j; j_busy := n |})
    end
  else (0, j).

#[local] Instance jtag_env : Env jtag := {
  env_read a := j_read (a - base);
  env_write a := j_write (a - base);
  env_call c j := (0, j);
}.

(** ** One word *)

Lemma poll_ends (n : nat) j tr :
  (j_busy j < n)%nat ->
  wp (xvc_poll n base)
    (fun r s => r = true /\ j_state (k_env s) = j_state j /\ j_len (k_env s) = j_len j /\ j_tdo (k_env s) = j_tdo j)
    (mkK j tr).
Proof.
  revert j tr. induction n as [|n IH]; intros j tr Hn; [lia|]. cbn [xvc_poll].
  apply wp_bind, wp_read_env. cbn -[Z.sub Z.add]. unfold j_read.
  replace (base + XVC_BAR_CTRL_REG - base) with XVC_BAR_CTRL_REG by lia. cbn.
  destruct (j_busy j) as [|m] eqn:Hb; intros v d [= <- <-]; cbn; [by apply wp_ret|].
  eapply wp_mono; [apply IH; cbn; lia|]. done.
Qed.

Definition at_rest (t : T) (len : Z) (s : kstate jtag) : Prop := j_state (k_env s) = t /\ j_len (k_env s) = len.

Hypothesis delay_ok : (delay < COMPLETION_LOOP_MAX)%nat.

Lemma shift_word s t len tms tdi o :
  at_rest t len s -> 0 <= len <= 32 ->
  wp (xvc_shift_bits base tms tdi o)
    (fun r s' => r = (0, word_of_bits (chain_out (clocks len tms tdi) t)) /\
                 at_rest (chain_end (clocks len tms tdi) t) len s')
    s.
Proof.
  destruct s as [j tr]. intros [Ht Hl] Hlen. cbn in Ht, Hl. unfold xvc_shift_bits. do 3 apply wp_bind, wp_write.
  cbn -[Z.sub Z.add u32 xvc_poll COMPLETION_LOOP_MAX]. unfold j_write.
  replace (base + XVC_BAR_TMS_REG - base) with XVC_BAR_TMS_REG by lia.
  replace (base + XVC_BAR_TDI_REG - base) with XVC_BAR_TDI_REG by lia.
  replace (base + XVC_BAR_CTRL_REG - base) with XVC_BAR_CTRL_REG by lia. cbn -[u32 xvc_poll COMPLETION_LOOP_MAX].
  rewrite Ht, Hl. change u32 with (fun x => x mod 2 ^ 32). cbv beta. rewrite clocks_mod by lia.
  apply wp_bind. eapply wp_mono; [apply poll_ends; exact delay_ok|].
  intros r s' (-> & H1 & H2 & H3). cbn in H1, H2, H3. cbn [negb]. apply wp_bind, wp_read_env.
  cbn -[Z.sub Z.add]. unfold j_read. replace (base + XVC_BAR_TDO_REG - base) with XVC_BAR_TDO_REG by lia. cbn.
  intros v d [= <- <-]. apply wp_ret. split; [|by split]. rewrite H3. f_equal. apply u32_small.
  pose proof (word_of_bits_range (chain_out (clocks len tms tdi) t)) as Hr.
  rewrite length_chain_out, length_clocks in Hr. assert (2 ^ Z.of_nat (Z.to_nat len) <= 2 ^ 32) by (apply Z.pow_le_mono_r; lia).
  change 4294967296 with (2 ^ 32). lia.
Qed.

(** ** The loop over the words *)

Variables (tms tdi : list Z).
Hypothesis tms_ok : Forall (fun b => 0 <= b < 256) tms.
Hypothesis tdi_ok : Forall (fun b => 0 <= b < 256) tdi.

Lemma word_at_spec l a n :
  Forall (fun b => 0 <= b < 256) l -> 0 <= a -> 0 <= n -> word_at l a n = (le_word l / 2 ^ (8 * a)) mod 2 ^ (8 * n).
Proof.
  intros Hl Ha Hn. unfold word_at. rewrite le_word_take, le_word_drop by (try apply Forall_drop; done).
  rewrite !Z2Nat.id by done. by rewrite !(Z.pow_mul_r 2 8) by lia.
Qed.

(** The clocks still to run when [32 * k] bits have been shifted, [left] remain. *)
Definition rest (k left : Z) : list (bool * bool) := clocks left (le_word tms / 2 ^ (32 * k)) (le_word tdi / 2 ^ (32 * k)).

Lemma length_rest k left : length (rest k left) = Z.to_nat left.
Proof. apply length_clocks. Qed.

Lemma rest_split k left :
  0 <= k -> 32 <= left -> rest k left = rest k 32 ++ rest (k + 1) (left - 32).
Proof.
  intros Hk Hl. unfold rest. replace left with (32 + (left - 32)) at 1 by lia. rewrite clocks_app by lia. f_equal.
  rewrite !Z.div_div, <- !Z.pow_add_r by lia. do 3 f_equal; lia.
Qed.

Lemma rest_words k n left :
  0 <= k -> 0 <= left <= 8 * n -> clocks left (word_at tms (4 * k) n) (word_at tdi (4 * k) n) = rest k left.
Proof.
  intros Hk Hn. rewrite !word_at_spec by (done || lia). replace (8 * (4 * k)) with (32 * k) by lia. by apply clocks_mod; lia.
Qed.

(** The bits shifted out, in the bytes of the buffer from [4 * k] on. *)
Definition collected (tdo : list Z) (k left : Z) (t : T) : list Z :=
  take (Z.to_nat (4 * k)) tdo ++ le_bytes (Z.to_nat ((left + 7) / 8)) (word_of_bits (chain_out (rest k left) t)).

Lemma put_last k left tdo t :
  0 <= k -> 0 <= left -> length tdo = Z.to_nat (4 * k + (left + 7) / 8) ->
  put_word (word_of_bits (chain_out (rest k left) t)) tdo (4 * k) ((left + 7) / 8) = collected tdo k left t.
Proof.
  intros Hk Hl Hlen. unfold put_word, collected. rewrite (drop_ge tdo) by lia. by rewrite app_nil_r.
Qed.

Lemma put_word_4 v k tdo :
  0 <= k -> (Z.to_nat (4 * k + 4) <= length tdo)%nat ->
  length (put_word v tdo (4 * k) 4) = length tdo /\
  take (Z.to_nat (4 * (k + 1))) (put_word v tdo (4 * k) 4) = take (Z.to_nat (4 * k)) tdo ++ le_bytes 4 v.
Proof.
  intros Hk Hlen. unfold put_word. change (Z.to_nat 4) with 4%nat. split.
  - rewrite !length_app, length_le_bytes, length_take, length_drop. lia.
  - rewrite app_assoc. apply take_app_length'. rewrite length_app, length_le_bytes, length_take. lia.
Qed.

Lemma bytes_left left : 32 <= left -> 0 <= (left - 32 + 7) / 8 /\ (left + 7) / 8 = 4 + (left - 32 + 7) / 8.
Proof.
  intros Hl. split; [apply Z.div_pos; lia|]. replace (left + 7) with (left - 32 + 7 + 4 * 8) by lia.
  rewrite Z.div_add by lia. lia.
Qed.

Lemma collected_put k left tdo t :
  0 <= k -> 32 <= left -> length tdo = Z.to_nat (4 * k + (left + 7) / 8) ->
  collected (put_word (word_of_bits (chain_out (rest k 32) t)) tdo (4 * k) 4) (k + 1) (left - 32)
    (chain_end (rest k 32) t) = collected tdo k left t.
Proof.
  intros Hk Hl Hlen. destruct (bytes_left left Hl) as [H1 H2]. unfold collected.
  rewrite (proj2 (put_word_4 _ k tdo Hk ltac:(lia))), <- app_assoc. f_equal.
  rewrite (rest_split k left) by lia. rewrite chain_out_app, word_of_bits_app, length_chain_out.
  rewrite length_rest, H2, Z2Nat.inj_add by lia. change (Z.to_nat 4) with 4%nat.
  set (v := word_of_bits (chain_out (rest k 32) t)). set (w := word_of_bits (chain_out _ _)).
  assert (0 <= v < 2 ^ 32) as Hv.
  { pose proof (word_of_bits_range (chain_out (rest k 32) t)) as Hr. by rewrite length_chain_out, length_rest in Hr. }
  change (2 ^ Z.of_nat (Z.to_nat 32)) with (256 ^ Z.of_nat 4). rewrite le_bytes_app. f_equal.
  - rewrite <- (le_bytes_mod 4 (_ + _)). rewrite (Z.mul_comm (256 ^ _)), Z.mod_add by lia. by rewrite le_bytes_mod.
  - f_equal. rewrite (Z.mul_comm (256 ^ _)), Z.div_add by lia. rewrite (Z.div_small v) by (change (256 ^ Z.of_nat 4) with (2 ^ 32); lia). lia.
Qed.

Definition max_bits : Z := 2 ^ 32 - 32.

Lemma loop_over n total bits left rv tdo (Q : _ -> kstate jtag -> Prop) s :
  total <= bits -> Q (Some (rv, tdo)) s ->
  wp (xvc_loop n base total tms tdi bits left rv tdo) Q s.
Proof. intros Hb HQ. destruct n; cbn [xvc_loop]; rewrite (proj2 (Z.ltb_ge _ _) Hb); by apply wp_ret. Qed.

Lemma words_shifted (n : nat) k left tdo t len s :
  at_rest t len s -> (32 <= left -> len = 32) ->
  0 <= k -> 0 <= left -> 32 * k + left <= max_bits -> left < 32 * Z.of_nat n ->
  length tdo = Z.to_nat (4 * k + (left + 7) / 8) ->
  wp (xvc_loop n base (32 * k + left) tms tdi (32 * k) left 0 tdo)
    (fun r s' => r = Some (0, collected tdo k left t) /\ j_state (k_env s') = chain_end (rest k left) t) s.
Proof.
  revert k left tdo t len s. induction n as [|n IH]; intros k left tdo t len s Hs Hlen Hk Hl Hmax Hn Htdo; [lia|].
  unfold max_bits in Hmax. destruct (decide (left = 0)) as [->|Hne].
  { apply loop_over; [lia|]. split; [|apply Hs]. unfold collected, rest, clocks. cbn -[Z.mul].
    change ((0 + 7) / 8) with 0 in Htdo. rewrite firstn_all2 by lia. by rewrite app_nil_r. }
  cbn [xvc_loop]. rewrite (proj2 (Z.ltb_lt _ _)) by lia.
  replace (Z.shiftr (32 * k) 3) with (4 * k)
    by (rewrite Z.shiftr_div_pow2 by lia; apply (Z.div_unique_pos _ _ _ 0); lia).
  rewrite (u32_small (32 * k + 32)) by lia. destruct (left <? 32) eqn:Hlt; apply wp_bind.
  - apply Z.ltb_lt in Hlt. apply wp_write. cbn -[Z.sub Z.add u32 xvc_shift_bits]. rewrite (u32_small (left + 7)), (u32_small left) by lia.
    rewrite Z.shiftr_div_pow2 by lia. change (2 ^ 3) with 8. apply wp_bind. eapply wp_mono.
    { apply (shift_word _ t left); [|lia]. unfold j_write.
      replace (base + XVC_BAR_LENGTH_REG - base) with XVC_BAR_LENGTH_REG by lia. split; [apply Hs|done]. }
    intros r s' [-> [H1 H2]]. cbn [Z.ltb Z.compare]. apply loop_over; [lia|].
    rewrite rest_words in * by (try done; pose proof (Z.div_mod (left + 7) 8); pose proof (Z.mod_pos_bound (left + 7) 8); lia).
    split; [|done]. by rewrite put_last.
  - apply Z.ltb_ge in Hlt. apply wp_ret, wp_bind. rewrite (Hlen Hlt) in Hs. eapply wp_mono.
    { by apply (shift_word _ t 32). }
    intros r s' [-> [H1 H2]]. cbn [Z.ltb Z.compare]. rewrite rest_words in * by lia.
    destruct (bytes_left left Hlt) as [H3 H4].
    destruct (put_word_4 (word_of_bits (chain_out (rest k 32) t)) k tdo Hk) as [H5 _]; [lia|].
    replace (32 * k + left) with (32 * (k + 1) + (left - 32)) by lia. replace (32 * k + 32) with (32 * (k + 1)) by lia.
    rewrite (u32_small (left - 32)) by lia. eapply wp_mono; [eapply IH; [by split|done|lia|lia|unfold max_bits; lia|lia|rewrite H5, Htdo; lia]|].
    intros r s'' [-> H6]. rewrite collected_put by done. split; [done|].
    by rewrite H6, (rest_split k left), chain_end_app by lia.
Qed.
(** C11 For every length up to [2^32 - 32] bits, the transfer of [xvc_ioctl]
    makes the chain take exactly the clocks of the two vectors, the words of 32 bits and the
    last shorter one joined, ends with 0, and copies to the user the bits the chain
    gave back, packed in [(total + 7) / 8] bytes (for opcode 2, [tdi] instead):
    what shifting all the bits in a single run would give. *)
Theorem xvc_shifts_all opcode total tdo tdo_user s :
  0 <= total <= max_bits -> length tdo = Z.to_nat ((total + 7) / 8) ->
  let l := clocks total (le_word tms) (le_word tdi) in
  let t := j_state (k_env s) in
  let '(r, s') := xvc_transfer base opcode total tms tdi tdo tdo_user s in
  r = Some 0 /\ j_state (k_env s') = chain_end l t /\
  let back := le_bytes (Z.to_nat ((total + 7) / 8)) (word_of_bits (chain_out l t)) in
  last (k_trace s') = Some (Ev_call (K_copy_to_user tdo_user (if opcode =? 2 then tdi else back)) 0).
Proof.
  intros Ht Htdo l t. apply (wp_elim _ (fun r s' => _)). unfold xvc_transfer.
  assert (exists s1, wp (when (32 <=? total) (write_register 0x20 (base + XVC_BAR_LENGTH_REG))) (fun _ s => s = s1) s /\
    exists len, at_rest t len s1 /\ (32 <= total -> len = 32)) as (s1 & Hw & len & Hs & Hlen).
  { destruct (32 <=? total) eqn:Hb; cbn [when]; eexists; (split; [|eexists]).
    - by apply wp_write.
    - split; [|by intros _]. cbn -[Z.sub Z.add u32]. unfold j_write.
      by replace (base + XVC_BAR_LENGTH_REG - base) with XVC_BAR_LENGTH_REG by lia.
    - by apply wp_ret.
    - split; [by split|]. intros ?%Z.leb_le. congruence. }
  apply wp_bind. eapply wp_mono; [exact Hw|]. intros _ ? ->. apply wp_bind.
  assert (rest 0 total = l) as Hl by (unfold rest; cbn [Z.mul Z.pow]; by rewrite !Z.div_1_r).
  eapply wp_mono.
  { apply (words_shifted _ 0 total tdo t len); try done; [lia..|]. rewrite Nat2Z.inj_succ, Z2Nat.id by (apply Z.div_pos; lia).
    pose proof (Z.mul_succ_div_gt total 32). lia. }
  intros r s2 [-> H1]. rewrite Hl in H1. cbn [Z.ltb Z.compare]. apply wp_bind, wp_call_env. intros v d [= <- <-]. apply wp_ret.
  split; [done|]. split; [done|]. unfold collected. rewrite Hl. cbn -[le_bytes Z.div]. by rewrite last_snoc.
Qed.
End Chain.
Arguments jtag : clear implicits.

(** A chain of three cells that [tms] holds; 43 bits, in a word and 11 more. *)
Definition ex_chain (x : bool * bool) (t : bool * bool * bool) : bool * (bool * bool * bool) :=
  let '(a, b, c) := t in if x.1 then (c, t) else (c, (x.2, a, b)).
Definition ex_jtag : jtag (bool * bool * bool) :=
  {| j_state := (true, false, true); j_len := 7; j_tms := 0; j_tdi := 0; j_tdo := 0; j_busy := 0 |}.
Definition ex_tms : list Z := [0x0f; 0; 0x80; 1; 0; 4].
Definition ex_tdi : list Z := [0xa5; 0x5a; 0xff; 0; 0x33; 7].

Lemma ex_bytes_ok : Forall (fun b => 0 <= b < 256) ex_tms /\ Forall (fun b => 0 <= b < 256) ex_tdi.
Proof. split; decide_now. Qed.
Lemma ex_delay_ok : (9 < COMPLETION_LOOP_MAX)%nat.
Proof. unfold COMPLETION_LOOP_MAX. lia. Qed.
Lemma ex_bits_ok : 0 <= 43 <= max_bits.
Proof. unfold max_bits. lia. Qed.

Lemma xvc_shifts_all_witness :
  ltac:(statement_of (xvc_shifts_all ex_chain 0x40000 9 ex_delay_ok ex_tms ex_tdi (proj1 ex_bytes_ok) (proj2 ex_bytes_ok)
                        1 43 [1; 2; 3; 4; 5; 6] 0x7f000000 (mkK ex_jtag []) ex_bits_ok eq_refl)).
Proof.
  exact (xvc_shifts_all ex_chain 0x40000 9 ex_delay_ok ex_tms ex_tdi (proj1 ex_bytes_ok) (proj2 ex_bytes_ok)
           1 43 [1; 2; 3; 4; 5; 6] 0x7f000000 (mkK ex_jtag []) ex_bits_ok eq_refl).
Defined.

(** What the run above gives back, computed. *)
Example ex_xvc_back :
  last (k_trace (xvc_transfer (H := jtag_env ex_chain 0x40000 9) 0x40000 1 43 ex_tms ex_tdi [1; 2; 3; 4; 5; 6] 0x7f000000
                   (mkK ex_jtag [])).2) =
  Some (Ev_call (K_copy_to_user 0x7f000000 [0x5f; 0xd5; 0xfa; 0x0f; 0x98; 1]) 0).
Proof. vm_compute. reflexivity. Qed.
