(* ===== verification/DynClk.v ===== *)
(** The driver of the dynamic pixel clock ([ddynclk.c]): the search for the MMCM
    settings closest to a frequency, their encoding in the registers, and the
    programming of the core.  The ARM target has a 32-bit [unsigned long]. *)
From S2P Require Import Prelude Kernel.
Local Open Scope Z_scope.

(** ** Data *)
(* @src src/vivado/ip_repo/zybo-hdmi/ip/axi_dynclk_v1_1/drivers/ddynclk_v1_0/src/ddynclk.c:34-41 dglnt_dynclk_reg *)
Record dglnt_dynclk_reg := {
  clk0L : Z;
  clkFBL : Z;
  clkFBH_clk0H : Z;
  divclk : Z;
  lockL : Z;
  fltr_lockH : Z;
}.
#[export] Instance dglnt_dynclk_reg_settable : Settable dglnt_dynclk_reg := fun r =>
  Build_dglnt_dynclk_reg (clk0L r) (clkFBL r) (clkFBH_clk0H r) (divclk r) (lockL r) (fltr_lockH r).

(* @src src/vivado/ip_repo/zybo-hdmi/ip/axi_dynclk_v1_1/drivers/ddynclk_v1_0/src/ddynclk.c:43-48 dglnt_dynclk_mode *)
Record dglnt_dynclk_mode := { m_freq : Z; m_fbmult : Z; m_clkdiv : Z; m_maindiv : Z }.
#[export] Instance dglnt_dynclk_mode_settable : Settable dglnt_dynclk_mode := fun m =>
  Build_dglnt_dynclk_mode (m_freq m) (m_fbmult m) (m_clkdiv m) (m_maindiv m).

(** [Config.DeviceId] is used by the lookup only, and left out. *)
(* @src src/vivado/ip_repo/zybo-hdmi/ip/axi_dynclk_v1_1/drivers/ddynclk_v1_0/src/ddynclk.h:39-50 DDynClk *)
Record DDynClk := { dc_BaseAddress : Z; dc_freq : Z; dc_RefClkFreqHz : Z; dc_IsReady : Z }.
#[export] Instance DDynClk_settable : Settable DDynClk := fun d =>
  Build_DDynClk (dc_BaseAddress d) (dc_freq d) (dc_RefClkFreqHz d) (dc_IsReady d).

(* @src src/vivado/ip_repo/zybo-hdmi/ip/axi_dynclk_v1_1/drivers/ddynclk_v1_0/src/ddynclk.c:14-14 ERR_CLKCOUNTCALC *)
Definition ERR_CLKCOUNTCALC : Z := 0xFFFFFFFF.
(* @src src/vivado/ip_repo/zybo-hdmi/ip/axi_dynclk_v1_1/drivers/ddynclk_v1_0/src/ddynclk.c:15-15 ERR_CLKDIVIDER *)
Definition ERR_CLKDIVIDER : Z := 0x3000.
(* @src src/vivado/ip_repo/zybo-hdmi/ip/axi_dynclk_v1_1/drivers/ddynclk_v1_0/src/ddynclk.c:17-17 DYNCLK_DIV_1_REGMASK *)
Definition DYNCLK_DIV_1_REGMASK : Z := 0x1041.
(* @src src/vivado/ip_repo/zybo-hdmi/ip/axi_dynclk_v1_1/drivers/ddynclk_v1_0/src/ddynclk.c:21-21 MMCM_FREQ_VCOMIN *)
Definition MMCM_FREQ_VCOMIN : Z := 600000.
(* @src src/vivado/ip_repo/zybo-hdmi/ip/axi_dynclk_v1_1/drivers/ddynclk_v1_0/src/ddynclk.c:22-22 MMCM_FREQ_VCOMAX *)
Definition MMCM_FREQ_VCOMAX : Z := 1200000.
(* @src src/vivado/ip_repo/zybo-hdmi/ip/axi_dynclk_v1_1/drivers/ddynclk_v1_0/src/ddynclk.c:23-23 MMCM_FREQ_PFDMIN *)
Definition MMCM_FREQ_PFDMIN : Z := 10000.
(* @src src/vivado/ip_repo/zybo-hdmi/ip/axi_dynclk_v1_1/drivers/ddynclk_v1_0/src/ddynclk.c:24-24 MMCM_FREQ_PFDMAX *)
Definition MMCM_FREQ_PFDMAX : Z := 450000.
(* @src src/vivado/ip_repo/zybo-hdmi/ip/axi_dynclk_v1_1/drivers/ddynclk_v1_0/src/ddynclk.c:25-25 MMCM_FREQ_OUTMIN *)
Definition MMCM_FREQ_OUTMIN : Z := 4000.
(* @src src/vivado/ip_repo/zybo-hdmi/ip/axi_dynclk_v1_1/drivers/ddynclk_v1_0/src/ddynclk.c:26-26 MMCM_FREQ_OUTMAX *)
Definition MMCM_FREQ_OUTMAX : Z := 800000.
(* @src src/vivado/ip_repo/zybo-hdmi/ip/axi_dynclk_v1_1/drivers/ddynclk_v1_0/src/ddynclk.c:27-27 MMCM_DIV_MAX *)
Definition MMCM_DIV_MAX : Z := 106.
(* @src src/vivado/ip_repo/zybo-hdmi/ip/axi_dynclk_v1_1/drivers/ddynclk_v1_0/src/ddynclk.c:28-28 MMCM_FB_MIN *)
Definition MMCM_FB_MIN : Z := 2.
(* @src src/vivado/ip_repo/zybo-hdmi/ip/axi_dynclk_v1_1/drivers/ddynclk_v1_0/src/ddynclk.c:29-29 MMCM_FB_MAX *)
Definition MMCM_FB_MAX : Z := 64.
(* @src src/vivado/ip_repo/zybo-hdmi/ip/axi_dynclk_v1_1/drivers/ddynclk_v1_0/src/ddynclk.c:30-30 MMCM_CLKDIV_MAX *)
Definition MMCM_CLKDIV_MAX : Z := 128.
(* @src src/vivado/ip_repo/zybo-hdmi/ip/axi_dynclk_v1_1/drivers/ddynclk_v1_0/src/ddynclk.c:31-31 MMCM_CLKDIV_MIN *)
Definition MMCM_CLKDIV_MIN : Z := 1.
(* @src src/vivado/ip_repo/zybo-hdmi/ip/axi_dynclk_v1_1/drivers/ddynclk_v1_0/src/ddynclk.c:8-8 DIV_ROUND_UP *)
Definition DIV_ROUND_UP (n d : Z) : Z := u32 (u32 (n + d) - 1) / d.
Definition XST_SUCCESS : Z := 0.
Definition XST_FAILURE : Z := 1.

(* @src src/vivado/ip_repo/zybo-hdmi/ip/axi_dynclk_v1_1/drivers/ddynclk_v1_0/src/ddynclk.h:19-19 DDYNCLK_CTRL *)
Definition DDYNCLK_CTRL : Z := 0x0.
(* @src src/vivado/ip_repo/zybo-hdmi/ip/axi_dynclk_v1_1/drivers/ddynclk_v1_0/src/ddynclk.h:20-20 DDYNCLK_STATUS *)
Definition DDYNCLK_STATUS : Z := 0x4.
(* @src src/vivado/ip_repo/zybo-hdmi/ip/axi_dynclk_v1_1/drivers/ddynclk_v1_0/src/ddynclk.h:21-21 DDYNCLK_CLK_L *)
Definition DDYNCLK_CLK_L : Z := 0x8.
(* @src src/vivado/ip_repo/zybo-hdmi/ip/axi_dynclk_v1_1/drivers/ddynclk_v1_0/src/ddynclk.h:22-22 DDYNCLK_FB_L *)
Definition DDYNCLK_FB_L : Z := 0x0C.
(* @src src/vivado/ip_repo/zybo-hdmi/ip/axi_dynclk_v1_1/drivers/ddynclk_v1_0/src/ddynclk.h:23-23 DDYNCLK_FB_H_CLK_H *)
Definition DDYNCLK_FB_H_CLK_H : Z := 0x10.
(* @src src/vivado/ip_repo/zybo-hdmi/ip/axi_dynclk_v1_1/drivers/ddynclk_v1_0/src/ddynclk.h:24-24 DDYNCLK_DIV *)
Definition DDYNCLK_DIV : Z := 0x14.
(* @src src/vivado/ip_repo/zybo-hdmi/ip/axi_dynclk_v1_1/drivers/ddynclk_v1_0/src/ddynclk.h:25-25 DDYNCLK_LOCK_L *)
Definition DDYNCLK_LOCK_L : Z := 0x18.
(* @src src/vivado/ip_repo/zybo-hdmi/ip/axi_dynclk_v1_1/drivers/ddynclk_v1_0/src/ddynclk.h:26-26 DDYNCLK_FLTR_LOCK_H *)
Definition DDYNCLK_FLTR_LOCK_H : Z := 0x1C.
(* @src src/vivado/ip_repo/zybo-hdmi/ip/axi_dynclk_v1_1/drivers/ddynclk_v1_0/src/ddynclk.h:27-27 DDYNCLK_REF_CLK_FREQ *)
Definition DDYNCLK_REF_CLK_FREQ : Z := 0x20.

(* @src src/vivado/ip_repo/zybo-hdmi/ip/axi_dynclk_v1_1/drivers/ddynclk_v1_0/src/ddynclk.c:52-117 lock_lookup *)
Definition lock_lookup : list Z :=
  [0x31be8fa401; 0x31be8fa401; 0x423e8fa401; 0x5afe8fa401; 0x73be8fa401; 0x8c7e8fa401; 0x9cfe8fa401;
   0xb5be8fa401; 0xce7e8fa401; 0xe73e8fa401; 0xfff84fa401; 0xfff39fa401; 0xffeeefa401; 0xffebcfa401;
   0xffe8afa401; 0xffe71fa401; 0xffe3ffa401; 0xffe26fa401; 0xffe0dfa401; 0xffdf4fa401; 0xffddbfa401;
   0xffdc2fa401; 0xffda9fa401; 0xffd90fa401; 0xffd90fa401; 0xffd77fa401; 0xffd5efa401; 0xffd5efa401;
   0xffd45fa401; 0xffd45fa401; 0xffd2cfa401; 0xffd2cfa401; 0xffd2cfa401; 0xffd13fa401; 0xffd13fa401;
   0xffd13fa401; 0xffcfafa401; 0xffcfafa401; 0xffcfafa401; 0xffcfafa401; 0xffcfafa401; 0xffcfafa401;
   0xffcfafa401; 0xffcfafa401; 0xffcfafa401; 0xffcfafa401; 0xffcfafa401; 0xffcfafa401; 0xffcfafa401;
   0xffcfafa401; 0xffcfafa401; 0xffcfafa401; 0xffcfafa401; 0xffcfafa401; 0xffcfafa401; 0xffcfafa401;
   0xffcfafa401; 0xffcfafa401; 0xffcfafa401; 0xffcfafa401; 0xffcfafa401; 0xffcfafa401; 0xffcfafa401;
   0xffcfafa401].

(* @src src/vivado/ip_repo/zybo-hdmi/ip/axi_dynclk_v1_1/drivers/ddynclk_v1_0/src/ddynclk.c:119-184 filter_lookup_low *)
Definition filter_lookup_low : list Z :=
  [0x5f; 0x57; 0x7b; 0x5b; 0x6b; 0x73; 0x73; 0x73; 0x73; 0x4b; 0x4b; 0x4b; 0xb3; 0x53; 0x53; 0x53; 0x53;
   0x53; 0x53; 0x53; 0x53; 0x53; 0x53; 0x63; 0x63; 0x63; 0x63; 0x63; 0x63; 0x63; 0x63; 0x63; 0x63; 0x63;
   0x63; 0x63; 0x63; 0x93; 0x93; 0x93; 0x93; 0x93; 0x93; 0x93; 0x93; 0x93; 0x93; 0xa3; 0xa3; 0xa3; 0xa3;
   0xa3; 0xa3; 0xa3; 0xa3; 0xa3; 0xa3; 0xa3; 0xa3; 0xa3; 0xa3; 0xa3; 0xa3; 0xa3].

(** ** Encoding *)
(* @src src/vivado/ip_repo/zybo-hdmi/ip/axi_dynclk_v1_1/drivers/ddynclk_v1_0/src/ddynclk.c:187-211 dglnt_dynclk_divider *)
Definition dglnt_dynclk_divider (divide : Z) : Z :=
  if (divide <? 1) || (128 <? divide) then ERR_CLKDIVIDER
  else if divide =? 1 then DYNCLK_DIV_1_REGMASK
  else
    let highTime := divide / 2 in
    let '(lowTime, output) := if tst divide 0x1 then (highTime + 1, Z.shiftl 1 13) else (highTime, 0) in
    let output := Z.lor output (Z.land 0x03F lowTime) in
    Z.lor output (Z.land 0xFC0 (u32 (Z.shiftl highTime 6))).

(* @src src/vivado/ip_repo/zybo-hdmi/ip/axi_dynclk_v1_1/drivers/ddynclk_v1_0/src/ddynclk.c:213-224 dglnt_dynclk_count_calc *)
Definition dglnt_dynclk_count_calc (divide : Z) : Z :=
  let divCalc := dglnt_dynclk_divider divide in
  if divCalc =? ERR_CLKDIVIDER then ERR_CLKCOUNTCALC
  else Z.lor (Z.land 0xFFF divCalc) (Z.land (u32 (Z.shiftl divCalc 10)) 0x00C00000).

(** The result, and the registers as far as they were filled in. *)
(* @src src/vivado/ip_repo/zybo-hdmi/ip/axi_dynclk_v1_1/drivers/ddynclk_v1_0/src/ddynclk.c:227-256 dglnt_dynclk_find_reg *)
Definition dglnt_dynclk_find_reg (r : dglnt_dynclk_reg) (m : dglnt_dynclk_mode) : Z * dglnt_dynclk_reg :=
  if (m_fbmult m <? 2) || (64 <? m_fbmult m) then (XST_FAILURE, r)
  else
    let r := r <| clk0L := dglnt_dynclk_count_calc (m_clkdiv m) |> in
    if clk0L r =? ERR_CLKCOUNTCALC then (XST_FAILURE, r)
    else
      let r := r <| clkFBL := dglnt_dynclk_count_calc (m_fbmult m) |> in
      if clkFBL r =? ERR_CLKCOUNTCALC then (XST_FAILURE, r)
      else
        let r := r <| clkFBH_clk0H := 0 |> <| divclk := dglnt_dynclk_divider (m_maindiv m) |> in
        if divclk r =? ERR_CLKDIVIDER then (XST_FAILURE, r)
        else
          let lock := nth (Z.to_nat (m_fbmult m - 1)) lock_lookup 0 in
          let filter := nth (Z.to_nat (m_fbmult m - 1)) filter_lookup_low 0 in
          (0, r <| lockL := Z.land lock 0xFFFFFFFF |>
                <| fltr_lockH := Z.lor (Z.land (Z.shiftr lock 32) 0x000000FF)
                                       (Z.land (u32 (Z.shiftl filter 16)) 0x03FF0000) |>).

(** ** The search *)

(** [bestError], [freq_found] and [bestPick]. *)
Record search := { se_err : Z; se_found : bool; se_pick : dglnt_dynclk_mode }.

(* @src src/vivado/ip_repo/zybo-hdmi/ip/axi_dynclk_v1_1/drivers/ddynclk_v1_0/src/ddynclk.c:317-321 dglnt_dynclk_find_mode *)
Definition clk_div (curClkMult curFb : Z) : Z :=
  let d := u32 (u32 (curClkMult * curFb) + 500) / 1000 in
  let d := if MMCM_CLKDIV_MAX <? d then MMCM_CLKDIV_MAX else d in
  if d <? MMCM_CLKDIV_MIN then MMCM_CLKDIV_MIN else d.

(* @src src/vivado/ip_repo/zybo-hdmi/ip/axi_dynclk_v1_1/drivers/ddynclk_v1_0/src/ddynclk.c:317-335 dglnt_dynclk_find_mode *)
Definition try_fb (freq parentFreq curDiv curClkMult curFb : Z) (s : search) : search :=
  let curClkDiv := clk_div curClkMult curFb in
  let curFreq := u32 (parentFreq * curFb) / curDiv / curClkDiv in
  let curError := if freq <=? curFreq then curFreq - freq else freq - curFreq in
  let s := if curError <? se_err s
           then {| se_err := curError; se_found := se_found s; se_pick := Build_dglnt_dynclk_mode curFreq curFb curClkDiv curDiv |}
           else s in
  if curError =? 0 then {| se_err := se_err s; se_found := true; se_pick := se_pick s |} else s.

(** The two loops; [None] when [n] rounds are not enough. *)
(* @src src/vivado/ip_repo/zybo-hdmi/ip/axi_dynclk_v1_1/drivers/ddynclk_v1_0/src/ddynclk.c:315-337 dglnt_dynclk_find_mode *)
Fixpoint fb_loop (n : nat) (freq parentFreq curDiv curClkMult curFb maxFb : Z) (s : search) : option search :=
  if (curFb <=? maxFb) && negb (se_found s) then
    match n with
    | O => None
    | S n => fb_loop n freq parentFreq curDiv curClkMult (curFb + 1) maxFb (try_fb freq parentFreq curDiv curClkMult curFb s)
    end
  else Some s.

(** The feedback multipliers tried with a divider. *)
(* @src src/vivado/ip_repo/zybo-hdmi/ip/axi_dynclk_v1_1/drivers/ddynclk_v1_0/src/ddynclk.c:301-306 dglnt_dynclk_find_mode *)
Definition fb_range (parentFreq curDiv : Z) : Z * Z :=
  let minFb := u32 (curDiv * DIV_ROUND_UP MMCM_FREQ_VCOMIN parentFreq) in
  let maxFb := u32 (curDiv * (MMCM_FREQ_VCOMAX / parentFreq)) in
  let maxFb := if MMCM_FB_MAX <? maxFb then MMCM_FB_MAX else maxFb in
  let minFb := if minFb <? MMCM_FB_MIN then MMCM_FB_MIN else minFb in
  (minFb, maxFb).

(* @src src/vivado/ip_repo/zybo-hdmi/ip/axi_dynclk_v1_1/drivers/ddynclk_v1_0/src/ddynclk.c:308-313 dglnt_dynclk_find_mode *)
Definition clk_mult (freq parentFreq curDiv : Z) : Z :=
  let divVal := u32 (curDiv * freq) in
  u32 (u32 (parentFreq * 1000) + divVal / 2) / divVal.

(* @src src/vivado/ip_repo/zybo-hdmi/ip/axi_dynclk_v1_1/drivers/ddynclk_v1_0/src/ddynclk.c:300-339 dglnt_dynclk_find_mode *)
Fixpoint div_loop (n : nat) (freq parentFreq curDiv maxDiv : Z) (s : search) : option search :=
  if (curDiv <=? maxDiv) && negb (se_found s) then
    match n with
    | O => None
    | S n =>
        let '(minFb, maxFb) := fb_range parentFreq curDiv in
        s ← fb_loop 64 freq parentFreq curDiv (clk_mult freq parentFreq curDiv) minFb maxFb s;
        div_loop n freq parentFreq (curDiv + 1) maxDiv s
    end
  else Some s.

(* @src src/vivado/ip_repo/zybo-hdmi/ip/axi_dynclk_v1_1/drivers/ddynclk_v1_0/src/ddynclk.c:288-292 dglnt_dynclk_find_mode *)
Definition clamp_freq (freq : Z) : Z :=
  let freq := if freq <? MMCM_FREQ_OUTMIN then MMCM_FREQ_OUTMIN else freq in
  if MMCM_FREQ_OUTMAX <? freq then MMCM_FREQ_OUTMAX else freq.

(** The dividers tried. *)
(* @src src/vivado/ip_repo/zybo-hdmi/ip/axi_dynclk_v1_1/drivers/ddynclk_v1_0/src/ddynclk.c:294-298 dglnt_dynclk_find_mode *)
Definition div_range (parentFreq : Z) : Z * Z :=
  let maxDiv := parentFreq / MMCM_FREQ_PFDMIN in
  (if MMCM_FREQ_PFDMAX <? parentFreq then 2 else 1, if MMCM_DIV_MAX <? maxDiv then MMCM_DIV_MAX else maxDiv).

(** The mode picked; its frequency is what the function returns. *)
(* @src src/vivado/ip_repo/zybo-hdmi/ip/axi_dynclk_v1_1/drivers/ddynclk_v1_0/src/ddynclk.c:269-341 dglnt_dynclk_find_mode *)
Definition dglnt_dynclk_find_mode (freq parentFreq : Z) (bestPick : dglnt_dynclk_mode) : option dglnt_dynclk_mode :=
  let bestPick := bestPick <| m_freq := 0 |> in
  if parentFreq =? 0 then Some bestPick
  else
    let freq := clamp_freq freq in
    let '(curDiv, maxDiv) := div_range parentFreq in
    s ← div_loop 106 freq parentFreq curDiv maxDiv {| se_err := MMCM_FREQ_OUTMAX; se_found := false; se_pick := bestPick |};
    Some (se_pick s).

(** ** Programming the core *)
Record clk_st (D : Type) := { c_k : kstate D; c_drv : DDynClk }.
Arguments Build_clk_st {D}.
Arguments c_k {D}.
Arguments c_drv {D}.
#[export] Instance clk_st_settable D : Settable (clk_st D) := fun s => Build_clk_st (c_k s) (c_drv s).
#[export] Instance clk_has_k D : Has (clk_st D) (kstate D) :=
  {| part := c_k; with_part := fun k s => s <| c_k := k |> |}.

Section Code.
Context {D : Type} `{Env D}.

(** The vendor header's [XIL_COMPONENT_IS_READY]. *)
Variable XIL_COMPONENT_IS_READY : Z.

Definition the_drv : M (clk_st D) DDynClk := gets c_drv.
Definition upd_drv (f : DDynClk -> DDynClk) : M (clk_st D) unit := modify (fun s => s <| c_drv ::= f |>).

(* @src src/vivado/ip_repo/zybo-hdmi/ip/axi_dynclk_v1_1/drivers/ddynclk_v1_0/src/ddynclk.c:258-267 dglnt_dynclk_write_reg *)
Definition dglnt_dynclk_write_reg (r : dglnt_dynclk_reg) (baseaddr : Z) : M (clk_st D) unit :=
  write_register (clk0L r) (baseaddr + DDYNCLK_CLK_L) ;;
  write_register (clkFBL r) (baseaddr + DDYNCLK_FB_L) ;;
  write_register (clkFBH_clk0H r) (baseaddr + DDYNCLK_FB_H_CLK_H) ;;
  write_register (divclk r) (baseaddr + DDYNCLK_DIV) ;;
  write_register (lockL r) (baseaddr + DDYNCLK_LOCK_L) ;;
  write_register (fltr_lockH r) (baseaddr + DDYNCLK_FLTR_LOCK_H).

(** The wait for the clock; false when [n] reads were not enough. *)
(* @src src/vivado/ip_repo/zybo-hdmi/ip/axi_dynclk_v1_1/drivers/ddynclk_v1_0/src/ddynclk.c:349-352 dglnt_dynclk_enable *)
Fixpoint wait_locked (n : nat) (addr : Z) : M (clk_st D) bool :=
  match n with
  | O => mret false
  | S n => clock_state ← read_register addr; if clock_state =? 0 then wait_locked n addr else mret true
  end.

(** [None] when the loop is still waiting after [n] reads. *)
(* @src src/vivado/ip_repo/zybo-hdmi/ip/axi_dynclk_v1_1/drivers/ddynclk_v1_0/src/ddynclk.c:343-355 dglnt_dynclk_enable *)
Definition dglnt_dynclk_enable (n : nat) : M (clk_st D) (option Z) :=
  d ← the_drv;
  if (dc_IsReady d =? XIL_COMPONENT_IS_READY) && nz (dc_freq d) then
    write_register 1 (dc_BaseAddress d + DDYNCLK_CTRL) ;;
    done ← wait_locked n (dc_BaseAddress d + DDYNCLK_STATUS);
    mret (if (done : bool) then Some 0 else None)
  else mret (Some 0).

(* @src src/vivado/ip_repo/zybo-hdmi/ip/axi_dynclk_v1_1/drivers/ddynclk_v1_0/src/ddynclk.c:357-360 dglnt_dynclk_disable *)
Definition dglnt_dynclk_disable : M (clk_st D) unit :=
  d ← the_drv; write_register 0 (dc_BaseAddress d + DDYNCLK_CTRL).

(** [clkMode] and [clkReg] start out with what the stack holds. *)
(* @src src/vivado/ip_repo/zybo-hdmi/ip/axi_dynclk_v1_1/drivers/ddynclk_v1_0/src/ddynclk.c:362-394 dglnt_dynclk_set_rate *)
Definition dglnt_dynclk_set_rate (n : nat) (clkReg : dglnt_dynclk_reg) (clkMode : dglnt_dynclk_mode)
  (rate parent_rate : Z) : M (clk_st D) (option Z) :=
  d ← the_drv;
  if (parent_rate =? 0) || (rate =? 0) then mret (Some XST_FAILURE)
  else if rate =? dc_freq d then mret (Some 0)
  else
    let rate := u32 (rate + 100) / 200 in
    let parent_rate := u32 (parent_rate + 500) / 1000 in
    match dglnt_dynclk_find_mode rate parent_rate clkMode with
    | None => mret None
    | Some clkMode =>
        if m_freq clkMode =? 0 then mret (Some XST_FAILURE)
        else
          let clkReg := (dglnt_dynclk_find_reg clkReg clkMode).2 in
          dglnt_dynclk_write_reg clkReg (dc_BaseAddress d) ;;
          upd_drv (fun d => d <| dc_freq := u32 (m_freq clkMode * 200) |>) ;;
          dglnt_dynclk_disable ;;
          r ← dglnt_dynclk_enable n;
          mret (match r with Some _ => Some 0 | None => None end)
    end.

(** The pointers are not [NULL], which the assertions check. *)
(* @src src/vivado/ip_repo/zybo-hdmi/ip/axi_dynclk_v1_1/drivers/ddynclk_v1_0/src/ddynclk.c:396-420 DDynClk_CfgInitialize *)
Definition DDynClk_CfgInitialize (EffectiveAddr : Z) : M (clk_st D) Z :=
  upd_drv (fun _ => Build_DDynClk EffectiveAddr 0 0 0) ;;
  v ← read_register (EffectiveAddr + DDYNCLK_REF_CLK_FREQ);
  upd_drv (fun d => d <| dc_RefClkFreqHz := v |>) ;;
  if v =? 0 then mret XST_FAILURE
  else upd_drv (fun d => d <| dc_IsReady := u32 XIL_COMPONENT_IS_READY |>) ;; mret XST_SUCCESS.

(* @src src/vivado/ip_repo/zybo-hdmi/ip/axi_dynclk_v1_1/drivers/ddynclk_v1_0/src/ddynclk.c:422-427 DDynClk_Enable *)
Definition DDynClk_Enable (n : nat) : M (clk_st D) (option Z) :=
  r ← dglnt_dynclk_enable n;
  mret (match r with Some r => Some (if nz r then XST_FAILURE else XST_SUCCESS) | None => None end).

(* @src src/vivado/ip_repo/zybo-hdmi/ip/axi_dynclk_v1_1/drivers/ddynclk_v1_0/src/ddynclk.c:429-434 DDynClk_Disable *)
Definition DDynClk_Disable : M (clk_st D) Z := dglnt_dynclk_disable ;; mret XST_SUCCESS.

(* @src src/vivado/ip_repo/zybo-hdmi/ip/axi_dynclk_v1_1/drivers/ddynclk_v1_0/src/ddynclk.c:436-443 DDynClk_SetRate *)
Definition DDynClk_SetRate (n : nat) (clkReg : dglnt_dynclk_reg) (clkMode : dglnt_dynclk_mode) (RateInHz : Z)
  : M (clk_st D) (option Z) :=
  d ← the_drv;
  r ← dglnt_dynclk_set_rate n clkReg clkMode RateInHz (dc_RefClkFreqHz d);
  mret (match r with Some r => Some (if nz r then XST_FAILURE else XST_SUCCESS) | None => None end).

(* @src src/vivado/ip_repo/zybo-hdmi/ip/axi_dynclk_v1_1/drivers/ddynclk_v1_0/src/ddynclk_selftest.c:30-39 DDynClk_SelfTest *)
Definition DDynClk_SelfTest (baseaddr_p : Z) : M (clk_st D) Z :=
  v ← read_register (u32 baseaddr_p + DDYNCLK_REF_CLK_FREQ);
  mret (if v =? 0 then XST_FAILURE else XST_SUCCESS).
End Code.

(** The entry of the configuration table with a device id. *)
(* @src src/vivado/ip_repo/zybo-hdmi/ip/axi_dynclk_v1_1/drivers/ddynclk_v1_0/src/ddynclk_sinit.c:17-36 DDynClk_LookupConfig *)
Fixpoint DDynClk_LookupConfig (table : list (Z * Z)) (DeviceId : Z) : option (Z * Z) :=
  match table with
  | [] => None
  | e :: table => if e.1 =? DeviceId then Some e else DDynClk_LookupConfig table DeviceId
  end.
