(* ===== verification/DynClkSpec.v ===== *)
(** Properties of the pixel clock driver: the search finds the closest achievable
    frequency within the limits of the MMCM, the register encoding of its
    dividers is unambiguous, and the driver programs the core with it. *)
From S2P Require Import Prelude Kernel DynClk.
Local Open Scope Z_scope.

(** ** The search *)

(** The frequency that divider [d] and multiplier [fb] give, with the output
    divider the driver takes for them. *)
Definition mode_of (freq parent : Z) (x : Z * Z) : dglnt_dynclk_mode :=
  let cd := clk_div (clk_mult freq parent x.1) x.2 in
  Build_dglnt_dynclk_mode (u32 (parent * x.2) / x.1 / cd) x.2 cd x.1.
Definition mode_err (freq parent : Z) (x : Z * Z) : Z := Z.abs (m_freq (mode_of freq parent x) - freq).

(** The pairs the loops go through when they do not stop early. *)
Definition fbs (parent d : Z) : list (Z * Z) :=
  let '(minFb, maxFb) := fb_range parent d in (fun fb => (d, fb)) <$> seqZ minFb (maxFb + 1 - minFb).
Definition grid (parent : Z) : list (Z * Z) :=
  let '(lo, hi) := div_range parent in mjoin (fbs parent <$> seqZ lo (hi + 1 - lo)).

(** The state of the search after the pairs [l]. *)
Record seen (freq parent : Z) (s0 : search) (l : list (Z * Z)) (s : search) : Prop := {
  sn_least : Forall (fun x => se_err s <= mode_err freq parent x) l;
  sn_pick : s = s0 \/ exists x, x ∈ l /\ se_pick s = mode_of freq parent x /\ se_err s = mode_err freq parent x;
  sn_found : se_found s = true -> se_err s = 0;
}.

(** ... when it may have stopped among [l]. *)
Definition searched (freq parent : Z) (s0 : search) (l : list (Z * Z)) (s : search) : Prop :=
  exists l1 l2, l = l1 ++ l2 /\ seen freq parent s0 l1 s /\ (se_found s = true \/ l2 = []).

Section Search.
Context (freq parent : Z) (s0 : search) (Herr : 0 < se_err s0).

Lemma try_fb_seen d fb l s :
  seen freq parent s0 l s -> se_found s = false ->
  seen freq parent s0 (l ++ [(d, fb)]) (try_fb freq parent d (clk_mult freq parent d) fb s).
Proof.
  intros [Hl Hp Hf] Hs. unfold try_fb.
  assert (mode_err freq parent (d, fb) = let c := u32 (parent * fb) / d / clk_div (clk_mult freq parent d) fb in
    if freq <=? c then c - freq else freq - c) as He.
  { unfold mode_err, mode_of. cbn [m_freq fst snd]. set (c := _ / _ / _). cbv zeta. destruct (Z.leb_spec freq c); lia. }
  cbv zeta in He. rewrite <- He. set (e := mode_err freq parent (d, fb)) in *.
  assert (0 <= e) as He0 by (subst e; unfold mode_err; lia).
  set (s1 := if e <? se_err s then _ else _).
  assert (seen freq parent s0 (l ++ [(d, fb)]) s1 /\ se_err s1 <= e /\ se_found s1 = false) as (H1 & Hle & Hs1).
  { subst s1. destruct (Z.ltb_spec e (se_err s)).
    - split_and!; [|cbn; lia|done]. constructor; cbn [se_err se_pick se_found].
      + apply Forall_app. split; [eapply Forall_impl; [exact Hl|]; cbn; lia|]. constructor; [|done]. fold e. lia.
      + right. exists (d, fb). split_and!; [apply elem_of_app; right; apply list_elem_of_singleton; done|done|done].
      + congruence.
    - split_and!; [|lia|done]. constructor; [|destruct Hp as [->|(x & Hx & E)]; [by left|right; exists x; split; [apply elem_of_app; by left|done]]|congruence].
      apply Forall_app. split; [done|]. constructor; [|done]. fold e. lia. }
  destruct (Z.eqb_spec e 0) as [E|_]; [|done]. destruct H1 as [A B C]. constructor; cbn [se_err se_pick se_found]; [done| |].
  - destruct B as [B|B]; [|by right]. exfalso. rewrite B in Hle. lia.
  - intros _. assert (0 <= se_err s1); [|lia]. destruct B as [->|(x & _ & _ & ->)]; [lia|]. unfold mode_err. lia.
Qed.

Lemma seen_searched l s : seen freq parent s0 l s -> searched freq parent s0 l s.
Proof. intros Hs. exists l, []. rewrite app_nil_r. split_and!; [done|done|by right]. Qed.

Lemma fb_loop_searched n d fb maxFb l s :
  seen freq parent s0 l s -> (maxFb + 1 - fb <= Z.of_nat n) ->
  exists s', fb_loop n freq parent d (clk_mult freq parent d) fb maxFb s = Some s'
    /\ searched freq parent s0 (l ++ ((fun b => (d, b)) <$> seqZ fb (maxFb + 1 - fb))) s'.
Proof.
  revert fb l s. induction n as [|n IH]; intros fb l s Hs Hn; cbn [fb_loop].
  { replace (fb <=? maxFb) with false by lia. exists s. split; [done|].
    rewrite seqZ_nil by lia. cbn. rewrite app_nil_r. by apply seen_searched. }
  destruct (Z.leb_spec fb maxFb); cbn [andb].
  - destruct (se_found s) eqn:Ef; cbn [negb].
    + exists s. split; [done|]. exists l, ((fun b => (d, b)) <$> seqZ fb (maxFb + 1 - fb)). split_and!; [done|done|by left].
    + destruct (IH (fb + 1) (l ++ [(d, fb)]) (try_fb freq parent d (clk_mult freq parent d) fb s)) as (s' & E & Hs');
        [by apply try_fb_seen|lia|].
      exists s'. split; [exact E|]. rewrite <- app_assoc in Hs'. rewrite seqZ_cons by lia.
      by replace (Z.pred (maxFb + 1 - fb)) with (maxFb + 1 - (fb + 1)) by lia.
  - exists s. split; [done|].
    rewrite seqZ_nil by lia. cbn. rewrite app_nil_r. by apply seen_searched.
Qed.

Lemma div_loop_searched n d maxDiv l s :
  searched freq parent s0 l s -> maxDiv + 1 - d <= Z.of_nat n -> (forall d, let '(lo, hi) := fb_range parent d in 0 < lo /\ hi < 65) ->
  exists s', div_loop n freq parent d maxDiv s = Some s'
    /\ searched freq parent s0 (l ++ mjoin (fbs parent <$> seqZ d (maxDiv + 1 - d))) s'.
Proof.
  revert d l s. induction n as [|n IH]; intros d l s Hs Hn Hfb; cbn [div_loop].
  { replace (d <=? maxDiv) with false by lia. exists s. split; [done|].
    rewrite seqZ_nil by lia. cbn. by rewrite app_nil_r. }
  destruct (Z.leb_spec d maxDiv); cbn [andb].
  - destruct (se_found s) eqn:Ef; cbn [negb].
    + exists s. split; [done|]. destruct Hs as (l1 & l2 & -> & H1 & H2). exists l1, (l2 ++ mjoin (fbs parent <$> seqZ d (maxDiv + 1 - d))).
      split_and!; [by rewrite app_assoc|done|by left].
    + destruct Hs as (l1 & l2 & -> & H1 & [H2| ->]); [congruence|]. rewrite app_nil_r.
      specialize (Hfb d) as Hd. rewrite seqZ_cons by lia. cbn [fmap list_fmap]. rewrite mjoin_cons.
      unfold fbs at 1. destruct (fb_range parent d) as [minFb maxFb].
      destruct (fb_loop_searched 64 d minFb maxFb l1 s H1) as (s1 & E1 & Hs1); [lia|]. rewrite E1. cbn.
      destruct (IH (d + 1) _ s1 Hs1) as (s' & E & Hs'); [lia|done|]. exists s'. split; [exact E|].
      rewrite <- app_assoc in Hs'. by replace (Z.pred (maxDiv + 1 - d)) with (maxDiv + 1 - (d + 1)) by lia.
  - exists s. split; [done|].
    rewrite seqZ_nil by lia. cbn. by rewrite app_nil_r.
Qed.
End Search.

(** ** The limits of the MMCM *)

(** What the search respects: the counters' ranges, the VCO's and, for a reference of up
    to twice its highest frequency, the phase detector's (frequencies in kHz). *)
Record mmcm_ok (parent : Z) (m : dglnt_dynclk_mode) : Prop := {
  ok_div : 1 <= m_maindiv m <= 106;
  ok_fb : 2 <= m_fbmult m <= 64;
  ok_clkdiv : 1 <= m_clkdiv m <= 128;
  ok_vco : 600000 * m_maindiv m <= parent * m_fbmult m <= 1200000 * m_maindiv m;
  ok_freq : m_freq m = parent * m_fbmult m / m_maindiv m / m_clkdiv m;
  ok_pfdmin : MMCM_FREQ_PFDMIN * m_maindiv m <= parent;
  ok_pfdmax : parent <= 2 * MMCM_FREQ_PFDMAX -> parent <= MMCM_FREQ_PFDMAX * m_maindiv m;
}.

Lemma clk_div_range mult fb : 1 <= clk_div mult fb <= 128.
Proof.
  unfold clk_div. set (d := u32 _ / 1000). unfold MMCM_CLKDIV_MAX, MMCM_CLKDIV_MIN.
  destruct (Z.ltb_spec 128 d); cbn; [lia|]. destruct (Z.ltb_spec d 1); lia.
Qed.

Lemma fb_range_bounds parent d : let '(lo, hi) := fb_range parent d in 0 < lo /\ hi < 65.
Proof.
  unfold fb_range, MMCM_FB_MAX, MMCM_FB_MIN. set (a := u32 _). set (b := u32 (_ * (_ / _))).
  destruct (Z.ltb_spec a 2), (Z.ltb_spec 64 b); lia.
Qed.

Section Limits.
Context (parent : Z) (Hparent : 0 < parent <= 4200000).

Lemma div_range_bounds : let '(lo, hi) := div_range parent in 1 <= lo /\ hi <= 106 /\ 10000 * hi <= parent.
Proof.
  unfold div_range, MMCM_FREQ_PFDMAX, MMCM_FREQ_PFDMIN, MMCM_DIV_MAX.
  pose proof (Z.div_mod parent 10000). pose proof (Z.mod_pos_bound parent 10000).
  destruct (Z.ltb_spec 450000 parent), (Z.ltb_spec 106 (parent / 10000)); lia.
Qed.

Lemma grid_in x : x ∈ grid parent ->
  1 <= x.1 <= 106 /\ 2 <= x.2 <= 64 /\ 600000 * x.1 <= parent * x.2 <= 1200000 * x.1 /\ 10000 * x.1 <= parent /\ x.1 <= x.2.
Proof.
  unfold grid. pose proof div_range_bounds as Hd. destruct (div_range parent) as [lo hi].
  intros (l & Hl & Hx)%list_elem_of_join. apply list_elem_of_fmap in Hx as (d & -> & Hdr%elem_of_seqZ).
  unfold fbs, fb_range, DIV_ROUND_UP, MMCM_FREQ_VCOMIN, MMCM_FREQ_VCOMAX, MMCM_FB_MAX, MMCM_FB_MIN in Hl.
  rewrite (u32_small (600000 + parent)), (u32_small (600000 + parent - 1)) in Hl by lia.
  set (a := (600000 + parent - 1) / parent) in *. set (b := 1200000 / parent) in *.
  assert (600000 <= parent * a <= 600000 + parent - 1) as Ha.
  { subst a. pose proof (Z.div_mod (600000 + parent - 1) parent). pose proof (Z.mod_pos_bound (600000 + parent - 1) parent). lia. }
  assert (0 <= parent * b <= 1200000) as Hb.
  { subst b. split; [apply Z.mul_nonneg_nonneg; [lia|apply Z.div_pos; lia]|apply Z.mul_div_le; lia]. }
  assert (1 <= a) as Ha1 by (subst a; apply Z.div_le_lower_bound; lia).
  rewrite (u32_small (d * a)), (u32_small (d * b)) in Hl by nia.
  assert (d <= d * a) by (apply Z.le_mul_diag_r; lia).
  destruct (Z.ltb_spec (d * a) 2), (Z.ltb_spec 64 (d * b)); apply list_elem_of_fmap in Hl as (fb & -> & Hfb%elem_of_seqZ);
    cbn [fst snd]; (split; [lia|]); (split; [lia|]); (split; [nia|]); (split; [lia|]); lia.
Qed.

Lemma grid_pfd x : x ∈ grid parent -> parent <= 2 * MMCM_FREQ_PFDMAX -> parent <= MMCM_FREQ_PFDMAX * x.1.
Proof.
  unfold grid, div_range. intros (l & Hl & Hx)%list_elem_of_join. apply list_elem_of_fmap in Hx as (d & -> & Hd%elem_of_seqZ).
  unfold fbs in Hl. destruct (fb_range parent d) as [lo hi]. apply list_elem_of_fmap in Hl as (fb & -> & _).
  cbn [fst]. unfold MMCM_FREQ_PFDMAX in *. destruct (Z.ltb_spec 450000 parent); lia.
Qed.

Lemma grid_ok freq x : x ∈ grid parent -> mmcm_ok parent (mode_of freq parent x).
Proof.
  intros Hx. pose proof (grid_pfd x Hx) as Hpfd. apply grid_in in Hx as (H1 & H2 & H3 & H4 & _).
  constructor; cbn [mode_of m_maindiv m_fbmult m_clkdiv m_freq]; [done|done|apply clk_div_range|done| |exact H4|exact Hpfd].
  by rewrite u32_small by lia.
Qed.

(** No candidate is as far away as the search's starting point. *)
Lemma grid_err freq x : 4000 <= freq <= 800000 -> x ∈ grid parent -> mode_err freq parent x < 800000.
Proof.
  intros Hf Hx. pose proof (grid_ok freq x Hx) as [_ _ Hcd _ Ec _ _]. apply grid_in in Hx as (H1 & H2 & H3 & H4 & _).
  unfold mode_err. rewrite Ec. cbn [mode_of m_maindiv m_fbmult m_clkdiv] in *. clear Ec.
  destruct x as [d fb]. cbn [fst snd] in *. set (v := parent * fb / d).
  assert (600000 <= v <= 1200000 /\ d * v <= parent * fb) as (Hv1 & Hv2).
  { subst v. split; [split; [apply Z.div_le_lower_bound; lia|apply Z.div_le_upper_bound; lia]|apply Z.mul_div_le; lia]. }
  unfold clk_div, clk_mult in *. rewrite (u32_small (d * freq)), (u32_small (parent * 1000)) in * by nia.
  set (dv := d * freq) in *. assert (4000 <= dv <= 84800000) by nia.
  pose proof (Z.div_mod dv 2 ltac:(lia)). pose proof (Z.mod_pos_bound dv 2 ltac:(lia)).
  rewrite (u32_small (parent * 1000 + dv / 2)) in * by lia.
  set (mult := (parent * 1000 + dv / 2) / dv) in *.
  assert (parent * 1000 + dv / 2 - dv < dv * mult <= parent * 1000 + dv / 2) as Hm.
  { subst mult. pose proof (Z.div_mod (parent * 1000 + dv / 2) dv). pose proof (Z.mod_pos_bound (parent * 1000 + dv / 2) dv). lia. }
  assert (0 <= mult * fb <= 67300000) as Hmf by nia.
  rewrite (u32_small (mult * fb)), (u32_small (mult * fb + 500)) in * by lia.
  set (q := (mult * fb + 500) / 1000) in *.
  assert (1000 * q <= mult * fb + 500 < 1000 * q + 1000) as Hq.
  { subst q. pose proof (Z.div_mod (mult * fb + 500) 1000). pose proof (Z.mod_pos_bound (mult * fb + 500) 1000). lia. }
  unfold MMCM_CLKDIV_MAX, MMCM_CLKDIV_MIN in *. set (cd := if _ <? 1 then 1 else _) in *.
  assert (1 <= v / cd) by (apply Z.div_le_lower_bound; lia).
  assert (cd <> 1 -> v / cd <= 600000) by (intros ?; apply Z.div_le_upper_bound; lia).
  destruct (decide (cd = 1)) as [E|E]; [|lia].
  assert (mult * fb <= 1499) as Hsmall.
  { subst cd. destruct (Z.ltb_spec 128 q); cbn in E; [lia|]. destruct (Z.ltb_spec q 1); lia. }
  rewrite E in *. assert (2000 * parent <= dv * (2 * mult + 1)) as Hp by lia.
  assert (2000 * parent * fb <= dv * (2 * mult + 1) * fb) as Hpf by (apply Z.mul_le_mono_nonneg_r; lia).
  assert (dv * (2 * mult + 1) * fb <= dv * 3062) as Hd3.
  { rewrite <- Z.mul_assoc. apply Z.mul_le_mono_nonneg_l; lia. }
  assert (d * (2000 * v) <= d * (3062 * freq)) as Hdv by lia.
  apply Z.mul_le_mono_pos_l in Hdv; [|lia]. rewrite Z.div_1_r. lia.
Qed.

(** Which reference clocks there is a candidate for. *)
Lemma grid_some : 10000 <= parent <= 1200000 -> exists x, x ∈ grid parent.
Proof.
  intros Hp. unfold grid, div_range, fbs, fb_range, DIV_ROUND_UP, MMCM_FREQ_VCOMIN, MMCM_FREQ_VCOMAX, MMCM_FB_MAX, MMCM_FB_MIN,
    MMCM_FREQ_PFDMAX, MMCM_FREQ_PFDMIN, MMCM_DIV_MAX.
  set (lo := if 450000 <? parent then 2 else 1). set (hi := if 106 <? _ then _ else _).
  rewrite (u32_small (600000 + parent)), (u32_small (600000 + parent - 1)) by lia.
  set (a := (600000 + parent - 1) / parent). set (b := 1200000 / parent).
  assert (lo <= hi) as Hlh.
  { assert (1 <= parent / 10000) by (apply Z.div_le_lower_bound; lia).
    assert (450000 < parent -> 45 <= parent / 10000) by (intros; apply Z.div_le_lower_bound; lia).
    subst lo hi. destruct (Z.ltb_spec 450000 parent), (Z.ltb_spec 106 (parent / 10000)); lia. }
  assert (1 <= a <= 60) as Ha by (subst a; split; [apply Z.div_le_lower_bound; lia|apply Z.lt_succ_r, Z.div_lt_upper_bound; lia]).
  assert (450000 < parent -> a <= 2) as Ha2 by (intros; subst a; apply Z.lt_succ_r, Z.div_lt_upper_bound; lia).
  assert (a <= b <= 120) as Hb.
  { subst a b. split; [|apply Z.div_le_upper_bound; lia]. destruct (Z.leb_spec parent 600000).
    - apply Z.div_le_mono; lia.
    - replace (1200000 / parent) with 1 by (apply Z.div_unique with (1200000 - parent); lia). apply Z.lt_succ_r, Z.div_lt_upper_bound; lia. }
  assert (parent <= 450000 -> 2 <= b) as Hb2 by (intros; subst b; apply Z.div_le_lower_bound; lia).
  assert (lo = 1 \/ lo = 2 /\ 450000 < parent) as Hlo by (subst lo; destruct (Z.ltb_spec 450000 parent); lia).
  exists (lo, Z.max 2 (lo * a)). apply list_elem_of_join. eexists. split; [|apply list_elem_of_fmap; exists lo; split; [reflexivity|]].
  - assert (parent <= 450000 \/ lo = 2) by (subst lo; destruct (Z.ltb_spec 450000 parent); lia). clearbody a b lo hi.
    rewrite (u32_small (lo * a)), (u32_small (lo * b)) by lia. cbv zeta.
    destruct (Z.ltb_spec 64 (lo * b)), (Z.ltb_spec (lo * a) 2); apply list_elem_of_fmap;
      (exists (Z.max 2 (lo * a)); split; [done|apply elem_of_seqZ; nia]).
  - apply elem_of_seqZ. lia.
Qed.

Lemma grid_none x : x ∈ grid parent -> 10000 <= parent <= 1200000.
Proof. intros (H1 & H2 & H3 & H4 & H5)%grid_in. split; [lia|]. apply (Z.mul_le_mono_pos_r _ _ x.2); lia. Qed.
End Limits.

Lemma clamp_freq_range f : 4000 <= clamp_freq f <= 800000.
Proof.
  unfold clamp_freq, MMCM_FREQ_OUTMIN, MMCM_FREQ_OUTMAX.
  destruct (Z.ltb_spec f 4000); cbn; [lia|]. destruct (Z.ltb_spec 800000 f); lia.
Qed.

(** The best mode for a frequency: allowed, and no candidate is closer. *)
Record best_mode (freq parent : Z) (m : dglnt_dynclk_mode) : Prop := {
  bm_ok : mmcm_ok parent m;
  bm_freq : m_freq m <> 0;
  bm_least : Forall (fun x => Z.abs (m_freq m - clamp_freq freq) <= mode_err (clamp_freq freq) parent x) (grid parent);
}.

Lemma find_mode_some freq parent pick0 :
  0 < parent <= 4200000 ->
  exists m, dglnt_dynclk_find_mode freq parent pick0 = Some m
    /\ (10000 <= parent <= 1200000 -> best_mode freq parent m)
    /\ (~ (10000 <= parent <= 1200000) -> m_freq m = 0).
Proof.
  intros Hp. unfold dglnt_dynclk_find_mode. destruct (Z.eqb_spec parent 0); [lia|].
  pose proof (div_range_bounds parent) as Hd. set (f := clamp_freq freq). pose proof (clamp_freq_range freq) as Hf. fold f in Hf.
  pose proof (grid_some parent Hp) as Hsome. pose proof (fun x => grid_none parent Hp x) as Hnone.
  assert (forall l, l = grid parent -> let '(lo, hi) := div_range parent in l = [] ++ mjoin (fbs parent <$> seqZ lo (hi + 1 - lo))) as Hg.
  { intros l ->. unfold grid. by destruct (div_range parent). }
  specialize (Hg _ eq_refl). destruct (div_range parent) as [lo hi].
  set (s0 := {| se_err := _; se_found := _; se_pick := _ |}).
  destruct (div_loop_searched f parent s0 eq_refl 106 lo hi [] s0) as (s' & E & l1 & l2 & El & [A B C] & Hend);
    [|lia|intros; apply fb_range_bounds|].
  { apply seen_searched. constructor; [done|by left|done]. }
  rewrite <- Hg in El. rewrite E. cbn. exists (se_pick s'). split; [done|].
  assert (Forall (fun x => se_err s' <= mode_err f parent x) (grid parent)) as Hleast.
  { rewrite El. apply Forall_app. split; [done|]. destruct Hend as [Hend| ->]; [|done]. rewrite C by done.
    apply Forall_forall. intros x _. unfold mode_err. lia. }
  destruct B as [->|(x & Hx & Ep & Ee)].
  - split; [|done]. intros Hr. destruct (Hsome Hr) as [x Hx]. rewrite Forall_forall in Hleast. specialize (Hleast x Hx).
    pose proof (grid_err parent Hp f x Hf Hx). cbn in Hleast. unfold MMCM_FREQ_OUTMAX in Hleast. lia.
  - assert (x ∈ grid parent) as Hxg by (rewrite El; apply elem_of_app; by left).
    split; [|intros Hr; destruct Hr; by eapply Hnone]. intros _. rewrite Ep. pose proof (grid_ok parent Hp f x Hxg) as Hok.
    constructor; [done| |].
    + destruct Hok as [[O1 _] _ [O3 O3'] [O4 _] ->]. intros E0. 
      assert (600000 <= parent * m_fbmult (mode_of f parent x) / m_maindiv (mode_of f parent x)) by (apply Z.div_le_lower_bound; lia).
      assert (1 <= parent * m_fbmult (mode_of f parent x) / m_maindiv (mode_of f parent x) / m_clkdiv (mode_of f parent x)); [|lia].
      apply Z.div_le_lower_bound; lia.
    + eapply Forall_impl; [exact Hleast|]. cbv beta. intros y Hy. by rewrite Ee in Hy.
Qed.

(** ** The encoding of the dividers *)

(** A counter's division as the MMCM reads it: its high and low times of 6 bits
    each, 0 for 64, unless it is bypassed. *)
Definition counter_of (hi lo : Z) (nocount : bool) : Z :=
  let t x := if x =? 0 then 64 else x in if nocount then 1 else t hi + t lo.
Definition read_divider (v : Z) : Z :=
  counter_of (Z.land (Z.shiftr v 6) 63) (Z.land v 63) (Z.testbit v 12).
Definition read_count (v : Z) : Z :=
  counter_of (Z.land (Z.shiftr v 6) 63) (Z.land v 63) (Z.testbit v 22).

Lemma divider_codes : Forall (fun d =>
  read_divider (dglnt_dynclk_divider d) = d /\ read_count (dglnt_dynclk_count_calc d) = d
  /\ dglnt_dynclk_divider d <> ERR_CLKDIVIDER /\ dglnt_dynclk_count_calc d <> ERR_CLKCOUNTCALC
  /\ u32 (dglnt_dynclk_divider d) = dglnt_dynclk_divider d /\ u32 (dglnt_dynclk_count_calc d) = dglnt_dynclk_count_calc d)
  (seqZ 1 128).
Proof. decide_now. Qed.

Lemma divider_code d : 1 <= d <= 128 ->
  read_divider (dglnt_dynclk_divider d) = d /\ read_count (dglnt_dynclk_count_calc d) = d
  /\ dglnt_dynclk_divider d <> ERR_CLKDIVIDER /\ dglnt_dynclk_count_calc d <> ERR_CLKCOUNTCALC
  /\ u32 (dglnt_dynclk_divider d) = dglnt_dynclk_divider d /\ u32 (dglnt_dynclk_count_calc d) = dglnt_dynclk_count_calc d.
Proof. intros Hd. apply (proj1 (Forall_forall _ _) divider_codes), elem_of_seqZ. lia. Qed.

(** The registers, as 32-bit words, encode a mode: its dividers, and the lock and
    filter settings of its multiplier. *)
Definition encodes (m : dglnt_dynclk_mode) (r : dglnt_dynclk_reg) : Prop :=
  read_count (u32 (clk0L r)) = m_clkdiv m /\ read_count (u32 (clkFBL r)) = m_fbmult m
  /\ read_divider (u32 (divclk r)) = m_maindiv m /\ clkFBH_clk0H r = 0
  /\ let i := Z.to_nat (m_fbmult m - 1) in
     u32 (lockL r) + Z.land (fltr_lockH r) 0xFF * 2 ^ 32 = nth i lock_lookup 0
     /\ Z.shiftr (fltr_lockH r) 16 = nth i filter_lookup_low 0.

Definition lock_words (fb : Z) : Z * Z :=
  let lock := nth (Z.to_nat (fb - 1)) lock_lookup 0 in
  let filter := nth (Z.to_nat (fb - 1)) filter_lookup_low 0 in
  (Z.land lock 0xFFFFFFFF, Z.lor (Z.land (Z.shiftr lock 32) 0x000000FF) (Z.land (u32 (Z.shiftl filter 16)) 0x03FF0000)).

Lemma lock_codes : Forall (fun fb =>
  u32 (lock_words fb).1 + Z.land (lock_words fb).2 0xFF * 2 ^ 32 = nth (Z.to_nat (fb - 1)) lock_lookup 0
  /\ Z.shiftr (lock_words fb).2 16 = nth (Z.to_nat (fb - 1)) filter_lookup_low 0) (seqZ 2 63).
Proof. decide_now. Qed.

(** Every mode the search returns can be encoded. *)
Lemma find_reg_encodes parent m r0 :
  mmcm_ok parent m -> exists r, dglnt_dynclk_find_reg r0 m = (0, r) /\ encodes m r.
Proof.
  intros [[D1 D2] [F1 F2] [C1 C2] _ _].
  destruct (divider_code (m_maindiv m)) as (A1 & _ & A3 & _ & A5 & _); [lia|].
  destruct (divider_code (m_fbmult m)) as (_ & B2 & _ & B4 & _ & B6); [lia|].
  destruct (divider_code (m_clkdiv m)) as (_ & G2 & _ & G4 & _ & G6); [lia|].
  assert (m_fbmult m ∈ seqZ 2 63) as Hfb by (apply elem_of_seqZ; lia).
  pose proof (proj1 (Forall_forall _ _) lock_codes _ Hfb) as [L1 L2].
  unfold dglnt_dynclk_find_reg. destruct (Z.ltb_spec (m_fbmult m) 2); [lia|]. destruct (Z.ltb_spec 64 (m_fbmult m)); [lia|].
  cbn [orb]. fld. apply Z.eqb_neq in A3, B4, G4. rewrite G4, B4, A3.
  eexists. split; [reflexivity|]. unfold encodes. fld. rewrite G6, B6, A5. split_and!; [done|done|done|done|exact L1|exact L2].
Qed.

(** ** Programming *)
Section Code.
Context {D : Type} `{Env D} (XIL_COMPONENT_IS_READY : Z).
Implicit Types (s : clk_st D).

(** The reads of the status register: up to the first that is not 0, or [n]. *)
Definition polled (n : nat) (addr : Z) (l : list event) (done : bool) : Prop :=
  if done then exists k v, (k < n)%nat /\ v <> 0 /\ l = replicate k (Ev_read addr 0) ++ [Ev_read addr v]
  else l = replicate n (Ev_read addr 0).

Lemma wp_mmcm_read a (Q : Z -> clk_st D -> Prop) s :
  (forall v s', k_trace (c_k s') = k_trace (c_k s) ++ [Ev_read a v] -> c_drv s' = c_drv s -> Q v s') -> wp (read_register a) Q s.
Proof. intros HQ. apply wp_read. intros v d _ _. by apply HQ. Qed.
Lemma wp_mmcm_write v a (Q : unit -> clk_st D -> Prop) s :
  (forall s', k_trace (c_k s') = k_trace (c_k s) ++ [Ev_write a (u32 v)] -> c_drv s' = c_drv s -> Q tt s') -> wp (write_register v a) Q s.
Proof. intros HQ. by apply wp_write, HQ. Qed.

Ltac clk_step :=
  lazymatch goal with
  | |- wp (read_register _) _ _ => apply wp_mmcm_read; intros ? ? ? ?
  | |- wp (write_register _ _) _ _ => apply wp_mmcm_write; intros ? ? ?
  | _ => wp_step
  end; cbv beta.

Lemma wp_wait_locked n addr (Q : bool -> clk_st D -> Prop) s :
  (forall b s' l, k_trace (c_k s') = k_trace (c_k s) ++ l -> polled n addr l b -> c_drv s' = c_drv s -> Q b s') ->
  wp (wait_locked n addr) Q s.
Proof.
  revert Q s. induction n as [|n IH]; intros Q s HQ; cbn [wait_locked].
  { wp_step. apply (HQ _ _ []); [by rewrite app_nil_r|done|done]. }
  wp_step. apply wp_mmcm_read. intros v s1 T1 E1. destruct (Z.eqb_spec v 0) as [->|Hv].
  - apply IH. intros b s2 l T2 Hp E2. apply (HQ b s2 (Ev_read addr 0 :: l)); [by rewrite T2, T1, <- app_assoc| |congruence].
    destruct b; [|cbn in *; by rewrite Hp]. destruct Hp as (k & v & Hk & Hv & ->). exists (S k), v. split_and!; [lia|done|done].
  - wp_step. apply (HQ _ _ [Ev_read addr v]); [done| |done]. exists O, v. split_and!; [lia|done|done].
Qed.

(** The writes that give the core its settings. *)
Definition reg_writes (base : Z) (r : dglnt_dynclk_reg) : list event :=
  [Ev_write (base + DDYNCLK_CLK_L) (u32 (clk0L r)); Ev_write (base + DDYNCLK_FB_L) (u32 (clkFBL r));
   Ev_write (base + DDYNCLK_FB_H_CLK_H) (u32 (clkFBH_clk0H r)); Ev_write (base + DDYNCLK_DIV) (u32 (divclk r));
   Ev_write (base + DDYNCLK_LOCK_L) (u32 (lockL r)); Ev_write (base + DDYNCLK_FLTR_LOCK_H) (u32 (fltr_lockH r))].

Lemma wp_write_reg r base (Q : unit -> clk_st D -> Prop) s :
  (forall s', k_trace (c_k s') = k_trace (c_k s) ++ reg_writes base r -> c_drv s' = c_drv s -> Q tt s') ->
  wp (dglnt_dynclk_write_reg r base) Q s.
Proof.
  intros HQ. unfold dglnt_dynclk_write_reg. do 11 clk_step. apply HQ; [|congruence].
  repeat match goal with E : k_trace (c_k ?x) = _ |- context [k_trace (c_k ?x)] => rewrite E end. by rewrite <- !app_assoc.
Qed.

(** C14 Setting a rate programs the best mode the search has.  For a new rate below 2^32 -
    100 and a reference clock between 10 MHz and 1.2 GHz, [dglnt_dynclk_set_rate] computes a
    mode within the MMCM's divider, multiplier and VCO ranges, at or above its phase
    detector's lowest frequency, and at or below the highest one as long as the reference is
    at most 900 MHz (above, the driver exceeds it: [ex_pfd_exceeded]); of the candidates of
    the search none has a frequency closer to the one asked for, clamped to the 4 to 800 MHz
    the MMCM can put out.  It writes registers that encode exactly this mode (so that
    ignoring the result of the encoding is harmless), switches the clock off, records the
    frequency, and, when the driver was initialised, switches the clock on and reads the
    status until it is not 0: it returns 0 then, and is still waiting after [n] reads that
    gave 0. *)
Theorem set_rate_programs n reg0 mode0 rate parent s :
  let base := dc_BaseAddress (c_drv s) in
  let khz := (parent + 500) / 1000 in
  let freq := (rate + 100) / 200 in
  0 < rate < 2 ^ 32 - 100 -> 9999500 <= parent < 1200000500 -> rate <> dc_freq (c_drv s) ->
  let '(res, s') := dglnt_dynclk_set_rate XIL_COMPONENT_IS_READY n reg0 mode0 rate parent s in
  exists m r l,
    best_mode freq khz m /\ encodes m r
    /\ k_trace (c_k s') = k_trace (c_k s)
         ++ reg_writes base r ++ [Ev_write (base + DDYNCLK_CTRL) 0] ++ l
    /\ dc_freq (c_drv s') = m_freq m * 200
    /\ if dc_IsReady (c_drv s) =? XIL_COMPONENT_IS_READY then
         exists l', l = Ev_write (base + DDYNCLK_CTRL) 1 :: l'
           /\ polled n (base + DDYNCLK_STATUS) l' (bool_decide (res = Some 0)) /\ (res = Some 0 \/ res = None)
       else l = [] /\ res = Some 0.
Proof.
  intros base khz freq Hrate Hpar Hnew.
  assert (10000 <= khz <= 1200000) as Hkhz by (subst khz; split; [apply Z.div_le_lower_bound|apply Z.lt_succ_r, Z.div_lt_upper_bound]; lia).
  apply wp_elim. unfold dglnt_dynclk_set_rate. wp_step. apply wp_gets. cbv beta.
  destruct (Z.eqb_spec parent 0), (Z.eqb_spec rate 0), (Z.eqb_spec rate (dc_freq (c_drv s))); try lia. cbn [orb].
  rewrite (u32_small (rate + 100)), (u32_small (parent + 500)) by lia. fold khz freq.
  destruct (find_mode_some freq khz mode0) as (m & Em & Hbest & _); [lia|]. specialize (Hbest Hkhz).
  rewrite Em. destruct (Z.eqb_spec (m_freq m) 0); [by destruct Hbest|].
  destruct (find_reg_encodes khz m reg0 (bm_ok _ _ _ Hbest)) as (r & Er & Henc). rewrite Er. cbn [snd].
  assert (0 <= m_freq m * 200 < 4294967296) as Hf.
  { destruct Hbest as [[[D1 D2] _ [C1 C2] [V1 V2] -> _ _] _ _]. set (v := khz * m_fbmult m / m_maindiv m).
    assert (0 <= v <= 1200000) by (subst v; split; [apply Z.div_pos; lia|apply Z.div_le_upper_bound; lia]).
    assert (0 <= v / m_clkdiv m <= v) by (split; [apply Z.div_pos; lia|apply Z.div_le_upper_bound; [lia|nia]]). lia. }
  clk_step. apply wp_write_reg. intros s1 T1 E1. unfold upd_drv, dglnt_dynclk_disable, the_drv. do 6 clk_step. fld.
  match goal with H1 : k_trace (c_k ?st) = _, H2 : c_drv ?st = _ |- wp _ _ ?st => rename st into s2, H1 into T2, H2 into E2 end.
  unfold dglnt_dynclk_enable, the_drv. do 3 clk_step. rewrite E2, E1. fld. fold base.
  rewrite E1, T1 in T2. fld. fold base in T2.
  rewrite (u32_small (m_freq m * 200)) in * by lia. replace (nz (m_freq m * 200)) with true by (unfold nz; destruct (Z.eqb_spec (m_freq m * 200) 0); [destruct Hbest; lia|done]).
  destruct (dc_IsReady (c_drv s) =? XIL_COMPONENT_IS_READY); cbn [andb].
  - do 3 clk_step. apply wp_wait_locked. intros b s4 l T4 P4 E4. do 2 clk_step.
    exists m, r, (Ev_write (base + DDYNCLK_CTRL) 1 :: l). split_and!; [done|done| | |].
    + rewrite T4. match goal with E : k_trace (c_k ?x) = _ ++ [Ev_write _ (u32 1)] |- _ => rewrite E end.
      rewrite T2, <- !app_assoc. done.
    + rewrite E4. match goal with E : c_drv ?x = c_drv s2 |- context [c_drv ?x] => rewrite E end. rewrite E2, E1. done.
    + exists l. split_and!; [done| |by destruct b; auto]. by destruct b.
  - do 2 clk_step. exists m, r, []. split_and!; [done|done| |by rewrite E2|done|done]. rewrite T2, <- !app_assoc. done.
Qed.
End Code.

(** *** Witness: 148.5 MHz from 100 MHz *)
Definition ex_clk : clk_st sim :=
  {| c_k := sim_start [(0x43c00004, 1)] (fun _ => 0); c_drv := Build_DDynClk 0x43c00000 0 100000000 0x11111111 |}.
Definition ex_reg : dglnt_dynclk_reg := Build_dglnt_dynclk_reg 0 0 0 0 0 0.
Definition ex_mode : dglnt_dynclk_mode := Build_dglnt_dynclk_mode 7 7 7 7.

Lemma ex_rate_ok : 0 < 148500000 < 2 ^ 32 - 100.
Proof. lia. Qed.
Lemma ex_parent_ok : 9999500 <= 100000000 < 1200000500.
Proof. lia. Qed.
Lemma ex_rate_new : 148500000 <> dc_freq (c_drv ex_clk).
Proof. cbn. lia. Qed.

Lemma set_rate_programs_witness :
  ltac:(statement_of (set_rate_programs 0x11111111 3 ex_reg ex_mode 148500000 100000000 ex_clk
    ex_rate_ok ex_parent_ok ex_rate_new)).
Proof.
  instance_of (set_rate_programs 0x11111111 3 ex_reg ex_mode 148500000 100000000 ex_clk
    ex_rate_ok ex_parent_ok ex_rate_new).
Defined.

Example ex_mode_found : dglnt_dynclk_find_mode 742500 100000 ex_mode = Some (Build_dglnt_dynclk_mode 742857 52 1 7).
Proof. vm_compute. reflexivity. Qed.

(** Above 900 MHz the phase detector runs faster than [MMCM_FREQ_PFDMAX]. *)
Example ex_pfd_exceeded : exists m, dglnt_dynclk_find_mode 742500 1000000 ex_mode = Some m
  /\ MMCM_FREQ_PFDMAX < 1000000 / m_maindiv m.
Proof. eexists. split; [vm_compute; reflexivity|]. by vm_compute. Qed.
