(* ===== verification/Daq.v ===== *)
(** The network server of the data acquisition board
    ([vitis/zedboard-cls-daq/src/echo.c], [main.c]): commands of 24 bytes arrive
    over TCP in segments of any size, and set and read the board. *)
From S2P Require Import Prelude.
From stdpp Require Import pretty.
From Stdlib Require Strings.String Strings.Ascii.
Local Open Scope Z_scope.

(** ** The world outside

    The libraries of the board and lwIP, one constructor per function; pointers and
    results are [Z].  [D_spi_rx i] is the byte the last transfer received. *)
Inductive gpio := gpioVolt | gpioSet.

Inductive dcall :=
| D_in32 (addr : Z)
| D_out32 (addr v : Z)
| D_gpio_initialize (g : gpio)
| D_gpio_direction (g : gpio) (channel mask : Z)
| D_gpio_write (g : gpio) (channel v : Z)
| D_usleep (n : Z)
| D_spi_lookup
| D_spi_initialize (config : Z)
| D_spi_options (o : Z)
| D_spi_select (n : Z)
| D_spi_prescaler (n : Z)
| D_spi_transfer (tx : list Z) (n : Z)
| D_spi_rx (i : Z)
| D_tcp_new
| D_tcp_bind (pcb port : Z)
| D_tcp_arg (pcb : Z)
| D_tcp_listen (pcb : Z)
| D_tcp_accept (pcb : Z)
| D_tcp_recv (pcb : Z) (on : bool)
| D_tcp_err (pcb : Z)
| D_tcp_recved (pcb len : Z)
| D_tcp_sndbuf (pcb : Z)
| D_tcp_write (pcb : Z) (data : list Z)
| D_tcp_output (pcb : Z)
| D_tcp_close (pcb : Z)
| D_tcp_abort (pcb : Z)
| D_pbuf_free (p : Z)
| D_init_platform
| D_lwip_init
| D_xemac_add (ipaddr netmask gw : Z) (mac : list Z)
| D_netif_default
| D_enable_interrupts
| D_netif_up
| D_tcp_fasttmr
| D_tcp_slowtmr
| D_xemacif_input
| D_timer_flag (fast : bool)
| D_timer_clear (fast : bool).

Class Board (D : Type) := board_call : dcall -> D -> Z * D.

(** ** The state of [echo.c]

    [dq_overrun] is set when a copy goes past the end of [recv_buffer]; what the
    model does after that means nothing. *)
Record daq (D : Type) := {
  dq_env : D;
  dq_trace : list (dcall * Z);
  pulse_counter_config : Z;
  voltage_offset : Z;
  client_pcb : Z;
  recv_buffer : list Z;
  recv_len : Z;
  spi_rx : list Z;
  dq_overrun : bool;
}.
Arguments Build_daq {D}.
Arguments dq_env {D}.
Arguments dq_trace {D}.
Arguments pulse_counter_config {D}.
Arguments voltage_offset {D}.
Arguments client_pcb {D}.
Arguments recv_buffer {D}.
Arguments recv_len {D}.
Arguments spi_rx {D}.
Arguments dq_overrun {D}.
#[export] Instance daq_settable D : Settable (daq D) := fun s =>
  Build_daq (dq_env s) (dq_trace s) (pulse_counter_config s) (voltage_offset s) (client_pcb s) (recv_buffer s)
    (recv_len s) (spi_rx s) (dq_overrun s).

(** Floating point numbers: C's operations on [double], the decimal literals as
    their digits and the number of those after the point, the rounding to [float], and
    the conversions. *)
Class Floats (F : Type) := {
  f_of_Z : Z -> F;
  f_decimal : Z -> Z -> F;
  f_add : F -> F -> F;
  f_sub : F -> F -> F;
  f_mul : F -> F -> F;
  f_div : F -> F -> F;
  f_float : F -> F;
  f_u32 : F -> Z;
  f_atof : list Z -> F;
  f_print : F -> list Z;
}.

(** ** C strings: the characters before the first zero *)
Definition codes (s : string) : list Z := (fun c => Z.of_N (Ascii.N_of_ascii c)) <$> String.list_ascii_of_string s.
Fixpoint cstr (l : list Z) : list Z :=
  match l with [] => [] | c :: l => if c =? 0 then [] else c :: cstr l end.
(** What is before and after the first [c]. *)
Fixpoint split_at (c : Z) (l : list Z) : option (list Z * list Z) :=
  match l with
  | [] => None
  | d :: l => if d =? c then Some ([], l) else '(a, b) ← split_at c l; Some (d :: a, b)
  end.

(** [atoi], which gives the nearest [int] for numbers that are none. *)
Definition is_space (c : Z) : bool := (c =? 32) || ((9 <=? c) && (c <=? 13)).
Definition is_digit (c : Z) : bool := (48 <=? c) && (c <=? 57).
Fixpoint atoi_digits (l : list Z) (n : Z) : Z :=
  match l with
  | c :: l => if is_digit c then atoi_digits l (10 * n + (c - 48)) else n
  | [] => n
  end.
Fixpoint atoi_skip (l : list Z) : list Z :=
  match l with c :: l' => if is_space c then atoi_skip l' else l | [] => [] end.
Definition atoi (l : list Z) : Z :=
  let clamp n := Z.max (-2147483648) (Z.min 2147483647 n) in
  match atoi_skip l with
  | 45 :: l => clamp (- atoi_digits l 0)
  | 43 :: l => clamp (atoi_digits l 0)
  | l => clamp (atoi_digits l 0)
  end.

(* @src src/vitis/zedboard-cls-daq/src/echo.c:53-53 SAXI_PULSE_COUNT_OFFSET *)
Definition SAXI_PULSE_COUNT_OFFSET : Z := 0.
(* @src src/vitis/zedboard-cls-daq/src/echo.c:54-54 SAXI_TRIGGER_DELAY_OFFSET *)
Definition SAXI_TRIGGER_DELAY_OFFSET : Z := 4.
(* @src src/vitis/zedboard-cls-daq/src/echo.c:55-55 SAXI_TRIGGER_WIDTH_OFFSET *)
Definition SAXI_TRIGGER_WIDTH_OFFSET : Z := 8.
(* @src src/vitis/zedboard-cls-daq/src/echo.c:56-56 SAXI_PULSE_CONFIG_OFFSET *)
Definition SAXI_PULSE_CONFIG_OFFSET : Z := 12.
(* @src src/vitis/zedboard-cls-daq/src/echo.c:60-60 MESSAGE_SIZE *)
Definition MESSAGE_SIZE : Z := 24.
(* @src src/vitis/zedboard-cls-daq/src/echo.c:63-63 recv_buffer *)
Definition RECV_SIZE : Z := 1024.
(* @src src/vitis/zedboard-cls-daq/src/echo.c:67-67 SPI_BYTE_COUNT *)
Definition SPI_BYTE_COUNT : Z := 4.
(* @src src/vitis/zedboard-cls-daq/src/echo.c:69-69 spi_tx *)
Definition spi_tx : list Z := [0x80; 0; 0; 0].

(** lwIP's and the board's results. *)
Definition ERR_OK : Z := 0.
Definition ERR_ABRT : Z := -13.
Definition XST_SUCCESS : Z := 0.
Definition XST_FAILURE : Z := 1.

Section Code.
Context {D : Type} `{Board D} {F : Type} `{Floats F}.

(** The base address of the pulse counter, and the option and prescaler codes of
    the SPI driver. *)
Variables (PULSE_COUNTER_BASEADDR : Z) (SPI_OPTIONS SPI_PRESCALE_64 : Z).

Definition dcall_ (c : dcall) : M (daq D) Z := fun s =>
  let '(v, d) := board_call c (dq_env s) in
  (v, s <| dq_env := d |> <| dq_trace ::= fun l => l ++ [(c, v)] |>).
Definition ddo (c : dcall) : M (daq D) unit := dcall_ c ;; mret tt.

Definition Xil_Out32 (offset v : Z) : M (daq D) unit := ddo (D_out32 (PULSE_COUNTER_BASEADDR + offset) v).

(** [voltage] is a [float], the sum a [double]. *)
(* @src src/vitis/zedboard-cls-daq/src/echo.c:98-100 get_adc *)
Definition get_adc (voltage : F) : M (daq D) Z :=
  o ← gets voltage_offset;
  mret (f_u32 (f_add (f_mul (f_float (f_add voltage (f_of_Z 5))) (f_decimal 1048575 1)) (f_of_Z o))).

Definition set_config (f : Z -> Z) : M (daq D) unit :=
  modify (fun s => s <| pulse_counter_config ::= f |>) ;;
  c ← gets pulse_counter_config; Xil_Out32 SAXI_PULSE_CONFIG_OFFSET c.

(* @src src/vitis/zedboard-cls-daq/src/echo.c:102-105 set_trigger_mode *)
Definition set_trigger_mode (value : Z) : M (daq D) unit :=
  set_config (fun c => Z.lor (Z.ldiff c (Z.shiftl 1 1)) (Z.shiftl (Z.land (u8 value) 1) 1)).

(* @src src/vitis/zedboard-cls-daq/src/echo.c:107-110 set_trigger_width *)
Definition set_trigger_width (value : Z) : M (daq D) unit := Xil_Out32 SAXI_TRIGGER_WIDTH_OFFSET value.

(* @src src/vitis/zedboard-cls-daq/src/echo.c:112-115 set_trigger_delay *)
Definition set_trigger_delay (value : Z) : M (daq D) unit := Xil_Out32 SAXI_TRIGGER_DELAY_OFFSET value.

(* @src src/vitis/zedboard-cls-daq/src/echo.c:117-123 set_clear *)
Definition set_clear : M (daq D) unit :=
  set_config (fun c => Z.lor (Z.ldiff c 1) 1) ;; set_config (fun c => Z.ldiff c 1).

(* @src src/vitis/zedboard-cls-daq/src/echo.c:125-140 init_spi *)
Definition init_spi : M (daq D) Z :=
  config ← dcall_ D_spi_lookup;
  if config =? 0 then mret XST_FAILURE
  else
    Status ← dcall_ (D_spi_initialize config);
    if negb (Status =? XST_SUCCESS) then mret XST_FAILURE
    else
      ddo (D_spi_options SPI_OPTIONS) ;; ddo (D_spi_select 0) ;; ddo (D_spi_prescaler SPI_PRESCALE_64) ;;
      mret XST_SUCCESS.

Fixpoint spi_bytes (n : nat) (i : Z) : M (daq D) (list Z) :=
  match n with O => mret [] | S n => b ← dcall_ (D_spi_rx i); l ← spi_bytes n (i + 1); mret (u8 b :: l) end.

(** The value, when the transfer succeeded. *)
(* @src src/vitis/zedboard-cls-daq/src/echo.c:142-152 read_ai *)
Definition read_ai : M (daq D) (option Z) :=
  Status ← dcall_ (D_spi_transfer spi_tx SPI_BYTE_COUNT);
  l ← spi_bytes (Z.to_nat SPI_BYTE_COUNT) 0;
  modify (fun s => s <| spi_rx := l |>) ;;
  mret (if negb (Status =? XST_SUCCESS) then None else Some (Z.lor (u16 (Z.shiftl (nth 2 l 0) 8)) (nth 3 l 0))).

(** A reply, when there is room for it. *)
(* @src src/vitis/zedboard-cls-daq/src/echo.c:215-226 recv_callback *)
Definition reply (tpcb : Z) (text : list Z) : M (daq D) unit :=
  n ← dcall_ (D_tcp_sndbuf tpcb);
  when (Z.of_nat (length text) <=? n) (ddo (D_tcp_write tpcb text) ;; ddo (D_tcp_output tpcb)).

(** The command and the value of a message: up to its first space, and after. *)
(* @src src/vitis/zedboard-cls-daq/src/echo.c:182-200 recv_callback *)
Definition parse (msg : list Z) : list Z * list Z :=
  default (cstr msg, []) (split_at 32 (cstr msg)).

(** [snprintf] with [%d] of an unsigned number, and the voltage's text, cut to 31
    characters. *)
Definition print_d (v : Z) : list Z := take 31 (codes (pretty (s32 v))).
Definition voltage (v : Z) : F :=
  f_float (f_sub (f_div (f_mul (f_of_Z v) (f_decimal 24576 3)) (f_of_Z 65535)) (f_decimal 12288 3)).

(* @src src/vitis/zedboard-cls-daq/src/echo.c:206-294 recv_callback *)
Definition execute (tpcb : Z) (cmd val : list Z) : M (daq D) unit :=
  if decide (cmd = codes "CLS:GetCount") then
    pulse_count ← dcall_ (D_in32 (PULSE_COUNTER_BASEADDR + SAXI_PULSE_COUNT_OFFSET));
    reply tpcb (print_d pulse_count)
  else if decide (cmd = codes "CLS:SetVolt") then
    adc_value ← get_adc (f_float (f_atof val));
    ddo (D_gpio_write gpioVolt 1 adc_value) ;;
    ddo (D_gpio_write gpioSet 1 1) ;; ddo (D_usleep 10) ;; ddo (D_gpio_write gpioSet 1 0)
  else if decide (cmd = codes "CLS:SetTrgMode") then set_trigger_mode (atoi val)
  else if decide (cmd = codes "CLS:SetTrgWidth") then set_trigger_width (f_u32 (f_mul (f_atof val) (f_of_Z 100)))
  else if decide (cmd = codes "CLS:SetTrgDelay") then set_trigger_delay (f_u32 (f_mul (f_atof val) (f_of_Z 100)))
  else if decide (cmd = codes "CLS:SetClrCount") then set_clear
  else if decide (cmd = codes "CLS:SetOffset") then modify (fun s => s <| voltage_offset := u32 (atoi val) |>)
  else if decide (cmd = codes "CLS:GetVolt") then
    v ← read_ai;
    reply tpcb (take 31 (f_print (match v with Some v => voltage v | None => f_of_Z (-999) end)))
  else mret tt.

(** [memcpy] into [recv_buffer] at [n]. *)
Definition put_recv (n : Z) (data : list Z) : M (daq D) unit :=
  modify (fun s =>
    if RECV_SIZE <? n + Z.of_nat (length data) then s <| dq_overrun := true |>
    else s <| recv_buffer ::= fun b => take (Z.to_nat n) b ++ data ++ drop (Z.to_nat n + length data) b |>).

(** The messages in the buffer, for at most [fuel] rounds. *)
(* @src src/vitis/zedboard-cls-daq/src/echo.c:181-298 recv_callback *)
Fixpoint serve (fuel : nat) (tpcb : Z) : M (daq D) unit :=
  match fuel with
  | O => mret tt
  | S fuel =>
      n ← gets recv_len;
      if MESSAGE_SIZE <=? n then
        b ← gets recv_buffer;
        let '(cmd, val) := parse (take (Z.to_nat MESSAGE_SIZE) b) in
        execute tpcb cmd val ;;
        put_recv 0 (take (Z.to_nat (n - MESSAGE_SIZE)) (drop (Z.to_nat MESSAGE_SIZE) b)) ;;
        modify (fun s => s <| recv_len := n - MESSAGE_SIZE |>) ;;
        serve fuel tpcb
      else mret tt
  end.

(** The segment is a buffer's address and bytes, [None] when the peer closes. *)
(* @src src/vitis/zedboard-cls-daq/src/echo.c:154-313 recv_callback *)
Definition recv_callback (tpcb : Z) (p : option (Z * list Z)) : M (daq D) Z :=
  match p with
  | None =>
      ddo (D_tcp_close tpcb) ;; ddo (D_tcp_recv tpcb false) ;;
      modify (fun s => s <| client_pcb := 0 |> <| recv_len := 0 |>) ;; mret ERR_OK
  | Some (p, payload) =>
      let len := Z.of_nat (length payload) in
      n ← gets recv_len;
      when (RECV_SIZE <=? len + n) (modify (fun s => s <| recv_len := 0 |>)) ;;
      n ← gets recv_len;
      put_recv n payload ;;
      modify (fun s => s <| recv_len := n + len |>) ;;
      ddo (D_tcp_recved tpcb len) ;; ddo (D_pbuf_free p) ;;
      n ← gets recv_len;
      serve (S (Z.to_nat (n / MESSAGE_SIZE))) tpcb ;;
      mret ERR_OK
  end.

(* @src src/vitis/zedboard-cls-daq/src/echo.c:315-318 err_callback *)
Definition err_callback : M (daq D) unit := modify (fun s => s <| client_pcb := 0 |>).

(* @src src/vitis/zedboard-cls-daq/src/echo.c:320-345 accept_callback *)
Definition accept_callback (newpcb : Z) : M (daq D) Z :=
  client ← gets client_pcb;
  if negb (client =? 0) then ddo (D_tcp_abort newpcb) ;; mret ERR_ABRT
  else
    modify (fun s => s <| client_pcb := newpcb |>) ;;
    ddo (D_tcp_recv newpcb true) ;; ddo (D_tcp_err newpcb) ;; mret ERR_OK.

(* @src src/vitis/zedboard-cls-daq/src/echo.c:348-434 start_application *)
Definition start_application : M (daq D) Z :=
  pcb ← dcall_ D_tcp_new;
  if pcb =? 0 then mret (-1)
  else
    err ← dcall_ (D_tcp_bind pcb 9000);
    if negb (err =? ERR_OK) then mret (-2)
    else
      ddo (D_tcp_arg pcb) ;;
      pcb ← dcall_ (D_tcp_listen pcb);
      if pcb =? 0 then mret (-3)
      else
        ddo (D_tcp_accept pcb) ;;
        xStatus ← dcall_ (D_gpio_initialize gpioVolt);
        if negb (xStatus =? XST_SUCCESS) then mret XST_FAILURE
        else
          xStatus ← dcall_ (D_gpio_initialize gpioSet);
          if negb (xStatus =? XST_SUCCESS) then mret XST_FAILURE
          else
            ddo (D_gpio_direction gpioVolt 1 0) ;; ddo (D_gpio_direction gpioSet 1 0) ;;
            Xil_Out32 SAXI_TRIGGER_DELAY_OFFSET 0 ;; Xil_Out32 SAXI_TRIGGER_WIDTH_OFFSET 0 ;;
            Xil_Out32 SAXI_PULSE_CONFIG_OFFSET 0 ;;
            xStatus ← init_spi;
            if negb (xStatus =? XST_SUCCESS) then mret XST_FAILURE else mret 0.
(** ** The main program ([main.c])

    For IPv4 with the fixed address, the configuration without DHCP; [sdt] says
    whether the platform is built for the system device tree. *)
Variable sdt : bool.

Definition IP4_ADDR (a b c d : Z) : Z := a + 256 * (b + 256 * (c + 256 * d)).

(* @src src/vitis/zedboard-cls-daq/src/echo.c:75-77 transfer_data *)
Definition transfer_data : Z := 0.

(** One round of the endless loop. *)
(* @src src/vitis/zedboard-cls-daq/src/main.c:237-250 main *)
Definition main_round : M (daq D) unit :=
  fast ← dcall_ (D_timer_flag true);
  when (nz fast) (ddo D_tcp_fasttmr ;; ddo (D_timer_clear true)) ;;
  slow ← dcall_ (D_timer_flag false);
  when (nz slow) (ddo D_tcp_slowtmr ;; ddo (D_timer_clear false)) ;;
  ddo D_xemacif_input ;;
  let _ := transfer_data in mret tt.

Definition main_loop (n : nat) : M (daq D) unit := for_up n 0 (fun _ => main_round).

(** The result of a start that fails, [None] once the loop has run [rounds] times;
    the result of [start_application] is not looked at. *)
(* @src src/vitis/zedboard-cls-daq/src/main.c:125-256 main *)
Definition main (rounds : nat) : M (daq D) (option Z) :=
  ddo D_init_platform ;; ddo D_lwip_init ;;
  netif ← dcall_ (D_xemac_add (IP4_ADDR 192 168 150 221) (IP4_ADDR 255 255 255 0) (IP4_ADDR 192 168 150 1)
                    [0x00; 0x0a; 0x35; 0x00; 0x01; 0x02]);
  if netif =? 0 then mret (Some (-1))
  else
    ddo D_netif_default ;;
    when (negb sdt) (ddo D_enable_interrupts) ;;
    ddo D_netif_up ;;
    start_application ;;
    main_loop rounds ;; mret None.
End Code.
