(* ===== verification/DaqSpec.v ===== *)
(** The server of the data acquisition board executes the same commands however
    the network cuts the stream. *)
From S2P Require Import Prelude Daq.
Local Open Scope Z_scope.

(** ** The stream, cut into messages *)
Definition msg_size : nat := Z.to_nat MESSAGE_SIZE.

Fixpoint chop (k : nat) (l : list Z) : list (list Z) :=
  match k with O => [] | S k => take msg_size l :: chop k (drop msg_size l) end.
Definition messages (l : list Z) : list (list Z) := chop (length l / msg_size) l.
Definition remainder (l : list Z) : list Z := drop (msg_size * (length l / msg_size)) l.

Lemma count_next n : (msg_size <= n -> n / msg_size = S ((n - msg_size) / msg_size))%nat.
Proof.
  intros Hn. replace n with (n - msg_size + 1 * msg_size)%nat at 1 by lia. rewrite Nat.div_add by done. lia.
Qed.

Lemma messages_short l : (length l < msg_size)%nat -> messages l = [] /\ remainder l = l.
Proof. intros Hl. unfold messages, remainder. rewrite Nat.div_small by done. by rewrite Nat.mul_0_r. Qed.

Lemma messages_next l : (msg_size <= length l)%nat ->
  messages l = take msg_size l :: messages (drop msg_size l) /\ remainder l = remainder (drop msg_size l).
Proof.
  intros Hl. unfold messages, remainder. rewrite length_drop, (count_next _ Hl). split; [done|].
  rewrite drop_drop. f_equal. lia.
Qed.

Lemma length_remainder l : (length (remainder l) < msg_size)%nat.
Proof.
  unfold remainder. rewrite length_drop. pose proof (Nat.div_mod (length l) msg_size ltac:(done)).
  pose proof (Nat.mod_upper_bound (length l) msg_size ltac:(done)). lia.
Qed.

Lemma messages_app l m :
  messages (l ++ m) = messages l ++ messages (remainder l ++ m) /\ remainder (l ++ m) = remainder (remainder l ++ m).
Proof.
  remember (length l) as n eqn:Hn. revert l Hn. induction (lt_wf n) as [n _ IH]. intros l ->.
  destruct (decide (length l < msg_size)%nat) as [Hl|Hl].
  - by destruct (messages_short l Hl) as [-> ->].
  - destruct (messages_next l ltac:(lia)) as [-> ->].
    destruct (messages_next (l ++ m)) as [-> ->]; [rewrite length_app; lia|].
    rewrite take_app_le, drop_app_le by lia.
    destruct (IH (length (drop msg_size l))) with (l := drop msg_size l) as [-> ->]; [|done|done].
    rewrite length_drop. change msg_size with 24%nat in *. lia.
Qed.

(** ** The server without its buffer *)
Section Server.
Context {D : Type} `{Board D} {F : Type} `{Floats F}.
Variables (base opts prescale : Z).

Definition with_recv (b : list Z) (n : Z) (s : daq D) : daq D := s <| recv_buffer := b |> <| recv_len := n |>.

(** A computation that neither looks at the buffer nor changes it. *)
Definition blind {A} (m : M (daq D) A) : Prop :=
  forall b n s, m (with_recv b n s) = ((m s).1, with_recv b n (m s).2).

Lemma blind_ret {A} (x : A) : blind (mret x).
Proof. done. Qed.
Lemma blind_bind {A B} (m : M (daq D) A) (k : A -> M (daq D) B) : blind m -> (forall x, blind (k x)) -> blind (m ≫= k).
Proof.
  intros Hm Hk b n s. unfold mbind, M_bind. rewrite Hm. destruct (m s) as [x s1]. apply Hk.
Qed.
Lemma blind_dcall c : blind (dcall_ c).
Proof. intros b n s. unfold dcall_. cbn. by destruct (board_call c _). Qed.
Lemma blind_ddo c : blind (ddo c).
Proof. apply blind_bind; [apply blind_dcall|]. intros. apply blind_ret. Qed.
Lemma blind_when (c : bool) m : blind m -> blind (when c m).
Proof. intros. destruct c; [done|apply blind_ret]. Qed.
Lemma blind_modify f : (forall b n s, f (with_recv b n s) = with_recv b n (f s)) -> blind (modify f).
Proof. intros Hf b n s. unfold modify. cbn. by rewrite Hf. Qed.
Lemma blind_gets {A} (f : daq D -> A) : (forall b n s, f (with_recv b n s) = f s) -> blind (gets f).
Proof. intros Hf b n s. unfold gets. cbn. by rewrite Hf. Qed.
Lemma blind_decide {A} P `{Decision P} (m1 m2 : M (daq D) A) : blind m1 -> blind m2 -> blind (if decide P then m1 else m2).
Proof. by destruct (decide P). Qed.

Ltac blind := repeat first
  [ apply blind_ret | apply blind_ddo | apply blind_dcall | apply blind_decide | apply blind_when
  | apply blind_modify; done | apply blind_gets; done | apply blind_bind; intros ].

Lemma blind_execute tpcb cmd val : blind (execute base tpcb cmd val).
Proof.
  unfold execute, reply, get_adc, set_trigger_mode, set_trigger_width, set_trigger_delay, set_clear, set_config, Xil_Out32, read_ai.
  blind.
Qed.

(** The commands of some messages, one after the other. *)
Fixpoint run_messages (tpcb : Z) (l : list (list Z)) : M (daq D) unit :=
  match l with
  | [] => mret tt
  | m :: l => let '(cmd, val) := parse m in execute base tpcb cmd val ;; run_messages tpcb l
  end.

Lemma blind_run tpcb l : blind (run_messages tpcb l).
Proof.
  induction l as [|m l IH]; cbn [run_messages]; [apply blind_ret|]. destruct (parse m).
  apply blind_bind; [apply blind_execute|]. by intros [].
Qed.

(** What the server does with the bytes [l] waiting: what is left is in front of the buffer. *)
Definition holds_bytes (b l : list Z) : Prop := length b = Z.to_nat RECV_SIZE /\ take (length l) b = l.

Lemma put_recv_fits at_ data b n s :
  0 <= at_ -> at_ + Z.of_nat (length data) <= RECV_SIZE -> length b = Z.to_nat RECV_SIZE ->
  let b' := take (Z.to_nat at_) b ++ data ++ drop (Z.to_nat at_ + length data) b in
  put_recv at_ data (with_recv b n s) = (tt, with_recv b' n s) /\ length b' = Z.to_nat RECV_SIZE.
Proof.
  intros H1 H2 Hb b'. split.
  - unfold put_recv, modify. rewrite (proj2 (Z.ltb_ge _ _) H2). done.
  - subst b'. rewrite !length_app, length_take, length_drop, Hb. lia.
Qed.

Lemma serve_messages fuel tpcb b l s :
  holds_bytes b l -> (length l / msg_size < fuel)%nat ->
  exists b', holds_bytes b' (remainder l) /\
    serve base fuel tpcb (with_recv b (Z.of_nat (length l)) s)
    = (tt, with_recv b' (Z.of_nat (length (remainder l))) (run_messages tpcb (messages l) s).2).
Proof.
  revert b l s. induction fuel as [|fuel IH]; intros b l s [Hb Hl] Hf; [lia|]. cbn [serve].
  unfold mbind, M_bind. cbn [gets]. unfold gets. fld. destruct (decide (length l < msg_size)%nat) as [Hs|Hs].
  - destruct (messages_short l Hs) as [-> ->]. exists b. split; [done|].
    unfold with_recv at 1. fld. destruct (Z.leb_spec MESSAGE_SIZE (Z.of_nat (length l))) as [Hle|_]; [|done].
    change msg_size with 24%nat in *; change MESSAGE_SIZE with 24 in *; lia.
  - destruct (messages_next l ltac:(lia)) as [-> ->]. unfold with_recv at 1. fld.
    assert (MESSAGE_SIZE <= Z.of_nat (length l)) as Hle by (change msg_size with 24%nat in *; change MESSAGE_SIZE with 24 in *; lia).
    rewrite (proj2 (Z.leb_le _ _) Hle). unfold with_recv at 1. fld. fold msg_size. cbn [run_messages].
    assert (length l <= length b)%nat as Hlb by (rewrite <- Hl, length_take; lia).
    assert (take msg_size b = take msg_size l) as Et by (rewrite <- Hl, take_take; f_equal; lia). rewrite Et.
    destruct (parse (take msg_size l)) as [cmd val]. rewrite blind_execute.
    unfold mbind, M_bind. destruct (execute base tpcb cmd val s) as [[] s1]. cbn [fst snd].
    assert (take (Z.to_nat (Z.of_nat (length l) - MESSAGE_SIZE)) (drop msg_size b) = drop msg_size l) as Ed.
    { rewrite <- Hl at 2. rewrite take_drop_commute. do 2 f_equal. change msg_size with 24%nat in *; change MESSAGE_SIZE with 24 in *; lia. }
    change (recv_len (with_recv b (Z.of_nat (length l)) s)) with (Z.of_nat (length l)).
    change (recv_buffer (with_recv b (Z.of_nat (length l)) s)) with b. rewrite Ed. clear Ed Et.
    pose proof (length_drop l msg_size) as Hd.
    assert (length l <= Z.to_nat RECV_SIZE)%nat by lia.
    destruct (put_recv_fits 0 (drop msg_size l) b (Z.of_nat (length l)) s1) as [-> Hb']; [done|unfold RECV_SIZE in *; lia|done|].
    unfold modify. cbv beta iota.
    match goal with |- context [serve base fuel tpcb ?s2] =>
      change s2 with (with_recv (take (Z.to_nat 0) b ++ drop msg_size l ++ drop (Z.to_nat 0 + length (drop msg_size l)) b)
                        (Z.of_nat (length l) - MESSAGE_SIZE) s1) end.
    replace (Z.of_nat (length l) - MESSAGE_SIZE) with (Z.of_nat (length (drop msg_size l)))
      by (rewrite Hd; change msg_size with 24%nat in *; change MESSAGE_SIZE with 24 in *; lia).
    apply IH; [split; [done|exact (take_app_length (drop msg_size l) _)]|]. rewrite Hd, (count_next (length l)) in * by lia. lia.
Qed.

(** ** A sequence of segments *)

(** What the server does for a segment that completes some messages. *)
Definition deliver (tpcb p len : Z) (msgs : list (list Z)) : M (daq D) unit :=
  ddo (D_tcp_recved tpcb len) ;; ddo (D_pbuf_free p) ;; run_messages tpcb msgs.

Fixpoint deliver_all (tpcb : Z) (waiting : list Z) (ps : list (Z * list Z)) : M (daq D) unit :=
  match ps with
  | [] => mret tt
  | (p, data) :: ps =>
      deliver tpcb p (Z.of_nat (length data)) (messages (waiting ++ data)) ;;
      deliver_all tpcb (remainder (waiting ++ data)) ps
  end.

Fixpoint recv_all (tpcb : Z) (ps : list (Z * list Z)) : M (daq D) unit :=
  match ps with
  | [] => mret tt
  | p :: ps => recv_callback base tpcb (Some p) ;; recv_all tpcb ps
  end.

(** The messages each segment completes. *)
Fixpoint completed (waiting : list Z) (ps : list (Z * list Z)) : list (list (list Z)) :=
  match ps with
  | [] => []
  | (p, data) :: ps => messages (waiting ++ data) :: completed (remainder (waiting ++ data)) ps
  end.

Lemma completed_stream waiting ps :
  (length waiting < msg_size)%nat -> mjoin (completed waiting ps) = messages (waiting ++ mjoin (snd <$> ps)).
Proof.
  revert waiting. induction ps as [|[p data] ps IH]; intros w Hw; cbn [completed fmap list_fmap snd].
  - cbn. rewrite app_nil_r. by destruct (messages_short w Hw) as [-> _].
  - rewrite !mjoin_cons, IH by apply length_remainder. rewrite app_assoc. by destruct (messages_app (w ++ data) (mjoin (snd <$> ps))) as [-> _].
Qed.

Lemma recv_segment tpcb p data b w s :
  holds_bytes b w -> (length w < msg_size)%nat -> Z.of_nat (length data) <= RECV_SIZE - MESSAGE_SIZE ->
  exists b', holds_bytes b' (remainder (w ++ data)) /\
    recv_callback base tpcb (Some (p, data)) (with_recv b (Z.of_nat (length w)) s)
    = (ERR_OK, with_recv b' (Z.of_nat (length (remainder (w ++ data))))
                 (deliver tpcb p (Z.of_nat (length data)) (messages (w ++ data)) s).2).
Proof.
  intros [Hb Hw] Hs Hlen. unfold recv_callback, deliver. unfold mbind, M_bind, gets.
  assert (Z.of_nat (length data) + Z.of_nat (length w) < RECV_SIZE) as Hfit
    by (change msg_size with 24%nat in *; unfold RECV_SIZE, MESSAGE_SIZE in *; lia).
  change (recv_len (with_recv b (Z.of_nat (length w)) s)) with (Z.of_nat (length w)).
  rewrite (proj2 (Z.leb_gt _ _) Hfit). cbn [when]. unfold mret, M_ret.
  change (recv_len (with_recv b (Z.of_nat (length w)) s)) with (Z.of_nat (length w)).
  destruct (put_recv_fits (Z.of_nat (length w)) data b (Z.of_nat (length w)) s) as [-> Hb']; [lia|lia|done|].
  set (b1 := take _ b ++ _) in *. unfold modify.
  change ((with_recv b1 (Z.of_nat (length w)) s) <| recv_len := Z.of_nat (length w) + Z.of_nat (length data) |>)
    with (with_recv b1 (Z.of_nat (length w) + Z.of_nat (length data)) s).
  rewrite <- Nat2Z.inj_add, <- length_app. rewrite blind_ddo. destruct (ddo (D_tcp_recved tpcb _) s) as [[] s1]. cbn [fst snd].
  rewrite blind_ddo. destruct (ddo (D_pbuf_free p) s1) as [[] s2]. cbn [fst snd].
  change (recv_len (with_recv b1 ?n s2)) with n.
  destruct (serve_messages (S (Z.to_nat (Z.of_nat (length (w ++ data)) / MESSAGE_SIZE))) tpcb b1 (w ++ data) s2) as (b2 & Hb2 & Eq).
  - split; [done|]. subst b1. rewrite Nat2Z.id, Hw, app_assoc. by apply take_app_length'; rewrite !length_app.
  - change MESSAGE_SIZE with (Z.of_nat msg_size). rewrite <- Nat2Z.inj_div, Nat2Z.id. lia.
  - exists b2. split; [done|]. change (recv_len (with_recv b1 (Z.of_nat (length (w ++ data))) s2)) with (Z.of_nat (length (w ++ data))).
    rewrite Eq. done.
Qed.

(** The bytes that wait for the rest of their message. *)
Definition waiting (s : daq D) : list Z := take (Z.to_nat (recv_len s)) (recv_buffer s).

Record between (s : daq D) : Prop := {
  bt_buffer : length (recv_buffer s) = Z.to_nat RECV_SIZE;
  bt_len : 0 <= recv_len s < MESSAGE_SIZE;
}.

Lemma recv_all_deliver tpcb ps b w s :
  holds_bytes b w -> (length w < msg_size)%nat ->
  Forall (fun p => Z.of_nat (length p.2) <= RECV_SIZE - MESSAGE_SIZE) ps ->
  let rest := remainder (w ++ mjoin (snd <$> ps)) in
  exists b', holds_bytes b' rest /\
    (recv_all tpcb ps (with_recv b (Z.of_nat (length w)) s)).2
    = with_recv b' (Z.of_nat (length rest)) (deliver_all tpcb w ps s).2.
Proof.
  revert b w s. induction ps as [|[p data] ps IH]; intros b w s Hb Hw Hps; cbn [recv_all deliver_all].
  - exists b. cbn. rewrite app_nil_r. by destruct (messages_short w Hw) as [_ ->].
  - apply Forall_cons in Hps as [Hp Hps]. destruct (recv_segment tpcb p data b w s Hb Hw Hp) as (b1 & H1 & E1).
    unfold mbind, M_bind. rewrite E1. destruct (deliver tpcb p _ _ s) as [[] s1]. cbn [snd fmap list_fmap].
    rewrite mjoin_cons, app_assoc. destruct (messages_app (w ++ data) (mjoin (snd <$> ps))) as [_ ->].
    apply IH; [done|apply length_remainder|done].
Qed.

(** C10 However the network cuts the stream into segments, as long as none is longer
    than the buffer less a message, the server acknowledges each segment and
    executes exactly the 24 byte messages of the stream, in order, each as soon as it is complete; between segments
    the buffer holds exactly the bytes of the message not yet complete.  The run
    equals one of a server without a buffer that is given the messages. *)
Theorem recv_stream tpcb ps (s : daq D) :
  between s -> Forall (fun p => Z.of_nat (length p.2) <= RECV_SIZE - MESSAGE_SIZE) ps ->
  let stream := waiting s ++ mjoin (snd <$> ps) in
  let s' := (recv_all tpcb ps s).2 in
  mjoin (completed (waiting s) ps) = messages stream
  /\ between s' /\ waiting s' = remainder stream
  /\ exists b, s' = with_recv b (recv_len s') (deliver_all tpcb (waiting s) ps s).2.
Proof.
  intros [Hb Hl] Hps stream s'.
  assert (length (waiting s) = Z.to_nat (recv_len s)) as Hw.
  { unfold waiting. rewrite length_take. unfold RECV_SIZE, MESSAGE_SIZE in *. lia. }
  assert (length (waiting s) < msg_size)%nat as Hlt by (rewrite Hw; unfold msg_size; lia).
  split; [by apply completed_stream|].
  destruct (recv_all_deliver tpcb ps (recv_buffer s) (waiting s) s) as (b' & [H1 H2] & E); [|done|done|].
  { split; [done|]. by rewrite Hw. }
  replace (with_recv (recv_buffer s) (Z.of_nat (length (waiting s))) s) with s in E
    by (rewrite Hw, Z2Nat.id by lia; by destruct s).
  fold s' stream in E. fold stream in H2.
  assert (recv_len s' = Z.of_nat (length (remainder stream))) as El by (by rewrite E).
  split_and!.
  - constructor; [by rewrite E|]. rewrite El. pose proof (length_remainder stream). unfold msg_size in *. lia.
  - unfold waiting. rewrite El, Nat2Z.id. by rewrite E.
  - exists b'. by rewrite El.
Qed.
End Server.

(** ** The server at work

    A board that answers 7 to everything, and numbers that are all 0. *)
#[local] Instance ex_board : Board unit := fun _ d => (7, d).
#[local] Instance ex_floats : Floats Z := {
  f_of_Z _ := 0; f_decimal _ _ := 0; f_add _ _ := 0; f_sub _ _ := 0; f_mul _ _ := 0; f_div _ _ := 0; f_float _ := 0;
  f_u32 _ := 0; f_atof _ := 0; f_print _ := []
}.
Definition ex_daq : daq unit :=
  {| dq_env := tt; dq_trace := []; pulse_counter_config := 0; voltage_offset := 0; client_pcb := 1;
     recv_buffer := replicate 1024 0; recv_len := 0; spi_rx := [0; 0; 0; 0]; dq_overrun := false |}.
(** A command filled up to 24 bytes. *)
Definition ex_message (text : list Z) : list Z := text ++ replicate (24 - length text) 0.
Definition ex_stream : list Z := ex_message (codes "CLS:SetOffset 1200") ++ ex_message (codes "CLS:SetTrgMode 1") ++ [67; 76; 83].
Definition ex_segments : list (Z * list Z) := [(0x10, take 20 ex_stream); (0x20, take 1 (drop 20 ex_stream)); (0x30, drop 21 ex_stream)].

Lemma ex_between : between ex_daq.
Proof. constructor; decide_now. Qed.
Lemma ex_segments_ok : Forall (fun p => Z.of_nat (length p.2) <= RECV_SIZE - MESSAGE_SIZE) ex_segments.
Proof. decide_now. Qed.

Lemma recv_stream_witness :
  ltac:(statement_of (recv_stream (F := Z) 0x43c00000 1 ex_segments ex_daq ex_between ex_segments_ok)).
Proof. instance_of (recv_stream (F := Z) 0x43c00000 1 ex_segments ex_daq ex_between ex_segments_ok). Defined.

Example ex_stream_run :
  let s := (recv_all (F := Z) 0x43c00000 1 ex_segments ex_daq).2 in
  (voltage_offset s, pulse_counter_config s, waiting s, dq_overrun s) = (1200, 2, [67; 76; 83], false).
Proof. by vm_compute. Qed.

(** A full TCP segment is longer than the whole buffer. *)
Example ex_overrun :
  dq_overrun (recv_callback (F := Z) 0x43c00000 1 (Some (0x10, replicate 1460 0)) ex_daq).2 = true.
Proof. by vm_compute. Qed.
