(* ===== verification/Tools.v ===== *)
(** The command line tools of the driver
    ([vivado/auboard-pcie/linux-kernel/tools/]): moving files to and from the card,
    reading and writing registers, measuring, opening a device. *)
From S2P Require Import Prelude Kernel Types Bytes Sgdma Daq.
Local Open Scope Z_scope.

(** ** The system, as the tools see it

    Results are [Z]; [P_errno] is the error of the last call, [P_clock_sec] and
    [P_clock_nsec] what [clock_gettime] stores, [P_print] the numbers of a line that
    reports a result. *)
Inductive pcall :=
| P_open (name : list Z) (flags : Z)
| P_close (fd : Z)
| P_lseek (fd offset : Z)
| P_write (fd : Z) (data : list Z)
| P_memalign (size : Z)
| P_free (p : Z)
| P_clock_gettime
| P_clock_sec
| P_clock_nsec
| P_sleep (n : Z)
| P_errno
| P_pagesize
| P_mmap (fd len offset : Z)
| P_munmap (p len : Z)
| P_load (width p : Z)
| P_store (width p v : Z)
| P_print (values : list Z).

(** The calls that store something: [read] its bytes, [ioctl] the fields of its
    structure, and what it left in the buffer the structure points to. *)
Inductive fcall :=
| F_read (fd n : Z)
| F_ioctl (fd cmd : Z) (fields : list Z)
| F_buffer.

Class Posix (D : Type) := {
  px_call : pcall -> D -> Z * D;
  px_fill : fcall -> D -> Z * list Z * D;
}.

Inductive pevent := PE_call (c : pcall) (v : Z) | PE_fill (c : fcall) (v : Z) (data : list Z).

(** A tool's state: what was done, and the buffer it moves data through, from
    [buffer] on. *)
Record tool (D : Type) := { t_env : D; t_trace : list pevent; t_buffer : list Z }.
Arguments Build_tool {D}.
Arguments t_env {D}.
Arguments t_trace {D}.
Arguments t_buffer {D}.
#[export] Instance tool_settable D : Settable (tool D) := fun s => Build_tool (t_env s) (t_trace s) (t_buffer s).

(** ** Numbers of the command line *)
Definition digit_of (base c : Z) : option Z :=
  let v := if is_digit c then c - 48 else if (97 <=? c) && (c <=? 122) then c - 87
           else if (65 <=? c) && (c <=? 90) then c - 55 else base in
  if v <? base then Some v else None.
Fixpoint digits (base : Z) (l : list Z) (n : Z) : Z :=
  match l with
  | c :: l => match digit_of base c with Some d => digits base l (base * n + d) | None => n end
  | [] => n
  end.
(** A number that starts with a digit; the nearest 64-bit number for larger ones. *)
Definition number (base : Z) (neg : bool) (l : list Z) : option Z :=
  match l with
  | c :: _ =>
      match digit_of base c with
      | Some _ => let n := digits base l 0 in
                  Some (if 18446744073709551615 <? n then 18446744073709551615 else if neg then u64 (- n) else n)
      | None => None
      end
  | [] => None
  end.
Definition sign (l : list Z) : bool * list Z :=
  match l with 45 :: l => (true, l) | 43 :: l => (false, l) | _ => (false, l) end.
Definition hex_prefix (l : list Z) : option (list Z) :=
  match l with 48 :: x :: l => if (x =? 120) || (x =? 88) then Some l else None | _ => None end.

(** [sscanf] with [%lx] or [%x], and [%lu] or [%u]. *)
Definition scan_hex (l : list Z) : option Z :=
  let '(neg, l) := sign (atoi_skip l) in number 16 neg (default l (hex_prefix l)).
Definition scan_dec (l : list Z) : option Z := let '(neg, l) := sign (atoi_skip l) in number 10 neg l.
(** ... and with [0x] before the first. *)
Definition scan_0x (l : list Z) : option Z :=
  match l with 48 :: 120 :: l => scan_hex l | _ => None end.

(** [strtoul] with base 0. *)
Definition strtoul (l : list Z) : Z :=
  let '(neg, l) := sign (atoi_skip l) in
  match hex_prefix l with
  | Some l => default 0 (number 16 neg l)
  | None => default 0 (number (if bool_decide (head l = Some 48) then 8 else 10) neg l)
  end.

(* @src src/vivado/auboard-pcie/linux-kernel/tools/dma_utils.c:26-26 RW_MAX_SIZE *)
Definition RW_MAX_SIZE : Z := 0x7ffff000.

Section Code.
Context {D : Type} `{Posix D}.
(** What a variable holds that is not set; the contents of fresh memory; the flags of
    [open] and the codes of the ioctls. *)
Variable unset : Z.
Variable fresh : Z -> list Z.
Variables O_RDWR O_RDONLY O_CREAT O_TRUNC O_SYNC : Z.
Variables IOCTL_XDMA_APERTURE_R IOCTL_XDMA_APERTURE_W : Z.
Variables IOCTL_XDMA_PERF_START IOCTL_XDMA_PERF_STOP IOCTL_XDMA_PERF_GET IOCTL_XDMA_PERF_V1 : Z.

Definition posix (c : pcall) : M (tool D) Z := fun s =>
  let '(v, d) := px_call c (t_env s) in (v, s <| t_env := d |> <| t_trace ::= fun l => l ++ [PE_call c v] |>).
Definition posix_ (c : pcall) : M (tool D) unit := posix c ;; mret tt.
Definition posix_fill (c : fcall) : M (tool D) (Z * list Z) := fun s =>
  let '(v, data, d) := px_fill c (t_env s) in
  ((v, data), s <| t_env := d |> <| t_trace ::= fun l => l ++ [PE_fill c v data] |>).

(** ** [dma_utils.c] *)
(* @src src/vivado/auboard-pcie/linux-kernel/tools/dma_utils.c:30-41 getopt_integer *)
Definition getopt_integer (optarg : list Z) : Z :=
  match scan_0x optarg with Some v => v | None => default unset (scan_dec optarg) end.

(** [lseek], when there is an offset: whether it went there. *)
(* @src src/vivado/auboard-pcie/linux-kernel/tools/dma_utils.c:58-66 read_to_buffer *)
Definition seek (fd offset : Z) : M (tool D) bool :=
  if nz offset then rc ← posix (P_lseek fd offset); mret (rc =? offset) else mret true.

(** The bytes of one round. *)
(* @src src/vivado/auboard-pcie/linux-kernel/tools/dma_utils.c:53-56 read_to_buffer *)
Definition chunk (size count : Z) : Z := Z.min (u64 (size - count)) RW_MAX_SIZE.

(** Data stored in the buffer at [at_]. *)
Definition store (at_ : Z) (data : list Z) : M (tool D) unit :=
  modify (fun s => s <| t_buffer ::= fun b => take (Z.to_nat at_) b ++ data ++ drop (Z.to_nat at_ + length data) b |>).

(** [buf - buffer] is [count] at the start of every round.  [None] when the rounds are used up. *)
(* @src src/vivado/auboard-pcie/linux-kernel/tools/dma_utils.c:52-92 read_to_buffer *)
Fixpoint read_loop (fuel : nat) (fd size count offset : Z) : M (tool D) (option Z) :=
  if count <? size then
    match fuel with
    | O => mret None
    | S fuel =>
        let bytes := chunk size count in
        ok ← seek fd offset;
        if negb ok then mret (Some (- EIO))
        else
          '(rc, data) ← posix_fill (F_read fd bytes);
          if rc <? 0 then mret (Some (- EIO))
          else
            store count data ;;
            if negb (rc =? bytes) then mret (Some (s64 (u64 (count + rc))))
            else read_loop fuel fd size (u64 (count + rc)) (s64 (offset + bytes))
    end
  else mret (Some (s64 count)).

(** The rounds a transfer of [size] bytes can take. *)
Definition rounds (size : Z) : nat := S (Z.to_nat (size / RW_MAX_SIZE)).

(* @src src/vivado/auboard-pcie/linux-kernel/tools/dma_utils.c:43-93 read_to_buffer *)
Definition read_to_buffer (fd size base : Z) : M (tool D) (option Z) := read_loop (rounds size) fd size 0 (s64 base).

(** The buffer is read from [buffer] on. *)
(* @src src/vivado/auboard-pcie/linux-kernel/tools/dma_utils.c:104-145 write_from_buffer *)
Fixpoint write_loop (fuel : nat) (fd size count offset : Z) : M (tool D) (option Z) :=
  if count <? size then
    match fuel with
    | O => mret None
    | S fuel =>
        let bytes := chunk size count in
        ok ← seek fd offset;
        if negb ok then mret (Some (- EIO))
        else
          b ← gets t_buffer;
          rc ← posix (P_write fd (take (Z.to_nat bytes) (drop (Z.to_nat count) b)));
          if rc <? 0 then mret (Some (- EIO))
          else if negb (rc =? bytes) then mret (Some (s64 (u64 (count + rc))))
          else write_loop fuel fd size (u64 (count + rc)) (s64 (offset + bytes))
    end
  else mret (Some (s64 count)).

(* @src src/vivado/auboard-pcie/linux-kernel/tools/dma_utils.c:95-146 write_from_buffer *)
Definition write_from_buffer (fd size base : Z) : M (tool D) (option Z) := write_loop (rounds size) fd size 0 (s64 base).

(* @src src/vivado/auboard-pcie/linux-kernel/tools/dma_utils.c:154-160 timespec_check *)
Definition timespec_check (t : Z * Z) : Z := if (t.2 <? 0) || (1000000000 <=? t.2) then -1 else 0.

(** [*t1] after the call. *)
(* @src src/vivado/auboard-pcie/linux-kernel/tools/dma_utils.c:162-183 timespec_sub *)
Definition timespec_sub (t1 t2 : Z * Z) : Z * Z :=
  if timespec_check t1 <? 0 then t1
  else if timespec_check t2 <? 0 then t1
  else
    let '(sec, nsec) := (s64 (t1.1 - t2.1), s64 (t1.2 - t2.2)) in
    if 1000000000 <=? nsec then (s64 (sec + 1), nsec - 1000000000)
    else if nsec <? 0 then (s64 (sec - 1), nsec + 1000000000)
    else (sec, nsec).

(** ** The options of the tools

    [opts]: what [getopt_long] makes of the command line, the letter of each option and
    its argument.  [None] is the usage, after which the tool exits with 0. *)
Record options := {
  o_device : list Z; o_address : Z; o_aperture : Z; o_size : Z; o_offset : Z; o_count : Z;
  o_infname : option (list Z); o_ofname : option (list Z); o_eop_flush : bool;
}.
#[export] Instance options_settable : Settable options :=
  fun o => Build_options (o_device o) (o_address o) (o_aperture o) (o_size o) (o_offset o) (o_count o)
                         (o_infname o) (o_ofname o) (o_eop_flush o).

Fixpoint parse_opts {A} (step : Z -> list Z -> A -> option A) (opts : list (Z * list Z)) (o : A) : option A :=
  match opts with
  | (c, optarg) :: opts => match step c optarg o with Some o => parse_opts step opts o | None => None end
  | [] => Some o
  end.

Definition opt (s : string) : Z := default 0 (head (codes s)).

(** ** The transfers [dma_to_device] and [dma_from_device] share *)

(** [*io], the aperture, with [error] as the variable happens to hold it:
    [ep_addr], [aperture], [buffer], [len], [error], [done]. *)
Definition io_error (io : list Z) : Z := nth 4 io 0.
Definition io_done (io : list Z) : Z := nth 5 io 0.

Definition clock : M (tool D) (Z * (Z * Z)) :=
  rc ← posix P_clock_gettime; sec ← posix P_clock_sec; nsec ← posix P_clock_nsec; mret (rc, (sec, nsec)).

(* @src src/vivado/auboard-pcie/linux-kernel/tools/dma_to_device.c:280-282 test_dma *)
Definition add_time (total_time : Z) (ts_end ts_start : Z * Z) : Z :=
  let t := timespec_sub ts_end ts_start in s64 (total_time + (t.1 * 1000000000 + t.2)).

(** The buffer, [offset] bytes into what was allocated. *)
Definition alloc_buffer (size offset : Z) : M (tool D) Z :=
  allocated ← posix (P_memalign (u64 (size + 4096)));
  (if nz allocated then
     modify (fun s => s <| t_buffer := drop (Z.to_nat offset) (fresh (u64 (size + 4096))) |>)
   else mret tt) ;;
  mret allocated.

Definition close_if (fd : Z) : M (tool D) unit := if 0 <=? fd then posix_ (P_close fd) else mret tt.

(** An optional file: its descriptor, -1 without one; [None] when it does not open. *)
Definition open_file (name : option (list Z)) (flags : Z) : M (tool D) (option Z) :=
  match name with
  | Some name => fd ← posix (P_open name flags); mret (if fd <? 0 then None else Some fd)
  | None => mret (Some (-1))
  end.

(** ** [dma_to_device.c] *)
(* @src src/vivado/auboard-pcie/linux-kernel/tools/dma_to_device.c:116-160 main *)
Definition to_device_opt (c : Z) (optarg : list Z) (o : options) : option options :=
  if c =? 0 then Some o
  else if c =? opt "d" then Some (o <| o_device := optarg |>)
  else if c =? opt "a" then Some (o <| o_address := getopt_integer optarg |>)
  else if c =? opt "k" then Some (o <| o_aperture := getopt_integer optarg |>)
  else if c =? opt "s" then Some (o <| o_size := getopt_integer optarg |>)
  else if c =? opt "o" then Some (o <| o_offset := Z.land (getopt_integer optarg) 4095 |>)
  else if c =? opt "c" then Some (o <| o_count := getopt_integer optarg |>)
  else if c =? opt "f" then Some (o <| o_infname := Some optarg |>)
  else if c =? opt "w" then Some (o <| o_ofname := Some optarg |>)
  else if c =? opt "v" then Some o
  else None.

(* @src src/vivado/auboard-pcie/linux-kernel/tools/dma_to_device.c:45-47 DEVICE_NAME_DEFAULT *)
Definition to_device_defaults : options :=
  {| o_device := codes "/dev/xdma0_h2c_0"; o_address := 0; o_aperture := 0; o_size := 32; o_offset := 0;
     o_count := 1; o_infname := None; o_ofname := None; o_eop_flush := false |}.

(** How a transfer of one round ends: [inl rc] at [out], [inr (rc, bytes_done)]. *)
(* @src src/vivado/auboard-pcie/linux-kernel/tools/dma_to_device.c:244-269 test_dma *)
Definition to_device_transfer (fpga_fd allocated : Z) (o : options) : M (tool D) (option (Z + Z)) :=
  if nz (o_aperture o) then
    '(rc, io) ← posix_fill (F_ioctl fpga_fd IOCTL_XDMA_APERTURE_W
                  [o_address o; u32 (o_aperture o); u64 (allocated + o_offset o); o_size o; unset; 0]);
    mret (Some (if (rc <? 0) || nz (io_error io) then inl rc else inr (io_done io)))
  else
    r ← write_from_buffer fpga_fd (o_size o) (o_address o);
    mret (match r with
          | Some rc => Some (if rc <? 0 then inl rc else inr rc)
          | None => None
          end).

(** The data of a round, written to the output file: [inl rc] at [out], or [rc] and [out_offset]. *)
(* @src src/vivado/auboard-pcie/linux-kernel/tools/dma_to_device.c:289-295 test_dma *)
Definition save_output (outfile_fd rc bytes_done out_offset : Z) : M (tool D) (option (Z + Z * Z)) :=
  if 0 <=? outfile_fd then
    r ← write_from_buffer outfile_fd bytes_done out_offset;
    mret (match r with
          | Some rc => Some (if (rc <? 0) || (rc <? bytes_done) then inl rc
                             else inr (rc, u64 (out_offset + bytes_done)))
          | None => None
          end)
  else mret (Some (inr (rc, out_offset))).

(** What the rounds leave at [out]: [rc] and [underflow]. *)
(* @src src/vivado/auboard-pcie/linux-kernel/tools/dma_to_device.c:240-305 test_dma *)
Fixpoint to_device_loop (n : nat) (fpga_fd outfile_fd allocated : Z) (o : options)
    (rc out_offset total_time : Z) (underflow : bool) : M (tool D) (option (Z * bool)) :=
  match n with
  | O =>
      (if underflow then mret tt else posix_ (P_print [o_size o; total_time; o_count o])) ;;
      mret (Some (rc, underflow))
  | S n =>
      '(_, ts_start) ← clock;
      r ← to_device_transfer fpga_fd allocated o;
      match r with
      | None => mret None
      | Some (inl rc) => mret (Some (rc, underflow))
      | Some (inr bytes_done) =>
          '(rc, ts_end) ← clock;
          let underflow := underflow || (bytes_done <? o_size o) in
          let total_time := add_time total_time ts_end ts_start in
          w ← save_output outfile_fd rc bytes_done out_offset;
          match w with
          | None => mret None
          | Some (inl rc) => mret (Some (rc, underflow))
          | Some (inr (rc, out_offset)) =>
              to_device_loop n fpga_fd outfile_fd allocated o rc out_offset total_time underflow
          end
      end
  end.

(* @src src/vivado/auboard-pcie/linux-kernel/tools/dma_to_device.c:307-318 test_dma *)
Definition to_device_out (fpga_fd infile_fd outfile_fd allocated : Z) (r : option (Z * bool)) : M (tool D) (option Z) :=
  posix_ (P_close fpga_fd) ;; close_if infile_fd ;; close_if outfile_fd ;; posix_ (P_free allocated) ;;
  mret (match r with
        | Some (rc, underflow) => Some (if rc <? 0 then s32 rc else if underflow then - EIO else 0)
        | None => None
        end).

(** The input file, if there is one, read into the buffer: [inl rc] at [out]. *)
(* @src src/vivado/auboard-pcie/linux-kernel/tools/dma_to_device.c:234-238 test_dma *)
Definition load_input (infile_fd size : Z) : M (tool D) (option (Z + Z)) :=
  if 0 <=? infile_fd then
    r ← read_to_buffer infile_fd size 0;
    mret (match r with
          | Some rc => Some (if (rc <? 0) || (rc <? size) then inl rc else inr rc)
          | None => None
          end)
  else mret (Some (inr unset)).

(* @src src/vivado/auboard-pcie/linux-kernel/tools/dma_to_device.c:173-319 test_dma *)
Definition to_device_test_dma (o : options) : M (tool D) (option Z) :=
  fpga_fd ← posix (P_open (o_device o) O_RDWR);
  if fpga_fd <? 0 then mret (Some (- EINVAL))
  else
    i ← open_file (o_infname o) O_RDONLY;
    match i with
    | None => to_device_out fpga_fd (-1) (-1) 0 (Some (- EINVAL, false))
    | Some infile_fd =>
        w ← open_file (o_ofname o) (Z.lor O_RDWR (Z.lor O_CREAT (Z.lor O_TRUNC O_SYNC)));
        match w with
        | None => to_device_out fpga_fd infile_fd (-1) 0 (Some (- EINVAL, false))
        | Some outfile_fd =>
            allocated ← alloc_buffer (o_size o) (o_offset o);
            if negb (nz allocated) then to_device_out fpga_fd infile_fd outfile_fd 0 (Some (- ENOMEM, false))
            else
              l ← load_input infile_fd (o_size o);
              r ← (match l with
                   | None => mret None
                   | Some (inl rc) => mret (Some (rc, false))
                   | Some (inr rc) =>
                       to_device_loop (Z.to_nat (o_count o)) fpga_fd outfile_fd allocated o rc 0 0 false
                   end);
              to_device_out fpga_fd infile_fd outfile_fd allocated r
        end
    end.

(* @src src/vivado/auboard-pcie/linux-kernel/tools/dma_to_device.c:101-171 main *)
Definition dma_to_device (opts : list (Z * list Z)) : M (tool D) (option Z) :=
  match parse_opts to_device_opt opts to_device_defaults with
  | Some o => to_device_test_dma o
  | None => mret (Some 0)
  end.

(** ** [dma_from_device.c] *)
(* @src src/vivado/auboard-pcie/linux-kernel/tools/dma_from_device.c:117-160 main *)
Definition from_device_opt (c : Z) (optarg : list Z) (o : options) : option options :=
  if c =? 0 then Some o
  else if c =? opt "d" then Some (o <| o_device := optarg |>)
  else if c =? opt "a" then Some (o <| o_address := getopt_integer optarg |>)
  else if c =? opt "k" then Some (o <| o_aperture := getopt_integer optarg |>)
  else if c =? opt "s" then Some (o <| o_size := getopt_integer optarg |>)
  else if c =? opt "o" then Some (o <| o_offset := Z.land (getopt_integer optarg) 4095 |>)
  else if c =? opt "c" then Some (o <| o_count := getopt_integer optarg |>)
  else if c =? opt "f" then Some (o <| o_ofname := Some optarg |>)
  else if c =? opt "v" then Some o
  else if c =? opt "e" then Some (o <| o_eop_flush := true |>)
  else None.

(* @src src/vivado/auboard-pcie/linux-kernel/tools/dma_from_device.c:30-32 DEVICE_NAME_DEFAULT *)
Definition from_device_defaults : options :=
  {| o_device := codes "/dev/xdma0_c2h_0"; o_address := 0; o_aperture := 0; o_size := 32; o_offset := 0;
     o_count := 1; o_infname := None; o_ofname := None; o_eop_flush := false |}.

(** The aperture [ioctl] stores in the buffer behind the model's back. *)
(* @src src/vivado/auboard-pcie/linux-kernel/tools/dma_from_device.c:231-255 test_dma *)
Definition from_device_transfer (fpga_fd allocated : Z) (o : options) : M (tool D) (option (Z + Z)) :=
  if nz (o_aperture o) then
    '(rc, io) ← posix_fill (F_ioctl fpga_fd IOCTL_XDMA_APERTURE_R
                  [o_address o; u32 (o_aperture o); u64 (allocated + o_offset o); o_size o; unset; 0]);
    '(_, data) ← posix_fill F_buffer;
    store 0 data ;;
    mret (Some (if (rc <? 0) || nz (io_error io) then inl rc else inr (io_done io)))
  else
    r ← read_to_buffer fpga_fd (o_size o) (o_address o);
    mret (match r with
          | Some rc => Some (if rc <? 0 then inl rc else inr rc)
          | None => None
          end).

(** What the rounds leave in [rc] at [out]. *)
(* @src src/vivado/auboard-pcie/linux-kernel/tools/dma_from_device.c:229-296 test_dma *)
Fixpoint from_device_loop (n : nat) (fpga_fd out_fd allocated : Z) (o : options)
    (out_offset total_time : Z) (underflow : bool) : M (tool D) (option Z) :=
  match n with
  | O =>
      if negb underflow then posix_ (P_print [o_size o; total_time; o_count o]) ;; mret (Some 0)
      else mret (Some (if o_eop_flush o then 0 else - EIO))
  | S n =>
      '(_, ts_start) ← clock;
      r ← from_device_transfer fpga_fd allocated o;
      match r with
      | None => mret None
      | Some (inl rc) => mret (Some rc)
      | Some (inr bytes_done) =>
          '(_, ts_end) ← clock;
          let underflow := underflow || (bytes_done <? o_size o) in
          let total_time := add_time total_time ts_end ts_start in
          w ← save_output out_fd 0 bytes_done out_offset;
          match w with
          | None => mret None
          | Some (inl rc) => mret (Some rc)
          | Some (inr (_, out_offset)) =>
              from_device_loop n fpga_fd out_fd allocated o out_offset total_time underflow
          end
      end
  end.

(* @src src/vivado/auboard-pcie/linux-kernel/tools/dma_from_device.c:298-304 test_dma *)
Definition from_device_out (fpga_fd out_fd allocated : Z) (r : option Z) : M (tool D) (option Z) :=
  posix_ (P_close fpga_fd) ;; close_if out_fd ;; posix_ (P_free allocated) ;;
  mret (match r with Some rc => Some (s32 rc) | None => None end).

(* @src src/vivado/auboard-pcie/linux-kernel/tools/dma_from_device.c:171-305 test_dma *)
Definition from_device_test_dma (o : options) : M (tool D) (option Z) :=
  fpga_fd ← posix (P_open (o_device o) (if o_eop_flush o then Z.lor O_RDWR O_TRUNC else O_RDWR));
  if fpga_fd <? 0 then mret (Some (- EINVAL))
  else
    w ← open_file (o_ofname o) (Z.lor O_RDWR (Z.lor O_CREAT (Z.lor O_TRUNC O_SYNC)));
    match w with
    | None => from_device_out fpga_fd (-1) 0 (Some (- EINVAL))
    | Some out_fd =>
        allocated ← alloc_buffer (o_size o) (o_offset o);
        if negb (nz allocated) then from_device_out fpga_fd out_fd 0 (Some (- ENOMEM))
        else
          r ← from_device_loop (Z.to_nat (o_count o)) fpga_fd out_fd allocated o 0 0 false;
          from_device_out fpga_fd out_fd allocated r
    end.

(* @src src/vivado/auboard-pcie/linux-kernel/tools/dma_from_device.c:104-169 main *)
Definition dma_from_device (opts : list (Z * list Z)) : M (tool D) (option Z) :=
  match parse_opts from_device_opt opts from_device_defaults with
  | Some o => from_device_test_dma o
  | None => mret (Some 0)
  end.

(** ** [performance.c] *)
(* @src src/vivado/auboard-pcie/linux-kernel/tools/performance.c:57-66 getopt_integer *)
Definition getopt_integer32 (optarg : list Z) : Z :=
  u32 (match scan_0x optarg with Some v => v | None => default unset (scan_dec optarg) end).

(** The device, the size and the count. *)
(* @src src/vivado/auboard-pcie/linux-kernel/tools/performance.c:80-111 main *)
Definition performance_opt (c : Z) (optarg : list Z) (o : list Z * Z * Z) : option (list Z * Z * Z) :=
  let '(device, size, count) := o in
  if (c =? 0) || (c =? opt "v") then Some o
  else if c =? opt "d" then Some (optarg, size, count)
  else if c =? opt "s" then Some (device, getopt_integer32 optarg, count)
  else if c =? opt "c" then Some (device, size, getopt_integer32 optarg)
  else None.

(** [ioctl] on [perf]: [version], [transfer_size], [stopped], [iterations],
    [clock_cycle_count], [data_cycle_count], [pending_count].  The counts are printed. *)
(* @src src/vivado/auboard-pcie/linux-kernel/tools/performance.c:130-135 test_dma *)
Definition perf_ioctl (fd cmd : Z) (perf : list Z) : M (tool D) (list Z) :=
  '(rc, perf) ← posix_fill (F_ioctl fd cmd perf); posix_ (P_print (rc :: perf)) ;; mret perf.

(* @src src/vivado/auboard-pcie/linux-kernel/tools/performance.c:137-154 test_dma *)
Fixpoint perf_loop (n : nat) (fd : Z) (perf : list Z) : M (tool D) (list Z) :=
  match n with
  | O => mret perf
  | S n => posix_ (P_sleep 2) ;; perf ← perf_ioctl fd IOCTL_XDMA_PERF_GET perf; perf_loop n fd perf
  end.

(** [Some status] when the program exits in it. [count--] passes 0 after the 32-bit
    count of rounds, also for a negative [count]. *)
(* @src src/vivado/auboard-pcie/linux-kernel/tools/performance.c:117-174 test_dma *)
Definition perf_test_dma (device_name : list Z) (size count : Z) : M (tool D) (option Z) :=
  fd ← posix (P_open device_name O_RDWR);
  if fd <? 0 then mret (Some 1)
  else
    perf ← perf_ioctl fd IOCTL_XDMA_PERF_START [IOCTL_XDMA_PERF_V1; u32 size; 0; 0; 0; 0; 0];
    perf ← perf_loop (Z.to_nat (u32 count)) fd perf;
    _ ← perf_ioctl fd IOCTL_XDMA_PERF_STOP perf;
    posix_ (P_close fd) ;;
    mret None.

(* @src src/vivado/auboard-pcie/linux-kernel/tools/performance.c:72-115 main *)
Definition performance (opts : list (Z * list Z)) : M (tool D) Z :=
  match parse_opts performance_opt opts (codes "/dev/xdma/card0/h2c0", 32768, 1) with
  | Some (device, size, count) => r ← perf_test_dma device (s32 size) (s32 count); mret (default 0 r)
  | None => mret 0
  end.

(** ** [reg_rw.c] *)
Definition tolower (c : Z) : Z := if (65 <=? c) && (c <=? 90) then c + 32 else c.

(** The bytes of an access, from the letter of its type. *)
(* @src src/vivado/auboard-pcie/linux-kernel/tools/reg_rw.c:73-86 main *)
Definition reg_width (argv : list (list Z)) : Z :=
  match nth_error argv 3 with
  | Some a =>
      let access_width := tolower (default 0 (head a)) in
      if access_width =? opt "b" then 1 else if access_width =? opt "h" then 2 else 4
  | None => 4
  end.

(** One read, printed, or one write, at [map]; the host is little endian. *)
(* @src src/vivado/auboard-pcie/linux-kernel/tools/reg_rw.c:106-168 main *)
Definition reg_access (argv : list (list Z)) (map target : Z) : M (tool D) unit :=
  let width := reg_width argv in
  match nth_error argv 4 with
  | None => read_result ← posix (P_load width map); posix_ (P_print [target; map; read_result])
  | Some a =>
      let writeval := u32 (strtoul a) in
      posix_ (P_print [writeval; target; map]) ;;
      posix_ (P_store width map (Z.land writeval (Z.ones (8 * width))))
  end.

(** The arguments include the name of the program. *)
(* @src src/vivado/auboard-pcie/linux-kernel/tools/reg_rw.c:38-179 main *)
Definition reg_rw (argv : list (list Z)) : M (tool D) Z :=
  match argv with
  | _ :: device :: address :: _ =>
      let target := s64 (strtoul address) in
      pgsz ← posix P_pagesize;
      let offset := Z.land target (pgsz - 1) in
      let target_aligned := Z.land target (Z.lnot (pgsz - 1)) in
      fd ← posix (P_open device (Z.lor O_RDWR O_SYNC));
      if fd =? -1 then e ← posix P_errno; mret (- e)
      else
        map ← posix (P_mmap fd (offset + 4) target_aligned);
        err ← (if map =? -1 then mret 1
               else
                 reg_access argv (map + offset) target ;;
                 posix_ (P_munmap map (offset + 4)) ;;
                 mret 0);
        posix_ (P_close fd) ;;
        mret err
  | _ => mret 1
  end.

(** ** [test_chrdev.c] *)
(* @src src/vivado/auboard-pcie/linux-kernel/tools/test_chrdev.c:18-46 main *)
Definition test_chrdev (argv : list (list Z)) : M (tool D) Z :=
  match argv with
  | [_; filename] =>
      fd ← posix (P_open filename O_RDWR);
      if fd <? 0 then mret fd
      else
        rc ← posix (P_close fd);
        mret (if nz rc then -1 else 0)
  | _ => mret (-1)
  end.
End Code.
