(* ===== verification/ToolsSpec.v ===== *)
(** What the tools move: the bytes of files and devices by position, from the calls a
    tool made. *)
From S2P Require Import Prelude Kernel Types Bytes Sgdma Daq Tools.
Local Open Scope Z_scope.

(** ** Bytes and where they are *)
#[local] Abbreviation len l := (Z.of_nat (length l)).
Definition place (pos : Z) (data : list Z) : list (Z * Z) := zip (seqZ pos (len data)) data.

Lemma place_nil pos : place pos [] = [].
Proof. done. Qed.
Lemma place_app pos l1 l2 : place pos (l1 ++ l2) = place pos l1 ++ place (pos + len l1) l2.
Proof.
  unfold place. rewrite length_app, Nat2Z.inj_add, seqZ_app by lia. apply zip_with_app. rewrite length_seqZ. lia.
Qed.

(** The position of [fd] after a call: [lseek] sets it.  The driver's devices do not
    move it. *)
Definition step_pos (fd pos : Z) (e : pevent) : Z :=
  match e with PE_call (P_lseek f _) v => if (f =? fd) && (0 <=? v) then v else pos | _ => pos end.
Definition left_at (fd pos : Z) (l : list pevent) : Z := foldl (step_pos fd) pos l.

Definition bytes_in (fd : Z) (e : pevent) : list Z :=
  match e with PE_fill (F_read f _) _ data => if f =? fd then data else [] | _ => [] end.
Definition bytes_out (fd : Z) (e : pevent) : list Z :=
  match e with PE_call (P_write f data) v => if f =? fd then take (Z.to_nat v) data else [] | _ => [] end.

Fixpoint moving (bytes : pevent -> list Z) (fd pos : Z) (l : list pevent) : list (Z * Z) :=
  match l with
  | e :: l => place pos (bytes e) ++ moving bytes fd (step_pos fd pos e) l
  | [] => []
  end.
(** What was read from [fd], what it took. *)
Definition fetched (fd : Z) := moving (bytes_in fd) fd.
Definition landed (fd : Z) := moving (bytes_out fd) fd.

Lemma moving_app bytes fd pos l1 l2 :
  moving bytes fd pos (l1 ++ l2) = moving bytes fd pos l1 ++ moving bytes fd (left_at fd pos l1) l2.
Proof. revert pos. induction l1 as [|e l1 IH]; intros pos; [done|]. cbn. by rewrite IH, app_assoc. Qed.
Lemma left_at_app fd pos l1 l2 : left_at fd pos (l1 ++ l2) = left_at fd (left_at fd pos l1) l2.
Proof. apply foldl_app. Qed.

(** Events that leave [fd] alone. *)
Definition apart (fd : Z) (e : pevent) : bool :=
  match e with
  | PE_call (P_lseek f _) _ | PE_call (P_write f _) _ | PE_fill (F_read f _) _ _ => negb (f =? fd)
  | _ => true
  end.
Lemma apart_left fd pos l : Forall (fun e => apart fd e) l -> left_at fd pos l = pos.
Proof.
  induction 1 as [|e l He _ IH]; [done|]. cbn. replace (step_pos fd pos e) with pos; [done|].
  destruct e as [[]|]; try done. cbn in *. by destruct (_ =? fd).
Qed.
Lemma apart_moving bytes fd pos l :
  (forall e, apart fd e -> bytes e = []) -> Forall (fun e => apart fd e) l -> moving bytes fd pos l = [].
Proof. intros Hb Hl. revert pos. induction Hl as [|e l He Hl IH]; intros pos; [done|]. cbn. by rewrite Hb, IH. Qed.
Lemma apart_in fd e : apart fd e -> bytes_in fd e = [].
Proof. destruct e as [|[] v data]; try done. cbn. by destruct (_ =? fd). Qed.
Lemma apart_out fd e : apart fd e -> bytes_out fd e = [].
Proof. destruct e as [[]|]; try done. cbn. by destruct (_ =? fd). Qed.

(** Events that leave every descriptor alone. *)
Definition calm (l : list pevent) : Prop := forall f, Forall (fun e => apart f e) l.

(** The events [l] move [data] between [fd] and a buffer, from the position [offset] on,
    of [n] bytes that were to be moved. *)
Record moved (bytes : Z -> pevent -> list Z) (fd offset n : Z) (data : list Z) (l : list pevent) : Prop := {
  mv_bytes : forall pos, (offset = 0 -> pos = 0) -> moving (bytes fd) fd pos l = place offset data;
  mv_none : n = 0 -> l = [];
  mv_left : offset = 0 -> n <= RW_MAX_SIZE -> forall pos, left_at fd pos l = pos;
  mv_apart : forall f, f <> fd -> Forall (fun e => apart f e) l;
}.

Lemma moved_nil bytes fd offset n : n = 0 -> moved bytes fd offset n [] [].
Proof. by constructor. Qed.

(** The seek of a round. *)
Definition sought (fd offset : Z) (l : list pevent) : Prop :=
  offset = 0 /\ l = [] \/ offset <> 0 /\ exists v, l = [PE_call (P_lseek fd offset) v] /\ v = offset.

Lemma moved_round bytes fd offset n l e :
  0 <= offset -> 0 < n -> sought fd offset l ->
  (forall v, bytes fd (PE_call (P_lseek fd offset) v) = []) -> (forall f, f <> fd -> apart f e) ->
  (forall pos, step_pos fd pos e = pos) ->
  moved bytes fd offset n (bytes fd e) (l ++ [e]).
Proof.
  intros H0 Hn Hs Hb He Hp. destruct Hs as [(-> & ->)|(Ho & v & -> & ->)]; constructor; cbn [app].
  - intros pos ->; [|done]. cbn. by rewrite app_nil_r.
  - lia.
  - intros _ _ pos. cbn. apply Hp.
  - intros f Hf. repeat constructor. by apply He.
  - intros pos _. cbn. rewrite Hb, Z.eqb_refl, (proj2 (Z.leb_le _ _) H0). cbn. by rewrite app_nil_r.
  - lia.
  - lia.
  - intros f Hf. repeat constructor; [|by apply He]. cbn. by apply Is_true_true, negb_true_iff, Z.eqb_neq.
Qed.

Lemma moved_app bytes fd offset n m d1 d2 l1 l2 :
  0 <= offset -> 0 < len d1 -> (m <> 0 -> n = RW_MAX_SIZE) -> 0 <= m -> 0 < n ->
  moved bytes fd offset n d1 l1 -> moved bytes fd (offset + len d1) m d2 l2 ->
  moved bytes fd offset (n + m) (d1 ++ d2) (l1 ++ l2).
Proof.
  intros Ho Hd Hm H0 Hn [] []. constructor.
  - intros pos Hp. rewrite moving_app, place_app. f_equal; [auto|]. apply mv_bytes1. lia.
  - lia.
  - intros -> Hl pos. destruct (decide (m = 0)) as [Hz|Hz]; [|specialize (Hm Hz); unfold RW_MAX_SIZE in *; lia].
    rewrite mv_none1, app_nil_r by done. apply mv_left0; [done|lia].
  - intros f Hf. apply Forall_app. auto.
Qed.

(** ** What a call does to a tool *)
Definition ran {D} (s : tool D) (l : list pevent) (b : list Z) (s' : tool D) : Prop :=
  exists d, s' = Build_tool d (t_trace s ++ l) b.

Lemma ran_refl {D} (s : tool D) : ran s [] (t_buffer s) s.
Proof. exists (t_env s). rewrite app_nil_r. by destruct s. Qed.
Lemma ran_trans {D} (s s1 s2 : tool D) l1 l2 b1 b2 : ran s l1 b1 s1 -> ran s1 l2 b2 s2 -> ran s (l1 ++ l2) b2 s2.
Proof. intros (d1 & ->) (d2 & ->). exists d2. by rewrite app_assoc. Qed.
Lemma ran_buffer {D} (s s' : tool D) l b : ran s l b s' -> t_buffer s' = b.
Proof. by intros (d & ->). Qed.
Lemma ran_trace {D} (s s' : tool D) l b : ran s l b s' -> t_trace s' = t_trace s ++ l.
Proof. by intros (d & ->). Qed.

(** What the system promises: no call moves more than was asked for. *)
Class Honest (D : Type) `{Posix D} : Prop := {
  write_most : forall fd data d, (px_call (P_write fd data) d).1 <= len data;
  read_most : forall fd n d, (px_fill (F_read fd n) d).1.1 <= n;
  clock_int : forall d, (px_call P_clock_gettime d).1 < 2147483648 /\ -2147483648 <= (px_call P_clock_gettime d).1;
  read_data : forall fd n d, len (px_fill (F_read fd n) d).1.2 = Z.max 0 (px_fill (F_read fd n) d).1.1;
}.

Section Tools.
Context {D : Type} `{Honest D}.
Implicit Types (s : tool D).

Lemma wp_posix c (Q : Z -> tool D -> Prop) s :
  (forall d s', ran s [PE_call c (px_call c d).1] (t_buffer s) s' -> Q (px_call c d).1 s') -> wp (posix c) Q s.
Proof.
  intros HQ. apply wp_intro. specialize (HQ (t_env s)). unfold posix. destruct (px_call c (t_env s)) as [v d].
  apply HQ. by exists d.
Qed.
Lemma wp_posix_ c (Q : unit -> tool D -> Prop) s :
  (forall v s', ran s [PE_call c v] (t_buffer s) s' -> Q tt s') -> wp (posix_ c) Q s.
Proof. intros HQ. apply wp_bind, wp_posix. intros d s' P. eapply wp_ret, HQ, P. Qed.
Lemma wp_posix_fill c (Q : Z * list Z -> tool D -> Prop) s :
  (forall d s', let r := (px_fill c d).1 in ran s [PE_fill c r.1 r.2] (t_buffer s) s' -> Q r s') -> wp (posix_fill c) Q s.
Proof.
  intros HQ. apply wp_intro. specialize (HQ (t_env s)). unfold posix_fill. destruct (px_fill c (t_env s)) as [[v l] d].
  apply HQ. by exists d.
Qed.

Lemma wp_seek fd offset (Q : bool -> tool D -> Prop) s :
  (forall l s', ran s l (t_buffer s) s' -> sought fd offset l -> Q true s') ->
  (forall v s', offset <> 0 -> ran s [PE_call (P_lseek fd offset) v] (t_buffer s) s' -> Q false s') ->
  wp (seek fd offset) Q s.
Proof.
  intros Ht Hf. unfold seek, nz. destruct (Z.eqb_spec offset 0) as [->|Ho]; cbn [negb].
  { apply wp_ret. eapply Ht; [apply ran_refl|by left]. }
  apply wp_bind, wp_posix. intros d s1 P1. apply wp_ret. destruct (Z.eqb_spec (px_call (P_lseek fd offset) d).1 offset) as [E|E].
  - eapply Ht; [exact P1|]. right. rewrite E. eauto.
  - by eapply Hf, P1.
Qed.

(** A seek that failed moves nothing. *)
Lemma moved_unsought bytes fd offset n v :
  offset <> 0 -> n <> 0 -> (forall v, bytes fd (PE_call (P_lseek fd offset) v) = []) ->
  moved bytes fd offset n [] [PE_call (P_lseek fd offset) v].
Proof.
  intros Ho Hn Hb. constructor; [|done..|].
  - intros pos _. cbn. by rewrite Hb.
  - intros f Hf. repeat constructor. cbn. by apply Is_true_true, negb_true_iff, Z.eqb_neq.
Qed.

Lemma chunk_min size count : 0 <= count -> count < size -> size < 2 ^ 63 -> chunk size count = Z.min (size - count) RW_MAX_SIZE.
Proof. intros. unfold chunk. by rewrite u64_small by lia. Qed.

Lemma apart_other fd f : f <> fd -> negb (fd =? f) = true.
Proof. intros. by apply negb_true_iff, Z.eqb_neq. Qed.

Lemma wp_write_loop fuel fd size count offset (Q : option Z -> tool D -> Prop) s :
  0 <= count <= size -> size < 2 ^ 63 -> 0 <= offset -> offset + (size - count) < 2 ^ 63 ->
  size - count <= Z.of_nat fuel * RW_MAX_SIZE -> size <= len (t_buffer s) ->
  (forall r k l s', ran s l (t_buffer s) s' -> 0 <= k <= size - count -> r = count + k \/ r = - EIO ->
     moved bytes_out fd offset (size - count) (take (Z.to_nat k) (drop (Z.to_nat count) (t_buffer s))) l -> Q (Some r) s') ->
  wp (write_loop fuel fd size count offset) Q s.
Proof.
  revert count offset Q s. induction fuel as [|fuel IH]; intros count offset Q s Hc Hs Ho Hos Hf Hb HQ; cbn [write_loop].
  all: destruct (Z.ltb_spec count size) as [Hlt|Hge]; [|apply wp_ret; rewrite s64_small by lia;
    eapply (HQ _ 0); [apply ran_refl|lia|lia|apply moved_nil; lia]].
  { cbn in Hf. lia. }
  cbv zeta. rewrite chunk_min by lia. set (n := Z.min (size - count) RW_MAX_SIZE).
  assert (0 < n <= size - count) as Hn by (unfold n, RW_MAX_SIZE; lia).
  apply wp_bind, wp_seek; [|intros v s1 Hne P; cbn [negb]; apply wp_ret; eapply (HQ _ 0); [exact P|lia|by right|apply moved_unsought; [done|lia|done]]].
  intros l1 s1 P1 Hl1. cbn [negb]. apply wp_bind, wp_gets, wp_bind, wp_posix. intros d s2 P2. rewrite (ran_buffer _ _ _ _ P1) in *.
  set (data := take _ _) in *. pose proof (write_most fd data d) as Hv. set (v := (px_call _ d).1) in *.
  assert (len data = n) as Hd by (unfold data; rewrite length_take, length_drop; lia). rewrite Hd in Hv.
  pose proof (ran_trans _ _ _ _ _ _ _ P1 P2) as P.
  assert (forall m, 0 < m -> moved bytes_out fd offset m (take (Z.to_nat v) (drop (Z.to_nat count) (t_buffer s))) (l1 ++ [PE_call (P_write fd data) v])) as Hmv.
  { intros m Hm. replace (take (Z.to_nat v) (drop _ _)) with (bytes_out fd (PE_call (P_write fd data) v)).
    - apply moved_round; [done..| |done]. intros f Hne. cbn. by rewrite apart_other.
    - cbn. rewrite Z.eqb_refl. unfold data. rewrite take_take. f_equal. lia. }
  destruct (Z.ltb_spec v 0) as [Hv0|Hv0].
  { apply wp_ret. eapply (HQ _ 0); [exact P|lia|by right|]. replace (Z.to_nat 0) with (Z.to_nat v) by lia. apply Hmv. lia. }
  rewrite (u64_small (count + v)) by lia. destruct (Z.eqb_spec v n) as [Hvn|Hvn]; cbn [negb].
  2: { apply wp_ret. rewrite s64_small by lia. eapply (HQ _ v); [exact P|lia|by left|]. apply Hmv. lia. }
  rewrite s64_small by lia. rewrite Hvn in *. apply IH; [lia..|unfold n, RW_MAX_SIZE in *; lia| |].
  { rewrite (ran_buffer _ _ _ _ P). lia. }
  intros r k l s3 P3 Hk Hr Hm. rewrite (ran_buffer _ _ _ _ P) in *.
  eapply (HQ _ (n + k)); [exact (ran_trans _ _ _ _ _ _ _ P P3)|lia|lia|].
  replace (size - count) with (n + (size - (count + n))) by lia.
  replace (take (Z.to_nat (n + k)) _) with
    (take (Z.to_nat n) (drop (Z.to_nat count) (t_buffer s)) ++ take (Z.to_nat k) (drop (Z.to_nat (count + n)) (t_buffer s))).
  - apply moved_app; [lia|rewrite length_take, length_drop; lia|unfold n; lia|lia|lia|apply Hmv; lia|].
    rewrite length_take, length_drop. replace (Z.of_nat (Z.to_nat n `min` _)) with n by lia. exact Hm.
  - rewrite (Z2Nat.inj_add n k) by lia. rewrite <- take_take_drop. f_equal. rewrite drop_drop. do 2 f_equal. lia.
Qed.

(** The buffer [b] with [data] at [at_]. *)
Definition with_data (b : list Z) (at_ : Z) (data : list Z) : list Z :=
  take (Z.to_nat at_) b ++ data ++ drop (Z.to_nat at_ + length data) b.

Lemma length_with_data b at_ data : 0 <= at_ -> at_ + len data <= len b -> length (with_data b at_ data) = length b.
Proof. intros. unfold with_data. rewrite !length_app, length_take, length_drop. lia. Qed.
Lemma with_data_nil b at_ : with_data b at_ [] = b.
Proof. unfold with_data. cbn. by rewrite Nat.add_0_r, take_drop. Qed.
Lemma with_data_app b at_ d1 d2 :
  0 <= at_ -> at_ + len d1 <= len b -> with_data (with_data b at_ d1) (at_ + len d1) d2 = with_data b at_ (d1 ++ d2).
Proof.
  intros H1 H2. unfold with_data at 1 3. rewrite Z2Nat.inj_add, Nat2Z.id by lia.
  assert (length (take (Z.to_nat at_) b ++ d1) = Z.to_nat at_ + length d1)%nat as Hl by (rewrite length_app, length_take; lia).
  unfold with_data. rewrite (app_assoc _ d1), take_app_length' by lia. rewrite drop_app_ge by lia. rewrite drop_drop, Hl.
  rewrite <- !app_assoc, length_app. do 3 f_equal. f_equal. lia.
Qed.
Lemma with_data_start b data : with_data b 0 data = data ++ drop (length data) b.
Proof. done. Qed.

Lemma wp_read_loop fuel fd size count offset (Q : option Z -> tool D -> Prop) s :
  0 <= count <= size -> size < 2 ^ 63 -> 0 <= offset -> offset + (size - count) < 2 ^ 63 ->
  size - count <= Z.of_nat fuel * RW_MAX_SIZE -> size <= len (t_buffer s) ->
  (forall r data l s', ran s l (with_data (t_buffer s) count data) s' -> len data <= size - count ->
     r = count + len data \/ r = - EIO -> moved bytes_in fd offset (size - count) data l -> Q (Some r) s') ->
  wp (read_loop fuel fd size count offset) Q s.
Proof.
  revert count offset Q s. induction fuel as [|fuel IH]; intros count offset Q s Hc Hs Ho Hos Hf Hb HQ; cbn [read_loop].
  all: destruct (Z.ltb_spec count size) as [Hlt|Hge]; [|apply wp_ret; rewrite s64_small by lia;
    eapply (HQ _ []); [rewrite with_data_nil; apply ran_refl|cbn; lia|cbn; lia|apply moved_nil; lia]].
  { cbn in Hf. lia. }
  cbv zeta. rewrite chunk_min by lia. set (n := Z.min (size - count) RW_MAX_SIZE).
  assert (0 < n <= size - count) as Hn by (unfold n, RW_MAX_SIZE; lia).
  apply wp_bind, wp_seek; [|intros v s1 Hne P; cbn [negb]; apply wp_ret;
    eapply (HQ _ []); [rewrite with_data_nil; exact P|cbn; lia|by right|apply moved_unsought; [done|lia|done]]].
  intros l1 s1 P1 Hl1. cbn [negb]. apply wp_bind, wp_posix_fill. intros d s2. pose proof (read_most fd n d) as Hv.
  pose proof (read_data fd n d) as Hd. destruct (px_fill (F_read fd n) d).1 as [v data]. cbn [fst snd] in *. intros P2.
  rewrite (ran_buffer _ _ _ _ P1) in P2. pose proof (ran_trans _ _ _ _ _ _ _ P1 P2) as P.
  assert (forall m, 0 < m -> moved bytes_in fd offset m data (l1 ++ [PE_fill (F_read fd n) v data])) as Hmv.
  { intros m Hm. replace data with (bytes_in fd (PE_fill (F_read fd n) v data)) at 1 by (cbn; by rewrite Z.eqb_refl).
    apply moved_round; [done..| |done]. intros f Hne. cbn. by rewrite apart_other. }
  destruct (Z.ltb_spec v 0) as [Hv0|Hv0].
  { apply wp_ret. destruct data; [|cbn in Hd; lia]. eapply (HQ _ []); [rewrite with_data_nil; exact P|cbn; lia|by right|by apply Hmv; lia]. }
  apply wp_bind. unfold store. apply wp_modify.
  assert (ran s (l1 ++ [PE_fill (F_read fd n) v data]) (with_data (t_buffer s) count data)
            (s2 <| t_buffer ::= fun b => take (Z.to_nat count) b ++ data ++ drop (Z.to_nat count + length data) b |>)) as P3
    by (destruct P as (d' & ->); by exists d').
  rewrite (u64_small (count + v)) by lia. destruct (Z.eqb_spec v n) as [Hvn|Hvn]; cbn [negb].
  2: { apply wp_ret. rewrite s64_small by lia. eapply (HQ _ data); [exact P3|lia|left; lia|]. apply Hmv. lia. }
  rewrite s64_small by lia. apply IH; [lia..|unfold n, RW_MAX_SIZE in *; lia| |].
  { rewrite (ran_buffer _ _ _ _ P3), length_with_data; lia. }
  intros r data' l s3 P4 Hk Hr Hm. rewrite (ran_buffer _ _ _ _ P3) in P4. replace (count + v) with (count + len data) in * by lia.
  rewrite with_data_app in P4 by lia.
  eapply (HQ _ (data ++ data')); [exact (ran_trans _ _ _ _ _ _ _ P3 P4)|rewrite length_app; lia|rewrite length_app; lia|].
  replace (size - count) with (n + (size - (count + len data))) by lia.
  apply moved_app; [lia|lia|unfold n; lia|lia|lia|apply Hmv; lia|]. by replace (offset + len data) with (offset + n) by lia.
Qed.

Variable unset : Z.
Variable fresh : Z -> list Z.
Variables O_RDWR O_RDONLY O_CREAT O_TRUNC O_SYNC IOCTL_XDMA_APERTURE_W : Z.

Lemma wp_clock (Q : Z * (Z * Z) -> tool D -> Prop) s :
  (forall rc t l s', ran s l (t_buffer s) s' -> calm l -> -2147483648 <= rc < 2147483648 -> Q (rc, t) s') -> wp clock Q s.
Proof.
  intros HQ. unfold clock. apply wp_bind, wp_posix. intros d s1 P1. apply wp_bind, wp_posix. intros d2 s2 P2.
  apply wp_bind, wp_posix. intros d3 s3 P3. apply wp_ret. rewrite (ran_buffer _ _ _ _ P2), (ran_buffer _ _ _ _ P1) in *.
  eapply HQ; [exact (ran_trans _ _ _ _ _ _ _ P1 (ran_trans _ _ _ _ _ _ _ P2 P3))|by repeat constructor|].
  pose proof (clock_int d). lia.
Qed.

Lemma rounds_enough size : 0 <= size -> size - 0 <= Z.of_nat (rounds size) * RW_MAX_SIZE.
Proof.
  intros. unfold rounds. pose proof (Z.div_mod size RW_MAX_SIZE ltac:(done)). pose proof (Z.mod_pos_bound size RW_MAX_SIZE ltac:(done)).
  pose proof (Z.div_pos size RW_MAX_SIZE ltac:(done) ltac:(done)). unfold RW_MAX_SIZE in *. lia.
Qed.

Lemma wp_write_from_buffer fd size base (Q : option Z -> tool D -> Prop) s :
  0 <= size -> 0 <= base -> base + size < 2 ^ 63 -> size <= len (t_buffer s) ->
  (forall r k l s', ran s l (t_buffer s) s' -> 0 <= k <= size -> r = k \/ r = - EIO ->
     moved bytes_out fd base size (take (Z.to_nat k) (t_buffer s)) l -> Q (Some r) s') ->
  wp (write_from_buffer fd size base) Q s.
Proof.
  intros H1 H2 H3 H4 HQ. unfold write_from_buffer. rewrite s64_small by lia.
  apply wp_write_loop; [lia..|by apply rounds_enough|done|]. intros r k l s' P Hk Hr Hm. rewrite Z.sub_0_r in *. by eapply HQ.
Qed.

Lemma wp_read_to_buffer fd size base (Q : option Z -> tool D -> Prop) s :
  0 <= size -> 0 <= base -> base + size < 2 ^ 63 -> size <= len (t_buffer s) ->
  (forall r data l s', ran s l (with_data (t_buffer s) 0 data) s' -> len data <= size -> r = len data \/ r = - EIO ->
     moved bytes_in fd base size data l -> Q (Some r) s') ->
  wp (read_to_buffer fd size base) Q s.
Proof.
  intros H1 H2 H3 H4 HQ. unfold read_to_buffer. rewrite s64_small by lia.
  apply wp_read_loop; [lia..|by apply rounds_enough|done|]. intros r data l s' P Hk Hr Hm. rewrite Z.sub_0_r in *. by eapply HQ.
Qed.

(** Bytes at an address, again and again. *)
Definition copies (n : nat) (l : list (Z * Z)) : list (Z * Z) := mjoin (replicate n l).

(** The options of a plain transfer. *)
Record plain (o : options) : Prop := {
  pl_aperture : o_aperture o = 0;
  pl_size : 0 <= o_size o < 2 ^ 63 - 4096;
  pl_offset : 0 <= o_offset o < 4096;
  pl_address : 0 <= o_address o;
  pl_end : o_address o + o_size o < 2 ^ 63;
  pl_seeks : 0 < o_address o \/ o_size o <= RW_MAX_SIZE;
}.

Lemma apart_calm f l : calm l -> Forall (fun e => apart f e) l.
Proof. done. Qed.

Lemma wp_to_device_loop n fd allocated o rc oo time uf (Q : option (Z * bool) -> tool D -> Prop) s :
  plain o -> o_size o <= len (t_buffer s) -> -2147483648 <= rc ->
  (forall r uf' l s', ran s l (t_buffer s) s' -> (forall f, f <> fd -> Forall (fun e => apart f e) l) ->
     -2147483648 <= r ->
     (0 <= r -> uf' = false -> uf = false /\ forall pos, (o_address o = 0 -> pos = 0) ->
        landed fd pos l = copies n (place (o_address o) (take (Z.to_nat (o_size o)) (t_buffer s)))) -> Q (Some (r, uf')) s') ->
  wp (to_device_loop unset IOCTL_XDMA_APERTURE_W n fd (-1) allocated o rc oo time uf) Q s.
Proof.
  intros Ho. revert rc oo time uf Q s. induction n as [|n IH]; intros rc oo time uf Q s Hb Hrc HQ; cbn [to_device_loop].
  { apply wp_bind. destruct uf.
    - apply wp_ret, wp_ret. eapply HQ; [apply ran_refl|done|lia|done].
    - apply wp_posix_. intros v s1 P. apply wp_ret. eapply HQ; [exact P|intros; by repeat constructor|lia|done]. }
  apply wp_bind, wp_clock. intros rc0 t0 l0 s0 P0 C0 _. apply wp_bind. unfold to_device_transfer.
  destruct Ho as [Ha Hs Hof Had He Hk]. rewrite Ha. cbn [nz Z.eqb negb].
  apply wp_bind, wp_write_from_buffer; [lia..|by rewrite (ran_buffer _ _ _ _ P0)|]. intros r k l1 s1 P1 Hk1 Hr M. apply wp_ret.
  rewrite (ran_buffer _ _ _ _ P0) in *. pose proof (ran_trans _ _ _ _ _ _ _ P0 P1) as P.
  assert (forall f, f <> fd -> Forall (fun e => apart f e) (l0 ++ l1)) as Hap by (intros; apply Forall_app; split; [done|by apply M]).
  destruct (Z.ltb_spec r 0) as [Hr0|Hr0].
  { apply wp_ret. eapply HQ; [exact P|done|unfold EIO in *; lia|lia]. }
  apply wp_bind, wp_clock. intros rc1 t1 l2 s2 P2 C2 Hrc1. rewrite (ran_buffer _ _ _ _ P) in P2. cbv zeta.
  unfold save_output. cbn [Z.leb Z.compare]. apply wp_bind, wp_ret.
  apply IH; [by rewrite (ran_buffer _ _ _ _ P2)|lia|]. intros r' uf' l3 s3 P3 Hap3 Hr' Hl. rewrite (ran_buffer _ _ _ _ P2) in *.
  eapply HQ; [exact (ran_trans _ _ _ _ _ _ _ P (ran_trans _ _ _ _ _ _ _ P2 P3))| |done|].
  - intros f Hf. apply Forall_app. split; [auto|]. apply Forall_app. split; [done|auto].
  - intros H1 H2. destruct (Hl H1 H2) as [Huf Hpos]. apply orb_false_iff in Huf as [Huf Hlt%Z.ltb_ge]. split; [done|].
    intros pos Hp. unfold landed. rewrite !moving_app.
    rewrite (apart_moving _ _ _ l0), (apart_left _ _ l0) by (done || apply apart_out). rewrite (mv_bytes _ _ _ _ _ _ M) by done.
    rewrite (apart_moving _ _ _ l2), (apart_left _ _ l2) by (done || apply apart_out). cbn [app].
    replace k with (o_size o) by (unfold EIO in *; lia). unfold copies. cbn [replicate]. rewrite mjoin_cons. f_equal. apply Hpos.
    intros Hz. rewrite left_at_app, (apart_left _ _ l0) by done. rewrite (mv_left _ _ _ _ _ _ M) by (done || lia). auto.
Qed.

(** A transfer from the input file that ends with [r]: what the device took. *)
Definition sent (o : options) (dev inp r : Z) (l : list pevent) : Prop :=
  r = 0 -> dev <> inp ->
  exists data, fetched inp 0 l = place 0 data
  /\ (len data = o_size o /\ landed dev 0 l = copies (Z.to_nat (o_count o)) (place (o_address o) data)
      \/ len data < o_size o /\ landed dev 0 l = []).

Lemma sent_calm o dev inp r l1 l2 l3 : calm l1 -> calm l3 -> sent o dev inp r l2 -> sent o dev inp r (l1 ++ l2 ++ l3).
Proof.
  intros C1 C3 Hs Hr Hne. destruct (Hs Hr Hne) as (data & Hf & Hl). exists data. unfold fetched, landed in *.
  rewrite !moving_app, !(apart_moving _ _ _ l1), !(apart_left _ _ l1), !(apart_moving _ _ _ l3)
    by (done || apply apart_in || apply apart_out).
  by rewrite !app_nil_r.
Qed.

Lemma wp_close_if fd (Q : unit -> tool D -> Prop) s :
  (forall l s', ran s l (t_buffer s) s' -> calm l -> Q tt s') -> wp (close_if fd) Q s.
Proof.
  intros HQ. unfold close_if. destruct (0 <=? fd).
  - apply wp_posix_. intros v s1 P. by eapply HQ; [exact P|repeat constructor].
  - apply wp_ret. by eapply HQ; [apply ran_refl|constructor].
Qed.

Definition out_code (rc : Z) (uf : bool) : Z := if rc <? 0 then s32 rc else if uf then - EIO else 0.
Lemma out_code_0 rc uf : -2147483648 <= rc -> out_code rc uf = 0 -> 0 <= rc /\ uf = false.
Proof.
  unfold out_code. intros Hrc. destruct (Z.ltb_spec rc 0); [|by destruct uf]. rewrite s32_small by lia. lia.
Qed.

Lemma calm_app l1 l2 : calm l1 -> calm l2 -> calm (l1 ++ l2).
Proof. intros H1 H2 f. by apply Forall_app. Qed.

Lemma wp_to_device_out dev inp out allocated rc uf (Q : option Z -> tool D -> Prop) s :
  (forall l s', ran s l (t_buffer s) s' -> calm l -> Q (Some (out_code rc uf)) s') ->
  wp (to_device_out dev inp out allocated (Some (rc, uf))) Q s.
Proof.
  intros HQ. unfold to_device_out. apply wp_bind, wp_posix_. intros v s1 P1. apply wp_bind, wp_close_if. intros l2 s2 P2 C2.
  apply wp_bind, wp_close_if. intros l3 s3 P3 C3. apply wp_bind, wp_posix_. intros v4 s4 P4. apply wp_ret.
  pose proof (ran_trans _ _ _ _ _ _ _ P1 P2) as P. rewrite (ran_buffer _ _ _ _ P1) in *.
  pose proof (ran_trans _ _ _ _ _ _ _ P P3) as P'. rewrite (ran_buffer _ _ _ _ P) in *. rewrite (ran_buffer _ _ _ _ P') in *.
  eapply HQ; [exact (ran_trans _ _ _ _ _ _ _ P' P4)|]. repeat apply calm_app; try done; by repeat constructor.
Qed.

(** The rounds and the end of [test_dma]. *)
Lemma wp_to_device_body dev inp allocated o (Q : option Z -> tool D -> Prop) s :
  plain o -> o_size o <= len (t_buffer s) -> 0 <= inp ->
  (forall r l b s', ran s l b s' -> sent o dev inp r l -> Q (Some r) s') ->
  wp (l ← load_input unset inp (o_size o);
      r ← (match l with
           | None => mret None
           | Some (inl rc) => mret (Some (rc, false))
           | Some (inr rc) =>
               to_device_loop unset IOCTL_XDMA_APERTURE_W (Z.to_nat (o_count o)) dev (-1) allocated o rc 0 0 false
           end);
      to_device_out dev inp (-1) allocated r) Q s.
Proof.
  intros Ho Hb Hi HQ. pose proof (pl_size _ Ho). apply wp_bind. unfold load_input. rewrite (proj2 (Z.leb_le _ _) Hi).
  apply wp_bind, wp_read_to_buffer; [lia..|]. intros r data l1 s1 P1 Hd Hr M. apply wp_ret, wp_bind.
  assert (forall l3, dev <> inp -> Forall (fun e => apart inp e) l3 -> fetched inp 0 (l1 ++ l3) = place 0 data) as Hf.
  { intros l3 Hne Ha. unfold fetched. rewrite moving_app, (mv_bytes _ _ _ _ _ _ M) by done.
    rewrite (apart_moving _ _ _ l3) by (done || apply apart_in). by rewrite app_nil_r. }
  assert (forall l3, dev <> inp -> landed dev 0 (l1 ++ l3) = landed dev 0 l3) as Hl.
  { intros l3 Hne. unfold landed. rewrite moving_app, (apart_moving _ _ _ l1), (apart_left _ _ l1); [done|by apply M|apply apart_out|by apply M]. }
  destruct ((r <? 0) || (r <? o_size o)) eqn:Hs.
  { apply wp_ret, wp_to_device_out. intros l3 s3 P3 C3. eapply HQ; [exact (ran_trans _ _ _ _ _ _ _ P1 P3)|].
    intros Hc Hne. apply out_code_0 in Hc as [Hr0 _]; [|unfold EIO in *; lia]. exists data. split; [by apply Hf|]. right.
    apply orb_true_iff in Hs as [?%Z.ltb_lt|?%Z.ltb_lt]; [lia|]. split; [unfold EIO in *; lia|]. rewrite Hl by done.
    unfold landed. apply apart_moving; [apply apart_out|done]. }
  apply orb_false_iff in Hs as [Hr0%Z.ltb_ge Hrs%Z.ltb_ge].
  apply wp_to_device_loop; [done| |unfold EIO in *; lia|].
  { rewrite (ran_buffer _ _ _ _ P1), length_with_data; lia. }
  intros r' uf' l2 s2 P2 Ha2 Hr' Hn. apply wp_to_device_out. intros l3 s3 P3 C3. rewrite (ran_buffer _ _ _ _ P1) in *.
  eapply HQ; [exact (ran_trans _ _ _ _ _ _ _ P1 (ran_trans _ _ _ _ _ _ _ P2 P3))|].
  intros Hc Hne. apply out_code_0 in Hc as [Hc1 Hc2]; [|done]. destruct (Hn Hc1 Hc2) as [_ Hn']. exists data.
  split; [apply Hf; [done|]; apply Forall_app; split; [by apply Ha2|done]|]. left. split; [unfold EIO in *; lia|].
  rewrite Hl by done. unfold landed in *. rewrite moving_app, Hn' by done. rewrite (apart_moving _ _ _ l3) by (done || apply apart_out).
  rewrite app_nil_r, with_data_start. replace (Z.to_nat (o_size o)) with (length data) by (unfold EIO in *; lia).
  by rewrite take_app_length.
Qed.

(** The descriptor a name was first opened with. *)
Definition opened (name : list Z) (l : list pevent) : Z :=
  default (-1) (head (omap (fun e =>
    match e with PE_call (P_open f _) v => if bool_decide (f = name) then Some v else None | _ => None end) l)).

Lemma opened_two n1 n2 f1 f2 v1 v2 l :
  let l' := PE_call (P_open n1 f1) v1 :: PE_call (P_open n2 f2) v2 :: l in
  opened n1 l' = v1 /\ (opened n1 l' <> opened n2 l' -> opened n2 l' = v2).
Proof.
  unfold opened. cbn [omap list_omap]. rewrite bool_decide_eq_true_2 by done. cbn [head default from_option]. split; [done|].
  destruct (bool_decide (n1 = n2)); [done|]. by rewrite bool_decide_eq_true_2.
Qed.

Lemma wp_alloc_buffer o (Q : Z -> tool D -> Prop) s :
  plain o -> (forall n, length (fresh n) = Z.to_nat n) ->
  (forall p b s', ran s [PE_call (P_memalign (u64 (o_size o + 4096))) p] b s' -> (nz p = true -> o_size o <= len b) -> Q p s') ->
  wp (alloc_buffer fresh (o_size o) (o_offset o)) Q s.
Proof.
  intros [_ Hs Ho _ _ _] Hf HQ. unfold alloc_buffer. apply wp_bind, wp_posix. intros d s1 P. apply wp_bind.
  destruct (nz _) eqn:Hp.
  - apply wp_modify, wp_ret. eapply HQ; [destruct P as (d' & ->); by exists d'|]. intros _.
    rewrite length_drop, Hf, u64_small by lia. lia.
  - apply wp_ret, wp_ret. eapply HQ; [exact P|congruence].
Qed.

(** C12 [dma_to_device] with an input file, without an output file or an aperture, for an
    offset below 4096, a size below 2^63 - 4096 that ends below 2^63, and either an address
    other than 0 or a size of at most 0x7ffff000 bytes (at address 0 the tool does not seek,
    and a size that takes several calls per round goes wrong).  When it ends with 0, one of
    two things happened, for any order of short reads and writes: the input file gave the
    [size] bytes asked for, and the device took exactly these bytes, at the given address,
    as often as [count] says; or the input file was too short and the device took nothing,
    although the tool promises that all bytes were transferred.  The tool always ends. *)
Theorem dma_to_device_sends o inf s :
  plain o -> o_infname o = Some inf -> o_ofname o = None -> (forall n, length (fresh n) = Z.to_nat n) ->
  exists r s' l,
    to_device_test_dma unset fresh O_RDWR O_RDONLY O_CREAT O_TRUNC O_SYNC IOCTL_XDMA_APERTURE_W o s = (Some r, s')
    /\ t_trace s' = t_trace s ++ l /\ sent o (opened (o_device o) l) (opened inf l) r l.
Proof.
  intros Ho Hi Hw Hfresh.
  enough (wp (to_device_test_dma unset fresh O_RDWR O_RDONLY O_CREAT O_TRUNC O_SYNC IOCTL_XDMA_APERTURE_W o)
    (fun r s' => exists v l b, r = Some v /\ ran s l b s' /\ sent o (opened (o_device o) l) (opened inf l) v l) s) as Hwp.
  { destruct (to_device_test_dma _ _ _ _ _ _ _ _ _ s) as [r s'] eqn:E. apply (wp_result _ _ _ _ _ E) in Hwp.
    destruct Hwp as (v & l & b & -> & P & Hs). exists v, s', l. by rewrite (ran_trace _ _ _ _ P). }
  unfold to_device_test_dma. apply wp_bind, wp_posix. intros d s1 P1. set (dev := (px_call _ d).1) in *.
  destruct (Z.ltb_spec dev 0) as [Hdev|Hdev].
  { apply wp_ret. eexists _, _, _. split_and!; [done|exact P1|]. intros Hr. by unfold EINVAL in Hr. }
  rewrite Hi, Hw. cbn [open_file]. apply wp_bind, wp_bind, wp_posix. intros d2 s2 P2. apply wp_ret.
  rewrite (ran_buffer _ _ _ _ P1) in P2. pose proof (ran_trans _ _ _ _ _ _ _ P1 P2) as P. cbn [app] in P.
  set (inp := (px_call _ d2).1) in *. destruct (Z.ltb_spec inp 0) as [Hinp|Hinp].
  { apply wp_to_device_out. intros l s3 P3 C3. eexists _, _, _. split_and!; [done|exact (ran_trans _ _ _ _ _ _ _ P P3)|].
    intros Hr. by unfold out_code, EINVAL in Hr. }
  apply wp_bind, wp_ret, wp_bind, wp_alloc_buffer; [done..|]. intros p b s3 P3 Hb.
  pose proof (ran_trans _ _ _ _ _ _ _ P P3) as P'. destruct (nz p); cbn [negb].
  2: { apply wp_to_device_out. intros l s4 P4 C4. eexists _, _, _. split_and!; [done|exact (ran_trans _ _ _ _ _ _ _ P' P4)|].
       intros Hr. by unfold out_code, ENOMEM in Hr. }
  apply wp_to_device_body; [done|rewrite (ran_buffer _ _ _ _ P'); auto|done|].
  intros r l b' s5 P5 Hsent. eexists _, _, _. split_and!; [done|exact (ran_trans _ _ _ _ _ _ _ P' P5)|].
  destruct (opened_two (o_device o) inf O_RDWR O_RDONLY dev inp (PE_call (P_memalign (u64 (o_size o + 4096))) p :: l)) as [E1 E2].
  intros Hr Hne. cbn [app] in *. specialize (E2 Hne). rewrite E1, E2 in *. rewrite <- (app_nil_r l).
  by apply (sent_calm o dev inp r [_; _; _] l []); [repeat constructor|constructor|..].
Qed.

(** ** [dma_from_device] *)
Variable IOCTL_XDMA_APERTURE_R : Z.

(** The rounds put [datas] into the buffer, one after the other, and write each to the
    output file, from [oo] on. *)
Definition saved (o : options) (dev out n oo : Z) (uf : bool) (datas : list (list Z)) (l : list pevent) : Prop :=
  Forall (fun d => len d <= o_size o) datas
  /\ (forall pos, (o_address o = 0 -> pos = 0) -> fetched dev pos l = mjoin (place (o_address o) <$> datas))
  /\ ((len datas = n /\ uf = false /\ Forall (fun d => len d = o_size o) datas
       /\ forall pos, (oo = 0 -> pos = 0) -> landed out pos l = place oo (mjoin datas))
      \/ exists before last, datas = before ++ [last] /\ last <> []
          /\ forall pos, (oo = 0 -> pos = 0) -> landed out pos l = place oo (mjoin before)).

Lemma saved_calm o dev out n oo uf datas l1 l2 l3 :
  calm l1 -> calm l3 -> saved o dev out n oo uf datas l2 -> saved o dev out n oo uf datas (l1 ++ l2 ++ l3).
Proof.
  intros C1 C3 (Hl & Hf & Hs).
  assert (forall pos, fetched dev pos (l1 ++ l2 ++ l3) = fetched dev pos l2) as Ef.
  { intros pos. unfold fetched. rewrite !moving_app, (apart_moving _ _ _ l1), (apart_left _ _ l1), (apart_moving _ _ _ l3)
      by (done || apply apart_in). by rewrite app_nil_r. }
  assert (forall pos, landed out pos (l1 ++ l2 ++ l3) = landed out pos l2) as El.
  { intros pos. unfold landed. rewrite !moving_app, (apart_moving _ _ _ l1), (apart_left _ _ l1), (apart_moving _ _ _ l3)
      by (done || apply apart_out). by rewrite app_nil_r. }
  split; [done|]. split; [intros; rewrite Ef; auto|]. by setoid_rewrite El.
Qed.

(** A round, and what comes after it. *)
Lemma saved_next o dev out n oo uf d datas l0 l1 l2 l3 l4 :
  plain o -> dev <> out -> calm l0 -> calm l2 -> len d <= o_size o ->
  moved bytes_in dev (o_address o) (o_size o) d l1 -> moved bytes_out out oo (len d) d l3 -> 0 <= oo ->
  saved o dev out n (oo + len d) (uf || (len d <? o_size o)) datas l4 -> saved o dev out (n + 1) oo uf (d :: datas) (l0 ++ l1 ++ l2 ++ l3 ++ l4).
Proof.
  intros Ho Hne C0 C2 Hd M1 M3 Hoo (Hl & Hf & Hs).
  assert (forall pos, (o_address o = 0 -> pos = 0) ->
    fetched dev pos (l0 ++ l1 ++ l2 ++ l3 ++ l4) = place (o_address o) d ++ mjoin (place (o_address o) <$> datas)) as Ef.
  { intros pos Hp. unfold fetched in *. rewrite !moving_app, (apart_moving _ _ _ l0), (apart_left _ _ l0), (apart_moving _ _ _ l2),
      (apart_left _ _ l2), (apart_moving _ _ _ l3), (apart_left _ _ l3) by (done || (by apply M3) || apply apart_in).
    rewrite (mv_bytes _ _ _ _ _ _ M1) by done. cbn [app]. f_equal. apply Hf. intros Hz.
    rewrite (mv_left _ _ _ _ _ _ M1) by (done || destruct (pl_seeks _ Ho); lia). auto. }
  assert (forall pos rest, (oo = 0 -> pos = 0) -> (forall pos, (oo + len d = 0 -> pos = 0) -> landed out pos l4 = place (oo + len d) rest) ->
    landed out pos (l0 ++ l1 ++ l2 ++ l3 ++ l4) = place oo (d ++ rest)) as El.
  { intros pos rest Hp Hr. unfold landed in *. rewrite !moving_app, (apart_moving _ _ _ l0), (apart_left _ _ l0), (apart_moving _ _ _ l2),
      (apart_left _ _ l2), (apart_moving _ _ _ l1), (apart_left _ _ l1) by (done || (by apply M1) || apply apart_out).
    rewrite (mv_bytes _ _ _ _ _ _ M3), place_app by done. cbn [app]. f_equal. apply Hr. intros Hz.
    rewrite (mv_none _ _ _ _ _ _ M3) by lia. apply Hp. lia. }
  split; [by constructor|]. split; [done|]. destruct Hs as [(Hn & Huf & Hall & Hs)|(before & last & -> & Hlast & Hs)].
  - left. apply orb_false_iff in Huf as [Huf Hlt%Z.ltb_ge]. split; [cbn [length]; lia|]. split; [done|].
    split; [constructor; [lia|done]|]. intros pos Hp. rewrite mjoin_cons. by apply El.
  - right. exists (d :: before), last. split; [done|]. split; [done|]. intros pos Hp. rewrite mjoin_cons. by apply El.
Qed.


(** A round whose data the output file did not take. *)
Lemma saved_last o dev out n oo uf d l0 l1 l2 l3 k :
  plain o -> dev <> out -> calm l0 -> calm l2 -> len d <= o_size o ->
  moved bytes_in dev (o_address o) (o_size o) d l1 -> moved bytes_out out oo k [] l3 -> d <> [] ->
  saved o dev out n oo uf [d] (l0 ++ l1 ++ l2 ++ l3).
Proof.
  intros Ho Hne C0 C2 Hd M1 M3 Hnil. split; [by constructor|]. split.
  - intros pos Hp. unfold fetched. rewrite !moving_app, (apart_moving _ _ _ l0), (apart_left _ _ l0), (apart_moving _ _ _ l2),
      (apart_moving _ _ _ l3) by (done || (by apply M3) || apply apart_in).
    rewrite (mv_bytes _ _ _ _ _ _ M1) by done. cbn. by rewrite !app_nil_r.
  - right. exists [], d. split; [done|]. split; [done|]. intros pos Hp. unfold landed.
    rewrite !moving_app, (apart_moving _ _ _ l0), (apart_left _ _ l0), (apart_moving _ _ _ l2), (apart_left _ _ l2),
      (apart_moving _ _ _ l1), (apart_left _ _ l1) by (done || (by apply M1) || apply apart_out).
    by rewrite (mv_bytes _ _ _ _ _ _ M3).
Qed.

Lemma wp_save_output out rc n oo (Q : option (Z + Z * Z) -> tool D -> Prop) s :
  0 <= out -> 0 <= n -> 0 <= oo -> oo + n < 2 ^ 63 -> n <= len (t_buffer s) ->
  (forall r l s', ran s l (t_buffer s) s' -> r <> 0 \/ n <> 0 -> - EIO <= r <= n ->
     (r = 0 -> moved bytes_out out oo n [] l) -> Q (Some (inl r)) s') ->
  (forall r l s', ran s l (t_buffer s) s' -> moved bytes_out out oo n (take (Z.to_nat n) (t_buffer s)) l ->
     Q (Some (inr (r, oo + n))) s') ->
  wp (save_output out rc n oo) Q s.
Proof.
  intros Ho Hn Hoo Hb Hl HL HR. unfold save_output. rewrite (proj2 (Z.leb_le _ _) Ho).
  apply wp_bind, wp_write_from_buffer; [lia..|]. intros r k l s' P Hk Hr M. apply wp_ret.
  destruct ((r <? 0) || (r <? n)) eqn:E.
  - apply (HL _ l); [done|apply orb_true_iff in E as [E%Z.ltb_lt|E%Z.ltb_lt]; lia|unfold EIO in *; lia|]. intros ->.
    replace k with 0 in M by (unfold EIO in *; lia). exact M.
  - apply orb_false_iff in E as [E1%Z.ltb_ge E2%Z.ltb_ge]. rewrite u64_small by lia. apply (HR _ l); [done|].
    replace n with k at 2 by (unfold EIO in *; lia). exact M.
Qed.

Lemma wp_from_device_loop n dev out allocated o oo time uf (Q : option Z -> tool D -> Prop) s :
  plain o -> o_eop_flush o = false -> 0 <= out -> 0 <= oo -> oo + Z.of_nat n * o_size o < 2 ^ 63 ->
  o_size o <= len (t_buffer s) ->
  (forall r l b s', ran s l b s' -> - EIO <= r <= o_size o ->
     (r = 0 -> dev <> out -> exists datas, saved o dev out (Z.of_nat n) oo uf datas l) -> Q (Some r) s') ->
  wp (from_device_loop unset IOCTL_XDMA_APERTURE_R n dev out allocated o oo time uf) Q s.
Proof.
  intros Ho Heop Hout. revert oo time uf Q s. induction n as [|n IH]; intros oo time uf Q s Hoo Hend Hb HQ; cbn [from_device_loop].
  { pose proof (pl_size _ Ho). rewrite Heop. destruct uf; cbn [negb].
    - apply wp_ret. eapply HQ; [apply ran_refl|unfold EIO; lia|done].
    - apply wp_bind, wp_posix_. intros v s1 P. apply wp_ret. eapply HQ; [exact P|unfold EIO; lia|]. intros _ _. exists [].
      split; [done|]. split; [done|]. by left. }
  apply wp_bind, wp_clock. intros rc0 t0 l0 s0 P0 C0 _. apply wp_bind. unfold from_device_transfer.
  pose proof Ho as [Ha Hs Hof Had He Hk]. rewrite Ha. cbn [nz Z.eqb negb].
  apply wp_bind, wp_read_to_buffer; [lia..|by rewrite (ran_buffer _ _ _ _ P0)|]. intros r d l1 s1 P1 Hd Hr M1. apply wp_ret.
  rewrite (ran_buffer _ _ _ _ P0) in *. pose proof (ran_trans _ _ _ _ _ _ _ P0 P1) as P.
  destruct (Z.ltb_spec r 0) as [Hr0|Hr0].
  { apply wp_ret. eapply HQ; [exact P|unfold EIO in *; lia|lia]. }
  assert (r = len d) as -> by (unfold EIO in *; lia).
  apply wp_bind, wp_clock. intros rc1 t1 l2 s2 P2 C2 _. rewrite (ran_buffer _ _ _ _ P) in P2. cbv zeta.
  pose proof (ran_trans _ _ _ _ _ _ _ P P2) as P'.
  assert (length (with_data (t_buffer s) 0 d) = length (t_buffer s)) as Hlen by (apply length_with_data; lia).
  apply wp_bind, wp_save_output; [done|lia|lia|nia|rewrite (ran_buffer _ _ _ _ P2), Hlen; lia| |]; rewrite (ran_buffer _ _ _ _ P2).
  - intros r l3 s3 P3 Hr3 Hrng M3. apply wp_ret. eapply HQ; [exact (ran_trans _ _ _ _ _ _ _ P' P3)|lia|]. intros -> Hne. exists [d].
    rewrite <- !app_assoc. eapply saved_last; [done..|apply M1|by apply M3|destruct d; [cbn in Hr3; lia|done]].
  - intros r l3 s3 P3 M3. rewrite Nat2Z.id, with_data_start, take_app_length in M3. rewrite with_data_start in *.
    apply IH; [lia|nia|rewrite (ran_buffer _ _ _ _ P3), Hlen; lia|]. intros r4 l4 b4 s4 P4 Hr4' H4.
    eapply HQ; [exact (ran_trans _ _ _ _ _ _ _ P' (ran_trans _ _ _ _ _ _ _ P3 P4))|done|]. intros Hr4 Hne.
    destruct (H4 Hr4 Hne) as [datas Hsv]. exists (d :: datas). rewrite <- !app_assoc.
    replace (Z.of_nat (S n)) with (Z.of_nat n + 1) by lia. by eapply saved_next.
Qed.

Lemma wp_from_device_out dev out allocated rc (Q : option Z -> tool D -> Prop) s :
  (forall l s', ran s l (t_buffer s) s' -> calm l -> Q (Some (s32 rc)) s') ->
  wp (from_device_out dev out allocated (Some rc)) Q s.
Proof.
  intros HQ. unfold from_device_out. apply wp_bind, wp_posix_. intros v s1 P1. apply wp_bind, wp_close_if. intros l2 s2 P2 C2.
  apply wp_bind, wp_posix_. intros v3 s3 P3. apply wp_ret.
  pose proof (ran_trans _ _ _ _ _ _ _ P1 P2) as P. rewrite (ran_buffer _ _ _ _ P1) in *. rewrite (ran_buffer _ _ _ _ P) in *.
  eapply HQ; [exact (ran_trans _ _ _ _ _ _ _ P P3)|]. repeat apply calm_app; try done; by repeat constructor.
Qed.

(** C13 [dma_from_device] with an output file, without [-e] or an aperture, for an offset
    below 4096, a size below 2 GiB and a [count] of at least 0 whose product is below 2^63,
    an end below 2^63, and either an address other than 0 or a size of at most 0x7ffff000
    bytes.  When it ends with 0 and device and output file are different descriptors, either
    every round read [size] bytes from the given address of the device and the output file
    has the bytes of all rounds, one after the other, from its beginning; or the file took
    nothing of some round's data, which the tool does not report.  The tool always ends. *)
Theorem dma_from_device_saves o name s :
  plain o -> o_eop_flush o = false -> o_ofname o = Some name -> o_size o < 2 ^ 31 ->
  0 <= o_count o -> o_count o * o_size o < 2 ^ 63 -> (forall n, length (fresh n) = Z.to_nat n) ->
  exists r s' l,
    from_device_test_dma unset fresh O_RDWR O_CREAT O_TRUNC O_SYNC IOCTL_XDMA_APERTURE_R o s = (Some r, s')
    /\ t_trace s' = t_trace s ++ l
    /\ let dev := opened (o_device o) l in let out := opened name l in
       (r = 0 -> dev <> out -> exists datas, saved o dev out (o_count o) 0 false datas l).
Proof.
  intros Ho Heop Hname Hsize Hcount Htotal Hfresh. cbv zeta.
  enough (wp (from_device_test_dma unset fresh O_RDWR O_CREAT O_TRUNC O_SYNC IOCTL_XDMA_APERTURE_R o)
    (fun r s' => exists v l b, r = Some v /\ ran s l b s' /\
       (v = 0 -> opened (o_device o) l <> opened name l ->
        exists datas, saved o (opened (o_device o) l) (opened name l) (o_count o) 0 false datas l)) s) as Hwp.
  { destruct (from_device_test_dma _ _ _ _ _ _ _ _ s) as [r s'] eqn:E. apply (wp_result _ _ _ _ _ E) in Hwp.
    destruct Hwp as (v & l & b & -> & P & Hs). exists v, s', l. by rewrite (ran_trace _ _ _ _ P). }
  unfold from_device_test_dma. rewrite Heop. apply wp_bind, wp_posix. intros d s1 P1. set (dev := (px_call _ d).1) in *.
  destruct (Z.ltb_spec dev 0) as [Hdev|Hdev].
  { apply wp_ret. eexists _, _, _. by split_and!; [|exact P1|]. }
  rewrite Hname. cbn [open_file]. apply wp_bind, wp_bind, wp_posix. intros d2 s2 P2. apply wp_ret.
  rewrite (ran_buffer _ _ _ _ P1) in P2. pose proof (ran_trans _ _ _ _ _ _ _ P1 P2) as P. cbn [app] in P.
  set (out := (px_call _ d2).1) in *. destruct (Z.ltb_spec out 0) as [Hout|Hout].
  { apply wp_from_device_out. intros l s3 P3 C3. eexists _, _, _. by split_and!; [|exact (ran_trans _ _ _ _ _ _ _ P P3)|]. }
  apply wp_bind, wp_alloc_buffer; [done..|]. intros p b s3 P3 Hb.
  pose proof (ran_trans _ _ _ _ _ _ _ P P3) as P'. destruct (nz p); cbn [negb].
  2: { apply wp_from_device_out. intros l s4 P4 C4. eexists _, _, _. by split_and!; [|exact (ran_trans _ _ _ _ _ _ _ P' P4)|]. }
  pose proof (pl_size _ Ho).
  apply wp_bind, wp_from_device_loop; [done..|lia|rewrite Z2Nat.id; lia|rewrite (ran_buffer _ _ _ _ P'); auto|].
  intros r l b' s5 P5 Hr Hsv. apply wp_from_device_out. intros l6 s6 P6 C6. eexists _, _, _.
  split_and!; [done|exact (ran_trans _ _ _ _ _ _ _ P' (ran_trans _ _ _ _ _ _ _ P5 P6))|].
  match goal with |- context [opened name (?l1 ++ ?l2)] => destruct (opened_two (o_device o) name O_RDWR
    (Z.lor O_RDWR (Z.lor O_CREAT (Z.lor O_TRUNC O_SYNC))) dev out (drop 2 (l1 ++ l2))) as [E1 E2] end. cbn [app drop] in *.
  rewrite s32_small by (unfold EIO in *; lia). intros Hz Hne. specialize (E2 Hne). rewrite E1, E2 in *.
  destruct (Hsv Hz Hne) as [datas Hd]. rewrite Z2Nat.id in Hd by done. exists datas.
  apply (saved_calm o dev out _ _ _ _ [_; _; _]); [by repeat constructor|done|done].
Qed.
End Tools.

(** ** A system: files of sevens, as long as [n] *)
Definition ex_posix_call (c : pcall) : Z :=
  match c with
  | P_open f _ => if bool_decide (head f = Some 47) then 3 else 4
  | P_lseek _ offset => offset
  | P_write _ data => Z.of_nat (length data)
  | P_memalign _ => 4096
  | _ => 0
  end.
#[export] Instance ex_posix : Posix nat := {|
  px_call c d := (ex_posix_call c, d);
  px_fill c d :=
    match c with
    | F_read _ n => let k := Nat.min d (Z.to_nat n) in (Z.min (Z.of_nat d) n, replicate k 7, d)
    | _ => (0, [], d)
    end |}.
#[export] Instance ex_honest : Honest nat.
Proof.
  constructor.
  - done.
  - intros. cbn. lia.
  - done.
  - intros fd n d. cbn. rewrite length_replicate. lia.
Qed.

Definition ex_opts : list (Z * list Z) :=
  [(opt "a", codes "0x10"); (opt "s", codes "4"); (opt "c", codes "2"); (opt "f", codes "data")].
Definition ex_o : options := default to_device_defaults (parse_opts (to_device_opt 0) ex_opts to_device_defaults).
Definition ex_tool (n : nat) : tool nat := Build_tool n [] [].
Definition ex_fresh (n : Z) : list Z := replicate (Z.to_nat n) 0.

Lemma ex_plain : plain ex_o.
Proof. constructor; vm_compute; intuition discriminate. Qed.
Lemma ex_fresh_length n : length (ex_fresh n) = Z.to_nat n.
Proof. apply length_replicate. Qed.

Lemma dma_to_device_sends_witness :
  plain ex_o /\ ltac:(statement_of (dma_to_device_sends 0 ex_fresh 2 0 64 512 4096 1 ex_o (codes "data") (ex_tool 9)
     ex_plain eq_refl eq_refl ex_fresh_length)).
Proof.
  split; [exact ex_plain|].
  instance_of (dma_to_device_sends 0 ex_fresh 2 0 64 512 4096 1 ex_o (codes "data") (ex_tool 9)
     ex_plain eq_refl eq_refl ex_fresh_length).
Defined.

Definition ex_from : options :=
  default from_device_defaults
    (parse_opts (from_device_opt 0) [(opt "a", codes "16"); (opt "s", codes "4"); (opt "c", codes "2"); (opt "f", codes "out")]
       from_device_defaults).
Lemma ex_from_plain : plain ex_from.
Proof. constructor; vm_compute; intuition discriminate. Qed.
Lemma ex_from_bounds : o_size ex_from < 2 ^ 31 /\ 0 <= o_count ex_from /\ o_count ex_from * o_size ex_from < 2 ^ 63.
Proof. vm_compute. intuition discriminate. Qed.

Lemma dma_from_device_saves_witness :
  plain ex_from /\ ltac:(statement_of (dma_from_device_saves 0 ex_fresh 2 64 512 4096 1 ex_from (codes "out") (ex_tool 9)
     ex_from_plain eq_refl eq_refl (proj1 ex_from_bounds) (proj1 (proj2 ex_from_bounds)) (proj2 (proj2 ex_from_bounds)) ex_fresh_length)).
Proof.
  split; [exact ex_from_plain|].
  instance_of (dma_from_device_saves 0 ex_fresh 2 64 512 4096 1 ex_from (codes "out") (ex_tool 9)
     ex_from_plain eq_refl eq_refl (proj1 ex_from_bounds) (proj1 (proj2 ex_from_bounds)) (proj2 (proj2 ex_from_bounds)) ex_fresh_length).
Defined.
Example ex_save :
  let '(r, s) := from_device_test_dma 0 ex_fresh 2 64 512 4096 1 ex_from (ex_tool 9) in
  (r, landed 4 0 (t_trace s)) = (Some 0, [(0, 7); (1, 7); (2, 7); (3, 7); (4, 7); (5, 7); (6, 7); (7, 7)]).
Proof. by vm_compute. Qed.

(** A file that is long enough, and one that is not: both end with 0. *)
Definition ex_send (n : nat) : option Z * list (Z * Z) :=
  let '(r, s) := dma_to_device 0 ex_fresh 2 0 64 512 4096 1 ex_opts (ex_tool n) in (r, landed 3 0 (t_trace s)).
Example ex_send_all : ex_send 9 = (Some 0, [(16, 7); (17, 7); (18, 7); (19, 7); (16, 7); (17, 7); (18, 7); (19, 7)]).
Proof. vm_compute. done. Qed.
Example ex_send_short : ex_send 3 = (Some 0, []).
Proof. vm_compute. done. Qed.
Example ex_usage : (dma_to_device 0 ex_fresh 2 0 64 512 4096 1 [(opt "z", [])] (ex_tool 9)).1 = Some 0.
Proof. done. Qed.
