(* ===== verification/Hdmi.v ===== *)
(** The HDMI example ([vitis/zybo-hdmi-out/src/helloworld.c]): a frame with three lines
    of text, the timing generator and the DMA that reads the frame. *)
From S2P Require Import Prelude Kernel Bytes Daq.
Local Open Scope Z_scope.

(** ** The font *)
(* @src src/vitis/zybo-hdmi-out/src/font8x8_basic.h:23-152 font8x8_basic *)
Definition font8x8_basic : list (list Z) := [
  [0x00; 0x00; 0x00; 0x00; 0x00; 0x00; 0x00; 0x00];
  [0x00; 0x00; 0x00; 0x00; 0x00; 0x00; 0x00; 0x00];
  [0x00; 0x00; 0x00; 0x00; 0x00; 0x00; 0x00; 0x00];
  [0x00; 0x00; 0x00; 0x00; 0x00; 0x00; 0x00; 0x00];
  [0x00; 0x00; 0x00; 0x00; 0x00; 0x00; 0x00; 0x00];
  [0x00; 0x00; 0x00; 0x00; 0x00; 0x00; 0x00; 0x00];
  [0x00; 0x00; 0x00; 0x00; 0x00; 0x00; 0x00; 0x00];
  [0x00; 0x00; 0x00; 0x00; 0x00; 0x00; 0x00; 0x00];
  [0x00; 0x00; 0x00; 0x00; 0x00; 0x00; 0x00; 0x00];
  [0x00; 0x00; 0x00; 0x00; 0x00; 0x00; 0x00; 0x00];
  [0x00; 0x00; 0x00; 0x00; 0x00; 0x00; 0x00; 0x00];
  [0x00; 0x00; 0x00; 0x00; 0x00; 0x00; 0x00; 0x00];
  [0x00; 0x00; 0x00; 0x00; 0x00; 0x00; 0x00; 0x00];
  [0x00; 0x00; 0x00; 0x00; 0x00; 0x00; 0x00; 0x00];
  [0x00; 0x00; 0x00; 0x00; 0x00; 0x00; 0x00; 0x00];
  [0x00; 0x00; 0x00; 0x00; 0x00; 0x00; 0x00; 0x00];
  [0x00; 0x00; 0x00; 0x00; 0x00; 0x00; 0x00; 0x00];
  [0x00; 0x00; 0x00; 0x00; 0x00; 0x00; 0x00; 0x00];
  [0x00; 0x00; 0x00; 0x00; 0x00; 0x00; 0x00; 0x00];
  [0x00; 0x00; 0x00; 0x00; 0x00; 0x00; 0x00; 0x00];
  [0x00; 0x00; 0x00; 0x00; 0x00; 0x00; 0x00; 0x00];
  [0x00; 0x00; 0x00; 0x00; 0x00; 0x00; 0x00; 0x00];
  [0x00; 0x00; 0x00; 0x00; 0x00; 0x00; 0x00; 0x00];
  [0x00; 0x00; 0x00; 0x00; 0x00; 0x00; 0x00; 0x00];
  [0x00; 0x00; 0x00; 0x00; 0x00; 0x00; 0x00; 0x00];
  [0x00; 0x00; 0x00; 0x00; 0x00; 0x00; 0x00; 0x00];
  [0x00; 0x00; 0x00; 0x00; 0x00; 0x00; 0x00; 0x00];
  [0x00; 0x00; 0x00; 0x00; 0x00; 0x00; 0x00; 0x00];
  [0x00; 0x00; 0x00; 0x00; 0x00; 0x00; 0x00; 0x00];
  [0x00; 0x00; 0x00; 0x00; 0x00; 0x00; 0x00; 0x00];
  [0x00; 0x00; 0x00; 0x00; 0x00; 0x00; 0x00; 0x00];
  [0x00; 0x00; 0x00; 0x00; 0x00; 0x00; 0x00; 0x00];
  [0x00; 0x00; 0x00; 0x00; 0x00; 0x00; 0x00; 0x00];
  [0x18; 0x3C; 0x3C; 0x18; 0x18; 0x00; 0x18; 0x00];
  [0x36; 0x36; 0x00; 0x00; 0x00; 0x00; 0x00; 0x00];
  [0x36; 0x36; 0x7F; 0x36; 0x7F; 0x36; 0x36; 0x00];
  [0x0C; 0x3E; 0x03; 0x1E; 0x30; 0x1F; 0x0C; 0x00];
  [0x00; 0x63; 0x33; 0x18; 0x0C; 0x66; 0x63; 0x00];
  [0x1C; 0x36; 0x1C; 0x6E; 0x3B; 0x33; 0x6E; 0x00];
  [0x06; 0x06; 0x03; 0x00; 0x00; 0x00; 0x00; 0x00];
  [0x18; 0x0C; 0x06; 0x06; 0x06; 0x0C; 0x18; 0x00];
  [0x06; 0x0C; 0x18; 0x18; 0x18; 0x0C; 0x06; 0x00];
  [0x00; 0x66; 0x3C; 0xFF; 0x3C; 0x66; 0x00; 0x00];
  [0x00; 0x0C; 0x0C; 0x3F; 0x0C; 0x0C; 0x00; 0x00];
  [0x00; 0x00; 0x00; 0x00; 0x00; 0x0C; 0x0C; 0x06];
  [0x00; 0x00; 0x00; 0x3F; 0x00; 0x00; 0x00; 0x00];
  [0x00; 0x00; 0x00; 0x00; 0x00; 0x0C; 0x0C; 0x00];
  [0x60; 0x30; 0x18; 0x0C; 0x06; 0x03; 0x01; 0x00];
  [0x3E; 0x63; 0x73; 0x7B; 0x6F; 0x67; 0x3E; 0x00];
  [0x0C; 0x0E; 0x0C; 0x0C; 0x0C; 0x0C; 0x3F; 0x00];
  [0x1E; 0x33; 0x30; 0x1C; 0x06; 0x33; 0x3F; 0x00];
  [0x1E; 0x33; 0x30; 0x1C; 0x30; 0x33; 0x1E; 0x00];
  [0x38; 0x3C; 0x36; 0x33; 0x7F; 0x30; 0x78; 0x00];
  [0x3F; 0x03; 0x1F; 0x30; 0x30; 0x33; 0x1E; 0x00];
  [0x1C; 0x06; 0x03; 0x1F; 0x33; 0x33; 0x1E; 0x00];
  [0x3F; 0x33; 0x30; 0x18; 0x0C; 0x0C; 0x0C; 0x00];
  [0x1E; 0x33; 0x33; 0x1E; 0x33; 0x33; 0x1E; 0x00];
  [0x1E; 0x33; 0x33; 0x3E; 0x30; 0x18; 0x0E; 0x00];
  [0x00; 0x0C; 0x0C; 0x00; 0x00; 0x0C; 0x0C; 0x00];
  [0x00; 0x0C; 0x0C; 0x00; 0x00; 0x0C; 0x0C; 0x06];
  [0x18; 0x0C; 0x06; 0x03; 0x06; 0x0C; 0x18; 0x00];
  [0x00; 0x00; 0x3F; 0x00; 0x00; 0x3F; 0x00; 0x00];
  [0x06; 0x0C; 0x18; 0x30; 0x18; 0x0C; 0x06; 0x00];
  [0x1E; 0x33; 0x30; 0x18; 0x0C; 0x00; 0x0C; 0x00];
  [0x3E; 0x63; 0x7B; 0x7B; 0x7B; 0x03; 0x1E; 0x00];
  [0x0C; 0x1E; 0x33; 0x33; 0x3F; 0x33; 0x33; 0x00];
  [0x3F; 0x66; 0x66; 0x3E; 0x66; 0x66; 0x3F; 0x00];
  [0x3C; 0x66; 0x03; 0x03; 0x03; 0x66; 0x3C; 0x00];
  [0x1F; 0x36; 0x66; 0x66; 0x66; 0x36; 0x1F; 0x00];
  [0x7F; 0x46; 0x16; 0x1E; 0x16; 0x46; 0x7F; 0x00];
  [0x7F; 0x46; 0x16; 0x1E; 0x16; 0x06; 0x0F; 0x00];
  [0x3C; 0x66; 0x03; 0x03; 0x73; 0x66; 0x7C; 0x00];
  [0x33; 0x33; 0x33; 0x3F; 0x33; 0x33; 0x33; 0x00];
  [0x1E; 0x0C; 0x0C; 0x0C; 0x0C; 0x0C; 0x1E; 0x00];
  [0x78; 0x30; 0x30; 0x30; 0x33; 0x33; 0x1E; 0x00];
  [0x67; 0x66; 0x36; 0x1E; 0x36; 0x66; 0x67; 0x00];
  [0x0F; 0x06; 0x06; 0x06; 0x46; 0x66; 0x7F; 0x00];
  [0x63; 0x77; 0x7F; 0x7F; 0x6B; 0x63; 0x63; 0x00];
  [0x63; 0x67; 0x6F; 0x7B; 0x73; 0x63; 0x63; 0x00];
  [0x1C; 0x36; 0x63; 0x63; 0x63; 0x36; 0x1C; 0x00];
  [0x3F; 0x66; 0x66; 0x3E; 0x06; 0x06; 0x0F; 0x00];
  [0x1E; 0x33; 0x33; 0x33; 0x3B; 0x1E; 0x38; 0x00];
  [0x3F; 0x66; 0x66; 0x3E; 0x36; 0x66; 0x67; 0x00];
  [0x1E; 0x33; 0x07; 0x0E; 0x38; 0x33; 0x1E; 0x00];
  [0x3F; 0x2D; 0x0C; 0x0C; 0x0C; 0x0C; 0x1E; 0x00];
  [0x33; 0x33; 0x33; 0x33; 0x33; 0x33; 0x3F; 0x00];
  [0x33; 0x33; 0x33; 0x33; 0x33; 0x1E; 0x0C; 0x00];
  [0x63; 0x63; 0x63; 0x6B; 0x7F; 0x77; 0x63; 0x00];
  [0x63; 0x63; 0x36; 0x1C; 0x1C; 0x36; 0x63; 0x00];
  [0x33; 0x33; 0x33; 0x1E; 0x0C; 0x0C; 0x1E; 0x00];
  [0x7F; 0x63; 0x31; 0x18; 0x4C; 0x66; 0x7F; 0x00];
  [0x1E; 0x06; 0x06; 0x06; 0x06; 0x06; 0x1E; 0x00];
  [0x03; 0x06; 0x0C; 0x18; 0x30; 0x60; 0x40; 0x00];
  [0x1E; 0x18; 0x18; 0x18; 0x18; 0x18; 0x1E; 0x00];
  [0x08; 0x1C; 0x36; 0x63; 0x00; 0x00; 0x00; 0x00];
  [0x00; 0x00; 0x00; 0x00; 0x00; 0x00; 0x00; 0xFF];
  [0x0C; 0x0C; 0x18; 0x00; 0x00; 0x00; 0x00; 0x00];
  [0x00; 0x00; 0x1E; 0x30; 0x3E; 0x33; 0x6E; 0x00];
  [0x07; 0x06; 0x06; 0x3E; 0x66; 0x66; 0x3B; 0x00];
  [0x00; 0x00; 0x1E; 0x33; 0x03; 0x33; 0x1E; 0x00];
  [0x38; 0x30; 0x30; 0x3e; 0x33; 0x33; 0x6E; 0x00];
  [0x00; 0x00; 0x1E; 0x33; 0x3f; 0x03; 0x1E; 0x00];
  [0x1C; 0x36; 0x06; 0x0f; 0x06; 0x06; 0x0F; 0x00];
  [0x00; 0x00; 0x6E; 0x33; 0x33; 0x3E; 0x30; 0x1F];
  [0x07; 0x06; 0x36; 0x6E; 0x66; 0x66; 0x67; 0x00];
  [0x0C; 0x00; 0x0E; 0x0C; 0x0C; 0x0C; 0x1E; 0x00];
  [0x30; 0x00; 0x30; 0x30; 0x30; 0x33; 0x33; 0x1E];
  [0x07; 0x06; 0x66; 0x36; 0x1E; 0x36; 0x67; 0x00];
  [0x0E; 0x0C; 0x0C; 0x0C; 0x0C; 0x0C; 0x1E; 0x00];
  [0x00; 0x00; 0x33; 0x7F; 0x7F; 0x6B; 0x63; 0x00];
  [0x00; 0x00; 0x1F; 0x33; 0x33; 0x33; 0x33; 0x00];
  [0x00; 0x00; 0x1E; 0x33; 0x33; 0x33; 0x1E; 0x00];
  [0x00; 0x00; 0x3B; 0x66; 0x66; 0x3E; 0x06; 0x0F];
  [0x00; 0x00; 0x6E; 0x33; 0x33; 0x3E; 0x30; 0x78];
  [0x00; 0x00; 0x3B; 0x6E; 0x66; 0x06; 0x0F; 0x00];
  [0x00; 0x00; 0x3E; 0x03; 0x1E; 0x30; 0x1F; 0x00];
  [0x08; 0x0C; 0x3E; 0x0C; 0x0C; 0x2C; 0x18; 0x00];
  [0x00; 0x00; 0x33; 0x33; 0x33; 0x33; 0x6E; 0x00];
  [0x00; 0x00; 0x33; 0x33; 0x33; 0x1E; 0x0C; 0x00];
  [0x00; 0x00; 0x63; 0x6B; 0x7F; 0x7F; 0x36; 0x00];
  [0x00; 0x00; 0x63; 0x36; 0x1C; 0x36; 0x63; 0x00];
  [0x00; 0x00; 0x33; 0x33; 0x33; 0x3E; 0x30; 0x1F];
  [0x00; 0x00; 0x3F; 0x19; 0x0C; 0x26; 0x3F; 0x00];
  [0x38; 0x0C; 0x0C; 0x07; 0x0C; 0x0C; 0x38; 0x00];
  [0x18; 0x18; 0x18; 0x00; 0x18; 0x18; 0x18; 0x00];
  [0x07; 0x0C; 0x0C; 0x38; 0x0C; 0x0C; 0x07; 0x00];
  [0x6E; 0x3B; 0x00; 0x00; 0x00; 0x00; 0x00; 0x00];
  [0x00; 0x00; 0x00; 0x00; 0x00; 0x00; 0x00; 0x00]].

(* @src src/vitis/zybo-hdmi-out/src/helloworld.c:27-27 FRAME_BUFFER_BASE *)
Definition FRAME_BUFFER_BASE : Z := 0x10000000.
(* @src src/vitis/zybo-hdmi-out/src/helloworld.c:29-29 WIDTH *)
Definition WIDTH : Z := 1280.
(* @src src/vitis/zybo-hdmi-out/src/helloworld.c:30-30 HEIGHT *)
Definition HEIGHT : Z := 720.
(* @src src/vitis/zybo-hdmi-out/src/helloworld.c:31-31 BYTES_PER_PIXEL *)
Definition BYTES_PER_PIXEL : Z := 3.

(** ** The state: the calls into the libraries, and the memory from [frame] on *)
Inductive hcall :=
| H_printf (s : string)
| H_DCacheFlush
| H_VtcLookup (base : Z)
| H_VtcCfgInitialize (cfg : Z)
| H_VtcSetGeneratorTiming (horizontal vertical : list Z) (interlaced : Z)
| H_VtcEnableGenerator
| H_VdmaLookup (base : Z)
| H_VdmaCfgInitialize (cfg : Z)
| H_VdmaDmaConfig (vert hori stride delay circular sync point counter fixed : Z)
| H_VdmaSetBufferAddr (addr : Z)
| H_VdmaDmaStart.

Class Video (D : Type) := video_call : hcall -> D -> Z * D.

Record hdmi (D : Type) := { h_env : D; h_trace : list (hcall * Z); h_frame : gmap Z Z }.
Arguments Build_hdmi {D}.
Arguments h_env {D}.
Arguments h_trace {D}.
Arguments h_frame {D}.
#[export] Instance hdmi_settable D : Settable (hdmi D) := fun s => Build_hdmi (h_env s) (h_trace s) (h_frame s).

Definition XST_SUCCESS : Z := 0.
Definition XST_FAILURE : Z := 1.

Section Code.
Context {D : Type} `{Video D}.
(** The bases of the cores, from the generated [xparameters.h], and what is in memory
    behind the font, by character and row. *)
Variables XPAR_V_TC_0_BASEADDR XPAR_AXI_VDMA_0_BASEADDR : Z.
Variable behind_font : Z -> Z -> Z.

Definition hdo (c : hcall) : M (hdmi D) Z := fun s =>
  let '(v, d) := video_call c (h_env s) in (v, s <| h_env := d |> <| h_trace ::= fun l => l ++ [(c, v)] |>).
Definition hdo_ (c : hcall) : M (hdmi D) unit := hdo c ;; mret tt.

(** [frame[i] = v]: the index is not checked. *)
Definition poke (i v : Z) : M (hdmi D) unit := modify (fun s => s <| h_frame ::= <[i := v]> |>).

(** ** Drawing *)
(* @src src/vitis/zybo-hdmi-out/src/helloworld.c:50-60 PutPixel *)
Definition PutPixel (x y r g b : Z) : M (hdmi D) unit :=
  let idx := s32 ((y * WIDTH + x) * 3) in
  poke (idx + 0) r ;; poke (idx + 1) g ;; poke (idx + 2) b.

(* @src src/vitis/zybo-hdmi-out/src/helloworld.c:62-81 FillRect *)
Definition FillRect (x y w h r g b : Z) : M (hdmi D) unit :=
  for_up (Z.to_nat h) 0 (fun yy =>
    for_up (Z.to_nat w) 0 (fun xx =>
      PutPixel (x + xx) (y + yy) r g b)).

Definition glyph_row (c row : Z) : Z :=
  match font8x8_basic !! Z.to_nat c with
  | Some rows => nth (Z.to_nat row) rows 0
  | None => behind_font c row
  end.

(* @src src/vitis/zybo-hdmi-out/src/helloworld.c:83-109 DrawCharScaled *)
Definition DrawCharScaled (startX startY c scale : Z) : M (hdmi D) unit :=
  for_up 8 0 (fun row =>
    let bits := u8 (glyph_row c row) in
    for_up 8 0 (fun col =>
      when (tst bits (Z.shiftl 1 col))
        (FillRect (startX + col * scale) (startY + row * scale) scale scale 255 255 255))).

(* @src src/vitis/zybo-hdmi-out/src/helloworld.c:111-129 DrawStringScaled *)
Fixpoint DrawStringScaled (x y : Z) (str : list Z) (scale : Z) : M (hdmi D) unit :=
  match str with
  | c :: str =>
      if c =? 0 then mret tt
      else DrawCharScaled x y c scale ;; DrawStringScaled (s32 (x + 8 * scale)) y str scale
  | [] => mret tt
  end.

(* @src src/vitis/zybo-hdmi-out/src/helloworld.c:163-177 FillFrame *)
Definition FillFrame : M (hdmi D) unit :=
  for_up (Z.to_nat (WIDTH * HEIGHT * 3)) 0 (fun i => poke i 0) ;;
  DrawStringScaled 100 100 (codes "SCWOOK") 1 ;;
  DrawStringScaled 200 200 (codes "Hello") 2 ;;
  DrawStringScaled 300 300 (codes "FPGA") 4 ;;
  hdo_ H_DCacheFlush.

(** ** The cores *)
(** [*cfg] is passed on to the library. *)
(* @src src/vitis/zybo-hdmi-out/src/helloworld.c:179-223 SetupVdma *)
Definition SetupVdma : M (hdmi D) Z :=
  cfg ← hdo (H_VdmaLookup XPAR_AXI_VDMA_0_BASEADDR);
  if negb (nz cfg) then mret XST_FAILURE
  else
    r ← hdo (H_VdmaCfgInitialize cfg);
    if negb (r =? XST_SUCCESS) then mret XST_FAILURE
    else
      r ← hdo (H_VdmaDmaConfig HEIGHT (WIDTH * BYTES_PER_PIXEL) (WIDTH * BYTES_PER_PIXEL) 0 1 0 0 0 0);
      if negb (r =? XST_SUCCESS) then mret XST_FAILURE
      else
        r ← hdo (H_VdmaSetBufferAddr FRAME_BUFFER_BASE);
        if negb (r =? XST_SUCCESS) then mret XST_FAILURE
        else
          r ← hdo H_VdmaDmaStart;
          mret (if negb (r =? XST_SUCCESS) then XST_FAILURE else XST_SUCCESS).

(** The timing: active, front porch, sync width, back porch, polarity.  Other fields
    of [timing] are not set. *)
(* @src src/vitis/zybo-hdmi-out/src/helloworld.c:225-256 SetupVtc *)
Definition SetupVtc : M (hdmi D) Z :=
  cfg ← hdo (H_VtcLookup XPAR_V_TC_0_BASEADDR);
  if negb (nz cfg) then mret XST_FAILURE
  else
    hdo_ (H_VtcCfgInitialize cfg) ;;
    hdo_ (H_VtcSetGeneratorTiming [1280; 110; 40; 220; 1] [720; 5; 5; 20; 1] 0) ;;
    hdo_ H_VtcEnableGenerator ;;
    mret XST_SUCCESS.

(** [None]: [main] stays in its endless loop. *)
(* @src src/vitis/zybo-hdmi-out/src/helloworld.c:258-281 main *)
Definition hdmi_main : M (hdmi D) (option Z) :=
  hdo_ (H_printf "HDMI Test Start") ;;
  FillFrame ;;
  r ← SetupVtc;
  if negb (r =? XST_SUCCESS) then hdo_ (H_printf "VTC failed") ;; mret (Some (-1))
  else
    r ← SetupVdma;
    if negb (r =? XST_SUCCESS) then hdo_ (H_printf "VDMA failed") ;; mret (Some (-1))
    else hdo_ (H_printf "HDMI Output Running") ;; mret None.
End Code.
