(* ===== verification/HdmiSpec.v ===== *)
(** What the HDMI example shows: every pixel of the frame. *)
From S2P Require Import Prelude Kernel Bytes Daq Hdmi.
Local Open Scope Z_scope.

(** ** Where text is lit *)
(** The pixel [(px, py)] is lit by the character [c] drawn at [(x, y)]. *)
Definition lit (x y c scale px py : Z) : bool :=
  (x <=? px) && (px <? x + 8 * scale) && (y <=? py) && (py <? y + 8 * scale)
  && Z.testbit (glyph_row (fun _ _ => 0) c ((py - y) / scale)) ((px - x) / scale).
Fixpoint lit_string (x y : Z) (str : list Z) (scale px py : Z) : bool :=
  match str with
  | c :: str => lit x y c scale px py || lit_string (x + 8 * scale) y str scale px py
  | [] => false
  end.

(** The byte [k] of a pixel. *)
Definition at_pixel (px py k : Z) : Z := (py * WIDTH + px) * 3 + k.

(** ** What drawing does to the frame *)
Section Spec.
Context {D : Type} `{Video D}.
Implicit Types (s : hdmi D) (A B : Z -> Prop).

(** [m] stores [v] at the indices of [A], which can be told, and does nothing else. *)
Record paints (m : M (hdmi D) unit) (v : Z) A : Prop := {
  pt_dec : forall j, A j \/ ~ A j;
  pt_run : forall s, exists g, m s = (tt, s <| h_frame := g |>)
    /\ (forall j, A j -> g !! j = Some v) /\ (forall j, ~ A j -> g !! j = h_frame s !! j);
}.

Lemma paints_iff m v A B : (forall j, A j <-> B j) -> paints m v A -> paints m v B.
Proof.
  intros Hj [Hd Hm]. constructor; [intros j; rewrite <- Hj; apply Hd|]. intros s. destruct (Hm s) as (g & E & H1 & H2).
  exists g. split; [done|]. split; intros j Hb; [apply H1|apply H2]; by rewrite Hj.
Qed.
Lemma paints_ret v A : (forall j, ~ A j) -> paints (mret tt) v A.
Proof. intros HA. constructor; [auto|]. intros s. exists (h_frame s). split; [by destruct s|]. split; [|done]. by intros j ?%HA. Qed.
Lemma paints_poke i v : paints (poke i v) v (eq i).
Proof.
  constructor; [intros j; destruct (decide (i = j)); auto|]. intros s. exists (<[i := v]> (h_frame s)).
  split; [done|]. split; intros j; [intros <-; apply lookup_insert_eq|apply lookup_insert_ne].
Qed.
Lemma paints_seq m1 m2 v A B : paints m1 v A -> paints m2 v B -> paints (m1 ;; m2) v (fun j => A j \/ B j).
Proof.
  intros [DA H1] [DB H2]. constructor; [intros j; destruct (DA j), (DB j); tauto|]. intros s.
  destruct (H1 s) as (g1 & E1 & I1 & O1). destruct (H2 (s <| h_frame := g1 |>)) as (g2 & E2 & I2 & O2).
  exists g2. split; [unfold mbind, M_bind; by rewrite E1|]. split; intros j Hj.
  - destruct (DB j) as [Hb|Hb]; [by apply I2|]. rewrite O2 by done. destruct Hj; [by apply I1|done].
  - rewrite O2 by tauto. by apply O1; tauto.
Qed.
Lemma paints_when (c : bool) m v A : paints m v A -> paints (when c m) v (fun j => c = true /\ A j).
Proof.
  intros Hm. destruct c; cbn [when].
  - eapply paints_iff, Hm. tauto.
  - apply paints_ret. intuition discriminate.
Qed.
Lemma paints_for n from body v (A : Z -> Z -> Prop) :
  (forall i, from <= i < from + Z.of_nat n -> paints (body i) v (A i)) ->
  paints (for_up n from body) v (fun j => exists i, from <= i < from + Z.of_nat n /\ A i j).
Proof.
  revert from. induction n as [|n IH]; intros from Hb; cbn [for_up].
  { apply paints_ret. intros j (i & Hi & _). lia. }
  eapply paints_iff, paints_seq; [|apply Hb; lia|apply IH; intros; apply Hb; lia]. intros j. cbn beta. split.
  - intros [Ha|(i & Hi & Ha)]; [exists from|exists i]; (split; [lia|done]).
  - intros (i & Hi & Ha). destruct (decide (i = from)) as [->|]; [by left|]. right. exists i. split; [lia|done].
Qed.

(** The bytes of the pixels of [R]. *)
Definition covers (R : Z -> Z -> Prop) (j : Z) : Prop :=
  exists px py k, R px py /\ 0 <= k < 3 /\ j = at_pixel px py k.

Lemma covers_or R R' j : covers (fun px py => R px py \/ R' px py) j <-> covers R j \/ covers R' j.
Proof.
  unfold covers. split.
  - intros (px & py & k & [HR|HR] & Hk); [left|right]; by exists px, py, k.
  - intros [(px & py & k & HR & Hk)|(px & py & k & HR & Hk)]; exists px, py, k; auto.
Qed.
Lemma covers_iff R R' : (forall px py, R px py <-> R' px py) -> forall j, covers R j <-> covers R' j.
Proof. intros HR j. unfold covers. by setoid_rewrite HR. Qed.

Lemma paints_pixel x y v : 0 <= x < WIDTH -> 0 <= y < HEIGHT ->
  paints (PutPixel x y v v v) v (covers (fun px py => px = x /\ py = y)).
Proof.
  intros Hx Hy. unfold PutPixel. unfold WIDTH, HEIGHT in *. rewrite s32_small by lia.
  eapply paints_iff, paints_seq, paints_seq; [|apply paints_poke..]. intros j. unfold covers, at_pixel, WIDTH. split.
  - intros [<-|[<-|<-]]; [exists x, y, 0|exists x, y, 1|exists x, y, 2]; (split_and!; [done..|lia|done|lia]).
  - intros (px & py & k & [-> ->] & Hk & ->). lia.
Qed.

Lemma paints_rect x y w h v :
  0 <= x -> 0 <= w -> x + w <= WIDTH -> 0 <= y -> 0 <= h -> y + h <= HEIGHT ->
  paints (FillRect x y w h v v v) v (covers (fun px py => x <= px < x + w /\ y <= py < y + h)).
Proof.
  intros. unfold FillRect. eapply paints_iff, paints_for; cycle 1.
  { intros yy Hyy. apply paints_for. intros xx Hxx. apply paints_pixel; lia. }
  intros j. unfold covers. split.
  - intros (yy & Hy & xx & Hx & px & py & k & [-> ->] & Hk & ->). exists (x + xx), (y + yy), k. lia.
  - intros (px & py & k & [Hx Hy] & Hk & ->). exists (py - y). split; [lia|]. exists (px - x). split; [lia|].
    exists px, py, k. lia.
Qed.

Variable behind_font : Z -> Z -> Z.

(** Text within the frame, of characters the font has. *)
Definition fits (x y scale n : Z) : Prop :=
  0 <= x /\ 0 < scale /\ x + 8 * scale * n <= WIDTH /\ 0 <= y /\ y + 8 * scale <= HEIGHT.

Lemma glyph_row_in c row : 0 <= c < 128 -> glyph_row behind_font c row = glyph_row (fun _ _ => 0) c row.
Proof.
  intros Hc. unfold glyph_row. destruct (font8x8_basic !! Z.to_nat c) as [l|] eqn:E; [done|].
  apply lookup_ge_None in E. change (length font8x8_basic) with 128%nat in E. lia.
Qed.

Lemma bits_col c row col : 0 <= c < 128 -> 0 <= col < 8 ->
  tst (u8 (glyph_row behind_font c row)) (Z.shiftl 1 col) = Z.testbit (glyph_row (fun _ _ => 0) c row) col.
Proof.
  intros Hc Hcol. rewrite glyph_row_in by done. rewrite Z.shiftl_1_l. rewrite (proj1 (tst_pow2 _ _ (proj1 (u8_range _)) (proj1 Hcol))).
  unfold u8. change 256 with (2 ^ 8). apply Z.mod_pow2_bits_low. lia.
Qed.

(** One cell of a scaled character. *)
Lemma cell p x scale i : 0 < scale -> x + i * scale <= p < x + i * scale + scale <-> (p - x) / scale = i.
Proof.
  intros Hs. pose proof (Z.div_mod (p - x) scale ltac:(lia)). pose proof (Z.mod_pos_bound (p - x) scale Hs). split.
  - intros Hp. symmetry. apply Z.div_unique with (p - x - i * scale); lia.
  - intros <-. lia.
Qed.
Lemma cell_range p x scale : 0 < scale -> x <= p < x + 8 * scale <-> 0 <= (p - x) / scale < 8.
Proof.
  intros Hs. pose proof (Z.div_mod (p - x) scale ltac:(lia)). pose proof (Z.mod_pos_bound (p - x) scale Hs).
  split; intros; [split; [apply Z.div_pos|apply Z.div_lt_upper_bound]; lia|nia].
Qed.

Lemma lit_spec x y c scale px py : 0 < scale ->
  lit x y c scale px py = true <->
  let col := (px - x) / scale in let row := (py - y) / scale in
  0 <= col < 8 /\ 0 <= row < 8 /\ Z.testbit (glyph_row (fun _ _ => 0) c row) col = true.
Proof.
  intros Hs. cbv zeta. rewrite <- !cell_range by done. unfold lit. rewrite !andb_true_iff, !Z.leb_le, !Z.ltb_lt. tauto.
Qed.

Lemma paints_char x y c scale : fits x y scale 1 -> 0 <= c < 128 ->
  paints (DrawCharScaled behind_font x y c scale) 255 (covers (fun px py => lit x y c scale px py = true)).
Proof.
  intros (Hx & Hs & Hx' & Hy & Hy') Hc. unfold DrawCharScaled. eapply paints_iff, paints_for; cycle 1.
  { intros row Hrow. apply paints_for. intros col Hcol. apply paints_when, paints_rect; nia. }
  intros j. unfold covers. split.
  - intros (row & Hr & col & Hcol & Hb & px & py & k & [H1 H2] & Hk & ->). exists px, py, k. split; [|done].
    apply lit_spec; [done|]. apply cell in H1 as ->; [|done]. apply cell in H2 as ->; [|done].
    cbv zeta. rewrite <- bits_col by lia. split_and!; [lia..|done].
  - intros (px & py & k & Hl & Hk & ->). apply lit_spec in Hl as (H1 & H2 & H3); [|done].
    exists ((py - y) / scale). split; [lia|]. exists ((px - x) / scale). split; [lia|]. rewrite bits_col by lia. split; [done|].
    exists px, py, k. split; [|done]. split; by apply cell.
Qed.

Lemma paints_string x y str scale :
  fits x y scale (Z.of_nat (length str)) -> Forall (fun c => 0 < c < 128) str ->
  paints (DrawStringScaled behind_font x y str scale) 255 (covers (fun px py => lit_string x y str scale px py = true)).
Proof.
  intros Hf Hc. revert x Hf. induction Hc as [|c str Hc Hstr IH]; intros x (Hx & Hs & Hx' & Hy & Hy'); cbn [DrawStringScaled].
  { apply paints_ret. by intros j (px & py & k & Hl & _). }
  rewrite (proj2 (Z.eqb_neq _ _)) by lia. cbn [length] in Hx'. rewrite Nat2Z.inj_succ in Hx'.
  rewrite s32_small by (unfold WIDTH in *; nia).
  eapply paints_iff, paints_seq; [|apply paints_char; [|lia]; split_and!; nia|apply IH; split_and!; nia].
  intros j. rewrite <- covers_or. apply covers_iff. intros px py. cbn [lit_string]. by rewrite orb_true_iff.
Qed.

Lemma paints_clear n : 0 <= n -> paints (for_up (Z.to_nat n) 0 (fun i => poke i 0)) 0 (fun j => 0 <= j < n).
Proof.
  intros Hn. eapply paints_iff, paints_for; [|intros i _; apply paints_poke]. intros j. cbn beta. rewrite Z2Nat.id by done. split.
  - intros (i & Hi & ->). lia.
  - intros Hj. by exists j.
Qed.

(** The pixels of the text. *)
Definition shown (px py : Z) : bool :=
  lit_string 100 100 (codes "SCWOOK") 1 px py || lit_string 200 200 (codes "Hello") 2 px py
  || lit_string 300 300 (codes "FPGA") 4 px py.

Definition fits_b (x y scale n : Z) : bool :=
  (0 <=? x) && (0 <? scale) && (x + 8 * scale * n <=? WIDTH) && (0 <=? y) && (y + 8 * scale <=? HEIGHT).
Lemma paints_text x y str scale :
  fits_b x y scale (Z.of_nat (length str)) && forallb (fun c => (0 <? c) && (c <? 128)) str = true ->
  paints (DrawStringScaled behind_font x y str scale) 255 (covers (fun px py => lit_string x y str scale px py = true)).
Proof.
  intros [Hf Hc]%andb_true_iff. apply paints_string.
  - unfold fits_b in Hf. rewrite !andb_true_iff, !Z.leb_le, Z.ltb_lt in Hf. unfold fits. tauto.
  - apply Forall_forall. intros c Hin%list_elem_of_In. rewrite forallb_forall in Hc. specialize (Hc c Hin). lia.
Qed.

(** A lit pixel is on the frame. *)
Lemma lit_in x y str scale px py :
  fits x y scale (Z.of_nat (length str)) -> lit_string x y str scale px py = true -> 0 <= px < WIDTH /\ 0 <= py < HEIGHT.
Proof.
  revert x. induction str as [|c str IH]; intros x (Hx & Hs & Hx' & Hy & Hy') Hl; [done|].
  cbn [lit_string length] in *. rewrite Nat2Z.inj_succ in Hx'. apply orb_true_iff in Hl as [Hl|Hl].
  - unfold lit in Hl. rewrite !andb_true_iff, !Z.leb_le, !Z.ltb_lt in Hl. nia.
  - apply (IH (x + 8 * scale)); [split_and!; nia|done].
Qed.

Lemma at_pixel_inj px py k px' py' k' :
  0 <= px < WIDTH -> 0 <= k < 3 -> 0 <= px' < WIDTH -> 0 <= k' < 3 -> at_pixel px py k = at_pixel px' py' k' -> px = px' /\ py = py'.
Proof. unfold at_pixel, WIDTH. lia. Qed.

(** A frame that shows the text, and nothing stored around it. *)
Definition shows (g0 g : gmap Z Z) : Prop :=
  (forall px py k, 0 <= px < WIDTH -> 0 <= py < HEIGHT -> 0 <= k < 3 ->
     g !! at_pixel px py k = Some (if shown px py then 255 else 0))
  /\ (forall j, ~ (0 <= j < WIDTH * HEIGHT * 3) -> g !! j = g0 !! j).

Lemma fill_shows (g0 g1 g : gmap Z Z) :
  (forall j, 0 <= j < WIDTH * HEIGHT * 3 -> g1 !! j = Some 0) ->
  (forall j, ~ (0 <= j < WIDTH * HEIGHT * 3) -> g1 !! j = g0 !! j) ->
  (forall j, covers (fun px py => shown px py = true) j -> g !! j = Some 255) ->
  (forall j, ~ covers (fun px py => shown px py = true) j -> g !! j = g1 !! j) -> shows g0 g.
Proof.
  intros I1 O1 I2 O2.
  assert (forall px py, shown px py = true -> 0 <= px < WIDTH /\ 0 <= py < HEIGHT) as Hin.
  { intros px py Hs. unfold shown in Hs. rewrite !orb_true_iff in Hs. destruct Hs as [[Hs|Hs]|Hs]; revert Hs;
      apply lit_in; by vm_compute. }
  split.
  - intros px py k Hpx Hpy Hk. destruct (shown px py) eqn:Hs.
    + apply I2. exists px, py, k. auto.
    + rewrite O2; [apply I1; unfold at_pixel, WIDTH, HEIGHT in *; lia|]. intros (px' & py' & k' & Hs' & Hk' & E).
      destruct (Hin _ _ Hs'). apply at_pixel_inj in E as [-> ->]; [congruence|done..].
  - intros j Hj. rewrite O2; [by apply O1|]. intros (px & py & k & Hs & Hk & ->). destruct (Hin _ _ Hs).
    apply Hj. unfold at_pixel, WIDTH, HEIGHT in *. lia.
Qed.

Lemma run_seq {T} (m : M (hdmi D) unit) (k : M (hdmi D) T) s s' : m s = (tt, s') -> (m ;; k) s = k s'.
Proof. intros E. unfold mbind, M_bind. by rewrite E. Qed.
Lemma run_seq3 {T} (m1 m2 m3 : M (hdmi D) unit) (k : M (hdmi D) T) s s' :
  (m1 ;; m2 ;; m3) s = (tt, s') -> (m1 ;; m2 ;; m3 ;; k) s = k s'.
Proof. unfold mbind, M_bind. destruct (m1 s) as [[] s1], (m2 s1) as [[] s2]. by intros ->. Qed.

Lemma wp_same {T} (m m' : M (hdmi D) T) (Q : T -> hdmi D -> Prop) s s' : m s = m' s' -> wp m' Q s' -> wp m Q s.
Proof. intros E Hw%wp_run. apply wp_intro. by rewrite E. Qed.

Lemma fill_frame_runs s : exists g, shows (h_frame s) g /\ FillFrame behind_font s = hdo_ H_DCacheFlush (s <| h_frame := g |>).
Proof.
  assert (paints (DrawStringScaled behind_font 100 100 (codes "SCWOOK") 1 ;; DrawStringScaled behind_font 200 200 (codes "Hello") 2 ;;
                  DrawStringScaled behind_font 300 300 (codes "FPGA") 4) 255 (covers (fun px py => shown px py = true))) as [_ Htext].
  { eapply paints_iff, paints_seq, paints_seq; [|by apply paints_text..]. intros j. cbn beta. rewrite <- !covers_or. apply covers_iff.
    intros px py. unfold shown. rewrite !orb_true_iff. tauto. }
  destruct (pt_run _ _ _ (paints_clear (WIDTH * HEIGHT * 3) ltac:(unfold WIDTH, HEIGHT; lia)) s) as (g1 & E1 & I1 & O1).
  destruct (Htext (s <| h_frame := g1 |>)) as (g & E & I2 & O2). exists g. split; [by apply (fill_shows _ g1)|].
  clear I1 O1 I2 O2. unfold FillFrame. revert E1. generalize (Z.to_nat (WIDTH * HEIGHT * 3)). intros n E1.
  rewrite (run_seq _ _ _ _ E1). by apply run_seq3.
Qed.

(** Calls leave the frame alone, and are added to the trace. *)
Lemma wp_hdo c (Q : Z -> hdmi D -> Prop) s :
  (forall v s', h_frame s' = h_frame s -> h_trace s' = h_trace s ++ [(c, v)] -> Q v s') -> wp (hdo c) Q s.
Proof. intros HQ. apply wp_intro. unfold hdo. destruct (video_call c (h_env s)) as [v d]. by apply HQ. Qed.
Lemma wp_hdo_ c (Q : unit -> hdmi D -> Prop) s :
  (forall v s', h_frame s' = h_frame s -> h_trace s' = h_trace s ++ [(c, v)] -> Q tt s') -> wp (hdo_ c) Q s.
Proof. intros HQ. apply wp_bind, wp_hdo. intros v s' Hf Ht. by eapply wp_ret, HQ. Qed.

Variables XPAR_V_TC_0_BASEADDR XPAR_AXI_VDMA_0_BASEADDR : Z.

Definition grows s s' : Prop := h_frame s' = h_frame s /\ h_trace s `prefix_of` h_trace s'.
Lemma grows_step s s1 s' c v : h_frame s1 = h_frame s -> h_trace s1 = h_trace s ++ [(c, v)] -> grows s1 s' -> grows s s'.
Proof.
  intros Hf Ht [Hf' Ht']. split; [congruence|]. etrans; [|exact Ht']. rewrite Ht. by apply prefix_app_r.
Qed.
Lemma grows_last s s' c v : h_frame s' = h_frame s -> h_trace s' = h_trace s ++ [(c, v)] -> grows s s'.
Proof. intros Hf Ht. split; [done|]. rewrite Ht. by apply prefix_app_r. Qed.

Lemma wp_vtc (Q : Z -> hdmi D -> Prop) s : (forall v s', grows s s' -> Q v s') -> wp (SetupVtc XPAR_V_TC_0_BASEADDR) Q s.
Proof.
  intros HQ. unfold SetupVtc. apply wp_bind, wp_hdo. intros cfg s1 F1 T1. destruct (negb (nz cfg)).
  { apply wp_ret, HQ. by eapply grows_last. }
  apply wp_bind, wp_hdo_. intros v2 s2 F2 T2. apply wp_bind, wp_hdo_. intros v3 s3 F3 T3. apply wp_bind, wp_hdo_.
  intros v4 s4 F4 T4. apply wp_ret, HQ. by do 3 (eapply grows_step; [done..|]); eapply grows_last.
Qed.

(** What [SetupVdma] has done when it succeeds. *)
Definition started (l : list (hcall * Z)) : Prop :=
  (H_VdmaSetBufferAddr FRAME_BUFFER_BASE, XST_SUCCESS) ∈ l /\ (H_VdmaDmaStart, XST_SUCCESS) ∈ l.

Lemma wp_vdma (Q : Z -> hdmi D -> Prop) s :
  (forall v s', grows s s' -> (v = XST_SUCCESS -> started (h_trace s')) -> Q v s') ->
  wp (SetupVdma XPAR_AXI_VDMA_0_BASEADDR) Q s.
Proof.
  intros HQ. unfold SetupVdma. apply wp_bind, wp_hdo. intros cfg s1 F1 T1. destruct (negb (nz cfg)).
  { apply wp_ret, HQ; [by eapply grows_last|done]. }
  apply wp_bind, wp_hdo. intros v2 s2 F2 T2. destruct (v2 =? XST_SUCCESS); cbn [negb]; [|apply wp_ret, HQ; [|done]].
  2: { eapply grows_step; [done..|]. by eapply grows_last. }
  apply wp_bind, wp_hdo. intros v3 s3 F3 T3. destruct (v3 =? XST_SUCCESS); cbn [negb]; [|apply wp_ret, HQ; [|done]].
  2: { do 2 (eapply grows_step; [done..|]). by eapply grows_last. }
  apply wp_bind, wp_hdo. intros v4 s4 F4 T4. destruct (Z.eqb_spec v4 XST_SUCCESS); cbn [negb]; [|apply wp_ret, HQ; [|done]].
  2: { do 3 (eapply grows_step; [done..|]). by eapply grows_last. }
  apply wp_bind, wp_hdo. intros v5 s5 F5 T5. apply wp_ret, HQ.
  { do 4 (eapply grows_step; [done..|]). by eapply grows_last. }
  destruct (Z.eqb_spec v5 XST_SUCCESS); cbn [negb]; [|done]. intros _. subst. unfold started. rewrite T5, T4. set_solver.
Qed.

(** C15 Whatever the libraries answer, and whatever was in memory before, [main] of the
    HDMI example leaves a frame in which exactly the pixels of the three texts are white,
    each character in its scaled 8x8 cell, and every other pixel is black; it stores
    nothing outside the frame; and it only stays in its endless loop, showing the frame,
    after the DMA was given the address of that frame and started. *)
Theorem hdmi_main_shows s :
  let m := hdmi_main XPAR_V_TC_0_BASEADDR XPAR_AXI_VDMA_0_BASEADDR behind_font s in
  shows (h_frame s) (h_frame m.2) /\ (m.1 = None -> started (h_trace m.2)).
Proof.
  cbv zeta. apply (wp_run _ (fun r s' => shows (h_frame s) (h_frame s') /\ (r = None -> started (h_trace s')))).
  unfold hdmi_main. apply wp_bind, wp_hdo_. intros v s1 F1 _. apply wp_bind. destruct (fill_frame_runs s1) as (g & Hg & E).
  apply (wp_same _ _ _ _ _ E), wp_hdo_. intros v2 s2 F2 _.
  assert (shows (h_frame s) (h_frame s2)) as Hs by (rewrite F2, <- F1; exact Hg).
  apply wp_bind, wp_vtc. intros r s3 [F3 _]. rewrite <- F3 in Hs. destruct (r =? XST_SUCCESS); cbn [negb].
  2: { apply wp_bind, wp_hdo_. intros v4 s4 F4 _. apply wp_ret. rewrite F4. split; [done|discriminate]. }
  apply wp_bind, wp_vdma. intros r' s4 [F4 _] Hst. rewrite <- F4 in Hs. destruct (Z.eqb_spec r' XST_SUCCESS) as [->|]; cbn [negb].
  all: apply wp_bind, wp_hdo_; intros v5 s5 F5 T5; apply wp_ret; rewrite F5; split; [done|].
  - intros _. destruct (Hst eq_refl). rewrite T5. split; apply elem_of_app; by left.
  - discriminate.
Qed.
End Spec.


(** The first row of the first text, up to its second letter. *)
Example ex_shown : filter (fun px => shown px 100) (seqZ 96 20) = [101; 102; 103; 104; 110; 111; 112; 113].
Proof. by vm_compute. Qed.
