(* ===== verification/Boards.v ===== *)
(** The small programs for the boards: the DMA loop back of the AUBoard
    ([vitis/auboard-dma-bram], [vitis/auboard-aurora-axi]; the two differ in [BRAM_BASE]
    only) and the self test of the pulse counter. *)
From S2P Require Import Prelude Kernel.
Local Open Scope Z_scope.

(** ** The calls of the programs: memory, registers, the DMA library, the console *)
Inductive bcall :=
| B_print (s : string)
| B_print_num (n : Z)
| B_load8 (p : Z)
| B_store8 (p v : Z)
| B_In32 (p : Z)
| B_Out32 (p v : Z)
| B_DmaLookup (id : Z)
| B_DmaCfgInitialize (cfg : Z)
| B_SimpleTransfer (p len : Z) (to_device : bool)
| B_Busy (to_device : bool).

Class Bare (D : Type) := bare_call : bcall -> D -> Z * D.

Record bst (D : Type) := { b_env : D; b_trace : list (bcall * Z) }.
Arguments Build_bst {D}.
Arguments b_env {D}.
Arguments b_trace {D}.
#[export] Instance bst_settable D : Settable (bst D) := fun s => Build_bst (b_env s) (b_trace s).

Definition OK : Z := 0.
Definition FAILURE : Z := 1.

(* @src src/vitis/auboard-dma-bram/src/auboard_dma_bram.c:6-6 MAX_PKT_LEN *)
Definition MAX_PKT_LEN : Z := 0x40.
(* @src src/vivado/ip_repo/ip-pulse-counter-saxi/drivers/pulse_counter_v1_0/src/pulse_counter_selftest.c:9-9 READ_WRITE_MUL_FACTOR *)
Definition READ_WRITE_MUL_FACTOR : Z := 0x10.

Section Code.
Context {D : Type} `{Bare D}.

Definition bdo (c : bcall) : M (bst D) Z := fun s =>
  let '(v, d) := bare_call c (b_env s) in (v, s <| b_env := d |> <| b_trace ::= fun l => l ++ [(c, v)] |>).
Definition bdo_ (c : bcall) : M (bst D) unit := bdo c ;; mret tt.

(** ** The DMA loop back, for either base address *)
Section Loopback.
Variables BRAM_BASE DMA_DEVICE_ID : Z.

Definition TxPtr : Z := BRAM_BASE.
Definition RxPtr : Z := BRAM_BASE + 0x2000.

(** The line breaks after 16 bytes are left out. *)
(* @src src/vitis/auboard-dma-bram/src/auboard_dma_bram.c:12-21 PrintBuffer *)
Definition PrintBuffer (Label : string) (BufferPtr Length : Z) : M (bst D) unit :=
  bdo_ (B_print Label) ;;
  for_up (Z.to_nat Length) 0 (fun i => v ← bdo (B_load8 (BufferPtr + i)); bdo_ (B_print_num v)).

(** [timeout] turns left; C's [||] asks for the second direction only when the first is
    not busy. *)
(* @src src/vitis/auboard-dma-bram/src/auboard_dma_bram.c:51-57 main *)
Fixpoint wait_idle (timeout : nat) : M (bst D) unit :=
  tx ← bdo (B_Busy true);
  rx ← (if nz tx then mret 1 else bdo (B_Busy false));
  if nz tx || nz rx then
    match timeout with
    | O => bdo_ (B_print "Timeout Occurred!")
    | S timeout => wait_idle timeout
    end
  else mret tt.

(* @src src/vitis/auboard-dma-bram/src/auboard_dma_bram.c:64-69 main *)
Fixpoint count_errors (n : nat) (i ErrorCount : Z) : M (bst D) Z :=
  match n with
  | O => mret ErrorCount
  | S n =>
      r ← bdo (B_load8 (RxPtr + i));
      t ← bdo (B_load8 (TxPtr + i));
      count_errors n (i + 1) (if r =? t then ErrorCount else ErrorCount + 1)
  end.

(* @src src/vitis/auboard-dma-bram/src/auboard_dma_bram.c:23-78 main *)
Definition loopback_main : M (bst D) Z :=
  bdo_ (B_print "--- DMA Data Print Test Start ---") ;;
  CfgPtr ← bdo (B_DmaLookup DMA_DEVICE_ID);
  if negb (nz CfgPtr) then mret FAILURE
  else
    Status ← bdo (B_DmaCfgInitialize CfgPtr);
    if negb (Status =? OK) then mret FAILURE
    else
      for_up (Z.to_nat MAX_PKT_LEN) 0 (fun i => bdo_ (B_store8 (TxPtr + i) (u8 (i + 0x10))) ;; bdo_ (B_store8 (RxPtr + i) 0)) ;;
      PrintBuffer "TX Data Before Transfer" TxPtr MAX_PKT_LEN ;;
      PrintBuffer "RX Data Before Transfer (Empty)" RxPtr MAX_PKT_LEN ;;
      bdo_ (B_SimpleTransfer RxPtr MAX_PKT_LEN false) ;;
      bdo_ (B_SimpleTransfer TxPtr MAX_PKT_LEN true) ;;
      wait_idle (Z.to_nat 10000000) ;;
      bdo_ (B_print "Transfer Finished!") ;;
      PrintBuffer "RX Data After Transfer (Received)" RxPtr MAX_PKT_LEN ;;
      ErrorCount ← count_errors (Z.to_nat MAX_PKT_LEN) 0 0;
      (if ErrorCount =? 0 then bdo_ (B_print "SUCCESS: Data matches exactly!")
       else bdo_ (B_print "FAILURE: errors found.") ;; bdo_ (B_print_num ErrorCount)) ;;
      mret OK.
End Loopback.

(** ** The pulse counter *)
(* @src src/vivado/ip_repo/ip-pulse-counter-saxi/drivers/pulse_counter_v1_0/src/pulse_counter.h:34-35 PULSE_COUNTER_mWriteReg *)
Definition PULSE_COUNTER_mWriteReg (BaseAddress RegOffset Data : Z) : M (bst D) unit :=
  bdo_ (B_Out32 (u32 (BaseAddress + RegOffset)) (u32 Data)).
(* @src src/vivado/ip_repo/ip-pulse-counter-saxi/drivers/pulse_counter_v1_0/src/pulse_counter.h:54-55 PULSE_COUNTER_mReadReg *)
Definition PULSE_COUNTER_mReadReg (BaseAddress RegOffset : Z) : M (bst D) Z :=
  bdo (B_In32 (u32 (BaseAddress + RegOffset))).

(* @src src/vivado/ip_repo/ip-pulse-counter-saxi/drivers/pulse_counter_v1_0/src/pulse_counter_selftest.c:51-55 PULSE_COUNTER_Reg_SelfTest *)
Fixpoint read_back (n : nat) (i baseaddr : Z) : M (bst D) bool :=
  match n with
  | O => mret true
  | S n =>
      v ← PULSE_COUNTER_mReadReg baseaddr (i * 4);
      if negb (v =? (i + 1) * READ_WRITE_MUL_FACTOR) then
        bdo_ (B_print "Error reading register value at address") ;; bdo_ (B_print_num (baseaddr + i * 4)) ;; mret false
      else read_back n (i + 1) baseaddr
  end.

(* @src src/vivado/ip_repo/ip-pulse-counter-saxi/drivers/pulse_counter_v1_0/src/pulse_counter_selftest.c:31-60 PULSE_COUNTER_Reg_SelfTest *)
Definition PULSE_COUNTER_Reg_SelfTest (baseaddr_p : Z) : M (bst D) Z :=
  let baseaddr := u32 baseaddr_p in
  bdo_ (B_print "* User Peripheral Self Test") ;;
  bdo_ (B_print "User logic slave module test...") ;;
  for_up 4 0 (fun i => PULSE_COUNTER_mWriteReg baseaddr (i * 4) ((i + 1) * READ_WRITE_MUL_FACTOR)) ;;
  ok ← read_back 4 0 baseaddr;
  if negb ok then mret FAILURE
  else bdo_ (B_print "   - slave register write/read passed") ;; mret OK.
End Code.

(** ** Memory that keeps what is stored; the DMA copies at once *)
Definition ex_bram : Z := 0xC0000000.
Definition ex_mem (c : bcall) (d : gmap Z Z) : Z * gmap Z Z :=
  match c with
  | B_store8 p v | B_Out32 p v => (0, <[p := v]> d)
  | B_load8 p | B_In32 p => (default 0 (d !! p), d)
  | B_DmaLookup _ => (1, d)
  | B_SimpleTransfer p n true =>
      (0, foldl (fun d i => <[p + 0x2000 + i := default 0 (d !! (p + i))]> d) d (seqZ 0 n))
  | _ => (0, d)
  end.
#[export] Instance ex_bare : Bare (gmap Z Z) := ex_mem.

Example ex_selftest : (PULSE_COUNTER_Reg_SelfTest 0x43c00000 (Build_bst ∅ [])).1 = OK.
Proof. done. Qed.
Example ex_count : (count_errors ex_bram 3 0 0 (Build_bst (<[ex_bram := 1]> ∅) [])).1 = 1.
Proof. done. Qed.
